(* ===== verification/_CoqProject ===== *)
-Q . S2P
Prelude.v
GoHeap.v
DeepCopy.v
Condition.v
Api.v
Libs.v
Reference.v
Webhooks.v
CeilometerPkg.v
AutoscalingPkg.v
MetricStoragePkg.v
Address.v
Operator.v
Telemetry.v
TelemetryScenarios.v
TelemetrySystem.v
TelemetryStore.v
MetricStorageController.v
MetricStorageScenarios.v
CeilometerController.v
CeilometerScenarios.v
LoggingController.v
AutoscalingController.v
AutoscalingFacts.v
AodhFacts.v
AutoscalingScenarios.v
Main.v
Passes.v
TelemetryFaults.v
CeilometerSystem.v
AutoscalingSystem.v
MetricStorageSystem.v
LoggingSystem.v
ChildControllers.v
OperatorSystem.v
OperatorRecovery.v
Deletion.v
