(* ===== verification/Prelude.v ===== *)
(** * The telemetry operator: a verification development

    The program is a Kubernetes operator in Go.  It keeps five kinds of
    custom resources (Telemetry, Ceilometer, Autoscaling, MetricStorage,
    Logging) in line with their specs: a controller per kind has a [Reconcile]
    function that reads the object, creates or patches what the spec asks for
    through the API server, records what happened in the conditions of the
    status, and patches the status in a deferred function.  The Telemetry
    controller creates a Ceilometer, an Autoscaling and a MetricStorage, and
    reflects their readiness; webhooks fill in the defaults of the specs.

    ** How the code is modelled

    A handler of the code is a program [M E S A]: it reads and changes the
    object [instance] points to (the state [S]), performs external calls [E]
    (API server, lib-common, other operators, the order in which Go visits a
    map) and returns or panics.  A program is a finite tree of calls: each call
    may be answered by any value of its type, so the theorems hold for every
    behaviour of the outside; where a theorem needs more, it is a named
    contract on the answers ([keeps]).  [runs p tr a] says that [p] can end
    with [a] after the calls [tr]; [interp] runs a program against a concrete
    world.  Because the trees are well founded, every pass ends ([runs_total]);
    no fuel is needed.  The only bounded recursion is the parser of IPv6
    addresses, whose bound of eight groups is the one of [net.ParseIP].

    [Safe] (no panic, an invariant, a predicate on the calls), [Hist] and
    [HistTo] (a relation between the calls made so far and the state) are the
    invariants that are proved through a handler, with the tactics [safe],
    [hist] and [histTo]; [wpm] runs a handler symbolically.  [execM] runs it
    against one world, for theorems that a result is reached; [alwaysM] against
    a world in which calls may fail and the process may stop, for invariants of
    the stored objects.

    Code of other modules is not modelled: it is a class of operations with a
    class of the documented laws the theorems use ([ConditionLib] and
    [ConditionLaws], [FinalizerLib], [CommonLib], [ServiceLib], [ApiServer] and
    [ApiLaws], [ExternalTypes]).  Each has an instance, on which the witnesses
    are evaluated, most of them in Reference.v.

    ** Files

    - Prelude.v: Go values, integers, strings; programs, handlers, their logic.
    - GoHeap.v: Go values in memory, the statements of generated code, what a
      deep copy is.  DeepCopy.v: api/v1beta1/zz_generated.deepcopy.go.
    - Condition.v: conditions of lib-common and [updateReady], the update of
      Ready in the deferred function of the [Reconcile] functions.
    - Api.v: api/v1beta1/*_types.go and conditions.go, a record per struct.
    - Libs.v: interfaces and types of other modules.  Reference.v: instances.
    - Webhooks.v: api/v1beta1/*_webhook.go and the [SetupDefaults*] functions
      that main.go calls.  Main.v: main.go, and what the [SetupWithManager]
      functions of the controllers register.
    - CeilometerPkg.v, AutoscalingPkg.v, MetricStoragePkg.v: pkg/ceilometer,
      pkg/autoscaling, pkg/metricstorage, the builders of the deployed objects.
    - Address.v: [isValidDomain] of the MetricStorage controller, and what the
      controller uses of the Go standard library for host names: the matching
      of regular expressions and [net.ParseIP].
    - Operator.v: the steps the [Reconcile] functions share.
    - Telemetry.v: controllers/telemetry_controller.go.
    - MetricStorageController.v: controllers/metricstorage_controller.go, with
      the list of watches the reconciler keeps between passes.
    - CeilometerController.v: controllers/ceilometer_controller.go and
      pkg/ceilometer/service.go.
    - LoggingController.v: controllers/logging_controller.go and pkg/logging.
    - AutoscalingController.v: controllers/autoscaling_controller.go and
      controllers/aodh_controller.go; AutoscalingFacts.v, AodhFacts.v: what one
      pass does.
    - TelemetrySystem.v: a Telemetry and its children over several passes, with
      the API server as the class [ApiServer]; TelemetryStore.v: an instance.
    - Passes.v: what the [Reconcile] functions have in common as the class
      [Controller], sequences of passes, and how convergence is proved.
    - CeilometerSystem.v, AutoscalingSystem.v, MetricStorageSystem.v,
      LoggingSystem.v: an object over several passes of its controller.
    - TelemetryFaults.v: what a pass over a Telemetry can leave when its calls
      fail, before or after they took effect, or the operator is stopped.
    - ChildControllers.v: what the composition needs of the controllers of the
      children, as the interface [ChildControllers] with [ChildLaws], which the
      three controllers implement.
    - OperatorSystem.v: a Telemetry, its children and all their controllers in
      any interleaving.  OperatorRecovery.v: with edits of the spec, deletions
      and faults in all controllers.
    - Deletion.v: the five kinds while they are being deleted.
    - TelemetryScenarios.v, MetricStorageScenarios.v, CeilometerScenarios.v,
      AutoscalingScenarios.v: concrete API servers, on which the theorems are
      applied.

    In each controller [CallE] lists the external calls, [reconcileBody] is the
    part of [Reconcile] after the deferred function is set up, and a long Go
    function is split at the points its doc comments name; the state is the
    Go struct, with the reconciler's own fields where it has any.

    ** Several passes

    A pass starts from the object the one before has stored.  Two kinds of
    environments occur.  In an unsettled one anything may be answered: calls
    fail, handlers panic, a patch may be lost or, although reported as failed,
    stored, the operator may be restarted; all that is assumed is that the rbac
    library reports the conditions of its own objects ([unsettledEnv],
    [disturbed]), and of the API server that a call of the Telemetry controller
    has its effect once or not at all ([faulty]).  In a settled one no call fails
    and the answers that go into the generated configuration stay the same
    ([Env], [settledEnv]); what the
    environment may still choose (generated metadata, the order of the
    endpoints, ready counts) stays open.  Where several controllers run, a pass is
    one step: passes follow each other in any order but do not overlap.
    Convergence is proved with an
    invariant that every pass in either environment keeps, and a number
    [passesLeft] that every pass in the settled one decreases; at 0 a pass is a
    good one ([approaches], [passes_converge]).  The bounds are sharp for a
    fresh object: one pass adds the finalizer (its deferred function then writes
    conditions, so that the pass that would initialise them never happens), one
    records the hash of the inputs, and for an Autoscaling two more have the
    wrong database host in the configuration.

    ** What is proved

    - Persistence of the status (C1, C27, C30, C35, C36): a pass that has read
      its object and created its helper ends without a panic with exactly one
      patch, its last call, in which Ready is True only if all other conditions
      are; whether an error of the patch is returned (C1, C30, C35) or lost
      (C27, C36).
    - One pass over a Telemetry (C2, C11, C12, C17): Ready if and only if the
      enabled children are ready; writes and deletions follow the spec; an error
      stops the pass; a custom stack that was removed from the spec stays.
    - Deletion (C13, C34, C39): in all five kinds at most two passes without
      failing calls take the operator's finalizer off, and only it; a Ceilometer
      or Autoscaling gives it up only after what it has registered elsewhere.
    - A Telemetry and its children (C3, C4, C10, C14): the Telemetry controller
      with the webhooks of the children over an API server that keeps its
      promises.  A pass refines an abstract specification of the children and of
      the status; from any state two passes reach it, whatever happens between
      them; from then on passes change nothing.  A pass whose calls fail or
      which is cut off leaves each child as it was or as the specification wants
      it, and touches nothing else.
    - The whole operator (C5): after any number of passes in an unsettled
      environment, edits of the spec and deletions of children, a Telemetry
      becomes Ready, with the children its current spec asks for, under any
      interleaving of the passes of its controller and of those of its children.
      What is assumed: the children belong to nobody else and have conditions of
      their kind; when the storm is over, the spec enables a child, an override
      of the Autoscaling service has labels or annotations, no enabled child is
      waiting for its deletion and no Autoscaling has InputReady recorded (C37
      shows that it would never be Ready again); the environment is settled then
      and lets the children be deployed.
    - Convergence of each kind (C6-C9): after any number of passes in an
      unsettled environment, a bounded number of passes in a settled one leads
      to passes that write exactly the deployment the spec asks for and report
      Ready.  For an Autoscaling the exception is a recorded InputReady; by C37
      it never becomes Ready again.
    - Process (C15): the operator is started completely or not at all, with the
      groups, controllers, webhooks and probes that are listed in the statement.
    - Memory (C16): the generated deep copies share nothing with the original.
    - Defaults and builders (C18-C22): webhooks are idempotent, fill in the
      documented values and agree with each other; the StatefulSets, the job and
      the MonitoringStack are well formed, and the StatefulSets carry the
      configuration hash.
    - Addresses and MetricStorage (C23-C29): which host names count as addresses,
      by their letters; the scrape targets, with and without IPSets; watches are
      added once over all passes; what a complete pass deploys.
    - Ceilometer and Logging (C31-C33, C35): when the code panics; no StatefulSet
      or Service is written for inputs that are not recorded; Ready before
      anything is deployed.
    - Autoscaling (C37, C38, C40): a missing secret is never forgiven; Aodh is
      deployed only after its database; both endpoints are published in any
      order.
    - Further theorems without a number: the installation of a fresh Telemetry
      step by step ([operator_installs]); a Telemetry being deleted touches no
      child; the first pass skips the initialisation of the conditions; a node
      without an address hides others; the target of an address with colons is
      ambiguous; the Service of a deleted Logging stays;
      errors of the sync job are dropped; the
      configuration is written before the database host is known; the watches of
      the Ceilometer and Autoscaling controllers; the password of the sync job;
      the node exporter image of a standalone Ceilometer.

    ** What is not modelled

    Log output and the fields of the reconcilers that only hold clients and
    schemes, the parsing of command line flags (one call that answers their
    values), and the manifests, templates and scripts.  The values a template is
    rendered with are modelled, its text is not.  Code outside the repository is
    not given a definition; of the Go standard library there is what the code
    uses.  In the controllers a copy of a value is the value:
    that this is right, as far as the generated functions go, is C16.
*)

From stdpp Require Import gmap strings list.
From Stdlib Require Import ZArith Lia.

#[global] Open Scope string_scope.
#[global] Open Scope list_scope.

(** ** Go values shared by all components *)

(** An [error] value: what the code observes of it is [k8s_errors.IsNotFound]
    and [Error()]. *)
Record GoError := MkError { err_notFound : bool; err_text : string }.

(** [k8s_errors.IsNotFound(err)]; a nil error is not a NotFound. *)
Definition IsNotFound (e : option GoError) : bool :=
  match e with Some e => err_notFound e | None => false end.

(** [fmt.Errorf(text)] without a wrapped error. *)
Definition Errorf (text : string) : GoError := MkError false text.

(** [fmt.Errorf("...%w", err)]: the wrapped error stays visible to
    [errors.As], which [IsNotFound] goes through. *)
Definition Wrapf (text : string) (e : GoError) : GoError :=
  MkError (err_notFound e) (text +:+ err_text e).

(** [time.Duration(n) * time.Second], in nanoseconds. *)
Definition seconds (n : Z) : Z := (n * 1000000000)%Z.

(** [ctrl.Result]. *)
Record Result := MkResult { Requeue : bool; RequeueAfter : Z }.

Definition emptyResult : Result := MkResult false 0.
Definition requeueAfter (d : Z) : Result := MkResult false d.

#[global] Instance GoError_eq_dec : EqDecision GoError.
Proof. solve_decision. Defined.
#[global] Instance Result_eq_dec : EqDecision Result.
Proof. solve_decision. Defined.

(** The test [ctrlResult != ctrl.Result{}]. *)
Definition nonEmpty (r : Result) : bool := negb (bool_decide (r = emptyResult)).

(** The pair [(ctrl.Result, error)] that every handler returns. *)
Abbreviation RE := (Result * option GoError)%type.

Record NamespacedName := MkKey { key_Namespace : string; key_Name : string }.

#[global] Instance NamespacedName_eq_dec : EqDecision NamespacedName.
Proof. solve_decision. Defined.

(** Conversion to [int32]: the low 32 bits, read as a signed number. *)
Definition int32 (z : Z) : Z :=
  let m := (z mod 2 ^ 32)%Z in if (m <? 2 ^ 31)%Z then m else (m - 2 ^ 32)%Z.

(** Conversion keeps the numbers that fit. *)
Lemma int32_small z : (- 2 ^ 31 <= z < 2 ^ 31)%Z -> int32 z = z.
Proof.
  intros Hz. unfold int32. destruct (Z.ltb_spec (z mod 2 ^ 32) (2 ^ 31)) as [H|H].
  - destruct (decide (0 <= z)%Z); [by apply Z.mod_small; lia|].
    rewrite <-(Z.mod_add z 1), Z.mod_small in H by lia. lia.
  - destruct (decide (0 <= z)%Z); [rewrite Z.mod_small in H by lia; lia|].
    rewrite <-(Z.mod_add z 1), Z.mod_small by lia. lia.
Qed.

(** Decimal rendering of an integer, the ["%d"] verb. *)
Definition itoa (z : Z) : string := pretty.pretty z.

(** A text between double quotes. *)
Definition quoted (s : string) : string :=
  let q := String (Ascii.ascii_of_nat 34) EmptyString in q +:+ s +:+ q.

(** Strings with a common suffix. *)
Lemma append_cancel_r (s t u : string) : s +:+ u = t +:+ u -> s = t.
Proof.
  intros H. apply (f_equal String.list_ascii_of_string) in H.
  assert (forall a b, String.list_ascii_of_string (a +:+ b) =
    String.list_ascii_of_string a ++ String.list_ascii_of_string b) as Happ.
  { intros a b. induction a as [|c a IH]; simpl; [done|]. by rewrite IH. }
  rewrite !Happ in H. apply app_inv_tail in H.
  by rewrite <-(String.string_of_list_ascii_of_string s), H, String.string_of_list_ascii_of_string.
Qed.

(** Observing nothing in a list. *)
Lemma omap_None {A B} (f : A -> option B) l : Forall (fun x => f x = None) l -> omap f l = [].
Proof. induction 1 as [|x l Hx Hl IH]; simpl; [done|]. by rewrite Hx. Qed.

Lemma omap_fmap_Some {A B} (f : B -> option A) (g : A -> B) (l : list A) :
  (forall x, f (g x) = Some x) -> omap f (g <$> l) = l.
Proof. intros H. induction l as [|x l IH]; [done|]. cbn. rewrite H. by f_equal. Qed.

Lemma omap_fmap_None {A B C} (f : B -> option C) (g : A -> B) (l : list A) :
  (forall x, f (g x) = None) -> omap f (g <$> l) = [].
Proof. intros H. induction l as [|x l IH]; [done|]. cbn. by rewrite H. Qed.

(** ** Programs that call code outside the repository

    A program is a tree of uninterpreted external calls: [Vis e k] performs
    the call [e : E X] and continues with whatever answer [x : X] the outside
    world gives.  Nothing is assumed about the answers unless a theorem says
    so with a contract. *)
Inductive prog (E : Type -> Type) (A : Type) : Type :=
| Ret (a : A)
| Vis (X : Type) (e : E X) (k : X -> prog E A).
Arguments Ret {E A} a.
Arguments Vis {E A X} e k.

Inductive event (E : Type -> Type) : Type :=
| Ev (X : Type) (e : E X) (x : X).
Arguments Ev {E X} e x.

(** A contract says which answers a call may give. *)
Definition contract (E : Type -> Type) := forall X, E X -> X -> Prop.

Definition anyAnswer {E} : contract E := fun _ _ _ => True.

Definition keeps {E} (ok : contract E) (ev : event E) : Prop :=
  match ev with Ev e x => ok _ e x end.

Section Programs.
Context {E : Type -> Type}.

Fixpoint pbind {A B} (p : prog E A) (f : A -> prog E B) : prog E B :=
  match p with
  | Ret a => f a
  | Vis e k => Vis e (fun x => pbind (k x) f)
  end.

(** [runs p tr a]: some behaviour of the outside world makes [p] perform
    exactly the calls of [tr], with their answers, and return [a]. *)
Fixpoint runs {A} (p : prog E A) (tr : list (event E)) (a : A) : Prop :=
  match p with
  | Ret b => tr = [] /\ a = b
  | Vis e k => exists x tr', tr = Ev e x :: tr' /\ runs (k x) tr' a
  end.

(** Weakest precondition over the trace and the result. *)
Fixpoint wp {A} (ok : contract E) (p : prog E A) (Q : list (event E) -> A -> Prop) : Prop :=
  match p with
  | Ret a => Q [] a
  | Vis e k => forall x, ok _ e x -> wp ok (k x) (fun tr a => Q (Ev e x :: tr) a)
  end.

(** Execution under a concrete world [W]: each call is answered by [h]. *)
Fixpoint interp {A W} (h : forall X, E X -> W -> X * W) (p : prog E A) (w : W)
    : list (event E) * A * W :=
  match p with
  | Ret a => ([], a, w)
  | Vis e k =>
      let '(x, w') := h _ e w in
      let '(tr, a, w'') := interp h (k x) w' in
      (Ev e x :: tr, a, w'')
  end.

(** *** The logic is sound and complete for [runs] *)

Lemma wp_runs {A} ok (p : prog E A) Q :
  wp ok p Q <-> (forall tr a, runs p tr a -> Forall (keeps ok) tr -> Q tr a).
Proof.
  revert Q. induction p as [a|X e k IH]; intros Q; simpl.
  - split; [intros HQ tr b [-> ->] _; exact HQ | intros H; by apply H].
  - split.
    + intros H tr a (x & tr' & -> & Hr) HF. inversion HF as [|? ? Hok HF']; subst.
      exact (proj1 (IH x _) (H x Hok) tr' a Hr HF').
    + intros H x Hok. apply IH. intros tr a Hr HF.
      apply H; [eauto | by constructor].
Qed.

Lemma wp_mono {A} ok (p : prog E A) (Q Q' : list (event E) -> A -> Prop) :
  (forall tr a, Q tr a -> Q' tr a) -> wp ok p Q -> wp ok p Q'.
Proof.
  revert Q Q'. induction p as [a|X e k IH]; simpl; intros Q Q' HQ H; [by apply HQ|].
  intros x Hx. eapply IH; [|exact (H x Hx)]. simpl. intros. by apply HQ.
Qed.

Lemma wp_strengthen {A} (ok ok' : contract E) (p : prog E A) Q :
  (forall X (e : E X) x, ok' _ e x -> ok _ e x) -> wp ok p Q -> wp ok' p Q.
Proof.
  intros Hok. revert Q. induction p as [a|X e k IH]; simpl; intros Q H; [done|].
  intros x Hx. apply IH, H, Hok, Hx.
Qed.

Lemma wp_bind {A B} ok (p : prog E A) (f : A -> prog E B) Q :
  wp ok (pbind p f) Q <->
  wp ok p (fun tr a => wp ok (f a) (fun tr' b => Q (tr ++ tr') b)).
Proof.
  revert Q. induction p as [a|X e k IH]; simpl; intros Q; [done|].
  split; intros H x Hx; specialize (H x Hx).
  - exact (proj1 (IH x (fun tr b => Q (Ev e x :: tr) b)) H).
  - exact (proj2 (IH x (fun tr b => Q (Ev e x :: tr) b)) H).
Qed.

Lemma wp_and {A} ok (p : prog E A) Q Q' :
  wp ok p Q -> wp ok p Q' -> wp ok p (fun tr a => Q tr a /\ Q' tr a).
Proof.
  revert Q Q'. induction p as [a|X e k IH]; simpl; intros Q Q' H H'; [done|].
  intros x Hx. by apply IH; [apply H|apply H'].
Qed.

(** An interpretation is one of the runs. *)
Lemma interp_runs {A W} (h : forall X, E X -> W -> X * W) (p : prog E A) w tr a w' :
  interp h p w = (tr, a, w') -> runs p tr a.
Proof.
  revert w tr a w'. induction p as [b|X e k IH]; simpl; intros w tr a w' H.
  - by simplify_eq.
  - destruct (h X e w) as [x w1] eqn:Hh. destruct (interp h (k x) w1) as [[tr1 a1] w2] eqn:Hi.
    simplify_eq. eauto.
Qed.

(** What the logic proves may speak of the run itself. *)
Lemma wp_self {A} ok (p : prog E A) : wp ok p (runs p).
Proof. apply wp_runs. auto. Qed.

(** A world that keeps a contract does so throughout an interpretation. *)
Lemma interp_keeps {A W} (ok : contract E) (h : forall X, E X -> W -> X * W) (p : prog E A) w :
  (forall X (e : E X) w, ok _ e (h X e w).1) -> Forall (keeps ok) (interp h p w).1.1.
Proof.
  intros Hok. revert w. induction p as [b|X e k IH]; simpl; intros w; [constructor|].
  specialize (Hok X e w). destruct (h X e w) as [x w1]. specialize (IH x w1).
  destruct (interp h (k x) w1) as [[tr a] w2]. by constructor.
Qed.

(** Every world gives some run: programs terminate. *)
Lemma runs_total {A W} (h : forall X, E X -> W -> X * W) (p : prog E A) (w : W) :
  exists tr a, runs p tr a.
Proof.
  destruct (interp h p w) as [[tr a] w'] eqn:H. exists tr, a. by eapply interp_runs.
Qed.
End Programs.

(** ** Handlers: mutable state, panics and deferred functions *)

(** Outcome of a Go function body: a value, or a run-time panic. *)
Inductive outcome (A : Type) : Type :=
| Val (a : A)
| Panicked (why : string).
Arguments Val {A} a.
Arguments Panicked {A} why.

(** A handler over the mutable state [S] (the object [instance] points to). *)
Definition M (E : Type -> Type) (S A : Type) := S -> prog E (S * outcome A).

Section Handlers.
Context {E : Type -> Type} {S : Type}.

Definition ret {A} (a : A) : M E S A := fun s => Ret (s, Val a).
Definition mbindM {A B} (m : M E S A) (f : A -> M E S B) : M E S B :=
  fun s => pbind (m s) (fun '(s', o) =>
    match o with Val a => f a s' | Panicked w => Ret (s', Panicked w) end).
Definition call {X} (e : E X) : M E S X := fun s => Vis e (fun x => Ret (s, Val x)).
Definition get : M E S S := fun s => Ret (s, Val s).
Definition modify (f : S -> S) : M E S unit := fun s => Ret (f s, Val tt).
Definition panic {A} (why : string) : M E S A := fun s => Ret (s, Panicked why).

(** [defer]: [d] runs when [body] returns or panics; it sees the results and
    may replace them (named results); a panic goes on after it. *)
Definition withDefer {A} (body : M E S A) (d : M E S (A -> A)) : M E S A :=
  fun s => pbind (body s) (fun '(s', o) =>
    pbind (d s') (fun '(s'', od) =>
      Ret (s'', match od with
                | Val f => match o with Val a => Val (f a) | Panicked w => Panicked w end
                | Panicked w => Panicked w
                end))).
End Handlers.

Declare Scope go_scope.
Delimit Scope go_scope with go.
Notation "'let*' x := m 'in' k" := (mbindM m (fun x => k))
  (at level 10, x name, m at level 100, k at level 200) : go_scope.
Notation "'let*' ' x := m 'in' k" := (mbindM m (fun x => k))
  (at level 10, x strict pattern, m at level 100, k at level 200) : go_scope.
Notation "m ;;; k" := (mbindM m (fun _ => k))
  (at level 150, right associativity) : go_scope.

(** The logic at handler level. *)
Definition wpM {E S A} (ok : contract E) (m : M E S A) (s : S)
    (Q : list (event E) -> S -> outcome A -> Prop) : Prop :=
  wp ok (m s) (fun tr '(s', o) => Q tr s' o).

Section HandlerLogic.
Context {E : Type -> Type} {S : Type} (ok : contract E).

Lemma wpM_bind {A B} (m : M E S A) (f : A -> M E S B) s Q :
  wpM ok (mbindM m f) s Q <->
  wpM ok m s (fun tr s' o =>
    match o with
    | Val a => wpM ok (f a) s' (fun tr' s'' o' => Q (tr ++ tr') s'' o')
    | Panicked w => Q tr s' (Panicked w)
    end).
Proof.
  unfold wpM, mbindM. rewrite wp_bind. split; apply wp_mono; intros tr [s' [a|w]];
    simpl; try done; by rewrite app_nil_r.
Qed.

Lemma wpM_mono {A} (m : M E S A) s (Q Q' : list (event E) -> S -> outcome A -> Prop) :
  (forall tr s' o, Q tr s' o -> Q' tr s' o) -> wpM ok m s Q -> wpM ok m s Q'.
Proof. intros H. apply wp_mono. intros tr [s' o]. apply H. Qed.

Lemma wpM_ret {A} (a : A) (s : S) Q : wpM ok (ret a) s Q <-> Q [] s (Val a).
Proof. done. Qed.
Lemma wpM_get (s : S) Q : wpM ok get s Q <-> Q [] s (Val s).
Proof. done. Qed.
Lemma wpM_modify (f : S -> S) (s : S) Q : wpM ok (modify f) s Q <-> Q [] (f s) (Val tt).
Proof. done. Qed.
Lemma wpM_panic {A} w (s : S) Q : wpM ok (panic (A:=A) w) s Q <-> Q [] s (Panicked w).
Proof. done. Qed.
Lemma wpM_call {X} (e : E X) (s : S) Q :
  wpM ok (call e) s Q <-> forall x, ok _ e x -> Q [Ev e x] s (Val x).
Proof. done. Qed.
Lemma wpM_assoc {A B C} (m : M E S A) (f : A -> M E S B) (g : B -> M E S C) (s : S) Q :
  wpM ok (mbindM m (fun x => mbindM (f x) g)) s Q -> wpM ok (mbindM (mbindM m f) g) s Q.
Proof.
  rewrite !wpM_bind. apply wpM_mono. intros tr s' [a|w]; [|done].
  rewrite wpM_bind. apply wpM_mono. intros tr' s'' [b|w]; [|done].
  apply wpM_mono. intros tr'' s3 o. by rewrite app_assoc.
Qed.

Lemma wpM_self {A} (m : M E S A) (s : S) : wpM ok m s (fun tr s' o => runs (m s) tr (s', o)).
Proof. eapply wp_mono; [|apply wp_self]. by intros tr [s' o]. Qed.

Lemma wpM_and {A} (m : M E S A) (s : S) Q Q' :
  wpM ok m s Q -> wpM ok m s Q' -> wpM ok m s (fun tr s' o => Q tr s' o /\ Q' tr s' o).
Proof.
  intros H H'. eapply wp_mono; [|exact (wp_and _ _ _ _ H H')]. by intros tr [s' o].
Qed.

Lemma wpM_defer {A} (body : M E S A) (d : M E S (A -> A)) (s : S) Q :
  wpM ok (withDefer body d) s Q <->
  wpM ok body s (fun tr s' o => wpM ok d s' (fun tr' s'' od =>
    Q (tr ++ tr') s''
      (match od with
       | Val f => match o with Val a => Val (f a) | Panicked w => Panicked w end
       | Panicked w => Panicked w
       end))).
Proof.
  unfold wpM, withDefer. rewrite wp_bind.
  split; apply wp_mono; intros tr [s' o]; rewrite wp_bind; apply wp_mono;
    intros tr' [s'' od]; simpl; by rewrite app_nil_r.
Qed.
End HandlerLogic.

(** *** Invariants through a handler

    [Safe ok I P m]: started in a state satisfying [I], with answers that keep
    the contract [ok], the handler [m] returns without a panic, performs only
    calls satisfying [P] and ends in a state satisfying [I]. *)
Definition Safe {E S A} (ok : contract E) (I : S -> Prop) (P : event E -> Prop)
    (m : M E S A) : Prop :=
  forall s, I s -> wpM ok m s (fun tr s' o => I s' /\ Forall P tr /\ exists a, o = Val a).

Create HintDb safe discriminated.

Section SafeRules.
Context {E : Type -> Type} {S : Type} (ok : contract E) (I : S -> Prop) (P : event E -> Prop).

Lemma Safe_ret {A} (a : A) : Safe ok I P (ret a).
Proof. intros s Hs. apply wpM_ret. eauto. Qed.

Lemma Safe_bind {A B} (m : M E S A) (f : A -> M E S B) :
  Safe ok I P m -> (forall a, Safe ok I P (f a)) -> Safe ok I P (mbindM m f).
Proof.
  intros Hm Hf s Hs. apply wpM_bind. eapply wpM_mono; [|exact (Hm s Hs)].
  intros tr s' o (HI & HP & a & ->). eapply wpM_mono; [|exact (Hf a s' HI)].
  intros tr' s'' o' (HI' & HP' & Ho). split_and!; [done|by apply Forall_app|done].
Qed.

Lemma Safe_get_bind {B} (f : S -> M E S B) :
  (forall s, I s -> Safe ok I P (f s)) -> Safe ok I P (mbindM get f).
Proof. intros Hf s Hs. apply wpM_bind, wpM_get. exact (Hf s Hs s Hs). Qed.

Lemma Safe_modify (f : S -> S) : (forall s, I s -> I (f s)) -> Safe ok I P (modify f).
Proof. intros Hf s Hs. apply wpM_modify. eauto. Qed.

Lemma Safe_call {X} (e : E X) : (forall x, ok _ e x -> P (Ev e x)) -> Safe ok I P (call e).
Proof.
  intros He s Hs. apply wpM_call. intros x Hx.
  split_and!; [done|by repeat constructor; auto|eauto].
Qed.

Lemma Safe_call_bind {X B} (e : E X) (f : X -> M E S B) :
  (forall x, ok _ e x -> P (Ev e x)) -> (forall x, ok _ e x -> Safe ok I P (f x)) ->
  Safe ok I P (mbindM (call e) f).
Proof.
  intros He Hf s Hs. apply wpM_bind, wpM_call. intros x Hx.
  eapply wpM_mono; [|exact (Hf x Hx s Hs)].
  intros tr' s'' o' (HI' & HP' & Ho). split_and!; [done|by constructor; auto|done].
Qed.

(** Rules that follow the value: one path at a time. *)
Lemma Safe_assoc {A B D} (m : M E S A) (f : A -> M E S B) (g : B -> M E S D) :
  Safe ok I P (mbindM m (fun x => mbindM (f x) g)) -> Safe ok I P (mbindM (mbindM m f) g).
Proof. intros H s Hs. apply wpM_assoc, H, Hs. Qed.

Lemma Safe_ret_bind {A B} (a : A) (f : A -> M E S B) :
  Safe ok I P (f a) -> Safe ok I P (mbindM (ret a) f).
Proof. intros H s Hs. apply wpM_bind, wpM_ret. exact (H s Hs). Qed.
End SafeRules.

(** *** Invariants on the history

    [Hist ok R m]: [R] relates the calls made so far to the state; [m] keeps
    it, whether it returns or panics. *)
Definition Hist {E S A} (ok : contract E) (R : list (event E) -> S -> Prop) (m : M E S A) : Prop :=
  forall h s, R h s -> wpM ok m s (fun tr s' _ => R (h ++ tr) s').

Section HistRules.
Context {E : Type -> Type} {S : Type} (ok : contract E) (R : list (event E) -> S -> Prop).

Lemma Hist_ret {A} (a : A) : Hist ok R (ret a).
Proof. intros h s Hs. apply wpM_ret. by rewrite app_nil_r. Qed.

Lemma Hist_bind {A B} (m : M E S A) (f : A -> M E S B) :
  Hist ok R m -> (forall a, Hist ok R (f a)) -> Hist ok R (mbindM m f).
Proof.
  intros Hm Hf h s Hs. apply wpM_bind. eapply wpM_mono; [|exact (Hm h s Hs)].
  intros tr s' [a|w] HR; [|done]. eapply wpM_mono; [|exact (Hf a _ s' HR)].
  intros tr' s'' o'. by rewrite app_assoc.
Qed.

Lemma Hist_get : Hist ok R get.
Proof. intros h s Hs. apply wpM_get. by rewrite app_nil_r. Qed.

Lemma Hist_get_bind {B} (f : S -> M E S B) :
  (forall s, Hist ok R (f s)) -> Hist ok R (mbindM get f).
Proof. intros Hf h s Hs. apply wpM_bind, wpM_get. exact (Hf s h s Hs). Qed.

(** Sequencing where what follows depends on the value. *)
Lemma Hist_wp {A B} (m : M E S A) (f : A -> M E S B) h s Q :
  Hist ok R m -> R h s ->
  (forall tr s' w, R (h ++ tr) s' -> Q tr s' (Panicked w)) ->
  (forall a tr s', R (h ++ tr) s' -> wpM ok (f a) s' (fun tr' => Q (tr ++ tr'))) ->
  wpM ok (mbindM m f) s Q.
Proof.
  intros Hm Hs Hp Hf. apply wpM_bind. eapply wpM_mono; [|exact (Hm h s Hs)].
  intros tr s' [a|w] HR; auto.
Qed.

Lemma Hist_modify (f : S -> S) : (forall h s, R h s -> R h (f s)) -> Hist ok R (modify f).
Proof. intros Hf h s Hs. apply wpM_modify. rewrite app_nil_r. auto. Qed.

Lemma Hist_panic {A} w : Hist ok R (panic (A:=A) w).
Proof. intros h s Hs. apply wpM_panic. by rewrite app_nil_r. Qed.

Lemma Hist_call {X} (e : E X) :
  (forall h s x, R h s -> ok _ e x -> R (h ++ [Ev e x]) s) -> Hist ok R (call e).
Proof. intros He h s Hs. apply wpM_call. auto. Qed.

(** The answer is known to what follows the call. *)
Lemma Hist_call_bind {X B} (e : E X) (f : X -> M E S B) :
  (forall h s x, R h s -> ok _ e x -> R (h ++ [Ev e x]) s) ->
  (forall x, ok _ e x -> Hist ok R (f x)) -> Hist ok R (mbindM (call e) f).
Proof.
  intros He Hf h s Hs. apply wpM_bind, wpM_call. intros x Hx.
  eapply wpM_mono; [|exact (Hf x Hx _ s (He h s x Hs Hx))]. intros tr s' o.
  by rewrite app_assoc.
Qed.

(** From one relation to a weaker one, which holds at every exit. *)
Definition HistTo {A} (R' : list (event E) -> S -> Prop) (m : M E S A) : Prop :=
  forall h s, R h s -> wpM ok m s (fun tr s' _ => R' (h ++ tr) s').

Context (R' : list (event E) -> S -> Prop) (Hweak : forall h s, R h s -> R' h s).

Lemma HistTo_hist {A} (m : M E S A) : Hist ok R m -> HistTo R' m.
Proof. intros H h s Hs. eapply wpM_mono; [|exact (H h s Hs)]. auto. Qed.

Lemma HistTo_bind {A B} (m : M E S A) (f : A -> M E S B) :
  Hist ok R m -> (forall a, HistTo R' (f a)) -> HistTo R' (mbindM m f).
Proof.
  intros Hm Hf h s Hs. apply (Hist_wp m f h s); [done|done|auto|].
  intros a tr s' HR. eapply wpM_mono; [|exact (Hf a _ s' HR)]. intros tr' s'' o. by rewrite app_assoc.
Qed.

Lemma HistTo_get_bind {B} (f : S -> M E S B) :
  (forall s, HistTo R' (f s)) -> HistTo R' (mbindM get f).
Proof. intros Hf h s Hs. apply wpM_bind, wpM_get. exact (Hf s h s Hs). Qed.
End HistRules.

#[export] Hint Resolve Safe_ret Hist_ret Hist_get Hist_panic : safe.

(** Splits a handler into its calls and branches; [safe_hook] is for the
    handlers other files add. *)
Ltac safe_hook := fail.
Ltac safe_step :=
  lazymatch goal with
  | |- Safe _ _ _ (mbindM get _) => apply Safe_get_bind; intros
  | |- Safe _ _ _ (mbindM (call _) _) => apply Safe_call_bind; intros
  | |- Safe _ _ _ (mbindM _ _) => apply Safe_bind; [|intros]
  | |- Safe _ _ _ (ret _) => apply Safe_ret
  | |- Safe _ _ _ (modify _) => apply Safe_modify; intros
  | |- Safe _ _ _ (call _) => apply Safe_call; intros
  | |- Safe _ _ _ (match ?x with _ => _ end) => destruct x eqn:?
  | |- Safe _ _ _ (let _ := _ in _) => cbv zeta
  | |- _ => safe_hook
  end.
Ltac safe := repeat (first [progress (auto with safe) | safe_step]).

(** The same, one path at a time: an answer is known to what follows it. *)
Ltac safe_path_step :=
  lazymatch goal with
  | |- Safe _ _ _ (mbindM (mbindM _ _) _) => apply Safe_assoc
  | |- Safe _ _ _ (mbindM (ret _) _) => apply Safe_ret_bind
  | |- Safe _ _ _ (mbindM (match ?x with _ => _ end) _) => destruct x eqn:?
  | |- Safe _ _ _ (mbindM (let _ := _ in _) _) => cbv zeta
  | |- _ => safe_step
  end.
Ltac safe_paths := repeat (first [progress (auto with safe) | safe_path_step]).

(** The same for [Hist]; [hist_hook] is for the handlers other files add. *)
Ltac hist_hook := fail.
Ltac hist_step :=
  lazymatch goal with
  | |- Hist _ _ (mbindM get _) => apply Hist_get_bind; intros
  | |- Hist _ _ (mbindM (call _) _) => apply Hist_call_bind; intros
  | |- Hist _ _ (mbindM _ _) => apply Hist_bind; [|intros]
  | |- Hist _ _ (ret _) => apply Hist_ret
  | |- Hist _ _ (modify _) => apply Hist_modify; intros
  | |- Hist _ _ (call _) => apply Hist_call; intros
  | |- Hist _ _ (match ?x with _ => _ end) => destruct x eqn:?
  | |- Hist _ _ (let _ := _ in _) => cbv zeta
  | |- _ => hist_hook
  end.
Ltac hist := repeat (first [progress (auto with safe) | hist_step]).

(** Follows the exits of a handler; leaves the obligations of its steps. *)
Ltac histTo weak :=
  repeat (first
  [ progress (auto with safe)
  | lazymatch goal with
    | |- HistTo _ _ _ (mbindM get _) => apply HistTo_get_bind; intros
    | |- HistTo _ _ _ (mbindM _ _) => apply HistTo_bind; [exact weak| |intros]
    | |- HistTo _ _ _ (match ?x with _ => _ end) => destruct x eqn:?
    | |- HistTo _ _ _ (let _ := _ in _) => cbv zeta
    | |- HistTo _ _ _ (ret _) => apply HistTo_hist; [exact weak|apply Hist_ret]
    end ]).

(** Runs a handler symbolically: one call, answer or branch per step. *)
Ltac wpm_step :=
  lazymatch goal with
  | |- wpM _ (mbindM _ _) _ _ => apply wpM_bind
  | |- wpM _ (ret _) _ _ => apply wpM_ret
  | |- wpM _ get _ _ => apply wpM_get
  | |- wpM _ (modify _) _ _ => apply wpM_modify
  | |- wpM _ (panic _) _ _ => apply wpM_panic
  | |- wpM _ (call _) _ _ => apply wpM_call; intros ? ?
  | |- wpM _ (match ?x with _ => _ end) _ _ => destruct x eqn:?
  | |- wpM _ (let _ := _ in _) _ _ => cbv zeta
  end; cbv beta iota.
Ltac wpm := repeat wpm_step.

(** A handler started at [s], its final state dropped. *)
Definition runM {E S A} (m : M E S A) (s : S) : prog E (outcome A) :=
  pbind (m s) (fun '(_, o) => Ret o).

Lemma wp_runM {E S A} ok (m : M E S A) (s : S) Q :
  wp ok (runM m s) Q <-> wpM ok m s (fun tr _ o => Q tr o).
Proof.
  unfold runM, wpM. rewrite wp_bind. split; apply wp_mono; intros tr [s' o]; simpl;
    by rewrite app_nil_r.
Qed.

Lemma runs_bind {E A B} (p : prog E A) (f : A -> prog E B) tr b :
  runs (pbind p f) tr b <->
  exists tr1 tr2 a, tr = tr1 ++ tr2 /\ runs p tr1 a /\ runs (f a) tr2 b.
Proof.
  revert tr. induction p as [a|X e k IH]; simpl; intros tr.
  - split; [intros H; by exists [], tr, a | by intros (? & ? & ? & -> & [-> ->] & ?)].
  - split.
    + intros (x & tr' & -> & (tr1 & tr2 & a & -> & H1 & H2)%IH).
      exists (Ev e x :: tr1), tr2, a. split_and!; [done|eauto|done].
    + intros (? & tr2 & a & -> & (x & tr1 & -> & H1) & H2). simpl.
      exists x, (tr1 ++ tr2). split; [done|]. apply IH. eauto 10.
Qed.

Lemma runs_wp {E A} ok (p : prog E A) Q tr a :
  wp ok p Q -> runs p tr a -> Forall (keeps ok) tr -> Q tr a.
Proof. intros H. by apply wp_runs. Qed.

Lemma runs_wpM {E S A} ok (m : M E S A) s Q tr s' o :
  wpM ok m s Q -> runs (m s) tr (s', o) -> Forall (keeps ok) tr -> Q tr s' o.
Proof. intros H Hr Hok. exact (runs_wp ok _ _ _ _ H Hr Hok). Qed.

Lemma keeps_any {E} (tr : list (event E)) : Forall (keeps anyAnswer) tr.
Proof. apply Forall_true. by intros []. Qed.

(** With no assumption on the answers. *)
Lemma runs_wp_any {E A} (p : prog E A) Q tr a : wp anyAnswer p Q -> runs p tr a -> Q tr a.
Proof. intros H Hr. eapply runs_wp; [exact H|exact Hr|apply keeps_any]. Qed.

(** ** Execution against a world

    [execM h m s w Q]: run from the state [s] in the world [w], with every call
    answered by [h], the handler [m] ends in a way that satisfies [Q].  There
    is exactly one such run, so this is total correctness. *)
Lemma interp_bind {E A B W} (h : forall X, E X -> W -> X * W) (p : prog E A) (f : A -> prog E B) w :
  interp h (pbind p f) w =
  let '(tr, a, w1) := interp h p w in
  let '(tr', b, w2) := interp h (f a) w1 in (tr ++ tr', b, w2).
Proof.
  revert w. induction p as [a|X e k IH]; simpl; intros w; [by destruct (interp h (f a) w) as [[]]|].
  destruct (h X e w) as [x w1]. rewrite IH. destruct (interp h (k x) w1) as [[tr a] w2].
  by destruct (interp h (f a) w2) as [[tr' b] w3].
Qed.

Definition execM {E S A W} (h : forall X, E X -> W -> X * W) (m : M E S A) (s : S) (w : W)
    (Q : list (event E) -> S -> outcome A -> W -> Prop) : Prop :=
  let '(tr, (s', o), w') := interp h (m s) w in Q tr s' o w'.

Section Execution.
Context {E : Type -> Type} {S W : Type} (h : forall X, E X -> W -> X * W).

Lemma execM_bind {A B} (m : M E S A) (f : A -> M E S B) s w Q :
  execM h m s w (fun tr s' o w' =>
    match o with
    | Val a => execM h (f a) s' w' (fun tr' => Q (tr ++ tr'))
    | Panicked why => Q tr s' (Panicked why) w'
    end) ->
  execM h (mbindM m f) s w Q.
Proof.
  unfold execM, mbindM. rewrite interp_bind. destruct (interp h (m s) w) as [[tr [s' [a|why]]] w'].
  - by destruct (interp h (f a s') w') as [[tr' [s'' o]] w''].
  - simpl. by rewrite app_nil_r.
Qed.

Lemma execM_mono {A} (m : M E S A) s w (Q Q' : list (event E) -> S -> outcome A -> W -> Prop) :
  (forall tr s' o w', Q tr s' o w' -> Q' tr s' o w') -> execM h m s w Q -> execM h m s w Q'.
Proof. intros HQ. unfold execM. destruct (interp h (m s) w) as [[tr [s' o]] w']. apply HQ. Qed.

Lemma execM_eq {A} (m m' : M E S A) s s' w Q : m s = m' s' -> execM h m' s' w Q -> execM h m s w Q.
Proof. unfold execM. by intros ->. Qed.

Lemma execM_ret {A} (a : A) s w (Q : list (event E) -> S -> outcome A -> W -> Prop) :
  Q [] s (Val a) w -> execM h (ret a) s w Q.
Proof. done. Qed.
Lemma execM_get s w (Q : list (event E) -> S -> outcome S -> W -> Prop) :
  Q [] s (Val s) w -> execM h get s w Q.
Proof. done. Qed.
Lemma execM_modify (f : S -> S) s w (Q : list (event E) -> S -> outcome unit -> W -> Prop) :
  Q [] (f s) (Val tt) w -> execM h (modify f) s w Q.
Proof. done. Qed.
Lemma execM_call {X} (e : E X) x w' s w (Q : list (event E) -> S -> outcome X -> W -> Prop) :
  h X e w = (x, w') -> Q [Ev e x] s (Val x) w' -> execM h (call e) s w Q.
Proof. intros He HQ. unfold execM, call. simpl. by rewrite He. Qed.

(** What holds of every run holds of this one. *)
Lemma execM_wpM {A} (m : M E S A) s w Q (Q' : list (event E) -> S -> outcome A -> W -> Prop) :
  wpM anyAnswer m s Q -> execM h m s w Q' ->
  execM h m s w (fun tr s' o w' => Q tr s' o /\ Q' tr s' o w').
Proof.
  intros Hwp. unfold execM. destruct (interp h (m s) w) as [[tr [s' o]] w'] eqn:Hi. split; [|done].
  exact (runs_wp_any _ _ _ _ Hwp (interp_runs _ _ _ _ _ _ Hi)).
Qed.

Lemma execM_defer {A} (body : M E S A) (d : M E S (A -> A)) s w Q :
  execM h body s w (fun tr s' o w' => execM h d s' w' (fun tr' s'' od =>
    Q (tr ++ tr') s''
      (match od with
       | Val f => match o with Val a => Val (f a) | Panicked why => Panicked why end
       | Panicked why => Panicked why
       end))) ->
  execM h (withDefer body d) s w Q.
Proof.
  unfold execM, withDefer. rewrite interp_bind. destruct (interp h (body s) w) as [[tr [s' o]] w'].
  rewrite interp_bind. destruct (interp h (d s') w') as [[tr' [s'' od]] w'']. simpl.
  by rewrite app_nil_r.
Qed.

Lemma execM_runM {A} (m : M E S A) s w (Q : list (event E) -> outcome A -> W -> Prop) :
  execM h m s w (fun tr _ o w' => Q tr o w') ->
  let '(tr, o, w') := interp h (runM m s) w in Q tr o w'.
Proof.
  unfold execM, runM. rewrite interp_bind. destruct (interp h (m s) w) as [[tr [s' o]] w'].
  simpl. by rewrite app_nil_r.
Qed.
End Execution.

(** ** Execution with faults

    The world answers a call in one of several ways ([answer]), and the process
    may stop between any two calls.  [reaches p w w']: started in [w], [p] may
    have come as far as the world [w'].  [always J p w Q]: the worlds it comes
    to satisfy [J], and when it ends, [Q]. *)
Section Faults.
Context {E : Type -> Type} {W : Type} (answer : forall X, E X -> W -> X -> W -> Prop).

Fixpoint reaches {A} (p : prog E A) (w w' : W) : Prop :=
  match p with
  | Ret _ => w' = w
  | Vis e k => w' = w \/ exists x w1, answer _ e w x w1 /\ reaches (k x) w1 w'
  end.

Fixpoint always {A} (J : W -> Prop) (p : prog E A) (w : W) (Q : A -> W -> Prop) : Prop :=
  J w /\
  match p with
  | Ret a => Q a w
  | Vis e k => forall x w1, answer _ e w x w1 -> always J (k x) w1 Q
  end.

Lemma always_reaches {A} J (p : prog E A) w Q w' : always J p w Q -> reaches p w w' -> J w'.
Proof.
  revert w. induction p as [a|X e k IH]; simpl; intros w [HJ H]; [by intros ->|].
  intros [->|(x & w1 & Hx & Hr)]; [done|]. by eapply IH; [apply H|].
Qed.

(** A run against a world that answers in one of the ways. *)
Lemma interp_reaches {A} (h : forall X, E X -> W -> X * W) (p : prog E A) w :
  (forall X (e : E X) w, answer X e w (h X e w).1 (h X e w).2) -> reaches p w (interp h p w).2.
Proof.
  intros Hh. revert w. induction p as [a|X e k IH]; intros w; simpl; [done|]. right.
  specialize (Hh X e w). destruct (h X e w) as [x w1]. exists x, w1. specialize (IH x w1).
  destruct (interp h (k x) w1) as [[tr a] w2]. by split.
Qed.

Lemma always_mono {A} J (p : prog E A) w (Q Q' : A -> W -> Prop) :
  (forall a w', J w' -> Q a w' -> Q' a w') -> always J p w Q -> always J p w Q'.
Proof. intros HQ. revert w. induction p as [a|X e k IH]; simpl; intros w [HJ H]; split; auto. Qed.

Lemma always_bind {A B} J (p : prog E A) (f : A -> prog E B) w Q :
  always J p w (fun a w' => always J (f a) w' Q) -> always J (pbind p f) w Q.
Proof.
  revert w. induction p as [a|X e k IH]; simpl; intros w [HJ H]; [done|]. split; [done|]. auto.
Qed.

Lemma always_start {A} J (p : prog E A) w Q : always J p w Q -> J w.
Proof. destruct p; by intros [? _]. Qed.

(** Of handlers. *)
Definition alwaysM {S A} (J : W -> Prop) (m : M E S A) (s : S) (w : W) (Q : S -> outcome A -> W -> Prop) : Prop :=
  always J (m s) w (fun '(s', o) => Q s' o).

Context {S : Type} (J : W -> Prop).

Lemma alwaysM_bind {A B} (m : M E S A) (f : A -> M E S B) s w Q :
  alwaysM J m s w (fun s' o w' =>
    match o with Val a => alwaysM J (f a) s' w' Q | Panicked why => Q s' (Panicked why) w' end) ->
  alwaysM J (mbindM m f) s w Q.
Proof.
  intros H. apply always_bind. eapply always_mono; [|exact H]. intros [s' [a|why]] w' HJ H'; [done|]. by split.
Qed.

Lemma alwaysM_mono {A} (m : M E S A) s w (Q Q' : S -> outcome A -> W -> Prop) :
  (forall s' o w', J w' -> Q s' o w' -> Q' s' o w') -> alwaysM J m s w Q -> alwaysM J m s w Q'.
Proof. intros HQ. apply always_mono. intros [s' o] w'. apply HQ. Qed.

Lemma alwaysM_ret {A} (a : A) s w (Q : S -> outcome A -> W -> Prop) : J w -> Q s (Val a) w -> alwaysM J (ret a) s w Q.
Proof. by split. Qed.
Lemma alwaysM_get s w (Q : S -> outcome S -> W -> Prop) : J w -> Q s (Val s) w -> alwaysM J get s w Q.
Proof. by split. Qed.
Lemma alwaysM_modify f s w (Q : S -> outcome unit -> W -> Prop) :
  J w -> Q (f s) (Val tt) w -> alwaysM J (modify f) s w Q.
Proof. by split. Qed.
Lemma alwaysM_call {X} (e : E X) s w (Q : S -> outcome X -> W -> Prop) :
  J w -> (forall x w1, answer X e w x w1 -> J w1 /\ Q s (Val x) w1) -> alwaysM J (call e) s w Q.
Proof. intros HJ H. split; [done|]. intros x w1 Hx. exact (H x w1 Hx). Qed.

Lemma alwaysM_defer {A} (body : M E S A) (d : M E S (A -> A)) s w Q :
  alwaysM J body s w (fun s' o w' => alwaysM J d s' w' (fun s'' od =>
    Q s'' (match od with
           | Val f => match o with Val a => Val (f a) | Panicked why => Panicked why end
           | Panicked why => Panicked why
           end))) ->
  alwaysM J (withDefer body d) s w Q.
Proof.
  intros H. apply always_bind. eapply always_mono; [|exact H]. intros [s' o] w' _ H'. apply always_bind.
  eapply always_mono; [|exact H']. intros [s'' od] w'' HJ H''. by split.
Qed.

(** What holds of every run holds here. *)
Lemma alwaysM_wpM {A} (m : M E S A) s w P (Q : S -> outcome A -> W -> Prop) :
  wpM anyAnswer m s (fun _ => P) -> alwaysM J m s w Q -> alwaysM J m s w (fun s' o w' => P s' o /\ Q s' o w').
Proof.
  unfold wpM, alwaysM. generalize (m s). intros p. revert w.
  induction p as [[s' o]|X e k IH]; simpl; intros w HP [HJ HQ]; (split; [done|]); [done|].
  intros x w1 Hx. apply IH; [by apply HP|by apply HQ].
Qed.
End Faults.

(** One step of it; at a call the answer is a new hypothesis. *)
Ltac always_step :=
  lazymatch goal with
  | |- alwaysM _ _ (mbindM _ _) _ _ _ => apply alwaysM_bind
  | |- alwaysM _ _ (ret _) _ _ _ => apply alwaysM_ret; [done|]
  | |- alwaysM _ _ get _ _ _ => apply alwaysM_get; [done|]
  | |- alwaysM _ _ (modify _) _ _ _ => apply alwaysM_modify; [done|]
  | |- alwaysM _ _ (let _ := _ in _) _ _ _ => cbv zeta
  end; cbv beta iota.

(** One step of an execution; calls are answered with a law ([eapply]). *)
Ltac exec_step :=
  lazymatch goal with
  | |- execM _ (mbindM _ _) _ _ _ => apply execM_bind
  | |- execM _ (ret _) _ _ _ => apply execM_ret
  | |- execM _ get _ _ _ => apply execM_get
  | |- execM _ (modify _) _ _ _ => apply execM_modify
  | |- execM _ (let _ := _ in _) _ _ _ => cbv zeta
  end; cbv beta iota.
