(* ===== verification/GoHeap.v ===== *)
(** * Go values in memory

    A small model of Go's memory for code whose purpose is to avoid sharing:
    values with pointers, slices and maps in a heap, the statements that the
    generated deep-copy functions are made of, and what it means that a value
    in memory represents a tree and which locations it reaches. *)

From stdpp Require Import gmap strings list.
From Stdlib Require Import ZArith Lia.
From S2P Require Import Prelude.

(** ** Values, objects and the heap *)
Abbreviation loc := positive.

(** Values without references. *)
Inductive base := BStr (s : string) | BInt (z : Z) | BBool (b : bool).

(** A pointer, slice or map is nil or a reference to an object; a struct is
    the list of its fields. *)
Inductive val :=
| VBase (b : base)
| VStruct (fs : list (string * val))
| VNil
| VRef (l : loc).

(** What a reference refers to: the variable of a pointer, the elements of a
    slice, the entries of a [map[string]string]. *)
Inductive obj :=
| OVar (v : val)
| OSlice (vs : list val)
| OMap (m : gmap string string).

Abbreviation heap := (gmap loc obj).

(** ** Types *)
Inductive ty :=
| TStr | TInt | TBool
| TStruct (fs : list (string * ty))
| TPtr (t : ty)
| TSlice (t : ty)
| TMap.

(** The zero value. *)
Fixpoint zero (t : ty) : val :=
  match t with
  | TStr => VBase (BStr "")
  | TInt => VBase (BInt 0)
  | TBool => VBase (BBool false)
  | TStruct fs => VStruct (map (fun '(n, t) => (n, zero t)) fs)
  | TPtr _ | TSlice _ | TMap => VNil
  end.

(** Types whose values hold no reference. *)
Fixpoint refFree (t : ty) : bool :=
  match t with
  | TStr | TInt | TBool => true
  | TStruct fs => forallb (fun '(_, t) => refFree t) fs
  | TPtr _ | TSlice _ | TMap => false
  end.

(** ** Statements: a heap in, a value and a heap out, or a panic *)
Definition H (A : Type) := heap -> option (A * heap).

Definition hret {A} (a : A) : H A := fun h => Some (a, h).
Definition hbind {A B} (m : H A) (f : A -> H B) : H B := fun h =>
  match m h with Some (a, h') => f a h' | None => None end.
Definition hpanic {A} : H A := fun _ => None.

Declare Scope heap_scope.
Delimit Scope heap_scope with heap.
Notation "x <- m ; k" := (hbind m (fun x => k))
  (at level 100, m at next level, right associativity) : heap_scope.
#[local] Open Scope heap_scope.

Definition alloc (o : obj) : H loc := fun h =>
  let l := fresh (dom h) in Some (l, <[l := o]> h).
Definition load (l : loc) : H obj := fun h => (fun o => (o, h)) <$> h !! l.
Definition store (l : loc) (o : obj) : H unit := fun h => Some (tt, <[l := o]> h).

(** [in.f] and [out.f = v] *)
Fixpoint fieldOf (fs : list (string * val)) (f : string) : option val :=
  match fs with
  | [] => None
  | (n, v) :: fs => if String.eqb n f then Some v else fieldOf fs f
  end.
Fixpoint withField (fs : list (string * val)) (f : string) (w : val) : list (string * val) :=
  match fs with
  | [] => []
  | (n, v) :: fs => if String.eqb n f then (n, w) :: fs else (n, v) :: withField fs f w
  end.

Definition getField (v : val) (f : string) : H val := fun h =>
  match v with VStruct fs => (fun w => (w, h)) <$> fieldOf fs f | _ => None end.
Definition setField (v : val) (f : string) (w : val) : val :=
  match v with VStruct fs => VStruct (withField fs f w) | v => v end.

(** A statement reads [*in] and changes [*out]. *)
Definition stmt := val -> val -> H val.

(** [out.f = in.f] *)
Definition assign (f : string) : stmt := fun i out =>
  v <- getField i f; hret (setField out f v).

(** [in.f.DeepCopyInto(&out.f)] *)
Definition copyStruct (f : string) (into : val -> H val) : stmt := fun i out =>
  v <- getField i f; v' <- into v; hret (setField out f v').

(** [out := new(T); in.DeepCopyInto(out); return out]; nil for nil *)
Definition newCopy (t : ty) (into : val -> H val) (p : val) : H val :=
  match p with
  | VNil => hret VNil
  | VRef l =>
      o <- load l;
      match o with
      | OVar v =>
          l' <- alloc (OVar (zero t));
          v' <- into v;
          _ <- store l' (OVar v');
          hret (VRef l')
      | _ => hpanic
      end
  | _ => hpanic
  end.

(** [if in.f != nil { *out = new(T); ( *in).DeepCopyInto( *out) }] *)
Definition copyPtr (f : string) (t : ty) (into : val -> H val) : stmt := fun i out =>
  p <- getField i f;
  match p with
  | VNil => hret out
  | p => p' <- newCopy t into p; hret (setField out f p')
  end.

(** [if in.f != nil { *out = make(map...); for key, val := range *in { ( *out)[key] = val } }] *)
Definition newMap (p : val) : H val :=
  match p with
  | VRef l =>
      o <- load l;
      match o with
      | OMap m =>
          l' <- alloc (OMap ∅);
          _ <- store l' (OMap (map_fold (fun k v out => <[k := v]> out) ∅ m));
          hret (VRef l')
      | _ => hpanic
      end
  | _ => hpanic
  end.
Definition copyMap (f : string) : stmt := fun i out =>
  p <- getField i f;
  match p with
  | VNil => hret out
  | p => p' <- newMap p; hret (setField out f p')
  end.

(** [for i := range *in { ( *in)[i].DeepCopyInto(&( *out)[i]) }] *)
Fixpoint copyElems (into : val -> H val) (l' : loc) (i : nat) (vs : list val) : H unit :=
  match vs with
  | [] => hret tt
  | v :: vs =>
      v' <- into v;
      o <- load l';
      match o with
      | OSlice ws => _ <- store l' (OSlice (<[i := v']> ws)); copyElems into l' (S i) vs
      | _ => hpanic
      end
  end.

(** [if in.f != nil { *out = make([]T, len( *in)); for ... }]; [copy] of a slice
    of strings assigns the elements. *)
Definition newSlice (t : ty) (into : val -> H val) (p : val) : H val :=
  match p with
  | VRef l =>
      o <- load l;
      match o with
      | OSlice vs =>
          l' <- alloc (OSlice (replicate (length vs) (zero t)));
          _ <- copyElems into l' 0 vs;
          hret (VRef l')
      | _ => hpanic
      end
  | _ => hpanic
  end.
Definition copySlice (f : string) (t : ty) (into : val -> H val) : stmt := fun i out =>
  p <- getField i f;
  match p with
  | VNil => hret out
  | p => p' <- newSlice t into p; hret (setField out f p')
  end.

(** A body: [*out = *in] followed by statements. *)
Fixpoint run (ss : list stmt) (i out : val) : H val :=
  match ss with
  | [] => hret out
  | s :: ss => out' <- s i out; run ss i out'
  end.
Definition intoBy (ss : list stmt) (i : val) : H val := run ss i i.

(** ** What a value represents, and the locations it reaches *)
Inductive tree :=
| NBase (b : base)
| NStruct (fs : list (string * tree))
| NNil
| NPtr (x : tree)
| NSlice (xs : list tree)
| NMap (m : gmap string string).

Inductive rep (h : heap) : ty -> val -> tree -> gset loc -> Prop :=
| rep_str s : rep h TStr (VBase (BStr s)) (NBase (BStr s)) ∅
| rep_int z : rep h TInt (VBase (BInt z)) (NBase (BInt z)) ∅
| rep_bool b : rep h TBool (VBase (BBool b)) (NBase (BBool b)) ∅
| rep_struct ts vs xs L : repFields h ts vs xs L -> rep h (TStruct ts) (VStruct vs) (NStruct xs) L
| rep_nilptr t : rep h (TPtr t) VNil NNil ∅
| rep_ptr t l v x L : h !! l = Some (OVar v) -> rep h t v x L ->
    rep h (TPtr t) (VRef l) (NPtr x) ({[l]} ∪ L)
| rep_nilslice t : rep h (TSlice t) VNil NNil ∅
| rep_slice t l vs xs L : h !! l = Some (OSlice vs) -> repElems h t vs xs L ->
    rep h (TSlice t) (VRef l) (NSlice xs) ({[l]} ∪ L)
| rep_nilmap : rep h TMap VNil NNil ∅
| rep_map l m : h !! l = Some (OMap m) -> rep h TMap (VRef l) (NMap m) {[l]}
with repFields (h : heap) : list (string * ty) -> list (string * val) -> list (string * tree) ->
    gset loc -> Prop :=
| repFields_nil : repFields h [] [] [] ∅
| repFields_cons n t ts v vs x xs L L' : rep h t v x L -> repFields h ts vs xs L' ->
    repFields h ((n, t) :: ts) ((n, v) :: vs) ((n, x) :: xs) (L ∪ L')
with repElems (h : heap) : ty -> list val -> list tree -> gset loc -> Prop :=
| repElems_nil t : repElems h t [] [] ∅
| repElems_cons t v vs x xs L L' : rep h t v x L -> repElems h t vs xs L' ->
    repElems h t (v :: vs) (x :: xs) (L ∪ L').

Scheme rep_mind := Minimality for rep Sort Prop
  with repFields_mind := Minimality for repFields Sort Prop
  with repElems_mind := Minimality for repElems Sort Prop.
Combined Scheme rep_mutind from rep_mind, repFields_mind, repElems_mind.

(** The heaps agree on the locations of [L]. *)
Definition agree (L : gset loc) (h h' : heap) : Prop := forall l, l ∈ L -> h' !! l = h !! l.

Lemma agree_union L L' h h' : agree (L ∪ L') h h' <-> agree L h h' /\ agree L' h h'.
Proof. unfold agree. set_solver. Qed.

(** A representation depends on the locations it reaches, and on nothing else. *)
Lemma rep_local h :
  (forall t v x L, rep h t v x L -> forall h', agree L h h' -> rep h' t v x L) /\
  (forall ts vs xs L, repFields h ts vs xs L -> forall h', agree L h h' -> repFields h' ts vs xs L) /\
  (forall t vs xs L, repElems h t vs xs L -> forall h', agree L h h' -> repElems h' t vs xs L).
Proof.
  apply rep_mutind; intros;
    repeat match goal with H : agree (_ ∪ _) _ _ |- _ => apply agree_union in H as [? ?] end;
    constructor || econstructor; eauto;
    match goal with H : agree {[?l]} _ _ |- _ !! ?l = _ => rewrite (H l) by set_solver; eauto end.
Qed.

(** It reaches allocated locations only. *)
Lemma rep_dom h :
  (forall t v x L, rep h t v x L -> L ⊆ dom h) /\
  (forall ts vs xs L, repFields h ts vs xs L -> L ⊆ dom h) /\
  (forall t vs xs L, repElems h t vs xs L -> L ⊆ dom h).
Proof.
  apply rep_mutind; intros; repeat match goal with H : h !! _ = Some _ |- _ => apply elem_of_dom_2 in H end;
    set_solver.
Qed.

Lemma agree_subseteq L h h' : L ⊆ dom h -> h ⊆ h' -> agree L h h'.
Proof.
  intros HL Hs l Hl. apply HL, elem_of_dom in Hl as [o Ho]. rewrite Ho. by eapply lookup_weaken.
Qed.

Lemma rep_mono h h' t v x L : h ⊆ h' -> rep h t v x L -> rep h' t v x L.
Proof.
  intros Hs Hr. apply (proj1 (rep_local h) _ _ _ _ Hr). apply agree_subseteq; [|done].
  exact (proj1 (rep_dom h) _ _ _ _ Hr).
Qed.
Lemma repElems_mono h h' t vs xs L : h ⊆ h' -> repElems h t vs xs L -> repElems h' t vs xs L.
Proof.
  intros Hs Hr. apply (proj2 (proj2 (rep_local h)) _ _ _ _ Hr). apply agree_subseteq; [|done].
  exact (proj2 (proj2 (rep_dom h)) _ _ _ _ Hr).
Qed.

(** A write outside the locations reached is not seen. *)
Lemma rep_store h t v x L l o : l ∉ L -> rep h t v x L -> rep (<[l := o]> h) t v x L.
Proof.
  intros Hl Hr. apply (proj1 (rep_local h) _ _ _ _ Hr). intros l' Hl'. apply lookup_insert_ne. set_solver.
Qed.

(** Values of reference-free types reach nothing. *)
Lemma refFree_empty h :
  (forall t v x L, rep h t v x L -> refFree t = true -> L = ∅) /\
  (forall ts vs xs L, repFields h ts vs xs L -> forallb (fun '(_, t) => refFree t) ts = true -> L = ∅) /\
  (forall t vs xs L, repElems h t vs xs L -> True).
Proof.
  apply rep_mutind; try done; try (by intros; simpl in *; auto).
  intros n t ts v vs x xs L L' _ IH _ IH' Hf. simpl in Hf. apply andb_prop in Hf as [Ht Hts].
  rewrite (IH Ht), (IH' Hts). set_solver.
Qed.

Lemma map_fold_insert_id (m : gmap string string) :
  map_fold (fun k v out => <[k := v]> out) (∅ : gmap string string) m = m.
Proof.
  apply (map_fold_weak_ind (fun r m' => r = m')); [done|].
  intros k v m' r _ ->. done.
Qed.

(** ** Deep copies

    [f] copies values of type [t]: started on a value that represents [x] it
    ends without a panic in an extended heap, with a value that represents [x]
    too and reaches none of the locations there were. *)
Definition deepCopies (t : ty) (f : val -> H val) : Prop :=
  forall h v x L, rep h t v x L ->
  exists v' h' L', f v h = Some (v', h') /\ h ⊆ h' /\ rep h' t v' x L' /\ L' ## dom h.

(** What this means to the code: a write to anything the original reaches (or
    to anything else that was allocated before) leaves the copy as it is. *)
Lemma deepCopies_isolated t f h v x L : deepCopies t f -> rep h t v x L ->
  exists v' h', f v h = Some (v', h') /\
    forall h2 : heap, (forall l, l ∉ dom h -> h2 !! l = h' !! l) -> exists L', rep h2 t v' x L'.
Proof.
  intros Hd Hr. destruct (Hd h v x L Hr) as (v' & h' & L' & Hf & _ & Hr' & Hdis).
  exists v', h'. split; [done|]. intros h2 Hh2. exists L'. apply (proj1 (rep_local h') _ _ _ _ Hr').
  intros l Hl. apply Hh2. set_solver.
Qed.

Lemma alloc_fresh (h : heap) : fresh (dom h) ∉ dom h.
Proof. apply is_fresh. Qed.

Lemma deepCopies_refFree t : refFree t = true -> deepCopies t hret.
Proof.
  intros Hf h v x L Hr. exists v, h, L. split_and!; [done|done|done|].
  rewrite (proj1 (refFree_empty h) _ _ _ _ Hr Hf). set_solver.
Qed.

(** Allocation: the new heap, and what later writes to the new location keep. *)
Lemma alloc_extends (h : heap) o : h ⊆ <[fresh (dom h) := o]> h.
Proof. apply insert_subseteq, not_elem_of_dom, alloc_fresh. Qed.

Lemma alloc_fill (h h' : heap) o o' : <[fresh (dom h) := o]> h ⊆ h' -> h ⊆ <[fresh (dom h) := o']> h'.
Proof.
  intros Hs. apply insert_subseteq_r; [apply not_elem_of_dom, alloc_fresh|].
  etrans; [apply alloc_extends|exact Hs].
Qed.

Lemma disjoint_alloc (h : heap) o (L : gset loc) : L ## dom (<[fresh (dom h) := o]> h) ->
  fresh (dom h) ∉ L /\ ({[fresh (dom h)]} ∪ L) ## dom h.
Proof. rewrite dom_insert_L. pose proof (alloc_fresh h). set_solver. Qed.

Lemma newCopy_deep t into : deepCopies t into -> deepCopies (TPtr t) (newCopy t into).
Proof.
  intros Hi h p x L Hr. inversion Hr as [| | | |?|? l v x0 L0 Hl Hv| | | |]; subst; clear Hr.
  { exists VNil, h, ∅. split_and!; [done|done|constructor|set_solver]. }
  destruct (Hi _ v x0 L0 (rep_mono _ _ _ _ _ _ (alloc_extends h (OVar (zero t))) Hv))
    as (v' & h2 & L' & Hf & Hs2 & Hr' & [Hn Hd]%disjoint_alloc).
  exists (VRef (fresh (dom h))), (<[fresh (dom h) := OVar v']> h2), ({[fresh (dom h)]} ∪ L'). split_and!.
  - unfold newCopy, hbind, load. rewrite Hl. simpl. by rewrite Hf.
  - by eapply alloc_fill.
  - econstructor; [apply lookup_insert_eq|by apply rep_store].
  - done.
Qed.

Lemma newMap_deep h l m : h !! l = Some (OMap m) ->
  exists l' h', newMap (VRef l) h = Some (VRef l', h') /\ h ⊆ h' /\
    rep h' TMap (VRef l') (NMap m) {[l']} /\ {[l']} ## dom h.
Proof.
  intros Hl. eexists _, _. split.
  { unfold newMap, hbind, load. rewrite Hl. simpl. rewrite map_fold_insert_id. reflexivity. }
  split_and!.
  - by eapply alloc_fill.
  - constructor. apply lookup_insert_eq.
  - pose proof (alloc_fresh h). set_solver.
Qed.

Lemma repElems_snoc h t vs xs L v x L' :
  repElems h t vs xs L -> rep h t v x L' -> repElems h t (vs ++ [v]) (xs ++ [x]) (L ∪ L').
Proof.
  intros Hvs Hv. induction Hvs as [t|t v0 vs x0 xs L0 L1 Hv0 Hvs IH]; simpl.
  - replace (∅ ∪ L') with (L' ∪ ∅) by set_solver. by repeat constructor.
  - replace (L0 ∪ L1 ∪ L') with (L0 ∪ (L1 ∪ L')) by set_solver. constructor; auto.
Qed.

Lemma repElems_store h t vs xs L l o : l ∉ L -> repElems h t vs xs L -> repElems (<[l := o]> h) t vs xs L.
Proof.
  intros Hl Hr. apply (proj2 (proj2 (rep_local h)) _ _ _ _ Hr). intros l' Hl'. apply lookup_insert_ne. set_solver.
Qed.

(** The loop over the elements: the slots before [i] hold copies. *)
Lemma copyElems_deep t into l' h0 : deepCopies t into -> l' ∉ dom h0 ->
  forall vs xs L done' dxs DL h, repElems h0 t vs xs L -> h0 ⊆ h ->
  h !! l' = Some (OSlice (done' ++ replicate (length vs) (zero t))) ->
  repElems h t done' dxs DL -> DL ## dom h0 -> l' ∉ DL ->
  exists h' ws L', copyElems into l' (length done') vs h = Some (tt, h') /\ h0 ⊆ h' /\
    h' !! l' = Some (OSlice ws) /\ repElems h' t ws (dxs ++ xs) L' /\ L' ## dom h0 /\ l' ∉ L'.
Proof.
  intros Hi Hl0 vs. induction vs as [|v vs IH]; intros xs L done' dxs DL h Hvs Hs Hl Hdone HDL HlD.
  { inversion Hvs; subst. exists h, done', DL. simpl in Hl. rewrite app_nil_r in Hl.
    rewrite app_nil_r. by split_and!. }
  inversion Hvs as [|? ? ? x xs' L1 L2 Hv Hvs']; subst.
  destruct (Hi h v x L1 (rep_mono _ _ _ _ _ _ Hs Hv)) as (v' & h1 & Lv & Hf & Hs1 & Hr1 & Hd1).
  assert (l' ∈ dom h) as Hld by (by eapply elem_of_dom_2).
  assert (h1 !! l' = Some (OSlice (done' ++ zero t :: replicate (length vs) (zero t)))) as Hl1
    by (by eapply lookup_weaken).
  simpl. unfold hbind. rewrite Hf. unfold load. rewrite Hl1. simpl.
  rewrite insert_app_r_alt, Nat.sub_diag by lia. simpl.
  set (h2 := <[l' := OSlice (done' ++ v' :: replicate (length vs) (zero t))]> h1).
  assert (h0 ⊆ h2) as Hs2.
  { apply insert_subseteq_r; [by apply not_elem_of_dom|]. by etrans. }
  assert (Lv ## dom h0 /\ l' ∉ Lv) as [HLv HlLv].
  { apply subseteq_dom in Hs. set_solver. }
  destruct (IH xs' L2 (done' ++ [v']) (dxs ++ [x]) (DL ∪ Lv) h2) as (h' & ws & L' & Hc & Hrest).
  - done.
  - done.
  - unfold h2. rewrite <-app_assoc. apply lookup_insert_eq.
  - apply repElems_snoc; [|by apply rep_store]. apply repElems_store; [done|]. by eapply repElems_mono.
  - set_solver.
  - set_solver.
  - exists h', ws, L'. rewrite <-app_assoc in Hrest. split; [|exact Hrest].
    rewrite length_app, Nat.add_comm in Hc. exact Hc.
Qed.

Lemma newSlice_deep t into h l vs xs L : deepCopies t into -> h !! l = Some (OSlice vs) ->
  repElems h t vs xs L ->
  exists l' h' L', newSlice t into (VRef l) h = Some (VRef l', h') /\ h ⊆ h' /\
    rep h' (TSlice t) (VRef l') (NSlice xs) L' /\ L' ## dom h.
Proof.
  intros Hi Hl Hvs.
  destruct (copyElems_deep t into (fresh (dom h)) h Hi (alloc_fresh h) vs xs L [] [] ∅
    (<[fresh (dom h) := OSlice (replicate (length vs) (zero t))]> h))
    as (h' & ws & L' & Hc & Hs & Hl' & Hr & Hd & Hn); [done|apply alloc_extends|apply lookup_insert_eq|constructor|set_solver..|].
  exists (fresh (dom h)), h', ({[fresh (dom h)]} ∪ L'). split_and!.
  - unfold newSlice, hbind, load. rewrite Hl. simpl. simpl in Hc. by rewrite Hc.
  - done.
  - by econstructor.
  - pose proof (alloc_fresh h). set_solver.
Qed.

(** ** Bodies of statements *)

(** [s] copies the field [n] of type [t], provided [out] still shares it. *)
Definition copies (s : stmt) (n : string) (t : ty) : Prop :=
  forall h0 h fs out v x L, fieldOf fs n = Some v -> fieldOf out n = Some v ->
  rep h0 t v x L -> h0 ⊆ h ->
  exists v' h' L', s (VStruct fs) (VStruct out) h = Some (VStruct (withField out n v'), h') /\
    h ⊆ h' /\ rep h' t v' x L' /\ L' ## dom h.

Lemma withField_same fs n v : fieldOf fs n = Some v -> withField fs n v = fs.
Proof.
  induction fs as [|[m w] fs IH]; simpl; [done|]. destruct (String.eqb_spec m n) as [->|].
  - by intros [= ->].
  - intros Hf. by rewrite IH.
Qed.

Lemma assign_copies n t : refFree t = true -> copies (assign n) n t.
Proof.
  intros Hf h0 h fs out v x L Hi Ho Hr Hs. exists v, h, L. unfold assign, hbind, getField. rewrite Hi. simpl.
  split_and!; [done|done|by eapply rep_mono|]. rewrite (proj1 (refFree_empty h0) _ _ _ _ Hr Hf). set_solver.
Qed.

Lemma copyStruct_copies n t into : deepCopies t into -> copies (copyStruct n into) n t.
Proof.
  intros Hd h0 h fs out v x L Hi Ho Hr Hs.
  destruct (Hd h v x L (rep_mono _ _ _ _ _ _ Hs Hr)) as (v' & h' & L' & Hf & Hrest).
  exists v', h', L'. split; [|done]. unfold copyStruct, hbind, getField. rewrite Hi. simpl. by rewrite Hf.
Qed.

(** A nil field is left as it is, any other is replaced by a new reference. *)
Lemma copies_ref (new : val -> H val) (s : stmt) n t :
  (forall fs out v h, fieldOf fs n = Some v -> s (VStruct fs) (VStruct out) h =
     match v with
     | VNil => Some (VStruct out, h)
     | v => (fun '(v', h') => (VStruct (withField out n v'), h')) <$> new v h
     end) ->
  (forall h x L, rep h t VNil x L -> L = ∅) ->
  (forall h v x L, rep h t v x L -> v <> VNil -> exists v' h' L', new v h = Some (v', h') /\ h ⊆ h' /\
     rep h' t v' x L' /\ L' ## dom h) -> copies s n t.
Proof.
  intros Hs Hnil Hnew h0 h fs out v x L Hi Ho Hr Hle. rewrite (Hs _ _ _ _ Hi).
  apply (rep_mono _ h) in Hr; [|done].
  assert (v = VNil \/ v <> VNil) as [->|Hv] by (destruct v; by auto).
  - exists VNil, h, L. split_and!; [by rewrite withField_same|done|done|].
    rewrite (Hnil _ _ _ Hr). set_solver.
  - destruct (Hnew h v x L Hr Hv) as (v' & h' & L' & Hn & Hrest). exists v', h', L'.
    split; [|done]. rewrite Hn. by destruct v.
Qed.

Lemma copyPtr_copies n t into : deepCopies t into -> copies (copyPtr n t into) n (TPtr t).
Proof.
  intros Hd. apply (copies_ref (newCopy t into)).
  - intros fs out v h Hf. unfold copyPtr, hbind, getField. rewrite Hf. simpl.
    destruct v; try done; by destruct (newCopy _ _ _ _) as [[]|].
  - intros h x L Hr. by inversion Hr.
  - intros h v x L Hr _. by apply (newCopy_deep t into Hd h v x L).
Qed.

Lemma copyMap_copies n : copies (copyMap n) n TMap.
Proof.
  apply (copies_ref newMap).
  - intros fs out v h Hf. unfold copyMap, hbind, getField. rewrite Hf. simpl.
    destruct v; try done; by destruct (newMap _ _) as [[]|].
  - intros h x L Hr. by inversion Hr.
  - intros h v x L Hr Hv. inversion Hr as [| | | | | | | | |l m Hl]; subst; [done|].
    destruct (newMap_deep h l m Hl) as (l' & h' & Hrest). by exists (VRef l'), h', {[l']}.
Qed.

Lemma copySlice_copies n t into : deepCopies t into -> copies (copySlice n t into) n (TSlice t).
Proof.
  intros Hd. apply (copies_ref (newSlice t into)).
  - intros fs out v h Hf. unfold copySlice, hbind, getField. rewrite Hf. simpl.
    destruct v; try done; by destruct (newSlice _ _ _ _) as [[]|].
  - intros h x L Hr. by inversion Hr.
  - intros h v x L Hr Hv. inversion Hr as [| | | | | | |? l vs xs L0 Hl Hvs| |]; subst; [done|].
    destruct (newSlice_deep t into h l vs xs L0 Hd Hl Hvs) as (l' & h' & L' & Hrest). by exists (VRef l'), h', L'.
Qed.

(** A partly copied struct: the fields in [dn] are copied, the others shared. *)
Inductive partly (h0 h : heap) (dn : list string) : list (string * ty) -> list (string * val) ->
    list (string * val) -> list (string * tree) -> gset loc -> Prop :=
| partly_nil : partly h0 h dn [] [] [] [] ∅
| partly_cons n t ts iv ivs ov ovs x xs L L' :
    rep h t ov x L -> (n ∈ dn -> L ## dom h0) -> (n ∉ dn -> ov = iv) ->
    partly h0 h dn ts ivs ovs xs L' ->
    partly h0 h dn ((n, t) :: ts) ((n, iv) :: ivs) ((n, ov) :: ovs) ((n, x) :: xs) (L ∪ L').

Lemma partly_start h ts vs xs L : repFields h ts vs xs L -> partly h h [] ts vs vs xs L.
Proof. induction 1; constructor; try done. by intros ?%not_elem_of_nil. Qed.

Lemma partly_mono h0 h h' dn ts ivs ovs xs L :
  h ⊆ h' -> partly h0 h dn ts ivs ovs xs L -> partly h0 h' dn ts ivs ovs xs L.
Proof. intros Hs. induction 1; constructor; try done. by eapply rep_mono. Qed.

Lemma partly_end h0 h dn ts ivs ovs xs L :
  partly h0 h dn ts ivs ovs xs L -> Forall (fun '(n, t) => refFree t = true \/ n ∈ dn) ts ->
  repFields h ts ovs xs L /\ L ## dom h0.
Proof.
  induction 1 as [|n t ts iv ivs ov ovs x xs L L' Hr Hin _ _ IH]; intros Hc; [split; [constructor|set_solver]|].
  apply Forall_cons in Hc as [Hc Hcs]. destruct (IH Hcs) as [Hf Hd]. split; [by constructor|].
  assert (L ## dom h0); [|set_solver]. destruct Hc as [Hc|Hc]; [|by apply Hin].
  rewrite (proj1 (refFree_empty h) _ _ _ _ Hr Hc). set_solver.
Qed.

(** The names of the fields that are not touched stay undone. *)
Lemma partly_skip h0 h dn n ts ivs ovs xs L :
  partly h0 h dn ts ivs ovs xs L -> n ∉ ts.*1 -> partly h0 h (n :: dn) ts ivs ovs xs L.
Proof.
  induction 1 as [|m t ts iv ivs ov ovs x xs L L' Hr Hin Hout _ IH]; intros Hn; constructor; try done.
  - intros [->|?]%elem_of_cons; [|by apply Hin]. simpl in Hn. set_solver.
  - intros Hm. apply Hout. set_solver.
  - apply IH. simpl in Hn. set_solver.
Qed.

(** A field that is still shared, and what replacing it by a copy gives. *)
Lemma partly_field h0 h dn n t ts ivs ovs xs L L0 :
  partly h0 h dn ts ivs ovs xs L -> repFields h0 ts ivs xs L0 -> NoDup ts.*1 -> (n, t) ∈ ts -> n ∉ dn ->
  exists v x L1, fieldOf ivs n = Some v /\ fieldOf ovs n = Some v /\ rep h0 t v x L1 /\
    forall h' v' Lv, h ⊆ h' -> rep h' t v' x Lv -> Lv ## dom h0 ->
    exists L', partly h0 h' (n :: dn) ts ivs (withField ovs n v') xs L'.
Proof.
  intros Hp. revert L0. induction Hp as [|m u ts iv ivs ov ovs x xs L L' Hr Hin Hout Hp IH];
    intros L0 Hi Hnd Hn Hdn; [by apply not_elem_of_nil in Hn|].
  inversion Hi as [|? ? ? ? ? ? ? Li Li' Hiv Hivs]; subst. apply NoDup_cons in Hnd as [Hm Hnd].
  simpl. destruct (String.eqb_spec m n) as [->|Hne].
  - assert (t = u) as -> by (apply elem_of_cons in Hn as [[= ->]|Hn]; [done|];
      destruct Hm; apply list_elem_of_fmap; by exists (n, t)).
    exists iv, x, Li. split_and!; [done|by rewrite (Hout Hdn)|done|].
    intros h' v' Lv Hs Hrv Hd. exists (Lv ∪ L'). constructor; [done|done|set_solver|].
    apply partly_skip; [|done]. by eapply partly_mono.
  - apply elem_of_cons in Hn as [[= -> ->]|Hn]; [done|].
    destruct (IH Li' Hivs Hnd Hn Hdn) as (v & y & L1 & Hfi & Hfo & Hv & Hset).
    exists v, y, L1. split_and!; [done|done|done|]. intros h' v' Lv Hs Hrv Hd.
    destruct (Hset h' v' Lv Hs Hrv Hd) as [L2 Hp2]. exists (L ∪ L2). constructor; [by eapply rep_mono| | |done].
    + intros [->|?]%elem_of_cons; [done|by apply Hin].
    + intros Hm'. apply Hout. set_solver.
Qed.

(** Statements that copy the fields [nts]. *)
Inductive copiesAll : list stmt -> list (string * ty) -> Prop :=
| copiesAll_nil : copiesAll [] []
| copiesAll_cons s n t ss nts : copies s n t -> copiesAll ss nts -> copiesAll (s :: ss) ((n, t) :: nts).

Lemma run_partly ss nts : copiesAll ss nts -> forall h0 h dn ts ivs ovs xs L L0,
  NoDup ts.*1 -> repFields h0 ts ivs xs L0 -> h0 ⊆ h -> partly h0 h dn ts ivs ovs xs L ->
  nts ⊆ ts -> NoDup nts.*1 -> Forall (fun n => n ∉ dn) nts.*1 ->
  exists ovs' h' L', run ss (VStruct ivs) (VStruct ovs) h = Some (VStruct ovs', h') /\ h ⊆ h' /\
    partly h0 h' (reverse nts.*1 ++ dn) ts ivs ovs' xs L'.
Proof.
  induction 1 as [|s n t ss nts Hc _ IH]; intros h0 h dn ts ivs ovs xs L L0 Hts Hi Hs Hp Hsub Hnd Hnew.
  { exists ovs, h, L. done. }
  simpl in *. apply NoDup_cons in Hnd as [Hn Hnd]. apply Forall_cons in Hnew as [Hdn Hnew].
  assert ((n, t) ∈ ts) as Hnt by (apply Hsub; left).
  destruct (partly_field _ _ _ _ _ _ _ _ _ _ _ Hp Hi Hts Hnt Hdn) as (v & x & L1 & Hfi & Hfo & Hv & Hset).
  destruct (Hc h0 h ivs ovs v x L1 Hfi Hfo Hv Hs) as (v' & h1 & Lv & Hrun & Hs1 & Hrv & Hd).
  destruct (Hset h1 v' Lv Hs1 Hrv) as [L2 Hp2]; [apply subseteq_dom in Hs; set_solver|].
  destruct (IH h0 h1 (n :: dn) ts ivs (withField ovs n v') xs L2 L0 Hts Hi) as (ovs' & h' & L' & Hr & Hs' & Hp').
  - by etrans.
  - exact Hp2.
  - intros p Hp'. apply Hsub. by right.
  - done.
  - apply Forall_forall. intros m Hm. rewrite Forall_forall in Hnew. specialize (Hnew m Hm). set_solver.
  - exists ovs', h', L'. unfold hbind. rewrite Hrun. split_and!; [done|by etrans|].
    by rewrite reverse_cons, <-app_assoc.
Qed.

(** [*out = *in] and statements for the fields that hold references. *)
Lemma intoBy_deep ts ss nts : copiesAll ss nts -> NoDup ts.*1 -> NoDup nts.*1 -> nts ⊆ ts ->
  Forall (fun '(n, t) => refFree t = true \/ n ∈ nts.*1) ts -> deepCopies (TStruct ts) (intoBy ss).
Proof.
  intros Hss Hts Hnts Hsub Hcov h v x L Hr.
  inversion Hr as [| | |? vs xs ? Hf| | | | | |]; subst.
  destruct (run_partly ss nts Hss h h [] ts vs vs xs L L Hts Hf) as (ovs & h' & L' & Hrun & Hs & Hp);
    [done|by apply partly_start|done|done|by apply Forall_true; intros ? ?%not_elem_of_nil|].
  destruct (partly_end _ _ _ _ _ _ _ _ Hp) as [Hf' Hd].
  { eapply Forall_impl; [exact Hcov|]. intros [n t] [?|?]; [by left|right]. rewrite app_nil_r.
    by apply elem_of_reverse. }
  exists (VStruct ovs), h', L'. split_and!; [done|done|by constructor|done].
Qed.
