(* ===== verification/DeepCopy.v ===== *)
(** * The generated deep copies (api/v1beta1/zz_generated.deepcopy.go)

    The 32 types of the API group as Go types with their references, the
    [DeepCopyInto], [DeepCopy] and [DeepCopyObject] function of each, and the
    proof that each is a deep copy. The structs of other modules that the types
    embed (object and list metadata, conditions, the routed override, the label
    selector and the monitoring stack of the observability operator) are
    parameters: what is relied on is that their own functions are deep copies. *)

From stdpp Require Import gmap strings list.
From S2P Require Import Prelude GoHeap.

#[local] Open Scope heap_scope.

(** ** Types of other modules *)
Class ExternalTypes := {
  ObjectMeta_ty : ty; ObjectMeta_DeepCopyInto : val -> H val;
  ListMeta_ty : ty; ListMeta_DeepCopyInto : val -> H val;
  Condition_ty : ty; Condition_DeepCopyInto : val -> H val;
  RoutedOverrideSpec_ty : ty; RoutedOverrideSpec_DeepCopyInto : val -> H val;
  LabelSelector_ty : ty; LabelSelector_DeepCopyInto : val -> H val;
  MonitoringStackSpec_ty : ty; MonitoringStackSpec_DeepCopyInto : val -> H val
}.

Class ExternalLaws `{ExternalTypes} : Prop := {
  ObjectMeta_deep : deepCopies ObjectMeta_ty ObjectMeta_DeepCopyInto;
  ListMeta_deep : deepCopies ListMeta_ty ListMeta_DeepCopyInto;
  Condition_deep : deepCopies Condition_ty Condition_DeepCopyInto;
  RoutedOverrideSpec_deep : deepCopies RoutedOverrideSpec_ty RoutedOverrideSpec_DeepCopyInto;
  LabelSelector_deep : deepCopies LabelSelector_ty LabelSelector_DeepCopyInto;
  MonitoringStackSpec_deep : deepCopies MonitoringStackSpec_ty MonitoringStackSpec_DeepCopyInto
}.

(** [metav1.TypeMeta] *)
Definition TypeMeta_ty : ty := TStruct [("Kind", TStr); ("APIVersion", TStr)].

(** ** The functions *)
Section Generated.
Context `{X : ExternalTypes}.

Definition PasswordsSelector_ty : ty := TStruct [
  ("Service", TStr); ("AodhService", TStr); ("Database", TStr)].
Definition PasswordsSelector_DeepCopyInto : val -> H val := intoBy [].
Definition PasswordsSelector_DeepCopy : val -> H val :=
  newCopy PasswordsSelector_ty PasswordsSelector_DeepCopyInto.

Definition APIOverrideSpec_ty : ty := TStruct [
  ("Service", TPtr RoutedOverrideSpec_ty)].
Definition APIOverrideSpec_DeepCopyInto : val -> H val := intoBy [
  copyPtr "Service" RoutedOverrideSpec_ty RoutedOverrideSpec_DeepCopyInto].
Definition APIOverrideSpec_DeepCopy : val -> H val :=
  newCopy APIOverrideSpec_ty APIOverrideSpec_DeepCopyInto.

Definition Aodh_ty : ty := TStruct [
  ("RabbitMqClusterName", TStr); ("DatabaseInstance", TStr); ("DatabaseUser", TStr);
  ("PasswordSelectors", PasswordsSelector_ty); ("ServiceUser", TStr); ("Secret", TStr);
  ("CustomServiceConfig", TStr); ("DefaultConfigOverwrite", TMap);
  ("NetworkAttachmentDefinitions", TSlice TStr); ("Override", APIOverrideSpec_ty);
  ("PreserveJobs", TBool); ("MemcachedInstance", TStr); ("APIImage", TStr);
  ("EvaluatorImage", TStr); ("NotifierImage", TStr); ("ListenerImage", TStr)].
Definition Aodh_DeepCopyInto : val -> H val := intoBy [
  assign "PasswordSelectors"; copyMap "DefaultConfigOverwrite";
  copySlice "NetworkAttachmentDefinitions" TStr hret;
  copyStruct "Override" APIOverrideSpec_DeepCopyInto].
Definition Aodh_DeepCopy : val -> H val :=
  newCopy Aodh_ty Aodh_DeepCopyInto.

Definition AutoscalingSpec_ty : ty := TStruct [
  ("PrometheusHost", TStr); ("PrometheusPort", TInt); ("Aodh", Aodh_ty); ("HeatInstance", TStr)].
Definition AutoscalingSpec_DeepCopyInto : val -> H val := intoBy [
  copyStruct "Aodh" Aodh_DeepCopyInto].
Definition AutoscalingSpec_DeepCopy : val -> H val :=
  newCopy AutoscalingSpec_ty AutoscalingSpec_DeepCopyInto.

Definition AutoscalingStatus_ty : ty := TStruct [
  ("ReadyCount", TInt); ("Hash", TMap); ("Conditions", TSlice Condition_ty);
  ("Networks", TSlice TStr); ("TransportURLSecret", TStr); ("DatabaseHostname", TStr);
  ("PrometheusHost", TStr); ("PrometheusPort", TInt); ("APIEndpoints", TMap)].
Definition AutoscalingStatus_DeepCopyInto : val -> H val := intoBy [
  copyMap "Hash"; copySlice "Conditions" Condition_ty Condition_DeepCopyInto;
  copySlice "Networks" TStr hret; copyMap "APIEndpoints"].
Definition AutoscalingStatus_DeepCopy : val -> H val :=
  newCopy AutoscalingStatus_ty AutoscalingStatus_DeepCopyInto.

Definition Autoscaling_ty : ty := TStruct [
  ("TypeMeta", TypeMeta_ty); ("ObjectMeta", ObjectMeta_ty); ("Spec", AutoscalingSpec_ty);
  ("Status", AutoscalingStatus_ty)].
Definition Autoscaling_DeepCopyInto : val -> H val := intoBy [
  assign "TypeMeta"; copyStruct "ObjectMeta" ObjectMeta_DeepCopyInto;
  copyStruct "Spec" AutoscalingSpec_DeepCopyInto;
  copyStruct "Status" AutoscalingStatus_DeepCopyInto].
Definition Autoscaling_DeepCopy : val -> H val :=
  newCopy Autoscaling_ty Autoscaling_DeepCopyInto.
Definition Autoscaling_DeepCopyObject (i : val) : H val :=
  c <- Autoscaling_DeepCopy i; match c with VNil => hret VNil | c => hret c end.

Definition AutoscalingList_ty : ty := TStruct [
  ("TypeMeta", TypeMeta_ty); ("ListMeta", ListMeta_ty); ("Items", TSlice Autoscaling_ty)].
Definition AutoscalingList_DeepCopyInto : val -> H val := intoBy [
  assign "TypeMeta"; copyStruct "ListMeta" ListMeta_DeepCopyInto;
  copySlice "Items" Autoscaling_ty Autoscaling_DeepCopyInto].
Definition AutoscalingList_DeepCopy : val -> H val :=
  newCopy AutoscalingList_ty AutoscalingList_DeepCopyInto.
Definition AutoscalingList_DeepCopyObject (i : val) : H val :=
  c <- AutoscalingList_DeepCopy i; match c with VNil => hret VNil | c => hret c end.

Definition AutoscalingDefaults_ty : ty := TStruct [
  ("AodhAPIContainerImageURL", TStr); ("AodhEvaluatorContainerImageURL", TStr);
  ("AodhNotifierContainerImageURL", TStr); ("AodhListenerContainerImageURL", TStr)].
Definition AutoscalingDefaults_DeepCopyInto : val -> H val := intoBy [].
Definition AutoscalingDefaults_DeepCopy : val -> H val :=
  newCopy AutoscalingDefaults_ty AutoscalingDefaults_DeepCopyInto.

Definition CeilometerSpec_ty : ty := TStruct [
  ("RabbitMqClusterName", TStr); ("PasswordSelectors", PasswordsSelector_ty);
  ("ServiceUser", TStr); ("Secret", TStr); ("CustomServiceConfig", TStr);
  ("DefaultConfigOverwrite", TMap); ("NetworkAttachmentDefinitions", TSlice TStr);
  ("CentralImage", TStr); ("NotificationImage", TStr); ("SgCoreImage", TStr);
  ("ComputeImage", TStr); ("IpmiImage", TStr); ("NodeExporterImage", TStr)].
Definition CeilometerSpec_DeepCopyInto : val -> H val := intoBy [
  assign "PasswordSelectors"; copyMap "DefaultConfigOverwrite";
  copySlice "NetworkAttachmentDefinitions" TStr hret].
Definition CeilometerSpec_DeepCopy : val -> H val :=
  newCopy CeilometerSpec_ty CeilometerSpec_DeepCopyInto.

Definition CeilometerStatus_ty : ty := TStruct [
  ("ReadyCount", TInt); ("Hash", TMap); ("Conditions", TSlice Condition_ty);
  ("TransportURLSecret", TStr); ("Networks", TSlice TStr)].
Definition CeilometerStatus_DeepCopyInto : val -> H val := intoBy [
  copyMap "Hash"; copySlice "Conditions" Condition_ty Condition_DeepCopyInto;
  copySlice "Networks" TStr hret].
Definition CeilometerStatus_DeepCopy : val -> H val :=
  newCopy CeilometerStatus_ty CeilometerStatus_DeepCopyInto.

Definition Ceilometer_ty : ty := TStruct [
  ("TypeMeta", TypeMeta_ty); ("ObjectMeta", ObjectMeta_ty); ("Spec", CeilometerSpec_ty);
  ("Status", CeilometerStatus_ty)].
Definition Ceilometer_DeepCopyInto : val -> H val := intoBy [
  assign "TypeMeta"; copyStruct "ObjectMeta" ObjectMeta_DeepCopyInto;
  copyStruct "Spec" CeilometerSpec_DeepCopyInto;
  copyStruct "Status" CeilometerStatus_DeepCopyInto].
Definition Ceilometer_DeepCopy : val -> H val :=
  newCopy Ceilometer_ty Ceilometer_DeepCopyInto.
Definition Ceilometer_DeepCopyObject (i : val) : H val :=
  c <- Ceilometer_DeepCopy i; match c with VNil => hret VNil | c => hret c end.

Definition CeilometerList_ty : ty := TStruct [
  ("TypeMeta", TypeMeta_ty); ("ListMeta", ListMeta_ty); ("Items", TSlice Ceilometer_ty)].
Definition CeilometerList_DeepCopyInto : val -> H val := intoBy [
  assign "TypeMeta"; copyStruct "ListMeta" ListMeta_DeepCopyInto;
  copySlice "Items" Ceilometer_ty Ceilometer_DeepCopyInto].
Definition CeilometerList_DeepCopy : val -> H val :=
  newCopy CeilometerList_ty CeilometerList_DeepCopyInto.
Definition CeilometerList_DeepCopyObject (i : val) : H val :=
  c <- CeilometerList_DeepCopy i; match c with VNil => hret VNil | c => hret c end.

Definition CeilometerDefaults_ty : ty := TStruct [
  ("CentralContainerImageURL", TStr); ("NotificationContainerImageURL", TStr);
  ("SgCoreContainerImageURL", TStr); ("ComputeContainerImageURL", TStr);
  ("IpmiContainerImageURL", TStr); ("NodeExporterContainerImageURL", TStr)].
Definition CeilometerDefaults_DeepCopyInto : val -> H val := intoBy [].
Definition CeilometerDefaults_DeepCopy : val -> H val :=
  newCopy CeilometerDefaults_ty CeilometerDefaults_DeepCopyInto.

Definition LoggingSpec_ty : ty := TStruct [
  ("Network", TStr); ("IPAddr", TStr); ("Port", TInt); ("TargetPort", TInt);
  ("CLONamespace", TStr); ("RsyslogRetries", TInt); ("RsyslogQueueType", TStr);
  ("RsyslogQueueSize", TInt)].
Definition LoggingSpec_DeepCopyInto : val -> H val := intoBy [].
Definition LoggingSpec_DeepCopy : val -> H val :=
  newCopy LoggingSpec_ty LoggingSpec_DeepCopyInto.

Definition LoggingStatus_ty : ty := TStruct [
  ("Hash", TMap); ("Conditions", TSlice Condition_ty)].
Definition LoggingStatus_DeepCopyInto : val -> H val := intoBy [
  copyMap "Hash"; copySlice "Conditions" Condition_ty Condition_DeepCopyInto].
Definition LoggingStatus_DeepCopy : val -> H val :=
  newCopy LoggingStatus_ty LoggingStatus_DeepCopyInto.

Definition Logging_ty : ty := TStruct [
  ("TypeMeta", TypeMeta_ty); ("ObjectMeta", ObjectMeta_ty); ("Spec", LoggingSpec_ty);
  ("Status", LoggingStatus_ty)].
Definition Logging_DeepCopyInto : val -> H val := intoBy [
  assign "TypeMeta"; copyStruct "ObjectMeta" ObjectMeta_DeepCopyInto; assign "Spec";
  copyStruct "Status" LoggingStatus_DeepCopyInto].
Definition Logging_DeepCopy : val -> H val :=
  newCopy Logging_ty Logging_DeepCopyInto.
Definition Logging_DeepCopyObject (i : val) : H val :=
  c <- Logging_DeepCopy i; match c with VNil => hret VNil | c => hret c end.

Definition LoggingList_ty : ty := TStruct [
  ("TypeMeta", TypeMeta_ty); ("ListMeta", ListMeta_ty); ("Items", TSlice Logging_ty)].
Definition LoggingList_DeepCopyInto : val -> H val := intoBy [
  assign "TypeMeta"; copyStruct "ListMeta" ListMeta_DeepCopyInto;
  copySlice "Items" Logging_ty Logging_DeepCopyInto].
Definition LoggingList_DeepCopy : val -> H val :=
  newCopy LoggingList_ty LoggingList_DeepCopyInto.
Definition LoggingList_DeepCopyObject (i : val) : H val :=
  c <- LoggingList_DeepCopy i; match c with VNil => hret VNil | c => hret c end.

Definition PersistentStorage_ty : ty := TStruct [
  ("PvcStorageRequest", TStr); ("PvcStorageSelector", LabelSelector_ty);
  ("PvcStorageClass", TStr)].
Definition PersistentStorage_DeepCopyInto : val -> H val := intoBy [
  copyStruct "PvcStorageSelector" LabelSelector_DeepCopyInto].
Definition PersistentStorage_DeepCopy : val -> H val :=
  newCopy PersistentStorage_ty PersistentStorage_DeepCopyInto.

Definition Storage_ty : ty := TStruct [
  ("Strategy", TStr); ("Retention", TStr); ("Persistent", PersistentStorage_ty)].
Definition Storage_DeepCopyInto : val -> H val := intoBy [
  copyStruct "Persistent" PersistentStorage_DeepCopyInto].
Definition Storage_DeepCopy : val -> H val :=
  newCopy Storage_ty Storage_DeepCopyInto.

Definition MonitoringStack_ty : ty := TStruct [
  ("AlertingEnabled", TBool); ("ScrapeInterval", TStr); ("Storage", Storage_ty)].
Definition MonitoringStack_DeepCopyInto : val -> H val := intoBy [
  copyStruct "Storage" Storage_DeepCopyInto].
Definition MonitoringStack_DeepCopy : val -> H val :=
  newCopy MonitoringStack_ty MonitoringStack_DeepCopyInto.

Definition MetricStorageSpec_ty : ty := TStruct [
  ("MonitoringStack", TPtr MonitoringStack_ty);
  ("CustomMonitoringStack", TPtr MonitoringStackSpec_ty)].
Definition MetricStorageSpec_DeepCopyInto : val -> H val := intoBy [
  copyPtr "MonitoringStack" MonitoringStack_ty MonitoringStack_DeepCopyInto;
  copyPtr "CustomMonitoringStack" MonitoringStackSpec_ty MonitoringStackSpec_DeepCopyInto].
Definition MetricStorageSpec_DeepCopy : val -> H val :=
  newCopy MetricStorageSpec_ty MetricStorageSpec_DeepCopyInto.

Definition MetricStorageStatus_ty : ty := TStruct [
  ("Conditions", TSlice Condition_ty)].
Definition MetricStorageStatus_DeepCopyInto : val -> H val := intoBy [
  copySlice "Conditions" Condition_ty Condition_DeepCopyInto].
Definition MetricStorageStatus_DeepCopy : val -> H val :=
  newCopy MetricStorageStatus_ty MetricStorageStatus_DeepCopyInto.

Definition MetricStorage_ty : ty := TStruct [
  ("TypeMeta", TypeMeta_ty); ("ObjectMeta", ObjectMeta_ty); ("Spec", MetricStorageSpec_ty);
  ("Status", MetricStorageStatus_ty)].
Definition MetricStorage_DeepCopyInto : val -> H val := intoBy [
  assign "TypeMeta"; copyStruct "ObjectMeta" ObjectMeta_DeepCopyInto;
  copyStruct "Spec" MetricStorageSpec_DeepCopyInto;
  copyStruct "Status" MetricStorageStatus_DeepCopyInto].
Definition MetricStorage_DeepCopy : val -> H val :=
  newCopy MetricStorage_ty MetricStorage_DeepCopyInto.
Definition MetricStorage_DeepCopyObject (i : val) : H val :=
  c <- MetricStorage_DeepCopy i; match c with VNil => hret VNil | c => hret c end.

Definition MetricStorageList_ty : ty := TStruct [
  ("TypeMeta", TypeMeta_ty); ("ListMeta", ListMeta_ty); ("Items", TSlice MetricStorage_ty)].
Definition MetricStorageList_DeepCopyInto : val -> H val := intoBy [
  assign "TypeMeta"; copyStruct "ListMeta" ListMeta_DeepCopyInto;
  copySlice "Items" MetricStorage_ty MetricStorage_DeepCopyInto].
Definition MetricStorageList_DeepCopy : val -> H val :=
  newCopy MetricStorageList_ty MetricStorageList_DeepCopyInto.
Definition MetricStorageList_DeepCopyObject (i : val) : H val :=
  c <- MetricStorageList_DeepCopy i; match c with VNil => hret VNil | c => hret c end.

Definition CeilometerSection_ty : ty := TStruct [
  ("Enabled", TBool); ("CeilometerSpec", CeilometerSpec_ty)].
Definition CeilometerSection_DeepCopyInto : val -> H val := intoBy [
  copyStruct "CeilometerSpec" CeilometerSpec_DeepCopyInto].
Definition CeilometerSection_DeepCopy : val -> H val :=
  newCopy CeilometerSection_ty CeilometerSection_DeepCopyInto.

Definition AutoscalingSection_ty : ty := TStruct [
  ("Enabled", TBool); ("AutoscalingSpec", AutoscalingSpec_ty)].
Definition AutoscalingSection_DeepCopyInto : val -> H val := intoBy [
  copyStruct "AutoscalingSpec" AutoscalingSpec_DeepCopyInto].
Definition AutoscalingSection_DeepCopy : val -> H val :=
  newCopy AutoscalingSection_ty AutoscalingSection_DeepCopyInto.

Definition MetricStorageSection_ty : ty := TStruct [
  ("Enabled", TBool); ("MetricStorageSpec", MetricStorageSpec_ty)].
Definition MetricStorageSection_DeepCopyInto : val -> H val := intoBy [
  copyStruct "MetricStorageSpec" MetricStorageSpec_DeepCopyInto].
Definition MetricStorageSection_DeepCopy : val -> H val :=
  newCopy MetricStorageSection_ty MetricStorageSection_DeepCopyInto.

Definition TelemetrySpec_ty : ty := TStruct [
  ("Autoscaling", AutoscalingSection_ty); ("Ceilometer", CeilometerSection_ty);
  ("MetricStorage", MetricStorageSection_ty)].
Definition TelemetrySpec_DeepCopyInto : val -> H val := intoBy [
  copyStruct "Autoscaling" AutoscalingSection_DeepCopyInto;
  copyStruct "Ceilometer" CeilometerSection_DeepCopyInto;
  copyStruct "MetricStorage" MetricStorageSection_DeepCopyInto].
Definition TelemetrySpec_DeepCopy : val -> H val :=
  newCopy TelemetrySpec_ty TelemetrySpec_DeepCopyInto.

Definition TelemetryStatus_ty : ty := TStruct [
  ("Hash", TMap); ("Conditions", TSlice Condition_ty)].
Definition TelemetryStatus_DeepCopyInto : val -> H val := intoBy [
  copyMap "Hash"; copySlice "Conditions" Condition_ty Condition_DeepCopyInto].
Definition TelemetryStatus_DeepCopy : val -> H val :=
  newCopy TelemetryStatus_ty TelemetryStatus_DeepCopyInto.

Definition Telemetry_ty : ty := TStruct [
  ("TypeMeta", TypeMeta_ty); ("ObjectMeta", ObjectMeta_ty); ("Spec", TelemetrySpec_ty);
  ("Status", TelemetryStatus_ty)].
Definition Telemetry_DeepCopyInto : val -> H val := intoBy [
  assign "TypeMeta"; copyStruct "ObjectMeta" ObjectMeta_DeepCopyInto;
  copyStruct "Spec" TelemetrySpec_DeepCopyInto; copyStruct "Status" TelemetryStatus_DeepCopyInto].
Definition Telemetry_DeepCopy : val -> H val :=
  newCopy Telemetry_ty Telemetry_DeepCopyInto.
Definition Telemetry_DeepCopyObject (i : val) : H val :=
  c <- Telemetry_DeepCopy i; match c with VNil => hret VNil | c => hret c end.

Definition TelemetryList_ty : ty := TStruct [
  ("TypeMeta", TypeMeta_ty); ("ListMeta", ListMeta_ty); ("Items", TSlice Telemetry_ty)].
Definition TelemetryList_DeepCopyInto : val -> H val := intoBy [
  assign "TypeMeta"; copyStruct "ListMeta" ListMeta_DeepCopyInto;
  copySlice "Items" Telemetry_ty Telemetry_DeepCopyInto].
Definition TelemetryList_DeepCopy : val -> H val :=
  newCopy TelemetryList_ty TelemetryList_DeepCopyInto.
Definition TelemetryList_DeepCopyObject (i : val) : H val :=
  c <- TelemetryList_DeepCopy i; match c with VNil => hret VNil | c => hret c end.

Definition TelemetryDefaults_ty : ty := TStruct [
  ("CentralContainerImageURL", TStr); ("ComputeContainerImageURL", TStr);
  ("NotificationContainerImageURL", TStr); ("SgCoreContainerImageURL", TStr);
  ("NodeExporterContainerImageURL", TStr); ("IpmiContainerImageURL", TStr);
  ("AodhAPIContainerImageURL", TStr); ("AodhEvaluatorContainerImageURL", TStr);
  ("AodhNotifierContainerImageURL", TStr); ("AodhListenerContainerImageURL", TStr);
  ("AodhInitContainerImageURL", TStr)].
Definition TelemetryDefaults_DeepCopyInto : val -> H val := intoBy [].
Definition TelemetryDefaults_DeepCopy : val -> H val :=
  newCopy TelemetryDefaults_ty TelemetryDefaults_DeepCopyInto.

(** The generated functions: the type a function copies, and the function. *)
Definition DeepCopyInto_all : list (ty * (val -> H val)) := [
  (PasswordsSelector_ty, PasswordsSelector_DeepCopyInto);
  (APIOverrideSpec_ty, APIOverrideSpec_DeepCopyInto);
  (Aodh_ty, Aodh_DeepCopyInto);
  (AutoscalingSpec_ty, AutoscalingSpec_DeepCopyInto);
  (AutoscalingStatus_ty, AutoscalingStatus_DeepCopyInto);
  (Autoscaling_ty, Autoscaling_DeepCopyInto);
  (AutoscalingList_ty, AutoscalingList_DeepCopyInto);
  (AutoscalingDefaults_ty, AutoscalingDefaults_DeepCopyInto);
  (CeilometerSpec_ty, CeilometerSpec_DeepCopyInto);
  (CeilometerStatus_ty, CeilometerStatus_DeepCopyInto);
  (Ceilometer_ty, Ceilometer_DeepCopyInto);
  (CeilometerList_ty, CeilometerList_DeepCopyInto);
  (CeilometerDefaults_ty, CeilometerDefaults_DeepCopyInto);
  (LoggingSpec_ty, LoggingSpec_DeepCopyInto);
  (LoggingStatus_ty, LoggingStatus_DeepCopyInto);
  (Logging_ty, Logging_DeepCopyInto);
  (LoggingList_ty, LoggingList_DeepCopyInto);
  (PersistentStorage_ty, PersistentStorage_DeepCopyInto);
  (Storage_ty, Storage_DeepCopyInto);
  (MonitoringStack_ty, MonitoringStack_DeepCopyInto);
  (MetricStorageSpec_ty, MetricStorageSpec_DeepCopyInto);
  (MetricStorageStatus_ty, MetricStorageStatus_DeepCopyInto);
  (MetricStorage_ty, MetricStorage_DeepCopyInto);
  (MetricStorageList_ty, MetricStorageList_DeepCopyInto);
  (CeilometerSection_ty, CeilometerSection_DeepCopyInto);
  (AutoscalingSection_ty, AutoscalingSection_DeepCopyInto);
  (MetricStorageSection_ty, MetricStorageSection_DeepCopyInto);
  (TelemetrySpec_ty, TelemetrySpec_DeepCopyInto);
  (TelemetryStatus_ty, TelemetryStatus_DeepCopyInto);
  (Telemetry_ty, Telemetry_DeepCopyInto);
  (TelemetryList_ty, TelemetryList_DeepCopyInto);
  (TelemetryDefaults_ty, TelemetryDefaults_DeepCopyInto)].

(** Functions on pointers. *)
Definition DeepCopy_all : list (ty * (val -> H val)) := [
  (PasswordsSelector_ty, PasswordsSelector_DeepCopy);
  (APIOverrideSpec_ty, APIOverrideSpec_DeepCopy);
  (Aodh_ty, Aodh_DeepCopy);
  (AutoscalingSpec_ty, AutoscalingSpec_DeepCopy);
  (AutoscalingStatus_ty, AutoscalingStatus_DeepCopy);
  (Autoscaling_ty, Autoscaling_DeepCopy);
  (AutoscalingList_ty, AutoscalingList_DeepCopy);
  (AutoscalingDefaults_ty, AutoscalingDefaults_DeepCopy);
  (CeilometerSpec_ty, CeilometerSpec_DeepCopy);
  (CeilometerStatus_ty, CeilometerStatus_DeepCopy);
  (Ceilometer_ty, Ceilometer_DeepCopy);
  (CeilometerList_ty, CeilometerList_DeepCopy);
  (CeilometerDefaults_ty, CeilometerDefaults_DeepCopy);
  (LoggingSpec_ty, LoggingSpec_DeepCopy);
  (LoggingStatus_ty, LoggingStatus_DeepCopy);
  (Logging_ty, Logging_DeepCopy);
  (LoggingList_ty, LoggingList_DeepCopy);
  (PersistentStorage_ty, PersistentStorage_DeepCopy);
  (Storage_ty, Storage_DeepCopy);
  (MonitoringStack_ty, MonitoringStack_DeepCopy);
  (MetricStorageSpec_ty, MetricStorageSpec_DeepCopy);
  (MetricStorageStatus_ty, MetricStorageStatus_DeepCopy);
  (MetricStorage_ty, MetricStorage_DeepCopy);
  (MetricStorageList_ty, MetricStorageList_DeepCopy);
  (CeilometerSection_ty, CeilometerSection_DeepCopy);
  (AutoscalingSection_ty, AutoscalingSection_DeepCopy);
  (MetricStorageSection_ty, MetricStorageSection_DeepCopy);
  (TelemetrySpec_ty, TelemetrySpec_DeepCopy);
  (TelemetryStatus_ty, TelemetryStatus_DeepCopy);
  (Telemetry_ty, Telemetry_DeepCopy);
  (TelemetryList_ty, TelemetryList_DeepCopy);
  (TelemetryDefaults_ty, TelemetryDefaults_DeepCopy);
  (Autoscaling_ty, Autoscaling_DeepCopyObject);
  (AutoscalingList_ty, AutoscalingList_DeepCopyObject);
  (Ceilometer_ty, Ceilometer_DeepCopyObject);
  (CeilometerList_ty, CeilometerList_DeepCopyObject);
  (Logging_ty, Logging_DeepCopyObject);
  (LoggingList_ty, LoggingList_DeepCopyObject);
  (MetricStorage_ty, MetricStorage_DeepCopyObject);
  (MetricStorageList_ty, MetricStorageList_DeepCopyObject);
  (Telemetry_ty, Telemetry_DeepCopyObject);
  (TelemetryList_ty, TelemetryList_DeepCopyObject)].

(** All of them, with the type of the argument. *)
Definition generated : list (ty * (val -> H val)) :=
  DeepCopyInto_all ++ map (fun '(t, f) => (TPtr t, f)) DeepCopy_all.
End Generated.

(** ** Each is a deep copy

    The hint database holds what is known of the fields' copies. *)
Create HintDb deepcopy.
#[export] Hint Resolve ObjectMeta_deep ListMeta_deep Condition_deep RoutedOverrideSpec_deep
  LabelSelector_deep MonitoringStackSpec_deep : deepcopy.
#[export] Hint Resolve assign_copies copyStruct_copies copyPtr_copies copyMap_copies
  copySlice_copies : deepcopy.
#[export] Hint Resolve deepCopies_refFree newCopy_deep : deepcopy.
#[export] Hint Extern 1 (refFree _ = true) => reflexivity : deepcopy.

Ltac decideList := apply (bool_decide_unpack _); vm_compute; exact I.
Ltac elemHere := repeat first [left | right].

(** [deep nts]: the statements of the body copy the fields [nts], and every
    field that holds references is one of them. *)
Ltac deep nts :=
  apply (intoBy_deep _ _ nts);
  [ repeat (apply copiesAll_cons; [auto 4 with deepcopy|]); apply copiesAll_nil
  | decideList
  | decideList
  | intros ? Hin; repeat (apply elem_of_cons in Hin as [->|Hin]; [elemHere|]);
    by apply not_elem_of_nil in Hin
  | repeat (apply Forall_cons_2; [first [left; reflexivity | right; decideList]|]);
    apply Forall_nil_2 ].

Section GeneratedDeep.
Context `{XL : ExternalLaws}.

Lemma PasswordsSelector_deep : deepCopies PasswordsSelector_ty PasswordsSelector_DeepCopyInto.
Proof. deep ([] : list (string * ty)). Qed.
#[local] Hint Resolve PasswordsSelector_deep : deepcopy.

Lemma APIOverrideSpec_deep : deepCopies APIOverrideSpec_ty APIOverrideSpec_DeepCopyInto.
Proof. deep ([("Service", TPtr RoutedOverrideSpec_ty)]). Qed.
#[local] Hint Resolve APIOverrideSpec_deep : deepcopy.

Lemma Aodh_deep : deepCopies Aodh_ty Aodh_DeepCopyInto.
Proof.
  deep ([("PasswordSelectors", PasswordsSelector_ty); ("DefaultConfigOverwrite", TMap);
    ("NetworkAttachmentDefinitions", TSlice TStr); ("Override", APIOverrideSpec_ty)]).
Qed.
#[local] Hint Resolve Aodh_deep : deepcopy.

Lemma AutoscalingSpec_deep : deepCopies AutoscalingSpec_ty AutoscalingSpec_DeepCopyInto.
Proof. deep ([("Aodh", Aodh_ty)]). Qed.
#[local] Hint Resolve AutoscalingSpec_deep : deepcopy.

Lemma AutoscalingStatus_deep : deepCopies AutoscalingStatus_ty AutoscalingStatus_DeepCopyInto.
Proof.
  deep ([("Hash", TMap); ("Conditions", TSlice Condition_ty); ("Networks", TSlice TStr);
    ("APIEndpoints", TMap)]).
Qed.
#[local] Hint Resolve AutoscalingStatus_deep : deepcopy.

Lemma Autoscaling_deep : deepCopies Autoscaling_ty Autoscaling_DeepCopyInto.
Proof.
  deep ([("TypeMeta", TypeMeta_ty); ("ObjectMeta", ObjectMeta_ty); ("Spec", AutoscalingSpec_ty);
    ("Status", AutoscalingStatus_ty)]).
Qed.
#[local] Hint Resolve Autoscaling_deep : deepcopy.

Lemma AutoscalingList_deep : deepCopies AutoscalingList_ty AutoscalingList_DeepCopyInto.
Proof. deep ([("TypeMeta", TypeMeta_ty); ("ListMeta", ListMeta_ty); ("Items", TSlice Autoscaling_ty)]). Qed.
#[local] Hint Resolve AutoscalingList_deep : deepcopy.

Lemma AutoscalingDefaults_deep : deepCopies AutoscalingDefaults_ty AutoscalingDefaults_DeepCopyInto.
Proof. deep ([] : list (string * ty)). Qed.
#[local] Hint Resolve AutoscalingDefaults_deep : deepcopy.

Lemma CeilometerSpec_deep : deepCopies CeilometerSpec_ty CeilometerSpec_DeepCopyInto.
Proof.
  deep ([("PasswordSelectors", PasswordsSelector_ty); ("DefaultConfigOverwrite", TMap);
    ("NetworkAttachmentDefinitions", TSlice TStr)]).
Qed.
#[local] Hint Resolve CeilometerSpec_deep : deepcopy.

Lemma CeilometerStatus_deep : deepCopies CeilometerStatus_ty CeilometerStatus_DeepCopyInto.
Proof. deep ([("Hash", TMap); ("Conditions", TSlice Condition_ty); ("Networks", TSlice TStr)]). Qed.
#[local] Hint Resolve CeilometerStatus_deep : deepcopy.

Lemma Ceilometer_deep : deepCopies Ceilometer_ty Ceilometer_DeepCopyInto.
Proof.
  deep ([("TypeMeta", TypeMeta_ty); ("ObjectMeta", ObjectMeta_ty); ("Spec", CeilometerSpec_ty);
    ("Status", CeilometerStatus_ty)]).
Qed.
#[local] Hint Resolve Ceilometer_deep : deepcopy.

Lemma CeilometerList_deep : deepCopies CeilometerList_ty CeilometerList_DeepCopyInto.
Proof. deep ([("TypeMeta", TypeMeta_ty); ("ListMeta", ListMeta_ty); ("Items", TSlice Ceilometer_ty)]). Qed.
#[local] Hint Resolve CeilometerList_deep : deepcopy.

Lemma CeilometerDefaults_deep : deepCopies CeilometerDefaults_ty CeilometerDefaults_DeepCopyInto.
Proof. deep ([] : list (string * ty)). Qed.
#[local] Hint Resolve CeilometerDefaults_deep : deepcopy.

Lemma LoggingSpec_deep : deepCopies LoggingSpec_ty LoggingSpec_DeepCopyInto.
Proof. deep ([] : list (string * ty)). Qed.
#[local] Hint Resolve LoggingSpec_deep : deepcopy.

Lemma LoggingStatus_deep : deepCopies LoggingStatus_ty LoggingStatus_DeepCopyInto.
Proof. deep ([("Hash", TMap); ("Conditions", TSlice Condition_ty)]). Qed.
#[local] Hint Resolve LoggingStatus_deep : deepcopy.

Lemma Logging_deep : deepCopies Logging_ty Logging_DeepCopyInto.
Proof.
  deep ([("TypeMeta", TypeMeta_ty); ("ObjectMeta", ObjectMeta_ty); ("Spec", LoggingSpec_ty);
    ("Status", LoggingStatus_ty)]).
Qed.
#[local] Hint Resolve Logging_deep : deepcopy.

Lemma LoggingList_deep : deepCopies LoggingList_ty LoggingList_DeepCopyInto.
Proof. deep ([("TypeMeta", TypeMeta_ty); ("ListMeta", ListMeta_ty); ("Items", TSlice Logging_ty)]). Qed.
#[local] Hint Resolve LoggingList_deep : deepcopy.

Lemma PersistentStorage_deep : deepCopies PersistentStorage_ty PersistentStorage_DeepCopyInto.
Proof. deep ([("PvcStorageSelector", LabelSelector_ty)]). Qed.
#[local] Hint Resolve PersistentStorage_deep : deepcopy.

Lemma Storage_deep : deepCopies Storage_ty Storage_DeepCopyInto.
Proof. deep ([("Persistent", PersistentStorage_ty)]). Qed.
#[local] Hint Resolve Storage_deep : deepcopy.

Lemma MonitoringStack_deep : deepCopies MonitoringStack_ty MonitoringStack_DeepCopyInto.
Proof. deep ([("Storage", Storage_ty)]). Qed.
#[local] Hint Resolve MonitoringStack_deep : deepcopy.

Lemma MetricStorageSpec_deep : deepCopies MetricStorageSpec_ty MetricStorageSpec_DeepCopyInto.
Proof.
  deep ([("MonitoringStack", TPtr MonitoringStack_ty); ("CustomMonitoringStack", TPtr
    MonitoringStackSpec_ty)]).
Qed.
#[local] Hint Resolve MetricStorageSpec_deep : deepcopy.

Lemma MetricStorageStatus_deep : deepCopies MetricStorageStatus_ty MetricStorageStatus_DeepCopyInto.
Proof. deep ([("Conditions", TSlice Condition_ty)]). Qed.
#[local] Hint Resolve MetricStorageStatus_deep : deepcopy.

Lemma MetricStorage_deep : deepCopies MetricStorage_ty MetricStorage_DeepCopyInto.
Proof.
  deep ([("TypeMeta", TypeMeta_ty); ("ObjectMeta", ObjectMeta_ty); ("Spec", MetricStorageSpec_ty);
    ("Status", MetricStorageStatus_ty)]).
Qed.
#[local] Hint Resolve MetricStorage_deep : deepcopy.

Lemma MetricStorageList_deep : deepCopies MetricStorageList_ty MetricStorageList_DeepCopyInto.
Proof. deep ([("TypeMeta", TypeMeta_ty); ("ListMeta", ListMeta_ty); ("Items", TSlice MetricStorage_ty)]). Qed.
#[local] Hint Resolve MetricStorageList_deep : deepcopy.

Lemma CeilometerSection_deep : deepCopies CeilometerSection_ty CeilometerSection_DeepCopyInto.
Proof. deep ([("CeilometerSpec", CeilometerSpec_ty)]). Qed.
#[local] Hint Resolve CeilometerSection_deep : deepcopy.

Lemma AutoscalingSection_deep : deepCopies AutoscalingSection_ty AutoscalingSection_DeepCopyInto.
Proof. deep ([("AutoscalingSpec", AutoscalingSpec_ty)]). Qed.
#[local] Hint Resolve AutoscalingSection_deep : deepcopy.

Lemma MetricStorageSection_deep : deepCopies MetricStorageSection_ty MetricStorageSection_DeepCopyInto.
Proof. deep ([("MetricStorageSpec", MetricStorageSpec_ty)]). Qed.
#[local] Hint Resolve MetricStorageSection_deep : deepcopy.

Lemma TelemetrySpec_deep : deepCopies TelemetrySpec_ty TelemetrySpec_DeepCopyInto.
Proof.
  deep ([("Autoscaling", AutoscalingSection_ty); ("Ceilometer", CeilometerSection_ty);
    ("MetricStorage", MetricStorageSection_ty)]).
Qed.
#[local] Hint Resolve TelemetrySpec_deep : deepcopy.

Lemma TelemetryStatus_deep : deepCopies TelemetryStatus_ty TelemetryStatus_DeepCopyInto.
Proof. deep ([("Hash", TMap); ("Conditions", TSlice Condition_ty)]). Qed.
#[local] Hint Resolve TelemetryStatus_deep : deepcopy.

Lemma Telemetry_deep : deepCopies Telemetry_ty Telemetry_DeepCopyInto.
Proof.
  deep ([("TypeMeta", TypeMeta_ty); ("ObjectMeta", ObjectMeta_ty); ("Spec", TelemetrySpec_ty);
    ("Status", TelemetryStatus_ty)]).
Qed.
#[local] Hint Resolve Telemetry_deep : deepcopy.

Lemma TelemetryList_deep : deepCopies TelemetryList_ty TelemetryList_DeepCopyInto.
Proof. deep ([("TypeMeta", TypeMeta_ty); ("ListMeta", ListMeta_ty); ("Items", TSlice Telemetry_ty)]). Qed.
#[local] Hint Resolve TelemetryList_deep : deepcopy.

Lemma TelemetryDefaults_deep : deepCopies TelemetryDefaults_ty TelemetryDefaults_DeepCopyInto.
Proof. deep ([] : list (string * ty)). Qed.
#[local] Hint Resolve TelemetryDefaults_deep : deepcopy.


Lemma DeepCopyInto_all_deep : Forall (fun '(t, f) => deepCopies t f) DeepCopyInto_all.
Proof. repeat (apply Forall_cons_2; [auto with deepcopy|]). apply Forall_nil_2. Qed.

(** [if c := in.DeepCopy(); c != nil { return c }; return nil] is [DeepCopy]. *)
Lemma returnObject_deep t f :
  deepCopies t f -> deepCopies t (fun i => c <- f i; match c with VNil => hret VNil | c => hret c end).
Proof.
  intros Hf h v x L Hr. destruct (Hf h v x L Hr) as (v' & h' & L' & Hrun & Hrest).
  exists v', h', L'. split; [|done]. unfold hbind. rewrite Hrun. by destruct v'.
Qed.

Lemma DeepCopy_all_deep : Forall (fun '(t, f) => deepCopies (TPtr t) f) DeepCopy_all.
Proof.
  repeat (apply Forall_cons_2;
    [first [apply newCopy_deep | apply returnObject_deep, newCopy_deep]; auto with deepcopy|]).
  apply Forall_nil_2.
Qed.

Lemma generated_deep : Forall (fun '(t, f) => deepCopies t f) generated.
Proof.
  apply Forall_app. split; [exact DeepCopyInto_all_deep|].
  apply Forall_fmap. eapply Forall_impl; [exact DeepCopy_all_deep|]. by intros [].
Qed.

(** C16. Every generated [DeepCopyInto], [DeepCopy] and [DeepCopyObject]
    isolates: called on a value that represents an object (or on nil) in any
    heap, it does not panic, changes nothing that was allocated, and gives a
    value that represents the same object; afterwards, whatever is written to
    the memory there was before the call leaves the copy as it is, and whatever
    is written to the memory the call allocated leaves the original as it is. *)
Theorem generated_deepcopy_isolates t f h p x L0 :
  (t, f) ∈ generated -> rep h t p x L0 ->
  exists p' h', f p h = Some (p', h') /\ h ⊆ h' /\
    (forall h2 : heap, (forall l, l ∉ dom h -> h2 !! l = h' !! l) ->
       exists L', rep h2 t p' x L') /\
    (forall h2 : heap, (forall l, l ∈ dom h -> h2 !! l = h' !! l) -> rep h2 t p x L0).
Proof.
  intros Hin Hr. pose proof generated_deep as Hall. rewrite Forall_forall in Hall.
  specialize (Hall _ Hin). simpl in Hall.
  destruct (Hall h p x L0 Hr) as (p' & h' & L' & Hf & Hs & _).
  destruct (deepCopies_isolated _ _ _ _ _ _ Hall Hr) as (? & ? & Hf' & Hiso).
  rewrite Hf in Hf'. injection Hf' as <- <-.
  exists p', h'. split_and!; [done|done|exact Hiso|]. intros h2 Hh2.
  apply (proj1 (rep_local h) _ _ _ _ Hr). intros l Hl. pose proof (proj1 (rep_dom h) _ _ _ _ Hr l Hl) as Hd.
  rewrite (Hh2 l Hd). apply elem_of_dom in Hd as [o Ho]. rewrite Ho. by eapply lookup_weaken.
Qed.
End GeneratedDeep.

(** ** An instance of the parameters: structs that hold a map *)
Definition dataStruct : ty := TStruct [("Name", TStr); ("Data", TMap)].
Definition dataStruct_into : val -> H val := intoBy [copyMap "Data"].

Lemma dataStruct_deep : deepCopies dataStruct dataStruct_into.
Proof. deep ([("Data", TMap)]). Qed.

Definition dataTypes : ExternalTypes := {|
  ObjectMeta_ty := dataStruct; ObjectMeta_DeepCopyInto := dataStruct_into;
  ListMeta_ty := dataStruct; ListMeta_DeepCopyInto := dataStruct_into;
  Condition_ty := dataStruct; Condition_DeepCopyInto := dataStruct_into;
  RoutedOverrideSpec_ty := dataStruct; RoutedOverrideSpec_DeepCopyInto := dataStruct_into;
  LabelSelector_ty := dataStruct; LabelSelector_DeepCopyInto := dataStruct_into;
  MonitoringStackSpec_ty := dataStruct; MonitoringStackSpec_DeepCopyInto := dataStruct_into |}.

Lemma dataTypes_laws : @ExternalLaws dataTypes.
Proof. constructor; exact dataStruct_deep. Qed.

(** A [TelemetryStatus] at location 1 with a hash map at 2 and one condition
    at 3 whose data is at 4. *)
Definition statusHeap : heap := {[
  1%positive := OVar (VStruct [("Hash", VRef 2); ("Conditions", VRef 3)]);
  2%positive := OMap {["input" := "abc"]};
  3%positive := OSlice [VStruct [("Name", VBase (BStr "Ready")); ("Data", VRef 4)]];
  4%positive := OMap {["status" := "True"]} ]}.
Definition statusTree : tree := NPtr (NStruct [
  ("Hash", NMap {["input" := "abc"]});
  ("Conditions", NSlice [NStruct [("Name", NBase (BStr "Ready"));
     ("Data", NMap {["status" := "True"]})]])]).

Lemma statusHeap_rep : exists L,
  rep statusHeap (TPtr (@TelemetryStatus_ty dataTypes)) (VRef 1) statusTree L.
Proof.
  eexists. eapply rep_ptr; [reflexivity|]. apply rep_struct.
  eapply repFields_cons; [eapply rep_map; reflexivity|].
  eapply repFields_cons; [|apply repFields_nil].
  eapply rep_slice; [reflexivity|]. eapply repElems_cons; [|apply repElems_nil].
  apply rep_struct. eapply repFields_cons; [apply rep_str|].
  eapply repFields_cons; [eapply rep_map; reflexivity|apply repFields_nil].
Qed.

(** The copy keeps its hash when the original's map is changed. *)
Lemma generated_deepcopy_isolates_witness :
  exists p' h', @TelemetryStatus_DeepCopy dataTypes (VRef 1) statusHeap = Some (p', h') /\
    exists L', rep (<[2%positive := OMap ∅]> h') (TPtr (@TelemetryStatus_ty dataTypes)) p' statusTree L'.
Proof.
  destruct statusHeap_rep as [L Hr].
  destruct (@generated_deepcopy_isolates dataTypes dataTypes_laws (TPtr (@TelemetryStatus_ty dataTypes))
    (@TelemetryStatus_DeepCopy dataTypes) statusHeap (VRef 1) statusTree L)
    as (p' & h' & Hf & _ & Hiso & _); [elemHere|exact Hr|].
  exists p', h'. split; [exact Hf|]. apply Hiso. intros l Hl. apply lookup_insert_ne.
  intros <-. apply Hl. apply elem_of_dom. by eexists.
Defined.
