(* ===== verification/Condition.v ===== *)
(** * Conditions: the status conditions every custom resource carries

    The type [condition.Conditions] and its methods belong to lib-common, which
    is not part of the repository: [ConditionLib] lists the methods the
    operator calls, [ConditionLaws] states the documented behaviour the
    theorems rely on.  The data (type, status, reason, severity, message) is
    the one the CRD schemas under [api/bases] give.  [RefConditions] is a
    concrete implementation that satisfies all the laws.

    [updateReady] is the deferred update of the Ready condition that all five
    [Reconcile] functions share. *)

From stdpp Require Import gmap strings list.
From Stdlib Require Import ZArith Lia.
From S2P Require Import Prelude.

(** ** Data *)

(** Condition types, by the Go constants the code uses.  The first group are
    constants of lib-common, the second those of [api/v1beta1/conditions.go];
    [OtherCondition] is any other string found in a status. *)
Inductive CondType :=
| ReadyCondition
| InputReadyCondition
| ServiceConfigReadyCondition
| DeploymentReadyCondition
| ServiceAccountReadyCondition
| RoleReadyCondition
| RoleBindingReadyCondition
| KeystoneServiceReadyCondition
| KeystoneEndpointReadyCondition
| RabbitMqTransportURLReadyCondition
| MemcachedReadyCondition
| DBReadyCondition
| DBSyncReadyCondition
| ExposeServiceReadyCondition
| CeilometerReadyCondition
| AutoscalingReadyCondition
| MetricStorageReadyCondition
| HeatReadyCondition
| MonitoringStackReadyCondition
| ServiceMonitorReadyCondition
| ScrapeConfigReadyCondition
| NodeSetReadyCondition
| OtherCondition (name : string).

Inductive CondStatus := ConditionTrue | ConditionFalse | ConditionUnknown.
Inductive Severity := SeverityError | SeverityWarning | SeverityInfo | SeverityNone.

(** Reasons: lib-common constants, or [condition.Reason(text)]. *)
Inductive Reason := InitReason | RequestedReason | ErrorReason | ReasonText (text : string).

(** A message format: a lib-common constant (by its Go name) or the text
    itself; a message is a format with its arguments. *)
Inductive Format := LibFormat (name : string) | TextFormat (text : string).
Record Message := Msg { msg_format : Format; msg_args : list string }.

Record Condition := MkCondition {
  cond_Type : CondType;
  cond_Status : CondStatus;
  cond_Reason : Reason;
  cond_Severity : Severity;
  cond_Message : Message
}.

#[global] Instance CondType_eq_dec : EqDecision CondType.
Proof. solve_decision. Defined.
#[global] Instance CondStatus_eq_dec : EqDecision CondStatus.
Proof. solve_decision. Defined.
#[global] Instance Severity_eq_dec : EqDecision Severity.
Proof. solve_decision. Defined.

(** [condition.Conditions] is a slice: [None] is the nil slice. *)
Abbreviation Conditions := (option (list Condition)).

Definition items (cs : Conditions) : list Condition := default [] cs.

Fixpoint findCond (l : list Condition) (t : CondType) : option Condition :=
  match l with
  | [] => None
  | c :: l => if decide (cond_Type c = t) then Some c else findCond l t
  end.

(** The entry of type [t]. *)
Definition getCond (cs : Conditions) (t : CondType) : option Condition := findCond (items cs) t.

Definition statusOf (cs : Conditions) (t : CondType) : option CondStatus :=
  cond_Status <$> getCond cs t.

(** No two entries share a type. *)
Definition uniqueTypes (cs : Conditions) : Prop := NoDup (cond_Type <$> items cs).

(** The formats used with [Sprintf]-style arguments. *)
Definition lib (name : string) : Message := Msg (LibFormat name) [].
Definition libf (name arg : string) : Message := Msg (LibFormat name) [arg].
Definition text (t : string) : Message := Msg (TextFormat t) [].
Definition textf (t arg : string) : Message := Msg (TextFormat t) [arg].

(** ** The methods of lib-common the operator uses *)
Class ConditionLib := {
  FalseCondition : CondType -> Reason -> Severity -> Message -> Condition;
  UnknownCondition : CondType -> Reason -> Message -> Condition;
  CreateList : list Condition -> Conditions;
  Init : Conditions -> Conditions -> Conditions;
  Set_ : Conditions -> option Condition -> Conditions;
  MarkTrue : Conditions -> CondType -> Message -> Conditions;
  MarkFalse : Conditions -> CondType -> Reason -> Severity -> Message -> Conditions;
  MarkUnknown : Conditions -> CondType -> Reason -> Message -> Conditions;
  Remove : Conditions -> CondType -> Conditions;
  IsTrue : Conditions -> CondType -> bool;
  AllSubConditionIsTrue : Conditions -> bool;
  Mirror : Conditions -> CondType -> option Condition;
  (** What the owner of a slice sees after [Set_] ran on a copy of the slice
      header: the elements are shared, the length is not. *)
  SetOnCopy : Conditions -> Condition -> Conditions
}.

(** [cs'] is [cs] with the entry of type [t] set to [c]. *)
Definition updatesTo (cs cs' : Conditions) (t : CondType) (c : option Condition) : Prop :=
  forall t', getCond cs' t' = if decide (t' = t) then c else getCond cs t'.

(** Documented behaviour. *)
Class ConditionLaws (L : ConditionLib) : Prop := {
  FalseCondition_spec t r s m : FalseCondition t r s m = MkCondition t ConditionFalse r s m;
  UnknownCondition_spec t r m :
    cond_Type (UnknownCondition t r m) = t /\
    cond_Status (UnknownCondition t r m) = ConditionUnknown;
  CreateList_spec l t : getCond (CreateList l) t = findCond l t;
  Init_ready cs l : statusOf (Init cs l) ReadyCondition = Some ConditionUnknown;
  Init_other cs l t : t <> ReadyCondition -> getCond (Init cs l) t = getCond l t;
  Set_nil cs : Set_ cs None = cs;
  Set_spec cs c : updatesTo cs (Set_ cs (Some c)) (cond_Type c) (Some c);
  MarkTrue_spec cs t m : exists c, cond_Status c = ConditionTrue /\ cond_Type c = t /\
    cond_Message c = m /\ updatesTo cs (MarkTrue cs t m) t (Some c);
  MarkFalse_spec cs t r s m :
    updatesTo cs (MarkFalse cs t r s m) t (Some (FalseCondition t r s m));
  MarkUnknown_spec cs t r m :
    updatesTo cs (MarkUnknown cs t r m) t (Some (UnknownCondition t r m));
  Remove_spec cs t : updatesTo cs (Remove cs t) t None;
  IsTrue_spec cs t : IsTrue cs t = bool_decide (statusOf cs t = Some ConditionTrue);
  (** [Set_], [MarkTrue], ... keep one entry per type. *)
  Set_unique cs c : uniqueTypes cs -> uniqueTypes (Set_ cs c);
  MarkTrue_unique cs t m : uniqueTypes cs -> uniqueTypes (MarkTrue cs t m);
  MarkFalse_unique cs t r s m : uniqueTypes cs -> uniqueTypes (MarkFalse cs t r s m);
  MarkUnknown_unique cs t r m : uniqueTypes cs -> uniqueTypes (MarkUnknown cs t r m);
  Remove_unique cs t : uniqueTypes cs -> uniqueTypes (Remove cs t);
  CreateList_unique l : NoDup (cond_Type <$> l) -> uniqueTypes (CreateList l);
  Init_unique cs l : uniqueTypes l -> uniqueTypes (Init cs l);
  (** True when, and for a list with sub-conditions only when, every condition
      but Ready is True. *)
  AllSub_elim cs c : AllSubConditionIsTrue cs = true -> c ∈ items cs ->
    cond_Type c <> ReadyCondition -> cond_Status c = ConditionTrue;
  AllSub_intro cs : (exists c, c ∈ items cs /\ cond_Type c <> ReadyCondition) ->
    (forall c, c ∈ items cs -> cond_Type c <> ReadyCondition -> cond_Status c = ConditionTrue) ->
    AllSubConditionIsTrue cs = true;
  (** Mirror copies the Status, Reason, Severity and Message of one entry,
      False before Unknown before True. *)
  Mirror_from cs t c : Mirror cs t = Some c -> exists c', c' ∈ items cs /\
    c = MkCondition t (cond_Status c') (cond_Reason c') (cond_Severity c') (cond_Message c');
  Mirror_true cs t c c' : Mirror cs t = Some c -> cond_Status c = ConditionTrue ->
    c' ∈ items cs -> cond_Status c' = ConditionTrue;
  Mirror_false cs t c c' : Mirror cs t = Some c -> c' ∈ items cs ->
    cond_Status c' = ConditionFalse -> cond_Status c = ConditionFalse;
  SetOnCopy_length cs c : length (items (SetOnCopy cs c)) = length (items cs);
  SetOnCopy_present cs c : is_Some (getCond cs (cond_Type c)) ->
    updatesTo cs (SetOnCopy cs c) (cond_Type c) (Some c);
  (** Whatever the capacity of the slice, only the new entry can appear. *)
  SetOnCopy_elem cs c d : d ∈ items (SetOnCopy cs c) -> d ∈ items cs \/ d = c;
  SetOnCopy_unique cs c : uniqueTypes cs -> uniqueTypes (SetOnCopy cs c);
  SetOnCopy_nil cs c : SetOnCopy cs c = None <-> cs = None
}.

(** ** The deferred update of the Ready condition *)
Section Ready.
Context `{L : ConditionLib}.

Definition updateReady (cs : Conditions) : Conditions :=
  if AllSubConditionIsTrue cs then MarkTrue cs ReadyCondition (lib "ReadyMessage")
  else
    let cs1 := MarkUnknown cs ReadyCondition InitReason (lib "ReadyInitMessage") in
    Set_ cs1 (Mirror cs1 ReadyCondition).
End Ready.

(** ** Facts about entries *)
Lemma findCond_elem l t c : findCond l t = Some c -> c ∈ l /\ cond_Type c = t.
Proof.
  induction l as [|c' l IH]; simpl; [done|]. case_decide as Hd; intros H.
  - simplify_eq. split; [by constructor|done].
  - destruct (IH H). split; [by constructor|done].
Qed.

Lemma getCond_elem cs t c : getCond cs t = Some c -> c ∈ items cs /\ cond_Type c = t.
Proof. apply findCond_elem. Qed.

Lemma findCond_unique l c :
  NoDup (cond_Type <$> l) -> c ∈ l -> findCond l (cond_Type c) = Some c.
Proof.
  induction l as [|c' l IH]; simpl; intros Hnd Hin; [by inversion Hin|].
  apply NoDup_cons in Hnd as [Hni Hnd]. apply elem_of_cons in Hin as [->|Hin].
  - by case_decide.
  - case_decide as Heq; [|by apply IH].
    exfalso. apply Hni. rewrite Heq. by apply list_elem_of_fmap_2.
Qed.

Lemma getCond_unique cs c : uniqueTypes cs -> c ∈ items cs -> getCond cs (cond_Type c) = Some c.
Proof. apply findCond_unique. Qed.

Lemma getCond_nonnil cs t c : getCond cs t = Some c -> cs <> None.
Proof. by intros H ->. Qed.

Section ReadyFacts.
Context `{L : ConditionLib} `{LL : !ConditionLaws L}.

Lemma updatesTo_eq cs cs' t c : updatesTo cs cs' t c -> getCond cs' t = c.
Proof. intros H. rewrite H. by case_decide. Qed.

Lemma updatesTo_ne cs cs' t c t' : updatesTo cs cs' t c -> t' <> t -> getCond cs' t' = getCond cs t'.
Proof. intros H Ht. rewrite H. by case_decide. Qed.

Lemma Set_get cs c : getCond (Set_ cs (Some c)) (cond_Type c) = Some c.
Proof. eapply updatesTo_eq, Set_spec. Qed.

Lemma Set_ne cs c t : cond_Type c <> t -> getCond (Set_ cs (Some c)) t = getCond cs t.
Proof. intros. eapply updatesTo_ne; [apply Set_spec|done]. Qed.

Lemma MarkTrue_get cs t m : statusOf (MarkTrue cs t m) t = Some ConditionTrue.
Proof.
  destruct (MarkTrue_spec cs t m) as (c & Hc & _ & _ & Hu).
  unfold statusOf. rewrite (updatesTo_eq _ _ _ _ Hu). simpl. by rewrite Hc.
Qed.

Lemma MarkTrue_ne cs t m t' : t <> t' -> getCond (MarkTrue cs t m) t' = getCond cs t'.
Proof.
  destruct (MarkTrue_spec cs t m) as (c & _ & _ & _ & Hu). intros.
  by eapply updatesTo_ne.
Qed.

Lemma MarkFalse_get cs t r s m : getCond (MarkFalse cs t r s m) t = Some (FalseCondition t r s m).
Proof. eapply updatesTo_eq, MarkFalse_spec. Qed.

Lemma MarkUnknown_ne cs t r m t' : t <> t' -> getCond (MarkUnknown cs t r m) t' = getCond cs t'.
Proof. intros. eapply updatesTo_ne; [apply MarkUnknown_spec|done]. Qed.

Lemma FalseCondition_type t r s m : cond_Type (FalseCondition t r s m) = t.
Proof. by rewrite FalseCondition_spec. Qed.

Lemma FalseCondition_status t r s m : cond_Status (FalseCondition t r s m) = ConditionFalse.
Proof. by rewrite FalseCondition_spec. Qed.

Lemma SetFalse_get cs t r s m :
  getCond (Set_ cs (Some (FalseCondition t r s m))) t = Some (FalseCondition t r s m).
Proof. rewrite <-(FalseCondition_type t r s m) at 2. apply Set_get. Qed.

Lemma Mirror_type cs t c : Mirror cs t = Some c -> cond_Type c = t.
Proof. by intros (c' & _ & ->)%Mirror_from. Qed.

(** Only the Ready entry changes. *)
Lemma updateReady_other cs t : t <> ReadyCondition -> getCond (updateReady cs) t = getCond cs t.
Proof.
  intros Ht. unfold updateReady. destruct (AllSubConditionIsTrue cs); [by apply MarkTrue_ne|].
  set (cs1 := MarkUnknown _ _ _ _).
  destruct (Mirror cs1 ReadyCondition) as [c|] eqn:Hm.
  - rewrite Set_ne by (rewrite (Mirror_type _ _ _ Hm); done). by apply MarkUnknown_ne.
  - rewrite Set_nil. by apply MarkUnknown_ne.
Qed.

(** Ready is True afterwards exactly when all sub-conditions were True. *)
Lemma updateReady_iff cs : IsTrue (updateReady cs) ReadyCondition = AllSubConditionIsTrue cs.
Proof.
  rewrite IsTrue_spec. unfold updateReady. destruct (AllSubConditionIsTrue cs) eqn:Ha.
  - apply bool_decide_eq_true, MarkTrue_get.
  - apply bool_decide_eq_false. set (cs1 := MarkUnknown _ _ _ _).
    destruct (UnknownCondition_spec ReadyCondition InitReason (lib "ReadyInitMessage")) as [_ Hu].
    pose proof (updatesTo_eq _ _ _ _ (MarkUnknown_spec cs ReadyCondition InitReason
      (lib "ReadyInitMessage"))) as Hg.
    destruct (Mirror cs1 ReadyCondition) as [c|] eqn:Hm; unfold statusOf.
    + rewrite <-(Mirror_type _ _ _ Hm). rewrite Set_get. simpl. intros [= Hc].
      apply getCond_elem in Hg as [Hin _].
      by rewrite (Mirror_true _ _ _ _ Hm Hc Hin) in Hu.
    + rewrite Set_nil. unfold cs1. rewrite Hg. simpl. by rewrite Hu.
Qed.

Lemma updateReady_ready cs : is_Some (getCond (updateReady cs) ReadyCondition).
Proof.
  unfold updateReady. destruct (AllSubConditionIsTrue cs).
  - pose proof (MarkTrue_get cs ReadyCondition (lib "ReadyMessage")) as H.
    unfold statusOf in H. destruct (getCond _ _); [eauto|done].
  - set (cs1 := MarkUnknown _ _ _ _). destruct (Mirror cs1 ReadyCondition) as [c|] eqn:Hm.
    + exists c. rewrite <-(Mirror_type _ _ _ Hm). apply Set_get.
    + rewrite Set_nil. eexists. apply updatesTo_eq with (cs := cs). apply MarkUnknown_spec.
Qed.

Lemma updateReady_nonnil cs : updateReady cs <> None.
Proof. destruct (updateReady_ready cs) as [c Hc]. by eapply getCond_nonnil. Qed.

(** Safety: a resource reported Ready has no sub-condition that is not True. *)
Lemma updateReady_sound cs t c :
  IsTrue (updateReady cs) ReadyCondition = true -> t <> ReadyCondition ->
  getCond (updateReady cs) t = Some c -> cond_Status c = ConditionTrue.
Proof.
  rewrite updateReady_iff. intros Ha Ht. rewrite updateReady_other by done.
  intros [Hin <-]%getCond_elem. by eapply AllSub_elim.
Qed.

(** A False or Unknown sub-condition keeps Ready from being True. *)
Lemma updateReady_blocked cs t c :
  t <> ReadyCondition -> getCond cs t = Some c -> cond_Status c <> ConditionTrue ->
  IsTrue (updateReady cs) ReadyCondition = false.
Proof.
  intros Ht Hg Hs. rewrite updateReady_iff. destruct (AllSubConditionIsTrue cs) eqn:Ha; [|done].
  apply getCond_elem in Hg as [Hin <-]. by destruct Hs; eapply AllSub_elim.
Qed.

(** All entries True, at least one of them a sub-condition: Ready. *)
Lemma updateReady_reached cs :
  uniqueTypes cs -> (exists t c, t <> ReadyCondition /\ getCond cs t = Some c) ->
  (forall t c, t <> ReadyCondition -> getCond cs t = Some c -> cond_Status c = ConditionTrue) ->
  IsTrue (updateReady cs) ReadyCondition = true.
Proof.
  intros Hu (t & c & Ht & Hg) Hall. rewrite updateReady_iff. apply AllSub_intro.
  - apply getCond_elem in Hg as [? <-]. eauto.
  - intros c' Hin Hr. eapply Hall; [exact Hr|]. by apply getCond_unique.
Qed.

Lemma updateReady_all cs :
  uniqueTypes cs -> (exists t c, t <> ReadyCondition /\ getCond cs t = Some c) ->
  IsTrue (updateReady cs) ReadyCondition = true <->
  (forall t c, t <> ReadyCondition -> getCond cs t = Some c -> cond_Status c = ConditionTrue).
Proof.
  intros Hu Hex. split; [|by apply updateReady_reached].
  intros Hr t c Ht Hc. eapply updateReady_sound; [exact Hr|exact Ht|].
  by rewrite updateReady_other.
Qed.

(** One entry per type stays so. *)
Lemma updateReady_unique cs : uniqueTypes cs -> uniqueTypes (updateReady cs).
Proof.
  intros Hu. unfold updateReady. destruct (AllSubConditionIsTrue cs); [by apply MarkTrue_unique|].
  by apply Set_unique, MarkUnknown_unique.
Qed.

(** The initial list of a controller: [ts] are the types of its conditions. *)
Lemma Init_CreateList_unique cs l ts :
  cond_Type <$> l = ts -> NoDup ts -> uniqueTypes (Init cs (CreateList l)).
Proof. intros <- Hl. by apply Init_unique, CreateList_unique. Qed.

(** *** Lists whose sub-conditions are all True *)
Definition allTrue (cs : Conditions) : Prop :=
  forall c, c ∈ items cs -> cond_Type c <> ReadyCondition -> cond_Status c = ConditionTrue.

Lemma allTrue_MarkTrue cs t m : uniqueTypes cs -> allTrue cs -> allTrue (MarkTrue cs t m).
Proof.
  intros Hu Ha c Hc Ht. apply getCond_unique in Hc; [|by apply MarkTrue_unique].
  destruct (MarkTrue_spec cs t m) as (c0 & Hs & _ & _ & Hup). rewrite Hup in Hc.
  case_decide; [naive_solver|]. apply getCond_elem in Hc as [? _]. by apply Ha.
Qed.

Lemma allTrue_SetOnCopy l cs : uniqueTypes cs -> allTrue cs ->
  Forall (fun c => cond_Status c = ConditionTrue) l ->
  uniqueTypes (fold_left SetOnCopy l cs) /\ allTrue (fold_left SetOnCopy l cs).
Proof.
  intros Hu Ha Hl. revert cs Hu Ha. induction Hl as [|c l Hc _ IH]; intros cs Hu Ha; [done|].
  simpl. apply IH; [by apply SetOnCopy_unique|].
  intros d [Hd|Hd]%SetOnCopy_elem Ht; [by apply Ha|by subst].
Qed.

(** With a sub-condition, they make Ready True. *)
Lemma allTrue_ready cs t c : allTrue cs -> t <> ReadyCondition -> getCond cs t = Some c ->
  IsTrue (updateReady cs) ReadyCondition = true.
Proof.
  intros Ha Ht [Hin <-]%getCond_elem. rewrite updateReady_iff. apply AllSub_intro; eauto.
Qed.

Lemma allTrue_updateReady cs : uniqueTypes cs -> allTrue cs -> allTrue (updateReady cs).
Proof.
  intros Hu Ha c Hc Ht. pose proof (getCond_unique _ _ (updateReady_unique cs Hu) Hc) as Hg.
  rewrite updateReady_other in Hg by done. apply getCond_elem in Hg as [Hin _]. by apply Ha.
Qed.

Lemma allTrue_marked cs t m : allTrue (MarkTrue cs t m) -> t <> ReadyCondition ->
  IsTrue (updateReady (MarkTrue cs t m)) ReadyCondition = true.
Proof.
  intros Ha Ht. destruct (MarkTrue_spec cs t m) as (c & _ & _ & _ & Hup).
  exact (allTrue_ready _ t c Ha Ht (updatesTo_eq _ _ _ _ Hup)).
Qed.

(** *** Lists over a set of types, some of them still to become True *)

(** One entry per type, of the types [ts] and Ready. *)
Definition ofTypes (ts : list CondType) (cs : Conditions) : Prop :=
  uniqueTypes cs /\ forall c, c ∈ items cs -> cond_Type c = ReadyCondition \/ cond_Type c ∈ ts.

(** Every sub-condition that is not True has a type in [P]. *)
Definition pendingOnly (P : CondType -> Prop) (cs : Conditions) : Prop :=
  forall c, c ∈ items cs -> cond_Type c <> ReadyCondition ->
    cond_Status c = ConditionTrue \/ P (cond_Type c).

Lemma updatesTo_elem cs cs' t c d : uniqueTypes cs' -> updatesTo cs cs' t (Some c) ->
  d ∈ items cs' -> d = c /\ cond_Type d = t \/ d ∈ items cs /\ cond_Type d <> t.
Proof.
  intros Hu Hup Hd. pose proof (getCond_unique _ _ Hu Hd) as Hg. rewrite Hup in Hg.
  case_decide; [left; by simplify_eq|right]. by apply getCond_elem in Hg as [? _].
Qed.

(** A new entry of type [t]. *)
Lemma ofTypes_update ts cs cs' t c : ofTypes ts cs -> uniqueTypes cs' ->
  updatesTo cs cs' t (Some c) -> t = ReadyCondition \/ t ∈ ts -> ofTypes ts cs'.
Proof.
  intros [_ Ho] Hu Hup Ht. split; [done|]. intros d Hd.
  destruct (updatesTo_elem _ _ _ _ _ Hu Hup Hd) as [[_ ->]|[Hd' _]]; auto.
Qed.

(** ... that is True. *)
Lemma pendingOnly_update P cs cs' t c : pendingOnly P cs -> uniqueTypes cs' ->
  updatesTo cs cs' t (Some c) -> cond_Status c = ConditionTrue ->
  pendingOnly (fun t' => P t' /\ t' <> t) cs'.
Proof.
  intros Hp Hu Hup Hc d Hd Hr.
  destruct (updatesTo_elem _ _ _ _ _ Hu Hup Hd) as [[-> _]|[Hd' Hne]]; [by left|].
  destruct (Hp d Hd' Hr); auto.
Qed.

Lemma pendingOnly_none cs : pendingOnly (fun _ => False) cs -> allTrue cs.
Proof. intros H c Hc Hr. by destruct (H c Hc Hr). Qed.

Lemma ofTypes_pending ts cs : ofTypes ts cs -> pendingOnly (fun t => t ∈ ts) cs.
Proof. intros [_ H] c Hc Hr. destruct (H c Hc) as [?|?]; [done|by right]. Qed.

Lemma pendingOnly_mono (P Q : CondType -> Prop) cs :
  (forall t, P t -> Q t) -> pendingOnly P cs -> pendingOnly Q cs.
Proof. intros HPQ H c Hc Hr. destruct (H c Hc Hr); auto. Qed.

(** The state of a list on the way: over [ts], with [P] pending. *)
Definition onWay (ts : list CondType) (P : CondType -> Prop) (cs : Conditions) : Prop :=
  ofTypes ts cs /\ pendingOnly P cs.

Lemma onWay_start ts cs : ofTypes ts cs -> onWay ts (fun t => t ∈ ts) cs.
Proof. intros H. split; [done|by apply ofTypes_pending]. Qed.

Lemma onWay_MarkTrue ts P cs t m : t ∈ ts -> onWay ts P cs ->
  onWay ts (fun t' => P t' /\ t' <> t) (MarkTrue cs t m).
Proof.
  intros Ht [Ho Hp]. destruct (MarkTrue_spec cs t m) as (c & Hc & _ & _ & Hup).
  pose proof (MarkTrue_unique cs t m (proj1 Ho)) as Hu. split.
  - by eapply ofTypes_update; [exact Ho|done|exact Hup|right].
  - by eapply pendingOnly_update.
Qed.

Lemma onWay_Set ts P cs c : cond_Type c ∈ ts -> cond_Status c = ConditionTrue -> onWay ts P cs ->
  onWay ts (fun t' => P t' /\ t' <> cond_Type c) (Set_ cs (Some c)).
Proof.
  intros Ht Hc [Ho Hp]. pose proof (Set_unique cs (Some c) (proj1 Ho)) as Hu. split.
  - by eapply ofTypes_update; [exact Ho|done|apply Set_spec|right].
  - by eapply pendingOnly_update; [exact Hp|done|apply Set_spec|].
Qed.

(** Entries set through the copy of the slice header: only where there is one. *)
Lemma onWay_SetOnCopy ts P l cs :
  Forall (fun c => cond_Type c ∈ ts /\ cond_Status c = ConditionTrue) l -> onWay ts P cs ->
  onWay ts (fun t => P t /\ t ∉ cond_Type <$> l) (fold_left SetOnCopy l cs).
Proof.
  intros Hl. revert P cs. induction Hl as [|c l [Ht Hc] _ IH]; intros P cs [Ho Hp]; simpl.
  { split; [done|]. eapply pendingOnly_mono; [|exact Hp]. intros t Hpt. split; [done|apply not_elem_of_nil]. }
  assert (onWay ts (fun t => P t /\ t <> cond_Type c) (SetOnCopy cs c)) as Hc'.
  { split; [split|].
    - by apply SetOnCopy_unique, Ho.
    - intros d [Hd| ->]%SetOnCopy_elem; [by apply Ho|by right].
    - intros d Hd Hr. pose proof Hd as [Hd'| ->]%SetOnCopy_elem; [|by left].
      destruct (Hp d Hd' Hr) as [?|HP]; [by left|]. destruct (decide (cond_Type d = cond_Type c)) as [He|]; [|auto].
      left. pose proof (getCond_unique _ _ (SetOnCopy_unique _ c (proj1 Ho)) Hd) as Hg.
      rewrite SetOnCopy_present in Hg; [case_decide; by simplify_eq|].
      rewrite <-He. by eexists; apply getCond_unique; [apply Ho|]. }
  destruct (IH _ _ Hc') as [Ho' Hp']. split; [done|]. eapply pendingOnly_mono; [|exact Hp'].
  intros t [[HP Hne] Hni]. split; [done|]. by apply not_elem_of_cons.
Qed.

Lemma onWay_done ts P cs : onWay ts P cs -> (forall t, ~ P t) -> allTrue cs.
Proof.
  intros [_ Hp] Hn. apply pendingOnly_none. eapply pendingOnly_mono; [|exact Hp].
  intros t Ht. by apply (Hn t).
Qed.

(** What the end of a pass leaves. *)
Lemma ofTypes_updateReady ts cs : ofTypes ts cs -> ofTypes ts (updateReady cs).
Proof.
  intros [Hu Ho]. pose proof (updateReady_unique cs Hu) as Hu'. split; [done|]. intros c Hc.
  destruct (decide (cond_Type c = ReadyCondition)) as [|Hr]; [by left|].
  pose proof (getCond_unique _ _ Hu' Hc) as Hg. rewrite updateReady_other in Hg by done.
  apply getCond_elem in Hg as [Hin _]. by apply Ho.
Qed.

Lemma ofTypes_init ts cs l : cond_Type <$> l = ts -> NoDup ts -> ofTypes ts (Init cs (CreateList l)).
Proof.
  intros Hl Hts. pose proof (Init_CreateList_unique cs l ts Hl Hts) as Hu. split; [done|].
  intros c Hc. destruct (decide (cond_Type c = ReadyCondition)) as [|Hr]; [by left|right].
  pose proof (getCond_unique _ _ Hu Hc) as Hg. rewrite Init_other, CreateList_spec in Hg by done.
  apply findCond_elem in Hg as [Hin _]. rewrite <-Hl. by apply list_elem_of_fmap_2.
Qed.

(** What the steps of a pass leave, whatever the status. *)
Lemma ofTypes_MarkTrue ts cs t m : t ∈ ts -> ofTypes ts cs -> ofTypes ts (MarkTrue cs t m).
Proof.
  intros Ht Ho. destruct (MarkTrue_spec cs t m) as (c & _ & _ & _ & Hup).
  eapply ofTypes_update; [exact Ho|by apply MarkTrue_unique, Ho|exact Hup|by right].
Qed.
Lemma ofTypes_MarkFalse ts cs t r s m : t ∈ ts -> ofTypes ts cs -> ofTypes ts (MarkFalse cs t r s m).
Proof.
  intros Ht Ho. eapply ofTypes_update; [exact Ho|by apply MarkFalse_unique, Ho|apply MarkFalse_spec|by right].
Qed.
Lemma ofTypes_Set ts cs c : (forall c', c = Some c' -> cond_Type c' ∈ ts) -> ofTypes ts cs -> ofTypes ts (Set_ cs c).
Proof.
  intros Ht Ho. destruct c as [c|]; [|by rewrite Set_nil].
  eapply ofTypes_update; [exact Ho|by apply Set_unique, Ho|apply Set_spec|right; by apply Ht].
Qed.
Lemma ofTypes_SetFalse ts cs t r s m : t ∈ ts -> ofTypes ts cs ->
  ofTypes ts (Set_ cs (Some (FalseCondition t r s m))).
Proof. intros Ht. apply ofTypes_Set. intros c [= <-]. by rewrite FalseCondition_spec. Qed.
Lemma ofTypes_SetMirror ts cs cs' t c : Mirror cs' t = Some c -> t ∈ ts -> ofTypes ts cs ->
  ofTypes ts (Set_ cs (Some c)).
Proof. intros (c' & _ & ->)%Mirror_from Ht. apply ofTypes_Set. by intros ? [= <-]. Qed.
Lemma ofTypes_Remove ts cs t : ofTypes ts cs -> ofTypes ts (Remove cs t).
Proof.
  intros [Hu Ho]. pose proof (Remove_unique cs t Hu) as Hu'. split; [done|]. intros c Hc.
  pose proof (getCond_unique _ _ Hu' Hc) as Hg. rewrite Remove_spec in Hg. case_decide; [done|].
  apply getCond_elem in Hg as [Hin _]. by apply Ho.
Qed.
Lemma ofTypes_SetOnCopy ts l cs : Forall (fun c => cond_Type c ∈ ts) l -> ofTypes ts cs ->
  ofTypes ts (fold_left SetOnCopy l cs).
Proof.
  intros Hl. revert cs. induction Hl as [|c l Hc _ IH]; intros cs [Hu Ho]; simpl; [by split|]. apply IH.
  split; [by apply SetOnCopy_unique|]. intros d [Hd| ->]%SetOnCopy_elem; [by apply Ho|by right].
Qed.

(** Without the entry of type [t]. *)
Lemma ofTypes_without ts t cs : t <> ReadyCondition -> getCond cs t = None -> ofTypes (t :: ts) cs -> ofTypes ts cs.
Proof.
  intros Ht Hn [Hu Ho]. split; [done|]. intros c Hc. destruct (Ho c Hc) as [|[Heq|]%elem_of_cons]; [by left| |by right].
  pose proof (getCond_unique _ _ Hu Hc) as Hg. congruence.
Qed.

Lemma ofTypes_mono ts ts' cs : ts ⊆ ts' -> ofTypes ts cs -> ofTypes ts' cs.
Proof. intros Hs [Hu Ho]. split; [done|]. intros c Hc. destruct (Ho c Hc); [by left|right; by apply Hs]. Qed.
End ReadyFacts.
