(* ===== verification/Api.v ===== *)
(** * The API types ([api/v1beta1/*_types.go], [conditions.go])

    One record per Go struct, with a field prefix per struct.  A Go map that
    the code compares with nil or writes to is an [option gmap] ([None] is
    nil); a pointer is an [option].  Types of other modules are represented
    by the fields the repository reads or writes; [mss_Rest] stands for all
    the fields of [obov1.MonitoringStackSpec] it only copies. *)

From stdpp Require Import gmap strings list.
From Stdlib Require Import ZArith Lia.
From S2P Require Import Prelude Condition.

(** ** Kubernetes metadata *)
Record OwnerReference := MkOwnerRef { own_Kind : string; own_Name : string }.

Record ObjectMeta := MkMeta {
  meta_Name : string;
  meta_Namespace : string;
  meta_Labels : gmap string string;
  meta_Annotations : gmap string string;
  meta_Finalizers : list string;
  meta_DeletionTimestamp : option Z;
  meta_OwnerReferences : list OwnerReference
}.

(** [metav1.ObjectMeta{Name: ..., Namespace: ...}] *)
Definition newMeta (name namespace : string) : ObjectMeta :=
  MkMeta name namespace ∅ ∅ [] None [].

Definition withFinalizers (f : list string) (m : ObjectMeta) : ObjectMeta :=
  MkMeta (meta_Name m) (meta_Namespace m) (meta_Labels m) (meta_Annotations m) f
    (meta_DeletionTimestamp m) (meta_OwnerReferences m).

Definition withLabels (l : gmap string string) (m : ObjectMeta) : ObjectMeta :=
  MkMeta (meta_Name m) (meta_Namespace m) l (meta_Annotations m) (meta_Finalizers m)
    (meta_DeletionTimestamp m) (meta_OwnerReferences m).

Definition withAnnotations (a : gmap string string) (m : ObjectMeta) : ObjectMeta :=
  MkMeta (meta_Name m) (meta_Namespace m) (meta_Labels m) a (meta_Finalizers m)
    (meta_DeletionTimestamp m) (meta_OwnerReferences m).

(** [client.ObjectKeyFromObject] *)
Definition keyOf (m : ObjectMeta) : NamespacedName := MkKey (meta_Namespace m) (meta_Name m).

(** [DeletionTimestamp.IsZero()] *)
Definition notDeleting (m : ObjectMeta) : bool :=
  match meta_DeletionTimestamp m with None => true | Some _ => false end.

Record LabelSelector := MkSelector {
  sel_MatchLabels : option (gmap string string);
  sel_MatchExpressions : option (list string)
}.
Definition zeroSelector : LabelSelector := MkSelector None None.

#[global] Instance LabelSelector_eq_dec : EqDecision LabelSelector.
Proof. solve_decision. Defined.

(** [corev1.Secret] *)
Record Secret := MkSecret { sec_Name : string; sec_Data : gmap string string }.

(** Go's [m[k]] on a [map[string][]byte] or [map[string]string]: a missing
    key reads as the zero value. *)
Definition mapGet (m : gmap string string) (k : string) : string := default "" (m !! k).

(** ** telemetry_types.go: password selectors *)
Record PasswordsSelector := MkPasswords {
  pw_Service : string;
  pw_AodhService : string;
  pw_Database : string
}.

(** ** ceilometer_types.go *)
Record CeilometerSpec := MkCeilometerSpec {
  ceis_RabbitMqClusterName : string;
  ceis_PasswordSelectors : PasswordsSelector;
  ceis_ServiceUser : string;
  ceis_Secret : string;
  ceis_CustomServiceConfig : string;
  ceis_DefaultConfigOverwrite : gmap string string;
  ceis_NetworkAttachmentDefinitions : list string;
  ceis_CentralImage : string;
  ceis_NotificationImage : string;
  ceis_SgCoreImage : string;
  ceis_ComputeImage : string;
  ceis_IpmiImage : string;
  ceis_NodeExporterImage : string
}.

Record CeilometerStatus := MkCeilometerStatus {
  ceit_ReadyCount : Z;
  ceit_Hash : option (gmap string string);
  ceit_Conditions : Conditions;
  ceit_TransportURLSecret : string;
  ceit_Networks : list string
}.

Record Ceilometer := MkCeilometer {
  cei_Meta : ObjectMeta;
  cei_Spec : CeilometerSpec;
  cei_Status : CeilometerStatus
}.

(** ** autoscaling_types.go *)

(** [service.RoutedOverrideSpec]; [ro_Spec] is the service spec override. *)
Record LabelsAnnotations := MkLabelsAnnotations {
  la_Labels : gmap string string;
  la_Annotations : gmap string string
}.
Record RoutedOverrideSpec := MkOverride {
  ro_EmbeddedLabelsAnnotations : option LabelsAnnotations;
  ro_Spec : option string;
  ro_EndpointURL : option string
}.

Record APIOverrideSpec := MkAPIOverride { ao_Service : option RoutedOverrideSpec }.

Record Aodh := MkAodh {
  aodh_RabbitMqClusterName : string;
  aodh_DatabaseInstance : string;
  aodh_DatabaseUser : string;
  aodh_PasswordSelectors : PasswordsSelector;
  aodh_ServiceUser : string;
  aodh_Secret : string;
  aodh_CustomServiceConfig : string;
  aodh_DefaultConfigOverwrite : gmap string string;
  aodh_NetworkAttachmentDefinitions : list string;
  aodh_Override : APIOverrideSpec;
  aodh_PreserveJobs : bool;
  aodh_MemcachedInstance : string;
  aodh_APIImage : string;
  aodh_EvaluatorImage : string;
  aodh_NotifierImage : string;
  aodh_ListenerImage : string
}.

Record AutoscalingSpec := MkAutoscalingSpec {
  ascs_PrometheusHost : string;
  ascs_PrometheusPort : Z;
  ascs_Aodh : Aodh;
  ascs_HeatInstance : string
}.

Record AutoscalingStatus := MkAutoscalingStatus {
  asct_ReadyCount : Z;
  asct_Hash : option (gmap string string);
  asct_Conditions : Conditions;
  asct_Networks : list string;
  asct_TransportURLSecret : string;
  asct_DatabaseHostname : string;
  asct_PrometheusHost : string;
  asct_PrometheusPort : Z;
  asct_APIEndpoints : option (gmap string string)
}.

Record Autoscaling := MkAutoscaling {
  asc_Kind : string;
  asc_Meta : ObjectMeta;
  asc_Spec : AutoscalingSpec;
  asc_Status : AutoscalingStatus
}.

(** ** logging_types.go *)
Record LoggingSpec := MkLoggingSpec {
  logs_Network : string;
  logs_IPAddr : string;
  logs_Port : Z;
  logs_TargetPort : Z;
  logs_CLONamespace : string;
  logs_RsyslogRetries : Z;
  logs_RsyslogQueueType : string;
  logs_RsyslogQueueSize : Z
}.

Record LoggingStatus := MkLoggingStatus {
  logt_Hash : option (gmap string string);
  logt_Conditions : Conditions
}.

Record Logging := MkLogging {
  log_Meta : ObjectMeta;
  log_Spec : LoggingSpec;
  log_Status : LoggingStatus
}.

(** ** metricstorage_types.go *)
Record PersistentStorage := MkPersistentStorage {
  ps_PvcStorageRequest : string;
  ps_PvcStorageSelector : LabelSelector;
  ps_PvcStorageClass : string
}.

Record Storage := MkStorage {
  st_Strategy : string;
  st_Retention : string;
  st_Persistent : PersistentStorage
}.

Record MonitoringStack := MkMonitoringStack {
  ms_AlertingEnabled : bool;
  ms_ScrapeInterval : string;
  ms_Storage : Storage
}.

(** [corev1.PersistentVolumeClaimSpec]: [pvc_Requests] is the ["storage"]
    request, a parsed quantity. *)
Record PVCSpec := MkPVC {
  pvc_Selector : option LabelSelector;
  pvc_StorageClassName : option string;
  pvc_Requests : option string
}.

Record PrometheusConfig := MkPrometheusConfig {
  pc_Replicas : option Z;
  pc_PersistentVolumeClaim : option PVCSpec
}.

(** [obov1.MonitoringStackSpec] *)
Record MonitoringStackSpec := MkMonitoringStackSpec {
  mss_AlertmanagerDisabled : bool;
  mss_PrometheusConfig : option PrometheusConfig;
  mss_Retention : string;
  mss_LogLevel : string;
  mss_ResourceSelector : option LabelSelector;
  mss_Rest : string
}.
Definition zeroMonitoringStackSpec : MonitoringStackSpec :=
  MkMonitoringStackSpec false None "" "" None "".

#[global] Instance PVCSpec_eq_dec : EqDecision PVCSpec.
Proof. solve_decision. Defined.
#[global] Instance PrometheusConfig_eq_dec : EqDecision PrometheusConfig.
Proof. solve_decision. Defined.
#[global] Instance MonitoringStackSpec_eq_dec : EqDecision MonitoringStackSpec.
Proof. solve_decision. Defined.

Record MetricStorageSpec := MkMetricStorageSpec {
  mets_MonitoringStack : option MonitoringStack;
  mets_CustomMonitoringStack : option MonitoringStackSpec
}.

Record MetricStorageStatus := MkMetricStorageStatus { mett_Conditions : Conditions }.

Record MetricStorage := MkMetricStorage {
  met_Meta : ObjectMeta;
  met_Spec : MetricStorageSpec;
  met_Status : MetricStorageStatus
}.

(** ** telemetry_types.go *)
Record CeilometerSection := MkCeilometerSection {
  csec_Enabled : bool;
  csec_CeilometerSpec : CeilometerSpec
}.
Record AutoscalingSection := MkAutoscalingSection {
  asec_Enabled : bool;
  asec_AutoscalingSpec : AutoscalingSpec
}.
Record MetricStorageSection := MkMetricStorageSection {
  msec_Enabled : bool;
  msec_MetricStorageSpec : MetricStorageSpec
}.

Record TelemetrySpec := MkTelemetrySpec {
  tels_Autoscaling : AutoscalingSection;
  tels_Ceilometer : CeilometerSection;
  tels_MetricStorage : MetricStorageSection
}.

Record TelemetryStatus := MkTelemetryStatus {
  telt_Hash : option (gmap string string);
  telt_Conditions : Conditions
}.

Record Telemetry := MkTelemetry {
  tel_Meta : ObjectMeta;
  tel_Spec : TelemetrySpec;
  tel_Status : TelemetryStatus
}.

(** ** Methods of the API types *)
Section Methods.
Context `{L : ConditionLib}.

Definition Ceilometer_IsReady (i : Ceilometer) : bool :=
  IsTrue (ceit_Conditions (cei_Status i)) ReadyCondition.
Definition Autoscaling_IsReady (i : Autoscaling) : bool :=
  IsTrue (asct_Conditions (asc_Status i)) ReadyCondition.
Definition MetricStorage_IsReady (i : MetricStorage) : bool :=
  IsTrue (mett_Conditions (met_Status i)) ReadyCondition.
Definition Telemetry_IsReady (i : Telemetry) : bool :=
  IsTrue (telt_Conditions (tel_Status i)) ReadyCondition.
End Methods.

(** The name of the rbac objects. *)
Definition Ceilometer_RbacResourceName (i : Ceilometer) : string :=
  "telemetry-" +:+ meta_Name (cei_Meta i).
Definition Autoscaling_RbacResourceName (i : Autoscaling) : string :=
  "telemetry-" +:+ meta_Name (asc_Meta i).
Definition Logging_RbacResourceName (i : Logging) : string :=
  "telemetry-" +:+ meta_Name (log_Meta i).

Definition Ceilometer_RbacNamespace (i : Ceilometer) : string := meta_Namespace (cei_Meta i).
Definition Autoscaling_RbacNamespace (i : Autoscaling) : string := meta_Namespace (asc_Meta i).
Definition Logging_RbacNamespace (i : Logging) : string := meta_Namespace (log_Meta i).

(** ** conditions.go: the string behind each condition type of this API *)
Definition telemetryTypeName (t : CondType) : option string :=
  match t with
  | CeilometerReadyCondition => Some "CeilometerReady"
  | AutoscalingReadyCondition => Some "AutoscalingReady"
  | MetricStorageReadyCondition => Some "MetricStorageReady"
  | HeatReadyCondition => Some "HeatReady"
  | MonitoringStackReadyCondition => Some "MonitoringStackReady"
  | ServiceMonitorReadyCondition => Some "CeilometerServiceMonitorReady"
  | ScrapeConfigReadyCondition => Some "NodeExporterScrapeConfigReady"
  | NodeSetReadyCondition => Some "NodeSetWatchReady"
  | _ => None
  end.

(** ** conditions.go: messages *)
Definition CeilometerReadyInitMessage := text "Ceilometer not started".
Definition CeilometerReadyMessage := text "Ceilometer completed".
Definition CeilometerReadyErrorMessage (e : string) := textf "Ceilometer error occured %s" e.
Definition CeilometerReadyRunningMessage := text "Ceilometer in progress".
Definition AutoscalingReadyInitMessage := text "Autoscaling not started".
Definition AutoscalingReadyMessage := text "Autoscaling completed".
Definition AutoscalingReadyErrorMessage (e : string) := textf "Autoscaling error occured %s" e.
Definition AutoscalingReadyRunningMessage := text "Autoscaling in progress".
Definition MetricStorageReadyInitMessage := text "MetricStorage not started".
Definition MetricStorageReadyMessage := text "MetricStorage completed".
Definition MetricStorageReadyErrorMessage (e : string) := textf "MetricStorage error occured %s" e.
Definition MetricStorageReadyRunningMessage := text "MetricStorage in progress".
Definition HeatReadyInitMessage := text "Heat not started".
Definition HeatReadyErrorMessage (e : string) := textf "Heat error occured %s" e.
Definition HeatReadyNotFoundMessage := text "Heat has not been found".
Definition HeatReadyUnreadyMessage := text "Heat isn't ready yet".
Definition MonitoringStackReadyInitMessage := text "MonitoringStack not started".
Definition MonitoringStackUnableToOwnMessage (e : string) :=
  textf "Error occured when trying to own: %s" e.
Definition MonitoringStackReadyMisconfiguredMessage (e : string) :=
  textf "MonitoringStack isn't configured properly: %s" e.
Definition ServiceMonitorReadyInitMessage := text "ServiceMonitor not started".
Definition ServiceMonitorUnableToOwnMessage (e : string) :=
  textf "Error occured when trying to own %s" e.
Definition ScrapeConfigReadyInitMessage := text "ScrapeConfig not started".
Definition ScrapeConfigUnableToOwnMessage (e : string) :=
  textf "Error occured when trying to own %s" e.
Definition NodeSetReadyInitMessage := text "NodeSet not watched".
Definition NodeSetUnableToWatchMessage (e : string) :=
  textf "Error occured when trying to watch %s" e.

(** ** Custom resources: what the controllers share

    The finalizer list and the conditions of the object a controller works
    on, as a lens pair on the controller's state. *)
Class CustomResource (T : Type) := {
  crMeta : T -> ObjectMeta;
  crSetMeta : ObjectMeta -> T -> T;
  crConds : T -> Conditions;
  crSetConds : Conditions -> T -> T;
  crMeta_setMeta m t : crMeta (crSetMeta m t) = m;
  crConds_setConds c t : crConds (crSetConds c t) = c;
  crMeta_setConds c t : crMeta (crSetConds c t) = crMeta t;
  crConds_setMeta m t : crConds (crSetMeta m t) = crConds t;
  crSetMeta_id t : crSetMeta (crMeta t) t = t
}.

#[global] Instance Telemetry_cr : CustomResource Telemetry.
Proof.
  refine {| crMeta := tel_Meta;
            crSetMeta m i := MkTelemetry m (tel_Spec i) (tel_Status i);
            crConds i := telt_Conditions (tel_Status i);
            crSetConds c i := MkTelemetry (tel_Meta i) (tel_Spec i)
                                (MkTelemetryStatus (telt_Hash (tel_Status i)) c) |}; try done; by intros [].
Defined.

#[global] Instance Ceilometer_cr : CustomResource Ceilometer.
Proof.
  refine {| crMeta := cei_Meta;
            crSetMeta m i := MkCeilometer m (cei_Spec i) (cei_Status i);
            crConds i := ceit_Conditions (cei_Status i);
            crSetConds c i := MkCeilometer (cei_Meta i) (cei_Spec i)
              (let s := cei_Status i in
               MkCeilometerStatus (ceit_ReadyCount s) (ceit_Hash s) c
                 (ceit_TransportURLSecret s) (ceit_Networks s)) |}; try done; by intros [].
Defined.

#[global] Instance Autoscaling_cr : CustomResource Autoscaling.
Proof.
  refine {| crMeta := asc_Meta;
            crSetMeta m i := MkAutoscaling (asc_Kind i) m (asc_Spec i) (asc_Status i);
            crConds i := asct_Conditions (asc_Status i);
            crSetConds c i := MkAutoscaling (asc_Kind i) (asc_Meta i) (asc_Spec i)
              (let s := asc_Status i in
               MkAutoscalingStatus (asct_ReadyCount s) (asct_Hash s) c (asct_Networks s)
                 (asct_TransportURLSecret s) (asct_DatabaseHostname s) (asct_PrometheusHost s)
                 (asct_PrometheusPort s) (asct_APIEndpoints s)) |}; try done; by intros [].
Defined.

#[global] Instance Logging_cr : CustomResource Logging.
Proof.
  refine {| crMeta := log_Meta;
            crSetMeta m i := MkLogging m (log_Spec i) (log_Status i);
            crConds i := logt_Conditions (log_Status i);
            crSetConds c i := MkLogging (log_Meta i) (log_Spec i)
                                (MkLoggingStatus (logt_Hash (log_Status i)) c) |}; try done; by intros [].
Defined.

#[global] Instance MetricStorage_cr : CustomResource MetricStorage.
Proof.
  refine {| crMeta := met_Meta;
            crSetMeta m i := MkMetricStorage m (met_Spec i) (met_Status i);
            crConds i := mett_Conditions (met_Status i);
            crSetConds c i := MkMetricStorage (met_Meta i) (met_Spec i)
                                (MkMetricStorageStatus c) |}; try done; by intros [].
Defined.

(** The condition strings of this API are pairwise different, so the
    constructors of [CondType] stand for different types. *)
Lemma telemetryTypeName_inj t t' s :
  telemetryTypeName t = Some s -> telemetryTypeName t' = Some s -> t = t'.
Proof. destruct t, t'; simpl; intros; simplify_eq; done. Qed.
