(* ===== verification/Libs.v ===== *)
(** * Pure functions of other modules the operator calls

    Finalizer helpers of controller-runtime, the env/util/labels/annotations
    helpers of lib-common and [resource.ParseQuantity] are code outside the
    repository: classes of operations, with the documented behaviour that
    theorems rely on as separate classes of laws. *)

From stdpp Require Import gmap strings list.
From Stdlib Require Import ZArith Lia.
From S2P Require Import Prelude Condition Api.

(** ** controllerutil finalizers *)
Class FinalizerLib := {
  AddFinalizer : list string -> string -> list string * bool;
  RemoveFinalizer : list string -> string -> list string * bool;
  (** [helper.GetFinalizer()], determined by the kind of the object. *)
  GetFinalizer : string -> string
}.

Class FinalizerLaws (F : FinalizerLib) : Prop := {
  AddFinalizer_elem l f g : g ∈ (AddFinalizer l f).1 <-> g ∈ l \/ g = f;
  AddFinalizer_flag l f : (AddFinalizer l f).2 = true <-> f ∉ l;
  AddFinalizer_same l f : f ∈ l -> (AddFinalizer l f).1 = l;
  RemoveFinalizer_elem l f g : g ∈ (RemoveFinalizer l f).1 <-> g ∈ l /\ g <> f;
  RemoveFinalizer_flag l f : (RemoveFinalizer l f).2 = true <-> f ∈ l
}.

(** ** lib-common helpers *)

(** [corev1.EnvVar], with the secret key it may be read from. *)
Record EnvVar := MkEnvVar {
  env_Name : string;
  env_Value : string;
  env_SecretKeyRef : option (string * string)
}.

(** [env.Setter] values are all built by [env.SetValue]: the map of setters
    is the map of the values they set. *)
Abbreviation EnvMap := (gmap string string).

Class CommonLib := {
  MergeEnvs : list EnvVar -> EnvMap -> list EnvVar;
  ObjectHash : list EnvVar -> string * option GoError;
  SetHash : option (gmap string string) -> string -> string -> gmap string string * bool;
  GetGroupLabel : string -> string;
  (** [labels.GetLabels(obj, group, extra)] *)
  GetLabels : string -> string -> gmap string string -> gmap string string;
  MergeStringMaps : gmap string string -> gmap string string -> gmap string string;
  GetNADAnnotation : string -> list string -> gmap string string + GoError;
  GetEnvVar : string -> string -> string;
  ParseQuantity : string -> string + GoError;
  FromInt : Z -> Z;
  AppSelector : string;
  InputHashName : string;
  CustomServiceConfigFileName : string
}.

Class CommonLaws (C : CommonLib) : Prop := {
  (** Every setter of the map has set its variable. *)
  MergeEnvs_set l m k v : m !! k = Some v ->
    exists e, e ∈ MergeEnvs l m /\ env_Name e = k /\ env_Value e = v;
  (** The other variables are those of the list. *)
  MergeEnvs_elem l m e : e ∈ MergeEnvs l m ->
    match m !! env_Name e with Some v => env_Value e = v | None => e ∈ l end;
  (** [SetHash] records the hash and reports whether it changed. *)
  SetHash_lookup h k v : (SetHash h k v).1 !! k = Some v;
  SetHash_ne h k v k' : k <> k' -> (SetHash h k v).1 !! k' = default ∅ h !! k';
  SetHash_flag h k v : (SetHash h k v).2 = false <-> default ∅ h !! k = Some v;
  (** The name of the input hash is not the one of a job's hash. *)
  InputHashName_other : InputHashName <> "dbsync";
  (** The default quantity "20G" is well formed. *)
  ParseQuantity_20G : exists q, ParseQuantity "20G" = inl q;
  (** [FromInt] keeps values that fit in 32 bits. *)
  FromInt_small z : (- 2 ^ 31 <= z < 2 ^ 31)%Z -> FromInt z = z
}.

(** The value of a variable is determined by the environment it is merged into. *)
Lemma MergeEnvs_value `{CL : CommonLaws} (m m' : EnvMap) k v v' :
  m !! k = Some v -> m' !! k = Some v' -> MergeEnvs [] m = MergeEnvs [] m' -> v = v'.
Proof.
  intros Hm Hm' He. destruct (MergeEnvs_set [] m k v Hm) as (e & Hin & Hen & <-).
  rewrite He in Hin. apply MergeEnvs_elem in Hin. by rewrite Hen, Hm' in Hin.
Qed.

(** ** Kubernetes objects the builders return *)
Inductive Protocol := TCP | UDP.

Record Probe := MkProbe {
  pr_TimeoutSeconds : Z;
  pr_PeriodSeconds : Z;
  pr_InitialDelaySeconds : Z;
  pr_HTTPGet : option (string * Z)
}.

Record VolumeMount := MkMount {
  vm_Name : string;
  vm_MountPath : string;
  vm_SubPath : string;
  vm_ReadOnly : bool
}.

(** A volume backed by a secret: its mode, name and the selected items. *)
Record Volume := MkVolume {
  vol_Name : string;
  vol_DefaultMode : Z;
  vol_SecretName : string;
  vol_Items : list (string * string)
}.

Record Container := MkContainer {
  ctr_Name : string;
  ctr_Image : string;
  ctr_PullAlways : bool;
  ctr_Command : list string;
  ctr_Args : list string;
  ctr_Env : list EnvVar;
  ctr_RunAsUser : option Z;
  ctr_VolumeMounts : list VolumeMount;
  ctr_ReadinessProbe : option Probe;
  ctr_LivenessProbe : option Probe
}.

Record PodTemplate := MkPod {
  pod_Meta : ObjectMeta;
  pod_RestartPolicy : string;
  pod_ServiceAccountName : string;
  pod_Containers : list Container;
  pod_Volumes : list Volume
}.

Record StatefulSet := MkStatefulSet {
  sts_Meta : ObjectMeta;
  sts_Replicas : Z;
  sts_MatchLabels : gmap string string;
  sts_Template : PodTemplate
}.

Record Job := MkJob { job_Meta : ObjectMeta; job_Template : PodTemplate }.

Record ServicePort := MkServicePort {
  sp_Name : string;
  sp_Protocol : Protocol;
  sp_Port : Z;
  sp_TargetPort : Z
}.

Record Service := MkService {
  svc_Meta : ObjectMeta;
  svc_Selector : gmap string string;
  svc_Ports : list ServicePort;
  svc_Type : string
}.

(** A pod template Kubernetes can run: its volumes and its containers have
    different names, and every mount names a volume. *)
Definition podWellFormed (p : PodTemplate) : Prop :=
  NoDup (vol_Name <$> pod_Volumes p) /\
  NoDup (ctr_Name <$> pod_Containers p) /\
  Forall (fun c => Forall (fun m => vm_Name m ∈ (vol_Name <$> pod_Volumes p)) (ctr_VolumeMounts c))
    (pod_Containers p).

#[global] Instance podWellFormed_dec p : Decision (podWellFormed p).
Proof. solve_decision. Defined.

(** [fmt.Sprintf] with the ["%s"] verb on a slice of strings. *)
Definition showStrings (l : list string) : string := "[" +:+ String.concat " " l +:+ "]".

(** [controllerutil.OperationResult] *)
Inductive OperationResult := OperationResultNone | OperationResultCreated
  | OperationResultUpdated | OperationResultUpdatedStatus | OperationResultUpdatedStatusOnly.

(** [rbacv1.PolicyRule] *)
Record PolicyRule := MkRule {
  rule_APIGroups : list string;
  rule_ResourceNames : list string;
  rule_Resources : list string;
  rule_Verbs : list string
}.

(** [util.Template] *)
Inductive TemplateType := TemplateTypeScripts | TemplateTypeConfig.
Record Template := MkTemplate {
  tpl_Name : string;
  tpl_Namespace : string;
  tpl_Type : TemplateType;
  tpl_InstanceType : string;
  tpl_AdditionalTemplate : gmap string string;
  tpl_CustomData : gmap string string;
  tpl_ConfigOptions : gmap string string;
  tpl_Labels : gmap string string
}.

(** [endpoint.Endpoint] and [service.Endpoint] constants. *)
Inductive Endpoint := EndpointInternal | EndpointPublic.

(** ** Objects of other operators *)

(** [rabbitmqv1.TransportURL] *)
Record TransportURL := MkTransportURL {
  tu_Meta : ObjectMeta;
  tu_RabbitmqClusterName : string;
  tu_SecretName : string
}.

(** [keystonev1.KeystoneServiceSpec] *)
Record KeystoneServiceSpec := MkKeystoneServiceSpec {
  ks_ServiceType : string;
  ks_ServiceName : string;
  ks_ServiceDescription : string;
  ks_Enabled : bool;
  ks_ServiceUser : string;
  ks_Secret : string;
  ks_PasswordSelector : string
}.

(** [memcachedv1.Memcached] and [heatv1.Heat]: [mc_IsReady] and [heat_IsReady]
    are what the method [IsReady()] of the object answers. *)
Record Memcached := MkMemcached {
  mc_Name : string;
  mc_IsReady : bool;
  mc_ServerList : list string;
  mc_ServerListWithInet : list string
}.
Record Heat := MkHeat { heat_Name : string; heat_IsReady : bool }.

(** The arguments of [mariadbv1.NewDatabaseWithNamespace]. *)
Record Database := MkDatabase {
  db_DatabaseName : string;
  db_DatabaseUser : string;
  db_Secret : string;
  db_Labels : gmap string string;
  db_Name : string;
  db_Namespace : string
}.

(** [service.GenericServiceDetails] *)
Record GenericServiceDetails := MkServiceDetails {
  gs_Name : string;
  gs_Namespace : string;
  gs_Labels : gmap string string;
  gs_Selector : gmap string string;
  gs_PortName : string;
  gs_Port : Z;
  gs_Protocol : Protocol
}.

(** [service.Service]: what [GetServiceType()] and [GetServiceHostname()]
    answer for the service built from the details and the override. *)
Record RoutedService := MkRoutedService {
  rsvc_Details : GenericServiceDetails;
  rsvc_Type : string;
  rsvc_Hostname : string
}.

(** [endpoint.Data]: port, protocol (nil when not set) and path. *)
Record EndpointData := MkEndpointData {
  ed_Port : Z;
  ed_Protocol : option string;
  ed_Path : string
}.

(** Constants of lib-common's [service] package. *)
Class ServiceLib := {
  endpointStr : Endpoint -> string;
  AnnotationEndpointKey : string;
  AnnotationIngressCreateKey : string;
  AnnotationHostnameKey : string
}.
Class ServiceLaws (V : ServiceLib) : Prop := {
  endpointStr_inj e e' : endpointStr e = endpointStr e' -> e = e'
}.

#[global] Instance Endpoint_eq_dec : EqDecision Endpoint.
Proof. solve_decision. Defined.
