(* ===== verification/Reference.v ===== *)
(** * Reference implementations of the libraries

    [ConditionLib], [FinalizerLib] and [CommonLib] stand for code outside the
    repository.  This file gives each of them a concrete instance and proves
    that it satisfies the laws the theorems use: the assumptions are
    consistent, and the scenarios of the development can be executed. *)

From stdpp Require Import gmap strings list.
From Stdlib Require Import ZArith Lia.
From S2P Require Import Prelude Condition Api Libs.

(** ** Conditions *)

(** Replace the entry of [c]'s type in place. *)
Fixpoint replaceCond (c : Condition) (l : list Condition) : option (list Condition) :=
  match l with
  | [] => None
  | d :: l =>
      if decide (cond_Type d = cond_Type c) then Some (c :: l)
      else cons d <$> replaceCond c l
  end.

Definition setCond (c : Condition) (l : list Condition) : list Condition :=
  default (l ++ [c]) (replaceCond c l).

Definition dropCond (t : CondType) (l : list Condition) : list Condition :=
  filter (fun c => cond_Type c <> t) l.

(** The first entry with status [s] and severity [v]. *)
Fixpoint pick (p : Condition -> bool) (l : list Condition) : option Condition :=
  match l with [] => None | c :: l => if p c then Some c else pick p l end.

Definition hasStatus (s : CondStatus) (c : Condition) : bool := bool_decide (cond_Status c = s).
Definition hasSeverity (v : Severity) (c : Condition) : bool := bool_decide (cond_Severity c = v).

Definition worst (l : list Condition) : option Condition :=
  match pick (fun c => hasStatus ConditionFalse c && hasSeverity SeverityError c) l with
  | Some c => Some c
  | None =>
  match pick (fun c => hasStatus ConditionFalse c && hasSeverity SeverityWarning c) l with
  | Some c => Some c
  | None =>
  match pick (hasStatus ConditionFalse) l with
  | Some c => Some c
  | None =>
  match pick (hasStatus ConditionUnknown) l with
  | Some c => Some c
  | None => pick (hasStatus ConditionTrue) l
  end end end end.

Definition refFalse t r s m := MkCondition t ConditionFalse r s m.
Definition refUnknown t r m := MkCondition t ConditionUnknown r SeverityNone m.
Definition refTrue t m := MkCondition t ConditionTrue (ReasonText "Ready") SeverityNone m.

#[global] Instance RefConditions : ConditionLib := {|
  FalseCondition := refFalse;
  UnknownCondition := refUnknown;
  CreateList l := Some l;
  Init _ l := Some (refUnknown ReadyCondition InitReason (lib "ReadyInitMessage")
                    :: dropCond ReadyCondition (items l));
  Set_ cs c := match c with Some c => Some (setCond c (items cs)) | None => cs end;
  MarkTrue cs t m := Some (setCond (refTrue t m) (items cs));
  MarkFalse cs t r s m := Some (setCond (refFalse t r s m) (items cs));
  MarkUnknown cs t r m := Some (setCond (refUnknown t r m) (items cs));
  Remove cs t := dropCond t <$> cs;
  IsTrue cs t := bool_decide (statusOf cs t = Some ConditionTrue);
  AllSubConditionIsTrue cs :=
    forallb (fun c => bool_decide (cond_Type c = ReadyCondition) || hasStatus ConditionTrue c)
      (items cs);
  Mirror cs t :=
    (fun c => MkCondition t (cond_Status c) (cond_Reason c) (cond_Severity c) (cond_Message c))
      <$> worst (items cs);
  SetOnCopy cs c := match cs with
                    | Some l => Some (default l (replaceCond c l))
                    | None => None
                    end
|}.

Lemma findCond_app l l' t :
  findCond (l ++ l') t = match findCond l t with Some c => Some c | None => findCond l' t end.
Proof. induction l as [|c l IH]; simpl; [done|]. by case_decide. Qed.

Lemma replaceCond_find c l l' t : replaceCond c l = Some l' ->
  findCond l' t = if decide (t = cond_Type c) then Some c else findCond l t.
Proof.
  revert l'. induction l as [|d l IH]; simpl; intros l' H; [done|].
  case_decide as Hd; simplify_eq/=.
  - repeat case_decide; congruence.
  - destruct (replaceCond c l) as [l1|]; simplify_eq/=. rewrite (IH l1) by done.
    repeat case_decide; congruence.
Qed.

Lemma replaceCond_none c l : replaceCond c l = None <-> findCond l (cond_Type c) = None.
Proof.
  induction l as [|d l IH]; simpl; [done|]. case_decide; [done|].
  rewrite <-IH. by destruct (replaceCond c l).
Qed.

Lemma replaceCond_types c l l' :
  replaceCond c l = Some l' -> cond_Type <$> l' = cond_Type <$> l.
Proof.
  revert l'. induction l as [|d l IH]; simpl; intros l' H; [done|].
  case_decide as Hd; simplify_eq/=; [by rewrite Hd|].
  destruct (replaceCond c l) as [l1|]; simplify_eq/=. by rewrite (IH l1).
Qed.

Lemma replaceCond_elem c l l' : replaceCond c l = Some l' -> forall d, d ∈ l' -> d ∈ l \/ d = c.
Proof.
  revert l'. induction l as [|e l IH]; simpl; intros l' H d Hd; [done|].
  case_decide; simplify_eq/=.
  - apply elem_of_cons in Hd as [->|Hd]; [by right|left; by apply elem_of_cons; right].
  - destruct (replaceCond c l) as [l1|]; simplify_eq/=. apply elem_of_cons in Hd as [->|Hd].
    + left. by apply elem_of_cons; left.
    + destruct (IH l1 eq_refl d Hd) as [?|?]; [left; by apply elem_of_cons; right|by right].
Qed.

Lemma setCond_find c l t :
  findCond (setCond c l) t = if decide (t = cond_Type c) then Some c else findCond l t.
Proof.
  unfold setCond. destruct (replaceCond c l) as [l'|] eqn:H; simpl; [by apply replaceCond_find|].
  apply replaceCond_none in H. rewrite findCond_app. simpl.
  destruct (decide (t = cond_Type c)) as [->|Hne].
  - rewrite H. by case_decide.
  - case_decide; [congruence|]. by destruct (findCond l t).
Qed.

Lemma findCond_none_types l t : findCond l t = None -> t ∉ (cond_Type <$> l).
Proof.
  induction l as [|d l IH]; simpl; [intros _; apply not_elem_of_nil|]. case_decide; [done|].
  intros H'. rewrite elem_of_cons. intros [->|?]; [done|]. by apply IH.
Qed.

Lemma setCond_unique c l : NoDup (cond_Type <$> l) -> NoDup (cond_Type <$> setCond c l).
Proof.
  unfold setCond. destruct (replaceCond c l) as [l'|] eqn:H; simpl.
  - by rewrite (replaceCond_types _ _ _ H).
  - intros Hnd. rewrite fmap_app. simpl. apply NoDup_app. split_and!; [done| |apply NoDup_singleton].
    intros t Ht ->%list_elem_of_singleton.
    by apply (findCond_none_types _ _ (proj1 (replaceCond_none _ _) H)).
Qed.

Lemma dropCond_find t l t' :
  findCond (dropCond t l) t' = if decide (t' = t) then None else findCond l t'.
Proof.
  unfold dropCond. induction l as [|d l IH]; simpl; [by case_decide|].
  rewrite filter_cons. destruct (decide (cond_Type d <> t)) as [Hd|Hd]; simpl; rewrite IH;
    repeat case_decide; try done; exfalso; (apply Hd || idtac); congruence.
Qed.

Lemma dropCond_unique t l : NoDup (cond_Type <$> l) -> NoDup (cond_Type <$> dropCond t l).
Proof.
  unfold dropCond. induction l as [|d l IH]; simpl; [done|]. rewrite NoDup_cons.
  intros [Hni Hnd]. rewrite filter_cons. case_decide; simpl; [|by apply IH].
  apply NoDup_cons. split; [|by apply IH]. intros Hin. apply Hni.
  apply list_elem_of_fmap in Hin as (c & -> & Hc). apply list_elem_of_filter in Hc as [_ Hc].
  by apply list_elem_of_fmap_2.
Qed.

Lemma pick_Some p l c : pick p l = Some c -> c ∈ l /\ p c = true.
Proof.
  induction l as [|d l IH]; simpl; [done|]. destruct (p d) eqn:Hp.
  - intros [= ->]. split; [by constructor|done].
  - intros [? ?]%IH. split; [by constructor|done].
Qed.

Lemma pick_None p l c : pick p l = None -> c ∈ l -> p c = false.
Proof.
  induction l as [|d l IH]; simpl; [by intros _ ?%not_elem_of_nil|].
  destruct (p d) eqn:Hp; [done|]. rewrite elem_of_cons. intros H [->|?]; auto.
Qed.

(** [worst] is one of the entries; no entry is False unless it is, and a True
    one leaves no entry that is not True. *)
Lemma worst_spec l c : worst l = Some c -> c ∈ l /\
  (forall d, d ∈ l -> cond_Status d = ConditionFalse -> cond_Status c = ConditionFalse) /\
  (cond_Status c = ConditionTrue -> forall d, d ∈ l -> cond_Status d = ConditionTrue).
Proof.
  unfold worst. repeat (case_match; [intros [= <-]|]); try intros Hlast;
    repeat match goal with
    | H : pick _ _ = Some _ |- _ => apply pick_Some in H as [? ?]
    end; try done.
  all: unfold hasStatus, hasSeverity in *; rewrite ?andb_true_iff, ?bool_decide_eq_true in *.
  all: destruct_and?; split; [done|]; split; intros; try congruence.
  all: repeat match goal with
    | H : pick ?p ?l = None, Hd : ?d ∈ ?l |- _ =>
        pose proof (pick_None _ _ _ H Hd); clear H
    end; simpl in *; rewrite ?bool_decide_eq_false in *; try done.
  destruct (cond_Status d); done.
Qed.

#[global] Instance RefConditions_laws : ConditionLaws RefConditions.
Proof.
  split; unfold updatesTo, getCond, statusOf, uniqueTypes; simpl; try done.
  - intros cs l t Ht. unfold getCond. simpl. case_decide; [congruence|].
    rewrite dropCond_find. by case_decide.
  - intros. apply setCond_find.
  - intros cs t m. exists (refTrue t m). split_and!; [done..|]. intros. apply setCond_find.
  - intros. apply setCond_find.
  - intros. apply setCond_find.
  - intros cs t t'. destruct cs; simpl; [apply dropCond_find|by case_decide].
  - intros cs [c|]; [apply setCond_unique|done].
  - intros. by apply setCond_unique.
  - intros. by apply setCond_unique.
  - intros. by apply setCond_unique.
  - intros [l|] t; simpl; [apply dropCond_unique|done].
  - intros cs l Hl. apply NoDup_cons. split; [|by apply dropCond_unique].
    apply findCond_none_types. rewrite dropCond_find. by case_decide.
  - intros cs c H Hin Ht. rewrite forallb_forall in H.
    apply list_elem_of_In in Hin. specialize (H c Hin).
    unfold hasStatus in H. rewrite orb_true_iff, !bool_decide_eq_true in H. naive_solver.
  - intros cs _ H. apply forallb_forall. intros c Hin%list_elem_of_In.
    unfold hasStatus. rewrite orb_true_iff, !bool_decide_eq_true.
    destruct (decide (cond_Type c = ReadyCondition)); [by left|right; auto].
  - intros cs t c. destruct (worst (items cs)) as [c'|] eqn:Hw; simpl; [|done].
    intros [= <-]. apply worst_spec in Hw as (? & _). eauto.
  - intros cs t c c'. destruct (worst (items cs)) as [d|] eqn:Hw; simpl; [|done].
    intros [= <-]. apply worst_spec in Hw as (? & _ & ?). simpl. auto.
  - intros cs t c c'. destruct (worst (items cs)) as [d|] eqn:Hw; simpl; [|done].
    intros [= <-]. apply worst_spec in Hw as (? & ? & _). simpl. eauto.
  - intros [l|] c; simpl; [|done]. destruct (replaceCond c l) as [l'|] eqn:H; simpl; [|done].
    apply replaceCond_types in H. apply (f_equal length) in H. by rewrite !length_fmap in H.
  - intros [l|] c [d Hd] t; simpl in *; [|done].
    destruct (replaceCond c l) as [l'|] eqn:H; simpl; [by apply replaceCond_find|].
    apply replaceCond_none in H. congruence.
  - intros [l|] c d; simpl; [|by left].
    destruct (replaceCond c l) as [l'|] eqn:H; simpl; [|by left]. by apply (replaceCond_elem _ _ _ H).
  - intros [l|] c; simpl; [|done]. destruct (replaceCond c l) as [l'|] eqn:H; simpl; [|done].
    by rewrite (replaceCond_types _ _ _ H).
  - intros [l|] c; naive_solver.
Qed.

(** ** Finalizers *)
#[global] Instance RefFinalizers : FinalizerLib := {|
  AddFinalizer l f := if decide (f ∈ l) then (l, false) else (l ++ [f], true);
  RemoveFinalizer l f := (filter (fun g => g <> f) l, bool_decide (f ∈ l));
  GetFinalizer kind := "openstack.org/" +:+ kind
|}.

#[global] Instance RefFinalizers_laws : FinalizerLaws RefFinalizers.
Proof.
  split; simpl; intros.
  - case_decide; simpl; [naive_solver|]. by rewrite elem_of_app, list_elem_of_singleton.
  - by case_decide.
  - by case_decide.
  - rewrite list_elem_of_filter. naive_solver.
  - by rewrite bool_decide_eq_true.
Qed.

(** ** Helpers of lib-common *)
#[global] Instance RefCommon : CommonLib := {|
  MergeEnvs l m :=
    filter (fun e => m !! env_Name e = None) l ++
    ((fun '(k, v) => MkEnvVar k v None) <$> map_to_list m);
  ObjectHash l := (String.concat ";" ((fun e => env_Name e +:+ "=" +:+ env_Value e) <$> l), None);
  SetHash h k v := (<[k := v]> (default ∅ h), bool_decide (default ∅ h !! k <> Some v));
  GetGroupLabel name := name +:+ ".openstack.org";
  GetLabels name group extra := <[group +:+ "/name" := name]> extra;
  MergeStringMaps m1 m2 := m1 ∪ m2;
  GetNADAnnotation ns nads := inl {[ "k8s.v1.cni.cncf.io/networks" := showStrings nads ]};
  GetEnvVar k d := d;
  ParseQuantity q := if String.eqb q "" then inr (Errorf "quantities must match the regular expression")
                     else inl q;
  FromInt := int32;
  AppSelector := "service";
  InputHashName := "input";
  CustomServiceConfigFileName := "custom.conf"
|}.

#[global] Instance RefCommon_laws : CommonLaws RefCommon.
Proof.
  split; simpl.
  - intros l m k v Hk. exists (MkEnvVar k v None). split_and!; [|done..].
    apply elem_of_app. right. apply list_elem_of_fmap. exists (k, v). split; [done|].
    by apply elem_of_map_to_list.
  - intros l m e [[H H']%list_elem_of_filter|(p & -> & H)%list_elem_of_fmap]%elem_of_app.
    + by rewrite H.
    + destruct p as [k v]. apply elem_of_map_to_list in H. simpl. by rewrite H.
  - intros h k v. apply lookup_insert_eq.
  - intros h k v k' Hk. by apply lookup_insert_ne.
  - intros h k v. rewrite bool_decide_eq_false.
    destruct (decide (default ∅ h !! k = Some v)); naive_solver.
  - done.
  - eauto.
  - apply int32_small.
Qed.

(** ** The constants of the service package *)
#[global] Instance RefService : ServiceLib := {|
  endpointStr e := match e with EndpointInternal => "internal" | EndpointPublic => "public" end;
  AnnotationEndpointKey := "endpoint";
  AnnotationIngressCreateKey := "core.openstack.org/ingress_create";
  AnnotationHostnameKey := "dnsmasq.network.openstack.org/hostname"
|}.
#[global] Instance RefService_laws : ServiceLaws RefService.
Proof. constructor. by intros [] []. Qed.
