(* ===== verification/Webhooks.v ===== *)
(** * Admission webhooks ([api/v1beta1/*_webhook.go], [SetupDefaults*])

    The defaulting webhooks fill empty fields of a spec from package
    variables, which [main] initialises from the environment.  The package
    variables are the record [Globals]; a [Default] method is a function from
    the defaults and the spec it mutates. *)

From stdpp Require Import gmap strings list.
From Stdlib Require Import ZArith Lia.
From S2P Require Import Prelude Condition Api Libs Reference.

Module Webhooks.

(** ** Default values *)
Record CeilometerDefaults := MkCeilometerDefaults {
  cd_CentralContainerImageURL : string;
  cd_NotificationContainerImageURL : string;
  cd_SgCoreContainerImageURL : string;
  cd_ComputeContainerImageURL : string;
  cd_IpmiContainerImageURL : string;
  cd_NodeExporterContainerImageURL : string
}.

Record AutoscalingDefaults := MkAutoscalingDefaults {
  ad_AodhAPIContainerImageURL : string;
  ad_AodhEvaluatorContainerImageURL : string;
  ad_AodhNotifierContainerImageURL : string;
  ad_AodhListenerContainerImageURL : string
}.

Record TelemetryDefaults := MkTelemetryDefaults {
  td_CentralContainerImageURL : string;
  td_ComputeContainerImageURL : string;
  td_NotificationContainerImageURL : string;
  td_SgCoreContainerImageURL : string;
  td_NodeExporterContainerImageURL : string;
  td_IpmiContainerImageURL : string;
  td_AodhAPIContainerImageURL : string;
  td_AodhEvaluatorContainerImageURL : string;
  td_AodhNotifierContainerImageURL : string;
  td_AodhListenerContainerImageURL : string;
  td_AodhInitContainerImageURL : string
}.

(** The package variables [ceilometerDefaults], [autoscalingDefaults] and
    [telemetryDefaults], and their values when the process starts. *)
Record Globals := MkGlobals {
  ceilometerDefaults : CeilometerDefaults;
  autoscalingDefaults : AutoscalingDefaults;
  telemetryDefaults : TelemetryDefaults
}.
Definition zeroGlobals : Globals :=
  MkGlobals (MkCeilometerDefaults "" "" "" "" "" "") (MkAutoscalingDefaults "" "" "" "")
    (MkTelemetryDefaults "" "" "" "" "" "" "" "" "" "" "").

Definition SetupCeilometerDefaults (d : CeilometerDefaults) (g : Globals) : Globals :=
  MkGlobals d (autoscalingDefaults g) (telemetryDefaults g).
Definition SetupAutoscalingDefaults (d : AutoscalingDefaults) (g : Globals) : Globals :=
  MkGlobals (ceilometerDefaults g) d (telemetryDefaults g).
Definition SetupTelemetryDefaults (d : TelemetryDefaults) (g : Globals) : Globals :=
  MkGlobals (ceilometerDefaults g) (autoscalingDefaults g) d.

(** ** Fall-back images *)
Definition CeilometerCentralContainerImage :=
  "quay.io/podified-antelope-centos9/openstack-ceilometer-central:current-podified".
Definition CeilometerNotificationContainerImage :=
  "quay.io/podified-antelope-centos9/openstack-ceilometer-notification:current-podified".
Definition CeilometerSgCoreContainerImage := "quay.io/infrawatch/sg-core:v5.2.0-nextgen".
Definition CeilometerComputeContainerImage :=
  "quay.io/podified-antelope-centos9/openstack-ceilometer-compute:current-podified".
Definition CeilometerIpmiContainerImage :=
  "quay.io/podified-antelope-centos9/openstack-ceilometer-ipmi:current-podified".
Definition NodeExporterContainerImage := "quay.io/prometheus/node-exporter:v1.5.0".
Definition AodhAPIContainerImage :=
  "quay.io/podified-antelope-centos9/openstack-aodh-api:current-podified".
Definition AodhEvaluatorContainerImage :=
  "quay.io/podified-antelope-centos9/openstack-aodh-evaluator:current-podified".
Definition AodhNotifierContainerImage :=
  "quay.io/podified-antelope-centos9/openstack-aodh-notifier:current-podified".
Definition AodhListenerContainerImage :=
  "quay.io/podified-antelope-centos9/openstack-aodh-listener:current-podified".

Section Setup.
Context `{C : CommonLib}.

Definition SetupDefaultsCeilometer (g : Globals) : Globals :=
  let d := {|
    cd_CentralContainerImageURL :=
      GetEnvVar "RELATED_IMAGE_CEILOMETER_CENTRAL_IMAGE_URL_DEFAULT" CeilometerCentralContainerImage;
    cd_SgCoreContainerImageURL :=
      GetEnvVar "RELATED_IMAGE_CEILOMETER_SGCORE_IMAGE_URL_DEFAULT" CeilometerSgCoreContainerImage;
    cd_NotificationContainerImageURL :=
      GetEnvVar "RELATED_IMAGE_CEILOMETER_NOTIFICATION_IMAGE_URL_DEFAULT" CeilometerNotificationContainerImage;
    cd_ComputeContainerImageURL :=
      GetEnvVar "RELATED_IMAGE_CEILOMETER_COMPUTE_IMAGE_URL_DEFAULT" CeilometerComputeContainerImage;
    cd_IpmiContainerImageURL :=
      GetEnvVar "RELATED_IMAGE_CEILOMETER_IPMI_IMAGE_URL_DEFAULT" CeilometerIpmiContainerImage;
    (* not set by the composite literal: the zero value *)
    cd_NodeExporterContainerImageURL := "" |} in
  SetupCeilometerDefaults d g.

Definition SetupDefaultsAutoscaling (g : Globals) : Globals :=
  let d := {|
    ad_AodhAPIContainerImageURL :=
      GetEnvVar "RELATED_IMAGE_AODH_API_IMAGE_URL_DEFAULT" AodhAPIContainerImage;
    ad_AodhEvaluatorContainerImageURL :=
      GetEnvVar "RELATED_IMAGE_AODH_EVALUATOR_IMAGE_URL_DEFAULT" AodhEvaluatorContainerImage;
    ad_AodhNotifierContainerImageURL :=
      GetEnvVar "RELATED_IMAGE_AODH_NOTIFIER_IMAGE_URL_DEFAULT" AodhNotifierContainerImage;
    ad_AodhListenerContainerImageURL :=
      GetEnvVar "RELATED_IMAGE_AODH_LISTENER_IMAGE_URL_DEFAULT" AodhListenerContainerImage |} in
  SetupAutoscalingDefaults d g.

Definition SetupDefaultsTelemetry (g : Globals) : Globals :=
  let d := {|
    td_CentralContainerImageURL :=
      GetEnvVar "RELATED_IMAGE_CEILOMETER_CENTRAL_IMAGE_URL_DEFAULT" CeilometerCentralContainerImage;
    td_ComputeContainerImageURL :=
      GetEnvVar "RELATED_IMAGE_CEILOMETER_COMPUTE_IMAGE_URL_DEFAULT" CeilometerComputeContainerImage;
    td_IpmiContainerImageURL :=
      GetEnvVar "RELATED_IMAGE_CEILOMETER_IPMI_IMAGE_URL_DEFAULT" CeilometerIpmiContainerImage;
    td_NotificationContainerImageURL :=
      GetEnvVar "RELATED_IMAGE_CEILOMETER_NOTIFICATION_IMAGE_URL_DEFAULT" CeilometerNotificationContainerImage;
    td_NodeExporterContainerImageURL :=
      GetEnvVar "RELATED_IMAGE_TELEMETRY_NODE_EXPORTER_IMAGE_URL_DEFAULT" NodeExporterContainerImage;
    td_SgCoreContainerImageURL :=
      GetEnvVar "RELATED_IMAGE_CEILOMETER_SGCORE_IMAGE_URL_DEFAULT" CeilometerSgCoreContainerImage;
    td_AodhAPIContainerImageURL :=
      GetEnvVar "RELATED_IMAGE_AODH_API_IMAGE_URL_DEFAULT" AodhAPIContainerImage;
    td_AodhEvaluatorContainerImageURL :=
      GetEnvVar "RELATED_IMAGE_AODH_EVALUATOR_IMAGE_URL_DEFAULT" AodhEvaluatorContainerImage;
    td_AodhNotifierContainerImageURL :=
      GetEnvVar "RELATED_IMAGE_AODH_NOTIFIER_IMAGE_URL_DEFAULT" AodhNotifierContainerImage;
    td_AodhListenerContainerImageURL :=
      GetEnvVar "RELATED_IMAGE_AODH_LISTENER_IMAGE_URL_DEFAULT" AodhListenerContainerImage;
    td_AodhInitContainerImageURL :=
      GetEnvVar "RELATED_IMAGE_AODH_API_IMAGE_URL_DEFAULT" AodhAPIContainerImage |} in
  SetupTelemetryDefaults d g.

(** The three calls [main] makes before it sets up the webhooks. *)
Definition setupDefaults : Globals :=
  SetupDefaultsAutoscaling (SetupDefaultsCeilometer (SetupDefaultsTelemetry zeroGlobals)).
End Setup.

(** ** Default methods *)

(** [if field == "" { field = d }] *)
Definition fill (field d : string) : string := if String.eqb field "" then d else field.

Definition CeilometerSpec_Default (d : CeilometerDefaults) (s : CeilometerSpec) : CeilometerSpec := {|
  ceis_RabbitMqClusterName := ceis_RabbitMqClusterName s;
  ceis_PasswordSelectors := ceis_PasswordSelectors s;
  ceis_ServiceUser := ceis_ServiceUser s;
  ceis_Secret := ceis_Secret s;
  ceis_CustomServiceConfig := ceis_CustomServiceConfig s;
  ceis_DefaultConfigOverwrite := ceis_DefaultConfigOverwrite s;
  ceis_NetworkAttachmentDefinitions := ceis_NetworkAttachmentDefinitions s;
  ceis_CentralImage := fill (ceis_CentralImage s) (cd_CentralContainerImageURL d);
  ceis_NotificationImage := fill (ceis_NotificationImage s) (cd_NotificationContainerImageURL d);
  ceis_SgCoreImage := fill (ceis_SgCoreImage s) (cd_SgCoreContainerImageURL d);
  ceis_ComputeImage := fill (ceis_ComputeImage s) (cd_ComputeContainerImageURL d);
  ceis_IpmiImage := fill (ceis_IpmiImage s) (cd_IpmiContainerImageURL d);
  ceis_NodeExporterImage := fill (ceis_NodeExporterImage s) (cd_NodeExporterContainerImageURL d)
|}.

(** The four image fields of [spec.Aodh]. *)
Definition withAodhImages (api evaluator notifier listener : string) (a : Aodh) : Aodh := {|
  aodh_RabbitMqClusterName := aodh_RabbitMqClusterName a;
  aodh_DatabaseInstance := aodh_DatabaseInstance a;
  aodh_DatabaseUser := aodh_DatabaseUser a;
  aodh_PasswordSelectors := aodh_PasswordSelectors a;
  aodh_ServiceUser := aodh_ServiceUser a;
  aodh_Secret := aodh_Secret a;
  aodh_CustomServiceConfig := aodh_CustomServiceConfig a;
  aodh_DefaultConfigOverwrite := aodh_DefaultConfigOverwrite a;
  aodh_NetworkAttachmentDefinitions := aodh_NetworkAttachmentDefinitions a;
  aodh_Override := aodh_Override a;
  aodh_PreserveJobs := aodh_PreserveJobs a;
  aodh_MemcachedInstance := aodh_MemcachedInstance a;
  aodh_APIImage := api;
  aodh_EvaluatorImage := evaluator;
  aodh_NotifierImage := notifier;
  aodh_ListenerImage := listener
|}.

Definition AutoscalingSpec_Default (d : AutoscalingDefaults) (s : AutoscalingSpec) : AutoscalingSpec :=
  MkAutoscalingSpec (ascs_PrometheusHost s) (ascs_PrometheusPort s)
    (withAodhImages
       (fill (aodh_APIImage (ascs_Aodh s)) (ad_AodhAPIContainerImageURL d))
       (fill (aodh_EvaluatorImage (ascs_Aodh s)) (ad_AodhEvaluatorContainerImageURL d))
       (fill (aodh_NotifierImage (ascs_Aodh s)) (ad_AodhNotifierContainerImageURL d))
       (fill (aodh_ListenerImage (ascs_Aodh s)) (ad_AodhListenerContainerImageURL d))
       (ascs_Aodh s))
    (ascs_HeatInstance s).

Definition PersistentStorage_Default (p : PersistentStorage) : PersistentStorage :=
  MkPersistentStorage (fill (ps_PvcStorageRequest p) "20G") (ps_PvcStorageSelector p)
    (ps_PvcStorageClass p).

Definition Storage_Default (s : Storage) : Storage :=
  let strategy := fill (st_Strategy s) "persistent" in
  let retention := fill (st_Retention s) "24h" in
  MkStorage strategy retention
    (if String.eqb strategy "persistent" then PersistentStorage_Default (st_Persistent s)
     else st_Persistent s).

Definition MonitoringStack_Default (m : MonitoringStack) : MonitoringStack :=
  MkMonitoringStack (ms_AlertingEnabled m) (fill (ms_ScrapeInterval m) "30s")
    (Storage_Default (ms_Storage m)).

(** [&MonitoringStack{}] *)
Definition zeroMonitoringStack : MonitoringStack :=
  MkMonitoringStack false "" (MkStorage "" "" (MkPersistentStorage "" zeroSelector "")).

Definition MetricStorageSpec_Default (s : MetricStorageSpec) : MetricStorageSpec :=
  let stack :=
    match mets_MonitoringStack s, mets_CustomMonitoringStack s with
    | None, None =>
        Some (MkMonitoringStack true (ms_ScrapeInterval zeroMonitoringStack)
                (ms_Storage zeroMonitoringStack))
    | stack, _ => stack
    end in
  MkMetricStorageSpec (MonitoringStack_Default <$> stack) (mets_CustomMonitoringStack s).

Definition TelemetrySpec_Default (d : TelemetryDefaults) (s : TelemetrySpec) : TelemetrySpec :=
  let c := csec_CeilometerSpec (tels_Ceilometer s) in
  let a := asec_AutoscalingSpec (tels_Autoscaling s) in
  {| tels_Ceilometer := MkCeilometerSection (csec_Enabled (tels_Ceilometer s)) {|
       ceis_RabbitMqClusterName := ceis_RabbitMqClusterName c;
       ceis_PasswordSelectors := ceis_PasswordSelectors c;
       ceis_ServiceUser := ceis_ServiceUser c;
       ceis_Secret := ceis_Secret c;
       ceis_CustomServiceConfig := ceis_CustomServiceConfig c;
       ceis_DefaultConfigOverwrite := ceis_DefaultConfigOverwrite c;
       ceis_NetworkAttachmentDefinitions := ceis_NetworkAttachmentDefinitions c;
       ceis_CentralImage := fill (ceis_CentralImage c) (td_CentralContainerImageURL d);
       ceis_ComputeImage := fill (ceis_ComputeImage c) (td_ComputeContainerImageURL d);
       ceis_IpmiImage := fill (ceis_IpmiImage c) (td_IpmiContainerImageURL d);
       ceis_NotificationImage := fill (ceis_NotificationImage c) (td_NotificationContainerImageURL d);
       ceis_SgCoreImage := fill (ceis_SgCoreImage c) (td_SgCoreContainerImageURL d);
       ceis_NodeExporterImage := fill (ceis_NodeExporterImage c) (td_NodeExporterContainerImageURL d) |};
     tels_Autoscaling := MkAutoscalingSection (asec_Enabled (tels_Autoscaling s))
       (MkAutoscalingSpec (ascs_PrometheusHost a) (ascs_PrometheusPort a)
          (withAodhImages
             (fill (aodh_APIImage (ascs_Aodh a)) (td_AodhAPIContainerImageURL d))
             (fill (aodh_EvaluatorImage (ascs_Aodh a)) (td_AodhEvaluatorContainerImageURL d))
             (fill (aodh_NotifierImage (ascs_Aodh a)) (td_AodhNotifierContainerImageURL d))
             (fill (aodh_ListenerImage (ascs_Aodh a)) (td_AodhListenerContainerImageURL d))
             (ascs_Aodh a))
          (ascs_HeatInstance a));
     tels_MetricStorage := tels_MetricStorage s |}.

(** [Default] of each custom resource: the spec alone changes. *)
Definition Ceilometer_Default (g : Globals) (r : Ceilometer) : Ceilometer :=
  MkCeilometer (cei_Meta r) (CeilometerSpec_Default (ceilometerDefaults g) (cei_Spec r)) (cei_Status r).
Definition Autoscaling_Default (g : Globals) (r : Autoscaling) : Autoscaling :=
  MkAutoscaling (asc_Kind r) (asc_Meta r)
    (AutoscalingSpec_Default (autoscalingDefaults g) (asc_Spec r)) (asc_Status r).
Definition MetricStorage_Default (r : MetricStorage) : MetricStorage :=
  MkMetricStorage (met_Meta r) (MetricStorageSpec_Default (met_Spec r)) (met_Status r).
Definition Telemetry_Default (g : Globals) (r : Telemetry) : Telemetry :=
  MkTelemetry (tel_Meta r) (TelemetrySpec_Default (telemetryDefaults g) (tel_Spec r)) (tel_Status r).

(** ** Facts *)
Lemma fill_fill f d : fill (fill f d) d = fill f d.
Proof.
  unfold fill. destruct (String.eqb_spec f "") as [->|Hf].
  - by destruct (String.eqb_spec d "").
  - by destruct (String.eqb_spec f "").
Qed.

Lemma fill_kept f d : f <> "" -> fill f d = f.
Proof. intros Hf. unfold fill. by destruct (String.eqb_spec f ""). Qed.

Lemma fill_nonempty f d : d <> "" -> fill f d <> "".
Proof. intros Hd. unfold fill. by destruct (String.eqb_spec f ""). Qed.

Lemma fill_empty f : fill f "" = f.
Proof. unfold fill. by destruct (String.eqb_spec f ""). Qed.

Lemma Storage_Default_idem s : Storage_Default (Storage_Default s) = Storage_Default s.
Proof.
  unfold Storage_Default, PersistentStorage_Default; simpl. rewrite !fill_fill.
  destruct (String.eqb _ _); simpl; by rewrite ?fill_fill.
Qed.

Lemma MonitoringStack_Default_idem m :
  MonitoringStack_Default (MonitoringStack_Default m) = MonitoringStack_Default m.
Proof.
  unfold MonitoringStack_Default; simpl. by rewrite fill_fill, Storage_Default_idem.
Qed.

Lemma MetricStorageSpec_Default_idem s :
  MetricStorageSpec_Default (MetricStorageSpec_Default s) = MetricStorageSpec_Default s.
Proof.
  unfold MetricStorageSpec_Default.
  destruct s as [[m|] [c|]]; simpl; by rewrite ?MonitoringStack_Default_idem.
Qed.

(** The images a Ceilometer and an Aodh need. *)
Definition ceilometerImages (s : CeilometerSpec) : list string :=
  [ceis_CentralImage s; ceis_NotificationImage s; ceis_SgCoreImage s; ceis_ComputeImage s;
   ceis_IpmiImage s; ceis_NodeExporterImage s].
Definition aodhImages (a : Aodh) : list string :=
  [aodh_APIImage a; aodh_EvaluatorImage a; aodh_NotifierImage a; aodh_ListenerImage a].

Lemma CeilometerSpec_Default_kept d s :
  Forall (fun i => i <> "") (ceilometerImages s) -> CeilometerSpec_Default d s = s.
Proof.
  intros H. repeat (apply Forall_cons in H as [? H]). destruct s; simpl in *.
  unfold CeilometerSpec_Default; simpl. by rewrite !fill_kept.
Qed.

Lemma AutoscalingSpec_Default_kept d s :
  Forall (fun i => i <> "") (aodhImages (ascs_Aodh s)) -> AutoscalingSpec_Default d s = s.
Proof.
  intros H. repeat (apply Forall_cons in H as [? H]). destruct s as [h p a i].
  unfold AutoscalingSpec_Default; simpl in *. rewrite !fill_kept by done. by destruct a.
Qed.

(** ** Validators: they accept every object ([old] is the object before an
    update) *)
Definition Telemetry_ValidateCreate (r : Telemetry) : option GoError := None.
Definition Telemetry_ValidateUpdate (r old : Telemetry) : option GoError := None.
Definition Telemetry_ValidateDelete (r : Telemetry) : option GoError := None.
Definition Ceilometer_ValidateCreate (r : Ceilometer) : option GoError := None.
Definition Ceilometer_ValidateUpdate (r old : Ceilometer) : option GoError := None.
Definition Ceilometer_ValidateDelete (r : Ceilometer) : option GoError := None.
Definition Autoscaling_ValidateCreate (r : Autoscaling) : option GoError := None.
Definition Autoscaling_ValidateUpdate (r old : Autoscaling) : option GoError := None.
Definition Autoscaling_ValidateDelete (r : Autoscaling) : option GoError := None.
Definition MetricStorage_ValidateCreate (r : MetricStorage) : option GoError := None.
Definition MetricStorage_ValidateUpdate (r old : MetricStorage) : option GoError := None.
Definition MetricStorage_ValidateDelete (r : MetricStorage) : option GoError := None.

(** ** Properties *)

(** A field that was left empty has the default value; one that was given is
    the user's. *)
Definition defaulted (given d got : string) : Prop :=
  (given = "" -> got = d) /\ (given <> "" -> got = given).

Lemma fill_defaulted f d : defaulted f d (fill f d).
Proof. unfold defaulted, fill. by destruct (String.eqb_spec f ""). Qed.

(** C18. Defaulting a MetricStorage is idempotent and complete.  A custom stack
    is the user's, and the options are missing afterwards only if there is a
    custom stack and none were given; with neither there are options with
    alerting on.  Of the options the empty fields get their defaults: 30s
    between scrapes, the persistent strategy, 24h of retention and, with the
    persistent strategy only, a request for 20G; whatever was given is kept. *)
Theorem metricstorage_default_complete s :
  let s' := MetricStorageSpec_Default s in
  MetricStorageSpec_Default s' = s' /\
  mets_CustomMonitoringStack s' = mets_CustomMonitoringStack s /\
  (mets_MonitoringStack s' = None <->
     mets_MonitoringStack s = None /\ mets_CustomMonitoringStack s <> None) /\
  (forall m, mets_MonitoringStack s' = Some m ->
     let m0 := default (MkMonitoringStack true "" (MkStorage "" "" (MkPersistentStorage "" zeroSelector "")))
                 (mets_MonitoringStack s) in
     let st := ms_Storage m in let st0 := ms_Storage m0 in
     let p := st_Persistent st in let p0 := st_Persistent st0 in
     ms_AlertingEnabled m = ms_AlertingEnabled m0 /\
     defaulted (ms_ScrapeInterval m0) "30s" (ms_ScrapeInterval m) /\
     defaulted (st_Strategy st0) "persistent" (st_Strategy st) /\
     defaulted (st_Retention st0) "24h" (st_Retention st) /\
     (st_Strategy st = "persistent" ->
        defaulted (ps_PvcStorageRequest p0) "20G" (ps_PvcStorageRequest p)) /\
     (st_Strategy st <> "persistent" -> ps_PvcStorageRequest p = ps_PvcStorageRequest p0) /\
     ps_PvcStorageSelector p = ps_PvcStorageSelector p0 /\ ps_PvcStorageClass p = ps_PvcStorageClass p0).
Proof.
  split; [apply MetricStorageSpec_Default_idem|]. split; [done|].
  destruct s as [[m0|] [c|]]; (split; [naive_solver|]); simpl; intros m Hm; simplify_eq/=;
    try (destruct (String.eqb_spec (fill (st_Strategy (ms_Storage m0)) "persistent") "persistent"));
    split_and!; (apply fill_defaulted || done || by intros _; apply fill_defaulted).
Qed.

(** The node-exporter image of a standalone Ceilometer is not defaulted:
    with the defaults [main] installs, whatever the environment, an empty
    NodeExporterImage stays empty, although the Telemetry webhook fills the
    same field. *)
Theorem ceilometer_default_skips_node_exporter `{C : CommonLib} r s :
  ceis_NodeExporterImage (cei_Spec (Ceilometer_Default setupDefaults r)) =
    ceis_NodeExporterImage (cei_Spec r) /\
  (ceis_NodeExporterImage (csec_CeilometerSpec (tels_Ceilometer s)) = "" ->
   ceis_NodeExporterImage (csec_CeilometerSpec (tels_Ceilometer
     (TelemetrySpec_Default (telemetryDefaults setupDefaults) s))) =
   GetEnvVar "RELATED_IMAGE_TELEMETRY_NODE_EXPORTER_IMAGE_URL_DEFAULT" NodeExporterContainerImage).
Proof. split; [apply fill_empty|]. simpl. by intros ->. Qed.
End Webhooks.
