(* ===== verification/CeilometerPkg.v ===== *)
(** * Package ceilometer ([pkg/ceilometer])

    The StatefulSet with the central agent, the notification agent and
    sg-core, its volumes, and the desired state of the Service in front of it. *)

From stdpp Require Import gmap strings list.
From Stdlib Require Import ZArith Lia.
From S2P Require Import Prelude Condition Api Libs Reference.

(** ** const.go *)
Definition ServiceName := "ceilometer".
Definition ComputeServiceName := "ceilometer-compute".
Definition ServiceType := "Ceilometer".
Definition CeilometerPrometheusPort : Z := 3000.

(** ** volumes.go *)
Definition scriptVolume := "ceilometer-scripts".
Definition configVolume := "ceilometer-config-data".

(** The octal modes 0640 and 0740. *)
Definition configMode : Z := 6 * 64 + 4 * 8.
Definition scriptMode : Z := 7 * 64 + 4 * 8.

Definition getVolumes (name : string) : list Volume :=
  [MkVolume "scripts" scriptMode scriptVolume [];
   MkVolume "config-data" configMode configVolume [];
   MkVolume "sg-core-conf-yaml" configMode configVolume [("sg-core.conf.yaml", "sg-core.conf.yaml")]].

Definition getVolumeMounts (serviceName : string) : list VolumeMount :=
  [MkMount "scripts" "/var/lib/openstack/bin" "" true;
   MkMount "config-data" "/var/lib/openstack/config" "" true;
   MkMount "config-data" "/var/lib/kolla/config_files/config.json" (serviceName +:+ "-config.json") true].

Definition getSgCoreVolumeMounts : list VolumeMount :=
  [MkMount "sg-core-conf-yaml" "/etc/sg-core.conf.yaml" "sg-core.conf.yaml" false].

(** ** statefulset.go *)
Definition ServiceCommand := "/usr/local/bin/kolla_set_configs && /usr/local/bin/kolla_start".

Section Build.
Context `{C : CommonLib}.

Definition CeilometerStatefulSet (instance : Ceilometer) (configHash : string)
    (labels : gmap string string) : StatefulSet + GoError :=
  let runAsUser := 0%Z in
  let livenessProbe := MkProbe 5 3 3 (Some ("/v3", int32 CeilometerPrometheusPort)) in
  let readinessProbe := MkProbe 5 5 5 (Some ("/v3", int32 CeilometerPrometheusPort)) in
  let args := ["-c"] ++ [ServiceCommand] in
  let envVarsCentral : EnvMap :=
    <["CONFIG_HASH" := configHash]> (<["KOLLA_CONFIG_STRATEGY" := "COPY_ALWAYS"]> ∅) in
  let envVarsNotification : EnvMap :=
    <["CONFIG_HASH" := configHash]> (<["KOLLA_CONFIG_STRATEGY" := "COPY_ALWAYS"]> ∅) in
  let centralAgentContainer := {|
    ctr_PullAlways := true; ctr_Command := ["/bin/bash"]; ctr_Args := args;
    ctr_Image := ceis_CentralImage (cei_Spec instance);
    ctr_Name := "ceilometer-central-agent";
    ctr_Env := MergeEnvs [] envVarsCentral;
    ctr_RunAsUser := Some runAsUser;
    ctr_VolumeMounts := getVolumeMounts "ceilometer-central";
    ctr_ReadinessProbe := None; ctr_LivenessProbe := None |} in
  let notificationAgentContainer := {|
    ctr_PullAlways := true; ctr_Command := ["/bin/bash"]; ctr_Args := args;
    ctr_Image := ceis_NotificationImage (cei_Spec instance);
    ctr_Name := "ceilometer-notification-agent";
    ctr_Env := MergeEnvs [] envVarsNotification;
    ctr_RunAsUser := Some runAsUser;
    ctr_VolumeMounts := getVolumeMounts "ceilometer-notification";
    ctr_ReadinessProbe := None; ctr_LivenessProbe := None |} in
  let sgCoreContainer := {|
    ctr_PullAlways := true; ctr_Command := []; ctr_Args := [];
    ctr_Image := ceis_SgCoreImage (cei_Spec instance);
    ctr_Name := "sg-core";
    ctr_Env := [];
    ctr_RunAsUser := Some runAsUser;
    ctr_VolumeMounts := getSgCoreVolumeMounts;
    ctr_ReadinessProbe := Some readinessProbe; ctr_LivenessProbe := Some livenessProbe |} in
  let meta := withLabels labels (newMeta ServiceName (meta_Namespace (cei_Meta instance))) in
  let pod := MkPod meta "" (Ceilometer_RbacResourceName instance)
    [centralAgentContainer; notificationAgentContainer; sgCoreContainer] (getVolumes ServiceName) in
  match GetNADAnnotation (meta_Namespace (cei_Meta instance))
          (ceis_NetworkAttachmentDefinitions (cei_Spec instance)) with
  | inr err =>
      inr (Wrapf ("failed create network annotation from " +:+
             showStrings (ceis_NetworkAttachmentDefinitions (cei_Spec instance)) +:+ ": ") err)
  | inl nwAnnotation =>
      let annotations := MergeStringMaps (meta_Annotations (pod_Meta pod)) nwAnnotation in
      inl (MkStatefulSet meta 1 labels
             (MkPod (withAnnotations annotations (pod_Meta pod)) (pod_RestartPolicy pod)
                (pod_ServiceAccountName pod) (pod_Containers pod) (pod_Volumes pod)))
  end.

(** ** service.go: the function [CreateOrUpdate] mutates the Service with,
    up to the owner reference it sets last. *)
Definition desiredService (port : Z) (labels : gmap string string) (service : Service) : Service :=
  MkService (withLabels labels (svc_Meta service)) labels
    [MkServicePort "" TCP (int32 port) (FromInt port)] (svc_Type service).
End Build.

(** ** Properties *)

(** C20. The Ceilometer StatefulSet is one Kubernetes accepts and rolls out:
    its selector is the pods' label set, volumes and containers have distinct
    names and every mount names a volume of the pod.  It runs the central
    agent, the notification agent and sg-core, each with its image of the
    spec; sg-core has a readiness and a liveness probe, both on the port the
    Service targets; the two agents have none and carry the configuration
    hash, so that two different hashes give two different pod templates. *)
Theorem ceilometer_statefulset_sound `{CL : CommonLaws} instance h h' labels s s' :
  CeilometerStatefulSet instance h labels = inl s ->
  CeilometerStatefulSet instance h' labels = inl s' ->
  sts_MatchLabels s = meta_Labels (pod_Meta (sts_Template s)) /\
  podWellFormed (sts_Template s) /\
  (exists central notification sgCore,
     pod_Containers (sts_Template s) = [central; notification; sgCore] /\
     (ctr_Name central, ctr_Image central) =
       ("ceilometer-central-agent", ceis_CentralImage (cei_Spec instance)) /\
     (ctr_Name notification, ctr_Image notification) =
       ("ceilometer-notification-agent", ceis_NotificationImage (cei_Spec instance)) /\
     (ctr_Name sgCore, ctr_Image sgCore) = ("sg-core", ceis_SgCoreImage (cei_Spec instance)) /\
     (forall svc, exists r l port, ctr_ReadinessProbe sgCore = Some r /\ ctr_LivenessProbe sgCore = Some l /\
        sp_TargetPort <$> svc_Ports (desiredService CeilometerPrometheusPort labels svc) = [port] /\
        pr_HTTPGet r = Some ("/v3", port) /\ pr_HTTPGet l = Some ("/v3", port)) /\
     Forall (fun c => ctr_ReadinessProbe c = None /\ ctr_LivenessProbe c = None /\
       exists e, e ∈ ctr_Env c /\ env_Name e = "CONFIG_HASH" /\ env_Value e = h) [central; notification]) /\
  (sts_Template s = sts_Template s' <-> h = h').
Proof.
  unfold CeilometerStatefulSet. destruct (GetNADAnnotation _ _) as [a|]; [|done].
  intros [= <-] [= <-]. simpl.
  set (m := fun x : string => <["CONFIG_HASH" := x]> (<["KOLLA_CONFIG_STRATEGY" := "COPY_ALWAYS"]> (∅ : EnvMap))).
  assert (forall x, m x !! "CONFIG_HASH" = Some x) as Hm by (intros; apply lookup_insert_eq).
  split_and!; [done|apply (bool_decide_unpack _); by vm_compute| |].
  - eexists _, _, _. split; [reflexivity|]. split_and!; [done..| |].
    + intros svc. rewrite FromInt_small by (vm_compute; split; congruence). by eexists _, _, _.
    + repeat (constructor; [split_and!; [done|done|apply MergeEnvs_set, Hm]|]). constructor.
  - split; [|by intros ->]. intros [= He].
    exact (MergeEnvs_value (m h) (m h') _ _ _ (Hm h) (Hm h') He).
Qed.

Definition sampleCeilometer : Ceilometer :=
  MkCeilometer (newMeta "ceilometer" "openstack")
    (MkCeilometerSpec "rabbitmq" (MkPasswords "CeilometerPassword" "" "") "ceilometer" "osp-secret" ""
       ∅ ["internalapi"] "central" "notification" "sg-core" "compute" "ipmi" "node-exporter")
    (MkCeilometerStatus 0 None None "" []).

Lemma ceilometer_statefulset_sound_witness :
  exists s s', CeilometerStatefulSet sampleCeilometer "n1" {[ "service" := "ceilometer" ]} = inl s /\
    CeilometerStatefulSet sampleCeilometer "n2" {[ "service" := "ceilometer" ]} = inl s' /\
    sts_Template s <> sts_Template s'.
Proof.
  do 2 eexists. split; [reflexivity|]. split; [reflexivity|].
  intros H. eapply (ceilometer_statefulset_sound sampleCeilometer "n1" "n2"
    {[ "service" := "ceilometer" ]}) in H; [discriminate H|reflexivity|reflexivity].
Defined.
