(* ===== verification/AutoscalingPkg.v ===== *)
(** * Package autoscaling ([pkg/autoscaling])

    The Aodh StatefulSet (API, evaluator, notifier, listener), the database
    sync job, their volumes, and the MonitoringStack used for autoscaling. *)

From stdpp Require Import gmap strings list.
From Stdlib Require Import ZArith Lia.
From S2P Require Import Prelude Condition Api Libs Reference.

(** ** const.go *)
Definition ServiceName := "aodh".
Definition ServiceType := "alarming".
Definition PrometheusRetention := "5h".
Definition DatabaseName := "aodh".
Definition AodhAPIPort : Z := 8042.
Definition PrometheusReplicas : Z := 1.

(** ** volumes.go *)
Definition scriptVolume := "aodh-scripts".
Definition configVolume := "aodh-config-data".
Definition scriptMode : Z := 7 * 64 + 4 * 8.
Definition configMode : Z := 6 * 64 + 4 * 8.

Definition getVolumes (name : string) : list Volume :=
  [MkVolume "scripts" scriptMode scriptVolume [];
   MkVolume "config-data" configMode configVolume []].

Definition getVolumeMounts (serviceName : string) : list VolumeMount :=
  [MkMount "scripts" "/var/lib/openstack/bin" "" true;
   MkMount "config-data" "/var/lib/openstack/config" "" true;
   MkMount "config-data" "/var/lib/kolla/config_files/config.json" (serviceName +:+ "-config.json") true].

Definition ServiceCommand := "/usr/local/bin/kolla_set_configs && /usr/local/bin/kolla_start".
Definition dbSyncCommand := "/usr/local/bin/kolla_set_configs && /usr/local/bin/kolla_start".

Section Build.
Context `{C : CommonLib}.

(** ** aodh_statefulset.go

    The two probes the function builds are attached to no container. *)
Definition AodhStatefulSet (instance : Autoscaling) (configHash : string)
    (labels : gmap string string) : StatefulSet + GoError :=
  let runAsUser := 0%Z in
  let args := ["-c"] ++ [ServiceCommand] in
  let envVarsAodh : EnvMap :=
    <["CONFIG_HASH" := configHash]> (<["KOLLA_CONFIG_STRATEGY" := "COPY_ALWAYS"]> ∅) in
  let aodh := ascs_Aodh (asc_Spec instance) in
  let apiContainer := {|
    ctr_PullAlways := true; ctr_Command := ["/bin/bash"]; ctr_Args := args;
    ctr_Image := aodh_APIImage aodh; ctr_Name := "aodh-api";
    ctr_Env := MergeEnvs [] envVarsAodh; ctr_RunAsUser := Some runAsUser;
    ctr_VolumeMounts := getVolumeMounts "aodh-api";
    ctr_ReadinessProbe := None; ctr_LivenessProbe := None |} in
  let evaluatorContainer := {|
    ctr_PullAlways := true; ctr_Command := ["/bin/bash"]; ctr_Args := args;
    ctr_Image := aodh_EvaluatorImage aodh; ctr_Name := "aodh-evaluator";
    ctr_Env := MergeEnvs [] envVarsAodh; ctr_RunAsUser := Some runAsUser;
    ctr_VolumeMounts := getVolumeMounts "aodh-evaluator";
    ctr_ReadinessProbe := None; ctr_LivenessProbe := None |} in
  let notifierContainer := {|
    ctr_PullAlways := true; ctr_Command := ["/bin/bash"]; ctr_Args := args;
    ctr_Image := aodh_NotifierImage aodh; ctr_Name := "aodh-notifier";
    ctr_Env := MergeEnvs [] envVarsAodh; ctr_RunAsUser := Some runAsUser;
    ctr_VolumeMounts := getVolumeMounts "aodh-notifier";
    ctr_ReadinessProbe := None; ctr_LivenessProbe := None |} in
  let listenerContainer := {|
    ctr_PullAlways := true; ctr_Command := ["/bin/bash"]; ctr_Args := args;
    ctr_Image := aodh_ListenerImage aodh; ctr_Name := "aodh-listener";
    ctr_Env := MergeEnvs [] envVarsAodh; ctr_RunAsUser := Some runAsUser;
    ctr_VolumeMounts := getVolumeMounts "aodh-listener";
    ctr_ReadinessProbe := None; ctr_LivenessProbe := None |} in
  let meta := withLabels labels (newMeta ServiceName (meta_Namespace (asc_Meta instance))) in
  let pod := MkPod meta "" (Autoscaling_RbacResourceName instance)
    [apiContainer; evaluatorContainer; notifierContainer; listenerContainer]
    (getVolumes ServiceName) in
  match GetNADAnnotation (meta_Namespace (asc_Meta instance))
          (aodh_NetworkAttachmentDefinitions aodh) with
  | inr err =>
      inr (Wrapf ("failed create network annotation from " +:+
             showStrings (aodh_NetworkAttachmentDefinitions aodh) +:+ ": ") err)
  | inl nwAnnotation =>
      let annotations := MergeStringMaps (meta_Annotations (pod_Meta pod)) nwAnnotation in
      inl (MkStatefulSet meta 1 labels
             (MkPod (withAnnotations annotations (pod_Meta pod)) (pod_RestartPolicy pod)
                (pod_ServiceAccountName pod) (pod_Containers pod) (pod_Volumes pod)))
  end.

(** ** dbsync.go *)
Definition DbSyncJob (instance : Autoscaling) (labels : gmap string string) : Job :=
  let args := ["-c"] ++ [dbSyncCommand] in
  let aodh := ascs_Aodh (asc_Spec instance) in
  let envVars : EnvMap :=
    <["KOLLA_BOOTSTRAP" := "TRUE"]> (<["KOLLA_CONFIG_STRATEGY" := "COPY_ALWAYS"]> ∅) in
  let aodhPassword :=
    [MkEnvVar "AodhPassword" "" (Some (aodh_Secret aodh, pw_Service (aodh_PasswordSelectors aodh)))] in
  MkJob (withLabels labels (newMeta (ServiceName +:+ "-db-sync") (meta_Namespace (asc_Meta instance))))
    (MkPod (newMeta "" "") "OnFailure" (Autoscaling_RbacResourceName instance)
       [{| ctr_Name := ServiceName +:+ "-db-sync"; ctr_PullAlways := false;
           ctr_Command := ["/bin/bash"]; ctr_Args := args;
           ctr_Image := aodh_APIImage aodh; ctr_RunAsUser := Some 0%Z;
           ctr_Env := MergeEnvs aodhPassword envVars;
           ctr_VolumeMounts := getVolumeMounts "aodh-dbsync";
           ctr_ReadinessProbe := None; ctr_LivenessProbe := None |}]
       (getVolumes ServiceName)).

(** ** prometheus.go *)
Definition Prometheus (instance : Autoscaling) (labels : gmap string string)
    : ObjectMeta * MonitoringStackSpec :=
  (withLabels labels (newMeta (meta_Name (asc_Meta instance) +:+ "-prometheus")
                        (meta_Namespace (asc_Meta instance))),
   {| mss_AlertmanagerDisabled := true;
      mss_PrometheusConfig := Some (MkPrometheusConfig (Some PrometheusReplicas) None);
      mss_Retention := PrometheusRetention;
      mss_LogLevel := "debug";
      mss_ResourceSelector := Some (MkSelector (Some labels) None);
      mss_Rest := "" |}).
End Build.

(** ** Properties *)

(** C21. The Aodh StatefulSet and the database sync job: the selector of the
    StatefulSet is the pods' label set, both pod templates are well formed and
    use the same service account.  The StatefulSet runs the API, the evaluator,
    the notifier and the listener, each with its image of the spec; each of the
    four carries the configuration hash (so that two hashes give two pod
    templates) and none is probed.  The job runs the API image and is
    retried on failure; its container carries no hash, so that a new
    configuration leaves its template as it is. *)
Theorem aodh_statefulset_sound `{CL : CommonLaws} instance h h' labels s s' :
  AodhStatefulSet instance h labels = inl s ->
  AodhStatefulSet instance h' labels = inl s' ->
  let aodh := ascs_Aodh (asc_Spec instance) in
  let job := job_Template (DbSyncJob instance labels) in
  sts_MatchLabels s = meta_Labels (pod_Meta (sts_Template s)) /\
  podWellFormed (sts_Template s) /\ podWellFormed job /\
  pod_ServiceAccountName job = pod_ServiceAccountName (sts_Template s) /\
  map (fun c => (ctr_Name c, ctr_Image c)) (pod_Containers (sts_Template s)) =
    [("aodh-api", aodh_APIImage aodh); ("aodh-evaluator", aodh_EvaluatorImage aodh);
     ("aodh-notifier", aodh_NotifierImage aodh); ("aodh-listener", aodh_ListenerImage aodh)] /\
  (forall c, c ∈ pod_Containers (sts_Template s) ->
     ctr_ReadinessProbe c = None /\ ctr_LivenessProbe c = None /\
     exists e, e ∈ ctr_Env c /\ env_Name e = "CONFIG_HASH" /\ env_Value e = h) /\
  (sts_Template s = sts_Template s' <-> h = h') /\
  pod_RestartPolicy job = "OnFailure" /\
  map (fun c => (ctr_Name c, ctr_Image c)) (pod_Containers job) =
    [("aodh-db-sync", aodh_APIImage aodh)] /\
  (forall c e, c ∈ pod_Containers job -> e ∈ ctr_Env c -> env_Name e <> "CONFIG_HASH").
Proof.
  unfold AodhStatefulSet. destruct (GetNADAnnotation _ _) as [a|]; [|done].
  intros [= <-] [= <-]. simpl.
  set (m := fun x : string => <["CONFIG_HASH" := x]> (<["KOLLA_CONFIG_STRATEGY" := "COPY_ALWAYS"]> (∅ : EnvMap))).
  assert (forall x, m x !! "CONFIG_HASH" = Some x) as Hm by (intros; apply lookup_insert_eq).
  split_and!; [done|apply (bool_decide_unpack _); by vm_compute|
    apply (bool_decide_unpack _); by vm_compute|done|done| | |done|done|].
  - intros c Hc.
    repeat (apply elem_of_cons in Hc as [->|Hc];
      [split_and!; [done|done|apply MergeEnvs_set, Hm]|]).
    by apply not_elem_of_nil in Hc.
  - split; [|by intros ->]. intros [= He].
    exact (MergeEnvs_value (m h) (m h') _ _ _ (Hm h) (Hm h') He).
  - intros c e ->%list_elem_of_singleton He Hn. simpl in He. apply MergeEnvs_elem in He.
    rewrite Hn in He. simpl in He. by apply list_elem_of_singleton in He as ->.
Qed.

Definition sampleAutoscaling : Autoscaling :=
  MkAutoscaling "Autoscaling" (newMeta "autoscaling" "openstack")
    (MkAutoscalingSpec "prometheus" 9090 (MkAodh "rabbitmq" "openstack" "aodh"
       (MkPasswords "CeilometerPassword" "AodhPassword" "AodhDatabasePassword") "aodh" "osp-secret" ""
       ∅ [] (MkAPIOverride None) false "memcached" "api" "evaluator" "notifier" "listener") "heat")
    (MkAutoscalingStatus 0 None None [] "" "" "" 0 None).

Lemma aodh_statefulset_sound_witness :
  exists s s', AodhStatefulSet sampleAutoscaling "n1" {[ "service" := "aodh" ]} = inl s /\
    AodhStatefulSet sampleAutoscaling "n2" {[ "service" := "aodh" ]} = inl s' /\
    sts_Template s <> sts_Template s'.
Proof.
  do 2 eexists. split; [reflexivity|]. split; [reflexivity|].
  intros H. eapply (aodh_statefulset_sound sampleAutoscaling "n1" "n2"
    {[ "service" := "aodh" ]}) in H; [discriminate H|reflexivity|reflexivity].
Defined.

(** The password of the database sync job: its AodhPassword variable is
    read from the key that the [service] selector names, the one documented
    for Ceilometer's password, and never from the [aodhService] selector. *)
Theorem dbsync_password_key `{CL : CommonLaws} instance labels c e :
  c ∈ pod_Containers (job_Template (DbSyncJob instance labels)) ->
  e ∈ ctr_Env c -> env_Name e = "AodhPassword" ->
  env_SecretKeyRef e =
    Some (aodh_Secret (ascs_Aodh (asc_Spec instance)),
          pw_Service (aodh_PasswordSelectors (ascs_Aodh (asc_Spec instance)))).
Proof.
  intros ->%list_elem_of_singleton He Hn. simpl in He. apply MergeEnvs_elem in He.
  rewrite Hn in He. simpl in He. by apply list_elem_of_singleton in He as ->.
Qed.

Lemma dbsync_password_key_witness :
  exists c e, c ∈ pod_Containers (job_Template (DbSyncJob sampleAutoscaling ∅)) /\ e ∈ ctr_Env c /\
    env_SecretKeyRef e = Some ("osp-secret", "CeilometerPassword").
Proof.
  eexists. exists (MkEnvVar "AodhPassword" "" (Some ("osp-secret", "CeilometerPassword"))).
  split; [simpl; by left|]. split; [apply list_elem_of_In; vm_compute; by left|].
  eapply (dbsync_password_key sampleAutoscaling ∅).
  - simpl. by left.
  - apply list_elem_of_In. vm_compute. by left.
  - reflexivity.
Defined.
