(* ===== verification/MetricStoragePkg.v ===== *)
(** * Package metricstorage ([pkg/metricstorage])

    The MonitoringStack, ScrapeConfig and ServiceMonitor objects a
    MetricStorage asks for. *)

From stdpp Require Import gmap strings list.
From Stdlib Require Import ZArith Lia.
From S2P Require Import Prelude Condition Api Libs Reference Webhooks.

(** ** const.go *)
Definition DefaultServiceName := "metric-storage".
Definition DefaultPvcStorageRequest := "20G".
Definition DefaultPrometheusPort : Z := 9090.
Definition DefaultNodeExporterPort : Z := 9100.
Definition DefaultScrapeInterval := "30s".
Definition PauseBetweenWatchAttempts : Z := seconds 10.
Definition PrometheusReplicas : Z := 1.

(** ** Objects of the observability operator *)

(** [metav1.Condition] of a MonitoringStack. *)
Record StackCondition := MkStackCondition {
  sc_Type : string;
  sc_Status : string;
  sc_Reason : string;
  sc_Message : string
}.

(** [obov1.MonitoringStack] *)
Record ObsMonitoringStack := MkObsStack {
  obs_Meta : ObjectMeta;
  obs_Spec : MonitoringStackSpec;
  obs_Conditions : list StackCondition
}.

(** [monv1.RelabelConfig], [monv1.Endpoint] and [monv1.ServiceMonitor] *)
Record RelabelConfig := MkRelabel {
  rl_Action : string;
  rl_Regex : string;
  rl_SourceLabels : list string
}.
Record MonitorEndpoint := MkMonitorEndpoint {
  ep_Interval : string;
  ep_MetricRelabelConfigs : list RelabelConfig
}.
Record ServiceMonitorObj := MkServiceMonitor {
  sm_Meta : ObjectMeta;
  sm_Endpoints : list MonitorEndpoint;
  sm_Selector : LabelSelector
}.

(** The unstructured ScrapeConfig: its group, version and kind, its metadata
    and the content of ["spec"]. *)
Record ScrapeConfigObj := MkScrapeConfig {
  scf_GVK : string * string * string;
  scf_Meta : ObjectMeta;
  scf_ScrapeInterval : string;
  scf_Targets : list string
}.

Section Build.
Context `{C : CommonLib}.

(** ** monitoring_stack.go

    [getPVCSpec] is called after [MonitoringStack] has found the stack. *)
Definition getPVCSpec (stack : MonitoringStack) : option PVCSpec + GoError :=
  if String.eqb (st_Strategy (ms_Storage stack)) "persistent" then
    let persistentSpec := st_Persistent (ms_Storage stack) in
    let selector :=
      if decide (ps_PvcStorageSelector persistentSpec = zeroSelector) then None
      else Some (ps_PvcStorageSelector persistentSpec) in
    let class :=
      if String.eqb (ps_PvcStorageClass persistentSpec) "" then None
      else Some (ps_PvcStorageClass persistentSpec) in
    let quantity :=
      if String.eqb (ps_PvcStorageRequest persistentSpec) ""
      then ParseQuantity DefaultPvcStorageRequest
      else ParseQuantity (ps_PvcStorageRequest persistentSpec) in
    match quantity with
    | inr err => inr err
    | inl q => inl (Some (MkPVC selector class (Some q)))
    end
  else inl None.

Definition NewMonitoringStack (instance : MetricStorage) (labels : gmap string string)
    : ObsMonitoringStack + GoError :=
  match mets_MonitoringStack (met_Spec instance) with
  | None => inr (Errorf "monitoringStack is set to nil")
  | Some stack =>
      match getPVCSpec stack with
      | inr err => inr err
      | inl pvc =>
          inl (MkObsStack
            (withLabels labels (newMeta (meta_Name (met_Meta instance)) (meta_Namespace (met_Meta instance))))
            {| mss_AlertmanagerDisabled := negb (ms_AlertingEnabled stack);
               mss_PrometheusConfig := Some (MkPrometheusConfig (Some PrometheusReplicas) pvc);
               mss_Retention := st_Retention (ms_Storage stack);
               mss_LogLevel := "";
               mss_ResourceSelector := Some (MkSelector (Some labels) None);
               mss_Rest := "" |}
            [])
      end
  end.
End Build.

(** ** scrape_config.go *)
Definition ScrapeConfig (instance : MetricStorage) (labels : gmap string string)
    (targets : list string) : ScrapeConfigObj :=
  let scrapeInterval :=
    match mets_MonitoringStack (met_Spec instance) with
    | Some stack =>
        if negb (String.eqb (ms_ScrapeInterval stack) "") then ms_ScrapeInterval stack
        else DefaultScrapeInterval
    | None => DefaultScrapeInterval
    end in
  MkScrapeConfig ("monitoring.rhobs", "v1alpha1", "ScrapeConfig")
    (withLabels labels (newMeta (meta_Name (met_Meta instance)) (meta_Namespace (met_Meta instance))))
    scrapeInterval targets.

(** ** service_monitor.go *)
Definition ServiceMonitor (instance : MetricStorage) (labels selector : gmap string string)
    : ServiceMonitorObj :=
  let scrapeInterval :=
    match mets_MonitoringStack (met_Spec instance) with
    | Some stack =>
        if negb (String.eqb (ms_ScrapeInterval stack) "") then ms_ScrapeInterval stack
        else DefaultScrapeInterval
    | None => DefaultScrapeInterval
    end in
  MkServiceMonitor
    (withLabels labels (newMeta (meta_Name (met_Meta instance)) (meta_Namespace (met_Meta instance))))
    [MkMonitorEndpoint scrapeInterval
       [MkRelabel "labeldrop" "pod" []; MkRelabel "labeldrop" "namespace" [];
        MkRelabel "labeldrop" "instance" []; MkRelabel "labeldrop" "job" [];
        MkRelabel "labeldrop" "publisher" []]]
    (MkSelector (Some selector) None).

(** ** Properties *)

Lemma getPVCSpec_error `{C : CommonLib} stack err :
  getPVCSpec stack = inr err ->
  st_Strategy (ms_Storage stack) = "persistent" /\
  ParseQuantity (Webhooks.fill (ps_PvcStorageRequest (st_Persistent (ms_Storage stack))) "20G") = inr err.
Proof.
  unfold getPVCSpec, Webhooks.fill, DefaultPvcStorageRequest.
  destruct (String.eqb_spec (st_Strategy (ms_Storage stack)) "persistent") as [->|]; [|done].
  destruct (String.eqb _ ""), (ParseQuantity _) eqn:?; naive_solver.
Qed.

(** C22. Building the MonitoringStack of a MetricStorage that went through the
    defaulting webhook: it fails only when there is only a custom stack, or
    when the storage request the user wrote is no quantity; with no storage
    request from the user it succeeds, and a persistent stack then claims the
    default volume.  The resource selector is always the label set the
    operator puts on the ServiceMonitor and the ScrapeConfig. *)
Theorem monitoring_stack_build `{CL : CommonLaws} i labels :
  let d := Webhooks.MetricStorage_Default i in
  (forall err, NewMonitoringStack d labels = inr err ->
     (mets_MonitoringStack (met_Spec i) = None /\ mets_CustomMonitoringStack (met_Spec i) <> None) \/
     exists m, mets_MonitoringStack (met_Spec i) = Some m /\
       ps_PvcStorageRequest (st_Persistent (ms_Storage m)) <> "" /\
       ParseQuantity (ps_PvcStorageRequest (st_Persistent (ms_Storage m))) = inr err) /\
  (forall o, NewMonitoringStack d labels = inl o ->
     mss_ResourceSelector (obs_Spec o) =
       Some (MkSelector (Some (meta_Labels (sm_Meta (ServiceMonitor d labels labels)))) None) /\
     meta_Labels (scf_Meta (ScrapeConfig d labels [])) = labels /\
     (forall m, mets_MonitoringStack (met_Spec d) = Some m ->
        st_Strategy (ms_Storage m) = "persistent" ->
        exists pc pvc q, mss_PrometheusConfig (obs_Spec o) = Some pc /\
          pc_PersistentVolumeClaim pc = Some pvc /\ pvc_Requests pvc = Some q)).
Proof.
  split.
  - intros err. unfold NewMonitoringStack; simpl.
    destruct (met_Spec i) as [[m|] [c|]]; simpl; try (left; done).
    1,2: destruct (getPVCSpec _) eqn:Hp; [done|]; intros [= <-]; right; exists m; split; [done|];
      apply getPVCSpec_error in Hp as [Hs Hq]; simpl in *; rewrite Hs in Hq; simpl in Hq;
      rewrite Webhooks.fill_fill in Hq; unfold Webhooks.fill in Hq;
      destruct (String.eqb_spec (ps_PvcStorageRequest (st_Persistent (ms_Storage m))) "") as [He|];
      [destruct ParseQuantity_20G as [q Hq']; congruence|done].
    destruct (getPVCSpec _) eqn:Hp; [done|]. intros [= <-].
    apply getPVCSpec_error in Hp as [_ Hq]. simpl in Hq.
    destruct ParseQuantity_20G as [q Hq']. unfold Webhooks.fill in Hq. simpl in Hq. congruence.
  - intros o. unfold NewMonitoringStack.
    destruct (mets_MonitoringStack (met_Spec _)) as [m|] eqn:Hm; [|done].
    unfold getPVCSpec. destruct (String.eqb_spec (st_Strategy (ms_Storage m)) "persistent") as [Hs|Hs].
    + destruct (if String.eqb _ "" then _ else _) as [q|]; [|done]. intros [= <-]. simpl.
      split_and!; [done|done|]. intros m' [= <-] _. eauto 10.
    + intros [= <-]. split_and!; [done|done|]. intros m' [= <-]. done.
Qed.

Definition sampleMetricStorage : MetricStorage :=
  MkMetricStorage (newMeta "metric-storage" "openstack") (MkMetricStorageSpec None None)
    (MkMetricStorageStatus None).

Lemma monitoring_stack_build_witness :
  exists o, NewMonitoringStack (Webhooks.MetricStorage_Default sampleMetricStorage) ∅ = inl o /\
    exists pc pvc q, mss_PrometheusConfig (obs_Spec o) = Some pc /\
      pc_PersistentVolumeClaim pc = Some pvc /\ pvc_Requests pvc = Some q.
Proof.
  eexists. split; [reflexivity|].
  destruct (monitoring_stack_build sampleMetricStorage ∅) as [_ H].
  destruct (H _ eq_refl) as (_ & _ & Hpvc). eapply Hpvc; reflexivity.
Defined.
