(* ===== verification/Address.v ===== *)
(** * Host names and IP addresses

    [isValidDomain] ([controllers/metricstorage_controller.go]) and what it
    and [getAddressFromAnsibleHost] use of the Go standard library: the
    regular expressions of [regexp] (matched by derivatives and proved against
    their language) and [net.ParseIP] of Go 1.19.  Strings are byte sequences,
    as in Go.  The names [isValidDomain] accepts are described without the
    regular expression, by the parts between the dots and the characters
    these are made of, and the dotted decimal addresses [net.ParseIP] accepts
    are shown to be among them. *)

From stdpp Require Import gmap strings list.
From Stdlib Require Import ZArith Lia Ascii.
From S2P Require Import Prelude.

Abbreviation bytes := (list ascii).

Definition code (c : ascii) : Z := Z.of_nat (nat_of_ascii c).
Definition byteOf (z : Z) : ascii := ascii_of_nat (Z.to_nat z).

(** ** Regular expressions *)
Inductive regex :=
| Eps
| Chr (p : ascii -> bool)
| Cat (r1 r2 : regex)
| Alt (r1 r2 : regex)
| Star (r : regex).

Definition Plus (r : regex) : regex := Cat r (Star r).
Definition Opt (r : regex) : regex := Alt r Eps.

(** The language of an expression. *)
Inductive lang : regex -> bytes -> Prop :=
| lang_eps : lang Eps []
| lang_chr p c : p c = true -> lang (Chr p) [c]
| lang_cat r1 r2 s1 s2 : lang r1 s1 -> lang r2 s2 -> lang (Cat r1 r2) (s1 ++ s2)
| lang_alt1 r1 r2 s : lang r1 s -> lang (Alt r1 r2) s
| lang_alt2 r1 r2 s : lang r2 s -> lang (Alt r1 r2) s
| lang_star_nil r : lang (Star r) []
| lang_star_cons r s1 s2 : lang r s1 -> lang (Star r) s2 -> lang (Star r) (s1 ++ s2).

Fixpoint nullable (r : regex) : bool :=
  match r with
  | Eps => true
  | Chr _ => false
  | Cat r1 r2 => nullable r1 && nullable r2
  | Alt r1 r2 => nullable r1 || nullable r2
  | Star _ => true
  end.

Fixpoint deriv (c : ascii) (r : regex) : regex :=
  match r with
  | Eps => Chr (fun _ => false)
  | Chr p => if p c then Eps else Chr (fun _ => false)
  | Cat r1 r2 =>
      if nullable r1 then Alt (Cat (deriv c r1) r2) (deriv c r2) else Cat (deriv c r1) r2
  | Alt r1 r2 => Alt (deriv c r1) (deriv c r2)
  | Star r => Cat (deriv c r) (Star r)
  end.

(** A match of the whole text, [^r$]. *)
Fixpoint matches (r : regex) (s : bytes) : bool :=
  match s with
  | [] => nullable r
  | c :: s => matches (deriv c r) s
  end.

Create HintDb regex discriminated.
#[export] Hint Constructors lang : regex.

Lemma lang_eps_iff s : lang Eps s <-> s = [].
Proof. split; [by inversion 1|intros ->; auto with regex]. Qed.

Lemma lang_chr_iff p s : lang (Chr p) s <-> exists c, s = [c] /\ p c = true.
Proof. split; [inversion 1; eauto|intros (c & -> & ?); auto with regex]. Qed.

Lemma lang_cat_iff r1 r2 s :
  lang (Cat r1 r2) s <-> exists s1 s2, s = s1 ++ s2 /\ lang r1 s1 /\ lang r2 s2.
Proof. split; [inversion 1; eauto 10|intros (s1 & s2 & -> & ? & ?); auto with regex]. Qed.

Lemma lang_alt_iff r1 r2 s : lang (Alt r1 r2) s <-> lang r1 s \/ lang r2 s.
Proof. split; [inversion 1; auto|intros []; auto with regex]. Qed.

Lemma lang_star_iff r c s : lang (Star r) (c :: s) <->
  exists s1 s2, s = s1 ++ s2 /\ lang r (c :: s1) /\ lang (Star r) s2.
Proof.
  split; [|intros (s1 & s2 & -> & H1 & H2); exact (lang_star_cons _ (c :: s1) s2 H1 H2)].
  remember (Star r) as q eqn:Hq. remember (c :: s) as t eqn:Ht. intros H. revert r c s Hq Ht.
  induction H as [| | | | | |r s1 s2 H1 _ H2 IH]; intros r' c' s' Hq Ht; simplify_eq.
  destruct s1 as [|c1 s1]; simplify_eq/=; [by eapply IH|]. eauto 10.
Qed.

Lemma nullable_lang r : nullable r = true <-> lang r [].
Proof.
  induction r as [|p|r1 IH1 r2 IH2|r1 IH1 r2 IH2|r IH]; simpl.
  - by rewrite lang_eps_iff.
  - rewrite lang_chr_iff. naive_solver.
  - rewrite andb_true_iff, IH1, IH2, lang_cat_iff. split; [by exists [], []|].
    intros (s1 & s2 & [-> ->]%symmetry%app_nil & ?). done.
  - by rewrite orb_true_iff, IH1, IH2, lang_alt_iff.
  - split; auto with regex.
Qed.

Lemma lang_cat_cons r1 r2 c s : lang (Cat r1 r2) (c :: s) <->
  (exists s1 s2, s = s1 ++ s2 /\ lang r1 (c :: s1) /\ lang r2 s2) \/
  (nullable r1 = true /\ lang r2 (c :: s)).
Proof.
  rewrite lang_cat_iff, nullable_lang. split.
  - intros ([|c1 s1] & s2 & Hs & H1 & H2); simplify_eq/=; [by right|left; eauto 10].
  - intros [(s1 & s2 & -> & H1 & H2)|[H1 H2]]; [by exists (c :: s1), s2|by exists [], (c :: s)].
Qed.

Lemma deriv_lang c r s : lang (deriv c r) s <-> lang r (c :: s).
Proof.
  revert s. induction r as [|p|r1 IH1 r2 IH2|r1 IH1 r2 IH2|r IH]; intros s; simpl.
  - rewrite lang_eps_iff, lang_chr_iff. naive_solver.
  - rewrite lang_chr_iff. destruct (p c) eqn:Hp.
    + rewrite lang_eps_iff. naive_solver.
    + rewrite lang_chr_iff. split; [by intros (? & _ & ?)|].
      intros (c' & [= <- _] & Hc). congruence.
  - rewrite lang_cat_cons.
    destruct (nullable r1); [rewrite lang_alt_iff, IH2|]; rewrite lang_cat_iff; setoid_rewrite IH1;
      naive_solver.
  - by rewrite !lang_alt_iff, IH1, IH2.
  - rewrite lang_cat_iff, lang_star_iff. by setoid_rewrite IH.
Qed.

(** Matching by derivatives decides the language. *)
Lemma matches_lang r s : matches r s = true <-> lang r s.
Proof.
  revert r. induction s as [|c s IH]; intros r; simpl; [apply nullable_lang|].
  by rewrite IH, deriv_lang.
Qed.

(** ** isValidDomain *)
Definition isDot (c : ascii) : bool := (code c =? 46)%Z.
Definition isByte (z : Z) (c : ascii) : bool := (code c =? z)%Z.

(** The one-byte characters of the class [[a-z0-9-]] under [(?i)]. *)
Definition isLabelByte (c : ascii) : bool :=
  let z := code c in
  ((97 <=? z) && (z <=? 122) || (65 <=? z) && (z <=? 90) || (48 <=? z) && (z <=? 57) || (z =? 45))%Z.

(** Case folding adds U+017F (folds to s) and U+212A (folds to k), in UTF-8. *)
Definition labelRune : regex :=
  Alt (Chr isLabelByte)
    (Alt (Cat (Chr (isByte 197)) (Chr (isByte 191)))
         (Cat (Chr (isByte 226)) (Cat (Chr (isByte 132)) (Chr (isByte 170))))).

(** [^(?i)[a-z0-9-]+(\.[a-z0-9-]+)+\.?$] *)
Definition domainRegexp : regex :=
  Cat (Plus labelRune) (Cat (Plus (Cat (Chr isDot) (Plus labelRune))) (Opt (Chr isDot))).

Definition isValidDomain (domain : string) : bool :=
  matches domainRegexp (String.list_ascii_of_string domain).

(** ** net.ParseIP (Go 1.19) *)
Definition big : Z := 16777215. (* 0xFFFFFF *)

Definition digit (base : Z) (c : ascii) : option Z :=
  let z := code c in
  if ((48 <=? z) && (z <=? 57))%Z then Some (z - 48)%Z
  else if (base =? 16)%Z && ((97 <=? z) && (z <=? 102))%Z then Some (z - 87)%Z
  else if (base =? 16)%Z && ((65 <=? z) && (z <=? 70))%Z then Some (z - 55)%Z
  else None.

(** The loop of [dtoi] (base 10) and [xtoi] (base 16): the number, how many
    digits it has, and the rest of the text; [None] is [ok = false]. *)
Fixpoint toiLoop (base : Z) (s : bytes) (n : Z) (i : nat) : option (Z * nat * bytes) :=
  match s with
  | [] => Some (n, i, [])
  | c :: s' =>
      match digit base c with
      | Some d =>
          let n' := (n * base + d)%Z in
          if (big <=? n')%Z then None else toiLoop base s' n' (S i)
      | None => Some (n, i, s)
      end
  end.

Definition toi (base : Z) (s : bytes) : option (Z * nat * bytes) :=
  match toiLoop base s 0 0 with
  | Some (_, 0, _) => None
  | r => r
  end.

Definition startsWith (z : Z) (s : bytes) : bool :=
  match s with c :: _ => isByte z c | [] => false end.

(** One round of the loop of [parseIPv4] per octet; [first] is [i == 0]. *)
Fixpoint parseOctets (k : nat) (first : bool) (s : bytes) : option (list Z * bytes) :=
  match k with
  | 0 => Some ([], s)
  | S k =>
      match s with
      | [] => None
      | c :: s' =>
          if negb first && negb (isDot c) then None else
          let s1 := if first then s else s' in
          match toi 10 s1 with
          | None => None
          | Some (n, c1, s2) =>
              if (255 <? n)%Z then None
              else if (1 <? c1)%nat && startsWith 48 s1 then None
              else match parseOctets k false s2 with
                   | Some (l, s3) => Some (n :: l, s3)
                   | None => None
                   end
          end
      end
  end.

(** [IPv4(a, b, c, d)]: the 16-byte form. *)
Definition v4InV6Prefix : list Z := [0; 0; 0; 0; 0; 0; 0; 0; 0; 0; 255; 255]%Z.

Definition parseOctets4 (s : bytes) : option (list Z) :=
  match parseOctets 4 true s with
  | Some (l, []) => Some l
  | _ => None
  end.

Definition parseIPv4 (s : bytes) : option (list Z) := app v4InV6Prefix <$> parseOctets4 s.

(** The loop of [parseIPv6]: [k] groups of two bytes are left ([i < 16]), [ip]
    holds the [i] bytes read, [ellipsis] its position; the result is the three
    at the exit of the loop, with the rest of the text. *)
Fixpoint parseGroups (k : nat) (s : bytes) (ip : list Z) (ellipsis : option nat)
    : option (bytes * list Z * option nat) :=
  match k with
  | 0 => Some (s, ip, ellipsis)
  | S k =>
      match toi 16 s with
      | None => None
      | Some (n, c, s1) =>
          if (65535 <? n)%Z then None
          else if startsWith 46 s1 then
            if bool_decide (ellipsis = None) && negb (length ip =? 12)%nat then None
            else if (16 <? length ip + 4)%nat then None
            else match parseOctets4 s with
                 | None => None
                 | Some ip4 => Some ([], ip ++ ip4, ellipsis)
                 end
          else
            let ip' := ip ++ [Z.shiftr n 8; Z.land n 255] in
            match s1 with
            | [] => Some ([], ip', ellipsis)
            | c1 :: s2 =>
                if negb (isByte 58 c1) then None
                else match s2 with
                | [] => None
                | c2 :: s3 =>
                    if isByte 58 c2 then
                      match ellipsis with
                      | Some _ => None
                      | None =>
                          match s3 with
                          | [] => Some ([], ip', Some (length ip'))
                          | _ => parseGroups k s3 ip' (Some (length ip'))
                          end
                      end
                    else parseGroups k s2 ip' ellipsis
                end
            end
      end
  end.

(** After the loop: the whole text must be used, and the ellipsis stands for
    the missing bytes, at least two. *)
Definition expandEllipsis (r : bytes * list Z * option nat) : option (list Z) :=
  match r with
  | (_ :: _, _, _) => None
  | ([], ip, ellipsis) =>
      if (length ip <? 16)%nat then
        match ellipsis with
        | None => None
        | Some e => Some (take e ip ++ replicate (16 - length ip) 0%Z ++ drop e ip)
        end
      else match ellipsis with Some _ => None | None => Some ip end
  end.

Definition parseIPv6 (s : bytes) : option (list Z) :=
  if startsWith 58 s && startsWith 58 (tail s) then
    match tail (tail s) with
    | [] => Some (replicate 16 0%Z)
    | s2 => parseGroups 8 s2 [] (Some 0) ≫= expandEllipsis
    end
  else parseGroups 8 s [] None ≫= expandEllipsis.

(** The first of '.' and ':' decides. *)
Fixpoint scanIP (all s : bytes) : option (list Z) :=
  match s with
  | [] => None
  | c :: s =>
      if isDot c then parseIPv4 all
      else if isByte 58 c then parseIPv6 all
      else scanIP all s
  end.

Definition ParseIP (s : string) : option (list Z) :=
  scanIP (String.list_ascii_of_string s) (String.list_ascii_of_string s).

Example ParseIP_examples :
  ParseIP "192.168.122.100" = Some (v4InV6Prefix ++ [192; 168; 122; 100])%Z /\
  ParseIP "192.168.122.0100" = None /\ ParseIP "192.168.122.256" = None /\
  ParseIP "::1" = Some (replicate 15 0 ++ [1])%Z /\
  ParseIP "fd00:bbbb::64" = Some ([253; 0; 187; 187] ++ replicate 11 0 ++ [100])%Z /\
  ParseIP "::ffff:10.0.0.1" = Some (v4InV6Prefix ++ [10; 0; 0; 1])%Z /\
  ParseIP "1:2:3:4:5:6:7::8" = None /\ ParseIP "edpm-compute-0" = None.
Proof. by vm_compute. Qed.

Example isValidDomain_examples :
  isValidDomain "edpm-compute-0.ctlplane.example.com" = true /\
  isValidDomain "Example.COM." = true /\ isValidDomain "edpm-compute-0" = false /\
  isValidDomain "a..b" = false /\ isValidDomain "" = false /\ isValidDomain "192.168.122.300" = true.
Proof. by vm_compute. Qed.

(** ** The language of valid domain names *)
Lemma lang_star_concat r s : lang (Star r) s <-> exists l, Forall (lang r) l /\ s = concat l.
Proof.
  split.
  - remember (Star r) as q eqn:Hq. intros H. revert r Hq.
    induction H as [| | | | |r|r s1 s2 H1 _ H2 IH]; intros r' Hq; simplify_eq.
    + by exists [].
    + destruct (IH r' eq_refl) as (l & Hl & ->). exists (s1 :: l). auto.
  - intros (l & Hl & ->). induction Hl; simpl; auto with regex.
Qed.

Lemma lang_plus_concat r s :
  lang (Plus r) s <-> exists l, l <> [] /\ Forall (lang r) l /\ s = concat l.
Proof.
  unfold Plus. rewrite lang_cat_iff. setoid_rewrite lang_star_concat. split.
  - intros (s1 & s2 & -> & H1 & l & Hl & ->). exists (s1 :: l). auto.
  - intros ([|s1 l] & Hne & Hl & ->); [done|]. apply Forall_cons in Hl as [H1 Hl].
    exists s1, (concat l). eauto.
Qed.

Lemma code_inj c c' : code c = code c' -> c = c'.
Proof.
  unfold code. intros H%Nat2Z.inj. by rewrite <-(ascii_nat_embedding c), H, ascii_nat_embedding.
Qed.

Lemma isDot_iff c : isDot c = true <-> c = "."%char.
Proof. unfold isDot. rewrite Z.eqb_eq. split; [apply (code_inj c "."%char)|by intros ->]. Qed.

(** The characters of a label: letters, digits and the hyphen, and the two
    characters whose lower case is an ASCII letter, U+017F and U+212A (the
    long s and the Kelvin sign), in UTF-8. *)
Definition alphabet : bytes :=
  String.list_ascii_of_string
    "abcdefghijklmnopqrstuvwxyzABCDEFGHIJKLMNOPQRSTUVWXYZ0123456789-".
Definition longS : bytes := ["197"; "191"]%char.
Definition kelvin : bytes := ["226"; "132"; "170"]%char.

Definition isRune (r : bytes) : Prop :=
  (exists c, c ∈ alphabet /\ r = [c]) \/ r = longS \/ r = kelvin.

(** A label: one or more of these characters. *)
Definition isLabel (l : bytes) : Prop := exists rs, rs <> [] /\ Forall isRune rs /\ l = concat rs.

Lemma isLabelByte_alphabet c : isLabelByte c = true <-> c ∈ alphabet.
Proof.
  rewrite <-(bool_decide_eq_true (c ∈ alphabet)).
  destruct c as [[] [] [] [] [] [] [] []]; vm_compute; tauto.
Qed.

Lemma isByte_iff z c : (0 <= z <= 255)%Z -> isByte z c = true <-> c = byteOf z.
Proof.
  intros Hz. unfold isByte. rewrite Z.eqb_eq.
  assert (code (byteOf z) = z) as Hc by (unfold code, byteOf; rewrite nat_ascii_embedding; lia).
  split; [|by intros ->]. intros H. apply code_inj. congruence.
Qed.

Lemma lang_byte z s : (0 <= z <= 255)%Z -> lang (Chr (isByte z)) s <-> s = [byteOf z].
Proof. intros Hz. rewrite lang_chr_iff. setoid_rewrite (isByte_iff z); [|done]. naive_solver. Qed.

(** The class of the regular expression is the set of these characters. *)
Lemma lang_labelRune r : lang labelRune r <-> isRune r.
Proof.
  unfold labelRune, isRune. rewrite !lang_alt_iff, !lang_cat_iff, lang_chr_iff.
  setoid_rewrite isLabelByte_alphabet. setoid_rewrite lang_cat_iff.
  repeat setoid_rewrite lang_byte; [|lia..]. split.
  - intros [(c & -> & Hc)|[(? & ? & -> & -> & ->)|(? & ? & -> & -> & ? & ? & -> & -> & ->)]]; eauto.
  - intros [(c & Hc & ->)|[->| ->]]; [eauto|right; left|right; right].
    + by exists ["197"%char], ["191"%char].
    + exists ["226"%char], ["132"; "170"]%char. split_and!; [done|done|].
      by exists ["132"%char], ["170"%char].
Qed.

Lemma lang_label l : lang (Plus labelRune) l <-> isLabel l.
Proof.
  rewrite lang_plus_concat. split; intros (rs & Hne & Hrs & ->); exists rs; split_and!; [done| |done|done| |done];
    (eapply Forall_impl; [exact Hrs|]; intros r; apply lang_labelRune).
Qed.

Lemma lang_dot s : lang (Chr isDot) s <-> s = ["."%char].
Proof. rewrite lang_chr_iff. setoid_rewrite isDot_iff. naive_solver. Qed.

Lemma lang_dot_label s :
  lang (Cat (Chr isDot) (Plus labelRune)) s <-> exists l, isLabel l /\ s = "."%char :: l.
Proof.
  rewrite lang_cat_iff. setoid_rewrite lang_dot. setoid_rewrite lang_label. split.
  - intros (? & l & -> & -> & Hl). by exists l.
  - intros (l & Hl & ->). by exists ["."%char], l.
Qed.

Lemma lang_more_labels s : lang (Plus (Cat (Chr isDot) (Plus labelRune))) s <->
  exists ls, ls <> [] /\ Forall isLabel ls /\ s = concat (cons "."%char <$> ls).
Proof.
  rewrite lang_plus_concat. split.
  - intros (ls & Hne & Hls & ->).
    assert (exists ls', Forall isLabel ls' /\ ls = cons "."%char <$> ls') as (ls' & H & ->).
    { clear Hne. induction Hls as [|s ls (l & Hl & ->)%lang_dot_label _ (ls' & H & ->)];
        [by exists []|by exists (l :: ls'); auto]. }
    exists ls'. split_and!; [by intros ->|done|done].
  - intros (ls & Hne & Hls & ->). exists (cons "."%char <$> ls). split_and!; [by destruct ls| |done].
    apply Forall_fmap. eapply Forall_impl; [exact Hls|]. intros l Hl. apply lang_dot_label. eauto.
Qed.

Lemma lang_opt_dot s : lang (Opt (Chr isDot)) s <-> s = [] \/ s = ["."%char].
Proof. unfold Opt. rewrite lang_alt_iff, lang_dot, lang_eps_iff. naive_solver. Qed.

Lemma isValidDomain_labels (s : string) : isValidDomain s = true <->
  exists l0 ls dot, ls <> [] /\ Forall isLabel (l0 :: ls) /\ (dot = [] \/ dot = ["."%char]) /\
    String.list_ascii_of_string s = l0 ++ concat (cons "."%char <$> ls) ++ dot.
Proof.
  unfold isValidDomain, domainRegexp. rewrite matches_lang, lang_cat_iff. split.
  - intros (l0 & s2 & -> & H0%lang_label & (s3 & dot & -> & H3 & H4)%lang_cat_iff).
    apply lang_more_labels in H3 as (ls & Hne & Hls & ->). apply lang_opt_dot in H4.
    exists l0, ls, dot. auto.
  - intros (l0 & ls & dot & Hne & [H0 Hls]%Forall_cons & Hdot & ->).
    exists l0, (concat (cons "."%char <$> ls) ++ dot). split_and!; [done|by apply lang_label|].
    constructor; [apply lang_more_labels; eauto|by apply lang_opt_dot].
Qed.

(** The parts of a text between its dots. *)
Fixpoint splitDots (s : bytes) : list bytes :=
  match s with
  | [] => [[]]
  | c :: s =>
      if isDot c then [] :: splitDots s
      else match splitDots s with p :: ps => (c :: p) :: ps | [] => [[c]] end
  end.

(** Two or more labels between the dots, and nothing or an empty part after
    them (one dot at the end). *)
Definition isDomain (s : bytes) : Prop :=
  exists labels, (splitDots s = labels \/ splitDots s = labels ++ [[]]) /\
    2 <= length labels /\ Forall isLabel labels.

Lemma splitDots_part l ls : Forall (fun c => isDot c = false) l ->
  splitDots (l ++ concat (cons "."%char <$> ls)) =
  l :: match ls with [] => [] | l1 :: ls => splitDots (l1 ++ concat (cons "."%char <$> ls)) end.
Proof.
  induction 1 as [|c l Hc _ IH]; simpl; [by destruct ls|]. rewrite Hc, IH. done.
Qed.

Lemma splitDots_labels l ls : Forall (Forall (fun c => isDot c = false)) (l :: ls) ->
  splitDots (l ++ concat (cons "."%char <$> ls)) = l :: ls.
Proof.
  revert l. induction ls as [|l1 ls IH]; intros l [Hl Hls]%Forall_cons; rewrite splitDots_part by done;
    [done|]. by rewrite IH.
Qed.

Lemma splitDots_join s l ls : splitDots s = l :: ls -> s = l ++ concat (cons "."%char <$> ls).
Proof.
  revert l ls. induction s as [|c s IH]; simpl; intros l ls H; [by simplify_eq|].
  destruct (isDot c) eqn:Hc.
  - apply isDot_iff in Hc as ->. simplify_eq. destruct (splitDots s) as [|l ls] eqn:Hs.
    + destruct s as [|c s]; simpl in Hs; repeat case_match; done.
    + simpl. by rewrite (IH _ _ eq_refl).
  - destruct (splitDots s) as [|l1 ls1] eqn:Hs.
    + destruct s as [|c' s]; simpl in Hs; repeat case_match; done.
    + simplify_eq. simpl. by rewrite (IH _ _ eq_refl).
Qed.

Lemma isLabel_dotless l : isLabel l -> Forall (fun c => isDot c = false) l.
Proof.
  intros (rs & _ & Hrs & ->). apply Forall_concat. eapply Forall_impl; [exact Hrs|].
  intros r [(c & Hc & ->)|[->| ->]]; [|by repeat constructor..].
  constructor; [|constructor]. revert c Hc. apply Forall_forall. by repeat constructor.
Qed.

Lemma isDomain_dot l0 ls dot : Forall isLabel (l0 :: ls) -> dot = [] \/ dot = ["."%char] ->
  splitDots (l0 ++ concat (cons "."%char <$> ls) ++ dot) =
  (l0 :: ls) ++ (if bool_decide (dot = []) then [] else [[]]).
Proof.
  intros Hl Hdot. assert (Forall (Forall (fun c => isDot c = false)) (l0 :: ls)) as Hd
    by (eapply Forall_impl; [exact Hl|]; apply isLabel_dotless).
  destruct Hdot as [->| ->]; simpl.
  - rewrite !app_nil_r. by apply splitDots_labels.
  - replace (l0 ++ concat (cons "."%char <$> ls) ++ ["."%char])
      with (l0 ++ concat (cons "."%char <$> (ls ++ [[]])))
      by (rewrite fmap_app, concat_app; done).
    rewrite splitDots_labels; [done|]. rewrite app_comm_cons. apply Forall_app. by split; [|repeat constructor].
Qed.

Lemma isValidDomain_spec (s : string) :
  isValidDomain s = true <-> isDomain (String.list_ascii_of_string s).
Proof.
  rewrite isValidDomain_labels. split.
  - intros (l0 & ls & dot & Hne & Hl & Hdot & ->). exists (l0 :: ls).
    rewrite isDomain_dot by done. split_and!; [|destruct ls; simpl; [done|lia]|done].
    case_bool_decide; rewrite ?app_nil_r; auto.
  - intros ([|l0 ls] & Hs & Hlen & Hl); simpl in Hlen; [lia|].
    assert (ls <> []) as Hne by (intros ->; simpl in Hlen; lia).
    destruct Hs as [Hs|Hs]; [rewrite (splitDots_join _ _ _ Hs)|rewrite (splitDots_join _ l0 (ls ++ [[]]) Hs)].
    + exists l0, ls, []. rewrite !app_nil_r. auto.
    + exists l0, ls, ["."%char]. rewrite fmap_app, concat_app. auto.
Qed.

(** C23. [isValidDomain] accepts exactly the texts with two or more parts
    between their dots, and at most one dot at the end, in which every part
    is a label: not empty, and made of ASCII letters of either case, digits,
    hyphens and the two other characters that fold to ASCII letters. *)
Theorem isValidDomain_iff (s : string) :
  isValidDomain s = true <-> isDomain (String.list_ascii_of_string s).
Proof. apply isValidDomain_spec. Qed.

(** ** ParseIP: dotted decimal *)
Definition isOctet (n : Z) : Prop := (0 <= n <= 255)%Z.
Definition digitByte (d : Z) : ascii := byteOf (48 + d).

(** Decimal notation without leading zeros. *)
Definition octet (n : Z) : bytes :=
  if (n <? 10)%Z then [digitByte n]
  else if (n <? 100)%Z then [digitByte (n / 10); digitByte (n mod 10)]
  else [digitByte (n / 100); digitByte (n / 10 mod 10); digitByte (n mod 10)].

(** The octets, separated by dots ([first]: no dot in front). *)
Fixpoint dotted (first : bool) (l : list Z) : bytes :=
  match l with
  | [] => []
  | n :: l => (if first then [] else ["."%char]) ++ octet n ++ dotted false l
  end.

Definition isDigit (d : Z) : Prop := (0 <= d <= 9)%Z.

Lemma isDigit_cases d : isDigit d -> d ∈ [0; 1; 2; 3; 4; 5; 6; 7; 8; 9]%Z.
Proof. unfold isDigit. intros. assert (d = 0 \/ d = 1 \/ d = 2 \/ d = 3 \/ d = 4 \/ d = 5 \/
  d = 6 \/ d = 7 \/ d = 8 \/ d = 9)%Z by lia. set_solver. Qed.

Lemma digitByte_spec d : isDigit d ->
  digit 10 (digitByte d) = Some d /\ isByte 48 (digitByte d) = (d =? 0)%Z.
Proof.
  intros H%isDigit_cases. revert d H. apply Forall_forall.
  repeat (constructor; [by vm_compute|]). constructor.
Qed.

Lemma digit_inv c d : digit 10 c = Some d -> isDigit d /\ c = digitByte d.
Proof.
  unfold digit, isDigit. simpl. destruct (_ && _) eqn:H; [|done]. intros [= <-].
  apply andb_true_iff in H as [?%Z.leb_le ?%Z.leb_le]. split; [lia|].
  apply code_inj. unfold digitByte, byteOf, code in *. rewrite nat_ascii_embedding; lia.
Qed.

(** The value of a string of digits, continuing from [n]. *)
Fixpoint valueOf (n : Z) (ds : list Z) : Z :=
  match ds with [] => n | d :: ds => valueOf (n * 10 + d) ds end.

Lemma valueOf_ge n ds : (0 <= n)%Z -> Forall isDigit ds -> (n <= valueOf n ds)%Z.
Proof.
  intros Hn H. revert n Hn. induction H as [|d ds Hd _ IH]; simpl; intros n Hn; [lia|].
  unfold isDigit in Hd. specialize (IH (n * 10 + d)%Z). lia.
Qed.

Lemma toiLoop_inv s n i m j rest : toiLoop 10 s n i = Some (m, j, rest) ->
  exists ds, Forall isDigit ds /\ s = (digitByte <$> ds) ++ rest /\ m = valueOf n ds /\
    j = (i + length ds)%nat.
Proof.
  revert n i. induction s as [|c s IH]; simpl; intros n i H.
  - simplify_eq. exists []. split_and!; [constructor|done|done|simpl; lia].
  - destruct (digit 10 c) as [d|] eqn:Hd.
    + destruct (big <=? _)%Z; [done|]. apply IH in H as (ds & Hds & -> & -> & ->).
      apply digit_inv in Hd as [Hd ->]. exists (d :: ds). simpl. split_and!; auto; lia.
    + simplify_eq. exists []. split_and!; [constructor|done|done|simpl; lia].
Qed.

(** Linear arithmetic with division by constants. *)
Ltac divlia := Z.div_mod_to_equations; lia.

(** Only what [octet] writes is parsed as an octet. *)
Lemma toi_inv s n c rest : toi 10 s = Some (n, c, rest) -> (n <= 255)%Z ->
  (1 <? c)%nat && startsWith 48 s = false -> isOctet n /\ s = octet n ++ rest.
Proof.
  unfold toi, isOctet. intros H Hn Hz. destruct (toiLoop 10 s 0 0) as [[[m j] r]|] eqn:Hl; [|done].
  assert (m = n /\ j = c /\ r = rest /\ c <> 0) as (-> & -> & -> & Hc) by (destruct j; naive_solver).
  apply toiLoop_inv in Hl as (ds & Hds & -> & -> & ->).
  pose proof (valueOf_ge 0 ds ltac:(lia) Hds) as Hpos. split; [lia|]. f_equal. clear H.
  destruct ds as [|d1 ds]; [done|]. apply Forall_cons in Hds as [D1 Hds].
  simpl in Hz. rewrite (proj2 (digitByte_spec _ D1)) in Hz.
  unfold isDigit in D1. destruct ds as [|d2 ds].
  { simpl. unfold octet. rewrite (proj2 (Z.ltb_lt _ _)) by lia. by f_equal. }
  apply Forall_cons in Hds as [D2 Hds]. unfold isDigit in D2.
  assert (d1 <> 0)%Z by (simpl in Hz; lia). clear Hz. destruct ds as [|d3 ds].
  { simpl valueOf. unfold octet. rewrite (proj2 (Z.ltb_ge _ _)) by lia.
    rewrite (proj2 (Z.ltb_lt _ _)) by lia. simpl. f_equal; [f_equal; divlia|]. do 2 f_equal; divlia. }
  apply Forall_cons in Hds as [D3 Hds]. unfold isDigit in D3. destruct ds as [|d4 ds].
  { simpl valueOf in *. unfold octet. rewrite !(proj2 (Z.ltb_ge _ _)) by lia.
    simpl. f_equal; [f_equal; divlia|]. f_equal; [f_equal; divlia|]. do 2 f_equal; divlia. }
  apply Forall_cons in Hds as [D4 Hds]. unfold isDigit in D4. simpl valueOf in Hn.
  pose proof (valueOf_ge ((((0 * 10 + d1) * 10 + d2) * 10 + d3) * 10 + d4) ds ltac:(lia) Hds). lia.
Qed.

Lemma parseOctets_inv k first s l rest : parseOctets k first s = Some (l, rest) ->
  length l = k /\ Forall isOctet l /\ s = dotted first l ++ rest.
Proof.
  revert first s l. induction k as [|k IH]; simpl; intros first s l H; [by simplify_eq|].
  destruct s as [|c s]; [done|]. destruct (negb first && negb (isDot c)) eqn:Hc; [done|].
  set (s1 := if first then c :: s else s) in *.
  destruct (toi 10 s1) as [[[n c1] s2]|] eqn:Ht; [|done].
  destruct (Z.ltb_spec 255 n) as [|Hn]; [done|].
  destruct ((1 <? c1)%nat && startsWith 48 s1) eqn:Hz; [done|].
  destruct (parseOctets k false s2) as [[l' s3]|] eqn:Hp; [|done]. simplify_eq.
  apply IH in Hp as (Hlen & Hl & ->). destruct (toi_inv _ _ _ _ Ht Hn Hz) as [Ho Hs].
  split_and!; [by simpl; f_equal|by constructor|]. simpl. rewrite <-!app_assoc, <-Hs.
  destruct first; [done|]. simpl in *. apply negb_false_iff, isDot_iff in Hc. by subst.
Qed.

(** The texts [parseIPv4] accepts: four numbers from 0 to 255 in decimal
    notation without leading zeros, separated by dots. *)
Lemma parseIPv4_inv s ip : parseIPv4 s = Some ip ->
  exists l, length l = 4 /\ Forall isOctet l /\ s = dotted true l.
Proof.
  unfold parseIPv4, parseOctets4. destruct (parseOctets 4 true s) as [[l [|c rest]]|] eqn:Hp; [|done..].
  intros _. apply parseOctets_inv in Hp as (Hlen & Hl & ->). exists l. by rewrite app_nil_r.
Qed.

Lemma digitByte_isRune d : isDigit d -> isRune [digitByte d].
Proof.
  intros H%isDigit_cases. left. eexists. split; [|done]. revert d H. apply Forall_forall.
  repeat constructor; (apply bool_decide_eq_true; by vm_compute).
Qed.

Lemma octet_isLabel n : isOctet n -> isLabel (octet n).
Proof.
  unfold isOctet. intros Hn. exists ((fun c => [c]) <$> octet n).
  assert (forall l : bytes, concat ((fun c => [c]) <$> l) = l) as Hc
    by (induction l as [|c l IH]; [done|csimpl; by rewrite IH]).
  split_and!; [| |by rewrite Hc]; unfold octet.
  - repeat case_match; done.
  - repeat case_match; simpl;
      repeat (apply Forall_cons_2; [apply digitByte_isRune; unfold isDigit; divlia|]); apply Forall_nil_2.
Qed.

Lemma dotted_concat l : dotted false l = concat (cons "."%char <$> (octet <$> l)).
Proof. induction l as [|n l IH]; simpl; [done|by rewrite IH]. Qed.

(** A dotted decimal address is a domain name in the sense of
    [isValidDomain]. *)
Lemma parseIPv4_isDomain s : parseIPv4 s <> None -> isDomain s.
Proof.
  destruct (parseIPv4 s) as [ip|] eqn:Hp; [intros _|done].
  apply parseIPv4_inv in Hp as (l & Hlen & Hl & ->). destruct l as [|n l]; [done|].
  assert (Forall isLabel (octet n :: (octet <$> l))) as Hls.
  { change (Forall isLabel (octet <$> (n :: l))). apply Forall_fmap.
    eapply Forall_impl; [exact Hl|]. apply octet_isLabel. }
  exists (octet n :: (octet <$> l)). split_and!; [left|simpl in *; rewrite length_fmap; lia|done].
  simpl. rewrite dotted_concat. apply splitDots_labels.
  eapply Forall_impl; [exact Hls|]. apply isLabel_dotless.
Qed.

Lemma scanIP_isDomain all s : ":"%char ∉ s -> scanIP all s <> None -> isDomain all.
Proof.
  induction s as [|c s IH]; simpl; [done|]. intros [Hc Hs]%not_elem_of_cons.
  destruct (isDot c); [apply parseIPv4_isDomain|].
  destruct (isByte 58 c) eqn:Hb; [|by apply IH]. apply isByte_iff in Hb; [|lia]. subst. by destruct Hc.
Qed.

(** An address of [net.ParseIP] that is not a domain name has a colon. *)
Lemma ParseIP_isDomain s : ParseIP s <> None ->
  ":"%char ∈ String.list_ascii_of_string s \/ isDomain (String.list_ascii_of_string s).
Proof.
  intros H. destruct (decide (":"%char ∈ String.list_ascii_of_string s)) as [|Hn]; [by left|right].
  by eapply scanIP_isDomain.
Qed.
