(* ===== verification/Operator.v ===== *)
(** * Parts shared by the five controllers

    The steps every [Reconcile] takes around its own work: the finalizer
    guard, the early returns on an error or a non-empty result, and the
    deferred function that recomputes Ready and patches the object. *)

From stdpp Require Import gmap strings list.
From Stdlib Require Import ZArith Lia.
From S2P Require Import Prelude Condition Api Libs.

#[local] Open Scope go_scope.

Section Shared.
Context {E : Type -> Type} {S : Type} `{CR : CustomResource S}.
Context `{L : ConditionLib} `{F : FinalizerLib}.

(** [instance.Status.Conditions.<op>] *)
Definition modifyConds (f : Conditions -> Conditions) : M E S unit :=
  modify (fun i => crSetConds (f (crConds i)) i).

(** [controllerutil.AddFinalizer(instance, fin)] *)
Definition addFinalizer (fin : string) : M E S bool :=
  let* i := get in
  let '(fs, changed) := AddFinalizer (meta_Finalizers (crMeta i)) fin in
  modify (crSetMeta (withFinalizers fs (crMeta i))) ;;;
  ret changed.

(** [controllerutil.RemoveFinalizer(instance, fin)] *)
Definition removeFinalizer (fin : string) : M E S bool :=
  let* i := get in
  let '(fs, changed) := RemoveFinalizer (meta_Finalizers (crMeta i)) fin in
  modify (crSetMeta (withFinalizers fs (crMeta i))) ;;;
  ret changed.

(** The deferred function of [Reconcile]; [propagate] tells whether a patch
    error replaces the named error result. *)
Definition deferPatch (patch : S -> E (option GoError)) (propagate : bool) : M E S (RE -> RE) :=
  modifyConds updateReady ;;;
  let* i := get in
  let* err := call (patch i) in
  ret (fun '(r, e) =>
    match err with
    | Some _ => if propagate then (r, err) else (r, e)
    | None => (r, e)
    end).

(** [if err != nil {return res, err} else if res != Result{} {return res, nil}] *)
Definition returnOn (re : RE) (rest : M E S RE) : M E S RE :=
  let '(r, e) := re in
  match e with
  | Some _ => ret (r, e)
  | None => if nonEmpty r then ret (r, None) else rest
  end.

(** [instance.Status.Conditions.Set(condition.FalseCondition(...))] *)
Definition setFalse (t : CondType) (r : Reason) (s : Severity) (m : Message) : M E S unit :=
  modifyConds (fun cs => Set_ cs (Some (FalseCondition t r s m))).
Definition markTrue (t : CondType) (m : Message) : M E S unit :=
  modifyConds (fun cs => MarkTrue cs t m).
Definition markFalse (t : CondType) (r : Reason) (s : Severity) (m : Message) : M E S unit :=
  modifyConds (fun cs => MarkFalse cs t r s m).
End Shared.

(** ** What the deferred function guarantees, whatever the body did *)
Section SharedFacts.
Context {E : Type -> Type} {S : Type} `{CR : CustomResource S}.
Context `{L : ConditionLib} `{LL : !ConditionLaws L}.
Variable patch : S -> E (option GoError).

(** [readyOk cs]: Ready is present, and True only if every other condition is. *)
Definition readyOk (cs : Conditions) : Prop :=
  is_Some (getCond cs ReadyCondition) /\
  (IsTrue cs ReadyCondition = true -> forall t c, t <> ReadyCondition ->
     getCond cs t = Some c -> cond_Status c = ConditionTrue).

Lemma readyOk_updateReady cs : readyOk (updateReady cs).
Proof. split; [apply updateReady_ready|]. intros. by eapply updateReady_sound. Qed.

(** The object the deferred function patches, and the results it leaves. *)
Definition finish (i : S) : S := crSetConds (updateReady (crConds i)) i.

Definition finishResult (propagate : bool) (err : option GoError) (o : outcome RE) : outcome RE :=
  match o with
  | Val (r, e) => Val (r, match err with Some _ => if propagate then err else e | None => e end)
  | Panicked w => Panicked w
  end.

Lemma finish_conds i : crConds (finish i) = updateReady (crConds i).
Proof. apply crConds_setConds. Qed.

Lemma finish_meta i : crMeta (finish i) = crMeta i.
Proof. apply crMeta_setConds. Qed.

(** The last call is the patch, with the recomputed Ready; on the panic path too. *)
Lemma deferPatch_wp ok (body : M E S RE) (b : bool) s
    (Q : list (event E) -> S -> outcome RE -> Prop) :
  wpM ok body s (fun tr s' o => forall err, ok _ (patch (finish s')) err ->
    Q (tr ++ [Ev (patch (finish s')) err]) (finish s') (finishResult b err o)) ->
  wpM ok (withDefer body (deferPatch patch b)) s Q.
Proof.
  intros H. apply wpM_defer. eapply wpM_mono; [|exact H]. clear H.
  intros tr s' o H. unfold deferPatch, modifyConds. do 5 wpm_step.
  apply wpM_call. intros err Herr. wpm. simpl. specialize (H err Herr).
  destruct o as [[r e]|w]; [|exact H]. destruct err; [destruct b|]; exact H.
Qed.

(** Whatever is answered to the patch, a run of the body gives a run. *)
Lemma deferPatch_runs (body : M E S RE) (b : bool) s tr s' o err :
  runs (body s) tr (s', o) ->
  runs (runM (withDefer body (deferPatch patch b)) s) (tr ++ [Ev (patch (finish s')) err])
    (finishResult b err o).
Proof.
  intros Hb. apply runs_bind. eexists _, [], (finish s', _). rewrite app_nil_r.
  split_and!; [done| |done].
  apply runs_bind. eexists tr, _, (s', o). split_and!; [done|done|].
  apply runs_bind. eexists [_], [], (finish s', Val _). split_and!; [done| |].
  - simpl. exists err. eexists. split; [done|]. split; [done|]. reflexivity.
  - split; [done|]. f_equal. destruct o as [[r e]|]; [|done]. destruct err; [by destruct b|done].
Qed.

(** ** The finalizer guard *)
Context `{F : FinalizerLib} `{FL : !FinalizerLaws F}.

Lemma withFinalizers_id m : withFinalizers (meta_Finalizers m) m = m.
Proof. by destruct m. Qed.

Lemma addFinalizer_present ok fin (s : S) Q :
  fin ∈ meta_Finalizers (crMeta s) -> Q [] s (Val false) -> wpM ok (addFinalizer fin : M E S bool) s Q.
Proof.
  intros Hf HQ. unfold addFinalizer. wpm_step. wpm_step.
  pose proof (AddFinalizer_flag (meta_Finalizers (crMeta s)) fin) as Hfl.
  pose proof (AddFinalizer_same _ _ Hf) as Hs.
  destruct (AddFinalizer _ _) as [fs ch]. simpl in *. subst fs.
  wpm. simpl. rewrite withFinalizers_id, crSetMeta_id.
  destruct ch; [|done]. exfalso. by apply Hfl in Hf.
Qed.

Lemma addFinalizer_absent ok fin (s : S) (Q : list (event E) -> S -> outcome bool -> Prop) :
  fin ∉ meta_Finalizers (crMeta s) ->
  (forall fs, (forall g, g ∈ fs <-> g ∈ meta_Finalizers (crMeta s) \/ g = fin) ->
    Q [] (crSetMeta (withFinalizers fs (crMeta s)) s) (Val true)) ->
  wpM ok (addFinalizer fin : M E S bool) s Q.
Proof.
  intros Hf HQ. unfold addFinalizer. wpm_step. wpm_step.
  pose proof (AddFinalizer_flag (meta_Finalizers (crMeta s)) fin) as Hfl.
  pose proof (AddFinalizer_elem (meta_Finalizers (crMeta s)) fin) as He.
  destruct (AddFinalizer _ _) as [fs ch]. simpl in *.
  wpm. simpl. apply Hfl in Hf as ->. by apply HQ.
Qed.

Lemma removeFinalizer_wp ok fin (s : S) (Q : list (event E) -> S -> outcome bool -> Prop) :
  (forall fs b, (forall g, g ∈ fs <-> g ∈ meta_Finalizers (crMeta s) /\ g <> fin) ->
    Q [] (crSetMeta (withFinalizers fs (crMeta s)) s) (Val b)) ->
  wpM ok (removeFinalizer fin : M E S bool) s Q.
Proof.
  intros HQ. unfold removeFinalizer. wpm_step. wpm_step.
  pose proof (RemoveFinalizer_elem (meta_Finalizers (crMeta s)) fin) as He.
  destruct (RemoveFinalizer _ _) as [fs ch]. simpl in *.
  wpm. simpl. by apply HQ.
Qed.
End SharedFacts.

(** ** Invariants through the shared steps *)
Section SharedSafe.
Context {E : Type -> Type} {S : Type} `{CR : CustomResource S}.
Context `{L : ConditionLib} `{F : FinalizerLib}.
Variables (ok : contract E) (I : S -> Prop) (P : event E -> Prop).

Lemma Safe_modifyConds f :
  (forall s, I s -> I (crSetConds (f (crConds s)) s)) -> Safe ok I P (modifyConds f).
Proof. intros H. by apply Safe_modify. Qed.

Lemma Safe_addFinalizer fin :
  (forall s s' fs, I s -> I s' -> I (crSetMeta (withFinalizers fs (crMeta s)) s')) ->
  Safe ok I P (addFinalizer fin).
Proof. intros H. unfold addFinalizer. safe; eauto. Qed.

Lemma Safe_removeFinalizer fin :
  (forall s s' fs, I s -> I s' -> I (crSetMeta (withFinalizers fs (crMeta s)) s')) ->
  Safe ok I P (removeFinalizer fin).
Proof. intros H. unfold removeFinalizer. safe; eauto. Qed.

Lemma Safe_returnOn re rest : Safe ok I P rest -> Safe ok I P (returnOn re rest).
Proof. intros H. unfold returnOn. safe. Qed.
End SharedSafe.

Section SharedHist.
Context {E : Type -> Type} {S : Type} `{CR : CustomResource S}.
Context `{L : ConditionLib} `{F : FinalizerLib}.
Variables (ok : contract E) (R : list (event E) -> S -> Prop).

Lemma Hist_modifyConds f :
  (forall h s, R h s -> R h (crSetConds (f (crConds s)) s)) -> Hist ok R (modifyConds f).
Proof. intros H. by apply Hist_modify. Qed.

Lemma Hist_addFinalizer fin :
  (forall h s fs, R h s -> R h (crSetMeta (withFinalizers fs (crMeta s)) s)) -> Hist ok R (addFinalizer fin).
Proof. intros H h s Hs. unfold addFinalizer. wpm. all: rewrite app_nil_r; auto. Qed.

Lemma Hist_removeFinalizer fin :
  (forall h s fs, R h s -> R h (crSetMeta (withFinalizers fs (crMeta s)) s)) -> Hist ok R (removeFinalizer fin).
Proof. intros H h s Hs. unfold removeFinalizer. wpm. all: rewrite app_nil_r; auto. Qed.

Lemma Hist_returnOn re rest : Hist ok R rest -> Hist ok R (returnOn re rest).
Proof. intros H. unfold returnOn. hist. Qed.
End SharedHist.

Ltac hist_hook ::=
  lazymatch goal with
  | |- Hist _ _ (modifyConds _) => apply Hist_modifyConds; intros
  | |- Hist _ _ (setFalse _ _ _ _) => apply Hist_modifyConds; intros
  | |- Hist _ _ (markTrue _ _) => apply Hist_modifyConds; intros
  | |- Hist _ _ (markFalse _ _ _ _) => apply Hist_modifyConds; intros
  | |- Hist _ _ (addFinalizer _) => apply Hist_addFinalizer; intros
  | |- Hist _ _ (removeFinalizer _) => apply Hist_removeFinalizer; intros
  | |- Hist _ _ (returnOn _ _) => apply Hist_returnOn
  end.

(** The shared steps, for [safe]. *)
Ltac safe_hook ::=
  lazymatch goal with
  | |- Safe _ _ _ (modifyConds _) => apply Safe_modifyConds; intros
  | |- Safe _ _ _ (setFalse _ _ _ _) => apply Safe_modifyConds; intros
  | |- Safe _ _ _ (markTrue _ _) => apply Safe_modifyConds; intros
  | |- Safe _ _ _ (markFalse _ _ _ _) => apply Safe_modifyConds; intros
  | |- Safe _ _ _ (addFinalizer _) => apply Safe_addFinalizer; intros
  | |- Safe _ _ _ (removeFinalizer _) => apply Safe_removeFinalizer; intros
  | |- Safe _ _ _ (returnOn _ _) => apply Safe_returnOn
  end.
