(* ===== verification/Telemetry.v ===== *)
(** * The Telemetry controller ([controllers/telemetry_controller.go])

    Telemetry is the top-level resource: its controller creates, updates or
    deletes one Ceilometer, one Autoscaling and one MetricStorage object and
    mirrors their readiness. *)

From stdpp Require Import gmap strings list.
From Stdlib Require Import ZArith Lia.
From S2P Require Import Prelude Condition Api Libs Operator.

#[local] Open Scope go_scope.

Module Telemetry.

(** ** External calls *)
Inductive Child := CeilometerChild | AutoscalingChild | MetricStorageChild.

#[global] Instance Child_eq_dec : EqDecision Child.
Proof. solve_decision. Defined.

Definition childObj (k : Child) : Type :=
  match k with
  | CeilometerChild => Ceilometer
  | AutoscalingChild => Autoscaling
  | MetricStorageChild => MetricStorage
  end.

Definition childMeta {k : Child} : childObj k -> ObjectMeta :=
  match k with
  | CeilometerChild => cei_Meta
  | AutoscalingChild => asc_Meta
  | MetricStorageChild => met_Meta
  end.

(** [Fetch] and [Commit] are the two API accesses of
    [controllerutil.CreateOrPatch]: it reads the object ([None] when there is
    none), runs the mutate function, then creates or patches it and leaves the
    server's copy in the object. *)
Inductive CallE : Type -> Type :=
| GetTelemetry (key : NamespacedName) : CallE (Telemetry + GoError)
| NewHelper (i : Telemetry) : CallE (option GoError)
| PatchInstance (i : Telemetry) : CallE (option GoError)
| GetObj (k : Child) (key : NamespacedName) : CallE (ObjectMeta + GoError)
| DeleteObj (k : Child) (m : ObjectMeta) : CallE (option GoError)
| Fetch (k : Child) (key : NamespacedName) : CallE (option (childObj k) + GoError)
| SetControllerReference (owner : ObjectMeta) (k : Child) (m : ObjectMeta)
    : CallE (ObjectMeta + GoError)
| Commit (k : Child) (o : childObj k) : CallE (childObj k * OperationResult + GoError).

Abbreviation TM := (M CallE Telemetry).

(** ** Constants and zero values *)
Definition ceilometer_ServiceName := "ceilometer".
Definition telemetry_ServiceName := "telemetry".
Definition autoscalingName := "autoscaling".
Definition metricstorage_DefaultServiceName := "metric-storage".

Definition zeroPasswords := MkPasswords "" "" "".
Definition zeroCeilometerSpec : CeilometerSpec :=
  MkCeilometerSpec "" zeroPasswords "" "" "" ∅ [] "" "" "" "" "" "".
Definition newCeilometer (m : ObjectMeta) : Ceilometer :=
  MkCeilometer m zeroCeilometerSpec (MkCeilometerStatus 0 None None "" []).
Definition zeroAodh : Aodh :=
  MkAodh "" "" "" zeroPasswords "" "" "" ∅ [] (MkAPIOverride None) false "" "" "" "" "".
Definition newAutoscaling (m : ObjectMeta) : Autoscaling :=
  MkAutoscaling "" m (MkAutoscalingSpec "" 0 zeroAodh "")
    (MkAutoscalingStatus 0 None None [] "" "" "" 0 None).
Definition newMetricStorage (m : ObjectMeta) : MetricStorage :=
  MkMetricStorage m (MkMetricStorageSpec None None) (MkMetricStorageStatus None).

Section Controller.
Context `{L : ConditionLib} `{F : FinalizerLib} `{C : CommonLib}.

(** [controllerutil.CreateOrPatch(ctx, client, obj, mutate)] *)
Definition createOrPatch (k : Child) (obj : childObj k)
    (mutate : childObj k -> TM (childObj k + GoError))
    : TM (childObj k * OperationResult + GoError) :=
  let* r := call (Fetch k (keyOf (childMeta obj))) in
  match r with
  | inr err => ret (inr err)
  | inl found =>
      let* m := mutate (default obj found) in
      match m with
      | inr err => ret (inr err)
      | inl obj' => call (Commit k obj')
      end
  end.

(** ** ensureDeleted *)
Definition ensureDeleted (k : Child) (obj : ObjectMeta) : TM RE :=
  let* r := call (GetObj k (keyOf obj)) in
  match r with
  | inr err => if err_notFound err then ret (emptyResult, None) else ret (emptyResult, Some err)
  | inl m =>
      if notDeleting m then
        let* err := call (DeleteObj k m) in
        match err with
        | Some _ => ret (emptyResult, err)
        | None => ret (emptyResult, None)
        end
      else ret (emptyResult, None)
  end.

(** ** reconcileCeilometer *)
Definition mutateCeilometer (before : Telemetry) (spec : CeilometerSpec) (c : Ceilometer)
    : TM (Ceilometer + GoError) :=
  let* r := call (SetControllerReference (tel_Meta before) CeilometerChild (cei_Meta c)) in
  match r with
  | inr err => ret (inr err)
  | inl m => ret (inl (MkCeilometer m spec (cei_Status c)))
  end.

Definition reconcileCeilometer (before : Telemetry) : TM RE :=
  let* instance := get in
  let meta := newMeta ceilometer_ServiceName (meta_Namespace (tel_Meta instance)) in
  if negb (csec_Enabled (tels_Ceilometer (tel_Spec instance))) then
    let* '(res, err) := ensureDeleted CeilometerChild meta in
    match err with
    | Some _ => ret (res, err)
    | None =>
        modifyConds (fun cs => Remove cs CeilometerReadyCondition) ;;;
        ret (emptyResult, None)
    end
  else
    let* r := createOrPatch CeilometerChild (newCeilometer meta)
      (mutateCeilometer before (csec_CeilometerSpec (tels_Ceilometer (tel_Spec instance)))) in
    match r with
    | inr err =>
        setFalse CeilometerReadyCondition ErrorReason SeverityWarning
          (CeilometerReadyErrorMessage (err_text err)) ;;;
        ret (emptyResult, Some err)
    | inl (c, _) =>
        (if Ceilometer_IsReady c
         then markTrue CeilometerReadyCondition CeilometerReadyMessage
         else setFalse CeilometerReadyCondition RequestedReason SeverityInfo
                CeilometerReadyRunningMessage) ;;;
        ret (emptyResult, None)
    end.

(** ** reconcileAutoscaling *)
Definition mutateAutoscaling (before : Telemetry) (spec : AutoscalingSpec) (a : Autoscaling)
    : TM (Autoscaling + GoError) :=
  let* r := call (SetControllerReference (tel_Meta before) AutoscalingChild (asc_Meta a)) in
  match r with
  | inr err => ret (inr err)
  | inl m => ret (inl (MkAutoscaling (asc_Kind a) m spec (asc_Status a)))
  end.

Definition reconcileAutoscaling (before : Telemetry) : TM RE :=
  let* instance := get in
  let meta := newMeta autoscalingName (meta_Namespace (tel_Meta instance)) in
  if negb (asec_Enabled (tels_Autoscaling (tel_Spec instance))) then
    let* '(res, err) := ensureDeleted AutoscalingChild meta in
    match err with
    | Some _ => ret (res, err)
    | None =>
        modifyConds (fun cs => Remove cs AutoscalingReadyCondition) ;;;
        ret (emptyResult, None)
    end
  else
    let* r := createOrPatch AutoscalingChild (newAutoscaling meta)
      (mutateAutoscaling before (asec_AutoscalingSpec (tels_Autoscaling (tel_Spec instance)))) in
    match r with
    | inr err =>
        setFalse AutoscalingReadyCondition ErrorReason SeverityWarning
          (AutoscalingReadyErrorMessage (err_text err)) ;;;
        ret (emptyResult, Some err)
    | inl (a, _) =>
        (if Autoscaling_IsReady a
         then markTrue AutoscalingReadyCondition AutoscalingReadyMessage
         else setFalse AutoscalingReadyCondition RequestedReason SeverityInfo
                AutoscalingReadyRunningMessage) ;;;
        ret (emptyResult, None)
    end.

(** ** reconcileMetricStorage *)

(** Each of the two stacks is copied only when it is set. *)
Definition copyMetricStorageSpec (from to : MetricStorageSpec) : MetricStorageSpec :=
  MkMetricStorageSpec
    (match mets_MonitoringStack from with
     | Some s => Some s | None => mets_MonitoringStack to end)
    (match mets_CustomMonitoringStack from with
     | Some s => Some s | None => mets_CustomMonitoringStack to end).

Definition mutateMetricStorage (before : Telemetry) (spec : MetricStorageSpec) (o : MetricStorage)
    : TM (MetricStorage + GoError) :=
  let spec' := copyMetricStorageSpec spec (met_Spec o) in
  let* r := call (SetControllerReference (tel_Meta before) MetricStorageChild (met_Meta o)) in
  match r with
  | inr err => ret (inr err)
  | inl m => ret (inl (MkMetricStorage m spec' (met_Status o)))
  end.

Definition reconcileMetricStorage (before : Telemetry) : TM RE :=
  let* instance := get in
  let meta := newMeta metricstorage_DefaultServiceName (meta_Namespace (tel_Meta instance)) in
  if negb (msec_Enabled (tels_MetricStorage (tel_Spec instance))) then
    let* '(res, err) := ensureDeleted MetricStorageChild meta in
    match err with
    | Some _ => ret (res, err)
    | None =>
        modifyConds (fun cs => Remove cs MetricStorageReadyCondition) ;;;
        ret (emptyResult, None)
    end
  else
    let* r := createOrPatch MetricStorageChild (newMetricStorage meta)
      (mutateMetricStorage before
         (msec_MetricStorageSpec (tels_MetricStorage (tel_Spec instance)))) in
    match r with
    | inr err =>
        setFalse MetricStorageReadyCondition ErrorReason SeverityWarning
          (MetricStorageReadyErrorMessage (err_text err)) ;;;
        ret (emptyResult, Some err)
    | inl (o, _) =>
        (if MetricStorage_IsReady o
         then markTrue MetricStorageReadyCondition MetricStorageReadyMessage
         else setFalse MetricStorageReadyCondition RequestedReason SeverityInfo
                MetricStorageReadyRunningMessage) ;;;
        ret (emptyResult, None)
    end.

(** ** reconcileNormal, reconcileDelete, reconcileInit *)

(** [if err != nil {return Result{}, err} else if res != Result{} {return res, nil}] *)
Definition stopOn (re : RE) (rest : TM RE) : TM RE :=
  let '(r, e) := re in
  match e with
  | Some _ => ret (emptyResult, e)
  | None => if nonEmpty r then ret (r, None) else rest
  end.

Definition reconcileNormal (before : Telemetry) : TM RE :=
  let* re := reconcileAutoscaling before in
  stopOn re (
  let* re := reconcileCeilometer before in
  stopOn re (
  let* re := reconcileMetricStorage before in
  stopOn re (ret (emptyResult, None)))).

Definition finalizer := GetFinalizer "Telemetry".

Definition reconcileDelete : TM RE :=
  removeFinalizer finalizer ;;; ret (emptyResult, None).

Definition reconcileInit (serviceLabels : gmap string string) : TM RE := ret (emptyResult, None).

(** ** Reconcile *)
Definition initialConditions : Conditions :=
  Init (Some []) (CreateList [
    UnknownCondition CeilometerReadyCondition InitReason CeilometerReadyInitMessage;
    UnknownCondition AutoscalingReadyCondition InitReason AutoscalingReadyInitMessage;
    UnknownCondition MetricStorageReadyCondition InitReason MetricStorageReadyInitMessage]).

(** [if instance.Status.Hash == nil { instance.Status.Hash = map[string]string{} }] *)
Definition ensureHash (i : Telemetry) : Telemetry :=
  MkTelemetry (tel_Meta i) (tel_Spec i)
    (MkTelemetryStatus (Some (default ∅ (telt_Hash (tel_Status i)))) (telt_Conditions (tel_Status i))).

(** The part of [Reconcile] after the deferred function is set up. *)
Definition reconcileBody (before : Telemetry) : TM RE :=
  let* instance := get in
  let* added := (if notDeleting (tel_Meta instance) then addFinalizer finalizer else ret false) in
  if (added : bool) then ret (emptyResult, None) else
  let* instance := get in
  match telt_Conditions (tel_Status instance) with
  | None => modifyConds (fun _ => initialConditions) ;;; ret (emptyResult, None)
  | Some _ =>
      modify ensureHash ;;;
      let serviceLabels := {[ AppSelector := telemetry_ServiceName ]} in
      let* re := reconcileInit serviceLabels in
      returnOn re (
      let* instance := get in
      if negb (notDeleting (tel_Meta instance)) then reconcileDelete
      else reconcileNormal before)
  end.

Definition Reconcile (req : NamespacedName) : prog CallE (outcome RE) :=
  Vis (GetTelemetry req) (fun r =>
  match r with
  | inr err =>
      if err_notFound err then Ret (Val (emptyResult, None))
      else Ret (Val (emptyResult, Some err))
  | inl instance =>
      Vis (NewHelper instance) (fun e =>
      match e with
      | Some err => Ret (Val (emptyResult, Some err))
      | None => runM (withDefer (reconcileBody instance) (deferPatch PatchInstance true)) instance
      end)
  end).

End Controller.

(** ** Observations on a trace *)
Definition enabled (s : TelemetrySpec) (k : Child) : bool :=
  match k with
  | CeilometerChild => csec_Enabled (tels_Ceilometer s)
  | AutoscalingChild => asec_Enabled (tels_Autoscaling s)
  | MetricStorageChild => msec_Enabled (tels_MetricStorage s)
  end.

Definition condOf (k : Child) : CondType :=
  match k with
  | CeilometerChild => CeilometerReadyCondition
  | AutoscalingChild => AutoscalingReadyCondition
  | MetricStorageChild => MetricStorageReadyCondition
  end.

(** The object the pass started from. *)
Definition fetched (tr : list (event CallE)) : option Telemetry :=
  match tr with
  | Ev e x :: _ =>
      match e in CallE X return X -> option Telemetry with
      | GetTelemetry _ => fun x => match x with inl i => Some i | inr _ => None end
      | _ => fun _ => None
      end x
  | [] => None
  end.

(** The objects written back, with the answers of the API server. *)
Definition patchOf (ev : event CallE) : option (Telemetry * option GoError) :=
  match ev with
  | Ev e x =>
      match e in CallE X return X -> option (Telemetry * option GoError) with
      | PatchInstance i => fun x => Some (i, x)
      | _ => fun _ => None
      end x
  end.

(** The child a call is about. *)
Definition childOf (ev : event CallE) : option Child :=
  match ev with
  | Ev e _ =>
      match e with
      | GetObj k _ | DeleteObj k _ | Fetch k _ | SetControllerReference _ k _ | Commit k _ => Some k
      | _ => None
      end
  end.

(** A call about a child that was answered with an error; that the object to
    be deleted is not there is none. *)
Definition failureOf (ev : event CallE) : option (Child * GoError) :=
  match ev with
  | Ev e x =>
      match e in CallE X return X -> option (Child * GoError) with
      | GetObj k _ => fun x =>
          match x with inr err => if err_notFound err then None else Some (k, err) | inl _ => None end
      | DeleteObj k _ => fun x => pair k <$> x
      | Fetch k _ => fun x => match x with inr err => Some (k, err) | inl _ => None end
      | SetControllerReference _ k _ => fun x => match x with inr err => Some (k, err) | inl _ => None end
      | Commit k _ => fun x => match x with inr err => Some (k, err) | inl _ => None end
      | _ => fun _ => None
      end x
  end.

(** A call that follows the spec of the Telemetry: writes are for enabled
    children and carry the child's section of the spec, deletions are for
    disabled ones. *)
Definition followsSpec (spec : TelemetrySpec) (ev : event CallE) : Prop :=
  match ev with
  | Ev e _ =>
      match e with
      | Commit k o =>
          enabled spec k = true /\
          match k return childObj k -> Prop with
          | CeilometerChild => fun c => cei_Spec c = csec_CeilometerSpec (tels_Ceilometer spec)
          | AutoscalingChild => fun a => asc_Spec a = asec_AutoscalingSpec (tels_Autoscaling spec)
          | MetricStorageChild => fun m =>
              let want := msec_MetricStorageSpec (tels_MetricStorage spec) in
              (forall s, mets_MonitoringStack want = Some s ->
                 mets_MonitoringStack (met_Spec m) = Some s) /\
              (forall s, mets_CustomMonitoringStack want = Some s ->
                 mets_CustomMonitoringStack (met_Spec m) = Some s)
          end o
      | DeleteObj k _ => enabled spec k = false
      | _ => True
      end
  end.

Section Observe.
Context `{L : ConditionLib}.

Definition isReady {k : Child} : childObj k -> bool :=
  match k with
  | CeilometerChild => Ceilometer_IsReady
  | AutoscalingChild => Autoscaling_IsReady
  | MetricStorageChild => MetricStorage_IsReady
  end.

(** The readiness of a child, as the API server answered it. *)
Definition readyAnswer (ev : event CallE) : option (Child * bool) :=
  match ev with
  | Ev e x =>
      match e in CallE X return X -> option (Child * bool) with
      | Commit k _ => fun x => match x with inl (o, _) => Some (k, isReady o) | inr _ => None end
      | _ => fun _ => None
      end x
  end.
End Observe.

(** ** Per-child behaviour *)
Section Children.
Context `{L : ConditionLib} `{LL : !ConditionLaws L}.

Definition conds (i : Telemetry) : Conditions := telt_Conditions (tel_Status i).

(** Only the conditions of the object differ. *)
Definition sameButConds (i i' : Telemetry) : Prop :=
  tel_Meta i' = tel_Meta i /\ tel_Spec i' = tel_Spec i /\
  telt_Hash (tel_Status i') = telt_Hash (tel_Status i).

(** What reconciling one child does: the calls are all about the child; the
    condition of the child is removed when the child is disabled, and
    otherwise tells its readiness or the error. *)
Definition childStep (k : Child) (tr : list (event CallE)) (i i' : Telemetry) (o : outcome RE) : Prop :=
  exists e, o = Val (emptyResult, e) /\
  Forall (fun ev => childOf ev = Some k) tr /\ sameButConds i i' /\
  (uniqueTypes (conds i) -> uniqueTypes (conds i')) /\
  match e with
  | None =>
      if enabled (tel_Spec i) k
      then exists (b : bool) c, omap readyAnswer tr = [(k, b)] /\
             cond_Status c = (if b then ConditionTrue else ConditionFalse) /\
             updatesTo (conds i) (conds i') (condOf k) (Some c)
      else omap readyAnswer tr = [] /\ updatesTo (conds i) (conds i') (condOf k) None
  | Some err =>
      (omap readyAnswer tr = [] /\ last tr ≫= failureOf = Some (k, err)) /\
      if enabled (tel_Spec i) k
      then exists c, cond_Status c = ConditionFalse /\
             updatesTo (conds i) (conds i') (condOf k) (Some c)
      else conds i' = conds i
  end.

Lemma updatesTo_SetFalse cs t r s m :
  updatesTo cs (Set_ cs (Some (FalseCondition t r s m))) t (Some (FalseCondition t r s m)).
Proof. rewrite <-(FalseCondition_type t r s m) at 2. apply Set_spec. Qed.

(** Closes the leaves of a child's decision tree. *)
Ltac child_done :=
  repeat match goal with
  | H : negb _ = true |- _ => apply negb_true_iff in H
  | H : negb _ = false |- _ => apply negb_false_iff in H
  end;
  eexists; split; [reflexivity|]; split; [by repeat constructor|]; split; [by repeat split|];
  split;
  [ intros; first [by apply Set_unique | by apply MarkTrue_unique | by apply Remove_unique | done]
  | simpl in *;
    repeat match goal with H : ?b = _ |- context [?b] => rewrite H end;
    lazymatch goal with
    | |- _ /\ updatesTo _ _ _ None => split; [done|apply Remove_spec]
    | |- exists (b : bool) c, [(?k, ?b0)] = _ /\ _ /\ updatesTo ?cs ?cs' _ _ =>
        lazymatch eval unfold conds, telt_Conditions in cs' with
        | context [MarkTrue _ ?t ?m] =>
            destruct (MarkTrue_spec cs t m) as (c0 & Hc0 & _ & _ & Hu0); by exists true, c0
        | _ => exists false; eexists; split; [done|];
               split; [apply FalseCondition_status|apply updatesTo_SetFalse]
        end
    | |- _ /\ exists c, _ =>
        split; [done|]; eexists; split; [apply FalseCondition_status|apply updatesTo_SetFalse]
    | |- _ => done
    end ].

Lemma reconcileCeilometer_step before i :
  wpM anyAnswer (reconcileCeilometer before) i (fun tr i' o => childStep CeilometerChild tr i i' o).
Proof.
  unfold reconcileCeilometer, ensureDeleted, createOrPatch, mutateCeilometer, markTrue, setFalse,
    modifyConds. wpm; child_done.
Qed.

Lemma reconcileAutoscaling_step before i :
  wpM anyAnswer (reconcileAutoscaling before) i (fun tr i' o => childStep AutoscalingChild tr i i' o).
Proof.
  unfold reconcileAutoscaling, ensureDeleted, createOrPatch, mutateAutoscaling, markTrue, setFalse,
    modifyConds. wpm; child_done.
Qed.

Lemma reconcileMetricStorage_step before i :
  wpM anyAnswer (reconcileMetricStorage before) i
    (fun tr i' o => childStep MetricStorageChild tr i i' o).
Proof.
  unfold reconcileMetricStorage, ensureDeleted, createOrPatch, mutateMetricStorage, markTrue,
    setFalse, modifyConds. wpm; child_done.
Qed.

(** ** One pass over the children *)
#[local] Instance condOf_inj : Inj (=) (=) condOf.
Proof. by intros [] []. Qed.

(** Success of a pass over [ks]: the answers name the enabled children in
    order, each child's condition tells its answer, nothing else changed. *)
Definition passDone (ks : list Child) (ans : list (Child * bool)) (i i' : Telemetry) : Prop :=
  ans.*1 = filter (fun k => enabled (tel_Spec i) k = true) ks /\
  (forall k, k ∈ ks -> enabled (tel_Spec i) k = false -> getCond (conds i') (condOf k) = None) /\
  (forall k (b : bool), (k, b) ∈ ans ->
     statusOf (conds i') (condOf k) = Some (if b then ConditionTrue else ConditionFalse)) /\
  (forall t, (forall k, k ∈ ks -> t <> condOf k) -> getCond (conds i') t = getCond (conds i) t).

(** Failure: the last call was about a child [k] and failed with [err]; the
    children after it were not touched. *)
Definition passFailed (ks : list Child) (tr : list (event CallE)) (err : GoError) (i i' : Telemetry) : Prop :=
  exists l k r, ks = l ++ k :: r /\ last tr ≫= failureOf = Some (k, err) /\
  (forall k', k' ∈ omap childOf tr -> k' ∈ l ++ [k]) /\
  (forall k', k' ∈ r -> getCond (conds i') (condOf k') = getCond (conds i) (condOf k')) /\
  (enabled (tel_Spec i) k = true -> statusOf (conds i') (condOf k) = Some ConditionFalse).

Definition passOk (ks : list Child) (tr : list (event CallE)) (i i' : Telemetry)
    (o : outcome RE) : Prop :=
  exists e, o = Val (emptyResult, e) /\ sameButConds i i' /\
  (uniqueTypes (conds i) -> uniqueTypes (conds i')) /\
  (exists ns, omap childOf tr = concat (zip_with (fun k n => replicate n k) ks ns)) /\
  match e with
  | None => passDone ks (omap readyAnswer tr) i i'
  | Some err => passFailed ks tr err i i'
  end.

Lemma childOf_replicate k tr :
  Forall (fun ev => childOf ev = Some k) tr -> omap childOf tr = replicate (length tr) k.
Proof. induction 1 as [|ev tr Hk Htr IH]; simpl; [done|]. rewrite Hk. by f_equal. Qed.

Lemma passOk_nil i : passOk [] [] i i (Val (emptyResult, None)).
Proof.
  exists None. split_and!; [done|by repeat split|done|by exists []|].
  split_and!; [done|set_solver|set_solver|done].
Qed.

Lemma sameButConds_trans i i1 i2 : sameButConds i i1 -> sameButConds i1 i2 -> sameButConds i i2.
Proof. intros (?&?&?) (?&?&?). split_and!; congruence. Qed.

Lemma passOk_fail k ks tr i i1 err :
  childStep k tr i i1 (Val (emptyResult, Some err)) -> k ∉ ks ->
  passOk (k :: ks) tr i i1 (Val (emptyResult, Some err)).
Proof.
  intros (e & [= <-] & Htr & Hs & Hu & [_ Hlast] & He) Hk. exists (Some err).
  split_and!; [done|done|done| |].
  - exists [length tr]. simpl. rewrite zip_with_nil_r. simpl. rewrite app_nil_r. by apply childOf_replicate.
  - exists [], k, ks. split_and!; [done|done| | |].
    + intros k'. rewrite (childOf_replicate _ _ Htr). by intros ->%elem_of_replicate_inv; set_solver.
    + intros k' Hk'. destruct (enabled (tel_Spec i) k).
      * destruct He as (c & _ & Hupd). eapply updatesTo_ne; [exact Hupd|].
        intros ->%(inj condOf). done.
      * by rewrite He.
    + intros Hen. rewrite Hen in He. destruct He as (c & Hc & Hupd).
      unfold statusOf. rewrite (updatesTo_eq _ _ _ _ Hupd). simpl. by rewrite Hc.
Qed.

Lemma passDone_cons k ks tr ans i i1 i2 :
  k ∉ ks -> NoDup ks -> childStep k tr i i1 (Val (emptyResult, None)) ->
  passDone ks ans i1 i2 -> passDone (k :: ks) (omap readyAnswer tr ++ ans) i i2.
Proof.
  intros Hk Hnd (e & [= <-] & Htr & (Hm & Hsp & Hh) & Hu & He) (Hans & Hdis & Hst & Hoth).
  rewrite Hsp in Hans, Hdis.
  assert (getCond (conds i2) (condOf k) = getCond (conds i1) (condOf k)) as Hk2.
  { apply Hoth. intros k' Hk' ->%(inj condOf). done. }
  split_and!.
  - rewrite filter_cons. destruct (enabled (tel_Spec i) k).
    + destruct He as (b & c & -> & _). rewrite decide_True by done. simpl. by f_equal.
    + destruct He as (-> & _). by rewrite decide_False by done.
  - intros k' [->|Hk']%elem_of_cons Hen; [|by apply Hdis].
    rewrite Hen in He. destruct He as [_ Hupd]. rewrite Hk2. by eapply updatesTo_eq.
  - intros k' b [Hin|Hin]%elem_of_app; [|by apply Hst].
    destruct (enabled (tel_Spec i) k).
    + destruct He as (b' & c & Hb & Hc & Hupd). rewrite Hb in Hin.
      apply list_elem_of_singleton in Hin as [= -> ->].
      unfold statusOf. rewrite Hk2, (updatesTo_eq _ _ _ _ Hupd). simpl. by rewrite Hc.
    + destruct He as [Hb _]. rewrite Hb in Hin. by apply not_elem_of_nil in Hin.
  - intros t Ht. rewrite Hoth by set_solver.
    assert (t <> condOf k) by (apply Ht; set_solver).
    destruct (enabled (tel_Spec i) k);
      [destruct He as (b & c & _ & _ & Hupd)|destruct He as [_ Hupd]]; by eapply updatesTo_ne.
Qed.

Lemma passFailed_cons k ks tr tr' err i i1 i2 :
  k ∉ ks -> childStep k tr i i1 (Val (emptyResult, None)) ->
  passFailed ks tr' err i1 i2 -> passFailed (k :: ks) (tr ++ tr') err i i2.
Proof.
  intros Hk (e & [= <-] & Htr & (Hm & Hsp & Hh) & Hu & He) (l & k0 & r & -> & Hlast & Ht & Hr & Hf).
  rewrite Hsp in Hf. exists (k :: l), k0, r. split_and!; [done| | | |done].
  - rewrite last_app. by destruct (last tr').
  - intros k'. rewrite omap_app, (childOf_replicate _ _ Htr).
    intros [->%elem_of_replicate_inv|Hin]%elem_of_app; [set_solver|].
    apply Ht, elem_of_app in Hin as [?|?]; apply elem_of_app;
      [left; apply elem_of_cons; by right|by right].
  - intros k' Hk'. rewrite Hr by done.
    assert (condOf k' <> condOf k) by (intros ->%(inj condOf); set_solver).
    destruct (enabled (tel_Spec i) k);
      [destruct He as (b & c & _ & _ & Hupd)|destruct He as [_ Hupd]]; by eapply updatesTo_ne.
Qed.

Lemma passOk_cons k ks tr tr' i i1 i2 o :
  k ∉ ks -> NoDup ks -> childStep k tr i i1 (Val (emptyResult, None)) ->
  passOk ks tr' i1 i2 o -> passOk (k :: ks) (tr ++ tr') i i2 o.
Proof.
  intros Hk Hnd Hc (e & -> & Hs & Hu & (ns & Hns) & He). exists e.
  pose proof Hc as (e' & [= <-] & Htr & Hs1 & Hu1 & _).
  split_and!; [done|by eapply sameButConds_trans|auto| |].
  - exists (length tr :: ns). simpl. by rewrite omap_app, Hns, (childOf_replicate _ _ Htr).
  - destruct e.
    + by eapply passFailed_cons.
    + rewrite omap_app. by eapply passDone_cons.
Qed.

Lemma stopOn_step k ks (m : TM RE) (rest : TM RE) i :
  k ∉ ks -> NoDup ks ->
  wpM anyAnswer m i (fun tr i' o => childStep k tr i i' o) ->
  (forall i1, wpM anyAnswer rest i1 (fun tr i2 o => passOk ks tr i1 i2 o)) ->
  wpM anyAnswer (let* re := m in stopOn re rest)%go i (fun tr i' o => passOk (k :: ks) tr i i' o).
Proof.
  intros Hk Hnd Hm Hrest. apply wpM_bind. eapply wpM_mono; [|exact Hm].
  intros tr i1 o Hc. pose proof Hc as (e & -> & _). simpl. destruct e as [err|].
  - apply wpM_ret. rewrite app_nil_r. by apply passOk_fail.
  - eapply wpM_mono; [|apply Hrest].
    intros tr' i2 o Ho. by eapply passOk_cons.
Qed.

Definition passOrder := [AutoscalingChild; CeilometerChild; MetricStorageChild].

Lemma passOrder_all k : k ∈ passOrder.
Proof. destruct k; by apply (bool_decide_unpack _). Qed.

(** After a successful pass Ready is the conjunction of the answers. *)
Lemma passDone_ready ans i i1 k0 :
  passDone passOrder ans i i1 -> uniqueTypes (conds i1) -> enabled (tel_Spec i) k0 = true ->
  (forall t c, getCond (conds i) t = Some c -> t = ReadyCondition \/ exists k, t = condOf k) ->
  IsTrue (updateReady (conds i1)) ReadyCondition = forallb snd ans.
Proof.
  intros (Hfst & Hdis & Hst & Hoth) Hu Hk0 Hown.
  assert (forall k, enabled (tel_Spec i) k = true -> exists b, (k, b) ∈ ans) as Hans.
  { intros k Hk. assert (k ∈ ans.*1) as ((k1 & b) & -> & ?)%list_elem_of_fmap; [|by exists b].
    rewrite Hfst. apply list_elem_of_filter. split; [done|apply passOrder_all]. }
  assert (forall k b, (k, b) ∈ ans -> exists c, getCond (conds i1) (condOf k) = Some c /\
    cond_Status c = if (b : bool) then ConditionTrue else ConditionFalse) as Hget.
  { intros k b Hb. specialize (Hst k b Hb). unfold statusOf in Hst.
    apply fmap_Some in Hst as (c & Hc & ->). eauto. }
  apply eq_true_iff_eq. rewrite updateReady_all; [|done|].
  2:{ destruct (Hans k0 Hk0) as [b Hb]. destruct (Hget _ _ Hb) as (c & Hc & _).
      exists (condOf k0), c. split; [by destruct k0|done]. }
  rewrite forallb_forall. split.
  - intros Hall [k b] Hin%list_elem_of_In. destruct (Hget _ _ Hin) as (c & Hc & Hs).
    apply Hall in Hc; [|by destruct k]. simpl. by destruct b; [|congruence].
  - intros Hall t c Ht Hc.
    destruct (decide (t ∈ condOf <$> passOrder)) as [(k & -> & _)%list_elem_of_fmap|Hno].
    + destruct (enabled (tel_Spec i) k) eqn:Hk; [|by rewrite Hdis in Hc by auto using passOrder_all].
      destruct (Hans k Hk) as [b Hb]. destruct (Hget _ _ Hb) as (c' & Hc' & Hs).
      apply list_elem_of_In in Hb. apply Hall in Hb. simpl in Hb. subst b. by simplify_eq.
    + rewrite Hoth in Hc by (intros k ? ->; destruct Hno; by apply list_elem_of_fmap_2).
      destruct (Hown _ _ Hc) as [|[k ->]]; [done|].
      destruct Hno. apply list_elem_of_fmap_2, passOrder_all.
Qed.

Lemma reconcileNormal_pass before i :
  wpM anyAnswer (reconcileNormal before) i (fun tr i' o => passOk passOrder tr i i' o).
Proof.
  unfold reconcileNormal.
  apply stopOn_step; [by apply (bool_decide_unpack _)..|apply reconcileAutoscaling_step|].
  intros i1.
  apply stopOn_step; [by apply (bool_decide_unpack _)..|apply reconcileCeilometer_step|].
  intros i2.
  apply stopOn_step; [by apply (bool_decide_unpack _)..|apply reconcileMetricStorage_step|].
  intros i3. apply wpM_ret, passOk_nil.
Qed.
End Children.

(** ** The whole of Reconcile *)
Section Pass.
Context `{L : ConditionLib} `{LL : !ConditionLaws L}.
Context `{F : FinalizerLib} `{FL : !FinalizerLaws F} `{C : CommonLib}.

(** Reasoning rule for the runs that fetched [i] with answers keeping [ok]. *)
Lemma Reconcile_from_ok ok req tr o i (Q : list (event CallE) -> outcome RE -> Prop) :
  runs (Reconcile req) tr o -> fetched tr = Some i -> Forall (keeps ok) tr ->
  (forall err, Q [Ev (GetTelemetry req) (inl i); Ev (NewHelper i) (Some err)]
                 (Val (emptyResult, Some err))) ->
  wpM ok (reconcileBody i) i (fun tr i' o => forall err,
     Q (Ev (GetTelemetry req) (inl i) :: Ev (NewHelper i) None ::
        tr ++ [Ev (PatchInstance (finish i')) err])
       (finishResult true err o)) ->
  Q tr o.
Proof.
  intros (x & tr1 & -> & Hr) Hf Hok Hhelper Hbody.
  destruct x as [i0|e]; simpl in Hf; simplify_eq.
  destruct Hr as (y & tr2 & -> & Hr). destruct y as [err|]; [by destruct Hr as [-> ->]|].
  apply Forall_cons in Hok as [_ Hok]. apply Forall_cons in Hok as [_ Hok].
  revert Hr Hok. apply (runs_wp ok _ (fun tr o => Q (_ :: _ :: tr) o)).
  apply wp_runM, deferPatch_wp. eapply wpM_mono; [|exact Hbody]. by intros tr i' o' H err _.
Qed.

Lemma telemetry_Reconcile_from req tr o i (Q : list (event CallE) -> outcome RE -> Prop) :
  runs (Reconcile req) tr o -> fetched tr = Some i ->
  (forall err, Q [Ev (GetTelemetry req) (inl i); Ev (NewHelper i) (Some err)]
                 (Val (emptyResult, Some err))) ->
  wpM anyAnswer (reconcileBody i) i (fun tr i' o => forall err,
     Q (Ev (GetTelemetry req) (inl i) :: Ev (NewHelper i) None ::
        tr ++ [Ev (PatchInstance (finish i')) err])
       (finishResult true err o)) ->
  Q tr o.
Proof. intros Hr Hf. apply (Reconcile_from_ok anyAnswer _ _ _ _ _ Hr Hf), keeps_any. Qed.

(** With the finalizer in place and conditions initialised, a live object
    goes straight to reconcileNormal. *)
Lemma reconcileBody_normal ok before i cs Q :
  notDeleting (tel_Meta i) = true -> finalizer ∈ meta_Finalizers (tel_Meta i) ->
  conds i = Some cs ->
  wpM ok (reconcileNormal before) (ensureHash i) Q -> wpM ok (reconcileBody before) i Q.
Proof.
  intros Hd Hf Hc H. unfold reconcileBody, reconcileInit. wpm_step. wpm_step. rewrite Hd.
  wpm_step. apply addFinalizer_present; [done|]. cbv beta iota.
  wpm_step. wpm_step. unfold conds in Hc. rewrite Hc.
  wpm_step. wpm_step. cbv zeta. wpm_step. wpm_step. unfold returnOn. simpl.
  wpm_step. wpm_step. simpl. by rewrite Hd.
Qed.

(** Neither a panic nor a patch of the Telemetry object inside the body. *)
Lemma telemetry_reconcileBody_safe before :
  Safe anyAnswer (fun _ => True) (fun ev => patchOf ev = None) (reconcileBody before).
Proof.
  unfold reconcileBody, reconcileInit, returnOn, reconcileDelete, reconcileNormal, stopOn,
    reconcileAutoscaling, reconcileCeilometer, reconcileMetricStorage, ensureDeleted, createOrPatch,
    mutateAutoscaling, mutateCeilometer, mutateMetricStorage, addFinalizer, removeFinalizer,
    markTrue, setFalse, modifyConds.
  safe; done.
Qed.

(** C1. Status is always persisted: whenever [Reconcile] has fetched a
    Telemetry and built its helper, it ends (without a panic) with exactly one
    patch of the object, as its last call; the patched object has a Ready
    condition that is True only if every other condition is True, and an error
    of the patch becomes the returned error. *)
Theorem telemetry_patched_last req tr o i :
  runs (Reconcile req) tr o -> fetched tr = Some i ->
  (exists err, tr = [Ev (GetTelemetry req) (inl i); Ev (NewHelper i) (Some err)] /\
     o = Val (emptyResult, Some err)) \/
  (exists i' err r e, omap patchOf tr = [(i', err)] /\
     last tr = Some (Ev (PatchInstance i') err) /\ readyOk (conds i') /\
     o = Val (r, match err with Some _ => err | None => e end)).
Proof.
  intros Hr Hf. pattern tr, o. apply (telemetry_Reconcile_from _ _ _ _ _ Hr Hf); [intros err; left; eauto|].
  eapply wpM_mono; [|exact (telemetry_reconcileBody_safe i i I)].
  intros tr' i' o' (_ & HP & [r e] & ->) err. right. exists (finish i'), err, r, e.
  split_and!.
  - simpl. rewrite omap_app, omap_None by done. done.
  - by rewrite !last_cons, last_snoc.
  - apply (readyOk_updateReady (conds i')).
  - done.
Qed.

(** Shorthand for the statements below. *)
Definition live (i : Telemetry) : Prop :=
  notDeleting (tel_Meta i) = true /\ finalizer ∈ meta_Finalizers (tel_Meta i) /\ conds i <> None.

Lemma Reconcile_live req tr o i :
  runs (Reconcile req) tr o -> fetched tr = Some i -> live i ->
  (exists err, o = Val (emptyResult, Some err) /\ omap childOf tr = [] /\ omap patchOf tr = []) \/
  (exists tr' i1 err e, passOk passOrder tr' (ensureHash i) i1 (Val (emptyResult, e)) /\
     tr = Ev (GetTelemetry req) (inl i) :: Ev (NewHelper i) None ::
          tr' ++ [Ev (PatchInstance (finish i1)) err] /\
     omap patchOf tr = [(finish i1, err)] /\
     o = Val (emptyResult, match err with Some _ => err | None => e end)).
Proof.
  intros Hr Hf (Hd & Hfin & Hn). destruct (conds i) as [cs|] eqn:Hcs; [|done].
  pattern tr, o. apply (telemetry_Reconcile_from _ _ _ _ _ Hr Hf); [intros err; left; by exists err|].
  eapply wpM_mono; [|apply wpM_and; [exact (telemetry_reconcileBody_safe i i I)|
    eapply reconcileBody_normal; [done..|apply reconcileNormal_pass]]].
  intros tr' i1 o' [(_ & HP & _) Hpass] err. right.
  pose proof Hpass as (e & -> & _).
  exists tr', i1, err, e. split_and!; [done|done| |done].
  simpl. rewrite omap_app, omap_None by done. done.
Qed.


(** C2. Readiness of the whole: in a pass over a live Telemetry that has only
    conditions of its own and an enabled child, and that ends without an
    error, the API server was asked about exactly the enabled children (in the
    order autoscaling, ceilometer, metric storage), and the patched object is
    Ready iff every one of them was answered ready.  The condition of a
    disabled child is gone. *)
Theorem telemetry_ready_iff_children req tr i i' err :
  runs (Reconcile req) tr (Val (emptyResult, None)) -> fetched tr = Some i -> live i ->
  uniqueTypes (conds i) ->
  (forall t c, getCond (conds i) t = Some c -> t = ReadyCondition \/ exists k, t = condOf k) ->
  (exists k, enabled (tel_Spec i) k = true) ->
  omap patchOf tr = [(i', err)] ->
  (omap readyAnswer tr).*1 = filter (fun k => enabled (tel_Spec i) k = true) passOrder /\
  Telemetry_IsReady i' = forallb snd (omap readyAnswer tr) /\
  (forall k, enabled (tel_Spec i) k = false -> getCond (conds i') (condOf k) = None).
Proof.
  intros Hr Hf Hl Hu Hown [k0 Hk0] Hp.
  destruct (Reconcile_live _ _ _ _ Hr Hf Hl)
    as [(e & ? & _)|(tr' & i1 & err' & e & Hpass & -> & Hp' & Ho)]; [done|].
  rewrite Hp in Hp'. simplify_eq. destruct err' as [?|], e as [?|]; simplify_eq.
  destruct Hpass as (e & [= <-] & _ & Hu1 & _ & Hdone).
  simpl. rewrite omap_app. simpl. rewrite app_nil_r.
  split_and!; [apply Hdone|by eapply passDone_ready; eauto|].
  intros k Hk. rewrite <-(proj1 (proj2 Hdone) k (passOrder_all k) Hk).
  apply updateReady_other. by destruct k.
Qed.


Ltac follows :=
  subst; simpl;
  repeat match goal with
  | H : negb _ = true |- _ => apply negb_true_iff in H
  | H : negb _ = false |- _ => apply negb_false_iff in H
  | H : tel_Spec ?s = _ |- context [tel_Spec ?s] => rewrite H
  | H : tel_Spec ?s = _, H' : context [tel_Spec ?s] |- _ => rewrite H in H'
  end.

Lemma reconcileCeilometer_follows before spec :
  Safe anyAnswer (fun i => tel_Spec i = spec) (followsSpec spec) (reconcileCeilometer before).
Proof.
  unfold reconcileCeilometer, ensureDeleted, createOrPatch, mutateCeilometer, markTrue, setFalse,
    modifyConds. safe_paths; follows; done.
Qed.

Lemma reconcileAutoscaling_follows before spec :
  Safe anyAnswer (fun i => tel_Spec i = spec) (followsSpec spec) (reconcileAutoscaling before).
Proof.
  unfold reconcileAutoscaling, ensureDeleted, createOrPatch, mutateAutoscaling, markTrue, setFalse,
    modifyConds. safe_paths; follows; done.
Qed.

Lemma copyMetricStorageSpec_wants from to :
  (forall s, mets_MonitoringStack from = Some s ->
     mets_MonitoringStack (copyMetricStorageSpec from to) = Some s) /\
  (forall s, mets_CustomMonitoringStack from = Some s ->
     mets_CustomMonitoringStack (copyMetricStorageSpec from to) = Some s).
Proof. split; intros s H; simpl; by rewrite H. Qed.

Lemma reconcileMetricStorage_follows before spec :
  Safe anyAnswer (fun i => tel_Spec i = spec) (followsSpec spec) (reconcileMetricStorage before).
Proof.
  unfold reconcileMetricStorage, ensureDeleted, createOrPatch, mutateMetricStorage, markTrue,
    setFalse, modifyConds. safe_paths; follows; try done.
  all: split; [done|apply copyMetricStorageSpec_wants].
Qed.

#[local] Hint Resolve reconcileCeilometer_follows reconcileAutoscaling_follows
  reconcileMetricStorage_follows : safe.

Lemma reconcileBody_follows before spec :
  Safe anyAnswer (fun i => tel_Spec i = spec) (followsSpec spec) (reconcileBody before).
Proof.
  unfold reconcileBody, reconcileInit, returnOn, reconcileDelete, reconcileNormal, stopOn,
    addFinalizer, removeFinalizer, modifyConds.
  safe; done.
Qed.

(** C11. Every write and deletion of a child follows the spec of the Telemetry
    being reconciled, whatever the API server answers: an object is written
    only for an enabled child, with the section of the spec for that child,
    and deleted only for a disabled one. *)
Theorem telemetry_children_follow_spec req tr o i :
  runs (Reconcile req) tr o -> fetched tr = Some i -> Forall (followsSpec (tel_Spec i)) tr.
Proof.
  intros Hr Hf. pattern tr, o. apply (telemetry_Reconcile_from _ _ _ _ _ Hr Hf); [by repeat constructor|].
  eapply wpM_mono; [|exact (reconcileBody_follows i _ i eq_refl)].
  intros tr' i' o' (_ & HP & _) err. repeat constructor; [..|apply Forall_app; split; [done|]];
    by repeat constructor.
Qed.

(** C12. A failing child stops the pass: when a pass over a live object returns
    an error although the status patch succeeded, the last call before the
    patch was about a child [k] and was answered with that error; no call was
    made for the children after [k] (their conditions are the ones found), and
    [k]'s condition is False if [k] is enabled. *)
Theorem telemetry_error_stops req tr i i' e0 :
  runs (Reconcile req) tr (Val (emptyResult, Some e0)) -> fetched tr = Some i -> live i ->
  omap patchOf tr = [(i', None)] ->
  exists l k r, passOrder = l ++ k :: r /\
    (exists pre ev, tr = pre ++ [ev; Ev (PatchInstance i') None] /\ failureOf ev = Some (k, e0)) /\
    (forall k', k' ∈ omap childOf tr -> k' ∈ l ++ [k]) /\
    (forall k', k' ∈ r -> getCond (conds i') (condOf k') = getCond (conds i) (condOf k')) /\
    (enabled (tel_Spec i) k = true -> statusOf (conds i') (condOf k) = Some ConditionFalse).
Proof.
  intros Hr Hf Hl Hp.
  destruct (Reconcile_live _ _ _ _ Hr Hf Hl)
    as [(e & _ & _ & Hp')|(tr' & i1 & err' & e & Hpass & -> & Hp' & Ho)];
    rewrite Hp in Hp'; simplify_eq.
  destruct Hpass as (e & [= <-] & _ & _ & _ & l & k & r & Hks & Hlast & Ht & Hk & He).
  exists l, k, r. split_and!; [done| | | |].
  - apply bind_Some in Hlast as (ev & (pre & ->)%last_Some & Hev).
    eexists (_ :: _ :: pre), ev. split; [|done]. simpl. by rewrite <-app_assoc.
  - intros k'. simpl. rewrite omap_app. simpl. rewrite app_nil_r. apply Ht.
  - intros k' Hk'. etransitivity; [|exact (Hk k' Hk')]. apply updateReady_other. by destruct k'.
  - intros Hen. etransitivity; [|exact (He Hen)]. unfold statusOf. f_equal.
    apply updateReady_other. by destruct k.
Qed.

(** Deletion: for a Telemetry being deleted whose conditions exist, the
    pass touches no child (they are garbage collected through their owner
    references) and patches the object with the finalizer, and only it,
    removed. *)
Theorem telemetry_delete_removes_finalizer req tr o i i' err :
  runs (Reconcile req) tr o -> fetched tr = Some i ->
  notDeleting (tel_Meta i) = false -> conds i <> None -> (i', err) ∈ omap patchOf tr ->
  omap childOf tr = [] /\ o = Val (emptyResult, err) /\
  (forall g, g ∈ meta_Finalizers (tel_Meta i') <->
             g ∈ meta_Finalizers (tel_Meta i) /\ g <> finalizer).
Proof.
  intros Hr Hf Hd Hc. pattern tr, o.
  apply (telemetry_Reconcile_from _ _ _ _ _ Hr Hf); [intros e Hin; by apply not_elem_of_nil in Hin|].
  unfold conds in Hc. destruct (telt_Conditions (tel_Status i)) as [cs|] eqn:Hcs; [|done].
  unfold reconcileBody, reconcileInit, returnOn. wpm_step. wpm_step. rewrite Hd.
  wpm_step. wpm_step. wpm_step. wpm_step. rewrite Hcs. wpm_step. wpm_step. cbv zeta.
  wpm_step. wpm_step. simpl. wpm_step. wpm_step. simpl. rewrite Hd. unfold reconcileDelete. simpl.
  wpm_step. apply removeFinalizer_wp. intros fs b Hfs. simpl. wpm_step. intros err0. simpl.
  intros [= -> ->]%list_elem_of_singleton. simpl. split_and!; [done|by destruct err0|done].
Qed.

(** First pass over a fresh object: the pass that adds the finalizer
    returns before the conditions are initialised, but its deferred function
    still writes a Ready condition.  The patched object therefore has a
    non-nil list without any sub-condition, and is live: later passes skip the
    initialisation of the sub-conditions. *)
Theorem telemetry_first_pass_skips_init req tr o i i' err :
  runs (Reconcile req) tr o -> fetched tr = Some i ->
  notDeleting (tel_Meta i) = true -> finalizer ∉ meta_Finalizers (tel_Meta i) ->
  conds i = None -> (i', err) ∈ omap patchOf tr ->
  omap childOf tr = [] /\ live i' /\ is_Some (getCond (conds i') ReadyCondition) /\
  (forall t, t <> ReadyCondition -> getCond (conds i') t = None).
Proof.
  intros Hr Hf Hd Hfin Hc. pattern tr, o.
  apply (telemetry_Reconcile_from _ _ _ _ _ Hr Hf); [intros e Hin; by apply not_elem_of_nil in Hin|].
  unfold reconcileBody. wpm_step. wpm_step. rewrite Hd.
  wpm_step. apply addFinalizer_absent; [done|]. intros fs Hfs. cbv beta iota.
  wpm_step. intros err0. simpl. intros [= -> ->]%list_elem_of_singleton.
  split_and!; [done| |apply updateReady_ready|].
  - split_and!; [done|simpl; apply Hfs; by right|apply updateReady_nonnil].
  - intros t Ht. unfold conds, finish. simpl. rewrite updateReady_other by done.
    unfold conds in Hc. by rewrite Hc.
Qed.

(** The API server holds a MetricStorage whose customMonitoringStack is [s]. *)
Definition holdsCustomStack (s : MonitoringStackSpec) : contract CallE := fun X e =>
  match e in CallE X return X -> Prop with
  | Fetch k _ =>
      match k return option (childObj k) + GoError -> Prop with
      | MetricStorageChild => fun x =>
          match x with
          | inl (Some o) => mets_CustomMonitoringStack (met_Spec o) = Some s
          | inl None => False
          | inr _ => True
          end
      | _ => fun _ => True
      end
  | _ => fun _ => True
  end.

(** The MetricStorage objects written. *)
Definition metricStorageCommit (ev : event CallE) : option MetricStorage :=
  match ev with
  | Ev e _ =>
      match e with
      | Commit k o =>
          match k return childObj k -> option MetricStorage with
          | MetricStorageChild => Some
          | _ => fun _ => None
          end o
      | _ => None
      end
  end.

Lemma reconcileMetricStorage_custom before s :
  Safe (holdsCustomStack s)
    (fun i => mets_CustomMonitoringStack
                (msec_MetricStorageSpec (tels_MetricStorage (tel_Spec i))) = None)
    (fun ev => forall m, metricStorageCommit ev = Some m ->
               mets_CustomMonitoringStack (met_Spec m) = Some s)
    (reconcileMetricStorage before).
Proof.
  unfold reconcileMetricStorage, ensureDeleted, createOrPatch, mutateMetricStorage, markTrue,
    setFalse, modifyConds.
  safe_paths; simpl in *; simplify_eq; try done; simpl.
  match goal with H : mets_CustomMonitoringStack _ = None |- _ => rewrite H end.
  by destruct o.
Qed.

#[local] Hint Resolve reconcileMetricStorage_custom : safe.

Lemma reconcileBody_custom before s :
  Safe (holdsCustomStack s)
    (fun i => mets_CustomMonitoringStack
                (msec_MetricStorageSpec (tels_MetricStorage (tel_Spec i))) = None)
    (fun ev => forall m, metricStorageCommit ev = Some m ->
               mets_CustomMonitoringStack (met_Spec m) = Some s)
    (reconcileBody before).
Proof.
  unfold reconcileBody, reconcileInit, reconcileDelete, reconcileNormal, stopOn,
    reconcileAutoscaling, reconcileCeilometer,
    ensureDeleted, createOrPatch, mutateAutoscaling, mutateCeilometer.
  safe; simpl in *; done.
Qed.

(** C17. A removed customMonitoringStack stays: while the API server holds a
    MetricStorage with a customMonitoringStack, a Telemetry whose spec has none
    writes the MetricStorage back with the stack it had. *)
Theorem telemetry_stale_custom_stack req tr o i s :
  runs (Reconcile req) tr o -> fetched tr = Some i ->
  mets_CustomMonitoringStack (msec_MetricStorageSpec (tels_MetricStorage (tel_Spec i))) = None ->
  Forall (keeps (holdsCustomStack s)) tr ->
  forall m, m ∈ omap metricStorageCommit tr -> mets_CustomMonitoringStack (met_Spec m) = Some s.
Proof.
  intros Hr Hf Hs Hok. pattern tr, o. apply (Reconcile_from_ok _ _ _ _ _ _ Hr Hf Hok).
  - intros err m Hm. by apply not_elem_of_nil in Hm.
  - eapply wpM_mono; [|exact (reconcileBody_custom i s i Hs)].
    intros tr' i' o' (_ & HP & _) err m. simpl. rewrite omap_app. simpl. rewrite app_nil_r.
    intros (ev & Hev & Hm)%list_elem_of_omap. rewrite Forall_forall in HP. by eapply HP.
Qed.
End Pass.
End Telemetry.
