(* ===== verification/TelemetryScenarios.v ===== *)
(** * Scenarios of the Telemetry controller

    Concrete worlds that answer the calls of the controller, with the
    reference libraries: each theorem of [Telemetry] is applied to one of
    their runs. *)

From stdpp Require Import gmap strings list.
From Stdlib Require Import ZArith Lia.
From S2P Require Import Prelude Condition Api Libs Reference Operator Telemetry.

Module TelemetryScenarios.
Import Telemetry.

Definition req : NamespacedName := MkKey "openstack" "telemetry".

Definition trueCond (t : CondType) : Condition := refTrue t (lib "ReadyMessage").

(** A Telemetry with Ceilometer and MetricStorage enabled. *)
Definition customStack : MonitoringStackSpec :=
  MkMonitoringStackSpec true None "3d" "" None "custom".
Definition spec : TelemetrySpec :=
  MkTelemetrySpec (MkAutoscalingSection false (MkAutoscalingSpec "" 0 zeroAodh ""))
    (MkCeilometerSection true zeroCeilometerSpec)
    (MkMetricStorageSection true (MkMetricStorageSpec None None)).
Definition meta (fin : list string) (del : option Z) : ObjectMeta :=
  MkMeta "telemetry" "openstack" ∅ ∅ fin del [].
Definition telemetry (fin : list string) (del : option Z) (cs : Conditions) : Telemetry :=
  MkTelemetry (meta fin del) spec (MkTelemetryStatus None cs).
Definition fin : string := GetFinalizer "Telemetry".

Definition liveTelemetry : Telemetry :=
  telemetry [fin] None (Some [trueCond CeilometerReadyCondition; trueCond AutoscalingReadyCondition]).
Definition deletedTelemetry : Telemetry := telemetry [fin; "other"] (Some 7%Z) (Some []).
Definition freshTelemetry : Telemetry := telemetry [] None None.

(** The API server: [i] is the Telemetry; children are created ready, unless
    [failing]; the MetricStorage it has is [stored]. *)
Definition readyChild (k : Child) : childObj k -> childObj k :=
  match k with
  | CeilometerChild => fun c => crSetConds (Some [trueCond ReadyCondition]) c
  | AutoscalingChild => fun c => crSetConds (Some [trueCond ReadyCondition]) c
  | MetricStorageChild => fun c => crSetConds (Some [trueCond ReadyCondition]) c
  end.

Definition storedChild (stored : option MetricStorage) (k : Child) : option (childObj k) :=
  match k with
  | MetricStorageChild => stored
  | _ => None
  end.

Definition world (i : Telemetry) (failing : option Child) (stored : option MetricStorage)
    (X : Type) (e : CallE X) (u : unit) : X * unit :=
  (match e in CallE X return X with
   | GetTelemetry _ => inl i
   | NewHelper _ => None
   | PatchInstance _ => None
   | GetObj k _ => inr (MkError true "not found")
   | DeleteObj _ _ => None
   | Fetch k _ => inl (storedChild stored k)
   | SetControllerReference _ _ m => inl m
   | Commit k o =>
       if decide (failing = Some k) then inr (Errorf "conflict")
       else inl (readyChild k o, OperationResultCreated)
   end, u).

Definition traceOf i failing stored := (interp (world i failing stored) (Reconcile req) tt).1.1.
Definition resultOf i failing stored := (interp (world i failing stored) (Reconcile req) tt).1.2.

(** The object the pass writes back. *)
Definition patched i failing stored : Telemetry :=
  match omap patchOf (traceOf i failing stored) with (i', _) :: _ => i' | [] => i end.

Lemma telemetry_scenario_runs i failing stored :
  runs (Reconcile req) (traceOf i failing stored) (resultOf i failing stored).
Proof.
  unfold traceOf, resultOf. destruct (interp _ _ _) as [[tr o] u] eqn:H. by eapply interp_runs.
Qed.

Lemma telemetry_patched_last_witness :
  (exists i' err, omap patchOf (traceOf liveTelemetry None None) = [(i', err)] /\ readyOk (conds i')) .
Proof.
  destruct (telemetry_patched_last req _ _ liveTelemetry (telemetry_scenario_runs liveTelemetry None None) eq_refl)
    as [(err & H & _)|(i' & err & r & e & H & _ & Hr & _)].
  - exfalso. apply (f_equal length) in H. vm_compute in H. discriminate H.
  - exists i', err. split; assumption.
Defined.

Lemma liveTelemetry_live : live liveTelemetry.
Proof. split_and!; [reflexivity|by apply (bool_decide_unpack _)|done]. Qed.

Lemma telemetry_ready_iff_children_witness :
  exists i', omap patchOf (traceOf liveTelemetry None None) = [(i', None)] /\
    Telemetry_IsReady i' = true.
Proof.
  eexists. split; [vm_compute; reflexivity|].
  refine (eq_trans (proj1 (proj2 (telemetry_ready_iff_children req (traceOf liveTelemetry None None)
    liveTelemetry _ None (telemetry_scenario_runs liveTelemetry None None) eq_refl liveTelemetry_live _ _ _ _))) _).
  - apply (bool_decide_unpack _). by vm_compute.
  - intros t c [Hin <-]%getCond_elem. right. apply elem_of_cons in Hin as [->|Hin];
      [by exists CeilometerChild|]. apply list_elem_of_singleton in Hin as ->. by exists AutoscalingChild.
  - by exists CeilometerChild.
  - vm_compute. reflexivity.
  - vm_compute. reflexivity.
Defined.

Lemma telemetry_children_follow_spec_witness :
  Forall (followsSpec spec) (traceOf liveTelemetry None None).
Proof.
  exact (telemetry_children_follow_spec req _ _ liveTelemetry (telemetry_scenario_runs liveTelemetry None None)
    eq_refl).
Defined.

Lemma telemetry_error_stops_witness :
  exists l k r, passOrder = l ++ k :: r /\
    (forall k', k' ∈ omap childOf (traceOf liveTelemetry (Some CeilometerChild) None) -> k' ∈ l ++ [k]) /\
    exists pre ev e, traceOf liveTelemetry (Some CeilometerChild) None = pre ++ [ev; e] /\
      failureOf ev = Some (k, Errorf "conflict").
Proof.
  destruct (telemetry_error_stops req _ liveTelemetry (patched liveTelemetry (Some CeilometerChild) None)
    (Errorf "conflict") (telemetry_scenario_runs liveTelemetry (Some CeilometerChild) None) eq_refl
    liveTelemetry_live) as (l & k & r & H & (pre & ev & Htr & Hev) & H' & _).
  - vm_compute. reflexivity.
  - exists l, k, r. split; [exact H|]. split; [exact H'|]. eexists pre, ev, _.
    split; [exact Htr|exact Hev].
Defined.

Lemma telemetry_delete_removes_finalizer_witness :
  fin ∉ meta_Finalizers (tel_Meta (patched deletedTelemetry None None)).
Proof.
  destruct (telemetry_delete_removes_finalizer req _ _ deletedTelemetry
    (patched deletedTelemetry None None) None
    (telemetry_scenario_runs deletedTelemetry None None) eq_refl eq_refl) as (_ & _ & Hf); [done| |].
  - apply list_elem_of_In. vm_compute. left. reflexivity.
  - intros [_ Hne]%Hf. by apply Hne.
Defined.

Lemma telemetry_first_pass_skips_init_witness :
  live (patched freshTelemetry None None) /\
  getCond (conds (patched freshTelemetry None None)) CeilometerReadyCondition = None.
Proof.
  destruct (telemetry_first_pass_skips_init req _ _ freshTelemetry
    (patched freshTelemetry None None) None
    (telemetry_scenario_runs freshTelemetry None None) eq_refl eq_refl) as (_ & Hl & _ & Hc).
  - apply not_elem_of_nil.
  - reflexivity.
  - apply list_elem_of_In. vm_compute. left. reflexivity.
  - split; [exact Hl|by apply Hc].
Defined.

Definition storedStack : MetricStorage :=
  MkMetricStorage (newMeta "metric-storage" "openstack") (MkMetricStorageSpec None (Some customStack))
    (MkMetricStorageStatus None).

Lemma telemetry_stale_custom_stack_witness :
  exists m, m ∈ omap metricStorageCommit (traceOf liveTelemetry None (Some storedStack)) /\
    mets_CustomMonitoringStack (met_Spec m) = Some customStack.
Proof.
  eexists. split; [apply list_elem_of_In; vm_compute; left; reflexivity|].
  eapply (telemetry_stale_custom_stack req _ _ liveTelemetry customStack
    (telemetry_scenario_runs liveTelemetry None (Some storedStack)) eq_refl eq_refl).
  - apply interp_keeps. by intros X [? |? |? |? ?|? ?|[] ?|? ? ?|? ?] u; simpl.
  - apply list_elem_of_In. vm_compute. left. reflexivity.
Defined.
End TelemetryScenarios.
