(* ===== verification/TelemetrySystem.v ===== *)
(** * A Telemetry and its children over several passes

    The Telemetry controller, the admission webhooks of the children and the
    API server as one system.  The API server is not part of the repository:
    [ApiServer] lists what is observed of it (the stored objects, the answers
    to the calls of the controller), [ApiLaws] the documented behaviour that is
    relied on when no call fails; an object that is written goes through the
    webhook of its kind, with the [Default] methods of the operator.

    An abstract specification says what a Telemetry promises of its children;
    a pass refines it, two passes reach it from any state in which the
    Telemetry is not being deleted, and further passes keep it. *)

From stdpp Require Import gmap strings list.
From Stdlib Require Import ZArith Lia.
From S2P Require Import Prelude Condition Api Libs Reference Webhooks Operator Telemetry.

#[local] Open Scope go_scope.

Module TelemetrySystem.
Import Webhooks Telemetry.

(** ** Children by kind *)
Definition childName (k : Child) : string :=
  match k with
  | CeilometerChild => ceilometer_ServiceName
  | AutoscalingChild => autoscalingName
  | MetricStorageChild => metricstorage_DefaultServiceName
  end.

Definition newChild (k : Child) : ObjectMeta -> childObj k :=
  match k with
  | CeilometerChild => newCeilometer
  | AutoscalingChild => newAutoscaling
  | MetricStorageChild => newMetricStorage
  end.

(** The object with the metadata [m] and the section of the spec for its kind. *)
Definition putSpec (s : TelemetrySpec) (k : Child) (m : ObjectMeta) : childObj k -> childObj k :=
  match k with
  | CeilometerChild => fun c => MkCeilometer m (csec_CeilometerSpec (tels_Ceilometer s)) (cei_Status c)
  | AutoscalingChild => fun a =>
      MkAutoscaling (asc_Kind a) m (asec_AutoscalingSpec (tels_Autoscaling s)) (asc_Status a)
  | MetricStorageChild => fun o =>
      MkMetricStorage m
        (copyMetricStorageSpec (msec_MetricStorageSpec (tels_MetricStorage s)) (met_Spec o)) (met_Status o)
  end.

(** The webhook of the kind; none when the operator runs without webhooks. *)
Definition throughWebhook (g : option Globals) (k : Child) : childObj k -> childObj k :=
  match g with
  | None => fun o => o
  | Some g =>
      match k with
      | CeilometerChild => Ceilometer_Default g
      | AutoscalingChild => Autoscaling_Default g
      | MetricStorageChild => MetricStorage_Default
      end
  end.

(** ** The API server *)
Class ApiServer (W : Type) := {
  (** the answer to a call, and the world after it *)
  ans : forall X, CallE X -> W -> X * W;
  telemetry_at : W -> NamespacedName -> option Telemetry;
  child_at : W -> forall k, NamespacedName -> option (childObj k);
  (** the metadata with a controller reference to the owner *)
  ownedBy : ObjectMeta -> Child -> ObjectMeta -> ObjectMeta;
  (** controlled by an object other than the owner *)
  foreign : ObjectMeta -> ObjectMeta -> bool;
  (** the defaults of the running webhooks *)
  admission : option Globals
}.

(** Absent, or marked for deletion. *)
Definition gone {k} (o : option (childObj k)) : Prop :=
  match o with None => True | Some o => notDeleting (childMeta o) = false end.

(** From [o] to [o'] by a deletion that happens once. *)
Definition removed {k} (o o' : option (childObj k)) : Prop := gone o' /\ (gone o -> o' = o).

(** Only the child [k] at [key] may differ. *)
Definition frame `{ApiServer W} (k : Child) (key : NamespacedName) (w w' : W) : Prop :=
  (forall k' key', (k', key') <> (k, key) -> child_at w' k' key' = child_at w k' key') /\
  (forall key', telemetry_at w' key' = telemetry_at w key').

Class ApiLaws `{A : ApiServer W} : Prop := {
  telemetry_key w key i : telemetry_at w key = Some i -> keyOf (tel_Meta i) = key;
  child_key w k key o : child_at w k key = Some o -> keyOf (childMeta o) = key;
  ans_get w key i : telemetry_at w key = Some i -> ans _ (GetTelemetry key) w = (inl i, w);
  ans_helper w i : ans _ (NewHelper i) w = (None, w);
  (** The patch of a stored object that is not being deleted. *)
  ans_patch w i : telemetry_at w (keyOf (tel_Meta i)) <> None -> notDeleting (tel_Meta i) = true ->
    exists w', ans _ (PatchInstance i) w = (None, w') /\
      telemetry_at w' (keyOf (tel_Meta i)) = Some i /\
      (forall key, key <> keyOf (tel_Meta i) -> telemetry_at w' key = telemetry_at w key) /\
      (forall k key, child_at w' k key = child_at w k key);
  ans_getobj w k key : exists e, err_notFound e = true /\
    ans _ (GetObj k key) w =
      (match child_at w k key with Some o => inl (childMeta o) | None => inr e end, w);
  ans_delete w k o : child_at w k (keyOf (childMeta o)) = Some o ->
    exists w', ans _ (DeleteObj k (childMeta o)) w = (None, w') /\
      gone (child_at w' k (keyOf (childMeta o))) /\ frame k (keyOf (childMeta o)) w w' /\
      (** an object that waits for its finalizers keeps its owners *)
      (forall o' owner, child_at w' k (keyOf (childMeta o)) = Some o' ->
         foreign owner (childMeta o') = foreign owner (childMeta o));
  ans_fetch w k key : ans _ (Fetch k key) w = (inl (child_at w k key), w);
  ans_own w owner k m : foreign owner m = false ->
    ans _ (SetControllerReference owner k m) w = (inl (ownedBy owner k m), w);
  (** Created or patched: the stored object is the admitted one. *)
  ans_commit w k o : exists op w', ans _ (Commit k o) w = (inl (throughWebhook admission k o, op), w') /\
    child_at w' k (keyOf (childMeta o)) = Some (throughWebhook admission k o) /\
    frame k (keyOf (childMeta o)) w w';
  (** Controller references. *)
  ownedBy_key owner k m : keyOf (ownedBy owner k m) = keyOf m;
  ownedBy_deleting owner k m : notDeleting (ownedBy owner k m) = notDeleting m;
  ownedBy_again owner k m : ownedBy owner k (ownedBy owner k m) = ownedBy owner k m;
  ownedBy_own owner k m : foreign owner m = false -> foreign owner (ownedBy owner k m) = false;
  newMeta_own owner name ns : foreign owner (newMeta name ns) = false;
  foreign_finalizers owner fs m : foreign (withFinalizers fs owner) m = foreign owner m;
  owned_finalizers owner fs m : foreign owner (withFinalizers fs m) = foreign owner m;
  ownedBy_finalizers owner k fs m : ownedBy owner k (withFinalizers fs m) = withFinalizers fs (ownedBy owner k m);
  (** The controller of a child can store it. *)
  child_stores w k o : child_at w k (keyOf (childMeta o)) <> None -> exists w',
    child_at w' k (keyOf (childMeta o)) = Some o /\ frame k (keyOf (childMeta o)) w w'
}.

(** ** The abstract specification *)
Section Spec.
Context `{A : ApiServer W} `{L : ConditionLib}.

Definition childKey (i : Telemetry) (k : Child) : NamespacedName :=
  keyOf (newMeta (childName k) (meta_Namespace (tel_Meta i))).

(** The stored object of a child. *)
Definition stored (w : W) (i : Telemetry) (k : Child) : option (childObj k) := child_at w k (childKey i k).

(** What an enabled child is to become, given what is stored. *)
Definition target (i : Telemetry) (k : Child) (o : option (childObj k)) : childObj k :=
  let o' := default (newChild k (newMeta (childName k) (meta_Namespace (tel_Meta i)))) o in
  throughWebhook admission k (putSpec (tel_Spec i) k (ownedBy (tel_Meta i) k (childMeta o')) o').

(** One step of the specification: from the children [cs] to [cs']. *)
Definition syncs (i : Telemetry) (cs cs' : forall k, option (childObj k)) : Prop :=
  forall k, if enabled (tel_Spec i) k then cs' k = Some (target i k (cs k))
            else removed (cs k) (cs' k).

(** Settled children: a further step would not change them. *)
Definition settled (i : Telemetry) (cs : forall k, option (childObj k)) : Prop :=
  forall k, if enabled (tel_Spec i) k then exists o, cs k = Some o /\ target i k (Some o) = o
            else gone (cs k).

(** Readiness of the whole: of every enabled child. *)
Definition isReadyAt {k} (o : option (childObj k)) : bool :=
  match o with Some o => isReady o | None => false end.
Definition readyOf (i : Telemetry) (cs : forall k, option (childObj k)) : bool :=
  forallb (fun k => negb (enabled (tel_Spec i) k) || isReadyAt (cs k)) passOrder.

(** No enabled child belongs to somebody else. *)
Definition controllable (i : Telemetry) (w : W) : Prop :=
  forall k o, enabled (tel_Spec i) k = true -> stored w i k = Some o ->
    foreign (tel_Meta i) (childMeta o) = false.

(** The status a Telemetry is to show. *)
Definition shows (i : Telemetry) (cs : forall k, option (childObj k)) : Prop :=
  (forall k, statusOf (conds i) (condOf k) =
     if enabled (tel_Spec i) k
     then Some (if isReadyAt (cs k) then ConditionTrue else ConditionFalse)
     else None) /\
  ((exists k, enabled (tel_Spec i) k = true) -> Telemetry_IsReady i = readyOf i cs).

(** Conditions of its own, one entry each. *)
Definition ownConds (cs : Conditions) : Prop :=
  uniqueTypes cs /\
  forall t c, getCond cs t = Some c -> t = ReadyCondition \/ exists k, t = condOf k.
End Spec.

(** ** The specification settles in one step *)
Section Settle.
Context `{A : ApiServer W}.

Lemma copyMetricStorageSpec_idem from to :
  copyMetricStorageSpec from (copyMetricStorageSpec from to) = copyMetricStorageSpec from to.
Proof. by destruct from as [[] []], to. Qed.

(** What the webhook fills in is not undone by the next copy. *)
Lemma copy_default_idem from to :
  let s := MetricStorageSpec_Default (copyMetricStorageSpec from to) in
  MetricStorageSpec_Default (copyMetricStorageSpec from s) = s.
Proof.
  intros s. assert (mets_CustomMonitoringStack (copyMetricStorageSpec from s) = mets_CustomMonitoringStack s) as Hc.
  { unfold s. by destruct from as [[m|] [c|]], to as [[m'|] [c'|]]. }
  destruct (mets_MonitoringStack from) as [m|] eqn:Hm.
  - replace (copyMetricStorageSpec from s) with (copyMetricStorageSpec from to); [done|].
    unfold copyMetricStorageSpec. rewrite Hm. f_equal. unfold s. by destruct from as [? [c|]].
  - replace (copyMetricStorageSpec from s) with s; [apply MetricStorageSpec_Default_idem|].
    clearbody s. destruct s as [sm sc], from as [fm fc]. simpl in *. subst fm.
    unfold copyMetricStorageSpec. simpl. by rewrite Hc.
Qed.

Lemma throughWebhook_meta g k (o : childObj k) : childMeta (throughWebhook g k o) = childMeta o.
Proof. by destruct g, k. Qed.

Lemma target_meta i k o :
  childMeta (target i k o) = ownedBy (tel_Meta i) k
    (childMeta (default (newChild k (newMeta (childName k) (meta_Namespace (tel_Meta i)))) o)).
Proof. unfold target. rewrite throughWebhook_meta. by destruct k. Qed.

Lemma target_idem `{AL : !ApiLaws} i k o : target i k (Some (target i k o)) = target i k o.
Proof.
  unfold target at 1. simpl. rewrite target_meta, ownedBy_again. unfold target.
  destruct k; simpl; destruct (admission); simpl; try done.
  - unfold MetricStorage_Default. simpl. by rewrite copy_default_idem.
  - by rewrite copyMetricStorageSpec_idem.
Qed.

(** The specification depends on the metadata and the spec of the Telemetry. *)
Lemma target_same i i' k o :
  tel_Meta i' = tel_Meta i -> tel_Spec i' = tel_Spec i -> target i' k o = target i k o.
Proof. intros Hm Hs. unfold target. by rewrite Hm, Hs. Qed.
Lemma stored_same i i' (w : W) k : tel_Meta i' = tel_Meta i -> stored w i' k = stored w i k.
Proof. intros Hm. unfold stored, childKey. by rewrite Hm. Qed.

Lemma syncs_settled `{AL : !ApiLaws} i cs cs' : syncs i cs cs' -> settled i cs'.
Proof.
  intros Hs k. specialize (Hs k). destruct (enabled _ _); [|apply Hs].
  eexists. split; [exact Hs|]. apply target_idem.
Qed.
End Settle.

(** ** The webhooks of the Telemetry and of its children *)

(** The images of the two sections that have images. *)
Definition sectionImages (s : TelemetrySpec) : list string :=
  ceilometerImages (csec_CeilometerSpec (tels_Ceilometer s)) ++
  aodhImages (ascs_Aodh (asec_AutoscalingSpec (tels_Autoscaling s))).

(** The Telemetry webhook changes nothing but empty images. *)
Lemma TelemetrySpec_Default_kept d s :
  Forall (fun i => i <> "") (sectionImages s) -> TelemetrySpec_Default d s = s.
Proof.
  intros [Hc Ha]%Forall_app. destruct s as [[ea [h p a hi]] [ec c] m]. simpl in *.
  repeat (apply Forall_cons in Hc as [? Hc]). repeat (apply Forall_cons in Ha as [? Ha]).
  destruct c, a. simpl in *. unfold TelemetrySpec_Default. simpl. by rewrite !fill_kept.
Qed.

Lemma TelemetrySpec_Default_images d s :
  Forall2 (fun given got => given <> "" -> got = given) (sectionImages s)
    (sectionImages (TelemetrySpec_Default d s)).
Proof. repeat constructor; apply fill_kept. Qed.

(** C19. No reconcile fight: with the defaults [main] installs, and an
    environment that sets no image to the empty text, the webhook of the
    Telemetry fills every empty image of the Ceilometer and the Autoscaling
    section, keeps the given ones and changes nothing else, and the webhooks
    of Ceilometer and Autoscaling leave these sections as they are.  The
    section for MetricStorage it leaves alone; the child's webhook completes
    what is copied from it, and copying the section again and defaulting again
    leaves the child as it is.  So for each of the three children what the
    Telemetry controller writes and what the webhook stores agree from the
    second write on. *)
Theorem telemetry_default_agrees `{C : CommonLib} g s to :
  (forall k d, d <> "" -> GetEnvVar k d <> "") -> g = setupDefaults ->
  let s' := TelemetrySpec_Default (telemetryDefaults g) s in
  let c := csec_CeilometerSpec (tels_Ceilometer s') in
  let a := asec_AutoscalingSpec (tels_Autoscaling s') in
  let m := msec_MetricStorageSpec (tels_MetricStorage s') in
  TelemetrySpec_Default (telemetryDefaults g) s' = s' /\
  Forall (fun i => i <> "") (sectionImages s') /\
  Forall2 (fun given got => given <> "" -> got = given) (sectionImages s) (sectionImages s') /\
  (Forall (fun i => i <> "") (sectionImages s) -> s' = s) /\
  CeilometerSpec_Default (ceilometerDefaults g) c = c /\
  AutoscalingSpec_Default (autoscalingDefaults g) a = a /\
  tels_MetricStorage s' = tels_MetricStorage s /\
  (let child := MetricStorageSpec_Default (copyMetricStorageSpec m to) in
   MetricStorageSpec_Default (copyMetricStorageSpec m child) = child).
Proof.
  intros Henv -> s' c a m.
  assert (Forall (fun i => i <> "") (sectionImages s')) as Himg
    by (repeat constructor; apply fill_nonempty, Henv; done).
  pose proof (proj1 (proj1 (Forall_app _ _ _) Himg)) as Hc.
  pose proof (proj2 (proj1 (Forall_app _ _ _) Himg)) as Ha.
  split_and!; [by apply TelemetrySpec_Default_kept|done|apply TelemetrySpec_Default_images
    |apply TelemetrySpec_Default_kept|by apply CeilometerSpec_Default_kept
    |by apply AutoscalingSpec_Default_kept|done|apply copy_default_idem].
Qed.

(** A Telemetry with one image given, and nothing in its MetricStorage section. *)
Lemma telemetry_default_agrees_witness :
  let s := MkTelemetrySpec (MkAutoscalingSection true (MkAutoscalingSpec "" 0 (MkAodh "" "" ""
             (MkPasswords "" "" "") "" "" "" ∅ [] (MkAPIOverride None) false "" "api" "" "" "") ""))
           (MkCeilometerSection true (MkCeilometerSpec "" (MkPasswords "" "" "") "" "" "" ∅ [] "" "" "" "" "" ""))
           (MkMetricStorageSection true (MkMetricStorageSpec None None)) in
  let s' := TelemetrySpec_Default (telemetryDefaults setupDefaults) s in
  CeilometerSpec_Default (ceilometerDefaults setupDefaults) (csec_CeilometerSpec (tels_Ceilometer s')) =
    csec_CeilometerSpec (tels_Ceilometer s') /\
  aodh_APIImage (ascs_Aodh (asec_AutoscalingSpec (tels_Autoscaling s'))) = "api".
Proof.
  intros s s'. split; [|reflexivity].
  destruct (telemetry_default_agrees setupDefaults s (MkMetricStorageSpec None None))
    as (_ & _ & _ & _ & Hc & _).
  - intros k d Hd. exact Hd.
  - reflexivity.
  - exact Hc.
Defined.

(** ** A pass in the world *)
Section Passes.
Context `{A : ApiServer W} `{AL : !ApiLaws}.
Context `{L : ConditionLib} `{LL : !ConditionLaws L}.

(** A disabled child is gone afterwards. *)
Lemma ensureDeleted_exec k m (i : Telemetry) w :
  execM ans (ensureDeleted k m) i w (fun tr i' o w' => i' = i /\ o = Val (emptyResult, None) /\
    removed (child_at w k (keyOf m)) (child_at w' k (keyOf m)) /\ omap readyAnswer tr = [] /\
    frame k (keyOf m) w w').
Proof.
  unfold ensureDeleted. exec_step. destruct (ans_getobj w k (keyOf m)) as (e & He & Hget).
  eapply execM_call; [exact Hget|]. destruct (child_at w k (keyOf m)) as [o|] eqn:Ho; cbv beta iota.
  2:{ rewrite He. exec_step. rewrite Ho. by split_and!. }
  pose proof (child_key _ _ _ _ Ho) as Hk. destruct (notDeleting (childMeta o)) eqn:Hd.
  2:{ exec_step. rewrite Ho. by split_and!. }
  exec_step. rewrite <-Hk in Ho. destruct (ans_delete w k o Ho) as (w' & Hdel & Hgone & Hfr & _).
  rewrite Hk in Hgone, Hfr. eapply execM_call; [exact Hdel|]. cbv beta iota. exec_step.
  split_and!; [done|done|split; [done|]|done|done]. simpl. by rewrite Hd.
Qed.

(** [CreateOrPatch] with a mutate function that amounts to [write]. *)
Lemma createOrPatch_exec k (new : childObj k) mutate write (i : Telemetry) w :
  let key := keyOf (childMeta new) in
  let o := default new (child_at w k key) in
  execM ans (mutate o) i w (fun tr i' r w' => i' = i /\ w' = w /\ r = Val (inl (write o)) /\
    omap readyAnswer tr = []) ->
  keyOf (childMeta (write o)) = key ->
  execM ans (createOrPatch k new mutate) i w (fun tr i' r w' => i' = i /\
    let o' := throughWebhook admission k (write o) in
    (exists op, r = Val (inl (o', op))) /\ child_at w' k key = Some o' /\
    omap readyAnswer tr = [(k, isReady o')] /\ frame k key w w').
Proof.
  intros key o Hmut Hkey. unfold createOrPatch. exec_step.
  eapply execM_call; [apply ans_fetch|]. cbv beta iota. exec_step. fold key. fold o.
  eapply execM_mono; [|exact Hmut]. intros tr i' r w' (-> & -> & -> & Htr). cbv beta iota.
  destruct (ans_commit w k (write o)) as (op & w' & Hc & Hst & Hfr). rewrite Hkey in Hst, Hfr.
  eapply execM_call; [exact Hc|]. split_and!; [done|by eexists|done| |done].
  simpl. by rewrite omap_app, Htr.
Qed.

(** The handler of a child. *)
Definition reconcileChild (k : Child) (before : Telemetry) : TM RE :=
  match k with
  | CeilometerChild => reconcileCeilometer before
  | AutoscalingChild => reconcileAutoscaling before
  | MetricStorageChild => reconcileMetricStorage before
  end.

(** What a handler does to the stored objects. *)
Definition childDone (i : Telemetry) (k : Child) (w w' : W) : Prop :=
  if enabled (tel_Spec i) k then stored w' i k = Some (target i k (stored w i k))
  else removed (stored w i k) (stored w' i k).

Lemma default_own i k w :
  controllable i w -> enabled (tel_Spec i) k = true ->
  let m := newMeta (childName k) (meta_Namespace (tel_Meta i)) in
  let o := default (newChild k m) (stored w i k) in
  foreign (tel_Meta i) (childMeta o) = false /\ keyOf (childMeta o) = childKey i k.
Proof.
  intros Hc He m o. unfold o. destruct (stored w i k) as [o'|] eqn:Ho; simpl.
  - split; [by eapply Hc|by eapply child_key].
  - assert (childMeta (newChild k m) = m) as -> by (by destruct k).
    split; [apply newMeta_own|done].
Qed.

(** An enabled child is written. *)
Ltac exec_enabled k i Hm Hf Hkey :=
  exec_step; eapply execM_mono;
  [|apply (createOrPatch_exec k _ _ (fun o => putSpec (tel_Spec i) k (ownedBy (tel_Meta i) k (childMeta o)) o))];
  [ intros tr i' r w' (-> & (op & ->) & Hst & Htr & Hfr); cbv beta iota; exec_step;
    match goal with |- context [if ?b then _ else _] => destruct b end;
    unfold markTrue, setFalse, modifyConds; exec_step; exec_step;
    (split; [done|]); rewrite app_nil_l, !app_nil_r, Htr;
    (split; [exact Hst|]); (split; [|exact Hfr]);
    intros k' b [= -> ->]%list_elem_of_singleton; (split; [done|]); unfold stored;
    by rewrite (Hst : child_at w' k (childKey i k) = Some _)
  | cbv beta zeta; exec_step; rewrite Hm; eapply execM_call; [by apply ans_own|];
    cbv beta iota; by exec_step
  | etrans; [apply ownedBy_key|exact Hkey] ].

(** A disabled child is deleted. *)
Ltac exec_disabled :=
  exec_step; eapply execM_mono; [|apply ensureDeleted_exec];
  intros tr i' r w' (-> & -> & Hg & Htr & Hfr); cbv beta iota; exec_step;
  unfold modifyConds; exec_step; exec_step;
  (split; [done|]); rewrite app_nil_l, !app_nil_r, Htr;
  (split; [exact Hg|]); (split; [by intros ? ? ?%not_elem_of_nil|exact Hfr]).

Lemma child_exec k before i w :
  tel_Meta before = tel_Meta i -> controllable i w ->
  execM ans (reconcileChild k before) i w (fun tr i' o w' => o = Val (emptyResult, None) /\
    childDone i k w w' /\
    (forall k' b, (k', b) ∈ omap readyAnswer tr -> k' = k /\ b = isReadyAt (stored w' i k)) /\
    frame k (childKey i k) w w').
Proof.
  intros Hm Hc. unfold childDone. destruct (enabled (tel_Spec i) k) eqn:Hen.
  - destruct (default_own i k w Hc Hen) as [Hf Hkey].
    destruct k; simpl in Hen; simpl reconcileChild;
      unfold reconcileCeilometer, reconcileAutoscaling, reconcileMetricStorage, mutateCeilometer,
        mutateAutoscaling, mutateMetricStorage;
      exec_step; exec_step; cbv zeta; rewrite Hen; simpl negb; cbv iota.
    + exec_enabled CeilometerChild i Hm Hf Hkey.
    + exec_enabled AutoscalingChild i Hm Hf Hkey.
    + exec_enabled MetricStorageChild i Hm Hf Hkey.
  - destruct k; simpl in Hen; simpl reconcileChild;
      unfold reconcileCeilometer, reconcileAutoscaling, reconcileMetricStorage;
      exec_step; exec_step; cbv zeta; rewrite Hen; simpl negb; cbv iota; exec_disabled.
Qed.

Lemma reconcileChild_step k before i :
  wpM anyAnswer (reconcileChild k before) i (fun tr i' o => childStep k tr i i' o).
Proof.
  destruct k; [apply reconcileCeilometer_step|apply reconcileAutoscaling_step|apply reconcileMetricStorage_step].
Qed.

(** [reconcileNormal], as a loop over the children. *)
Fixpoint normalOver (before : Telemetry) (ks : list Child) : TM RE :=
  match ks with
  | [] => ret (emptyResult, None)
  | k :: ks => let* re := reconcileChild k before in stopOn re (normalOver before ks)
  end.
Lemma reconcileNormal_over before : reconcileNormal before = normalOver before passOrder.
Proof. reflexivity. Qed.

Lemma controllable_after i k w w' :
  childDone i k w w' -> frame k (childKey i k) w w' -> controllable i w -> controllable i w'.
Proof.
  intros Hd [Hfr _] Hc k' o He Ho. destruct (decide (k' = k)) as [->|Hne].
  - unfold childDone in Hd. rewrite He in Hd. rewrite Hd in Ho. injection Ho as <-.
    rewrite target_meta. apply ownedBy_own. by apply default_own.
  - apply (Hc k' o He). unfold stored in *. rewrite <-Ho. symmetry. apply Hfr. congruence.
Qed.

Lemma controllable_same i i' w : tel_Meta i' = tel_Meta i -> tel_Spec i' = tel_Spec i ->
  controllable i w -> controllable i' w.
Proof.
  intros Hm Hs Hc k o. rewrite Hm, Hs, (stored_same _ _ _ _ Hm). apply Hc.
Qed.

Lemma childDone_same i i' k w w' : tel_Meta i' = tel_Meta i -> tel_Spec i' = tel_Spec i ->
  childDone i' k w w' -> childDone i k w w'.
Proof.
  intros Hm Hs. unfold childDone. rewrite Hs, !(stored_same _ _ _ _ Hm).
  by rewrite (target_same _ _ _ _ Hm Hs).
Qed.

(** All the children of [ks], in their order. *)
Definition passInWorld (ks : list Child) (i : Telemetry) (tr : list (event CallE)) (w w' : W) : Prop :=
  (forall k, k ∈ ks -> childDone i k w w') /\
  (forall k b, (k, b) ∈ omap readyAnswer tr -> k ∈ ks /\ b = isReadyAt (stored w' i k)) /\
  (forall k key, k ∉ ks \/ key <> childKey i k -> child_at w' k key = child_at w k key) /\
  (forall key, telemetry_at w' key = telemetry_at w key).

Lemma passInWorld_cons k ks i i1 tr tr' w w1 w' :
  k ∉ ks -> tel_Meta i1 = tel_Meta i -> tel_Spec i1 = tel_Spec i ->
  childDone i k w w1 -> (forall k' b, (k', b) ∈ omap readyAnswer tr -> k' = k /\ b = isReadyAt (stored w1 i k)) ->
  frame k (childKey i k) w w1 -> passInWorld ks i1 tr' w1 w' -> passInWorld (k :: ks) i (tr ++ tr') w w'.
Proof.
  intros Hk Hm Hs Hd Ha Hfr (Hds & Has & Hoth & Htel).
  assert (stored w' i k = stored w1 i k) as Hst by (apply Hoth; by left).
  split_and!.
  - intros k' [->|Hk']%elem_of_cons.
    + unfold childDone in *. by rewrite Hst.
    + pose proof (childDone_same _ _ _ _ _ Hm Hs (Hds k' Hk')) as Hd'. unfold childDone, stored in *.
      destruct Hfr as [Hfr _]. rewrite (Hfr k') in Hd' by (intros [= -> _]; done). done.
  - intros k' b. rewrite omap_app. intros [Hin|Hin]%elem_of_app.
    + apply Ha in Hin as [-> ->]. rewrite Hst. split; [left|done].
    + apply Has in Hin as [? ->]. rewrite (stored_same _ _ _ _ Hm). split; [by right|done].
  - intros k' key Hne. rewrite Hoth.
    + apply (proj1 Hfr). intros [= -> ->]. destruct Hne as [[]|]; [left|done].
    + unfold childKey in *. rewrite Hm. set_solver.
  - intros key. by rewrite Htel, (proj2 Hfr).
Qed.

Lemma normalOver_exec before ks i w :
  NoDup ks -> tel_Meta before = tel_Meta i -> controllable i w ->
  execM ans (normalOver before ks) i w (fun tr i' o w' => o = Val (emptyResult, None) /\
    passInWorld ks i tr w w').
Proof.
  revert i w. induction ks as [|k ks IH]; intros i w Hnd Hm Hc; simpl.
  { exec_step. split; [done|]. split_and!; [set_solver|set_solver|done|done]. }
  apply NoDup_cons in Hnd as [Hk Hnd]. exec_step.
  eapply execM_mono; [|apply execM_wpM; [apply reconcileChild_step|by apply (child_exec k before i w)]].
  intros tr i1 o w1 [Hstep (-> & Hd & Ha & Hfr)]. cbv beta iota.
  destruct Hstep as (e & _ & _ & (Hm1 & Hs1 & _) & _). simpl.
  eapply execM_mono; [|apply (IH i1 w1 Hnd)].
  - intros tr' i2 o w2 [-> Hp]. split; [done|]. by eapply passInWorld_cons.
  - by rewrite Hm1.
  - eapply controllable_same; [done|done|]. by eapply controllable_after.
Qed.

(** ** The whole of Reconcile *)
Context `{F : FinalizerLib} `{FL : !FinalizerLaws F} `{C : CommonLib}.

Lemma addFinalizer_present_eq fin (i : Telemetry) : fin ∈ meta_Finalizers (tel_Meta i) ->
  addFinalizer fin i = (Ret (i, Val false) : prog CallE _).
Proof.
  intros Hf. unfold addFinalizer, mbindM. simpl.
  pose proof (AddFinalizer_flag (meta_Finalizers (tel_Meta i)) fin) as Hfl.
  pose proof (AddFinalizer_same _ _ Hf) as Hs.
  destruct (AddFinalizer _ _) as [fs ch]. simpl in *. subst fs.
  assert (ch = false) as -> by (destruct ch; [exfalso; by apply Hfl|done]).
  by destruct i as [[]].
Qed.

Lemma addFinalizer_absent_eq fin (i : Telemetry) : fin ∉ meta_Finalizers (tel_Meta i) ->
  exists fs, fin ∈ fs /\
    addFinalizer fin i = (Ret (MkTelemetry (withFinalizers fs (tel_Meta i)) (tel_Spec i) (tel_Status i), Val true)
                          : prog CallE _).
Proof.
  intros Hf. unfold addFinalizer, mbindM. simpl.
  pose proof (AddFinalizer_flag (meta_Finalizers (tel_Meta i)) fin) as Hfl.
  pose proof (AddFinalizer_elem (meta_Finalizers (tel_Meta i)) fin fin) as He.
  destruct (AddFinalizer _ _) as [fs ch]. simpl in *. apply Hfl in Hf as ->.
  exists fs. split; [by apply He; right|done].
Qed.

(** The three ways through the body for an object that is not being deleted. *)
Lemma telemetry_reconcileBody_live before i :
  live i -> reconcileBody before i = reconcileNormal before (ensureHash i).
Proof.
  intros (Hd & Hf & Hc). unfold conds in Hc.
  unfold reconcileBody, mbindM at 1. simpl. rewrite Hd. unfold mbindM at 1.
  rewrite addFinalizer_present_eq by done. simpl. unfold mbindM at 1. simpl.
  destruct (telt_Conditions (tel_Status i)) as [cs|]; [|done].
  unfold mbindM at 1. simpl. unfold reconcileInit, mbindM at 1. simpl. unfold mbindM at 1. simpl.
  by rewrite Hd.
Qed.

Lemma reconcileBody_finalizer before i :
  notDeleting (tel_Meta i) = true -> finalizer ∉ meta_Finalizers (tel_Meta i) ->
  exists fs, finalizer ∈ fs /\ reconcileBody before i =
    Ret (MkTelemetry (withFinalizers fs (tel_Meta i)) (tel_Spec i) (tel_Status i), Val (emptyResult, None)).
Proof.
  intros Hd Hf. destruct (addFinalizer_absent_eq _ _ Hf) as (fs & Hfs & Heq). exists fs. split; [done|].
  unfold reconcileBody, mbindM at 1. simpl. rewrite Hd. unfold mbindM at 1. rewrite Heq. done.
Qed.

Lemma reconcileBody_init before i :
  notDeleting (tel_Meta i) = true -> finalizer ∈ meta_Finalizers (tel_Meta i) -> conds i = None ->
  reconcileBody before i = Ret (crSetConds initialConditions i, Val (emptyResult, None)).
Proof.
  intros Hd Hf Hc. unfold conds in Hc. unfold reconcileBody, mbindM at 1. simpl. rewrite Hd.
  unfold mbindM at 1. rewrite addFinalizer_present_eq by done. simpl. unfold mbindM at 1. simpl.
  by rewrite Hc.
Qed.

(** The deferred patch stores the object with its Ready recomputed. *)
Definition patchedTo (key : NamespacedName) (i : Telemetry) (w w' : W) : Prop :=
  telemetry_at w' key = Some i /\ (forall k key', child_at w' k key' = child_at w k key').

Lemma Reconcile_exec key i w (Q : outcome RE -> W -> Prop) :
  telemetry_at w key = Some i ->
  execM ans (reconcileBody i) i w (fun tr i' o w1 =>
    keyOf (tel_Meta i') = key /\ telemetry_at w1 key <> None /\ notDeleting (tel_Meta i') = true /\
    o = Val (emptyResult, None) /\
    forall w', patchedTo key (finish i') w1 w' -> Q (Val (emptyResult, None)) w') ->
  let '(tr, o, w') := interp ans (Reconcile key) w in Q o w'.
Proof.
  intros Hi Hb. unfold Reconcile. simpl. rewrite (ans_get _ _ _ Hi). simpl. rewrite ans_helper. simpl.
  enough (let '(tr, o, w') := interp ans (runM (withDefer (reconcileBody i) (deferPatch PatchInstance true)) i) w
          in Q o w') as H by (by destruct (interp _ _ w) as [[]]).
  apply execM_runM, execM_defer. eapply execM_mono; [|exact Hb].
  intros tr i' o w1 (Hk & Ht & Hd & -> & HQ). unfold deferPatch, modifyConds.
  exec_step. exec_step. exec_step. exec_step. exec_step. fold (finish i').
  destruct (ans_patch w1 (finish i')) as (w' & Hp & Hst & _ & Hch); [by rewrite <-Hk in Ht|done|].
  eapply execM_call; [exact Hp|]. cbv beta iota. exec_step. apply HQ. split; [|done].
  by rewrite <-Hk.
Qed.

Lemma readyOf_ext i (cs cs' : forall k, option (childObj k)) :
  (forall k, cs' k = cs k) -> readyOf i cs = readyOf i cs'.
Proof. intros H. unfold readyOf, passOrder. simpl. by rewrite !H. Qed.

(** *** Conditions of its own, through a pass *)
Lemma ownConds_updateReady cs : ownConds cs -> ownConds (updateReady cs).
Proof.
  intros [Hu Ho]. split; [by apply updateReady_unique|]. intros t c Hc.
  destruct (decide (t = ReadyCondition)) as [|Ht]; [by left|].
  rewrite updateReady_other in Hc by done. by eapply Ho.
Qed.

Lemma ownConds_initial : ownConds initialConditions.
Proof.
  split.
  - eapply Init_CreateList_unique; [simpl; by rewrite !(proj1 (UnknownCondition_spec _ _ _))|].
    by apply (bool_decide_unpack _).
  - intros t c Hc. destruct (decide (t = ReadyCondition)) as [|Ht]; [by left|right].
    unfold initialConditions in Hc. rewrite Init_other, CreateList_spec in Hc by done.
    apply findCond_elem in Hc as [Hin <-].
    repeat (apply elem_of_cons in Hin as [->|Hin]; [rewrite (proj1 (UnknownCondition_spec _ _ _))|]);
      [by exists CeilometerChild|by exists AutoscalingChild|by exists MetricStorageChild|].
    by apply not_elem_of_nil in Hin.
Qed.

Lemma ownConds_pass ans i i1 :
  passDone passOrder ans i i1 -> (uniqueTypes (conds i) -> uniqueTypes (conds i1)) ->
  ownConds (conds i) -> ownConds (conds i1).
Proof.
  intros (_ & _ & _ & Hoth) Hu [Hui Ho]. split; [auto|]. intros t c Hc.
  destruct (decide (t ∈ condOf <$> passOrder)) as [(k & -> & _)%list_elem_of_fmap|Hno]; [right; by exists k|].
  rewrite Hoth in Hc; [by eapply Ho|]. intros k Hk ->. destruct Hno. by apply list_elem_of_fmap_2.
Qed.

(** *** What the answers of a pass say of the stored children *)
Lemma answers_ready i tr w w' i1 :
  passDone passOrder (omap readyAnswer tr) i i1 -> passInWorld passOrder i tr w w' ->
  forallb snd (omap readyAnswer tr) = readyOf i (stored w' i) /\
  (forall k, enabled (tel_Spec i) k = true -> (k, isReadyAt (stored w' i k)) ∈ omap readyAnswer tr).
Proof.
  intros (Hfst & _) (_ & Ha & _).
  assert (forall k, enabled (tel_Spec i) k = true ->
    (k, isReadyAt (stored w' i k)) ∈ omap readyAnswer tr) as Hin.
  { intros k Hk. assert (k ∈ (omap readyAnswer tr).*1) as ((k1 & b) & -> & Hb)%list_elem_of_fmap.
    - rewrite Hfst. apply list_elem_of_filter. split; [done|apply passOrder_all].
    - simpl. by destruct (Ha _ _ Hb) as [_ <-]. }
  split; [|done]. apply eq_true_iff_eq. unfold readyOf. rewrite !forallb_forall. split.
  - intros Hall k _. destruct (enabled (tel_Spec i) k) eqn:Hk; [|done]. simpl.
    apply (Hall (k, _)), list_elem_of_In, Hin, Hk.
  - intros Hall [k b] Hb%list_elem_of_In. destruct (Ha _ _ Hb) as [Hk ->].
    assert (k ∈ filter (fun k => enabled (tel_Spec i) k = true) passOrder) as [He _]%list_elem_of_filter
      by (rewrite <-Hfst; apply list_elem_of_fmap; eexists; split; [|exact Hb]; done).
    specialize (Hall k). rewrite He in Hall. apply Hall, list_elem_of_In, Hk.
Qed.

Lemma shows_pass i tr w w' i1 :
  passDone passOrder (omap readyAnswer tr) i i1 -> sameButConds i i1 ->
  passInWorld passOrder i tr w w' -> ownConds (conds i) -> uniqueTypes (conds i1) ->
  shows (finish i1) (stored w' i).
Proof.
  intros Hd (Hm & Hs & _) Hw [_ Ho] Hu. destruct (answers_ready _ _ _ _ _ Hd Hw) as [Hr Hin].
  assert (tel_Spec (finish i1) = tel_Spec i) as Hspec by exact Hs. split.
  - intros k. rewrite Hspec. unfold statusOf, conds, finish. simpl. rewrite updateReady_other by (by destruct k).
    destruct (enabled (tel_Spec i) k) eqn:Hk.
    + exact (proj1 (proj2 (proj2 Hd)) _ _ (Hin k Hk)).
    + change (cond_Status <$> getCond (conds i1) (condOf k) = None).
      by rewrite (proj1 (proj2 Hd) k (passOrder_all k) Hk).
  - rewrite Hspec. intros [k0 Hk0]. unfold readyOf. rewrite Hspec. fold (readyOf i (stored w' i)).
    rewrite <-Hr. by eapply passDone_ready.
Qed.

(** *** One pass over a live Telemetry *)
Definition afterPass (key : NamespacedName) (i : Telemetry) (w w' : W) : Prop :=
  exists i', telemetry_at w' key = Some i' /\ tel_Meta i' = tel_Meta i /\ tel_Spec i' = tel_Spec i /\
    live i' /\ ownConds (conds i') /\ syncs i (stored w i) (stored w' i) /\ shows i' (stored w' i) /\
    (forall k key', key' <> childKey i k -> child_at w' k key' = child_at w k key').

Lemma pass_live key i w :
  telemetry_at w key = Some i -> live i -> ownConds (conds i) -> controllable i w ->
  let '(tr, o, w') := interp ans (Reconcile key) w in
  o = Val (emptyResult, None) /\ afterPass key i w w'.
Proof.
  intros Hi Hl Ho Hc.
  apply (Reconcile_exec key i w (fun o w' => o = Val (emptyResult, None) /\ afterPass key i w w') Hi).
  eapply execM_eq; [by apply telemetry_reconcileBody_live|].
  eapply execM_mono; [|apply execM_wpM; [apply reconcileNormal_pass|rewrite reconcileNormal_over;
    apply (normalOver_exec i passOrder (ensureHash i) w); [by apply (bool_decide_unpack _)|done|done]]].
  intros tr i1 o w1 [(e & -> & Hs & Hu & _ & Hd) ([= ->] & Hw)].
  pose proof Hs as (Hm & Hsp & _). simpl in Hm, Hsp.
  pose proof (telemetry_key _ _ _ Hi) as Hkey. pose proof Hl as (Hdel & Hfin & _).
  pose proof Hw as (Hdone & _ & Hoth & Htel).
  split_and!; [by rewrite Hm|by rewrite Htel, Hi|by rewrite Hm|done|].
  intros w' [Hst Hch]. split; [done|].
  assert (forall k, stored w' i k = stored w1 i k) as Hsame by (intros k; apply Hch).
  exists (finish i1). split_and!; [done|done|done| |by eapply ownConds_updateReady, ownConds_pass| | |].
  - split_and!; [by simpl; rewrite Hm..|apply updateReady_nonnil].
  - intros k. rewrite Hsame. exact (Hdone k (passOrder_all k)).
  - destruct (shows_pass (ensureHash i) tr w w1 i1 Hd Hs Hw Ho (Hu (proj1 Ho))) as [H1 H2].
    split; [intros k; rewrite Hsame; apply H1|]. intros He. rewrite (H2 He). by apply readyOf_ext.
  - intros k key' Hne. rewrite Hch. apply Hoth. by right.
Qed.

(** *** The pass that prepares a Telemetry *)
Definition prepared (key : NamespacedName) (i : Telemetry) (w w' : W) : Prop :=
  exists i' fs, telemetry_at w' key = Some i' /\ tel_Meta i' = withFinalizers fs (tel_Meta i) /\
    tel_Spec i' = tel_Spec i /\ live i' /\ ownConds (conds i') /\
    (forall k key', child_at w' k key' = child_at w k key').

Lemma pass_young key i w :
  telemetry_at w key = Some i -> notDeleting (tel_Meta i) = true -> ownConds (conds i) -> ~ live i ->
  let '(tr, o, w') := interp ans (Reconcile key) w in
  o = Val (emptyResult, None) /\ prepared key i w w'.
Proof.
  intros Hi Hd Ho Hl. pose proof (telemetry_key _ _ _ Hi) as Hkey.
  apply (Reconcile_exec key i w (fun o w' => o = Val (emptyResult, None) /\ prepared key i w w') Hi).
  destruct (decide (finalizer ∈ meta_Finalizers (tel_Meta i))) as [Hf|Hf].
  - assert (conds i = None) as Hc.
    { destruct (conds i) eqn:Hc; [|done]. exfalso. apply Hl. by split_and!; [..|rewrite Hc]. }
    eapply (execM_eq _ _ (fun _ => Ret _) _ i); [by apply reconcileBody_init|].
    split_and!; [done|by rewrite Hi|done|done|]. intros w' [Hst Hch]. split; [done|].
    exists (finish (crSetConds initialConditions i)), (meta_Finalizers (tel_Meta i)).
    split_and!; [done|by destruct i as [[]]|done| |by apply ownConds_updateReady, ownConds_initial|done].
    split_and!; [done|done|apply updateReady_nonnil].
  - destruct (reconcileBody_finalizer i i Hd Hf) as (fs & Hfs & Heq).
    eapply (execM_eq _ _ (fun _ => Ret _) _ i); [exact Heq|].
    split_and!; [done|by rewrite Hi|done|done|]. intros w' [Hst Hch]. split; [done|].
    eexists _, fs. split_and!; [exact Hst|done|done| |by apply ownConds_updateReady|done].
    split_and!; [done|done|apply updateReady_nonnil].
Qed.

(** *** Theorems *)

(** C3. A pass refines the specification: with the Telemetry live and every
    call succeeding, it ends with an empty result and no error; each enabled
    child is stored as the specification's step says (its section of the spec,
    an owner reference, through the webhook of its kind, the status kept), each
    disabled child is gone or being deleted, the status of the Telemetry shows
    the stored children, and no other object has changed. *)
Theorem telemetry_pass_refines key i w :
  telemetry_at w key = Some i -> live i -> ownConds (conds i) -> controllable i w ->
  let '(tr, o, w') := interp ans (Reconcile key) w in
  o = Val (emptyResult, None) /\
  exists i', telemetry_at w' key = Some i' /\ tel_Meta i' = tel_Meta i /\ tel_Spec i' = tel_Spec i /\
    syncs i (stored w i) (stored w' i) /\ shows i' (stored w' i) /\
    (forall k key', key' <> childKey i k -> child_at w' k key' = child_at w k key').
Proof.
  intros Hi Hl Ho Hc. pose proof (pass_live key i w Hi Hl Ho Hc) as Hp.
  destruct (interp ans (Reconcile key) w) as [[tr o] w'].
  destruct Hp as (Ho' & i' & ? & ? & ? & _ & _ & Hrest). split; [done|]. by exists i'.
Qed.

(** A pass in either stage leaves a live object, with the same spec. *)
Lemma pass_any key i w :
  telemetry_at w key = Some i -> notDeleting (tel_Meta i) = true -> ownConds (conds i) -> controllable i w ->
  let '(tr, o, w') := interp ans (Reconcile key) w in
  o = Val (emptyResult, None) /\
  exists i', telemetry_at w' key = Some i' /\ tel_Spec i' = tel_Spec i /\ live i' /\ ownConds (conds i').
Proof.
  intros Hi Hd Ho Hc. assert (live i \/ ~ live i) as [Hl|Hl].
  { destruct (decide (finalizer ∈ meta_Finalizers (tel_Meta i))), (conds i) eqn:Hcs.
    - left. by split_and!; [..|rewrite Hcs].
    - right. by intros (_ & _ & ?).
    - right. by intros (_ & ? & _).
    - right. by intros (_ & ? & _). }
  - pose proof (pass_live key i w Hi Hl Ho Hc) as Hp.
    destruct (interp ans (Reconcile key) w) as [[tr o] w'].
    destruct Hp as (Ho' & i' & ? & ? & ? & ? & ? & _). split; [done|]. by exists i'.
  - pose proof (pass_young key i w Hi Hd Ho Hl) as Hp.
    destruct (interp ans (Reconcile key) w) as [[tr o] w'].
    destruct Hp as (Ho' & i' & fs & ? & ? & ? & ? & ? & _). split; [done|]. by exists i'.
Qed.

(** Writing a child keeps its status. *)
Lemma target_ready i k (o : childObj k) : isReady (target i k (Some o)) = isReady o.
Proof. unfold target. by destruct k, admission. Qed.

Lemma syncs_ready i cs cs' : syncs i cs cs' ->
  (forall k, enabled (tel_Spec i) k = true -> isReadyAt (cs k) = true) -> readyOf i cs' = true.
Proof.
  intros Hs Hr. unfold readyOf. apply forallb_forall. intros k _. specialize (Hs k). specialize (Hr k).
  destruct (enabled (tel_Spec i) k); [|done]. rewrite Hs. simpl.
  destruct (cs k) as [o|]; [|by specialize (Hr eq_refl)]. rewrite target_ready. by apply Hr.
Qed.

Lemma stored_eq i i' (w : W) : tel_Meta i' = tel_Meta i -> stored w i' = stored w i.
Proof. intros Hm. unfold stored, childKey. by rewrite Hm. Qed.

Lemma settled_same i i' cs : tel_Meta i' = tel_Meta i -> tel_Spec i' = tel_Spec i ->
  settled i cs -> settled i' cs.
Proof.
  intros Hm Hs H k. specialize (H k). rewrite Hs. destruct (enabled _ _); [|done].
  destruct H as (o & Ho & Ht). exists o. by rewrite (target_same i i').
Qed.

(** C4. Convergence: from any state of a Telemetry that is not being deleted
    (fresh, half initialised or live, with any children), two passes suffice,
    whatever happens in the world between them as long as the Telemetry stays
    as the first pass left it and its enabled children are not taken over.
    After the second pass the children are settled and the status shows them;
    in particular the Telemetry is Ready if its enabled children, one at
    least, were. *)
Theorem telemetry_converges key i w :
  telemetry_at w key = Some i -> notDeleting (tel_Meta i) = true -> ownConds (conds i) -> controllable i w ->
  let '(_, o1, w1) := interp ans (Reconcile key) w in
  o1 = Val (emptyResult, None) /\
  exists i1, telemetry_at w1 key = Some i1 /\ tel_Spec i1 = tel_Spec i /\
  forall w2, telemetry_at w2 key = Some i1 -> controllable i1 w2 ->
  let '(_, o3, w3) := interp ans (Reconcile key) w2 in
  o3 = Val (emptyResult, None) /\
  exists i3, telemetry_at w3 key = Some i3 /\ tel_Spec i3 = tel_Spec i /\ live i3 /\
    settled i3 (stored w3 i3) /\ shows i3 (stored w3 i3) /\
    ((exists k, enabled (tel_Spec i) k = true) ->
     (forall k, enabled (tel_Spec i) k = true -> isReadyAt (stored w2 i1 k) = true) ->
     Telemetry_IsReady i3 = true).
Proof.
  intros Hi Hd Ho Hc. pose proof (pass_any key i w Hi Hd Ho Hc) as H1.
  destruct (interp ans (Reconcile key) w) as [[tr1 o1] w1]. destruct H1 as (-> & i1 & Hi1 & Hs1 & Hl1 & Ho1).
  split; [done|]. exists i1. split_and!; [done|done|]. intros w2 Hi2 Hc2.
  pose proof (pass_live key i1 w2 Hi2 Hl1 Ho1 Hc2) as H2.
  destruct (interp ans (Reconcile key) w2) as [[tr2 o3] w3].
  destruct H2 as (-> & i3 & Hi3 & Hm3 & Hs3 & Hl3 & Ho3 & Hsync & Hshow & _).
  split; [done|]. exists i3. rewrite (stored_eq _ _ _ Hm3), <-Hs1.
  split_and!; [done|done|done| |done|].
  - eapply settled_same; [done|done|]. by eapply syncs_settled.
  - intros He Hr. rewrite (proj2 Hshow) by (by rewrite Hs3). unfold readyOf. rewrite Hs3.
    by eapply syncs_ready.
Qed.

(** [n] passes in a row. *)
Fixpoint passes (n : nat) (key : NamespacedName) (w : W) : list (outcome RE) * W :=
  match n with
  | O => ([], w)
  | S n =>
      let '(_, o, w1) := interp ans (Reconcile key) w in
      let '(os, w2) := passes n key w1 in (o :: os, w2)
  end.

(** A pass over settled children changes none of them. *)
Lemma pass_settled key i w :
  telemetry_at w key = Some i -> live i -> ownConds (conds i) -> controllable i w ->
  settled i (stored w i) ->
  let '(_, o, w') := interp ans (Reconcile key) w in
  o = Val (emptyResult, None) /\ (forall k key', child_at w' k key' = child_at w k key') /\
  exists i', telemetry_at w' key = Some i' /\ tel_Meta i' = tel_Meta i /\ tel_Spec i' = tel_Spec i /\
    live i' /\ ownConds (conds i') /\ shows i' (stored w i).
Proof.
  intros Hi Hl Ho Hc Hset. pose proof (pass_live key i w Hi Hl Ho Hc) as Hp.
  destruct (interp ans (Reconcile key) w) as [[tr o] w'].
  destruct Hp as (-> & i' & Hi' & Hm & Hs & Hl' & Ho' & Hsync & Hshow & Hoth).
  assert (forall k, stored w' i k = stored w i k) as Hsame.
  { intros k. specialize (Hsync k). specialize (Hset k). destruct (enabled (tel_Spec i) k).
    - destruct Hset as (o & Hst & Ht). by rewrite Hsync, Hst, Ht.
    - by apply Hsync. }
  split; [done|]. split.
  - intros k key'. destruct (decide (key' = childKey i k)) as [->|Hne]; [apply Hsame|by apply Hoth].
  - exists i'. split_and!; try done. destruct Hshow as [H1 H2].
    split; [intros k; rewrite <-Hsame; apply H1|]. intros He. rewrite (H2 He). by apply readyOf_ext.
Qed.

(** C10. Quiescence: once the children are settled, any number of further
    passes asks for no requeue, reports no error, changes no stored child and
    leaves the status showing them: passes do not trigger each other. *)
Theorem telemetry_quiesces n key i w :
  telemetry_at w key = Some i -> live i -> ownConds (conds i) -> controllable i w ->
  settled i (stored w i) -> shows i (stored w i) ->
  let '(os, w') := passes n key w in
  Forall (fun o => o = Val (emptyResult, None)) os /\ length os = n /\
  (forall k key', child_at w' k key' = child_at w k key') /\
  exists i', telemetry_at w' key = Some i' /\ tel_Meta i' = tel_Meta i /\ tel_Spec i' = tel_Spec i /\
    settled i' (stored w' i') /\ shows i' (stored w' i').
Proof.
  revert i w. induction n as [|n IH]; intros i w Hi Hl Ho Hc Hset Hshow; cbn [passes].
  { split_and!; [done|done|done|]. by exists i. }
  pose proof (pass_settled key i w Hi Hl Ho Hc Hset) as Hp.
  destruct (interp ans (Reconcile key) w) as [[tr o] w1].
  destruct Hp as (-> & Hch & i1 & Hi1 & Hm1 & Hs1 & Hl1 & Ho1 & Hshow1).
  assert (forall k, stored w1 i1 k = stored w i k) as Hst.
  { intros k. rewrite (stored_same _ _ _ _ Hm1). apply Hch. }
  specialize (IH i1 w1 Hi1 Hl1 Ho1). destruct (passes n key w1) as [os w2].
  destruct IH as (Hos & Hlen & Hch2 & i2 & Hi2 & Hm2 & Hs2 & Hset2 & Hshow2).
  - intros k o' He. rewrite Hst, Hm1. apply Hc. by rewrite <-Hs1.
  - apply (settled_same i); [done|done|]. intros k. rewrite Hst. apply Hset.
  - destruct Hshow1 as [H1 H2]. split; [intros k; rewrite Hst; apply H1|].
    intros He. rewrite (H2 He). by apply readyOf_ext.
  - split; [by constructor|]. split; [simpl; by rewrite Hlen|].
    split; [intros k key'; by rewrite Hch2, Hch|].
    exists i2. split; [done|]. split; [by rewrite Hm2|]. split; [by rewrite Hs2|]. by split.
Qed.
End Passes.
End TelemetrySystem.
