(* ===== verification/TelemetryStore.v ===== *)
(** * A store for the Telemetry system

    A concrete API server that keeps the laws of [ApiLaws], on which the
    theorems of TelemetrySystem.v are applied. *)

From stdpp Require Import gmap strings list.
From Stdlib Require Import ZArith Lia.
From S2P Require Import Prelude Condition Api Libs Reference Webhooks Operator Telemetry TelemetryScenarios TelemetrySystem.

Module TelemetryStore.
Import Webhooks Telemetry TelemetrySystem TelemetryScenarios.

Definition table (A : Type) := NamespacedName -> option A.
Definition put {A} (key : NamespacedName) (v : option A) (t : table A) : table A :=
  fun key' => if decide (key' = key) then v else t key'.

Record Store := MkStore {
  s_telemetries : table Telemetry;
  s_ceilometers : table Ceilometer;
  s_autoscalings : table Autoscaling;
  s_metricstorages : table MetricStorage
}.

(** An object is found under its own name only. *)
Definition find {A} (meta : A -> ObjectMeta) (t : table A) (key : NamespacedName) : option A :=
  match t key with
  | Some a => if decide (keyOf (meta a) = key) then Some a else None
  | None => None
  end.

Definition telemetryAt (w : Store) (key : NamespacedName) : option Telemetry :=
  find tel_Meta (s_telemetries w) key.

Definition childTable (w : Store) (k : Child) : table (childObj k) :=
  match k with
  | CeilometerChild => s_ceilometers w
  | AutoscalingChild => s_autoscalings w
  | MetricStorageChild => s_metricstorages w
  end.
Definition childAt (w : Store) (k : Child) (key : NamespacedName) : option (childObj k) :=
  find childMeta (childTable w k) key.

Definition putChild (w : Store) (k : Child) (key : NamespacedName) : option (childObj k) -> Store :=
  match k with
  | CeilometerChild => fun v => MkStore (s_telemetries w) (put key v (s_ceilometers w)) (s_autoscalings w) (s_metricstorages w)
  | AutoscalingChild => fun v => MkStore (s_telemetries w) (s_ceilometers w) (put key v (s_autoscalings w)) (s_metricstorages w)
  | MetricStorageChild => fun v => MkStore (s_telemetries w) (s_ceilometers w) (s_autoscalings w) (put key v (s_metricstorages w))
  end.
Definition putTelemetry (w : Store) (key : NamespacedName) (i : Telemetry) : Store :=
  MkStore (put key (Some i) (s_telemetries w)) (s_ceilometers w) (s_autoscalings w) (s_metricstorages w).

(** In this store every owner reference is a controller's. *)
Definition refTo (owner : ObjectMeta) : OwnerReference := MkOwnerRef "Telemetry" (meta_Name owner).
#[global] Instance OwnerReference_eq_dec : EqDecision OwnerReference.
Proof. solve_decision. Defined.
Definition ownerOf (owner : ObjectMeta) (k : Child) (m : ObjectMeta) : ObjectMeta :=
  if decide (refTo owner ∈ meta_OwnerReferences m) then m
  else MkMeta (meta_Name m) (meta_Namespace m) (meta_Labels m) (meta_Annotations m) (meta_Finalizers m)
         (meta_DeletionTimestamp m) (meta_OwnerReferences m ++ [refTo owner]).
Definition foreignTo (owner m : ObjectMeta) : bool :=
  existsb (fun r => negb (bool_decide (r = refTo owner))) (meta_OwnerReferences m).

Definition notFound : GoError := MkError true "not found".

Definition answer (X : Type) (e : CallE X) (w : Store) : X * Store :=
  match e in CallE X return X * Store with
  | GetTelemetry key => (match telemetryAt w key with Some i => inl i | None => inr notFound end, w)
  | NewHelper _ => (None, w)
  | PatchInstance i =>
      if notDeleting (tel_Meta i) then (None, putTelemetry w (keyOf (tel_Meta i)) i)
      else (Some (Errorf "terminating"), w)
  | GetObj k key => (match childAt w k key with Some o => inl (childMeta o) | None => inr notFound end, w)
  | DeleteObj k m => (None, putChild w k (keyOf m) None)
  | Fetch k key => (inl (childAt w k key), w)
  | SetControllerReference owner k m =>
      (if foreignTo owner m then inr (Errorf "already owned") else inl (ownerOf owner k m), w)
  | Commit k o =>
      let o' := throughWebhook (Some setupDefaults) k o in
      (inl (o', OperationResultUpdated), putChild w k (keyOf (childMeta o)) (Some o'))
  end.

#[global] Instance StoreServer : ApiServer Store := {|
  ans := answer;
  telemetry_at := telemetryAt;
  child_at := childAt;
  ownedBy := ownerOf;
  foreign := foreignTo;
  admission := Some setupDefaults
|}.

Lemma find_key {A} (meta : A -> ObjectMeta) t key a : find meta t key = Some a -> keyOf (meta a) = key.
Proof. unfold find. destruct (t key); [|done]. case_decide; [|done]. by intros [= <-]. Qed.

Lemma find_put {A} (meta : A -> ObjectMeta) t key v key' :
  find meta (put key v t) key' =
  if decide (key' = key)
  then match v with Some a => if decide (keyOf (meta a) = key) then Some a else None | None => None end
  else find meta t key'.
Proof. unfold find, put. destruct (decide (key' = key)) as [->|]; [|done]. by destruct v. Qed.

Lemma putChild_at w k key v : childAt (putChild w k key v) k key =
  match v with Some o => if decide (keyOf (childMeta o) = key) then Some o else None | None => None end.
Proof. destruct k; unfold childAt; simpl; rewrite find_put; by rewrite decide_True. Qed.

Lemma putChild_frame w k key v : frame k key w (putChild w k key v).
Proof.
  split; [|by destruct k]. intros k' key' Hne. simpl. unfold childAt.
  destruct k, k'; simpl; try done; rewrite find_put, decide_False; congruence.
Qed.

Lemma foreignTo_own owner k m : foreignTo owner m = false -> foreignTo owner (ownerOf owner k m) = false.
Proof.
  unfold foreignTo, ownerOf. case_decide; [done|]. simpl. rewrite existsb_app. intros ->. simpl.
  by rewrite bool_decide_true.
Qed.

#[global] Instance StoreLaws : ApiLaws (A := StoreServer).
Proof.
  split; simpl.
  - intros w key i. apply find_key.
  - intros w k key o. apply find_key.
  - by intros w key i ->.
  - done.
  - intros w i _ Hd. rewrite Hd. eexists. split; [done|]. unfold telemetryAt. simpl.
    split_and!; [rewrite find_put; by rewrite !decide_True| |done].
    intros key Hne. rewrite find_put. by rewrite decide_False.
  - intros w k key. by exists notFound.
  - intros w k o Ho. eexists. split; [done|]. rewrite putChild_at. split_and!; [done|apply putChild_frame|done].
  - done.
  - by intros w owner k m ->.
  - intros w k o. eexists _, _. split; [done|]. split; [|apply putChild_frame].
    rewrite putChild_at, decide_True; [done|]. by destruct k.
  - intros owner k m. unfold ownerOf. by case_decide.
  - intros owner k m. unfold ownerOf. by case_decide.
  - intros owner k m. unfold ownerOf at 2 3. case_decide.
    + unfold ownerOf. by rewrite decide_True.
    + unfold ownerOf. rewrite decide_True; [done|]. simpl. set_solver.
  - intros owner k m. apply foreignTo_own.
  - done.
  - done.
  - done.
  - intros owner k fs m. unfold ownerOf. simpl. by case_decide.
  - intros w k o _. exists (putChild w k (keyOf (childMeta o)) (Some o)). split; [|apply putChild_frame].
    by rewrite putChild_at, decide_True.
Qed.

(** ** Scenarios *)
Definition child (k : Child) : childObj k :=
  readyChild k (newChild k (newMeta (childName k) "openstack")).

(** A Telemetry [i] with Ceilometer and MetricStorage enabled, whose children,
    and an Autoscaling from before, are stored and ready. *)
Definition storeWith (i : Telemetry) : Store :=
  MkStore (put req (Some i) (fun _ => None))
    (put (MkKey "openstack" "ceilometer") (Some (child CeilometerChild)) (fun _ => None))
    (put (MkKey "openstack" "autoscaling") (Some (child AutoscalingChild)) (fun _ => None))
    (put (MkKey "openstack" "metric-storage") (Some (child MetricStorageChild)) (fun _ => None)).

Definition after (w : Store) : Store := (interp ans (Reconcile req) w).2.
Definition telemetryIn (w : Store) : Telemetry := default freshTelemetry (telemetry_at w req).

(** Decidable forms of the hypotheses. *)
Definition ownCondsb (cs : Conditions) : bool :=
  bool_decide (uniqueTypes cs) &&
  forallb (fun c => bool_decide (cond_Type c ∈ ReadyCondition :: (condOf <$> passOrder))) (items cs).
Definition controllableb (i : Telemetry) (w : Store) : bool :=
  forallb (fun k => match stored w i k with
                    | Some o => negb (foreign (tel_Meta i) (childMeta o))
                    | None => true end) passOrder.

Lemma ownCondsb_sound cs : ownCondsb cs = true -> ownConds cs.
Proof.
  intros [Hu%bool_decide_eq_true Ht]%andb_prop. split; [done|]. intros t c [Hin <-]%getCond_elem.
  rewrite forallb_forall in Ht. specialize (Ht c (proj1 (list_elem_of_In _ _) Hin)).
  apply bool_decide_eq_true, elem_of_cons in Ht as [?|(k & ? & _)%list_elem_of_fmap]; [by left|right; eauto].
Qed.

Lemma controllableb_sound i w : controllableb i w = true -> controllable i w.
Proof.
  intros Hc k o _ Ho. unfold controllableb in Hc. rewrite forallb_forall in Hc.
  specialize (Hc k (proj1 (list_elem_of_In _ _) (passOrder_all k))). rewrite Ho in Hc.
  by apply negb_true_iff.
Qed.

(** The Autoscaling of a live Telemetry that disables it is deleted. *)
Lemma telemetry_pass_refines_witness :
  stored (after (storeWith liveTelemetry)) liveTelemetry AutoscalingChild = None /\
  exists i', telemetry_at (after (storeWith liveTelemetry)) req = Some i' /\
    syncs liveTelemetry (stored (storeWith liveTelemetry) liveTelemetry)
      (stored (after (storeWith liveTelemetry)) liveTelemetry).
Proof.
  split; [vm_compute; reflexivity|].
  pose proof (telemetry_pass_refines req liveTelemetry (storeWith liveTelemetry) eq_refl liveTelemetry_live
    (ownCondsb_sound (conds liveTelemetry) eq_refl)
    (controllableb_sound liveTelemetry (storeWith liveTelemetry) eq_refl)) as H.
  unfold after. destruct (interp ans (Reconcile req) (storeWith liveTelemetry)) as [[tr o] w'].
  destruct H as (_ & i' & Hi & _ & _ & Hs & _). exists i'. split; [exact Hi|exact Hs].
Defined.

(** A fresh Telemetry over ready children is Ready after two passes. *)
Lemma telemetry_converges_witness :
  exists i3, telemetry_at (after (after (storeWith freshTelemetry))) req = Some i3 /\
    Telemetry_IsReady i3 = true.
Proof.
  pose proof (telemetry_converges req freshTelemetry (storeWith freshTelemetry) eq_refl eq_refl
    (ownCondsb_sound (conds freshTelemetry) eq_refl)
    (controllableb_sound freshTelemetry (storeWith freshTelemetry) eq_refl)) as H.
  assert (telemetry_at (after (storeWith freshTelemetry)) req =
    Some (telemetryIn (after (storeWith freshTelemetry)))) as H1 by (vm_compute; reflexivity).
  assert (controllableb (telemetryIn (after (storeWith freshTelemetry))) (after (storeWith freshTelemetry)) = true)
    as Hc by (vm_compute; reflexivity).
  assert (forall k, enabled spec k = true -> isReadyAt (stored (after (storeWith freshTelemetry))
    (telemetryIn (after (storeWith freshTelemetry))) k) = true) as Hr
    by (intros []; vm_compute; congruence).
  unfold after at 2. unfold after in H1, Hc, Hr.
  destruct (interp ans (Reconcile req) (storeWith freshTelemetry)) as [[tr1 o1] w1]. cbn [snd] in *.
  destruct H as (_ & i1 & Hi1 & _ & H). rewrite Hi1 in H1. injection H1 as ->.
  specialize (H w1 Hi1 (controllableb_sound _ _ Hc)). unfold after.
  destruct (interp ans (Reconcile req) w1) as [[tr2 o2] w3]. cbn [snd].
  destruct H as (_ & i3 & Hi3 & _ & _ & _ & _ & H). exists i3. split; [exact Hi3|].
  apply H; [by exists CeilometerChild|exact Hr].
Defined.

(** After one pass over the live Telemetry, seven more leave the store's
    Ceilometer as it is. *)
Lemma telemetry_quiesces_witness :
  let w := after (storeWith liveTelemetry) in
  let '(os, w') := passes 7 req w in
  length os = 7 /\ stored w' liveTelemetry CeilometerChild = stored w liveTelemetry CeilometerChild.
Proof.
  intros w.
  pose proof (pass_live req liveTelemetry (storeWith liveTelemetry) eq_refl liveTelemetry_live
    (ownCondsb_sound (conds liveTelemetry) eq_refl)
    (controllableb_sound liveTelemetry (storeWith liveTelemetry) eq_refl)) as H.
  assert (controllableb liveTelemetry w = true) as Hc by (vm_compute; reflexivity).
  unfold w, after in *. clear w.
  destruct (interp ans (Reconcile req) (storeWith liveTelemetry)) as [[tr o] w]. cbn [snd] in *.
  destruct H as (_ & i & Hi & Hm & Hs & Hl & Ho & Hsync & Hshow & _).
  assert (settled i (stored w i)) as Hset.
  { rewrite (stored_eq _ _ _ Hm). apply (settled_same liveTelemetry); [exact Hm|exact Hs|].
    by eapply syncs_settled. }
  rewrite <-(stored_eq _ _ _ Hm) in Hshow.
  pose proof (telemetry_quiesces 7 req i w Hi Hl Ho
    (controllable_same _ _ _ Hm Hs (controllableb_sound _ _ Hc)) Hset Hshow) as H.
  destruct (passes 7 req w) as [os w']. destruct H as (_ & Hlen & Hch & _).
  split; [exact Hlen|apply Hch].
Defined.
End TelemetryStore.
