(* ===== verification/MetricStorageController.v ===== *)
(** * The MetricStorage controller ([controllers/metricstorage_controller.go])

    For each MetricStorage the controller deploys a MonitoringStack, a
    ServiceMonitor for Ceilometer and a ScrapeConfig for the node exporters of
    the data plane.  The kinds it watches belong to operators that may be
    installed later, so that the watches are added during reconciliation; the
    names already watched are kept in the reconciler. *)

From stdpp Require Import gmap strings list.
From Stdlib Require Import ZArith Lia Ascii.
From S2P Require Import Prelude Condition Api Libs Reference Webhooks MetricStoragePkg Address Operator.

#[local] Open Scope go_scope.

Module MetricStorageController.

(** ** Objects of the data plane and network operators *)
Record Node := MkNode { node_HostName : string; node_AnsibleHost : string }.
Record NodeSet := MkNodeSet { nset_Services : list string; nset_Nodes : gmap string Node }.
Record Reservation := MkReservation { res_Network : string; res_Address : string }.
Record IPSet := MkIPSet { ips_Name : string; ips_Reservation : list Reservation }.

(** [OpenStackDataPlaneService]: the network of each of its services. *)
Record DataPlaneService := MkDataPlaneService { dps_Networks : list string }.

(** The three kinds of objects the controller deploys. *)
Inductive Kind := StackKind | MonitorKind | ScrapeKind.

Definition obj (k : Kind) : Type :=
  match k with
  | StackKind => ObsMonitoringStack
  | MonitorKind => ServiceMonitorObj
  | ScrapeKind => ScrapeConfigObj
  end.

(** ** State of the reconciler during a pass *)
Record ReconcilerState := MkState {
  rs_Instance : MetricStorage;
  rs_Watching : list string
}.

#[global] Instance ReconcilerState_cr : CustomResource ReconcilerState.
Proof.
  refine {| crMeta s := crMeta (rs_Instance s);
            crSetMeta m s := MkState (crSetMeta m (rs_Instance s)) (rs_Watching s);
            crConds s := crConds (rs_Instance s);
            crSetConds c s := MkState (crSetConds c (rs_Instance s)) (rs_Watching s) |};
    try done. intros [[] ?]. done.
Defined.

(** ** External calls; [RangeNodes] is the order in which Go visits a map. *)
Inductive CallE : Type -> Type :=
| GetMetricStorage (key : NamespacedName) : CallE (MetricStorage + GoError)
| NewHelper (i : MetricStorage) : CallE (option GoError)
| PatchInstance (i : MetricStorage) : CallE (option GoError)
| GetCRD (name : string) : CallE (option GoError)
| Watch (name : string) : CallE (option GoError)
| Fetch (k : Kind) (key : NamespacedName) : CallE (option (obj k) + GoError)
| SetControllerReference (owner : ObjectMeta) (k : Kind) (m : ObjectMeta) : CallE (ObjectMeta + GoError)
| Commit (k : Kind) (o : obj k) : CallE (obj k * OperationResult + GoError)
| ListIPSets (ns : string) : CallE (list IPSet + GoError)
| ListNodeSets (ns : string) : CallE (list NodeSet + GoError)
| GetDataPlaneService (key : NamespacedName) : CallE (DataPlaneService + GoError)
| GetIPSet (key : NamespacedName) : CallE (IPSet + GoError)
| RangeNodes (nodes : gmap string Node) : CallE (list (string * Node))
| ListMetricStorages (ns : string) : CallE (list MetricStorage + GoError).

Abbreviation SM := (M CallE ReconcilerState).

Section Controller.
Context `{L : ConditionLib} `{F : FinalizerLib} `{C : CommonLib}.

(** [controllerutil.CreateOrPatch] *)
Definition createOrPatch (k : Kind) (key : NamespacedName) (fresh : obj k)
    (mutate : obj k -> SM (obj k + GoError)) : SM (obj k * OperationResult + GoError) :=
  let* r := call (Fetch k key) in
  match r with
  | inr err => ret (inr err)
  | inl found =>
      let* m := mutate (default fresh found) in
      match m with
      | inr err => ret (inr err)
      | inl o => call (Commit k o)
      end
  end.

(** ** ensureWatches *)
Definition ensureWatches (name : string) : SM (option GoError) :=
  let* s := get in
  if bool_decide (name ∈ rs_Watching s) then ret None else
  let* err := call (GetCRD name) in
  match err with
  | Some _ => ret err
  | None =>
      let* err := call (Watch name) in
      (if bool_decide (err = None)
       then modify (fun s => MkState (rs_Instance s) (rs_Watching s ++ [name]))
       else ret tt) ;;;
      ret err
  end.

(** ** Addresses of the node exporters *)
Definition getAddressFromAnsibleHost (item : Node) : string :=
  match ParseIP (node_AnsibleHost item) with
  | Some _ => node_AnsibleHost item
  | None =>
      if isValidDomain (node_AnsibleHost item) then node_AnsibleHost item
      else if isValidDomain (node_HostName item) then node_HostName item
      else ""
  end.

(** The first reservation on a network of the telemetry service. *)
Fixpoint findReservation (rs : list Reservation) (networks : list string) : option string :=
  match rs with
  | [] => None
  | r :: rs =>
      if existsb (fun n => String.eqb (res_Network r) n) networks then Some (res_Address r)
      else findReservation rs networks
  end.

Definition getTelemetryDataPlaneService (instance : MetricStorage) : SM (DataPlaneService + GoError) :=
  call (GetDataPlaneService (MkKey (meta_Namespace (met_Meta instance)) "telemetry")).
Definition getIPSetList (instance : MetricStorage) : SM (list IPSet + GoError) :=
  call (ListIPSets (meta_Namespace (met_Meta instance))).
Definition getNodeSetList (instance : MetricStorage) : SM (list NodeSet + GoError) :=
  call (ListNodeSets (meta_Namespace (met_Meta instance))).

Definition getAddressFromIPSet (instance : MetricStorage) (item : Node) (key : NamespacedName)
    : SM string :=
  let* svc := getTelemetryDataPlaneService instance in
  let telemetryService := match svc with inl d => Some d | inr _ => None end in
  let* r := call (GetIPSet key) in
  match r with
  | inr _ => ret (if isValidDomain (node_HostName item) then node_HostName item else "")
  | inl ipset =>
      match telemetryService with
      | Some d =>
          match findReservation (ips_Reservation ipset) (dps_Networks d) with
          | Some address => ret address
          | None => ret (getAddressFromAnsibleHost item)
          end
      | None => ret (getAddressFromAnsibleHost item)
      end
  end.

(** [fmt.Sprintf("%s:%d", address, metricstorage.DefaultNodeExporterPort)] *)
Definition target (address : string) : string :=
  address +:+ ":" +:+ itoa DefaultNodeExporterPort.

(** The loop over the nodes of a node set; the flag tells whether the function
    goes on with the next node set or returns. *)
Fixpoint nodeLoop (instance : MetricStorage) (haveIPSets : bool) (nodes : list (string * Node))
    (addresses : list string) : SM (list string * bool) :=
  match nodes with
  | [] => ret (addresses, true)
  | (name, item) :: nodes =>
      let* address :=
        (if haveIPSets then
           getAddressFromIPSet instance item (MkKey (meta_Namespace (met_Meta instance)) name)
         else if negb (String.eqb (node_AnsibleHost item) "") then
           ret (getAddressFromAnsibleHost item)
         else ret "") in
      if String.eqb address "" then ret (addresses, false)
      else nodeLoop instance haveIPSets nodes (addresses ++ [target address])
  end.

Fixpoint nodeSetLoop (instance : MetricStorage) (haveIPSets : bool) (nodeSets : list NodeSet)
    (addresses : list string) : SM (list string) :=
  match nodeSets with
  | [] => ret addresses
  | nodeSet :: nodeSets =>
      if negb (existsb (fun service => String.eqb service "telemetry") (nset_Services nodeSet))
      then nodeSetLoop instance haveIPSets nodeSets addresses
      else
        let* nodes := call (RangeNodes (nset_Nodes nodeSet)) in
        let* '(addresses, go) := nodeLoop instance haveIPSets nodes addresses in
        if (go : bool) then nodeSetLoop instance haveIPSets nodeSets addresses else ret addresses
  end.

Definition getNodeExporterTargets (instance : MetricStorage) : SM (list string + GoError) :=
  let* r := getIPSetList instance in
  match r with
  | inr err => ret (inr err)
  | inl ipSets =>
      let* r := getNodeSetList instance in
      match r with
      | inr err => ret (inr err)
      | inl nodeSets =>
          let* addresses :=
            nodeSetLoop instance (negb (Nat.eqb (length ipSets) 0)) nodeSets [] in
          ret (inl addresses)
      end
  end.

(** ** The functions that fill the three objects *)

(** [reflect.DeepEqual(custom, &MonitoringStackSpec{}) || custom == nil] *)
Definition usesOptions (custom : option MonitoringStackSpec) : bool :=
  match custom with
  | Some spec => bool_decide (spec = zeroMonitoringStackSpec)
  | None => true
  end.

Definition mutateStack (instance : MetricStorage) (serviceLabels : gmap string string)
    (o : ObsMonitoringStack) : SM (ObsMonitoringStack + GoError) :=
  let custom := mets_CustomMonitoringStack (met_Spec instance) in
  let spec :=
    if usesOptions custom then
      match NewMonitoringStack instance serviceLabels with
      | inr err => inr err
      | inl desired => inl (obs_Spec desired)
      end
    else inl (default (obs_Spec o) custom) in
  match spec with
  | inr err => ret (inr err)
  | inl spec =>
      let* r := call (SetControllerReference (met_Meta instance) StackKind
                        (withLabels serviceLabels (obs_Meta o))) in
      match r with
      | inr err => ret (inr err)
      | inl m => ret (inl (MkObsStack m spec (obs_Conditions o)))
      end
  end.

Definition mutateMonitor (instance : MetricStorage) (serviceLabels : gmap string string)
    (o : ServiceMonitorObj) : SM (ServiceMonitorObj + GoError) :=
  let ceilometerLabels := {[ AppSelector := "ceilometer" ]} in
  let desired := ServiceMonitor instance serviceLabels ceilometerLabels in
  let* r := call (SetControllerReference (met_Meta instance) MonitorKind
                    (withLabels (meta_Labels (sm_Meta desired)) (sm_Meta o))) in
  match r with
  | inr err => ret (inr err)
  | inl m => ret (inl (MkServiceMonitor m (sm_Endpoints desired) (sm_Selector desired)))
  end.

Definition mutateScrape (instance : MetricStorage) (serviceLabels : gmap string string)
    (o : ScrapeConfigObj) : SM (ScrapeConfigObj + GoError) :=
  let* endpoints := getNodeExporterTargets instance in
  match endpoints with
  | inr err => ret (inr err)
  | inl endpoints =>
      let desired := ScrapeConfig instance serviceLabels endpoints in
      let* r := call (SetControllerReference (met_Meta instance) ScrapeKind
                        (withLabels (meta_Labels (scf_Meta desired)) (scf_Meta o))) in
      match r with
      | inr err => ret (inr err)
      | inl m =>
          ret (inl (MkScrapeConfig (scf_GVK o) m (scf_ScrapeInterval desired) (scf_Targets desired)))
      end
  end.

(** ** reconcileNormal, one part per deployed object *)
Definition serviceLabels : gmap string string := {[ AppSelector := "metricStorage" ]}.

Definition pause : RE := (requeueAfter PauseBetweenWatchAttempts, None).

(** The condition set from the conditions of the MonitoringStack: the first
    one that is not True makes it False, and with none it stays as it is. *)
Fixpoint firstNotTrue (cs : list StackCondition) : option StackCondition :=
  match cs with
  | [] => None
  | c :: cs => if negb (String.eqb (sc_Status c) "True") then Some c else firstNotTrue cs
  end.

Definition reflectStack (cs : list StackCondition) : SM unit :=
  match firstNotTrue cs with
  | Some c =>
      markFalse MonitoringStackReadyCondition (ReasonText (sc_Reason c)) SeverityError
        (text (sc_Message c))
  | None =>
      if Nat.eqb (length cs) 0 then ret tt
      else markTrue MonitoringStackReadyCondition (lib "ReadyMessage")
  end.

Definition deployStack (instance : MetricStorage) (rest : SM RE) : SM RE :=
  let* err := ensureWatches "monitoringstacks.monitoring.rhobs" in
  match err with
  | Some err =>
      markFalse MonitoringStackReadyCondition (ReasonText "Can't own MonitoringStack resource")
        SeverityError (MonitoringStackUnableToOwnMessage (err_text err)) ;;;
      ret pause
  | None =>
      let fresh := newMeta (meta_Name (met_Meta instance)) (meta_Namespace (met_Meta instance)) in
      let* r := createOrPatch StackKind (keyOf fresh) (MkObsStack fresh zeroMonitoringStackSpec [])
                  (mutateStack instance serviceLabels) in
      match r with
      | inr err => ret (emptyResult, Some err)
      | inl (o, _) => reflectStack (obs_Conditions o) ;;; rest
      end
  end.

Definition deployMonitor (instance : MetricStorage) (rest : SM RE) : SM RE :=
  let* err := ensureWatches "servicemonitors.monitoring.rhobs" in
  match err with
  | Some err =>
      markFalse ServiceMonitorReadyCondition (ReasonText "Can't own ServiceMonitor resource")
        SeverityError (ServiceMonitorUnableToOwnMessage (err_text err)) ;;;
      ret pause
  | None =>
      let fresh := newMeta (meta_Name (met_Meta instance)) (meta_Namespace (met_Meta instance)) in
      let* r := createOrPatch MonitorKind (keyOf fresh) (MkServiceMonitor fresh [] zeroSelector)
                  (mutateMonitor instance serviceLabels) in
      match r with
      | inr err => ret (emptyResult, Some err)
      | inl _ => markTrue ServiceMonitorReadyCondition (lib "ReadyMessage") ;;; rest
      end
  end.

Definition watchNodeSets (rest : SM RE) : SM RE :=
  let* err := ensureWatches "openstackdataplanenodesets.dataplane.openstack.org" in
  match err with
  | Some err =>
      markFalse NodeSetReadyCondition (ReasonText "Can't watch NodeSet resource")
        SeverityError (NodeSetUnableToWatchMessage (err_text err)) ;;;
      ret pause
  | None => markTrue NodeSetReadyCondition (lib "ReadyMessage") ;;; rest
  end.

Definition deployScrape (instance : MetricStorage) (rest : SM RE) : SM RE :=
  let* err := ensureWatches "scrapeconfigs.monitoring.rhobs" in
  match err with
  | Some err =>
      markFalse ScrapeConfigReadyCondition (ReasonText "Can't own ScrapeConfig resource")
        SeverityError (ScrapeConfigUnableToOwnMessage (err_text err)) ;;;
      ret pause
  | None =>
      let fresh := newMeta (meta_Name (met_Meta instance)) (meta_Namespace (met_Meta instance)) in
      let* r := createOrPatch ScrapeKind (keyOf fresh)
                  (MkScrapeConfig ("monitoring.rhobs", "v1alpha1", "ScrapeConfig") fresh "" [])
                  (mutateScrape instance serviceLabels) in
      match r with
      | inr err => ret (emptyResult, Some err)
      | inl _ => markTrue ScrapeConfigReadyCondition (lib "ReadyMessage") ;;; rest
      end
  end.

Definition reconcileNormal : SM RE :=
  let* s := get in
  let instance := rs_Instance s in
  match mets_CustomMonitoringStack (met_Spec instance), mets_MonitoringStack (met_Spec instance) with
  | None, None =>
      markFalse MonitoringStackReadyCondition
        (ReasonText "MonitoringStack isn't configured properly") SeverityError
        (MonitoringStackReadyMisconfiguredMessage
           ("Either " +:+ quoted "customMonitoringStack" +:+ " or " +:+ quoted "monitoringStack" +:+
            " must be set, but both are nil.")) ;;;
      ret (emptyResult, None)
  | _, _ =>
      deployStack instance (deployMonitor instance (watchNodeSets (deployScrape instance
        (ret (emptyResult, None)))))
  end.

(** The requests a change of a node set enqueues. *)
Definition nodeSetWatchFn (namespace : string) : prog CallE (list NamespacedName) :=
  Vis (ListMetricStorages namespace) (fun r =>
  match r with
  | inr _ => Ret []
  | inl items => Ret (map (fun cr => MkKey namespace (meta_Name (met_Meta cr))) items)
  end).

Definition finalizer := GetFinalizer "MetricStorage".

Definition reconcileDelete : SM RE := removeFinalizer finalizer ;;; ret (emptyResult, None).

(** ** Reconcile *)
Definition initialConditions : Conditions :=
  Init (Some []) (CreateList [
    UnknownCondition MonitoringStackReadyCondition InitReason MonitoringStackReadyInitMessage;
    UnknownCondition ServiceMonitorReadyCondition InitReason ServiceMonitorReadyInitMessage;
    UnknownCondition ScrapeConfigReadyCondition InitReason ScrapeConfigReadyInitMessage;
    UnknownCondition NodeSetReadyCondition InitReason NodeSetReadyInitMessage]).

(** The part of [Reconcile] after the deferred function is set up. *)
Definition reconcileBody : SM RE :=
  let* s := get in
  let* added := (if notDeleting (crMeta s) then addFinalizer finalizer else ret false) in
  if (added : bool) then ret (emptyResult, None) else
  let* s := get in
  match crConds s with
  | None => modifyConds (fun _ => initialConditions) ;;; ret (emptyResult, None)
  | Some _ =>
      if negb (notDeleting (crMeta s)) then reconcileDelete else reconcileNormal
  end.

(** One call of [Reconcile] on a reconciler that watches [watching]; the
    result holds the names watched afterwards. *)
Definition Reconcile (watching : list string) (req : NamespacedName)
    : prog CallE (list string * outcome RE) :=
  Vis (GetMetricStorage req) (fun r =>
  match r with
  | inr err =>
      if err_notFound err then Ret (watching, Val (emptyResult, None))
      else Ret (watching, Val (emptyResult, Some err))
  | inl instance =>
      Vis (NewHelper instance) (fun e =>
      match e with
      | Some err => Ret (watching, Val (emptyResult, Some err))
      | None =>
          pbind (withDefer reconcileBody (deferPatch (fun s => PatchInstance (rs_Instance s)) false)
                   (MkState instance watching))
            (fun '(s, o) => Ret (rs_Watching s, o))
      end)
  end).
End Controller.

(** ** Observations on a trace *)
Definition fetched (tr : list (event CallE)) : option MetricStorage :=
  match tr with
  | Ev e x :: _ =>
      match e in CallE X return X -> option MetricStorage with
      | GetMetricStorage _ => fun x => match x with inl i => Some i | inr _ => None end
      | _ => fun _ => None
      end x
  | [] => None
  end.

Definition patchOf (ev : event CallE) : option (MetricStorage * option GoError) :=
  match ev with
  | Ev e x =>
      match e in CallE X return X -> option (MetricStorage * option GoError) with
      | PatchInstance i => fun x => Some (i, x)
      | _ => fun _ => None
      end x
  end.

(** The successful watches. *)
Definition watched (ev : event CallE) : option string :=
  match ev with
  | Ev e x =>
      match e in CallE X return X -> option string with
      | Watch n => fun x => match x with None => Some n | Some _ => None end
      | _ => fun _ => None
      end x
  end.

(** The objects written successfully; for a MonitoringStack also the
    conditions the API server answered. *)
Inductive Written :=
| WroteStack (o : ObsMonitoringStack) (answer : list StackCondition)
| WroteMonitor (o : ServiceMonitorObj)
| WroteScrape (o : ScrapeConfigObj).

Definition written (ev : event CallE) : option Written :=
  match ev with
  | Ev e x =>
      match e in CallE X return X -> option Written with
      | Commit k o =>
          match k return obj k -> obj k * OperationResult + GoError -> option Written with
          | StackKind => fun o x =>
              match x with inl (o', _) => Some (WroteStack o (obs_Conditions o')) | inr _ => None end
          | MonitorKind => fun o x => match x with inl _ => Some (WroteMonitor o) | inr _ => None end
          | ScrapeKind => fun o x => match x with inl _ => Some (WroteScrape o) | inr _ => None end
          end o
      | _ => fun _ => None
      end x
  end.

Section Pass.
Context `{L : ConditionLib} `{LL : !ConditionLaws L} `{F : FinalizerLib} `{FL : !FinalizerLaws F}.
Context `{C : CommonLib}.

(** *** The watches *)
Definition watchInv (w0 : list string) (h : list (event CallE)) (s : ReconcilerState) : Prop :=
  rs_Watching s = w0 ++ omap watched h /\ NoDup (rs_Watching s).

Lemma ensureWatches_hist w0 name : Hist anyAnswer (watchInv w0) (ensureWatches name).
Proof.
  intros h s [Hw Hn]. unfold ensureWatches.
  wpm_step. wpm_step. destruct (bool_decide _) eqn:Hin; [wpm; split; by rewrite ?app_nil_r|].
  apply bool_decide_eq_false in Hin.
  wpm_step. wpm_step. destruct x as [err|]; [wpm; split; rewrite ?omap_app; simpl; by rewrite ?app_nil_r|].
  wpm_step. wpm_step. destruct x as [err|]; simpl; wpm; simpl; unfold watchInv; simpl;
    rewrite !omap_app; simpl; rewrite ?app_nil_r; [done|].
  rewrite Hw at 1. rewrite app_assoc. split; [done|].
  apply NoDup_app. split_and!; [done| |apply NoDup_singleton].
  intros n Hn' ->%list_elem_of_singleton. done.
Qed.

Lemma watchInv_snoc w0 h s ev :
  watched ev = None -> watchInv w0 h s -> watchInv w0 (h ++ [ev]) s.
Proof. intros He [Hw Hn]. split; [|done]. rewrite omap_app. simpl. by rewrite He, app_nil_r. Qed.

#[local] Hint Resolve ensureWatches_hist : safe.

(** Calls that watch nothing, changes that leave the watches alone. *)
Ltac watch_hist := hist; first [by apply watchInv_snoc | by destruct_and?].

Lemma nodeLoop_hist w0 i b nodes addrs : Hist anyAnswer (watchInv w0) (nodeLoop i b nodes addrs).
Proof.
  revert addrs. induction nodes as [|[name item] nodes IH]; intros addrs; simpl;
    unfold getAddressFromIPSet, getTelemetryDataPlaneService; watch_hist.
Qed.
#[local] Hint Resolve nodeLoop_hist : safe.

Lemma nodeSetLoop_hist w0 i b sets addrs : Hist anyAnswer (watchInv w0) (nodeSetLoop i b sets addrs).
Proof. revert addrs. induction sets as [|ns sets IH]; intros addrs; simpl; watch_hist. Qed.
#[local] Hint Resolve nodeSetLoop_hist : safe.

Lemma reconcileBody_hist w0 : Hist anyAnswer (watchInv w0) reconcileBody.
Proof.
  unfold reconcileBody, reconcileDelete, reconcileNormal, deployStack, deployMonitor, watchNodeSets,
    deployScrape, reflectStack, createOrPatch, mutateStack, mutateMonitor, mutateScrape,
    getNodeExporterTargets, getIPSetList, getNodeSetList.
  watch_hist.
Qed.

(** A run of [Reconcile] that fetched an object: the helper failed, or the
    body ran and its result was patched. *)
Lemma Reconcile_runs w req tr w' o i :
  runs (Reconcile w req) tr (w', o) -> fetched tr = Some i ->
  (exists err, tr = [Ev (GetMetricStorage req) (inl i); Ev (NewHelper i) (Some err)] /\
     w' = w /\ o = Val (emptyResult, Some err)) \/
  (exists tr' s err, runs (reconcileBody (MkState i w)) tr' (s, o) /\
     tr = Ev (GetMetricStorage req) (inl i) :: Ev (NewHelper i) None ::
          tr' ++ [Ev (PatchInstance (rs_Instance (finish s))) err] /\
     w' = rs_Watching s).
Proof.
  intros (r & tr1 & -> & H) Hf. simpl in Hf. destruct r as [i'|]; [|done]. simplify_eq.
  destruct H as (e & tr2 & -> & H). destruct e as [err|]; [left; naive_solver|right].
  apply runs_bind in H as (trd & tr3 & [s1 o1] & -> & H & [-> [= -> ->]]).
  apply runs_bind in H as (tr' & trp & [s o2] & -> & Hb & Hp).
  apply runs_bind in Hp as (trq & tr4 & [s2 od] & -> & Hq & [-> [= -> ->]]).
  simpl in Hq. destruct Hq as (err & tr5 & -> & [-> [= -> ->]]).
  exists tr', s, err. rewrite !app_nil_r. split_and!; [|done|done].
  destruct o2 as [[r e]|]; [|done]. by destruct err.
Qed.
Lemma Reconcile_runs_intro w req i tr' s o err :
  runs (reconcileBody (MkState i w)) tr' (s, o) ->
  runs (Reconcile w req)
    (Ev (GetMetricStorage req) (inl i) :: Ev (NewHelper i) None ::
     tr' ++ [Ev (PatchInstance (rs_Instance (finish s))) err]) (rs_Watching s, o).
Proof.
  intros Hb. exists (inl i). eexists. split; [done|]. exists None. eexists. split; [done|].
  apply runs_bind. eexists _, [], (finish s, o). rewrite app_nil_r. split_and!; [done| |done].
  apply runs_bind. eexists tr', _, (s, o). split_and!; [done|done|].
  apply runs_bind. eexists [_], [], (finish s, Val _). split_and!; [done| |].
  - simpl. exists err. eexists. split; [done|]. split; [done|]. reflexivity.
  - split; [done|]. f_equal. destruct o as [[r e]|]; [|done]. by destruct err.
Qed.

(** *** Histories of a reconciler process *)
Inductive reachable : list string -> list (event CallE) -> Prop :=
| reachable_start : reachable [] []
| reachable_pass w h req tr w' o :
    reachable w h -> runs (Reconcile w req) tr (w', o) -> reachable w' (h ++ tr).

Lemma Reconcile_watches w req tr w' o : NoDup w -> runs (Reconcile w req) tr (w', o) ->
  w' = w ++ omap watched tr /\ NoDup w'.
Proof.
  intros Hn Hr. destruct (fetched tr) as [i|] eqn:Hf.
  - destruct (Reconcile_runs _ _ _ _ _ _ Hr Hf) as
      [(err & -> & -> & _)|(tr' & s & err & Hb & -> & ->)]; [by rewrite app_nil_r|].
    assert (watchInv w [] (MkState i w)) as H0 by (split; [by rewrite app_nil_r|done]).
    destruct (runs_wp_any _ _ _ _ (reconcileBody_hist w [] _ H0) Hb) as [Hw Hn'].
    simpl. rewrite omap_app. simpl. by rewrite app_nil_r.
  - destruct Hr as (r & tr1 & -> & H). simpl in Hf. destruct r as [|err]; [done|].
    destruct (err_notFound err); destruct H as [-> [= -> ->]]; by rewrite app_nil_r.
Qed.

(** C26. Watches are added at most once: however many passes a reconciler
    process makes, over whatever objects and with whatever answers, the names
    in [Watching] are those of the successful calls of [Watch], in their
    order, and no name occurs twice. *)
Theorem metricstorage_watches_once w h :
  reachable w h -> w = omap watched h /\ NoDup w.
Proof.
  induction 1 as [|w h req tr w' o _ [-> Hn] Hr]; [by split; [|constructor]|].
  destruct (Reconcile_watches _ _ _ _ _ Hn Hr) as [-> Hn']. by rewrite omap_app.
Qed.

(** *** The patch *)
Lemma nodeLoop_safe (P : event CallE -> Prop) i b nodes addrs :
  (forall X (e : CallE X) x, patchOf (Ev e x) = None -> P (Ev e x)) ->
  Safe anyAnswer (fun _ => True) P (nodeLoop i b nodes addrs).
Proof.
  intros HP. revert addrs. induction nodes as [|[name item] nodes IH]; intros addrs; simpl;
    unfold getAddressFromIPSet, getTelemetryDataPlaneService; safe; by apply HP.
Qed.

Lemma nodeSetLoop_safe (P : event CallE -> Prop) i b sets addrs :
  (forall X (e : CallE X) x, patchOf (Ev e x) = None -> P (Ev e x)) ->
  Safe anyAnswer (fun _ => True) P (nodeSetLoop i b sets addrs).
Proof.
  intros HP. revert addrs. induction sets as [|ns sets IH]; intros addrs; simpl; safe;
    try by apply HP. by apply nodeLoop_safe.
Qed.

Lemma metricStorage_reconcileBody_safe :
  Safe anyAnswer (fun _ => True) (fun ev => patchOf ev = None) reconcileBody.
Proof.
  unfold reconcileBody, reconcileDelete, reconcileNormal, deployStack, deployMonitor, watchNodeSets,
    deployScrape, reflectStack, createOrPatch, mutateStack, mutateMonitor, mutateScrape,
    getNodeExporterTargets, getIPSetList, getNodeSetList, ensureWatches.
  safe; try done. all: by apply nodeSetLoop_safe.
Qed.

(** C27. Every pass over a fetched MetricStorage ends, without a panic, with
    exactly one patch, whose Ready condition is True only if all other
    conditions are.  The result of [Reconcile] does not depend on the answer
    to that patch: an error is dropped, so that a status that could not be
    written is not retried. *)
Theorem metricstorage_patch_error_dropped w req tr w' o i :
  runs (Reconcile w req) tr (w', o) -> fetched tr = Some i ->
  (exists err, tr = [Ev (GetMetricStorage req) (inl i); Ev (NewHelper i) (Some err)] /\
     o = Val (emptyResult, Some err)) \/
  (exists pre i' err, tr = pre ++ [Ev (PatchInstance i') err] /\ omap patchOf tr = [(i', err)] /\
     readyOk (crConds i') /\ (exists re, o = Val re) /\
     forall err', runs (Reconcile w req) (pre ++ [Ev (PatchInstance i') err']) (w', o)).
Proof.
  intros Hr Hf. destruct (Reconcile_runs _ _ _ _ _ _ Hr Hf) as
    [(err & -> & _ & ->)|(tr' & s & err & Hb & -> & ->)]; [left; eauto|right].
  destruct (runs_wp_any _ _ _ _ (metricStorage_reconcileBody_safe (MkState i w) I) Hb) as (_ & HP & Ho).
  eexists (_ :: _ :: tr'), (rs_Instance (finish s)), err. split_and!; [done| | |done|].
  - simpl. rewrite omap_app, omap_None by done. done.
  - apply (readyOk_updateReady (crConds s)).
  - intros err'. by apply Reconcile_runs_intro.
Qed.

(** *** The hosts of the node sets *)

(** The API server has no IPSet and the node sets [sets]; Go visits the nodes
    of a node set in any order. *)
Definition noIPSets (sets : list NodeSet) : contract CallE := fun X e =>
  match e in CallE X return X -> Prop with
  | ListIPSets _ => fun x => x = inl []
  | ListNodeSets _ => fun x => x = inl sets
  | RangeNodes nodes => fun x => x ≡ₚ map_to_list nodes
  | _ => fun _ => True
  end.

(** A node whose AnsibleHost is an address. *)
Definition usable (n : Node) : Prop :=
  ParseIP (node_AnsibleHost n) <> None \/ isValidDomain (node_AnsibleHost n) = true.

Definition hasTelemetry (ns : NodeSet) : bool :=
  existsb (fun service => String.eqb service "telemetry") (nset_Services ns).

Definition hostTargets (nodes : list (string * Node)) : list string :=
  map (fun '(_, n) => target (node_AnsibleHost n)) nodes.

Definition expectedTargets (sets : list NodeSet) : list string :=
  concat (map (fun ns => if hasTelemetry ns then hostTargets (map_to_list (nset_Nodes ns)) else []) sets).

Lemma usable_address n : usable n ->
  getAddressFromAnsibleHost n = node_AnsibleHost n /\ node_AnsibleHost n <> "".
Proof.
  intros Hu. split.
  - unfold getAddressFromAnsibleHost. destruct Hu as [Hu|Hu]; [by destruct (ParseIP _)|].
    rewrite Hu. by destruct (ParseIP _).
  - intros He. unfold usable in Hu. rewrite He in Hu. destruct Hu as [Hu|Hu]; [by apply Hu|done].
Qed.

Lemma nodeLoop_usable ok i nodes rest addrs s Q :
  Forall (fun p => usable p.2) nodes ->
  wpM ok (nodeLoop i false rest (addrs ++ hostTargets nodes)) s Q ->
  wpM ok (nodeLoop i false (nodes ++ rest) addrs) s Q.
Proof.
  revert addrs. induction nodes as [|[name n] nodes IH]; intros addrs Hu HQ; simpl in *.
  { by rewrite app_nil_r in HQ. }
  apply Forall_cons in Hu as [Hn Hu]. destruct (usable_address n Hn) as [Ha Hne].
  destruct (String.eqb_spec (node_AnsibleHost n) "") as [|_]; [done|]. simpl.
  wpm_step. wpm_step. simpl in Ha, Hne. rewrite Ha.
  destruct (String.eqb_spec (node_AnsibleHost n) "") as [|_]; [done|].
  eapply wpM_mono; [|apply IH; [done|]]; [intros tr s' o H; exact H|].
  by rewrite <-app_assoc.
Qed.

(** The targets [f] gives the nodes of the node sets that run the telemetry
    service. *)
Definition targetsBy (f : string * Node -> string) (sets : list NodeSet) : list string :=
  concat (map (fun ns => if hasTelemetry ns then map f (map_to_list (nset_Nodes ns)) else []) sets).

(** When the nodes that satisfy [E] contribute what [f] gives them, so do the
    node sets. *)
Lemma nodeSetLoop_targets (ok : contract CallE) i b f (E : string * Node -> Prop) sets addrs s :
  (forall nodes x, ok _ (RangeNodes nodes) x -> x ≡ₚ map_to_list nodes) ->
  (forall nodes addrs (Q : ReconcilerState -> outcome (list string * bool) -> Prop), Forall E nodes -> Q s (Val (addrs ++ map f nodes, true)) ->
     wpM ok (nodeLoop i b nodes addrs) s (fun _ => Q)) ->
  (forall ns, ns ∈ sets -> hasTelemetry ns = true -> Forall E (map_to_list (nset_Nodes ns))) ->
  wpM ok (nodeSetLoop i b sets addrs) s (fun _ s' o =>
    s' = s /\ exists ts, o = Val ts /\ ts ≡ₚ addrs ++ targetsBy f sets).
Proof.
  intros Hok Hloop. revert addrs. induction sets as [|ns sets IH]; intros addrs Hu; simpl.
  { wpm_step. rewrite app_nil_r. eauto. }
  fold (hasTelemetry ns). unfold targetsBy in *. simpl.
  destruct (hasTelemetry ns) eqn:Ht; simpl; [|apply IH; intros; apply Hu; [by apply elem_of_cons; right|done]].
  wpm_step. apply wpM_call. intros nodes Hn%Hok. wpm_step. apply Hloop.
  { rewrite Hn. apply Hu; [by apply elem_of_cons; left|done]. }
  simpl. eapply wpM_mono; [|apply IH; intros; apply Hu; [by apply elem_of_cons; right|done]].
  intros tr s' o (-> & ts & -> & Hts). split; [done|]. exists ts. split; [done|].
  by rewrite Hts, <-app_assoc, Hn.
Qed.

Lemma nodeSetLoop_complete i sets addrs s :
  (forall ns, ns ∈ sets -> hasTelemetry ns = true ->
     Forall (fun p => usable p.2) (map_to_list (nset_Nodes ns))) ->
  forall sets0, wpM (noIPSets sets0) (nodeSetLoop i false sets addrs) s (fun _ s' o =>
    s' = s /\ exists ts, o = Val ts /\ ts ≡ₚ addrs ++ expectedTargets sets).
Proof.
  intros Hu sets0. eapply nodeSetLoop_targets; [done| |exact Hu].
  intros nodes addrs' Q Hn HQ. rewrite <-(app_nil_r nodes). apply nodeLoop_usable; [done|]. simpl. by wpm.
Qed.

Lemma targets_complete i sets s tr s' o :
  runs (getNodeExporterTargets i s) tr (s', o) -> Forall (keeps (noIPSets sets)) tr ->
  (forall ns, ns ∈ sets -> hasTelemetry ns = true ->
     Forall (fun p => usable p.2) (map_to_list (nset_Nodes ns))) ->
  s' = s /\ exists ts, o = Val (inl ts) /\ ts ≡ₚ expectedTargets sets.
Proof.
  intros Hr Hok Hu. revert Hr Hok. apply (runs_wpM _ _ _ (fun _ s' o => s' = s /\
    exists ts, o = Val (inl ts) /\ ts ≡ₚ expectedTargets sets)).
  unfold getNodeExporterTargets, getIPSetList, getNodeSetList. wpm_step. apply wpM_call. intros x ->. wpm_step. apply wpM_call.
  intros x ->. wpm_step. eapply wpM_mono; [|apply (nodeSetLoop_complete i sets [] s Hu)].
  intros tr' s1 o1 (-> & ts & -> & Hts). wpm_step. eauto.
Qed.

(** *** What a complete pass deploys *)
Definition isTarget (t : string) : Prop := exists a, a <> "" /\ t = target a.

(** A handler that writes nothing, leaves the state as it is and returns
    something satisfying [P]. *)
Definition reads {A} (P : A -> Prop) (m : SM A) : Prop :=
  forall s, wpM anyAnswer m s (fun tr s' o => omap written tr = [] /\ s' = s /\
    exists a, o = Val a /\ P a).

Lemma reads_ret {A} (P : A -> Prop) a : P a -> reads P (ret a).
Proof. intros HP s. apply wpM_ret. eauto. Qed.

Lemma reads_call_bind {X A} (P : A -> Prop) (e : CallE X) (f : X -> SM A) :
  (forall x, written (Ev e x) = None) -> (forall x, reads P (f x)) -> reads P (mbindM (call e) f).
Proof.
  intros He Hf s. apply wpM_bind, wpM_call. intros x _. eapply wpM_mono; [|exact (Hf x s)].
  intros tr s' o (Ht & -> & Ho). rewrite omap_app, Ht, omap_None by (constructor; [apply He|constructor]).
  done.
Qed.

Lemma reads_bind {X A} (P0 : X -> Prop) (P : A -> Prop) (m : SM X) (f : X -> SM A) :
  reads P0 m -> (forall x, P0 x -> reads P (f x)) -> reads P (mbindM m f).
Proof.
  intros Hm Hf s. apply wpM_bind. eapply wpM_mono; [|exact (Hm s)].
  intros tr s' o (Ht & -> & x & -> & Hx). eapply wpM_mono; [|exact (Hf x Hx s)].
  intros tr' s' o (Ht' & -> & Ho). rewrite omap_app, Ht. done.
Qed.

Lemma getAddressFromIPSet_reads i item key : reads (fun _ => True) (getAddressFromIPSet i item key).
Proof.
  unfold getAddressFromIPSet, getTelemetryDataPlaneService. apply reads_call_bind; [done|intros svc].
  apply reads_call_bind; [done|intros r]. by repeat (case_match; try apply reads_ret).
Qed.

Lemma nodeLoop_reads i b nodes addrs : Forall isTarget addrs ->
  reads (fun '(l, _) => Forall isTarget l) (nodeLoop i b nodes addrs).
Proof.
  revert addrs. induction nodes as [|[name item] nodes IH]; intros addrs Ha; simpl;
    [by apply reads_ret|].
  apply (reads_bind (fun _ => True)).
  { destruct b; [apply getAddressFromIPSet_reads|]. destruct (negb _); by apply reads_ret. }
  intros a _. destruct (String.eqb_spec a ""); [by apply reads_ret|].
  apply IH, Forall_app. split; [done|]. repeat constructor. by exists a.
Qed.

Lemma nodeSetLoop_reads i b sets addrs : Forall isTarget addrs ->
  reads (Forall isTarget) (nodeSetLoop i b sets addrs).
Proof.
  revert addrs. induction sets as [|ns sets IH]; intros addrs Ha; simpl; [by apply reads_ret|].
  destruct (negb _); [by apply IH|]. apply reads_call_bind; [done|intros nodes].
  eapply reads_bind; [by apply nodeLoop_reads|]. intros [l []] Hl; [by apply IH|by apply reads_ret].
Qed.

Lemma getNodeExporterTargets_reads i :
  reads (fun r => forall ts, r = inl ts -> Forall isTarget ts) (getNodeExporterTargets i).
Proof.
  unfold getNodeExporterTargets, getIPSetList, getNodeSetList. apply reads_call_bind; [done|intros [ipSets|]]; [|by apply reads_ret].
  apply reads_call_bind; [done|intros [sets|]]; [|by apply reads_ret].
  eapply reads_bind; [apply nodeSetLoop_reads; constructor|]. intros l Hl. apply reads_ret.
  by intros ts [= <-].
Qed.

(** The spec the MonitoringStack must have: the custom one when it is set and
    not empty, the one built from the exposed options otherwise. *)
Definition stackSpecOk (i : MetricStorage) (o : ObsMonitoringStack) : Prop :=
  if usesOptions (mets_CustomMonitoringStack (met_Spec i))
  then exists d, NewMonitoringStack i serviceLabels = inl d /\ obs_Spec o = obs_Spec d
  else mets_CustomMonitoringStack (met_Spec i) = Some (obs_Spec o).

(** The scrape interval of the exposed options, 30s when there is none. *)
Definition wantedInterval (i : MetricStorage) : string :=
  match ms_ScrapeInterval <$> mets_MonitoringStack (met_Spec i) with
  | None | Some "" => "30s"
  | Some interval => interval
  end.

(** The ServiceMonitor selects Ceilometer's Service and drops the labels of
    the pod the samples come through. *)
Definition monitorOk (i : MetricStorage) (m : ServiceMonitorObj) : Prop :=
  sm_Endpoints m = [MkMonitorEndpoint (wantedInterval i)
    ((fun l => MkRelabel "labeldrop" l []) <$> ["pod"; "namespace"; "instance"; "job"; "publisher"])] /\
  sm_Selector m = MkSelector (Some {[ AppSelector := "ceilometer" ]}) None.

Lemma scrapeInterval_wanted i labels targets :
  scf_ScrapeInterval (ScrapeConfig i labels targets) = wantedInterval i.
Proof.
  unfold ScrapeConfig, wantedInterval. simpl. destruct (mets_MonitoringStack _) as [m|]; [|done]. simpl.
  by destruct (ms_ScrapeInterval m).
Qed.

Lemma monitorOk_ServiceMonitor i labels m : monitorOk i
  (MkServiceMonitor m (sm_Endpoints (ServiceMonitor i labels {[ AppSelector := "ceilometer" ]}))
     (sm_Selector (ServiceMonitor i labels {[ AppSelector := "ceilometer" ]}))).
Proof.
  split; [|done]. change (sm_Endpoints (MkServiceMonitor m ?e ?s)) with e. unfold ServiceMonitor.
  cbn [sm_Endpoints]. unfold wantedInterval. destruct (mets_MonitoringStack _) as [st|]; [|done]. simpl.
  by destruct (ms_ScrapeInterval st).
Qed.

(** The targets [ts] are those a run of [getNodeExporterTargets] within [tr]
    found in the namespace of [i]. *)
Definition readTargets (i : MetricStorage) (tr : list (event CallE)) (ts : list string) : Prop :=
  exists pre tr0 post j s0, tr = pre ++ tr0 ++ post /\
    meta_Namespace (met_Meta j) = meta_Namespace (met_Meta i) /\
    runs (getNodeExporterTargets j s0) tr0 (s0, Val (inl ts)).

Definition scrapeOk (i : MetricStorage) (tr : list (event CallE)) (sc : ScrapeConfigObj) : Prop :=
  scf_ScrapeInterval sc = wantedInterval i /\ Forall isTarget (scf_Targets sc) /\
  readTargets i tr (scf_Targets sc).

(** A property of a trace and an object that holds of longer traces too. *)
Definition extends {A} (P : list (event CallE) -> A -> Prop) : Prop :=
  forall pre tr post a, P tr a -> P (pre ++ tr ++ post) a.

Lemma scrapeOk_extends i : extends (scrapeOk i).
Proof.
  intros pre tr post sc (Hi & Ht & pre0 & tr0 & post0 & j & s0 & -> & Hj). split_and!; [done..|].
  exists (pre ++ pre0), tr0, (post0 ++ post), j, s0. by rewrite <-!app_assoc.
Qed.

(** The targets are the hosts of the node sets when there is no IPSet. *)
Lemma scrapeOk_complete i tr sc sets : scrapeOk i tr sc -> Forall (keeps (noIPSets sets)) tr ->
  (forall ns, ns ∈ sets -> hasTelemetry ns = true ->
     Forall (fun p => usable p.2) (map_to_list (nset_Nodes ns))) ->
  scf_Targets sc ≡ₚ expectedTargets sets.
Proof.
  intros (_ & _ & pre & tr0 & post & j & s0 & -> & _ & Hr) [_ [Hok _]%Forall_app]%Forall_app Hu.
  destruct (targets_complete j sets s0 tr0 s0 _ Hr Hok Hu) as (_ & ts & [= ->] & Hts). exact Hts.
Qed.

Lemma mutateStack_reads i o :
  reads (fun r => forall o', r = inl o' -> stackSpecOk i o') (mutateStack i serviceLabels o).
Proof.
  unfold mutateStack, stackSpecOk.
  destruct (usesOptions _) eqn:Hu; [destruct (NewMonitoringStack _ _) as [d|err] eqn:Hd|].
  - apply reads_call_bind; [done|intros [m|err]]; apply reads_ret; [|done].
    intros o' [= <-]. by exists d.
  - by apply reads_ret.
  - apply reads_call_bind; [done|intros [m|err]]; apply reads_ret; [|done].
    intros o' [= <-]. simpl. by destruct (mets_CustomMonitoringStack _).
Qed.

Lemma mutateMonitor_reads i o :
  reads (fun r => forall o', r = inl o' -> monitorOk i o') (mutateMonitor i serviceLabels o).
Proof.
  unfold mutateMonitor. apply reads_call_bind; [done|intros [m|err]]; apply reads_ret; [|done].
  intros o' [= <-]. apply (monitorOk_ServiceMonitor i serviceLabels).
Qed.

(** A handler that writes nothing, leaves the state as it is and returns an
    error or an object that satisfies [P] of its trace. *)
Definition builds {A} (P : list (event CallE) -> A -> Prop) (m : SM (A + GoError)) : Prop :=
  forall s, wpM anyAnswer m s (fun tr s' o => omap written tr = [] /\ s' = s /\
    exists r, o = Val r /\ forall a, r = inl a -> P tr a).

Lemma reads_builds {A} (P : A -> Prop) (m : SM (A + GoError)) :
  reads (fun r => forall a, r = inl a -> P a) m -> builds (fun _ => P) m.
Proof. intros Hm s. exact (Hm s). Qed.

Lemma mutateScrape_builds i o : builds (scrapeOk i) (mutateScrape i serviceLabels o).
Proof.
  intros s. unfold mutateScrape. wpm_step. eapply wpM_mono; [|exact (wpM_self _ _ _)].
  intros tr s' out Hr.
  destruct (runs_wp_any _ _ _ _ (getNodeExporterTargets_reads i s) Hr) as (Ht & -> & [ts|err] & -> & Hts);
    [|wpm_step; split_and!; [by rewrite app_nil_r|done|eauto]; naive_solver].
  wpm_step. wpm_step. destruct x as [m|err]; wpm_step; rewrite omap_app, Ht; (split_and!; [done|done|]);
    eexists; (split; [done|]); [|done].
  intros sc [= <-]. split_and!; [apply (scrapeInterval_wanted i serviceLabels ts)|by apply Hts|].
  eexists [], tr, _, i, s. split_and!; [reflexivity|done|exact Hr].
Qed.

Definition wrote (k : Kind) : obj k -> obj k -> Written :=
  match k with
  | StackKind => fun o o' => WroteStack o (obs_Conditions o')
  | MonitorKind => fun o _ => WroteMonitor o
  | ScrapeKind => fun o _ => WroteScrape o
  end.

Lemma createOrPatch_wp k key fresh mutate (P : list (event CallE) -> obj k -> Prop) s :
  extends P -> (forall o, builds P (mutate o)) ->
  wpM anyAnswer (createOrPatch k key fresh mutate) s (fun tr s' out => s' = s /\
    exists r, out = Val r /\
      match r with
      | inl (o', _) => exists o, P tr o /\ omap written tr = [wrote k o o']
      | inr _ => True
      end).
Proof.
  intros HP Hm. unfold createOrPatch. wpm_step. wpm_step. destruct x as [found|err]; [|wpm; eauto].
  wpm_step. eapply wpM_mono; [|apply Hm]. intros tr s' out (Ht & -> & r & -> & Hr).
  destruct r as [o|err]; [|wpm; eauto]. wpm_step. rename x into ans.
  split; [done|]. exists ans. split; [done|]. destruct ans as [[o' op]|]; [|done].
  exists o. split; [by apply (HP [_] tr [_]), Hr|]. rewrite !omap_app, Ht.
  by destruct k.
Qed.

Lemma ensureWatches_wp name s Q :
  (forall tr s' r, omap written tr = [] -> rs_Instance s' = rs_Instance s ->
     (forall n, n ∈ rs_Watching s -> n ∈ rs_Watching s') ->
     (r = None -> name ∈ rs_Watching s') -> Q tr s' (Val r)) ->
  wpM anyAnswer (ensureWatches name) s Q.
Proof.
  intros HQ. unfold ensureWatches. wpm_step. wpm_step. destruct (bool_decide _) eqn:Hin.
  { apply bool_decide_eq_true in Hin. wpm. by apply HQ. }
  wpm_step. wpm_step. destruct x as [err|]; [wpm; by apply HQ|].
  wpm_step. wpm_step. destruct x as [err|]; simpl; wpm; apply HQ; try done; simpl.
  - intros n Hn. apply elem_of_app. by left.
  - intros _. apply elem_of_app. right. by apply list_elem_of_singleton.
Qed.

Definition onSuccess (R : list (event CallE) -> ReconcilerState -> Prop)
    (tr : list (event CallE)) (s : ReconcilerState) (o : outcome RE) : Prop :=
  o = Val (emptyResult, None) -> R tr s.

(** The condition of the MonitoringStack after the answer [cs]. *)
Definition afterStack (cs : list StackCondition) (conds : Conditions) : Conditions :=
  match firstNotTrue cs with
  | Some c => MarkFalse conds MonitoringStackReadyCondition (ReasonText (sc_Reason c)) SeverityError
                (text (sc_Message c))
  | None => if Nat.eqb (length cs) 0 then conds
            else MarkTrue conds MonitoringStackReadyCondition (lib "ReadyMessage")
  end.

(** One part of the pass went through: [name] is watched, the conditions are
    [c] and the rest of the instance is untouched. *)
Definition stepTo (name : string) (c : Conditions) (s s' : ReconcilerState) : Prop :=
  name ∈ rs_Watching s' /\ (forall n, n ∈ rs_Watching s -> n ∈ rs_Watching s') /\
  rs_Instance s' = crSetConds c (rs_Instance s).

Lemma deployStack_wp i rest s R :
  (forall tr s' o cs, omap written tr = [WroteStack o cs] -> stackSpecOk i o ->
     stepTo "monitoringstacks.monitoring.rhobs" (afterStack cs (crConds s)) s s' ->
     wpM anyAnswer rest s' (onSuccess (fun tr' => R (tr ++ tr')))) ->
  wpM anyAnswer (deployStack i rest) s (onSuccess R).
Proof.
  intros HR. unfold deployStack. wpm_step. apply ensureWatches_wp.
  intros tr s1 [err|] Ht Hi Hw Hn; [unfold markFalse, modifyConds; wpm; intros [= ]|].
  wpm_step. eapply wpM_mono; [|apply (createOrPatch_wp StackKind _ _ _ (fun _ => stackSpecOk i)); [by intros ????|];
    intros o; apply reads_builds, mutateStack_reads].
  intros tr1 s2 out (-> & r & -> & Hr). destruct r as [[o' op]|]; [|wpm; intros [= ]].
  destruct Hr as (o & Ho & Ht1). wpm_step.
  assert (wpM anyAnswer (reflectStack (obs_Conditions o')) s1 (fun tr s' out => tr = [] /\
    s' = MkState (crSetConds (afterStack (obs_Conditions o') (crConds s)) (rs_Instance s1)) (rs_Watching s1) /\
    out = Val tt)) as Hrefl.
  { unfold reflectStack, afterStack, markFalse, markTrue, modifyConds. destruct s as [i0 w0], s1 as [i1 w1].
    simpl in Hi. subst i1. destruct (firstNotTrue _); [wpm; done|]. destruct (_ =? _)%nat; wpm; [|done].
    split_and!; [done| |done]. by destruct i0 as [? ? []]. }
  eapply wpM_mono; [|exact Hrefl]. intros tr2 s2 out2 (-> & -> & ->).
  eapply wpM_mono; [|eapply (HR (tr ++ tr1)); [| |split_and!; [by apply Hn|exact Hw|]]].
  - intros tr3 s3 o3 H Ho3. simpl. rewrite app_assoc. by apply H.
  - rewrite omap_app, Ht. exact Ht1.
  - exact Ho.
  - simpl. by rewrite Hi.
Qed.

(** The parts that deploy the ServiceMonitor and the ScrapeConfig. *)
Lemma deployPart_wp name t reason msg k key fresh mutate (P : list (event CallE) -> obj k -> Prop) rest s R :
  extends P -> (forall o, builds P (mutate o)) ->
  (forall tr s' o o', omap written tr = [wrote k o o'] -> P tr o ->
     stepTo name (MarkTrue (crConds s) t (lib "ReadyMessage")) s s' ->
     wpM anyAnswer rest s' (onSuccess (fun tr' => R (tr ++ tr')))) ->
  wpM anyAnswer
    (let* err := ensureWatches name in
     match err with
     | Some err => markFalse t reason SeverityError (msg (err_text err)) ;;; ret pause
     | None =>
         let* r := createOrPatch k key fresh mutate in
         match r with
         | inr err => ret (emptyResult, Some err)
         | inl _ => markTrue t (lib "ReadyMessage") ;;; rest
         end
     end) s (onSuccess R).
Proof.
  intros HP Hm HR. wpm_step. apply ensureWatches_wp.
  intros tr s1 [err|] Ht Hi Hw Hn; [unfold markFalse, modifyConds; wpm; intros [= ]|].
  wpm_step. eapply wpM_mono; [|by apply createOrPatch_wp].
  intros tr1 s2 out (-> & r & -> & Hr). destruct r as [[o' op]|]; [|wpm; intros [= ]].
  destruct Hr as (o & Ho & Ht1). unfold markTrue, modifyConds. wpm_step. wpm_step.
  eapply wpM_mono; [|eapply (HR (tr ++ tr1)); [| |split_and!; [by apply Hn|exact Hw|]]].
  - intros tr3 s3 o3 H Ho3. simpl. rewrite app_assoc. by apply H.
  - rewrite omap_app, Ht. exact Ht1.
  - rewrite <-(app_nil_r tr1). by apply HP.
  - simpl. by rewrite Hi.
Qed.

Lemma watchNodeSets_wp rest s R :
  (forall tr s', omap written tr = [] ->
     stepTo "openstackdataplanenodesets.dataplane.openstack.org"
       (MarkTrue (crConds s) NodeSetReadyCondition (lib "ReadyMessage")) s s' ->
     wpM anyAnswer rest s' (onSuccess (fun tr' => R (tr ++ tr')))) ->
  wpM anyAnswer (watchNodeSets rest) s (onSuccess R).
Proof.
  intros HR. unfold watchNodeSets. wpm_step. apply ensureWatches_wp.
  intros tr s1 [err|] Ht Hi Hw Hn; unfold markFalse, markTrue, modifyConds; [wpm; intros [= ]|].
  wpm_step. wpm_step. eapply wpM_mono; [|eapply (HR tr); [done|]].
  - intros tr' s' o H Ho. simpl. by apply H.
  - split_and!; [by apply Hn|exact Hw|]. simpl. by rewrite Hi.
Qed.

(** The outcome of a pass that goes through all its parts. *)
Definition deployed (i : MetricStorage) (tr : list (event CallE)) (s : ReconcilerState) : Prop :=
  exists o cs m sc,
    omap written tr = [WroteStack o cs; WroteMonitor m; WroteScrape sc] /\
    stackSpecOk i o /\ monitorOk i m /\ scrapeOk i tr sc /\
    ["monitoringstacks.monitoring.rhobs"; "servicemonitors.monitoring.rhobs";
     "openstackdataplanenodesets.dataplane.openstack.org"; "scrapeconfigs.monitoring.rhobs"]
      ⊆ rs_Watching s /\
    crConds s =
      MarkTrue (MarkTrue (MarkTrue (afterStack cs (crConds i))
        ServiceMonitorReadyCondition (lib "ReadyMessage"))
        NodeSetReadyCondition (lib "ReadyMessage"))
        ScrapeConfigReadyCondition (lib "ReadyMessage").

Lemma reconcileNormal_deploys s :
  mets_CustomMonitoringStack (met_Spec (rs_Instance s)) <> None \/
  mets_MonitoringStack (met_Spec (rs_Instance s)) <> None ->
  wpM anyAnswer reconcileNormal s (onSuccess (deployed (rs_Instance s))).
Proof.
  intros Hcfg. unfold reconcileNormal. wpm_step. wpm_step. cbv zeta.
  assert (wpM anyAnswer (deployStack (rs_Instance s) (deployMonitor (rs_Instance s)
    (watchNodeSets (deployScrape (rs_Instance s) (ret (emptyResult, None)))))) s
    (onSuccess (deployed (rs_Instance s)))) as H.
  2: { destruct (mets_CustomMonitoringStack _); [exact H|].
       destruct (mets_MonitoringStack _); [exact H|]. naive_solver. }
  apply deployStack_wp. intros tr1 s1 o cs H1 Ho (W1 & K1 & I1).
  apply (deployPart_wp _ _ _ _ MonitorKind _ _ _ (fun _ => monitorOk (rs_Instance s))); [by intros ????| |].
  { intros o2. apply reads_builds, mutateMonitor_reads. }
  intros tr2 s2 m o2 H2 Hm (W2 & K2 & I2).
  apply watchNodeSets_wp. intros tr3 s3 H3 (W3 & K3 & I3).
  eapply (deployPart_wp _ _ _ _ ScrapeKind); [apply (scrapeOk_extends (rs_Instance s))|apply mutateScrape_builds|].
  intros tr4 s4 sc o4 H4 Hsc (W4 & K4 & I4).
  wpm_step. intros _. exists o, cs, m, sc. rewrite !omap_app, H1, H2, H3, H4.
  split_and!; [done..| | |].
  - rewrite !(app_assoc tr1), !(app_assoc (_ ++ tr2)). by apply scrapeOk_extends.
  - intros n. rewrite !elem_of_cons, elem_of_nil. naive_solver.
  - simpl in *. by rewrite I4, I3, I2, I1.
Qed.

(** A MetricStorage past its first passes: not being deleted, with the
    finalizer and with conditions. *)
Definition live (i : MetricStorage) : Prop :=
  notDeleting (met_Meta i) = true /\ finalizer ∈ meta_Finalizers (met_Meta i) /\ crConds i <> None.

Lemma reconcileBody_live ok s Q :
  live (rs_Instance s) -> wpM ok reconcileNormal s Q -> wpM ok reconcileBody s Q.
Proof.
  intros (Hd & Hf & Hc) HQ. unfold reconcileBody. wpm_step. wpm_step. simpl. rewrite Hd.
  wpm_step. apply addFinalizer_present; [done|]. cbv beta iota. wpm_step. wpm_step.
  simpl in *. destruct (mett_Conditions _); [|done]. by rewrite Hd.
Qed.

(** C28. A complete pass: when a pass over a live MetricStorage with a
    configured stack ends with an empty result and no error, it has written
    the MonitoringStack, the ServiceMonitor and the ScrapeConfig, in this
    order and nothing else, and the four kinds are watched.  The stack has the
    spec the object asks for; the ServiceMonitor and the ScrapeConfig have the
    scrape interval of the object, 30s without one; the targets are those
    [getNodeExporterTargets] found during the pass, and without IPSets they
    are exactly the hosts of the nodes that run the telemetry service, when
    each has a usable one.  The conditions are True, and the one of the
    MonitoringStack follows the conditions the API server answered: the first
    that is not True makes it False; an answer without conditions leaves it
    as it was. *)
Theorem metricstorage_pass_deploys w req tr w' i i' err :
  runs (Reconcile w req) tr (w', Val (emptyResult, None)) -> fetched tr = Some i -> live i ->
  mets_CustomMonitoringStack (met_Spec i) <> None \/ mets_MonitoringStack (met_Spec i) <> None ->
  (i', err) ∈ omap patchOf tr ->
  exists o cs m sc,
    omap written tr = [WroteStack o cs; WroteMonitor m; WroteScrape sc] /\
    stackSpecOk i o /\ monitorOk i m /\ scrapeOk i tr sc /\
    (forall sets, Forall (keeps (noIPSets sets)) tr ->
       (forall ns, ns ∈ sets -> hasTelemetry ns = true ->
          Forall (fun p => usable p.2) (map_to_list (nset_Nodes ns))) ->
       scf_Targets sc ≡ₚ expectedTargets sets) /\
    ["monitoringstacks.monitoring.rhobs"; "servicemonitors.monitoring.rhobs";
     "openstackdataplanenodesets.dataplane.openstack.org"; "scrapeconfigs.monitoring.rhobs"] ⊆ w' /\
    (forall t, t ∈ [ServiceMonitorReadyCondition; NodeSetReadyCondition; ScrapeConfigReadyCondition] ->
       statusOf (crConds i') t = Some ConditionTrue) /\
    statusOf (crConds i') MonitoringStackReadyCondition =
      match firstNotTrue cs with
      | Some _ => Some ConditionFalse
      | None => if Nat.eqb (length cs) 0 then statusOf (crConds i) MonitoringStackReadyCondition
                else Some ConditionTrue
      end.
Proof.
  intros Hr Hf Hl Hcfg Hp. destruct (Reconcile_runs _ _ _ _ _ _ Hr Hf) as
    [(e & _ & _ & [=])|(tr' & s & e & Hb & -> & ->)].
  destruct (runs_wp_any _ _ _ _ (metricStorage_reconcileBody_safe (MkState i w) I) Hb) as (_ & HP & _).
  simpl in Hp. rewrite omap_app, omap_None in Hp by done.
  apply list_elem_of_singleton in Hp. simplify_eq.
  pose proof (reconcileBody_live anyAnswer (MkState i w) _ Hl
    (reconcileNormal_deploys (MkState i w) Hcfg)) as Hwp.
  destruct (runs_wp_any _ _ _ _ Hwp Hb eq_refl) as (o & cs & m & sc & Hw & Ho & Hm & Hsc & Hwat & Hcs).
  pose proof (scrapeOk_extends i [Ev (GetMetricStorage req) (inl i); Ev (NewHelper i) None] tr'
    [Ev (PatchInstance (rs_Instance (finish s))) e] sc Hsc) as Hsc'.
  exists o, cs, m, sc. simpl omap. rewrite omap_app. simpl. rewrite app_nil_r.
  assert (forall t, t <> ReadyCondition ->
    getCond (crConds (rs_Instance (finish s))) t = getCond (crConds s) t) as Hfin.
  { intros t Ht. by apply (updateReady_other (crConds s)). }
  split_and!; [done..| |done| |]; unfold statusOf.
  - intros sets. by apply (scrapeOk_complete i).
  - intros t Ht.
    repeat (apply elem_of_cons in Ht as [->|Ht];
      [rewrite Hfin, Hcs, ?MarkTrue_ne by done; apply MarkTrue_get|]).
    by apply not_elem_of_nil in Ht.
  - rewrite Hfin by done. rewrite Hcs, !MarkTrue_ne by done. unfold afterStack.
    destruct (firstNotTrue cs) as [c|].
    + rewrite MarkFalse_get. simpl. by rewrite FalseCondition_status.
    + destruct (_ =? _)%nat; [done|]. apply MarkTrue_get.
Qed.

(** *** The targets of the ScrapeConfig, without IPSets *)

(** C29. Completeness of the scrape targets: with no IPSet, and a usable
    AnsibleHost on every node of the node sets that run the telemetry service,
    the targets are exactly those hosts on the node exporter's port, each
    node once, whatever the order Go visits the nodes in; node sets without
    the telemetry service contribute none. *)
Theorem node_targets_complete i sets s tr s' o :
  runs (getNodeExporterTargets i s) tr (s', o) -> Forall (keeps (noIPSets sets)) tr ->
  (forall ns, ns ∈ sets -> hasTelemetry ns = true ->
     Forall (fun p => usable p.2) (map_to_list (nset_Nodes ns))) ->
  s' = s /\ exists ts, o = Val (inl ts) /\ ts ≡ₚ expectedTargets sets.
Proof. apply targets_complete. Qed.

(** *** The address of a node *)

(** A host that can be scraped: a domain name (the dotted decimal addresses
    are among them) or another address, which has a colon. *)
Definition scrapable (host : string) : Prop :=
  isDomain (String.list_ascii_of_string host) \/
  ":"%char ∈ String.list_ascii_of_string host /\ ParseIP host <> None.

Lemma usable_scrapable n : usable n <-> scrapable (node_AnsibleHost n).
Proof.
  unfold usable, scrapable. rewrite isValidDomain_spec.
  pose proof (ParseIP_isDomain (node_AnsibleHost n)). tauto.
Qed.

(** The address by AnsibleHost and HostName, read off the two texts. *)
Inductive hostAddress (n : Node) : string -> Prop :=
| address_ansible : scrapable (node_AnsibleHost n) -> hostAddress n (node_AnsibleHost n)
| address_name : ~ scrapable (node_AnsibleHost n) ->
    isDomain (String.list_ascii_of_string (node_HostName n)) -> hostAddress n (node_HostName n)
| address_none : ~ scrapable (node_AnsibleHost n) ->
    ~ isDomain (String.list_ascii_of_string (node_HostName n)) -> hostAddress n "".

Lemma getAddressFromAnsibleHost_hostAddress n : hostAddress n (getAddressFromAnsibleHost n).
Proof.
  unfold getAddressFromAnsibleHost.
  assert (usable n -> hostAddress n (node_AnsibleHost n)) as Hu
    by (rewrite usable_scrapable; by constructor).
  destruct (ParseIP (node_AnsibleHost n)) eqn:Hp; [apply Hu; left; congruence|].
  destruct (isValidDomain (node_AnsibleHost n)) eqn:Hv; [apply Hu; by right|].
  assert (~ scrapable (node_AnsibleHost n)) as Hn
    by (rewrite <-usable_scrapable; unfold usable; rewrite Hp, Hv; naive_solver).
  destruct (isValidDomain (node_HostName n)) eqn:Hd; constructor; try done; rewrite <-isValidDomain_spec; congruence.
Qed.

Lemma hostAddress_inj n a a' : hostAddress n a -> hostAddress n a' -> a = a'.
Proof. by do 2 inversion_clear 1. Qed.

(** C24. The address of a node without a reservation is decided by its two
    names: AnsibleHost when it is a domain name of two or more labels, which
    every dotted decimal address is, or an address with a colon; otherwise
    HostName when that is a domain name of two or more labels; otherwise
    there is none, which ends the list of targets. *)
Theorem ansible_host_address n a : getAddressFromAnsibleHost n = a <-> hostAddress n a.
Proof.
  split; [intros <-; apply getAddressFromAnsibleHost_hostAddress|].
  apply hostAddress_inj, getAddressFromAnsibleHost_hostAddress.
Qed.

(** An address with a colon becomes a target in which the port is not
    separated from it: the whole is the text of another address. *)
Example ipv6_target_ambiguous :
  target (getAddressFromAnsibleHost (MkNode "edpm-0" "fd00:bbbb::64")) = "fd00:bbbb::64:9100" /\
  ParseIP "fd00:bbbb::64:9100" <> None.
Proof. by vm_compute. Qed.

(** *** The targets of the ScrapeConfig, with IPSets *)

(** The data plane as the API server has it: the node sets, the IPSet of a
    node by its name, and the networks of the telemetry service, if it
    exists. *)
Record DataPlane := MkDataPlane {
  dp_NodeSets : list NodeSet;
  dp_IPSets : gmap string IPSet;
  dp_Telemetry : option (list string)
}.

Definition answers (dp : DataPlane) : contract CallE := fun X e =>
  match e in CallE X return X -> Prop with
  | ListIPSets _ => fun x => exists l, x = inl l /\ l ≡ₚ (map_to_list (dp_IPSets dp)).*2
  | ListNodeSets _ => fun x => x = inl (dp_NodeSets dp)
  | GetDataPlaneService _ => fun x =>
      match dp_Telemetry dp with
      | Some networks => x = inl (MkDataPlaneService networks)
      | None => exists err, x = inr err
      end
  | GetIPSet key => fun x =>
      match dp_IPSets dp !! key_Name key with
      | Some ipset => x = inl ipset
      | None => exists err, x = inr err
      end
  | RangeNodes nodes => fun x => x ≡ₚ map_to_list nodes
  | _ => fun _ => True
  end.

(** The reservation is on a network of the telemetry service. *)
Definition onTelemetry (dp : DataPlane) (r : Reservation) : Prop :=
  exists networks, dp_Telemetry dp = Some networks /\ res_Network r ∈ networks.

(** The address of the node [n] with the name [name]: of its IPSet the first
    reservation on a network of the telemetry service, and the address by its
    host names when there is none; without an IPSet only its HostName. *)
Inductive nodeAddress (dp : DataPlane) (name : string) (n : Node) : string -> Prop :=
| address_reserved ipset pre r post :
    dp_IPSets dp !! name = Some ipset -> ips_Reservation ipset = pre ++ r :: post ->
    Forall (fun r' => ~ onTelemetry dp r') pre -> onTelemetry dp r ->
    nodeAddress dp name n (res_Address r)
| address_host ipset a :
    dp_IPSets dp !! name = Some ipset ->
    Forall (fun r' => ~ onTelemetry dp r') (ips_Reservation ipset) -> hostAddress n a ->
    nodeAddress dp name n a
| address_unlisted :
    dp_IPSets dp !! name = None -> isDomain (String.list_ascii_of_string (node_HostName n)) ->
    nodeAddress dp name n (node_HostName n).

Lemma findReservation_first dp networks pre r post : dp_Telemetry dp = Some networks ->
  Forall (fun r' => ~ onTelemetry dp r') pre -> onTelemetry dp r ->
  findReservation (pre ++ r :: post) networks = Some (res_Address r).
Proof.
  intros Ht Hpre (nets & Hn & Hin). rewrite Ht in Hn. simplify_eq.
  induction Hpre as [|r' pre Hr' _ IH]; simpl; case_match eqn:Hx; [done| |exfalso|done].
  - exfalso. rewrite <-not_true_iff_false, existsb_exists in Hx. apply Hx.
    exists (res_Network r). rewrite String.eqb_eq. by rewrite <-list_elem_of_In.
  - apply existsb_exists in Hx as (net & ?%list_elem_of_In & <-%String.eqb_eq).
    apply Hr'. by exists nets.
Qed.

Lemma findReservation_none dp networks rs : dp_Telemetry dp = Some networks ->
  Forall (fun r' => ~ onTelemetry dp r') rs -> findReservation rs networks = None.
Proof.
  intros Ht. induction 1 as [|r rs Hr _ IH]; simpl; [done|]. case_match eqn:Hx; [|done]. exfalso.
  apply existsb_exists in Hx as (net & ?%list_elem_of_In & <-%String.eqb_eq). apply Hr. by exists networks.
Qed.

Lemma getAddressFromIPSet_address dp i n key a s (Q : ReconcilerState -> outcome string -> Prop) :
  nodeAddress dp (key_Name key) n a -> Q s (Val a) ->
  wpM (answers dp) (getAddressFromIPSet i n key) s (fun _ => Q).
Proof.
  intros Ha HQ. unfold getAddressFromIPSet, getTelemetryDataPlaneService. wpm_step. apply wpM_call.
  intros svc Hsvc. simpl in Hsvc. wpm_step. apply wpM_call. intros x Hx. simpl in Hx.
  destruct Ha as [ipset pre r post Hi Hr Hpre Ht|ipset a Hi Hrs Ha|Hi Hd].
  - rewrite Hi in Hx. subst x. pose proof Ht as (nets & Hn & _). rewrite Hn in Hsvc. subst svc. simpl.
    rewrite Hr, (findReservation_first dp) by done. by wpm_step.
  - rewrite Hi in Hx. subst x.
    rewrite (hostAddress_inj n _ _ (getAddressFromAnsibleHost_hostAddress n) Ha).
    destruct (dp_Telemetry dp) as [nets|] eqn:Hn; [subst svc|destruct Hsvc as [err ->]]; simpl;
      [rewrite (findReservation_none dp) by done|]; by wpm_step.
  - rewrite Hi in Hx. destruct Hx as [err ->]. apply isValidDomain_spec in Hd. rewrite Hd. by wpm_step.
Qed.

Lemma nodeLoop_reserved dp i addr nodes addrs s (Q : ReconcilerState -> outcome (list string * bool) -> Prop) :
  Forall (fun '(name, n) => nodeAddress dp name n (addr name n) /\ addr name n <> "") nodes ->
  Q s (Val (addrs ++ map (fun '(name, n) => target (addr name n)) nodes, true)) ->
  wpM (answers dp) (nodeLoop i true nodes addrs) s (fun _ => Q).
Proof.
  intros Hn. revert addrs. induction Hn as [|[name n] nodes [Ha Hne] _ IH]; intros addrs HQ; simpl in *.
  { rewrite app_nil_r in HQ. by wpm_step. }
  wpm_step. apply (getAddressFromIPSet_address dp _ _ _ (addr name n)); [exact Ha|]. simpl.
  destruct (String.eqb_spec (addr name n) "") as [|_]; [done|]. apply IH. by rewrite <-app_assoc.
Qed.

(** C25. Reserved addresses are scraped: once there are IPSets, and every node
    of the node sets that run the telemetry service has an address (of its
    IPSet the first reservation on a network of the telemetry service,
    otherwise its host, and only the host name for a node without an IPSet),
    the targets are exactly these addresses on the node exporter's port, each
    node once, whatever the order Go visits the nodes in and the API server
    lists the IPSets in. *)
Theorem node_targets_reserved dp i addr s tr s' o :
  runs (getNodeExporterTargets i s) tr (s', o) -> Forall (keeps (answers dp)) tr ->
  dp_IPSets dp <> ∅ ->
  (forall ns, ns ∈ dp_NodeSets dp -> hasTelemetry ns = true -> forall name n,
     nset_Nodes ns !! name = Some n -> nodeAddress dp name n (addr name n) /\ addr name n <> "") ->
  s' = s /\ exists ts, o = Val (inl ts) /\
    ts ≡ₚ targetsBy (fun '(name, n) => target (addr name n)) (dp_NodeSets dp).
Proof.
  intros Hr Hok Hne Hu. revert Hr Hok. apply (runs_wpM _ _ _ (fun _ s' o => s' = s /\
    exists ts, o = Val (inl ts) /\ ts ≡ₚ targetsBy (fun '(name, n) => target (addr name n)) (dp_NodeSets dp))).
  unfold getNodeExporterTargets, getIPSetList, getNodeSetList. wpm_step. apply wpM_call.
  intros x (l & -> & Hl). wpm_step. apply wpM_call. intros x ->. wpm_step.
  assert (length l <> 0) as Hlen.
  { rewrite Hl, length_fmap, length_map_to_list. intros H%map_size_empty_iff. done. }
  destruct (Nat.eqb_spec (length l) 0) as [|_]; [done|]. simpl negb.
  eapply wpM_mono; [|eapply nodeSetLoop_targets; [done|intros nodes addrs Q; apply nodeLoop_reserved|]].
  - intros tr' s1 o1 (-> & ts & -> & Hts). wpm_step. eauto.
  - intros ns Hin Ht. apply Forall_forall. intros [name n] Hm%elem_of_map_to_list. by apply (Hu ns).
Qed.

(** The same API server with the one node set [ns], whose nodes Go visits in
    the order [l]. *)
Definition visiting (ns : NodeSet) (l : list (string * Node)) : contract CallE := fun X e =>
  match e in CallE X return X -> Prop with
  | ListIPSets _ => fun x => x = inl []
  | ListNodeSets _ => fun x => x = inl [ns]
  | RangeNodes nodes => fun x => x = l
  | _ => fun _ => True
  end.

(** One node without an address hides others: when Go visits the nodes of
    the only telemetry node set in the order [pre], [(name, n)], [post] and
    the host of [n] is empty, or neither it nor the host name is an address,
    the targets are those of [pre]; the nodes in [post] are not scraped, and
    no error is reported. *)
Theorem node_targets_truncated i ns pre name n post s tr s' o :
  runs (getNodeExporterTargets i s) tr (s', o) ->
  Forall (keeps (visiting ns (pre ++ (name, n) :: post))) tr ->
  hasTelemetry ns = true -> Forall (fun p => usable p.2) pre ->
  node_AnsibleHost n = "" \/ getAddressFromAnsibleHost n = "" ->
  o = Val (inl (hostTargets pre)).
Proof.
  intros Hr Hok Ht Hpre Hn.
  refine (runs_wp _ _ (fun tr '(s', o) => o = Val (inl (hostTargets pre))) _ _ _ Hr Hok).
  change (wpM (visiting ns (pre ++ (name, n) :: post)) (getNodeExporterTargets i) s
    (fun tr s' o => o = Val (inl (hostTargets pre)))).
  unfold getNodeExporterTargets, getIPSetList, getNodeSetList. wpm_step. apply wpM_call. intros x ->. wpm_step. apply wpM_call.
  intros x ->. wpm_step. simpl. fold (hasTelemetry ns). rewrite Ht. simpl.
  wpm_step. apply wpM_call. intros x ->. wpm_step. apply nodeLoop_usable; [done|]. simpl.
  destruct (String.eqb_spec (node_AnsibleHost n) "") as [|Hne]; simpl; [by wpm|].
  destruct Hn as [|Ha]; [done|]. rewrite Ha. by wpm.
Qed.
End Pass.
(** The handlers down to their calls. *)
Ltac unfold_metricstorage :=
  unfold reconcileBody, reconcileDelete, reconcileNormal, deployStack, deployMonitor, watchNodeSets,
    deployScrape, reflectStack, mutateStack, mutateMonitor, mutateScrape,
    ensureWatches, createOrPatch.

End MetricStorageController.
