(* ===== verification/MetricStorageScenarios.v ===== *)
(** * Scenarios of the MetricStorage controller

    A concrete API server with one node set, on which the theorems of
    [MetricStorageController] are applied. *)

From stdpp Require Import gmap strings list.
From Stdlib Require Import ZArith Lia.
From S2P Require Import Prelude Condition Api Libs Reference Webhooks MetricStoragePkg Address Operator.
From S2P Require Import MetricStorageController.

Module MetricStorageScenarios.
Import MetricStorageController.

Definition req : NamespacedName := MkKey "openstack" "metric-storage".
Definition fin : string := GetFinalizer "MetricStorage".

Definition storage : MetricStorage :=
  Webhooks.MetricStorage_Default
    (MkMetricStorage (MkMeta "metric-storage" "openstack" ∅ ∅ [fin] None [])
       (MkMetricStorageSpec None None) (MkMetricStorageStatus (Some []))).

(** Two nodes with an address, and one whose host is not an address. *)
Definition good1 : string * Node := ("edpm-0", MkNode "edpm-0" "192.168.122.100").
Definition good2 : string * Node := ("edpm-1", MkNode "edpm-1" "edpm-1.example.com").
Definition bad : string * Node := ("edpm-2", MkNode "edpm-2" "edpm-2").

Definition goodSet : NodeSet := MkNodeSet ["nova"; "telemetry"] (list_to_map [good1; good2]).
Definition otherSet : NodeSet := MkNodeSet ["nova"] (list_to_map [bad]).
Definition badSet : NodeSet := MkNodeSet ["telemetry"] (list_to_map [good1; good2; bad]).

(** The API server: the MonitoringStack is answered available; the nodes of a
    node set are visited in the order of [order]. *)
Definition answered (k : Kind) : obj k -> obj k :=
  match k with
  | StackKind => fun o =>
      MkObsStack (obs_Meta o) (obs_Spec o) [MkStackCondition "Available" "True" "Available" ""]
  | _ => fun o => o
  end.

Definition world (sets : list NodeSet) (order : gmap string Node -> list (string * Node))
    (X : Type) (e : CallE X) (u : unit) : X * unit :=
  (match e in CallE X return X with
   | GetMetricStorage _ => inl storage
   | NewHelper _ => None
   | PatchInstance _ => Some (Errorf "conflict")
   | GetCRD _ => None
   | Watch _ => None
   | Fetch k _ => inl None
   | SetControllerReference _ _ m => inl m
   | Commit k o => inl (answered k o, OperationResultCreated)
   | ListIPSets _ => inl []
   | ListNodeSets _ => inl sets
   | GetDataPlaneService _ => inr (MkError true "not found")
   | GetIPSet _ => inr (MkError true "not found")
   | RangeNodes nodes => order nodes
   | ListMetricStorages _ => inl [storage]
   end, u).

Definition serverWorld := world [goodSet; otherSet] map_to_list.

Definition trace := (interp serverWorld (Reconcile [] req) tt).1.1.
Definition result := (interp serverWorld (Reconcile [] req) tt).1.2.

Lemma metricStorage_scenario_runs : runs (Reconcile [] req) trace result.
Proof.
  unfold trace, result. destruct (interp _ _ _) as [[tr o] u] eqn:H. by eapply interp_runs.
Qed.

Definition patched : MetricStorage :=
  match omap patchOf trace with (i', _) :: _ => i' | [] => storage end.

(** A pass, and a second one by the same process. *)
Definition trace2 := (interp serverWorld (Reconcile result.1 req) tt).1.1.
Definition result2 := (interp serverWorld (Reconcile result.1 req) tt).1.2.

Lemma scenario2_runs : runs (Reconcile result.1 req) trace2 result2.
Proof.
  unfold trace2, result2. destruct (interp _ _ _) as [[tr o] u] eqn:H. by eapply interp_runs.
Qed.

Lemma metricstorage_watches_once_witness :
  result2.1 = omap watched ((nil ++ trace) ++ trace2) /\ length result2.1 = 4.
Proof.
  split; [|by vm_compute].
  apply (metricstorage_watches_once result2.1).
  eapply reachable_pass; [eapply reachable_pass; [apply reachable_start|]|].
  - rewrite <-surjective_pairing. apply metricStorage_scenario_runs.
  - rewrite <-surjective_pairing. apply scenario2_runs.
Defined.

(** The API server refuses the patch, and the pass reports success. *)
Lemma metricstorage_patch_error_dropped_witness :
  result.2 = Val (emptyResult, None) /\
  exists pre i' err, trace = pre ++ [Ev (PatchInstance i') (Some err)].
Proof.
  split; [by vm_compute|].
  destruct (metricstorage_patch_error_dropped [] req trace result.1 result.2 storage)
    as [(err & H & _)|(pre & i' & [err|] & H & H' & _)].
  - rewrite <-surjective_pairing. apply metricStorage_scenario_runs.
  - reflexivity.
  - exfalso. apply (f_equal length) in H. vm_compute in H. discriminate H.
  - exists pre, i', err. exact H.
  - exfalso. vm_compute in H'. discriminate H'.
Defined.

Lemma storage_live : live storage.
Proof. split_and!; [done|by apply (bool_decide_unpack _)|done]. Qed.

(** Every node that runs the telemetry service has a usable host. *)
Lemma server_usable ns : ns ∈ [goodSet; otherSet] -> hasTelemetry ns = true ->
  Forall (fun p => usable p.2) (map_to_list (nset_Nodes ns)).
Proof.
  intros [->|[->|Hn]%elem_of_cons]%elem_of_cons Ht; [|done|by apply not_elem_of_nil in Hn].
  unfold goodSet, nset_Nodes.
  rewrite map_to_list_to_map by (apply (bool_decide_unpack _); by vm_compute).
  constructor; [left; by vm_compute|]. constructor; [right; by vm_compute|constructor].
Qed.

Lemma metricstorage_pass_deploys_witness :
  exists o cs m sc, omap written trace = [WroteStack o cs; WroteMonitor m; WroteScrape sc] /\
    scf_Targets sc ≡ₚ ["192.168.122.100:9100"; "edpm-1.example.com:9100"] /\
    statusOf (crConds patched) ScrapeConfigReadyCondition = Some ConditionTrue.
Proof.
  destruct (metricstorage_pass_deploys [] req trace result.1 storage patched (Some (Errorf "conflict")))
    as (o & cs & m & sc & H & _ & _ & _ & Hts & _ & Ht & _).
  - exact metricStorage_scenario_runs.
  - reflexivity.
  - exact storage_live.
  - right. done.
  - apply list_elem_of_In. vm_compute. left. reflexivity.
  - exists o, cs, m, sc. split; [exact H|]. split.
    + rewrite (Hts [goodSet; otherSet]).
      * vm_compute. constructor.
      * apply interp_keeps. by intros X [] u; simpl.
      * exact server_usable.
    + apply Ht. apply list_elem_of_In. simpl. by right; right; left.
Defined.

Definition state : ReconcilerState := MkState storage [].

Definition targetsTrace := (interp serverWorld (getNodeExporterTargets storage state) tt).1.1.
Definition targetsResult := (interp serverWorld (getNodeExporterTargets storage state) tt).1.2.

Lemma targets_runs :
  runs (getNodeExporterTargets storage state) targetsTrace (targetsResult.1, targetsResult.2).
Proof.
  unfold targetsTrace, targetsResult. destruct (interp _ _ _) as [[tr [s o]] u] eqn:H.
  by eapply interp_runs.
Qed.

Lemma node_targets_complete_witness :
  exists ts, targetsResult.2 = Val (inl ts) /\
    ts ≡ₚ ["192.168.122.100:9100"; "edpm-1.example.com:9100"].
Proof.
  destruct (node_targets_complete storage [goodSet; otherSet] state targetsTrace
    targetsResult.1 targetsResult.2 targets_runs) as (_ & ts & Ho & Hts).
  - apply interp_keeps. by intros X [] u; simpl.
  - exact server_usable.
  - exists ts. split; [exact Ho|]. rewrite Hts. vm_compute. constructor.
Defined.

(** A data plane with IPSets: the first node has a reservation on the control
    plane, the second one only on another network. *)
Definition node0 : Node := MkNode "edpm-0" "192.168.122.100".
Definition node1 : Node := MkNode "edpm-1" "edpm-1.example.com".
Definition ipset0 : IPSet :=
  MkIPSet "edpm-0" [MkReservation "tenant" "172.19.0.100"; MkReservation "ctlplane" "172.20.0.100"].
Definition ipset1 : IPSet := MkIPSet "edpm-1" [MkReservation "tenant" "172.19.0.101"].
Definition plane : DataPlane :=
  MkDataPlane [MkNodeSet ["telemetry"] (<["edpm-0" := node0]> {["edpm-1" := node1]})]
    (<["edpm-0" := ipset0]> {["edpm-1" := ipset1]}) (Some ["ctlplane"]).

Definition planeWorld (X : Type) (e : CallE X) (u : unit) : X * unit :=
  (match e in CallE X return X with
   | ListIPSets _ => inl (map_to_list (dp_IPSets plane)).*2
   | ListNodeSets _ => inl (dp_NodeSets plane)
   | GetDataPlaneService _ => inl (MkDataPlaneService ["ctlplane"])
   | GetIPSet key =>
       match dp_IPSets plane !! key_Name key with
       | Some ipset => inl ipset
       | None => inr (MkError true "not found")
       end
   | RangeNodes nodes => map_to_list nodes
   | e => (world [] map_to_list _ e tt).1
   end, u).

Definition planeTrace := (interp planeWorld (getNodeExporterTargets storage state) tt).1.1.
Definition planeResult := (interp planeWorld (getNodeExporterTargets storage state) tt).1.2.

Lemma plane_runs : runs (getNodeExporterTargets storage state) planeTrace (planeResult.1, planeResult.2).
Proof.
  unfold planeTrace, planeResult. destruct (interp _ _ _) as [[tr [s o]] u] eqn:H. by eapply interp_runs.
Qed.

Lemma plane_keeps : Forall (keeps (answers plane)) planeTrace.
Proof.
  apply interp_keeps. intros X e u. destruct e; try done; simpl.
  - eexists. split; [reflexivity|done].
  - unfold plane. simpl. destruct (_ !! _); [reflexivity|]. eexists. reflexivity.
  - done.
Qed.

Definition planeAddress (name : string) (n : Node) : string :=
  if String.eqb name "edpm-0" then "172.20.0.100" else node_AnsibleHost n.

Lemma plane_addresses ns : ns ∈ dp_NodeSets plane -> hasTelemetry ns = true -> forall name n,
  nset_Nodes ns !! name = Some n ->
  nodeAddress plane name n (planeAddress name n) /\ planeAddress name n <> "".
Proof.
  intros ->%list_elem_of_singleton _ name n Hn. simpl in Hn.
  apply lookup_insert_Some in Hn as [[<- <-]|[_ [<- <-]%lookup_singleton_Some]].
  - split; [|done].
    apply (address_reserved plane "edpm-0" node0 ipset0 [MkReservation "tenant" "172.19.0.100"]
      (MkReservation "ctlplane" "172.20.0.100") []); [reflexivity|reflexivity| |].
    + constructor; [|constructor]. intros (nets & [= <-] & Hin%list_elem_of_singleton). discriminate Hin.
    + exists ["ctlplane"]. split; [done|]. by apply list_elem_of_singleton.
  - split; [|done]. apply (address_host plane "edpm-1" node1 ipset1); [reflexivity| |].
    + constructor; [|constructor]. intros (nets & [= <-] & Hin%list_elem_of_singleton). discriminate Hin.
    + apply address_ansible, usable_scrapable. right. by vm_compute.
Qed.

Lemma node_targets_reserved_witness :
  exists ts, planeResult.2 = Val (inl ts) /\
    ts ≡ₚ ["172.20.0.100:9100"; "edpm-1.example.com:9100"].
Proof.
  destruct (node_targets_reserved plane storage planeAddress state planeTrace
    planeResult.1 planeResult.2 plane_runs plane_keeps) as (_ & ts & Ho & Hts).
  - discriminate.
  - exact plane_addresses.
  - exists ts. split; [exact Ho|]. rewrite Hts. apply (bool_decide_unpack _). by vm_compute.
Defined.

(** The bad node is visited second: the third node is not scraped. *)
Definition badWorld := world [badSet] (fun _ => [good1; bad; good2]).
Definition badTrace := (interp badWorld (getNodeExporterTargets storage state) tt).1.1.
Definition badResult := (interp badWorld (getNodeExporterTargets storage state) tt).1.2.

Lemma bad_runs : runs (getNodeExporterTargets storage state) badTrace (badResult.1, badResult.2).
Proof.
  unfold badTrace, badResult. destruct (interp _ _ _) as [[tr [s o]] u] eqn:H.
  by eapply interp_runs.
Qed.

Lemma node_targets_truncated_witness :
  badResult.2 = Val (inl (hostTargets [good1])).
Proof.
  apply (node_targets_truncated storage badSet [good1] bad.1 bad.2 [good2] state badTrace
    badResult.1 badResult.2 bad_runs).
  - apply interp_keeps. by intros X [] u; simpl.
  - by vm_compute.
  - constructor; [left; by vm_compute|constructor].
  - right. by vm_compute.
Defined.
End MetricStorageScenarios.
