(* ===== verification/CeilometerController.v ===== *)
(** * The Ceilometer controller ([controllers/ceilometer_controller.go])

    Deploys the Ceilometer StatefulSet: service account, RabbitMQ transport
    URL, input secrets, generated configuration, hash of the inputs, Keystone
    service, StatefulSet and Service. *)

From stdpp Require Import gmap strings list.
From Stdlib Require Import ZArith Lia.
From S2P Require Import Prelude Condition Api Libs Reference CeilometerPkg Operator.

#[local] Open Scope go_scope.

Module CeilometerController.

(** ** External calls

    [GetSecret] answers the three results of [secret.GetSecret] (a nil pointer
    is [None]); [ReconcileRbac] answers also the conditions it passed to
    [RbacConditionsSet]; [EnsureSecrets] answers the map of hashes it filled
    in; [StatefulSetCreateOrPatch] answers the ready replicas. *)
Inductive CallE : Type -> Type :=
| GetCeilometer (key : NamespacedName) : CallE (Ceilometer + GoError)
| NewHelper (i : Ceilometer) : CallE (option GoError)
| PatchInstance (i : Ceilometer) : CallE (option GoError)
| GetSecret (name ns : string) : CallE (option Secret * string * option GoError)
| ReconcileRbac (name ns : string) (rules : list PolicyRule) : CallE (list Condition * RE)
| FetchTransportURL (key : NamespacedName) : CallE (option TransportURL + GoError)
| CommitTransportURL (t : TransportURL) : CallE (TransportURL * OperationResult + GoError)
| SetControllerReference (owner m : ObjectMeta) : CallE (ObjectMeta + GoError)
| GetKeystoneAPI (ns : string) : CallE (string + GoError)
| GetEndpoint (api : string) (e : Endpoint) : CallE (string + GoError)
| EnsureSecrets (owner : ObjectMeta) (cms : list Template) (envVars : EnvMap) : CallE (EnvMap + GoError)
| KeystoneServiceCreateOrPatch (spec : KeystoneServiceSpec) (ns : string)
    (labels : gmap string string) (timeout : Z) : CallE (Conditions * RE)
| StatefulSetCreateOrPatch (def : StatefulSet) (timeout : Z) : CallE (Z * RE)
| FetchService (key : NamespacedName) : CallE (option Service + GoError)
| CommitService (s : Service) : CallE (Service * OperationResult + GoError)
| GetKeystoneService (name ns : string) : CallE (ObjectMeta + GoError)
| UpdateKeystoneService (m : ObjectMeta) : CallE (option GoError)
| ListCeilometers (ns : string) : CallE (list Ceilometer + GoError).

Abbreviation CM := (M CallE Ceilometer).

(** ** Fields of the status *)
Definition setStatus (f : CeilometerStatus -> CeilometerStatus) : CM unit :=
  modify (fun i => MkCeilometer (cei_Meta i) (cei_Spec i) (f (cei_Status i))).
Definition setTransportURLSecret (v : string) : CM unit := setStatus (fun s =>
  MkCeilometerStatus (ceit_ReadyCount s) (ceit_Hash s) (ceit_Conditions s) v (ceit_Networks s)).
Definition setHash (h : option (gmap string string)) : CM unit := setStatus (fun s =>
  MkCeilometerStatus (ceit_ReadyCount s) h (ceit_Conditions s) (ceit_TransportURLSecret s) (ceit_Networks s)).
Definition setReadyCount (n : Z) : CM unit := setStatus (fun s =>
  MkCeilometerStatus n (ceit_Hash s) (ceit_Conditions s) (ceit_TransportURLSecret s) (ceit_Networks s)).
Definition setNetworks (n : list string) : CM unit := setStatus (fun s =>
  MkCeilometerStatus (ceit_ReadyCount s) (ceit_Hash s) (ceit_Conditions s) (ceit_TransportURLSecret s) n).

(** [if instance.Status.Hash == nil { instance.Status.Hash = map[string]string{} }] *)
Definition ensureHash : CM unit := setStatus (fun s =>
  MkCeilometerStatus (ceit_ReadyCount s) (Some (default ∅ (ceit_Hash s))) (ceit_Conditions s)
    (ceit_TransportURLSecret s) (ceit_Networks s)).

(** [instance.Status.Hash[key] = v]: a write to a nil map panics. *)
Definition putHash (key v : string) : CM unit :=
  let* i := get in
  match ceit_Hash (cei_Status i) with
  | Some h => setHash (Some (<[key := v]> h))
  | None => panic "assignment to entry in nil map"
  end.

Section Controller.
Context `{L : ConditionLib} `{F : FinalizerLib} `{C : CommonLib}.

Definition finalizer := GetFinalizer "Ceilometer".

(** ** transportURLCreateOrUpdate *)
Definition transportURLName : string := CeilometerPkg.ServiceName +:+ "-transport".

Definition transportURLCreateOrUpdate : CM (TransportURL * OperationResult + GoError) :=
  let* instance := get in
  let fresh := newMeta transportURLName (meta_Namespace (cei_Meta instance)) in
  let* r := call (FetchTransportURL (keyOf fresh)) in
  match r with
  | inr err => ret (inr err)
  | inl found =>
      let t := default (MkTransportURL fresh "" "") found in
      let* r := call (SetControllerReference (cei_Meta instance) (tu_Meta t)) in
      match r with
      | inr err => ret (inr err)
      | inl m =>
          call (CommitTransportURL
            (MkTransportURL m (ceis_RabbitMqClusterName (cei_Spec instance)) (tu_SecretName t)))
      end
  end.

(** ** getSecret: the result, and the map of hashes *)
Definition getSecret (secretName : string) (envVars : EnvMap) : CM (RE * EnvMap) :=
  let* instance := get in
  let* '(sec, hash, err) := call (GetSecret secretName (meta_Namespace (cei_Meta instance))) in
  match err with
  | Some err =>
      if err_notFound err then
        setFalse InputReadyCondition RequestedReason SeverityInfo (lib "InputReadyWaitingMessage") ;;;
        ret ((requeueAfter (seconds 10), Some (Errorf ("secret " +:+ secretName +:+ " not found"))), envVars)
      else
        setFalse InputReadyCondition ErrorReason SeverityWarning
          (libf "InputReadyErrorMessage" (err_text err)) ;;;
        ret ((emptyResult, Some err), envVars)
  | None =>
      match sec with
      | None => panic "nil secret"
      | Some sec => ret ((emptyResult, None), <["secret-" +:+ sec_Name sec := hash]> envVars)
      end
  end.

(** ** generateServiceConfig and generateComputeServiceConfig *)

(** The custom files: those of [DefaultConfigOverwrite] replace the custom
    service configuration when they have its name. *)
Definition customData (instance : Ceilometer) : gmap string string :=
  ceis_DefaultConfigOverwrite (cei_Spec instance) ∪
  {[ CustomServiceConfigFileName := ceis_CustomServiceConfig (cei_Spec instance) ]}.

(** Reads the internal Keystone URL and the two secrets; the errors of the
    secrets are dropped, and a nil secret is dereferenced. *)
Definition configInputs : CM ((string * string * string) + GoError) :=
  let* instance := get in
  let ns := meta_Namespace (cei_Meta instance) in
  let* r := call (GetKeystoneAPI ns) in
  match r with
  | inr err => ret (inr err)
  | inl api =>
      let* r := call (GetEndpoint api EndpointInternal) in
      match r with
      | inr err => ret (inr err)
      | inl keystoneInternalURL =>
          let* '(transportURLSecret, _, _) :=
            call (GetSecret (ceit_TransportURLSecret (cei_Status instance)) ns) in
          let* '(ceilometerPasswordSecret, _, _) :=
            call (GetSecret (ceis_Secret (cei_Spec instance)) ns) in
          match transportURLSecret, ceilometerPasswordSecret with
          | Some t, Some p =>
              ret (inl (keystoneInternalURL, mapGet (sec_Data t) "transport_url",
                        mapGet (sec_Data p) "CeilometerPassword"))
          | _, _ => panic "nil pointer dereference"
          end
      end
  end.

(** The secrets with the scripts and the configuration of the central services. *)
Definition serviceTemplates (instance : Ceilometer) (keystoneInternalURL transportURL password : string)
    : list Template :=
  let cmLabels := GetLabels (meta_Name (cei_Meta instance)) (GetGroupLabel CeilometerPkg.ServiceName) ∅ in
  let templateParameters : gmap string string :=
    {[ "KeystoneInternalURL" := keystoneInternalURL;
       "TransportURL" := transportURL;
       "CeilometerPassword" := password ]} in
  let ns := meta_Namespace (cei_Meta instance) in [
    MkTemplate (CeilometerPkg.ServiceName +:+ "-scripts") ns TemplateTypeScripts "ceilometercentral"
      {[ "common.sh" := "/common/common.sh" ]} ∅ ∅ cmLabels;
    MkTemplate (CeilometerPkg.ServiceName +:+ "-config-data") ns TemplateTypeConfig "ceilometercentral"
      ∅ (customData instance) templateParameters cmLabels].

Definition generateServiceConfig (envVars : EnvMap) : CM (EnvMap + GoError) :=
  let* instance := get in
  let* r := configInputs in
  match r with
  | inr err => ret (inr err)
  | inl (keystoneInternalURL, transportURL, password) =>
      call (EnsureSecrets (cei_Meta instance)
              (serviceTemplates instance keystoneInternalURL transportURL password) envVars)
  end.

(** The same for the compute nodes. *)
Definition computeTemplates (instance : Ceilometer) (keystoneInternalURL transportURL password : string)
    : list Template :=
  let cmLabels :=
    GetLabels (meta_Name (cei_Meta instance)) (GetGroupLabel CeilometerPkg.ComputeServiceName) ∅ in
  let templateParameters : gmap string string :=
    {[ "KeystoneInternalURL" := keystoneInternalURL;
       "TransportURL" := transportURL;
       "CeilometerPassword" := password;
       "ceilometer_compute_image" := ceis_ComputeImage (cei_Spec instance);
       "ceilometer_ipmi_image" := ceis_IpmiImage (cei_Spec instance);
       "telemetry_node_exporter_image" := ceis_NodeExporterImage (cei_Spec instance) ]} in
  let ns := meta_Namespace (cei_Meta instance) in [
    MkTemplate (CeilometerPkg.ComputeServiceName +:+ "-scripts") ns TemplateTypeScripts
      "ceilometercompute" {[ "common.sh" := "/common/common.sh" ]} ∅ ∅ cmLabels;
    MkTemplate (CeilometerPkg.ComputeServiceName +:+ "-config-data") ns TemplateTypeConfig
      "ceilometercompute" ∅ (customData instance) templateParameters cmLabels].

Definition generateComputeServiceConfig (envVars : EnvMap) : CM (EnvMap + GoError) :=
  let* instance := get in
  let* r := configInputs in
  match r with
  | inr err => ret (inr err)
  | inl (keystoneInternalURL, transportURL, password) =>
      call (EnsureSecrets (cei_Meta instance)
              (computeTemplates instance keystoneInternalURL transportURL password) envVars)
  end.

(** ** createHashOfInputHashes *)
Definition createHashOfInputHashes (envVars : EnvMap) : CM (string * bool * option GoError) :=
  let* instance := get in
  let '(hash, err) := ObjectHash (MergeEnvs [] envVars) in
  match err with
  | Some _ => ret (hash, false, err)
  | None =>
      let '(hashMap, changed) := SetHash (ceit_Hash (cei_Status instance)) InputHashName hash in
      (if (changed : bool) then setHash (Some hashMap) else ret tt) ;;;
      ret (hash, changed, None)
  end.

(** ** reconcileInit *)
Definition keystoneServiceOf (i : Ceilometer) : KeystoneServiceSpec := {|
  ks_ServiceType := CeilometerPkg.ServiceType;
  ks_ServiceName := CeilometerPkg.ServiceName;
  ks_ServiceDescription := "Ceilometer Service";
  ks_Enabled := true;
  ks_ServiceUser := ceis_ServiceUser (cei_Spec i);
  ks_Secret := ceis_Secret (cei_Spec i);
  ks_PasswordSelector := pw_Service (ceis_PasswordSelectors (cei_Spec i)) |}.

Definition reconcileInit (serviceLabels : gmap string string) : CM RE :=
  let* instance := get in
  let ns := meta_Namespace (cei_Meta instance) in
  let* '(_, _, err) := call (GetSecret (ceis_Secret (cei_Spec instance)) ns) in
  match err with
  | Some err =>
      if err_notFound err then
        ret (requeueAfter (seconds 10),
             Some (Errorf ("OpenStack secret " +:+ ceis_Secret (cei_Spec instance) +:+ " not found")))
      else ret (emptyResult, Some err)
  | None =>
      let* '(ksConds, (ctrlResult, err)) :=
        call (KeystoneServiceCreateOrPatch (keystoneServiceOf instance) ns serviceLabels 10) in
      match err with
      | Some _ => ret (ctrlResult, err)
      | None =>
          (match Mirror ksConds KeystoneServiceReadyCondition with
           | Some c => modifyConds (fun cs => Set_ cs (Some c))
           | None => ret tt
           end) ;;;
          if nonEmpty ctrlResult then ret (ctrlResult, None)
          else ensureHash ;;; ret (emptyResult, None)
      end
  end.

(** ** ceilometer.Service ([pkg/ceilometer/service.go]) *)
Definition ceilometerService (port : Z) (labels : gmap string string) : CM (option GoError) :=
  let* instance := get in
  let fresh := newMeta CeilometerPkg.ServiceName (meta_Namespace (cei_Meta instance)) in
  let* r := call (FetchService (keyOf fresh)) in
  match r with
  | inr err => ret (Some err)
  | inl found =>
      let service := desiredService port labels (default (MkService fresh ∅ [] "") found) in
      let* r := call (SetControllerReference (cei_Meta instance) (svc_Meta service)) in
      match r with
      | inr err => ret (Some err)
      | inl m =>
          let* r := call (CommitService
            (MkService m (svc_Selector service) (svc_Ports service) (svc_Type service))) in
          match r with
          | inr err => ret (Some err)
          | inl _ => ret None
          end
      end
  end.

(** ** reconcileNormal *)
(** [instance.Status.Conditions.Set(c)] in a method with a value receiver: what
    the caller's conditions are afterwards. *)
Definition Ceilometer_RbacConditionsSet (cs : Conditions) (c : Condition) : Conditions := SetOnCopy cs c.

Definition rbacRules : list PolicyRule :=
  [MkRule ["security.openshift.io"] ["anyuid"] ["securitycontextconstraints"] ["use"];
   MkRule [""] [] ["pods"] ["create"; "get"; "list"; "watch"; "update"; "patch"; "delete"]].

(** [common_rbac.ReconcileRbac(ctx, helper, instance, rules)]: the conditions
    are set through the value receiver of [RbacConditionsSet]. *)
Definition reconcileRbac : CM RE :=
  let* instance := get in
  let* '(conds, re) := call (ReconcileRbac (Ceilometer_RbacResourceName instance)
                               (Ceilometer_RbacNamespace instance) rbacRules) in
  modifyConds (fun cs => fold_left Ceilometer_RbacConditionsSet conds cs) ;;;
  ret re.

Definition serviceLabels : gmap string string := {[ AppSelector := CeilometerPkg.ServiceName ]}.

(** [instance.Status.Conditions.Set(FalseCondition(ServiceConfigReady, ...)); return err] *)
Definition configError (err : GoError) : CM RE :=
  setFalse ServiceConfigReadyCondition ErrorReason SeverityWarning
    (libf "ServiceConfigReadyErrorMessage" (err_text err)) ;;;
  ret (emptyResult, Some err).

(** From the StatefulSet on. *)
Definition deploy (inputHash : string) : CM RE :=
  let* instance := get in
  match CeilometerStatefulSet instance inputHash serviceLabels with
  | inr err => ret (emptyResult, Some err)
  | inl sfsetDef =>
      let* '(readyReplicas, (ctrlResult, err)) :=
        call (StatefulSetCreateOrPatch sfsetDef (seconds 5)) in
      match err with
      | Some err =>
          setFalse DeploymentReadyCondition ErrorReason SeverityWarning
            (libf "DeploymentReadyErrorMessage" (err_text err)) ;;;
          ret (ctrlResult, Some err)
      | None =>
          if nonEmpty ctrlResult then
            setFalse DeploymentReadyCondition RequestedReason SeverityInfo
              (lib "DeploymentReadyRunningMessage") ;;;
            ret (ctrlResult, None)
          else
            let* r := call (SetControllerReference (cei_Meta instance) (sts_Meta sfsetDef)) in
            match r with
            | inr err => ret (emptyResult, Some err)
            | inl _ =>
                setReadyCount readyReplicas ;;;
                (if (0 <? readyReplicas)%Z
                 then markTrue DeploymentReadyCondition (lib "DeploymentReadyMessage")
                 else ret tt) ;;;
                setNetworks (ceis_NetworkAttachmentDefinitions (cei_Spec instance)) ;;;
                let* err := ceilometerService CeilometerPrometheusPort serviceLabels in
                match err with
                | Some _ => ret (emptyResult, err)
                | None => ret (emptyResult, None)
                end
            end
      end
  end.

(** From the generated configuration on. *)
Definition configure (envVars : EnvMap) : CM RE :=
  let* r := generateServiceConfig envVars in
  match r with
  | inr err => configError err
  | inl envVars =>
      let* r := generateComputeServiceConfig envVars in
      match r with
      | inr err => configError err
      | inl envVars =>
          let* '(inputHash, hashChanged, err) := createHashOfInputHashes envVars in
          match err with
          | Some err => configError err
          | None =>
              if (hashChanged : bool) then ret (emptyResult, None)
              else
                putHash InputHashName inputHash ;;;
                markTrue ServiceConfigReadyCondition (lib "ServiceConfigReadyMessage") ;;;
                let* re := reconcileInit serviceLabels in
                returnOn re (deploy inputHash)
          end
      end
  end.

Definition reconcileNormal : CM RE :=
  let* re := reconcileRbac in
  returnOn re (
  let* r := transportURLCreateOrUpdate in
  match r with
  | inr err =>
      setFalse RabbitMqTransportURLReadyCondition ErrorReason SeverityWarning
        (libf "RabbitMqTransportURLReadyErrorMessage" (err_text err)) ;;;
      ret (emptyResult, Some err)
  | inl (transportURL, _) =>
      setTransportURLSecret (tu_SecretName transportURL) ;;;
      if String.eqb (tu_SecretName transportURL) "" then
        setFalse RabbitMqTransportURLReadyCondition RequestedReason SeverityInfo
          (lib "RabbitMqTransportURLReadyRunningMessage") ;;;
        ret (requeueAfter (seconds 10), None)
      else
        markTrue RabbitMqTransportURLReadyCondition (lib "RabbitMqTransportURLReadyMessage") ;;;
        let* instance := get in
        let* '((ctrlResult, err), envVars) := getSecret (ceis_Secret (cei_Spec instance)) ∅ in
        match err with
        | Some _ => ret (ctrlResult, err)
        | None =>
            let* instance := get in
            let* '((ctrlResult, err), envVars) :=
              getSecret (ceit_TransportURLSecret (cei_Status instance)) envVars in
            match err with
            | Some _ => ret (ctrlResult, err)
            | None =>
                markTrue InputReadyCondition (lib "InputReadyMessage") ;;;
                configure envVars
            end
        end
  end).

(** ** reconcileDelete *)
Definition reconcileDelete : CM RE :=
  let* instance := get in
  let* r := call (GetKeystoneService CeilometerPkg.ServiceName (meta_Namespace (cei_Meta instance))) in
  let removeOurs : CM RE := removeFinalizer finalizer ;;; ret (emptyResult, None) in
  match r with
  | inr err => if err_notFound err then removeOurs else ret (emptyResult, Some err)
  | inl m =>
      let '(fs, changed) := RemoveFinalizer (meta_Finalizers m) finalizer in
      if (changed : bool) then
        let* err := call (UpdateKeystoneService (withFinalizers fs m)) in
        match err with
        | Some e => if err_notFound e then removeOurs else ret (emptyResult, err)
        | None => removeOurs
        end
      else removeOurs
  end.

(** ** Reconcile *)
Definition initialConditions : Conditions :=
  Init (Some []) (CreateList [
    UnknownCondition InputReadyCondition InitReason (lib "InputReadyInitMessage");
    UnknownCondition ServiceConfigReadyCondition InitReason (lib "ServiceConfigReadyInitMessage");
    UnknownCondition DeploymentReadyCondition InitReason (lib "DeploymentReadyInitMessage");
    UnknownCondition ServiceAccountReadyCondition InitReason (lib "ServiceAccountReadyInitMessage");
    UnknownCondition RoleReadyCondition InitReason (lib "RoleReadyInitMessage");
    UnknownCondition RoleBindingReadyCondition InitReason (lib "RoleBindingReadyInitMessage");
    UnknownCondition KeystoneServiceReadyCondition InitReason (text "")]).

(** The part of [Reconcile] after the deferred function is set up. *)
Definition reconcileBody : CM RE :=
  let* instance := get in
  let* added := (if notDeleting (cei_Meta instance) then addFinalizer finalizer else ret false) in
  if (added : bool) then ret (emptyResult, None) else
  let* instance := get in
  match ceit_Conditions (cei_Status instance) with
  | None => modifyConds (fun _ => initialConditions) ;;; ret (emptyResult, None)
  | Some _ =>
      ensureHash ;;;
      if negb (notDeleting (cei_Meta instance)) then reconcileDelete else reconcileNormal
  end.

Definition Reconcile (req : NamespacedName) : prog CallE (outcome RE) :=
  Vis (GetCeilometer req) (fun r =>
  match r with
  | inr err =>
      if err_notFound err then Ret (Val (emptyResult, None))
      else Ret (Val (emptyResult, Some err))
  | inl instance =>
      Vis (NewHelper instance) (fun e =>
      match e with
      | Some err => Ret (Val (emptyResult, Some err))
      | None => runM (withDefer reconcileBody (deferPatch PatchInstance true)) instance
      end)
  end).

(** ** The watch on secrets: which Ceilometers a secret concerns *)
Definition ownerRequests (namespace : string) (ref : OwnerReference) (items : list Ceilometer)
    : list NamespacedName :=
  if String.eqb (own_Kind ref) "TransportURL" then
    omap (fun cr => if String.eqb (own_Name ref) (meta_Name (cei_Meta cr) +:+ "-transport")
                    then Some (MkKey namespace (meta_Name (cei_Meta cr))) else None) items
  else [].

Definition transportURLSecretFn (o : ObjectMeta) : prog CallE (list NamespacedName) :=
  Vis (ListCeilometers (meta_Namespace o)) (fun r =>
  match r with
  | inr _ => Ret []
  | inl items =>
      Ret (concat (map (fun ref => ownerRequests (meta_Namespace o) ref items) (meta_OwnerReferences o)))
  end).
End Controller.

(** ** Observations on a trace *)
Definition fetched (tr : list (event CallE)) : option Ceilometer :=
  match tr with
  | Ev e x :: _ =>
      match e in CallE X return X -> option Ceilometer with
      | GetCeilometer _ => fun x => match x with inl i => Some i | inr _ => None end
      | _ => fun _ => None
      end x
  | [] => None
  end.

Definition patchOf (ev : event CallE) : option (Ceilometer * option GoError) :=
  match ev with
  | Ev e x =>
      match e in CallE X return X -> option (Ceilometer * option GoError) with
      | PatchInstance i => fun x => Some (i, x)
      | _ => fun _ => None
      end x
  end.

(** The StatefulSets written. *)
Definition sfsetOf (ev : event CallE) : option StatefulSet :=
  match ev with
  | Ev e _ => match e with StatefulSetCreateOrPatch def _ => Some def | _ => None end
  end.

(** A read of a secret that yields no secret. *)
Definition nilSecret (ev : event CallE) : bool :=
  match ev with
  | Ev e x =>
      match e in CallE X return X -> bool with
      | GetSecret _ _ => fun x => match x with (None, _, _) => true | _ => false end
      | _ => fun _ => false
      end x
  end.

Section Pass.
Context `{L : ConditionLib} `{LL : !ConditionLaws L} `{F : FinalizerLib} `{FL : !FinalizerLaws F}.
Context `{C : CommonLib} `{CL : !CommonLaws C}.

Definition conds (i : Ceilometer) : Conditions := ceit_Conditions (cei_Status i).

(** The recorded hash of the inputs. *)
Definition inputHashOf (i : Ceilometer) : option string :=
  default ∅ (ceit_Hash (cei_Status i)) !! InputHashName.

(** A run of [Reconcile] that fetched an object. *)
Lemma ceilometer_Reconcile_from ok req tr o i Q :
  runs (Reconcile req) tr o -> fetched tr = Some i -> Forall (keeps ok) tr ->
  (forall err, Q [Ev (GetCeilometer req) (inl i); Ev (NewHelper i) (Some err)]
                 (Val (emptyResult, Some err))) ->
  wpM ok reconcileBody i (fun tr' i' o' => forall err,
    Q (Ev (GetCeilometer req) (inl i) :: Ev (NewHelper i) None ::
       tr' ++ [Ev (PatchInstance (finish i')) err]) (finishResult true err o')) ->
  Q tr o.
Proof.
  intros (r & tr1 & -> & H) Hf Hok Herr Hwp. simpl in Hf. destruct r as [i'|]; [|done]. simplify_eq.
  destruct H as (e & tr2 & -> & H). destruct e as [err|]; [by destruct H as [-> ->]|].
  apply Forall_cons in Hok as [_ [_ Hok]%Forall_cons].
  refine (runs_wp ok _ (fun tr o => Q (_ :: _ :: tr) o) _ _ _ H Hok).
  apply wp_runM, deferPatch_wp. eapply wpM_mono; [|exact Hwp]. auto.
Qed.

(** *** Panics *)

(** Every read of a secret yields a secret, with or without an error. *)
Definition secretsRead : contract CallE := fun X e =>
  match e in CallE X return X -> Prop with
  | GetSecret _ _ => fun x => is_Some x.1.1
  | _ => fun _ => True
  end.

Lemma reconcileNormal_safe :
  Safe secretsRead (fun i => ceit_Hash (cei_Status i) <> None) (fun ev => patchOf ev = None)
    reconcileNormal.
Proof.
  unfold reconcileNormal, reconcileRbac, transportURLCreateOrUpdate, getSecret, configure,
    generateServiceConfig, generateComputeServiceConfig, configInputs, createHashOfInputHashes,
    configError, putHash, reconcileInit, deploy, ceilometerService, ensureHash, setTransportURLSecret,
    setReadyCount, setNetworks, setHash, setStatus.
  safe; simpl in *; done.
Qed.

Lemma reconcileDelete_safe (I : Ceilometer -> Prop) :
  (forall i m, I i -> I (crSetMeta m i)) ->
  Safe anyAnswer I (fun ev => patchOf ev = None /\ sfsetOf ev = None) reconcileDelete.
Proof. intros HI. unfold reconcileDelete. safe; auto; by apply (HI _ (withFinalizers _ _)). Qed.

Lemma Safe_weaken {A} (ok ok' : contract CallE) I (P P' : event CallE -> Prop) (m : CM A) :
  (forall X (e : CallE X) x, ok' _ e x -> ok _ e x) -> (forall ev, P ev -> P' ev) ->
  Safe ok I P m -> Safe ok' I P' m.
Proof.
  intros Hok HP H s Hs. eapply wp_strengthen; [exact Hok|]. eapply wpM_mono; [|exact (H s Hs)].
  intros tr s' o (HI & HF & Ho). split_and!; [done| |done]. eapply Forall_impl; [exact HF|exact HP].
Qed.

Lemma ceilometer_reconcileBody_safe :
  Safe secretsRead (fun _ => True) (fun ev => patchOf ev = None) reconcileBody.
Proof.
  assert (Safe secretsRead (fun _ => True) (fun ev => patchOf ev = None) reconcileDelete) as Hdel.
  { apply (Safe_weaken anyAnswer secretsRead _ (fun ev => patchOf ev = None /\ sfsetOf ev = None));
      [done|by intros ev []|by apply reconcileDelete_safe]. }
  assert (forall b : bool, Safe secretsRead (fun _ => True) (fun ev => patchOf ev = None)
    (ensureHash ;;; (if b then reconcileDelete else reconcileNormal))) as Ht.
  { intros b i _. unfold ensureHash, setStatus. do 2 wpm_step. destruct b.
    - eapply wpM_mono; [|exact (Hdel _ I)]. intros tr s' o H. exact H.
    - eapply wpM_mono; [|apply reconcileNormal_safe; done]. intros tr s' o (_ & H & Ho). auto. }
  unfold reconcileBody. safe; done.
Qed.

(** C30. Ceilometer's status is always persisted: if every read of a secret
    yields a secret, a pass over a fetched Ceilometer whose helper can be
    created ends without a panic with exactly one patch, its last call, of an
    object whose Ready condition is True only if all other conditions are; an
    error of the patch becomes the returned error, and the result is otherwise
    the same whatever the patch is answered.  When the helper cannot be
    created, the pass ends there with that error. *)
Theorem ceilometer_patched_last req tr o i :
  runs (Reconcile req) tr o -> fetched tr = Some i -> Forall (keeps secretsRead) tr ->
  (exists err, tr = [Ev (GetCeilometer req) (inl i); Ev (NewHelper i) (Some err)] /\
     o = Val (emptyResult, Some err)) \/
  (exists pre i' err r e, tr = pre ++ [Ev (PatchInstance i') err] /\ omap patchOf tr = [(i', err)] /\
     readyOk (conds i') /\ o = Val (r, match err with Some _ => err | None => e end) /\
     forall err', runs (Reconcile req) (pre ++ [Ev (PatchInstance i') err'])
       (Val (r, match err' with Some _ => err' | None => e end))).
Proof.
  intros Hr Hf Hok. pattern tr, o.
  apply (ceilometer_Reconcile_from _ _ _ _ _ _ Hr Hf Hok); [intros err; left; by exists err|].
  eapply wpM_mono; [|apply wpM_and; [exact (ceilometer_reconcileBody_safe i I)|exact (wpM_self _ _ _)]].
  intros tr' i' o' [(_ & HP & [r e] & ->) Hb] err. right.
  eexists (_ :: _ :: tr'), (finish i'), err, r, e. split_and!.
  - done.
  - simpl. rewrite omap_app, omap_None by done. done.
  - apply (readyOk_updateReady (conds i')).
  - done.
  - intros err'. exists (inl i). eexists. split; [done|]. exists None. eexists. split; [done|].
    exact (deferPatch_runs _ _ _ _ _ _ _ err' Hb).
Qed.

(** C31. The errors of the two secrets that the configuration is generated
    from are ignored: generating it panics exactly when one of the two reads
    yields no secret (the nil pointer is dereferenced), for the central and
    for the compute configuration. *)
Theorem ceilometer_nil_secret_panics env i tr i' o (compute : bool) :
  runs ((if compute then generateComputeServiceConfig env else generateServiceConfig env) i) tr (i', o) ->
  (exists w, o = Panicked w) <-> existsb nilSecret tr = true.
Proof.
  intros Hr. refine (runs_wp_any _ (fun tr '(_, o) =>
    (exists w, o = Panicked w) <-> existsb nilSecret tr = true) _ _ _ Hr).
  change (wpM anyAnswer (if compute then generateComputeServiceConfig env else generateServiceConfig env) i
    (fun tr _ o => (exists w, o = Panicked w) <-> existsb nilSecret tr = true)).
  destruct compute; unfold generateServiceConfig, generateComputeServiceConfig, configInputs;
    wpm; simpl; subst; simpl; naive_solver.
Qed.

(** *** The StatefulSet and the recorded hash *)
Definition frame (i0 i : Ceilometer) : Prop := cei_Spec i = cei_Spec i0 /\ cei_Meta i = cei_Meta i0.

(** A StatefulSet built from the spec of [i0] with its recorded hash. *)
Definition gated (i0 : Ceilometer) (ev : event CallE) : Prop :=
  forall def, sfsetOf ev = Some def -> exists hash i1, inputHashOf i0 = Some hash /\ frame i0 i1 /\
    CeilometerStatefulSet i1 hash serviceLabels = inl def.

Definition gate (i0 : Ceilometer) (h : list (event CallE)) (i : Ceilometer) : Prop :=
  frame i0 i /\ Forall (gated i0) h.
Definition gateSame (i0 : Ceilometer) (h : list (event CallE)) (i : Ceilometer) : Prop :=
  gate i0 h i /\ inputHashOf i = inputHashOf i0.

Lemma gate_snoc i0 h i ev : gated i0 ev -> gate i0 h i -> gate i0 (h ++ [ev]) i.
Proof. intros He [Hf Hh]. split; [done|]. apply Forall_app. auto. Qed.

Lemma gateSame_snoc i0 h i ev : gated i0 ev -> gateSame i0 h i -> gateSame i0 (h ++ [ev]) i.
Proof. intros He [Hg Hh]. split; [by apply gate_snoc|done]. Qed.

Lemma gated_other i0 ev : sfsetOf ev = None -> gated i0 ev.
Proof. intros He def Hd. congruence. Qed.

(** Calls other than the StatefulSet, changes that keep spec, metadata (and hash). *)
Ltac gate_hist :=
  hist; first
  [ by apply gateSame_snoc; [apply gated_other|] | by apply gate_snoc; [apply gated_other|]
  | match goal with H : gateSame _ _ _ |- _ => by destruct H as [[[? ?] ?] ?] end
  | match goal with H : gate _ _ _ |- _ => by destruct H as [[? ?] ?] end ].

Lemma deploy_gate i0 hash : inputHashOf i0 = Some hash -> Hist anyAnswer (gate i0) (deploy hash).
Proof.
  intros Hi. unfold deploy.
  intros h s Hs. wpm_step. wpm_step. destruct (CeilometerStatefulSet s hash _) as [def|err] eqn:Hdef;
    [|wpm; by rewrite app_nil_r].
  refine ((_ : Hist anyAnswer (gate i0) _) h s Hs).
  apply Hist_bind.
  - apply Hist_call. intros h' s' x Hs' _. apply gate_snoc; [|done].
    intros d [= <-]. exists hash, s. split_and!; [done|apply Hs|done].
  - intros [n [r e]]. unfold ceilometerService, setReadyCount, setNetworks, setStatus.
    gate_hist.
Qed.

Lemma configure_gate i0 env : HistTo anyAnswer (gateSame i0) (gate i0) (configure env).
Proof.
  intros h s Hs. unfold configure, configError.
  apply (Hist_wp anyAnswer (gateSame i0) _ _ h); [|done|by intros ? ? ? []|].
  { unfold generateServiceConfig, configInputs. gate_hist. }
  intros r1 tr1 s1 H1. destruct r1 as [env1|err]; [|unfold setFalse, modifyConds; wpm; rewrite !app_nil_r; apply H1].
  apply (Hist_wp anyAnswer (gateSame i0) _ _ (h ++ tr1)); [|done|by intros ? ? ? []; rewrite app_assoc|].
  { unfold generateComputeServiceConfig, configInputs. gate_hist. }
  intros r2 tr2 s2 H2. destruct r2 as [env2|err];
    [|unfold setFalse, modifyConds; wpm; rewrite !app_nil_r, app_assoc; apply H2].
  unfold createHashOfInputHashes.
  destruct (ObjectHash (MergeEnvs [] env2)) as [hash [err|]] eqn:Hh; simpl.
  { wpm_step. wpm_step. wpm_step. unfold setFalse, modifyConds. wpm.
    rewrite !app_nil_r, app_assoc. apply H2. }
  wpm_step. wpm_step. wpm_step.
  pose proof (SetHash_flag (ceit_Hash (cei_Status s2)) InputHashName hash) as Hflag.
  destruct (SetHash _ _ _) as [hm changed]. simpl in Hflag. destruct changed.
  - unfold setHash, setStatus. wpm. rewrite !app_nil_r, app_assoc. apply H2.
  - wpm_step. wpm_step. wpm_step.
    assert (inputHashOf i0 = Some hash) as Hi.
    { destruct H2 as [_ <-]. by apply Hflag. }
    eapply wpM_mono; [|refine ((_ : Hist anyAnswer (gate i0) _) ((h ++ tr1) ++ tr2) s2 (proj1 H2))].
    { intros tr3 s3 o3. simpl. by rewrite !app_assoc. }
    unfold putHash, reconcileInit, ensureHash, setHash, setStatus.
    pose proof (deploy_gate i0 hash Hi). gate_hist.
Qed.

Lemma gateSame_gate i0 h i : gateSame i0 h i -> gate i0 h i.
Proof. by intros []. Qed.

#[local] Hint Resolve configure_gate : safe.

Lemma reconcileNormal_gate i0 : HistTo anyAnswer (gateSame i0) (gate i0) reconcileNormal.
Proof.
  unfold reconcileNormal, reconcileRbac, returnOn, transportURLCreateOrUpdate, getSecret,
    setTransportURLSecret, setStatus.
  histTo (gateSame_gate i0); gate_hist.
Qed.

Lemma reconcileBody_gate i : wpM anyAnswer reconcileBody i (fun tr _ _ => Forall (gated i) tr).
Proof.
  unfold reconcileBody. wpm_step. wpm_step. destruct (notDeleting (cei_Meta i)) eqn:Hd.
  - destruct (decide (finalizer ∈ meta_Finalizers (cei_Meta i))) as [Hf|Hf].
    + wpm_step. apply addFinalizer_present; [done|]. cbv beta iota. wpm_step. wpm_step.
      destruct (ceit_Conditions _); [|unfold modifyConds; wpm; constructor].
      unfold ensureHash, setStatus. do 2 wpm_step. simpl. rewrite Hd. simpl.
      eapply wpM_mono; [|apply (reconcileNormal_gate i []); split; [split; [done|constructor]|]].
      * intros tr s' o [_ H]. exact H.
      * done.
    + wpm_step. apply addFinalizer_absent; [done|]. intros fs _. cbv beta iota. wpm. constructor.
  - wpm_step. wpm_step. wpm_step. wpm_step. destruct (ceit_Conditions _); [|unfold modifyConds; wpm; constructor].
    unfold ensureHash, setStatus. do 2 wpm_step. simpl. rewrite Hd. simpl.
    eapply wpM_mono; [|exact (reconcileDelete_safe (fun _ => True) (fun _ _ _ => I) _ I)].
    intros tr s' o (_ & H & _). simpl. eapply Forall_impl; [exact H|].
    intros ev [_ Hs]. by apply gated_other.
Qed.

(** C32. Pods never run with inputs that are not recorded: a StatefulSet
    written in a pass is the one built from the spec of the Ceilometer with
    the input hash its status already held when the pass began; when the
    inputs changed, the hash is recorded first and the StatefulSet is left to
    a later pass. *)
Theorem ceilometer_statefulset_gated req tr o i def :
  runs (Reconcile req) tr o -> fetched tr = Some i -> def ∈ omap sfsetOf tr ->
  exists hash i1, inputHashOf i = Some hash /\ cei_Spec i1 = cei_Spec i /\ cei_Meta i1 = cei_Meta i /\
    CeilometerStatefulSet i1 hash serviceLabels = inl def.
Proof.
  intros Hr Hf Hin.
  assert (Forall (gated i) tr) as Hg.
  { pattern tr, o. apply (ceilometer_Reconcile_from anyAnswer _ _ _ _ _ Hr Hf (keeps_any _));
      [intros err; by repeat constructor|].
    eapply wpM_mono; [|exact (reconcileBody_gate i)]. intros tr' i' o' H err.
    repeat (constructor; [by apply gated_other|]). apply Forall_app. split; [done|].
    constructor; [by apply gated_other|constructor]. }
  apply list_elem_of_omap in Hin as (ev & Hev & Hs). rewrite Forall_forall in Hg.
  destruct (Hg ev Hev def Hs) as (hash & i1 & Hh & [Hsp Hm] & Hdef). eauto 10.
Qed.

(** *** Ready before anything is deployed *)
Definition live (i : Ceilometer) : Prop :=
  notDeleting (cei_Meta i) = true /\ finalizer ∈ meta_Finalizers (cei_Meta i) /\ conds i <> None.

(** The rbac objects are reported with True conditions. *)
Definition rbacTrue : contract CallE := fun X e =>
  match e in CallE X return X -> Prop with
  | ReconcileRbac _ _ _ => fun x => Forall (fun c => cond_Status c = ConditionTrue) x.1
  | _ => fun _ => True
  end.

(** A pass that changed the hash and returned nothing: no StatefulSet, only
    True conditions, at least one of them. *)
Definition early (i0 : Ceilometer) (tr : list (event CallE)) (i : Ceilometer) (o : outcome RE) : Prop :=
  o = Val (emptyResult, None) -> inputHashOf i <> inputHashOf i0 ->
  omap sfsetOf tr = [] /\ allTrue (conds i) /\ is_Some (getCond (conds i) InputReadyCondition).

Lemma generate_reads env (compute : bool) i :
  wpM rbacTrue (if compute then generateComputeServiceConfig env else generateServiceConfig env) i
    (fun tr i' _ => i' = i /\ omap sfsetOf tr = []).
Proof.
  destruct compute; unfold generateServiceConfig, generateComputeServiceConfig, configInputs; by wpm.
Qed.

Lemma afterHash_keeps hash :
  Hist rbacTrue (fun _ i => inputHashOf i = Some hash)
    (putHash InputHashName hash ;;;
     markTrue ServiceConfigReadyCondition (lib "ServiceConfigReadyMessage") ;;;
     let* re := reconcileInit serviceLabels in returnOn re (deploy hash)).
Proof.
  unfold putHash, reconcileInit, deploy, ceilometerService, ensureHash, setReadyCount, setNetworks,
    setHash, setStatus.
  hist; try done. unfold inputHashOf. simpl. by rewrite lookup_insert_eq.
Qed.

Lemma configure_early i0 env i :
  inputHashOf i = inputHashOf i0 -> allTrue (conds i) ->
  is_Some (getCond (conds i) InputReadyCondition) ->
  wpM rbacTrue (configure env) i (early i0).
Proof.
  intros Hh Ha Hin. unfold configure, configError.
  wpm_step. eapply wpM_mono; [|exact (generate_reads env false i)].
  intros tr1 s1 o1 [-> H1]. destruct o1 as [[env1|err]|w]; [|unfold setFalse, modifyConds; wpm; intros [= ]|intros [= ]].
  wpm_step. eapply wpM_mono; [|exact (generate_reads env1 true i)].
  intros tr2 s2 o2 [-> H2]. destruct o2 as [[env2|err]|w]; [|unfold setFalse, modifyConds; wpm; intros [= ]|intros [= ]].
  unfold createHashOfInputHashes.
  destruct (ObjectHash (MergeEnvs [] env2)) as [hash [err|]] eqn:Ho.
  { wpm_step. wpm_step. wpm_step. unfold setFalse, modifyConds. wpm. intros [= ]. }
  wpm_step. wpm_step. wpm_step.
  pose proof (SetHash_flag (ceit_Hash (cei_Status i)) InputHashName hash) as Hflag.
  destruct (SetHash _ _ _) as [hm changed]. simpl in Hflag. destruct changed.
  - unfold setHash, setStatus. wpm. intros _ _. rewrite !omap_app, H1, H2. simpl. done.
  - wpm_step. wpm_step. wpm_step.
    assert (inputHashOf i = Some hash) as Hi by (by apply Hflag).
    eapply wpM_mono; [|exact (afterHash_keeps hash [] i Hi)].
    intros tr3 s3 o3 H3 _ Hne. simpl in H3. congruence.
Qed.

Lemma reconcileNormal_early i0 i :
  inputHashOf i = inputHashOf i0 -> uniqueTypes (conds i) -> allTrue (conds i) ->
  wpM rbacTrue reconcileNormal i (early i0).
Proof.
  intros Hh Hu Ha. unfold reconcileNormal, reconcileRbac.
  wpm_step. wpm_step. wpm_step. wpm_step. apply wpM_call. intros [rb re] Hrb. simpl in Hrb.
  unfold modifyConds at 1. wpm_step. wpm_step. wpm_step. unfold returnOn. destruct re as [r e].
  destruct e; [wpm; intros [= ]|]. destruct (nonEmpty r) eqn:Hr.
  { wpm_step. intros [= ->]. done. }
  destruct (allTrue_SetOnCopy rb (conds i) Hu Ha Hrb) as [Hu1 Ha1].
  revert Hu1 Ha1. simpl. set (cs1 := fold_left SetOnCopy rb _). intros Hu1 Ha1.
  unfold transportURLCreateOrUpdate, setTransportURLSecret, getSecret, setStatus, setFalse, markTrue, modifyConds.
  wpm; simpl; try (intros [= ]; done).
  eapply wpM_mono; [|apply (configure_early i0); [exact Hh| |]].
  - intros tr' s' o' Hq Ho Hne. destruct (Hq Ho Hne) as [Hs Ht]. split; [exact Hs|exact Ht].
  - apply allTrue_MarkTrue; [by apply MarkTrue_unique|by apply allTrue_MarkTrue].
  - destruct (MarkTrue_spec (MarkTrue cs1 RabbitMqTransportURLReadyCondition
      (lib "RabbitMqTransportURLReadyMessage")) InputReadyCondition (lib "InputReadyMessage"))
      as (c & _ & _ & _ & Hc). exists c. by apply (updatesTo_eq _ _ _ _ Hc).
Qed.

(** C33. Ready before anything runs: take a live Ceilometer whose conditions,
    if any besides Ready, are True (after the pass that adds the finalizer
    there are none).  When a pass records a new input hash and ends without
    result and error, no StatefulSet was written, and yet the Ceilometer is
    reported Ready. *)
Theorem ceilometer_ready_before_deployment req tr i i' :
  runs (Reconcile req) tr (Val (emptyResult, None)) -> fetched tr = Some i -> live i ->
  uniqueTypes (conds i) -> allTrue (conds i) -> Forall (keeps rbacTrue) tr ->
  omap patchOf tr = [(i', None)] -> inputHashOf i' <> inputHashOf i ->
  omap sfsetOf tr = [] /\ Ceilometer_IsReady i' = true.
Proof.
  intros Hr Hf (Hd & Hfin & Hc) Hu Ha Hok.
  remember (Val (emptyResult, None)) as o eqn:Ho. revert Ho i'. pattern tr, o.
  apply (ceilometer_Reconcile_from _ _ _ _ _ _ Hr Hf Hok); [done|].
  unfold reconcileBody. wpm_step. wpm_step. rewrite Hd. wpm_step.
  apply addFinalizer_present; [done|]. cbv beta iota. wpm_step. wpm_step.
  unfold conds in Hc. destruct (ceit_Conditions (cei_Status i)) as [cs|] eqn:Hcs; [|done].
  unfold ensureHash, setStatus. do 2 wpm_step. simpl. rewrite Hd. simpl.
  eapply wpM_mono; [|apply (reconcileNormal_early i); [done|exact Hu|exact Ha]].
  intros tr' s' o' H err Ho i' Hp Hne. simpl in Hp. rewrite omap_app in Hp.
  simpl in *. rewrite omap_app. simpl. rewrite app_nil_r.
  apply (app_inj_2 _ []) in Hp as [_ [= <- ->]]; [|done].
  destruct o' as [[r e]|]; simpl in Ho; simplify_eq.
  destruct (H eq_refl Hne) as (Hs & Hall & c & Hc').
  split; [exact Hs|]. exact (allTrue_ready (conds s') InputReadyCondition c Hall ltac:(done) Hc').
Qed.

(** *** Deletion *)

(** The answer to the lookup of the Keystone service. *)
Definition keystoneLookup (ev : event CallE) : option (ObjectMeta + GoError) :=
  match ev with
  | Ev e x =>
      match e in CallE X return X -> option (ObjectMeta + GoError) with
      | GetKeystoneService _ _ => Some
      | _ => fun _ => None
      end x
  end.

Definition keystoneUpdate (ev : event CallE) : option (ObjectMeta * option GoError) :=
  match ev with
  | Ev e x =>
      match e in CallE X return X -> option (ObjectMeta * option GoError) with
      | UpdateKeystoneService m => fun x => Some (m, x)
      | _ => fun _ => None
      end x
  end.

(** The finalizer is removed and the pass ends with the patch. *)
Ltac removed :=
  wpm_step; apply removeFinalizer_wp; intros fs' b Hfs; wpm_step; intros err'; simpl;
  intros [= -> ->]%list_elem_of_singleton _ _; split_and!; [by destruct err'|done|].

(** C34. Deletion in order: for a Ceilometer being deleted whose conditions
    exist, the operator's finalizer is taken off the Ceilometer only in a pass
    that returned no error of the body, in which the Keystone service was
    found absent, did not carry the finalizer, or was updated without it (or
    had vanished meanwhile); no StatefulSet is touched. *)
Theorem ceilometer_delete_order req tr o i i' err :
  runs (Reconcile req) tr o -> fetched tr = Some i ->
  notDeleting (cei_Meta i) = false -> conds i <> None -> (i', err) ∈ omap patchOf tr ->
  finalizer ∈ meta_Finalizers (cei_Meta i) -> finalizer ∉ meta_Finalizers (cei_Meta i') ->
  o = Val (emptyResult, err) /\ omap sfsetOf tr = [] /\
  exists r, omap keystoneLookup tr = [r] /\
    match r with
    | inr e => err_notFound e = true /\ omap keystoneUpdate tr = []
    | inl m =>
        if decide (finalizer ∈ meta_Finalizers m) then
          exists m' e, omap keystoneUpdate tr = [(m', e)] /\
            ~ (finalizer ∈ meta_Finalizers m') /\ (e = None \/ IsNotFound e = true)
        else omap keystoneUpdate tr = []
    end.
Proof.
  intros Hr Hf Hd Hc. pattern tr, o.
  apply (ceilometer_Reconcile_from anyAnswer _ _ _ _ _ Hr Hf (keeps_any _)); [intros e Hin; by apply not_elem_of_nil in Hin|].
  unfold reconcileBody. wpm_step. wpm_step. rewrite Hd. wpm_step. wpm_step. wpm_step. wpm_step.
  unfold conds in Hc. destruct (ceit_Conditions (cei_Status i)) as [cs|] eqn:Hcs; [|done].
  unfold ensureHash, setStatus. do 2 wpm_step. simpl. rewrite Hd. simpl. unfold reconcileDelete.
  wpm_step. wpm_step. wpm_step. apply wpM_call. intros [m|e] _.
  - pose proof (RemoveFinalizer_elem (meta_Finalizers m) finalizer) as He.
    pose proof (RemoveFinalizer_flag (meta_Finalizers m) finalizer) as Hfl.
    destruct (RemoveFinalizer _ _) as [fs ch]. simpl in He, Hfl. destruct ch.
    + assert (finalizer ∈ meta_Finalizers m) as Hin by (by apply Hfl).
      wpm_step. apply wpM_call. intros x _. destruct x as [e|]; [destruct (err_notFound e) eqn:Hnf|].
      * removed.
        exists (inl m). split; [done|]. cbv beta iota. rewrite decide_True by done. do 2 eexists. split; [done|].
        split; [simpl; naive_solver|right; done].
      * wpm_step. intros err'. simpl. by intros [= -> ->]%list_elem_of_singleton.
      * removed.
        exists (inl m). split; [done|]. cbv beta iota. rewrite decide_True by done. do 2 eexists. split; [done|].
        split; [simpl; naive_solver|by left].
    + assert (finalizer ∉ meta_Finalizers m) as Hin by (by intros ?%Hfl).
      removed.
      exists (inl m). split; [done|]. cbv beta iota. by rewrite decide_False.
  - destruct (err_notFound e) eqn:Hnf.
    + removed.
      exists (inr e). done.
    + wpm_step. intros err'. simpl. by intros [= -> ->]%list_elem_of_singleton.
Qed.

(** *** The watch on the transport URL's secret *)
(** The watch misses Ceilometers: the secret of a TransportURL that the
    controller created (its owner is named after the service, not after the
    object) triggers at most the Ceilometer named ["ceilometer"]; one with any
    other name is never reconciled when its transport URL changes. *)
Theorem ceilometer_transport_watch_misses o tr reqs key :
  runs (transportURLSecretFn o) tr reqs ->
  (forall ref, ref ∈ meta_OwnerReferences o -> own_Kind ref = "TransportURL" ->
     own_Name ref = transportURLName) ->
  key ∈ reqs -> key_Name key = "ceilometer".
Proof.
  intros (r & tr' & -> & H) Href Hin. destruct r as [items|e]; destruct H as [-> ->];
    [|by apply not_elem_of_nil in Hin].
  apply list_elem_of_In, in_concat in Hin as (l & (ref & <- & Hr)%in_map_iff & Hl).
  unfold ownerRequests in Hl. destruct (String.eqb_spec (own_Kind ref) "TransportURL") as [Hk|]; [|done].
  apply list_elem_of_In, list_elem_of_omap in Hl as (cr & _ & Hcr).
  destruct (String.eqb_spec (own_Name ref) (meta_Name (cei_Meta cr) +:+ "-transport")) as [Hn|]; simplify_eq.
  simpl. rewrite (Href ref) in Hn; [|by apply list_elem_of_In|done].
  symmetry. exact (append_cancel_r "ceilometer" _ "-transport" Hn).
Qed.
End Pass.
(** The handlers down to their calls. *)
Ltac unfold_ceilometer :=
  unfold reconcileBody, reconcileDelete, reconcileNormal, configure, deploy, configError, reconcileRbac,
    ceilometerService, reconcileInit, createHashOfInputHashes, generateComputeServiceConfig,
    generateServiceConfig, configInputs, getSecret, transportURLCreateOrUpdate, putHash, ensureHash,
    setNetworks, setReadyCount, setHash, setTransportURLSecret, setStatus.

End CeilometerController.
