(* ===== verification/CeilometerScenarios.v ===== *)
(** * Scenarios of the Ceilometer controller

    A concrete API server, on which the theorems of [CeilometerController] are
    applied. *)

From stdpp Require Import gmap strings list.
From Stdlib Require Import ZArith Lia.
From S2P Require Import Prelude Condition Api Libs Reference CeilometerPkg Operator CeilometerController.

Module CeilometerScenarios.
Import CeilometerController.

Definition req : NamespacedName := MkKey "openstack" "ceilometer".
Definition fin : string := GetFinalizer "Ceilometer".

Definition ceilometer (del : option Z) (hash : option (gmap string string)) (cs : Conditions) : Ceilometer :=
  MkCeilometer (MkMeta "ceilometer" "openstack" ∅ ∅ [fin] del []) (cei_Spec sampleCeilometer)
    (MkCeilometerStatus 0 hash cs "" []).

(** The API server: everything exists and is ready; [i] is the Ceilometer. *)
Definition world (i : Ceilometer) (X : Type) (e : CallE X) (u : unit) : X * unit :=
  (match e in CallE X return X with
   | GetCeilometer _ => inl i
   | NewHelper _ => None
   | PatchInstance _ => None
   | GetSecret name _ => (Some (MkSecret name ∅), name +:+ "-hash", None)
   | ReconcileRbac _ _ _ =>
       ([refTrue ServiceAccountReadyCondition (lib "ServiceAccountReadyMessage")], (emptyResult, None))
   | FetchTransportURL _ => inl None
   | CommitTransportURL t =>
       inl (MkTransportURL (tu_Meta t) (tu_RabbitmqClusterName t) "rabbitmq-transport", OperationResultCreated)
   | SetControllerReference _ m => inl m
   | GetKeystoneAPI _ => inl "keystone"
   | GetEndpoint _ _ => inl "http://keystone"
   | EnsureSecrets _ cms env => inl env
   | KeystoneServiceCreateOrPatch _ _ _ _ =>
       (Some [refTrue KeystoneServiceReadyCondition (text "")], (emptyResult, None))
   | StatefulSetCreateOrPatch _ _ => (1%Z, (emptyResult, None))
   | FetchService _ => inl None
   | CommitService s => inl (s, OperationResultCreated)
   | GetKeystoneService _ _ => inl (MkMeta "ceilometer" "openstack" ∅ ∅ [fin] None [])
   | UpdateKeystoneService _ => None
   | ListCeilometers _ => inl [i]
   end, u).

Definition traceOf i := (interp (world i) (Reconcile req) tt).1.1.
Definition resultOf i := (interp (world i) (Reconcile req) tt).1.2.

Lemma ceilometer_scenario_runs i : runs (Reconcile req) (traceOf i) (resultOf i).
Proof.
  unfold traceOf, resultOf. destruct (interp _ _ _) as [[tr o] u] eqn:H. by eapply interp_runs.
Qed.

Definition patched i : Ceilometer :=
  match omap patchOf (traceOf i) with (i', _) :: _ => i' | [] => i end.

(** After the first pass: only the Ready condition. *)
Definition young : Ceilometer :=
  ceilometer None None (Some [refUnknown ReadyCondition InitReason (lib "ReadyInitMessage")]).

(** The object the pass over [young] leaves: its hash is recorded. *)
Definition settled : Ceilometer := patched young.
Definition deleted : Ceilometer := ceilometer (Some 3%Z) None (Some []).

Lemma ceilometer_patched_last_witness : readyOk (conds (patched settled)).
Proof.
  destruct (ceilometer_patched_last req _ _ settled (ceilometer_scenario_runs settled) eq_refl)
    as [(err & H & _)|(pre & i' & err & r & e & _ & H & Hr & _)].
  - apply interp_keeps. intros X [] u; simpl; eauto.
  - exfalso. apply (f_equal length) in H. vm_compute in H. discriminate H.
  - unfold patched. rewrite H. exact Hr.
Defined.

(** The secret disappears between its check and its use. *)
Definition race (X : Type) (e : CallE X) (u : unit) : X * unit :=
  (match e in CallE X return X with
   | GetSecret _ _ => (None, "", Some (MkError true "not found"))
   | e => (world young _ e tt).1
   end, u).

Lemma ceilometer_nil_secret_panics_witness :
  exists i' w, (interp race (generateServiceConfig ∅ young) tt).1.2 = (i', Panicked w).
Proof.
  destruct (interp race (generateServiceConfig ∅ young) tt) as [[tr [i' o]] u] eqn:H.
  destruct (proj2 (ceilometer_nil_secret_panics ∅ young tr i' o false (interp_runs _ _ _ _ _ _ H)))
    as [w ->].
  - apply (f_equal (fun x => existsb nilSecret x.1.1)) in H. vm_compute in H. symmetry. exact H.
  - exists i', w. reflexivity.
Defined.

Lemma ceilometer_statefulset_gated_witness :
  exists def hash i1, def ∈ omap sfsetOf (traceOf settled) /\ inputHashOf settled = Some hash /\
    CeilometerStatefulSet i1 hash serviceLabels = inl def.
Proof.
  assert (exists def, def ∈ omap sfsetOf (traceOf settled)) as [def Hdef].
  { eexists. apply list_elem_of_In. vm_compute. left. reflexivity. }
  destruct (ceilometer_statefulset_gated req _ _ settled def (ceilometer_scenario_runs settled) eq_refl Hdef)
    as (hash & i1 & Hh & _ & _ & Hd).
  exists def, hash, i1. split; [exact Hdef|]. split; [exact Hh|exact Hd].
Defined.

Lemma ceilometer_ready_before_deployment_witness :
  omap sfsetOf (traceOf young) = [] /\ Ceilometer_IsReady (patched young) = true.
Proof.
  apply (ceilometer_ready_before_deployment req (traceOf young) young (patched young)).
  - exact (ceilometer_scenario_runs young).
  - reflexivity.
  - split_and!; [reflexivity|by apply (bool_decide_unpack _)|done].
  - apply (bool_decide_unpack _). by vm_compute.
  - intros c Hc Ht. exfalso. apply Ht. apply list_elem_of_singleton in Hc as ->. reflexivity.
  - apply interp_keeps. by intros X [] u; simpl; auto.
  - vm_compute. reflexivity.
  - vm_compute. discriminate.
Defined.

Lemma ceilometer_delete_order_witness :
  ~ (fin ∈ meta_Finalizers (cei_Meta (patched deleted))) /\
  exists r, omap keystoneLookup (traceOf deleted) = [r].
Proof.
  assert (fin ∉ meta_Finalizers (cei_Meta (patched deleted))) as Hn
    by (apply (bool_decide_unpack _); by vm_compute).
  split; [exact Hn|].
  destruct (ceilometer_delete_order req _ _ deleted (patched deleted) None (ceilometer_scenario_runs deleted)
    eq_refl eq_refl) as (_ & _ & r & Hr & _).
  - done.
  - apply list_elem_of_In. vm_compute. left. reflexivity.
  - apply (bool_decide_unpack _). by vm_compute.
  - exact Hn.
  - exists r. exact Hr.
Defined.

(** A secret owned by the transport URL the controller created, while the only
    Ceilometer has another name. *)
Definition transportSecret : ObjectMeta :=
  MkMeta "rabbitmq-transport" "openstack" ∅ ∅ [] None [MkOwnerRef "TransportURL" transportURLName].

Lemma ceilometer_transport_watch_misses_witness :
  exists key, key ∈ (interp (world young) (transportURLSecretFn transportSecret) tt).1.2 /\
    key_Name key = "ceilometer".
Proof.
  destruct (interp (world young) (transportURLSecretFn transportSecret) tt) as [[tr reqs] u] eqn:H.
  exists (MkKey "openstack" "ceilometer").
  assert (MkKey "openstack" "ceilometer" ∈ reqs) as Hin.
  { apply (f_equal (fun x => x.1.2)) in H. simpl in H. rewrite <-H.
    apply list_elem_of_In. vm_compute. left. reflexivity. }
  split; [exact Hin|].
  apply (ceilometer_transport_watch_misses transportSecret tr reqs (MkKey "openstack" "ceilometer")
    (interp_runs _ _ _ _ _ _ H)); [|exact Hin].
  intros ref ->%list_elem_of_singleton _. reflexivity.
Defined.
End CeilometerScenarios.
