(* ===== verification/LoggingController.v ===== *)
(** * The Logging controller ([controllers/logging_controller.go], [pkg/logging])

    Generates the rsyslog configuration of the compute nodes and a
    LoadBalancer Service in the namespace of the cluster logging operator. *)

From stdpp Require Import gmap strings list.
From Stdlib Require Import ZArith Lia.
From S2P Require Import Prelude Condition Api Libs Reference CeilometerPkg Operator.

#[local] Open Scope go_scope.

Module LoggingController.

(** ** const.go *)
Definition ServiceName := "logging".
Definition ComputeServiceName := "logging-compute".

Inductive CallE : Type -> Type :=
| GetLogging (key : NamespacedName) : CallE (Logging + GoError)
| NewHelper (i : Logging) : CallE (option GoError)
| PatchInstance (i : Logging) : CallE (option GoError)
| ReconcileRbac (name ns : string) (rules : list PolicyRule) : CallE (list Condition * RE)
| GetSecret (key : NamespacedName) : CallE (Secret + GoError)
| EnsureSecrets (owner : ObjectMeta) (secrets : list Template) (envVars : EnvMap) : CallE (EnvMap + GoError)
| FetchService (key : NamespacedName) : CallE (option Service + GoError)
| CommitService (s : Service) : CallE (Service * OperationResult + GoError).

Abbreviation LM := (M CallE Logging).

(** ** Fields of the status *)
Definition setHash (f : option (gmap string string) -> option (gmap string string)) : LM unit :=
  modify (fun i => MkLogging (log_Meta i) (log_Spec i)
    (MkLoggingStatus (f (logt_Hash (log_Status i))) (logt_Conditions (log_Status i)))).

Definition ensureHash : LM unit := setHash (fun h => Some (default ∅ h)).

(** [instance.Status.Hash[key] = v]: a write to a nil map panics. *)
Definition putHash (key v : string) : LM unit :=
  let* i := get in
  match logt_Hash (log_Status i) with
  | Some _ => setHash (fun h => Some (<[key := v]> (default ∅ h)))
  | None => panic "assignment to entry in nil map"
  end.

Section Controller.
Context `{L : ConditionLib} `{F : FinalizerLib} `{C : CommonLib}.

Definition finalizer := GetFinalizer "Logging".

(** ** logging.Service ([pkg/logging/service.go]) *)
Definition desiredService (instance : Logging) (service : Service) : Service :=
  MkService
    (withAnnotations
       {[ "endpoint" := "internal";
          "metallb.universe.tf/address-pool" := logs_Network (log_Spec instance);
          "metallb.universe.tf/allow-shared-ip" := logs_Network (log_Spec instance);
          "metallb.universe.tf/loadBalancerIPs" := logs_IPAddr (log_Spec instance) ]}
       (svc_Meta service))
    {[ "app.kubernetes.io/instance" := "collector";
       "component" := "collector";
       "provider" := "openshift" ]}
    [MkServicePort "" TCP (logs_Port (log_Spec instance)) (FromInt (logs_TargetPort (log_Spec instance)))]
    "LoadBalancer".

Definition loggingService (labels : gmap string string) : LM (option GoError) :=
  let* instance := get in
  let fresh := newMeta ("openstack-" +:+ ServiceName) (logs_CLONamespace (log_Spec instance)) in
  let* r := call (FetchService (keyOf fresh)) in
  match r with
  | inr err => ret (Some err)
  | inl found =>
      let* r := call (CommitService (desiredService instance (default (MkService fresh ∅ [] "") found))) in
      match r with
      | inr err => ret (Some err)
      | inl _ => ret None
      end
  end.

(** ** retrieveOpenshiftCA: nil when there is no such secret or key *)
Definition retrieveOpenshiftCA : LM (option string) :=
  let* r := call (GetSecret (MkKey "openshift-service-ca" "signing-key")) in
  match r with
  | inr _ => ret None
  | inl s => ret (sec_Data s !! "tls.crt")
  end.

(** ** generateComputeServiceConfig; numbers are given by their decimal text *)

(** The secret with the rsyslog configuration. *)
Definition computeTemplates (instance : Logging) (cacert : option string) : list Template :=
  let secretLabels :=
    GetLabels (meta_Name (log_Meta instance)) (GetGroupLabel CeilometerPkg.ComputeServiceName) ∅ in
  let spec := log_Spec instance in
  let templateParameters : gmap string string :=
    {[ "RsyslogAddress" := logs_IPAddr spec;
       "RsyslogPort" := itoa (logs_Port spec);
       "RsyslogRetries" := itoa (logs_RsyslogRetries spec);
       "RsyslogQueueType" := logs_RsyslogQueueType spec;
       "RsyslogQueueSize" := itoa (logs_RsyslogQueueSize spec) ]} in
  let customData : gmap string string :=
    match cacert with Some c => {[ "ca-openshift.crt" := c ]} | None => ∅ end in
  [MkTemplate (ComputeServiceName +:+ "-config-data") (meta_Namespace (log_Meta instance))
     TemplateTypeConfig "logging" ∅ customData templateParameters secretLabels].

Definition generateComputeServiceConfig (envVars : EnvMap) : LM (EnvMap + GoError) :=
  let* instance := get in
  let* cacert := retrieveOpenshiftCA in
  call (EnsureSecrets (log_Meta instance) (computeTemplates instance cacert) envVars).

(** ** createHashOfInputHashes *)
Definition createHashOfInputHashes (envVars : EnvMap) : LM (string * bool * option GoError) :=
  let* instance := get in
  let '(hash, err) := ObjectHash (MergeEnvs [] envVars) in
  match err with
  | Some _ => ret (hash, false, err)
  | None =>
      let '(hashMap, changed) := SetHash (logt_Hash (log_Status instance)) InputHashName hash in
      (if (changed : bool) then setHash (fun _ => Some hashMap) else ret tt) ;;;
      ret (hash, changed, None)
  end.

(** ** reconcileNormal *)
(** [instance.Status.Conditions.Set(c)] in a method with a value receiver: what
    the caller's conditions are afterwards. *)
Definition Logging_RbacConditionsSet (cs : Conditions) (c : Condition) : Conditions := SetOnCopy cs c.

Definition rbacRules : list PolicyRule :=
  [MkRule ["security.openshift.io"] ["anyuid"] ["securitycontextconstraints"] ["use"];
   MkRule [""] [] ["pods"] ["create"; "get"; "list"; "watch"; "update"; "patch"; "delete"]].

Definition reconcileRbac : LM RE :=
  let* instance := get in
  let* '(conds, re) := call (ReconcileRbac (Logging_RbacResourceName instance)
                               (Logging_RbacNamespace instance) rbacRules) in
  modifyConds (fun cs => fold_left Logging_RbacConditionsSet conds cs) ;;;
  ret re.

Definition configError (err : GoError) : LM RE :=
  setFalse ServiceConfigReadyCondition ErrorReason SeverityWarning
    (libf "ServiceConfigReadyErrorMessage" (err_text err)) ;;;
  ret (emptyResult, Some err).

Definition serviceLabels : gmap string string := {[ AppSelector := ServiceName ]}.

(** From the unchanged hash on. *)
Definition expose (inputHash : string) : LM RE :=
  putHash InputHashName inputHash ;;;
  markTrue ServiceConfigReadyCondition (lib "ServiceConfigReadyMessage") ;;;
  let* err := loggingService serviceLabels in
  match err with
  | Some _ => ret (emptyResult, err)
  | None => ret (emptyResult, None)
  end.

Definition configure : LM RE :=
  let* r := generateComputeServiceConfig ∅ in
  match r with
  | inr err => configError err
  | inl envVars =>
      let* '(inputHash, hashChanged, err) := createHashOfInputHashes envVars in
      match err with
      | Some err => configError err
      | None => if (hashChanged : bool) then ret (emptyResult, None) else expose inputHash
      end
  end.

Definition reconcileNormal : LM RE :=
  let* re := reconcileRbac in
  returnOn re (
  markTrue InputReadyCondition (lib "InputReadyMessage") ;;;
  configure).

Definition reconcileDelete : LM RE := removeFinalizer finalizer ;;; ret (emptyResult, None).

(** ** Reconcile *)
Definition initialConditions : Conditions :=
  Init (Some []) (CreateList [
    UnknownCondition InputReadyCondition InitReason (lib "InputReadyInitMessage");
    UnknownCondition ServiceConfigReadyCondition InitReason (lib "ServiceConfigReadyInitMessage");
    UnknownCondition ServiceAccountReadyCondition InitReason (lib "ServiceAccountReadyInitMessage");
    UnknownCondition RoleReadyCondition InitReason (lib "RoleReadyInitMessage");
    UnknownCondition RoleBindingReadyCondition InitReason (lib "RoleBindingReadyInitMessage")]).

Definition reconcileBody : LM RE :=
  let* instance := get in
  let* added := (if notDeleting (log_Meta instance) then addFinalizer finalizer else ret false) in
  if (added : bool) then ret (emptyResult, None) else
  let* instance := get in
  match logt_Conditions (log_Status instance) with
  | None => modifyConds (fun _ => initialConditions) ;;; ret (emptyResult, None)
  | Some _ =>
      ensureHash ;;;
      if negb (notDeleting (log_Meta instance)) then reconcileDelete else reconcileNormal
  end.

Definition Reconcile (req : NamespacedName) : prog CallE (outcome RE) :=
  Vis (GetLogging req) (fun r =>
  match r with
  | inr err =>
      if err_notFound err then Ret (Val (emptyResult, None))
      else Ret (Val (emptyResult, Some err))
  | inl instance =>
      Vis (NewHelper instance) (fun e =>
      match e with
      | Some err => Ret (Val (emptyResult, Some err))
      | None => runM (withDefer reconcileBody (deferPatch PatchInstance true)) instance
      end)
  end).
End Controller.

(** ** Observations on a trace *)
Definition fetched (tr : list (event CallE)) : option Logging :=
  match tr with
  | Ev e x :: _ =>
      match e in CallE X return X -> option Logging with
      | GetLogging _ => fun x => match x with inl i => Some i | inr _ => None end
      | _ => fun _ => None
      end x
  | [] => None
  end.

Definition patchOf (ev : event CallE) : option (Logging * option GoError) :=
  match ev with
  | Ev e x =>
      match e in CallE X return X -> option (Logging * option GoError) with
      | PatchInstance i => fun x => Some (i, x)
      | _ => fun _ => None
      end x
  end.

Definition serviceOf (ev : event CallE) : option Service :=
  match ev with
  | Ev e _ => match e with CommitService s => Some s | _ => None end
  end.

Section Pass.
Context `{L : ConditionLib} `{LL : !ConditionLaws L} `{F : FinalizerLib} `{FL : !FinalizerLaws F}.
Context `{C : CommonLib} `{CL : !CommonLaws C}.

Definition conds (i : Logging) : Conditions := logt_Conditions (log_Status i).
Definition inputHashOf (i : Logging) : option string :=
  default ∅ (logt_Hash (log_Status i)) !! InputHashName.

Lemma logging_Reconcile_from req tr o i Q :
  runs (Reconcile req) tr o -> fetched tr = Some i ->
  (forall err, Q [Ev (GetLogging req) (inl i); Ev (NewHelper i) (Some err)]
                 (Val (emptyResult, Some err))) ->
  wpM anyAnswer reconcileBody i (fun tr' i' o' => forall err,
    Q (Ev (GetLogging req) (inl i) :: Ev (NewHelper i) None ::
       tr' ++ [Ev (PatchInstance (finish i')) err]) (finishResult true err o')) ->
  Q tr o.
Proof.
  intros (r & tr1 & -> & H) Hf Herr Hwp. simpl in Hf. destruct r as [i'|]; [|done]. simplify_eq.
  destruct H as (e & tr2 & -> & H). destruct e as [err|]; [by destruct H as [-> ->]|].
  refine (runs_wp_any _ (fun tr o => Q (_ :: _ :: tr) o) _ _ _ H).
  apply wp_runM, deferPatch_wp. eapply wpM_mono; [|exact Hwp]. auto.
Qed.

(** *** The deployed Service *)

(** The Service [s] the Logging [i] asks for, over the one that was [found]. *)
Definition serviceOk (i : Logging) (found : option Service) (s : Service) : Prop :=
  svc_Meta s = withAnnotations
    {[ "endpoint" := "internal"; "metallb.universe.tf/address-pool" := logs_Network (log_Spec i);
       "metallb.universe.tf/allow-shared-ip" := logs_Network (log_Spec i);
       "metallb.universe.tf/loadBalancerIPs" := logs_IPAddr (log_Spec i) ]}
    (match found with
     | Some s0 => svc_Meta s0
     | None => newMeta "openstack-logging" (logs_CLONamespace (log_Spec i))
     end) /\
  svc_Selector s =
    {[ "app.kubernetes.io/instance" := "collector"; "component" := "collector"; "provider" := "openshift" ]} /\
  svc_Ports s = [MkServicePort "" TCP (logs_Port (log_Spec i)) (FromInt (logs_TargetPort (log_Spec i)))] /\
  svc_Type s = "LoadBalancer".

(** The Service is looked up in the namespace of the cluster logging operator
    and then written. *)
Definition exposes (i : Logging) (tr : list (event CallE)) : Prop :=
  exists found s ans,
    tr = [Ev (FetchService (MkKey (logs_CLONamespace (log_Spec i)) "openstack-logging")) (inl found);
          Ev (CommitService s) ans] /\ serviceOk i found s.

(** No Service is written, or one, at the end, right after the configuration
    was written whose hash is the one recorded before. *)
Definition gated (i : Logging) (tr : list (event CallE)) : Prop :=
  omap serviceOf tr = [] \/
  exists pre owner cms env hash svc,
    tr = pre ++ Ev (EnsureSecrets owner cms ∅) (inl env) :: svc /\ omap serviceOf pre = [] /\
    ObjectHash (MergeEnvs [] env) = (hash, None) /\ inputHashOf i = Some hash /\ exposes i svc.

Lemma gated_app i tr tr' : omap serviceOf tr = [] -> gated i tr' -> gated i (tr ++ tr').
Proof.
  intros Ht [H|(pre & owner & cms & env & hash & svc & -> & Hp & Hrest)].
  - left. by rewrite omap_app, Ht, H.
  - right. exists (tr ++ pre), owner, cms, env, hash, svc. by rewrite omap_app, Ht, Hp, <-app_assoc.
Qed.

Definition unpatched (tr : list (event CallE)) : Prop := Forall (fun ev => patchOf ev = None) tr.

Definition orderly (i0 : Logging) (tr : list (event CallE)) (i : Logging) (o : outcome RE) : Prop :=
  unpatched tr /\ gated i0 tr /\ exists a, o = Val a.

(** Calls that concern no Service. *)
Lemma orderly_quiet i0 tr i a : unpatched tr -> omap serviceOf tr = [] -> orderly i0 tr i (Val a).
Proof. intros Hp Hs. split_and!; [done|by left|eauto]. Qed.

Lemma expose_wp i0 hash i : log_Spec i = log_Spec i0 -> logt_Hash (log_Status i) <> None ->
  wpM anyAnswer (expose hash) i (fun tr _ o => unpatched tr /\ (exists a, o = Val a) /\
    (omap serviceOf tr = [] \/ exposes i0 tr)).
Proof.
  intros Hs Hn. unfold expose, putHash, setHash, markTrue, modifyConds, loggingService. do 3 wpm_step.
  destruct (logt_Hash (log_Status i)); [|done]. wpm; simplify_eq.
  all: split_and!; [by repeat constructor|eauto|first [by left|right]].
  all: eexists _, _, _; (split; [simpl; rewrite Hs; reflexivity|]); unfold serviceOk, desiredService; simpl.
  all: by case_match.
Qed.

(** The state during a pass: spec and recorded hash are those of [i0]. *)
Definition during (i0 i : Logging) : Prop :=
  log_Spec i = log_Spec i0 /\ logt_Hash (log_Status i) <> None /\ inputHashOf i = inputHashOf i0.

Lemma generate_wp i : wpM anyAnswer (generateComputeServiceConfig ∅) i (fun tr i' o => i' = i /\
  exists pre owner cms r, tr = pre ++ [Ev (EnsureSecrets owner cms ∅) r] /\ o = Val r /\
    unpatched pre /\ omap serviceOf pre = []).
Proof.
  unfold generateComputeServiceConfig, retrieveOpenshiftCA.
  wpm; (split; [done|]); eexists [_], _, _, _; (split_and!; [reflexivity|done|by repeat constructor|done]).
Qed.

Lemma configure_orderly i0 i : during i0 i -> wpM anyAnswer configure i (orderly i0).
Proof.
  intros (Hs & Hn & Hh). unfold configure, configError, setFalse, modifyConds.
  wpm_step. eapply wpM_mono; [|exact (generate_wp i)].
  intros tr1 i1 o1 (-> & pre & owner & cms & r & -> & -> & Hp & Hv).
  assert (unpatched (pre ++ [Ev (EnsureSecrets owner cms ∅) r])) as Hp1
    by (apply Forall_app; split; [done|by repeat constructor]).
  assert (omap serviceOf (pre ++ [Ev (EnsureSecrets owner cms ∅) r]) = []) as Hv1 by (by rewrite omap_app, Hv).
  destruct r as [env|err]; [|wpm; rewrite !app_nil_r; by apply orderly_quiet].
  unfold createHashOfInputHashes.
  destruct (ObjectHash (MergeEnvs [] env)) as [hash [err|]] eqn:Hobj.
  { do 3 wpm_step. wpm. rewrite !app_nil_r. by apply orderly_quiet. }
  do 3 wpm_step. pose proof (SetHash_flag (logt_Hash (log_Status i)) InputHashName hash) as Hflag.
  destruct (SetHash _ _ _) as [hm changed]. simpl in Hflag. destruct changed.
  - unfold setHash. wpm. rewrite !app_nil_r. by apply orderly_quiet.
  - do 3 wpm_step. eapply wpM_mono; [|exact (expose_wp i0 hash i Hs Hn)].
    intros tr2 i2 o2 (Hp2 & Ho & Hx). split_and!; [by apply Forall_app| |done].
    destruct Hx as [Hx|Hx]; [left; by rewrite !omap_app, Hv, Hx|right].
    exists pre, owner, cms, env, hash, tr2. split_and!; [by rewrite <-app_assoc|done|done| |done].
    rewrite <-Hh. by apply Hflag.
Qed.

Lemma reconcileNormal_orderly i0 i : during i0 i -> wpM anyAnswer reconcileNormal i (orderly i0).
Proof.
  intros Hi. unfold reconcileNormal, reconcileRbac, returnOn, markTrue, modifyConds.
  do 4 wpm_step. apply wpM_call. intros [rb [r e]] _. do 3 wpm_step.
  assert (unpatched [Ev (ReconcileRbac (Logging_RbacResourceName i) (Logging_RbacNamespace i) rbacRules)
    (rb, (r, e))]) as Hp by (by repeat constructor).
  destruct e; [wpm; by apply orderly_quiet|]. destruct (nonEmpty r); [wpm; by apply orderly_quiet|].
  wpm_step. wpm_step. eapply wpM_mono; [|apply (configure_orderly i0); exact Hi].
  intros tr i' o (Ht & Hg & Ho). split_and!; [by apply Forall_app|by apply (gated_app i0 [_])|exact Ho].
Qed.

Lemma reconcileBody_orderly i : wpM anyAnswer reconcileBody i (orderly i).
Proof.
  assert (forall i', orderly i [] i' (Val (emptyResult, None))) as Hnil
    by (intros i'; apply orderly_quiet; [constructor|done]).
  unfold reconcileBody. wpm_step. wpm_step. destruct (notDeleting (log_Meta i)) eqn:Hd.
  - destruct (decide (finalizer ∈ meta_Finalizers (log_Meta i))) as [Hf|Hf].
    + wpm_step. apply addFinalizer_present; [done|]. cbv beta iota. wpm_step. wpm_step.
      destruct (logt_Conditions _); [|unfold modifyConds; wpm; apply Hnil].
      unfold ensureHash, setHash. do 2 wpm_step. rewrite Hd. simpl.
      by apply (reconcileNormal_orderly i).
    + wpm_step. apply addFinalizer_absent; [done|]. intros fs _. cbv beta iota. wpm. apply Hnil.
  - do 4 wpm_step. destruct (logt_Conditions _); [|unfold modifyConds; wpm; apply Hnil].
    unfold ensureHash, setHash. do 2 wpm_step. rewrite Hd. simpl. unfold reconcileDelete. wpm_step.
    apply removeFinalizer_wp. intros fs b _. wpm. apply Hnil.
Qed.

(** C35. A pass over a fetched Logging whose helper can be created ends without
    a panic and with exactly one patch, its last call; an error of the patch
    becomes the returned error, and the result is otherwise the same whatever
    the patch is answered.  At most one Service is written, right before the
    patch: it is looked up under the name openstack-logging in the namespace
    of the cluster logging operator, after the configuration was written, and
    only if the hash of that configuration was recorded before the pass.  It
    keeps the metadata of the Service that was found and gets the annotations,
    the selector, the port and the type the spec asks for.  When the helper
    cannot be created, the pass ends there with that error. *)
Theorem logging_pass_orderly req tr o i :
  runs (Reconcile req) tr o -> fetched tr = Some i ->
  (exists err, tr = [Ev (GetLogging req) (inl i); Ev (NewHelper i) (Some err)] /\
     o = Val (emptyResult, Some err)) \/
  (exists pre i' err r e, tr = pre ++ [Ev (PatchInstance i') err] /\ omap patchOf tr = [(i', err)] /\
     readyOk (conds i') /\ o = Val (r, match err with Some _ => err | None => e end) /\
     (forall err', runs (Reconcile req) (pre ++ [Ev (PatchInstance i') err'])
        (Val (r, match err' with Some _ => err' | None => e end))) /\
     (omap serviceOf tr = [] \/
      exists pre' owner cms env hash found s ans,
        pre = pre' ++ [Ev (EnsureSecrets owner cms ∅) (inl env);
          Ev (FetchService (MkKey (logs_CLONamespace (log_Spec i)) "openstack-logging")) (inl found);
          Ev (CommitService s) ans] /\
        omap serviceOf tr = [s] /\ serviceOk i found s /\
        ObjectHash (MergeEnvs [] env) = (hash, None) /\ inputHashOf i = Some hash)).
Proof.
  intros Hr Hf. pattern tr, o.
  apply (logging_Reconcile_from _ _ _ _ _ Hr Hf); [intros err; left; by exists err|].
  eapply wpM_mono; [|apply wpM_and; [exact (reconcileBody_orderly i)|exact (wpM_self _ _ _)]].
  intros tr' i' o' [(HP & Hg & [r e] & ->) Hb] err. right.
  eexists (_ :: _ :: tr'), (finish i'), err, r, e. split_and!.
  - done.
  - simpl. rewrite omap_app, omap_None by done. done.
  - apply (readyOk_updateReady (conds i')).
  - done.
  - intros err'. exists (inl i). eexists. split; [done|]. exists None. eexists. split; [done|].
    exact (deferPatch_runs _ _ _ _ _ _ _ err' Hb).
  - simpl. rewrite omap_app. simpl. rewrite app_nil_r.
    destruct Hg as [->|(pre & owner & cms & env & hash & svc & -> & Hpre & Hobj & Hh & found & s & ans & -> & Hok)];
      [by left|right].
    eexists (_ :: _ :: pre), owner, cms, env, hash, found, s, ans. split_and!; [done| |done|done|done].
    by rewrite omap_app, Hpre.
Qed.

(** Deleting a Logging leaves its Service behind: the pass that removes
    the finalizer makes no call besides the patch, and no Service the
    controller creates afresh has an owner reference, so that nothing collects
    it. *)
Theorem logging_delete_leaves_service req tr o i i' err :
  runs (Reconcile req) tr o -> fetched tr = Some i ->
  notDeleting (log_Meta i) = false -> conds i <> None -> (i', err) ∈ omap patchOf tr ->
  tr = [Ev (GetLogging req) (inl i); Ev (NewHelper i) None; Ev (PatchInstance i') err] /\
  ~ (finalizer ∈ meta_Finalizers (log_Meta i')) /\
  forall name ns, meta_OwnerReferences (svc_Meta (desiredService i
    (MkService (newMeta name ns) ∅ [] ""))) = [].
Proof.
  intros Hr Hf Hd Hc. pattern tr, o.
  apply (logging_Reconcile_from _ _ _ _ _ Hr Hf); [intros e Hin; by apply not_elem_of_nil in Hin|].
  unfold reconcileBody. do 2 wpm_step. rewrite Hd. do 4 wpm_step.
  unfold conds in Hc. destruct (logt_Conditions (log_Status i)); [|done].
  unfold ensureHash, setHash. do 2 wpm_step. rewrite Hd. simpl. unfold reconcileDelete. wpm_step.
  apply removeFinalizer_wp. intros fs b Hfs. wpm_step. intros err'. simpl.
  intros [= -> ->]%list_elem_of_singleton. split_and!; [done| |done].
  simpl. intros Hin. apply Hfs in Hin as [_ ?]. done.
Qed.
End Pass.

(** ** A scenario *)
Module Scenario.
Definition req : NamespacedName := MkKey "openstack" "logging".
Definition logging (del : option Z) : Logging :=
  MkLogging (MkMeta "logging" "openstack" ∅ ∅ [GetFinalizer "Logging"] del [])
    (MkLoggingSpec "internalapi" "172.17.0.80" 10514 10514 "openshift-logging" 100 "linked_list" 10000)
    (MkLoggingStatus (Some {[ "input" := "" ]}) (Some [])).

Definition world (i : Logging) (X : Type) (e : CallE X) (u : unit) : X * unit :=
  (match e in CallE X return X with
   | GetLogging _ => inl i
   | NewHelper _ => None
   | PatchInstance _ => None
   | ReconcileRbac _ _ _ => ([], (emptyResult, None))
   | GetSecret _ => inr (MkError true "not found")
   | EnsureSecrets _ _ env => inl env
   | FetchService _ => inl None
   | CommitService s => inl (s, OperationResultCreated)
   end, u).

Definition traceOf i := (interp (world i) (Reconcile req) tt).1.1.
Definition resultOf i := (interp (world i) (Reconcile req) tt).1.2.

Lemma logging_scenario_runs i : runs (Reconcile req) (traceOf i) (resultOf i).
Proof.
  unfold traceOf, resultOf. destruct (interp _ _ _) as [[tr o] u] eqn:H. by eapply interp_runs.
Qed.

Lemma logging_pass_orderly_witness :
  exists s, omap serviceOf (traceOf (logging None)) = [s] /\
    keyOf (svc_Meta s) = MkKey "openshift-logging" "openstack-logging" /\ svc_Type s = "LoadBalancer".
Proof.
  assert (omap serviceOf (traceOf (logging None)) <> []) as Hs by (vm_compute; discriminate).
  assert (Forall (keeps (fun X e => match e in CallE X return X -> Prop with
    | FetchService _ => fun x => x = inl None | _ => fun _ => True end)) (traceOf (logging None))) as Hfetch
    by (apply interp_keeps; by intros X [] u).
  destruct (logging_pass_orderly req _ _ (logging None) (logging_scenario_runs (logging None)) eq_refl)
    as [(err & H & _)|(pre & i' & err & r & e & Htr & _ & _ & _ & _ & [H|H])].
  - exfalso. apply (f_equal length) in H. vm_compute in H. discriminate H.
  - contradiction.
  - destruct H as (pre' & owner & cms & env & hash & found & s & ans & -> & Hsvc & (Hm & _ & _ & Ht) & _).
    exists s. split; [exact Hsvc|]. split; [|exact Ht]. rewrite Htr in Hfetch.
    rewrite !Forall_app in Hfetch. destruct Hfetch as [[_ Hfetch] _].
    apply Forall_cons in Hfetch as [_ [Hx _]%Forall_cons]. simpl in Hx. injection Hx as ->.
    rewrite Hm. reflexivity.
Defined.

Definition patched i : Logging :=
  match omap patchOf (traceOf i) with (i', _) :: _ => i' | [] => i end.

Lemma logging_delete_leaves_service_witness :
  length (traceOf (logging (Some 5%Z))) = 3.
Proof.
  destruct (logging_delete_leaves_service req _ _ (logging (Some 5%Z)) (patched (logging (Some 5%Z))) None
    (logging_scenario_runs (logging (Some 5%Z))) eq_refl eq_refl) as (-> & _).
  - done.
  - apply list_elem_of_In. vm_compute. left. reflexivity.
  - reflexivity.
Defined.
End Scenario.
(** The handlers down to their calls. *)
Ltac unfold_logging :=
  unfold reconcileBody, reconcileDelete, reconcileNormal, configure, expose, configError, reconcileRbac,
    createHashOfInputHashes, generateComputeServiceConfig, retrieveOpenshiftCA, loggingService,
    putHash, ensureHash, setHash.

End LoggingController.
