(* ===== verification/AutoscalingController.v ===== *)
(** * The Autoscaling controller ([controllers/autoscaling_controller.go] and
    [controllers/aodh_controller.go])

    Deploys Aodh: service account, RabbitMQ transport URL, input secrets,
    memcached, Heat, generated configuration, hash of the inputs, Keystone
    service, database, database sync job, StatefulSet, one Service per
    endpoint and the Keystone endpoints. *)

From stdpp Require Import gmap strings list pretty.
From Stdlib Require Import ZArith Lia.
From S2P Require Import Prelude Condition Api Libs Reference AutoscalingPkg MetricStoragePkg Operator.

#[local] Open Scope go_scope.

Module AutoscalingController.

(** ** External calls

    [RangeEndpoints] is the order in which Go visits the map of endpoints;
    [DoJob] answers also [HasChanged()] and [GetHash()] of the job;
    [ServiceCreateOrPatch] gets the annotations added to the service, in the
    order of the [AddAnnotation] calls. *)
Inductive CallE : Type -> Type :=
| GetAutoscaling (key : NamespacedName) : CallE (Autoscaling + GoError)
| NewHelper (i : Autoscaling) : CallE (option GoError)
| PatchInstance (i : Autoscaling) : CallE (option GoError)
| GetSecret (name ns : string) : CallE (option Secret * string * option GoError)
| ReconcileRbac (name ns : string) (rules : list PolicyRule) : CallE (list Condition * RE)
| FetchTransportURL (key : NamespacedName) : CallE (option TransportURL + GoError)
| CommitTransportURL (t : TransportURL) : CallE (TransportURL * OperationResult + GoError)
| SetControllerReference (owner m : ObjectMeta) : CallE (ObjectMeta + GoError)
| GetMemcached (key : NamespacedName) : CallE (Memcached + GoError)
| GetHeat (key : NamespacedName) : CallE (Heat + GoError)
| GetKeystoneAPI (ns : string) : CallE (string + GoError)
| GetEndpoint (api : string) (e : Endpoint) : CallE (string + GoError)
| EnsureSecrets (owner : ObjectMeta) (cms : list Template) (envVars : EnvMap) : CallE (EnvMap + GoError)
| KeystoneServiceCreateOrPatch (spec : KeystoneServiceSpec) (ns : string)
    (labels : gmap string string) (timeout : Z) : CallE (Conditions * RE)
| CreateOrPatchDBByName (db : Database) (name : string) : CallE RE
| WaitForDBCreated (db : Database) : CallE RE
| GetDatabaseHostname (db : Database) : CallE string
| DoJob (def : Job) (hashKey : string) (preserve : bool) (timeout : Z) (before : string)
    : CallE (RE * (bool * string))
| StatefulSetCreateOrPatch (def : StatefulSet) (timeout : Z) : CallE (Z * RE)
| RangeEndpoints (es : list (Endpoint * EndpointData)) : CallE (list (Endpoint * EndpointData))
| NewService (d : GenericServiceDetails) (timeout : Z) (override : RoutedOverrideSpec)
    : CallE (RoutedService + GoError)
| ServiceCreateOrPatch (s : RoutedService) (annotations : list (gmap string string)) : CallE RE
| GetAPIEndpoint (s : RoutedService) (url protocol : option string) (path : string)
    : CallE (string + GoError)
| KeystoneEndpointCreateOrPatch (name ns serviceName : string) (endpoints : gmap string string)
    (labels : gmap string string) (timeout : Z) : CallE (Conditions * RE)
| GetDatabaseByName (name : string) : CallE (ObjectMeta + GoError)
| DatabaseDeleteFinalizer (db : ObjectMeta) : CallE (option GoError)
| GetKeystoneService (name ns : string) : CallE (ObjectMeta + GoError)
| UpdateKeystoneService (m : ObjectMeta) : CallE (option GoError)
| GetKeystoneEndpoint (name ns : string) : CallE (ObjectMeta + GoError)
| UpdateKeystoneEndpoint (m : ObjectMeta) : CallE (option GoError)
| ListAutoscalings (ns : string) : CallE (list Autoscaling + GoError).

Abbreviation AM := (M CallE Autoscaling).

(** ** Fields of the object *)
Definition aodhOf (i : Autoscaling) : Aodh := ascs_Aodh (asc_Spec i).
Definition nsOf (i : Autoscaling) : string := meta_Namespace (asc_Meta i).

Definition setStatus (f : AutoscalingStatus -> AutoscalingStatus) : AM unit :=
  modify (fun i => MkAutoscaling (asc_Kind i) (asc_Meta i) (asc_Spec i) (f (asc_Status i))).
Definition setReadyCount (n : Z) : AM unit := setStatus (fun s =>
  MkAutoscalingStatus n (asct_Hash s) (asct_Conditions s) (asct_Networks s)
    (asct_TransportURLSecret s) (asct_DatabaseHostname s) (asct_PrometheusHost s)
    (asct_PrometheusPort s) (asct_APIEndpoints s)).
Definition setHash (h : option (gmap string string)) : AM unit := setStatus (fun s =>
  MkAutoscalingStatus (asct_ReadyCount s) h (asct_Conditions s) (asct_Networks s)
    (asct_TransportURLSecret s) (asct_DatabaseHostname s) (asct_PrometheusHost s)
    (asct_PrometheusPort s) (asct_APIEndpoints s)).
Definition setNetworks (n : list string) : AM unit := setStatus (fun s =>
  MkAutoscalingStatus (asct_ReadyCount s) (asct_Hash s) (asct_Conditions s) n
    (asct_TransportURLSecret s) (asct_DatabaseHostname s) (asct_PrometheusHost s)
    (asct_PrometheusPort s) (asct_APIEndpoints s)).
Definition setTransportURLSecret (v : string) : AM unit := setStatus (fun s =>
  MkAutoscalingStatus (asct_ReadyCount s) (asct_Hash s) (asct_Conditions s) (asct_Networks s)
    v (asct_DatabaseHostname s) (asct_PrometheusHost s)
    (asct_PrometheusPort s) (asct_APIEndpoints s)).
Definition setDatabaseHostname (v : string) : AM unit := setStatus (fun s =>
  MkAutoscalingStatus (asct_ReadyCount s) (asct_Hash s) (asct_Conditions s) (asct_Networks s)
    (asct_TransportURLSecret s) v (asct_PrometheusHost s)
    (asct_PrometheusPort s) (asct_APIEndpoints s)).
Definition setPrometheus (host : string) (port : Z) : AM unit := setStatus (fun s =>
  MkAutoscalingStatus (asct_ReadyCount s) (asct_Hash s) (asct_Conditions s) (asct_Networks s)
    (asct_TransportURLSecret s) (asct_DatabaseHostname s) host port (asct_APIEndpoints s)).
Definition setAPIEndpoints (m : option (gmap string string)) : AM unit := setStatus (fun s =>
  MkAutoscalingStatus (asct_ReadyCount s) (asct_Hash s) (asct_Conditions s) (asct_Networks s)
    (asct_TransportURLSecret s) (asct_DatabaseHostname s) (asct_PrometheusHost s)
    (asct_PrometheusPort s) m).

(** [if instance.Status.Hash == nil { instance.Status.Hash = map[string]string{} }] *)
Definition ensureHash : AM unit :=
  let* i := get in setHash (Some (default ∅ (asct_Hash (asc_Status i)))).

(** [instance.Status.Hash[key] = v]: a write to a nil map panics. *)
Definition putHash (key v : string) : AM unit :=
  let* i := get in
  match asct_Hash (asc_Status i) with
  | Some h => setHash (Some (<[key := v]> h))
  | None => panic "assignment to entry in nil map"
  end.

(** The override of the service the pointer [Spec.Aodh.Override.Service]
    points to. *)
Definition withOverride (o : RoutedOverrideSpec) (a : Aodh) : Aodh :=
  MkAodh (aodh_RabbitMqClusterName a) (aodh_DatabaseInstance a) (aodh_DatabaseUser a)
    (aodh_PasswordSelectors a) (aodh_ServiceUser a) (aodh_Secret a) (aodh_CustomServiceConfig a)
    (aodh_DefaultConfigOverwrite a) (aodh_NetworkAttachmentDefinitions a)
    (MkAPIOverride (Some o)) (aodh_PreserveJobs a) (aodh_MemcachedInstance a) (aodh_APIImage a)
    (aodh_EvaluatorImage a) (aodh_NotifierImage a) (aodh_ListenerImage a).
Definition setOverride (o : RoutedOverrideSpec) : AM unit :=
  modify (fun i => MkAutoscaling (asc_Kind i) (asc_Meta i)
    (MkAutoscalingSpec (ascs_PrometheusHost (asc_Spec i)) (ascs_PrometheusPort (asc_Spec i))
       (withOverride o (aodhOf i)) (ascs_HeatInstance (asc_Spec i)))
    (asc_Status i)).

Definition DbSyncHash := "dbsync".

Section Controller.
Context `{L : ConditionLib} `{F : FinalizerLib} `{C : CommonLib} `{V : ServiceLib}.

Definition finalizer := GetFinalizer "Autoscaling".
Definition serviceLabels : gmap string string := {[ AppSelector := AutoscalingPkg.ServiceName ]}.

(** ** aodh_controller.go: reconcileDeleteAodh *)

(** [if err != nil && !IsNotFound(err) {return err}]; [if err == nil] the
    finalizer is removed and, when it was there, the object updated. *)
Definition releaseFinalizer (r : ObjectMeta + GoError)
    (update : ObjectMeta -> CallE (option GoError)) (rest : AM RE) : AM RE :=
  match r with
  | inr err => if err_notFound err then rest else ret (emptyResult, Some err)
  | inl m =>
      let '(fs, changed) := RemoveFinalizer (meta_Finalizers m) finalizer in
      if (changed : bool) then
        let* err := call (update (withFinalizers fs m)) in
        match err with
        | Some e => if err_notFound e then rest else ret (emptyResult, err)
        | None => rest
        end
      else rest
  end.

Definition reconcileDeleteAodh : AM RE :=
  let* instance := get in
  let rest : AM RE :=
    let* r := call (GetKeystoneService AutoscalingPkg.ServiceName (nsOf instance)) in
    releaseFinalizer r UpdateKeystoneService (
    let* r := call (GetKeystoneEndpoint AutoscalingPkg.ServiceName (nsOf instance)) in
    releaseFinalizer r UpdateKeystoneEndpoint (ret (emptyResult, None))) in
  let* r := call (GetDatabaseByName AutoscalingPkg.ServiceName) in
  match r with
  | inr err => if err_notFound err then rest else ret (emptyResult, Some err)
  | inl db =>
      let* err := call (DatabaseDeleteFinalizer db) in
      match err with
      | Some _ => ret (emptyResult, err)
      | None => rest
      end
  end.

(** ** reconcileInitAodh *)
Definition dbNotReady (re : RE) (dropResult : bool) (rest : AM RE) : AM RE :=
  let '(ctrlResult, err) := re in
  match err with
  | Some e =>
      setFalse DBReadyCondition ErrorReason SeverityWarning
        (libf "DBReadyErrorMessage" (err_text e)) ;;;
      ret (if dropResult then emptyResult else ctrlResult, err)
  | None =>
      if nonEmpty ctrlResult then
        setFalse DBReadyCondition RequestedReason SeverityInfo (lib "DBReadyRunningMessage") ;;;
        ret (ctrlResult, None)
      else rest
  end.

Definition databaseOf (i : Autoscaling) : Database := {|
  db_DatabaseName := aodh_DatabaseUser (aodhOf i);
  db_DatabaseUser := aodh_DatabaseUser (aodhOf i);
  db_Secret := aodh_Secret (aodhOf i);
  db_Labels := {[ "dbName" := aodh_DatabaseInstance (aodhOf i) ]};
  db_Name := AutoscalingPkg.ServiceName;
  db_Namespace := nsOf i |}.

Definition keystoneServiceOf (i : Autoscaling) : KeystoneServiceSpec := {|
  ks_ServiceType := AutoscalingPkg.ServiceType;
  ks_ServiceName := AutoscalingPkg.ServiceName;
  ks_ServiceDescription := "Aodh for autoscaling Service";
  ks_Enabled := true;
  ks_ServiceUser := aodh_ServiceUser (aodhOf i);
  ks_Secret := aodh_Secret (aodhOf i);
  ks_PasswordSelector := pw_AodhService (aodh_PasswordSelectors (aodhOf i)) |}.

(** [run Aodh db sync]: the result is looked at before the error. *)
Definition dbSync (labels : gmap string string) : AM RE :=
  let* instance := get in
  let dbSyncHash := mapGet (default ∅ (asct_Hash (asc_Status instance))) DbSyncHash in
  let jobDef := DbSyncJob instance labels in
  let* '((ctrlResult, err), (hasChanged, hash)) :=
    call (DoJob jobDef DbSyncHash (aodh_PreserveJobs (aodhOf instance)) (seconds 5) dbSyncHash) in
  if nonEmpty ctrlResult then
    setFalse DBSyncReadyCondition RequestedReason SeverityInfo (lib "DBSyncReadyRunningMessage") ;;;
    ret (ctrlResult, None)
  else
    match err with
    | Some e =>
        setFalse DBSyncReadyCondition ErrorReason SeverityWarning
          (libf "DBSyncReadyErrorMessage" (err_text e)) ;;;
        ret (emptyResult, err)
    | None =>
        (if (hasChanged : bool) then putHash DbSyncHash hash else ret tt) ;;;
        markTrue DBSyncReadyCondition (lib "DBSyncReadyMessage") ;;;
        ret (emptyResult, None)
    end.

(** Sets the mirrored condition when there is one. *)
Definition mirrorInto (conds : Conditions) (t : CondType) : AM unit :=
  match Mirror conds t with
  | Some c => modifyConds (fun cs => Set_ cs (Some c))
  | None => ret tt
  end.

Definition reconcileInitAodh (labels : gmap string string) : AM RE :=
  let* instance := get in
  let* '(_, _, err) := call (GetSecret (aodh_Secret (aodhOf instance)) (nsOf instance)) in
  match err with
  | Some e =>
      if err_notFound e then
        ret (requeueAfter (seconds 10),
             Some (Errorf ("OpenStack secret " +:+ aodh_Secret (aodhOf instance) +:+ " not found")))
      else ret (emptyResult, err)
  | None =>
      let* '(ksConds, (ctrlResult, err)) :=
        call (KeystoneServiceCreateOrPatch (keystoneServiceOf instance) (nsOf instance) labels 10) in
      match err with
      | Some _ => ret (ctrlResult, err)
      | None =>
          mirrorInto ksConds KeystoneServiceReadyCondition ;;;
          if nonEmpty ctrlResult then ret (ctrlResult, None)
          else
            ensureHash ;;;
            let db := databaseOf instance in
            let* re := call (CreateOrPatchDBByName db (aodh_DatabaseInstance (aodhOf instance))) in
            dbNotReady re true (
            let* re := call (WaitForDBCreated db) in
            dbNotReady re false (
            let* host := call (GetDatabaseHostname db) in
            setDatabaseHostname host ;;;
            markTrue DBReadyCondition (lib "DBReadyMessage") ;;;
            dbSync labels))
      end
  end.

(** ** reconcileNormalAodh: the services *)
Definition exposeError (e : GoError) (r : Result) : AM (string + RE) :=
  setFalse ExposeServiceReadyCondition ErrorReason SeverityWarning
    (libf "ExposeServiceReadyErrorMessage" (err_text e)) ;;;
  ret (inr (r, Some e)).

(** The override of the object, or a fresh one, with its labels and
    annotations allocated. *)
Definition svcOverride (i : Autoscaling) : RoutedOverrideSpec :=
  let o := default (MkOverride None None None) (ao_Service (aodh_Override (aodhOf i))) in
  MkOverride (Some (default (MkLabelsAnnotations ∅ ∅) (ro_EmbeddedLabelsAnnotations o)))
    (ro_Spec o) (ro_EndpointURL o).

Definition serviceDetails (i : Autoscaling) (e : Endpoint) (data : EndpointData) : GenericServiceDetails :=
  let endpointName := AutoscalingPkg.ServiceName +:+ "-" +:+ endpointStr e in {|
  gs_Name := endpointName;
  gs_Namespace := nsOf i;
  gs_Labels := MergeStringMaps serviceLabels {[ AnnotationEndpointKey := endpointStr e ]};
  gs_Selector := serviceLabels;
  gs_PortName := endpointName;
  gs_Port := ed_Port data;
  gs_Protocol := TCP |}.

(** The annotations added to a service, in order. *)
Definition serviceAnnotations (e : Endpoint) (svc : RoutedService) : list (gmap string string) :=
  {[ AnnotationEndpointKey := endpointStr e ]} ::
  if bool_decide (e = EndpointPublic) && String.eqb (rsvc_Type svc) "ClusterIP" then
    [ {[ AnnotationIngressCreateKey := "true" ]} ]
  else
    {[ AnnotationIngressCreateKey := "false" ]} ::
    if String.eqb (rsvc_Type svc) "LoadBalancer" then
      [ {[ AnnotationHostnameKey := rsvc_Hostname svc ]} ]
    else [].

(** One round of the loop: the URL of the endpoint, or the results to return. *)
Definition exposeEndpoint (e : Endpoint) (data : EndpointData) : AM (string + RE) :=
  let* instance := get in
  let override := svcOverride instance in
  (match ao_Service (aodh_Override (aodhOf instance)) with
   | Some _ => setOverride override
   | None => ret tt
   end) ;;;
  let* r := call (NewService (serviceDetails instance e data) 5 override) in
  match r with
  | inr err => exposeError err emptyResult
  | inl svc =>
      let* '(ctrlResult, err) := call (ServiceCreateOrPatch svc (serviceAnnotations e svc)) in
      match err with
      | Some err => exposeError err ctrlResult
      | None =>
          if nonEmpty ctrlResult then
            setFalse ExposeServiceReadyCondition RequestedReason SeverityInfo
              (lib "ExposeServiceReadyRunningMessage") ;;;
            ret (inr (ctrlResult, None))
          else
            let* r := call (GetAPIEndpoint svc (ro_EndpointURL override) (ed_Protocol data) (ed_Path data)) in
            match r with
            | inr err => ret (inr (emptyResult, Some err))
            | inl url => ret (inl url)
            end
      end
  end.

Fixpoint exposeLoop (es : list (Endpoint * EndpointData)) (apiEndpoints : gmap string string)
    : AM (gmap string string + RE) :=
  match es with
  | [] => ret (inl apiEndpoints)
  | (e, data) :: es =>
      let* r := exposeEndpoint e data in
      match r with
      | inr re => ret (inr re)
      | inl url => exposeLoop es (<[endpointStr e := url]> apiEndpoints)
      end
  end.

Definition aodhEndpoints : list (Endpoint * EndpointData) :=
  [(EndpointInternal, MkEndpointData AodhAPIPort None "");
   (EndpointPublic, MkEndpointData AodhAPIPort None "")].

(** From the services on. *)
Definition exposeAodh : AM RE :=
  let* order := call (RangeEndpoints aodhEndpoints) in
  let* r := exposeLoop order ∅ in
  match r with
  | inr re => ret re
  | inl apiEndpoints =>
      markTrue ExposeServiceReadyCondition (lib "ExposeServiceReadyMessage") ;;;
      setAPIEndpoints (Some apiEndpoints) ;;;
      let* instance := get in
      let* '(epConds, (ctrlResult, err)) :=
        call (KeystoneEndpointCreateOrPatch AutoscalingPkg.ServiceName (nsOf instance)
                AutoscalingPkg.ServiceName apiEndpoints serviceLabels (seconds 10)) in
      match err with
      | Some _ => ret (ctrlResult, err)
      | None =>
          mirrorInto epConds KeystoneEndpointReadyCondition ;;;
          if nonEmpty ctrlResult then ret (ctrlResult, None) else ret (emptyResult, None)
      end
  end.

Definition reconcileNormalAodh (inputHash : string) : AM RE :=
  let* instance := get in
  match AodhStatefulSet instance inputHash serviceLabels with
  | inr err => ret (emptyResult, Some err)
  | inl sfsetDef =>
      let* '(readyReplicas, (ctrlResult, err)) :=
        call (StatefulSetCreateOrPatch sfsetDef (seconds 5)) in
      match err with
      | Some err =>
          setFalse DeploymentReadyCondition ErrorReason SeverityWarning
            (libf "DeploymentReadyErrorMessage" (err_text err)) ;;;
          ret (ctrlResult, Some err)
      | None =>
          if nonEmpty ctrlResult then
            setFalse DeploymentReadyCondition RequestedReason SeverityInfo
              (lib "DeploymentReadyRunningMessage") ;;;
            ret (ctrlResult, None)
          else
            let* r := call (SetControllerReference (asc_Meta instance) (sts_Meta sfsetDef)) in
            match r with
            | inr err => ret (emptyResult, Some err)
            | inl _ =>
                setReadyCount readyReplicas ;;;
                (if (0 <? readyReplicas)%Z
                 then markTrue DeploymentReadyCondition (lib "DeploymentReadyMessage")
                 else ret tt) ;;;
                setNetworks (aodh_NetworkAttachmentDefinitions (aodhOf instance)) ;;;
                exposeAodh
            end
      end
  end.

(** ** autoscaling_controller.go *)
Definition transportURLName : string := AutoscalingPkg.ServiceName +:+ "-transport".

Definition transportURLCreateOrUpdate : AM (TransportURL * OperationResult + GoError) :=
  let* instance := get in
  let fresh := newMeta transportURLName (nsOf instance) in
  let* r := call (FetchTransportURL (keyOf fresh)) in
  match r with
  | inr err => ret (inr err)
  | inl found =>
      let t := default (MkTransportURL fresh "" "") found in
      let* r := call (SetControllerReference (asc_Meta instance) (tu_Meta t)) in
      match r with
      | inr err => ret (inr err)
      | inl m =>
          call (CommitTransportURL
            (MkTransportURL m (aodh_RabbitMqClusterName (aodhOf instance)) (tu_SecretName t)))
      end
  end.

Definition getSecret (secretName : string) (envVars : EnvMap) : AM (RE * EnvMap) :=
  let* instance := get in
  let* '(sec, hash, err) := call (GetSecret secretName (nsOf instance)) in
  match err with
  | Some err =>
      if err_notFound err then
        setFalse InputReadyCondition RequestedReason SeverityInfo (lib "InputReadyWaitingMessage") ;;;
        ret ((requeueAfter (seconds 10), Some (Errorf ("secret " +:+ secretName +:+ " not found"))), envVars)
      else
        setFalse InputReadyCondition ErrorReason SeverityWarning
          (libf "InputReadyErrorMessage" (err_text err)) ;;;
        ret ((emptyResult, Some err), envVars)
  | None =>
      match sec with
      | None => panic "nil secret"
      | Some sec => ret ((emptyResult, None), <["secret-" +:+ sec_Name sec := hash]> envVars)
      end
  end.

Definition getAutoscalingMemcached : AM (Memcached + GoError) :=
  let* instance := get in
  call (GetMemcached (MkKey (nsOf instance) (aodh_MemcachedInstance (aodhOf instance)))).

Definition getAutoscalingHeat : AM (Heat + GoError) :=
  let* instance := get in
  call (GetHeat (MkKey (nsOf instance) (ascs_HeatInstance (asc_Spec instance)))).

(** ** generateServiceConfig *)

(** The files of [DefaultConfigOverwrite] replace the custom service
    configuration when they have its name. *)
Definition customData (instance : Autoscaling) : gmap string string :=
  aodh_DefaultConfigOverwrite (aodhOf instance) ∪
  {[ CustomServiceConfigFileName := aodh_CustomServiceConfig (aodhOf instance) ]}.

Definition databaseConnection (user password hostname : string) : string :=
  "mysql+pymysql://" +:+ user +:+ ":" +:+ password +:+ "@" +:+ hostname +:+ "/" +:+ DatabaseName.

(** The values as the template prints them. *)
Definition templateParameters (instance : Autoscaling) (keystoneInternalURL : string)
    (ospSecret transportURLSecret : Secret) (mc : Memcached) : gmap string string :=
  {[ "AodhUser" := aodh_ServiceUser (aodhOf instance);
     "AodhPassword" := mapGet (sec_Data ospSecret) (pw_AodhService (aodh_PasswordSelectors (aodhOf instance)));
     "KeystoneInternalURL" := keystoneInternalURL;
     "TransportURL" := mapGet (sec_Data transportURLSecret) "transport_url";
     "PrometheusHost" := asct_PrometheusHost (asc_Status instance);
     "PrometheusPort" := pretty (asct_PrometheusPort (asc_Status instance));
     "MemcachedServers" := String.concat "," (mc_ServerList mc);
     "MemcachedServersWithInet" := String.concat "," (mc_ServerListWithInet mc);
     "DatabaseConnection" :=
       databaseConnection (aodh_DatabaseUser (aodhOf instance))
         (mapGet (sec_Data ospSecret) (pw_Database (aodh_PasswordSelectors (aodhOf instance))))
         (asct_DatabaseHostname (asc_Status instance)) ]}.

(** The secrets with the scripts and the configuration. *)
Definition aodhTemplates (instance : Autoscaling) (keystoneInternalURL : string)
    (ospSecret transportURLSecret : Secret) (mc : Memcached) : list Template :=
  let cmLabels := GetLabels (meta_Name (asc_Meta instance)) (GetGroupLabel AutoscalingPkg.ServiceName) ∅ in
  [MkTemplate (AutoscalingPkg.ServiceName +:+ "-scripts") (nsOf instance)
     TemplateTypeScripts (asc_Kind instance)
     {[ "common.sh" := "/common/common.sh" ]} ∅ ∅ cmLabels;
   MkTemplate (AutoscalingPkg.ServiceName +:+ "-config-data") (nsOf instance)
     TemplateTypeConfig (asc_Kind instance) ∅ (customData instance)
     (templateParameters instance keystoneInternalURL ospSecret transportURLSecret mc) cmLabels].

Definition generateServiceConfig (envVars : EnvMap) (mc : Memcached) : AM (EnvMap + GoError) :=
  let* instance := get in
  let* r := call (GetKeystoneAPI (nsOf instance)) in
  match r with
  | inr err => ret (inr err)
  | inl api =>
      let* r := call (GetEndpoint api EndpointInternal) in
      match r with
      | inr err => ret (inr err)
      | inl keystoneInternalURL =>
          let* '(ospSecret, _, err) :=
            call (GetSecret (aodh_Secret (aodhOf instance)) (nsOf instance)) in
          match err with
          | Some err => ret (inr err)
          | None =>
              let* '(transportURLSecret, _, err) :=
                call (GetSecret (asct_TransportURLSecret (asc_Status instance)) (nsOf instance)) in
              match err with
              | Some err => ret (inr err)
              | None =>
                  match ospSecret, transportURLSecret with
                  | Some osp, Some transport =>
                      call (EnsureSecrets (asc_Meta instance)
                              (aodhTemplates instance keystoneInternalURL osp transport mc) envVars)
                  | _, _ => panic "nil pointer dereference"
                  end
              end
          end
      end
  end.

(** ** createHashOfInputHashes *)
Definition createHashOfInputHashes (envVars : EnvMap) : AM (string * bool * option GoError) :=
  let* instance := get in
  let '(hash, err) := ObjectHash (MergeEnvs [] envVars) in
  match err with
  | Some _ => ret (hash, false, err)
  | None =>
      let '(hashMap, changed) := SetHash (asct_Hash (asc_Status instance)) InputHashName hash in
      (if (changed : bool) then setHash (Some hashMap) else ret tt) ;;;
      ret (hash, changed, None)
  end.

(** ** reconcileInit, reconcileNormal *)
Definition reconcileInit (labels : gmap string string) : AM RE :=
  let* re := reconcileInitAodh labels in
  returnOn re (ret (emptyResult, None)).

(** [instance.Status.Conditions.Set(c)] in a method with a value receiver: what
    the caller's conditions are afterwards. *)
Definition Autoscaling_RbacConditionsSet (cs : Conditions) (c : Condition) : Conditions := SetOnCopy cs c.

Definition rbacRules : list PolicyRule :=
  [MkRule ["security.openshift.io"] ["anyuid"] ["securitycontextconstraints"] ["use"];
   MkRule [""] [] ["pods"] ["create"; "get"; "list"; "watch"; "update"; "patch"; "delete"]].

Definition reconcileRbac : AM RE :=
  let* instance := get in
  let* '(conds, re) := call (ReconcileRbac (Autoscaling_RbacResourceName instance)
                               (Autoscaling_RbacNamespace instance) rbacRules) in
  modifyConds (fun cs => fold_left Autoscaling_RbacConditionsSet conds cs) ;;;
  ret re.

(** [if (res != Result{}) {return res, nil}; if err != nil {return res, err}] *)
Definition resultFirst (re : RE) (rest : AM RE) : AM RE :=
  let '(r, e) := re in
  if nonEmpty r then ret (r, None)
  else match e with Some _ => ret (r, e) | None => rest end.

Definition configError (err : GoError) : AM RE :=
  setFalse ServiceConfigReadyCondition ErrorReason SeverityWarning
    (libf "ServiceConfigReadyErrorMessage" (err_text err)) ;;;
  ret (emptyResult, Some err).

(** The host and port of Prometheus, with their defaults. *)
Definition setPrometheusEndpoint : AM unit :=
  let* instance := get in
  setPrometheus
    (if String.eqb (ascs_PrometheusHost (asc_Spec instance)) ""
     then DefaultServiceName +:+ "-prometheus." +:+ nsOf instance +:+ ".svc"
     else ascs_PrometheusHost (asc_Spec instance))
    (if (ascs_PrometheusPort (asc_Spec instance) =? 0)%Z then DefaultPrometheusPort
     else ascs_PrometheusPort (asc_Spec instance)).

(** From the generated configuration on. *)
Definition configure (envVars : EnvMap) (memcached : Memcached) : AM RE :=
  setPrometheusEndpoint ;;;
  let* r := generateServiceConfig envVars memcached in
  match r with
  | inr err => configError err
  | inl envVars =>
      let* '(inputHash, hashChanged, err) := createHashOfInputHashes envVars in
      match err with
      | Some err => configError err
      | None =>
          if (hashChanged : bool) then ret (emptyResult, None)
          else
            putHash InputHashName inputHash ;;;
            let* re := reconcileInit serviceLabels in
            resultFirst re (
            let* re := reconcileNormalAodh inputHash in
            resultFirst re (ret (emptyResult, None)))
      end
  end.

(** From the lookup of memcached on. *)
Definition requireServices (envVars : EnvMap) : AM RE :=
  let* r := getAutoscalingMemcached in
  let* instance := get in
  match r with
  | inr err =>
      if err_notFound err then
        setFalse MemcachedReadyCondition RequestedReason SeverityInfo
          (lib "MemcachedReadyWaitingMessage") ;;;
        ret (requeueAfter (seconds 10),
             Some (Errorf ("memcached " +:+ aodh_MemcachedInstance (aodhOf instance) +:+ " not found")))
      else
        setFalse MemcachedReadyCondition ErrorReason SeverityWarning
          (libf "MemcachedReadyErrorMessage" (err_text err)) ;;;
        ret (emptyResult, Some err)
  | inl memcached =>
      if negb (mc_IsReady memcached) then
        setFalse MemcachedReadyCondition RequestedReason SeverityInfo
          (lib "MemcachedReadyWaitingMessage") ;;;
        ret (requeueAfter (seconds 10),
             Some (Errorf ("memcached " +:+ mc_Name memcached +:+ " is not ready")))
      else
        markTrue MemcachedReadyCondition (lib "MemcachedReadyMessage") ;;;
        let* r := getAutoscalingHeat in
        match r with
        | inr err =>
            if err_notFound err then
              setFalse HeatReadyCondition RequestedReason SeverityInfo HeatReadyNotFoundMessage ;;;
              ret (requeueAfter (seconds 10),
                   Some (Errorf ("heat " +:+ ascs_HeatInstance (asc_Spec instance) +:+ " not found")))
            else
              setFalse HeatReadyCondition ErrorReason SeverityWarning
                (HeatReadyErrorMessage (err_text err)) ;;;
              ret (emptyResult, Some err)
        | inl heat =>
            if negb (heat_IsReady heat) then
              setFalse HeatReadyCondition RequestedReason SeverityInfo HeatReadyUnreadyMessage ;;;
              ret (requeueAfter (seconds 10),
                   Some (Errorf ("heat " +:+ heat_Name heat +:+ " is not ready")))
            else
              markTrue HeatReadyCondition (lib "ReadyMessage") ;;;
              let* instance := get in
              let* '((ctrlResult, err), envVars) :=
                getSecret (asct_TransportURLSecret (asc_Status instance)) envVars in
              match err with
              | Some _ => ret (ctrlResult, err)
              | None => configure envVars memcached
              end
        end
  end.

Definition reconcileNormal : AM RE :=
  let* re := reconcileRbac in
  returnOn re (
  markTrue ServiceConfigReadyCondition (lib "ServiceConfigReadyMessage") ;;;
  let* r := transportURLCreateOrUpdate in
  match r with
  | inr err =>
      setFalse RabbitMqTransportURLReadyCondition ErrorReason SeverityWarning
        (libf "RabbitMqTransportURLReadyErrorMessage" (err_text err)) ;;;
      ret (emptyResult, Some err)
  | inl (transportURL, _) =>
      setTransportURLSecret (tu_SecretName transportURL) ;;;
      if String.eqb (tu_SecretName transportURL) "" then
        setFalse RabbitMqTransportURLReadyCondition RequestedReason SeverityInfo
          (lib "RabbitMqTransportURLReadyRunningMessage") ;;;
        ret (requeueAfter (seconds 10), None)
      else
        markTrue RabbitMqTransportURLReadyCondition (lib "RabbitMqTransportURLReadyMessage") ;;;
        let* instance := get in
        let* '((ctrlResult, err), envVars) := getSecret (aodh_Secret (aodhOf instance)) ∅ in
        match err with
        | Some _ => ret (ctrlResult, err)
        | None => requireServices envVars
        end
  end).

(** ** reconcileDelete *)
Definition reconcileDelete : AM RE :=
  let* re := reconcileDeleteAodh in
  returnOn re (removeFinalizer finalizer ;;; ret (emptyResult, None)).

(** ** Reconcile *)
Definition initialConditions : Conditions :=
  Init (Some []) (CreateList [
    UnknownCondition ServiceAccountReadyCondition InitReason (lib "ServiceAccountReadyInitMessage");
    UnknownCondition RoleReadyCondition InitReason (lib "RoleReadyInitMessage");
    UnknownCondition RoleBindingReadyCondition InitReason (lib "RoleBindingReadyInitMessage");
    UnknownCondition HeatReadyCondition InitReason HeatReadyInitMessage;
    UnknownCondition MemcachedReadyCondition InitReason (lib "MemcachedReadyInitMessage");
    UnknownCondition ServiceConfigReadyCondition InitReason (lib "ServiceConfigReadyInitMessage");
    UnknownCondition DBReadyCondition InitReason (lib "DBReadyInitMessage");
    UnknownCondition DBSyncReadyCondition InitReason (lib "DBSyncReadyInitMessage");
    UnknownCondition RabbitMqTransportURLReadyCondition InitReason (lib "RabbitMqTransportURLReadyInitMessage");
    UnknownCondition DeploymentReadyCondition InitReason (lib "DeploymentReadyInitMessage");
    UnknownCondition KeystoneServiceReadyCondition InitReason (text "");
    UnknownCondition KeystoneEndpointReadyCondition InitReason (text "")]).

(** The part of [Reconcile] after the deferred function is set up. *)
Definition reconcileBody : AM RE :=
  let* instance := get in
  let* added := (if notDeleting (asc_Meta instance) then addFinalizer finalizer else ret false) in
  if (added : bool) then ret (emptyResult, None) else
  let* instance := get in
  match asct_Conditions (asc_Status instance) with
  | None => modifyConds (fun _ => initialConditions) ;;; ret (emptyResult, None)
  | Some _ =>
      ensureHash ;;;
      if negb (notDeleting (asc_Meta instance)) then reconcileDelete else reconcileNormal
  end.

Definition Reconcile (req : NamespacedName) : prog CallE (outcome RE) :=
  Vis (GetAutoscaling req) (fun r =>
  match r with
  | inr err =>
      if err_notFound err then Ret (Val (emptyResult, None))
      else Ret (Val (emptyResult, Some err))
  | inl instance =>
      Vis (NewHelper instance) (fun e =>
      match e with
      | Some err => Ret (Val (emptyResult, Some err))
      | None => runM (withDefer reconcileBody (deferPatch PatchInstance false)) instance
      end)
  end).

(** ** The watches *)
Definition ownerRequests (namespace : string) (ref : OwnerReference) (items : list Autoscaling)
    : list NamespacedName :=
  if String.eqb (own_Kind ref) "TransportURL" then
    omap (fun cr => if String.eqb (own_Name ref) (meta_Name (asc_Meta cr) +:+ "-transport")
                    then Some (MkKey namespace (meta_Name (asc_Meta cr))) else None) items
  else [].

Definition transportURLSecretFn (o : ObjectMeta) : prog CallE (list NamespacedName) :=
  Vis (ListAutoscalings (meta_Namespace o)) (fun r =>
  match r with
  | inr _ => Ret []
  | inl items =>
      Ret (concat (map (fun ref => ownerRequests (meta_Namespace o) ref items) (meta_OwnerReferences o)))
  end).

Definition memcachedFn (o : ObjectMeta) : prog CallE (list NamespacedName) :=
  Vis (ListAutoscalings (meta_Namespace o)) (fun r =>
  match r with
  | inr _ => Ret []
  | inl items =>
      Ret (omap (M:=list) (fun cr => if String.eqb (meta_Name o) (aodh_MemcachedInstance (aodhOf cr))
                                     then Some (MkKey (meta_Namespace o) (meta_Name (asc_Meta cr)))
                                     else None) items)
  end).
End Controller.

(** ** Observations on a trace *)
Definition fetched (tr : list (event CallE)) : option Autoscaling :=
  match tr with
  | Ev e x :: _ =>
      match e in CallE X return X -> option Autoscaling with
      | GetAutoscaling _ => fun x => match x with inl i => Some i | inr _ => None end
      | _ => fun _ => None
      end x
  | [] => None
  end.

Definition patchOf (ev : event CallE) : option (Autoscaling * option GoError) :=
  match ev with
  | Ev e x =>
      match e in CallE X return X -> option (Autoscaling * option GoError) with
      | PatchInstance i => fun x => Some (i, x)
      | _ => fun _ => None
      end x
  end.

(** The StatefulSets written. *)
Definition sfsetOf (ev : event CallE) : option StatefulSet :=
  match ev with
  | Ev e _ => match e with StatefulSetCreateOrPatch def _ => Some def | _ => None end
  end.

(** The jobs run, with the answers. *)
Definition jobOf (ev : event CallE) : option (Job * RE) :=
  match ev with
  | Ev e x =>
      match e in CallE X return X -> option (Job * RE) with
      | DoJob def _ _ _ _ => fun x => Some (def, x.1)
      | _ => fun _ => None
      end x
  end.

(** The templates of the configuration secrets written. *)
Definition templatesOf (ev : event CallE) : option (list Template) :=
  match ev with
  | Ev e _ => match e with EnsureSecrets _ cms _ => Some cms | _ => None end
  end.

Section Pass.
Context `{L : ConditionLib} `{LL : !ConditionLaws L} `{F : FinalizerLib} `{FL : !FinalizerLaws F}.
Context `{C : CommonLib} `{CL : !CommonLaws C} `{V : ServiceLib} `{VL : !ServiceLaws V}.

Definition conds (i : Autoscaling) : Conditions := asct_Conditions (asc_Status i).

(** The recorded hash of the inputs. *)
Definition inputHashOf (i : Autoscaling) : option string :=
  default ∅ (asct_Hash (asc_Status i)) !! InputHashName.

(** A run of [Reconcile] that fetched an object. *)
Lemma autoscaling_Reconcile_from ok req tr o i Q :
  runs (Reconcile req) tr o -> fetched tr = Some i -> Forall (keeps ok) tr ->
  (forall err, Q [Ev (GetAutoscaling req) (inl i); Ev (NewHelper i) (Some err)]
                 (Val (emptyResult, Some err))) ->
  wpM ok reconcileBody i (fun tr' i' o' => forall err,
    Q (Ev (GetAutoscaling req) (inl i) :: Ev (NewHelper i) None ::
       tr' ++ [Ev (PatchInstance (finish i')) err]) (finishResult false err o')) ->
  Q tr o.
Proof.
  intros (r & tr1 & -> & H) Hf Hok Herr Hwp. simpl in Hf. destruct r as [i'|]; [|done]. simplify_eq.
  destruct H as (e & tr2 & -> & H). destruct e as [err|]; [by destruct H as [-> ->]|].
  apply Forall_cons in Hok as [_ [_ Hok]%Forall_cons].
  refine (runs_wp ok _ (fun tr o => Q (_ :: _ :: tr) o) _ _ _ H Hok).
  apply wp_runM, deferPatch_wp. eapply wpM_mono; [|exact Hwp]. auto.
Qed.

End Pass.

Ltac unfold_handlers :=
  unfold requireServices, configure, setPrometheusEndpoint, generateServiceConfig,
    createHashOfInputHashes, configError, reconcileInit, reconcileInitAodh, dbSync, dbNotReady,
    reconcileNormalAodh, exposeAodh, exposeEndpoint, exposeError, mirrorInto, resultFirst,
    reconcileRbac, transportURLCreateOrUpdate, getSecret, getAutoscalingMemcached, getAutoscalingHeat,
    ensureHash, putHash, setOverride, setReadyCount, setHash, setNetworks, setTransportURLSecret,
    setDatabaseHostname, setPrometheus, setAPIEndpoints, setStatus.

(** The handlers down to their calls. *)
Ltac unfold_autoscaling :=
  unfold reconcileBody, reconcileDelete, reconcileDeleteAodh, releaseFinalizer, reconcileNormal,
    requireServices, configure, setPrometheusEndpoint, generateServiceConfig, createHashOfInputHashes,
    configError, reconcileInit, resultFirst, transportURLCreateOrUpdate, getSecret,
    getAutoscalingMemcached, getAutoscalingHeat, reconcileRbac, reconcileNormalAodh, exposeAodh,
    reconcileInitAodh, dbSync, dbNotReady, mirrorInto, ensureHash, putHash, setHash, setReadyCount,
    setNetworks, setTransportURLSecret, setDatabaseHostname, setPrometheus, setAPIEndpoints, setStatus.

End AutoscalingController.
