(* ===== verification/AutoscalingFacts.v ===== *)
(** * The passes of the Autoscaling controller

    What one pass does: it ends without a panic and patches the object last;
    a failure to read the secrets is never taken back; the StatefulSet is written
    only with the recorded hash and after the database. *)

From stdpp Require Import gmap strings list pretty.
From Stdlib Require Import ZArith Lia.
From S2P Require Import Prelude Condition Api Libs Reference AutoscalingPkg MetricStoragePkg Operator AutoscalingController.

#[local] Open Scope go_scope.

Module AutoscalingFacts.
Import AutoscalingController.

Section Pass.
Context `{L : ConditionLib} `{LL : !ConditionLaws L} `{F : FinalizerLib} `{FL : !FinalizerLaws F}.
Context `{C : CommonLib} `{CL : !CommonLaws C} `{V : ServiceLib} `{VL : !ServiceLaws V}.

(** *** No panics *)

(** A read of a secret that reports no error yields a secret. *)
Definition secretsRead : contract CallE := fun X e =>
  match e in CallE X return X -> Prop with
  | GetSecret _ _ => fun x => x.2 = None -> is_Some x.1.1
  | _ => fun _ => True
  end.

Lemma exposeLoop_safe es acc :
  Safe secretsRead (fun i => asct_Hash (asc_Status i) <> None) (fun ev => patchOf ev = None)
    (exposeLoop es acc).
Proof.
  revert acc. induction es as [|[e d] es IH]; intros acc; simpl; unfold_handlers; safe; simpl in *; done.
Qed.
#[local] Hint Resolve exposeLoop_safe : safe.

Lemma autoscaling_normal_safe :
  Safe secretsRead (fun i => asct_Hash (asc_Status i) <> None) (fun ev => patchOf ev = None)
    reconcileNormal.
Proof.
  unfold reconcileNormal. unfold_handlers.
  safe; simpl in *; try done;
    match goal with H : _ = None -> is_Some None |- _ => by destruct (H eq_refl) end.
Qed.

Lemma autoscaling_delete_safe ok (I : Autoscaling -> Prop) :
  (forall i m, I i -> I (crSetMeta m i)) ->
  Safe ok I (fun ev => patchOf ev = None /\ sfsetOf ev = None /\ jobOf ev = None /\
    templatesOf ev = None) reconcileDelete.
Proof.
  intros HI. unfold reconcileDelete, reconcileDeleteAodh, releaseFinalizer.
  safe; auto; by apply (HI _ (withFinalizers _ _)).
Qed.

Lemma Safe_impl {A} ok (I : Autoscaling -> Prop) (P P' : event CallE -> Prop) (m : AM A) :
  (forall ev, P ev -> P' ev) -> Safe ok I P m -> Safe ok I P' m.
Proof.
  intros HP H s Hs. eapply wpM_mono; [|exact (H s Hs)].
  intros tr s' o (HI & HF & Ho). split_and!; [done| |done]. eapply Forall_impl; [exact HF|exact HP].
Qed.

Lemma autoscaling_reconcileBody_safe :
  Safe secretsRead (fun _ => True) (fun ev => patchOf ev = None) reconcileBody.
Proof.
  assert (Safe secretsRead (fun _ => True) (fun ev => patchOf ev = None) reconcileDelete) as Hdel.
  { eapply Safe_impl; [|by apply autoscaling_delete_safe]. by intros ev []. }
  assert (forall b : bool, Safe secretsRead (fun _ => True) (fun ev => patchOf ev = None)
    (ensureHash ;;; (if b then reconcileDelete else reconcileNormal))) as Ht.
  { intros b i _. unfold ensureHash, setHash, setStatus. do 4 wpm_step. destruct b.
    - eapply wpM_mono; [|exact (Hdel _ I)]. intros tr s' o H. exact H.
    - eapply wpM_mono; [|apply autoscaling_normal_safe; done]. intros tr s' o (_ & H & Ho). auto. }
  unfold reconcileBody. safe; done.
Qed.

(** C36. Autoscaling's status is always persisted: if a read of a secret that
    reports no error yields a secret, a pass over a fetched Autoscaling ends
    without a panic with exactly one patch, its last call, of an object whose
    Ready condition is True only if all other conditions are; the result of
    the pass does not depend on the answer to the patch, whose error is
    dropped.  Only when the helper cannot be created there is no patch: the
    pass ends there with that error. *)
Theorem autoscaling_patched_last req tr o i :
  runs (Reconcile req) tr o -> fetched tr = Some i -> Forall (keeps secretsRead) tr ->
  (exists err, tr = [Ev (GetAutoscaling req) (inl i); Ev (NewHelper i) (Some err)] /\
     o = Val (emptyResult, Some err)) \/
  (exists i' err re pre, tr = pre ++ [Ev (PatchInstance i') err] /\ omap patchOf tr = [(i', err)] /\
     readyOk (conds i') /\ o = Val re /\
     forall err', runs (Reconcile req) (pre ++ [Ev (PatchInstance i') err']) (Val re)).
Proof.
  intros Hr Hf Hok. pattern tr, o.
  apply (autoscaling_Reconcile_from _ _ _ _ _ _ Hr Hf Hok); [intros err; left; by exists err|].
  eapply wpM_mono; [|apply wpM_and; [exact (autoscaling_reconcileBody_safe i I)|exact (wpM_self _ _ _)]].
  intros tr' i' o' [(_ & HP & re & ->) Hb] err. right.
  eexists (finish i'), err, re, (_ :: _ :: tr'). split_and!.
  - done.
  - simpl. rewrite omap_app, omap_None by done. done.
  - apply (readyOk_updateReady (conds i')).
  - by destruct re, err.
  - intros err'. exists (inl i). eexists. split; [done|]. exists None. eexists. split; [done|].
    replace (Val re) with (finishResult false err' (Val re)) by (by destruct re, err').
    by apply deferPatch_runs.
Qed.

(** The object after [instance.Status.Hash] is allocated. *)
Definition ensured (i : Autoscaling) : Autoscaling :=
  let s := asc_Status i in
  MkAutoscaling (asc_Kind i) (asc_Meta i) (asc_Spec i)
    (MkAutoscalingStatus (asct_ReadyCount s) (Some (default ∅ (asct_Hash s))) (asct_Conditions s)
       (asct_Networks s) (asct_TransportURLSecret s) (asct_DatabaseHostname s)
       (asct_PrometheusHost s) (asct_PrometheusPort s) (asct_APIEndpoints s)).

(** The body of [Reconcile]: the finalizer is added, the conditions are
    initialised, or the object is reconciled or deleted. *)
Lemma reconcileBody_wp ok i (Q : list (event CallE) -> Autoscaling -> outcome RE -> Prop) :
  (conds i = None -> Q [] (crSetConds initialConditions i) (Val (emptyResult, None))) ->
  (finalizer ∉ meta_Finalizers (asc_Meta i) ->
     forall m, Q [] (crSetMeta m i) (Val (emptyResult, None))) ->
  (notDeleting (asc_Meta i) = true -> wpM ok reconcileNormal (ensured i) Q) ->
  (notDeleting (asc_Meta i) = false -> wpM ok reconcileDelete (ensured i) Q) ->
  wpM ok reconcileBody i Q.
Proof.
  intros Hc Hadd Hn Hdel. unfold reconcileBody. wpm_step. wpm_step.
  assert (wpM ok (match asct_Conditions (asc_Status i) with
    | None => modifyConds (fun _ => initialConditions) ;;; ret (emptyResult, None)
    | Some _ => ensureHash ;;;
        if negb (notDeleting (asc_Meta i)) then reconcileDelete else reconcileNormal
    end) i Q) as Hmain.
  { unfold conds in Hc. destruct (asct_Conditions (asc_Status i)) as [cs|] eqn:Hcs.
    - unfold ensureHash, setHash, setStatus. do 4 wpm_step.
      destruct (notDeleting (asc_Meta i)); [by apply Hn|by apply Hdel].
    - unfold modifyConds. wpm. by apply Hc. }
  destruct (notDeleting (asc_Meta i)) eqn:Hd.
  - destruct (decide (finalizer ∈ meta_Finalizers (asc_Meta i))) as [Hf|Hf].
    + wpm_step. apply addFinalizer_present; [done|]. cbv beta iota. wpm_step. wpm_step. by rewrite Hd.
    + wpm_step. apply addFinalizer_absent; [done|]. intros fs _. cbv beta iota. wpm. by apply Hadd.
  - wpm_step. wpm_step. wpm_step. wpm_step. by rewrite Hd.
Qed.

(** The body patches nothing, also when it panics. *)
Lemma exposeLoop_patches ok es acc :
  Hist ok (fun h _ => Forall (fun ev => patchOf ev = None) h) (exposeLoop es acc).
Proof.
  revert acc. induction es as [|[e d] es IH]; intros acc; simpl; unfold_handlers; hist;
    try done; by apply Forall_app; auto.
Qed.

Lemma reconcileBody_patches {ok} i :
  wpM ok reconcileBody i (fun tr _ _ => Forall (fun ev => patchOf ev = None) tr).
Proof.
  refine ((_ : Hist ok (fun h _ => Forall (fun ev => patchOf ev = None) h) _) [] i (Forall_nil_2 _)).
  pose proof (exposeLoop_patches ok).
  unfold reconcileBody, reconcileDelete, reconcileDeleteAodh, releaseFinalizer, reconcileNormal. unfold_handlers.
  hist; try done; by apply Forall_app; auto.
Qed.

(** *** InputReady is never set True *)

(** The rbac objects are reported with conditions the object has. *)
Definition rbacKnown (i0 : Autoscaling) : contract CallE := fun X e =>
  match e in CallE X return X -> Prop with
  | ReconcileRbac _ _ _ => fun x => Forall (fun c =>
      cond_Type c <> InputReadyCondition /\ is_Some (getCond (conds i0) (cond_Type c))) x.1
  | _ => fun _ => True
  end.

(** InputReady is there and not True, and no condition of [i0] is lost. *)
Definition stuck (i0 : Autoscaling) (cs : Conditions) : Prop :=
  (exists c, getCond cs InputReadyCondition = Some c /\ cond_Status c <> ConditionTrue) /\
  forall t, is_Some (getCond (conds i0) t) -> is_Some (getCond cs t).

Lemma stuck_update i0 cs cs' t c : updatesTo cs cs' t (Some c) ->
  (t = InputReadyCondition -> cond_Status c <> ConditionTrue) -> stuck i0 cs -> stuck i0 cs'.
Proof.
  intros Hu Ht [(c0 & Hc0 & Hs0) Hk]. split.
  - rewrite Hu. case_decide as Hd; [|eauto]. exists c. split; [done|]. by apply Ht.
  - intros t' Ht'. rewrite Hu. case_decide; [done|]. by apply Hk.
Qed.

Lemma stuck_setFalse i0 cs t r s m : stuck i0 cs -> stuck i0 (Set_ cs (Some (FalseCondition t r s m))).
Proof.
  eapply stuck_update; [apply Set_spec|]. intros _. by rewrite FalseCondition_status.
Qed.

Lemma stuck_markTrue i0 cs t m : t <> InputReadyCondition -> stuck i0 cs -> stuck i0 (MarkTrue cs t m).
Proof.
  destruct (MarkTrue_spec cs t m) as (c & _ & _ & _ & Hu). intros Ht.
  by eapply stuck_update; [exact Hu|].
Qed.

Lemma stuck_rbac i0 l cs : Forall (fun c =>
    cond_Type c <> InputReadyCondition /\ is_Some (getCond (conds i0) (cond_Type c))) l ->
  stuck i0 cs -> stuck i0 (fold_left SetOnCopy l cs).
Proof.
  intros Hl. revert cs. induction Hl as [|c l [Ht Hp] _ IH]; intros cs Hs; [done|]. simpl. apply IH.
  eapply stuck_update; [apply SetOnCopy_present|done|done]. by apply Hs.
Qed.

Definition stuckHist i0 (_ : list (event CallE)) (i : Autoscaling) : Prop := stuck i0 (conds i).

Lemma mirrorInto_stuck i0 cs t : t <> InputReadyCondition ->
  Hist (rbacKnown i0) (stuckHist i0) (mirrorInto cs t).
Proof.
  intros Ht. unfold mirrorInto. destruct (Mirror cs t) as [c|] eqn:Hm; [|apply Hist_ret].
  apply Hist_modifyConds. intros h s. apply (stuck_update i0 _ _ (cond_Type c) c); [apply Set_spec|].
  rewrite (Mirror_type _ _ _ Hm). done.
Qed.

Ltac stuck_solve :=
  first [ done | by apply stuck_setFalse | by apply stuck_markTrue | by apply mirrorInto_stuck ].

Lemma reconcileRbac_stuck i0 : Hist (rbacKnown i0) (stuckHist i0) reconcileRbac.
Proof.
  intros h s Hs. unfold reconcileRbac. wpm_step. wpm_step. wpm_step. apply wpM_call. intros [l re] Hl.
  unfold modifyConds. wpm. by apply stuck_rbac.
Qed.

Lemma exposeLoop_stuck i0 es acc : Hist (rbacKnown i0) (stuckHist i0) (exposeLoop es acc).
Proof.
  revert acc. induction es as [|[e d] es IH]; intros acc; simpl;
    unfold exposeEndpoint, exposeError, setOverride; hist; stuck_solve.
Qed.

#[local] Hint Resolve mirrorInto_stuck reconcileRbac_stuck exposeLoop_stuck : safe.

Lemma reconcileInitAodh_stuck i0 labels : Hist (rbacKnown i0) (stuckHist i0) (reconcileInitAodh labels).
Proof.
  unfold reconcileInitAodh, dbSync, dbNotReady, ensureHash, putHash, setDatabaseHostname, setHash, setStatus.
  hist; stuck_solve.
Qed.

Lemma reconcileNormalAodh_stuck i0 hash : Hist (rbacKnown i0) (stuckHist i0) (reconcileNormalAodh hash).
Proof.
  unfold reconcileNormalAodh, exposeAodh, setReadyCount, setNetworks, setAPIEndpoints, setStatus.
  hist; stuck_solve.
Qed.

#[local] Hint Resolve reconcileInitAodh_stuck reconcileNormalAodh_stuck : safe.

Lemma reconcileNormal_stuck i0 : Hist (rbacKnown i0) (stuckHist i0) reconcileNormal.
Proof.
  unfold reconcileNormal, requireServices, configure, setPrometheusEndpoint, generateServiceConfig,
    createHashOfInputHashes, configError, reconcileInit, resultFirst, transportURLCreateOrUpdate,
    getSecret, getAutoscalingMemcached, getAutoscalingHeat, putHash, setHash, setTransportURLSecret,
    setPrometheus, setStatus.
  hist; stuck_solve.
Qed.

Lemma reconcileBody_stuck i0 h i : stuck i0 (conds i) ->
  wpM (rbacKnown i0) reconcileBody i (fun tr i' _ => stuckHist i0 (h ++ tr) i').
Proof.
  intros Hs. apply reconcileBody_wp.
  - destruct Hs as [(c & Hc & _) _]. intros Hn. by rewrite Hn in Hc.
  - intros _ m. exact Hs.
  - intros _. exact (reconcileNormal_stuck i0 h (ensured i) Hs).
  - intros _. refine ((_ : Hist (rbacKnown i0) (stuckHist i0) reconcileDelete) h (ensured i) Hs).
    unfold reconcileDelete, reconcileDeleteAodh, releaseFinalizer. hist; stuck_solve.
Qed.

(** C37. A missing secret is never forgiven: once InputReady is not True (it is
    set False when a secret cannot be read, and nothing sets it True), no pass
    makes the Autoscaling Ready again, whatever the API server answers.  The
    conditions of the rbac objects are assumed to be other conditions the
    object has. *)
Theorem autoscaling_input_never_recovers req tr o i c i' err :
  runs (Reconcile req) tr o -> fetched tr = Some i -> Forall (keeps (rbacKnown i)) tr ->
  getCond (conds i) InputReadyCondition = Some c -> cond_Status c <> ConditionTrue ->
  (i', err) ∈ omap patchOf tr ->
  Autoscaling_IsReady i' = false /\
  exists c', getCond (conds i') InputReadyCondition = Some c' /\ cond_Status c' <> ConditionTrue.
Proof.
  intros Hr Hf Hok Hc Hs.
  cut (Forall (fun ev => forall i' err, patchOf ev = Some (i', err) ->
    exists cs, conds i' = updateReady cs /\ stuck i cs) tr).
  { intros H (ev & Hev & Hp)%list_elem_of_omap. rewrite Forall_forall in H.
    destruct (H ev Hev i' err Hp) as (cs & Hcs & (c' & Hc' & Hs') & _). split.
    - unfold Autoscaling_IsReady. fold (conds i'). rewrite Hcs.
      by apply (updateReady_blocked cs InputReadyCondition c').
    - exists c'. by rewrite Hcs, updateReady_other. }
  assert (stuck i (conds i)) as Hst by (split; eauto).
  pattern tr, o. apply (autoscaling_Reconcile_from _ _ _ _ _ _ Hr Hf Hok); [by repeat constructor|].
  eapply wpM_mono; [|apply wpM_and; [exact (reconcileBody_stuck i [] i Hst)|exact (reconcileBody_patches i)]].
  intros tr' s' o' [H Hp] err'. do 2 (constructor; [done|]). apply Forall_app. split.
  - eapply Forall_impl; [exact Hp|]. intros ev Hev. congruence.
  - constructor; [|constructor]. intros i1 e1 [= <- <-]. by exists (conds s').
Qed.

(** *** The StatefulSet: recorded hash and synchronised database *)
Definition frame (i0 i : Autoscaling) : Prop := asc_Spec i = asc_Spec i0 /\ asc_Meta i = asc_Meta i0.

(** The database was reported created and its sync job done. *)
Definition synced (i0 : Autoscaling) (h : list (event CallE)) : Prop :=
  Ev (WaitForDBCreated (databaseOf i0)) (emptyResult, None) ∈ h /\
  (DbSyncJob i0 serviceLabels, (emptyResult, None)) ∈ omap jobOf h.

(** Every StatefulSet in [h] is built from the spec of [i0] with its recorded
    hash, and comes after the database. *)
Definition gated (i0 : Autoscaling) (h : list (event CallE)) : Prop :=
  forall pre ev post def, h = pre ++ ev :: post -> sfsetOf ev = Some def ->
  synced i0 pre /\ exists hash i1, inputHashOf i0 = Some hash /\ frame i0 i1 /\
    AodhStatefulSet i1 hash serviceLabels = inl def.

Lemma gated_nil i0 : gated i0 [].
Proof. by intros [] ? ? ?. Qed.

Lemma gated_snoc i0 h ev : gated i0 h ->
  (forall def, sfsetOf ev = Some def -> synced i0 h /\ exists hash i1, inputHashOf i0 = Some hash /\
     frame i0 i1 /\ AodhStatefulSet i1 hash serviceLabels = inl def) ->
  gated i0 (h ++ [ev]).
Proof.
  intros Hg He pre ev' post def Heq Hd. destruct post as [|ev2 post _] using rev_ind.
  - apply app_inj_tail in Heq as [<- <-]. by apply He.
  - apply (Hg pre ev' post); [|done]. rewrite app_comm_cons, app_assoc in Heq.
    by apply app_inj_tail in Heq as [-> _].
Qed.

Definition gate (i0 : Autoscaling) (h : list (event CallE)) (i : Autoscaling) : Prop :=
  frame i0 i /\ gated i0 h.
Definition gateSame (i0 : Autoscaling) (h : list (event CallE)) (i : Autoscaling) : Prop :=
  gate i0 h i /\ inputHashOf i = inputHashOf i0.
(** After the StatefulSet the spec may change: the override is filled in. *)
Definition gateEnd (i0 : Autoscaling) (h : list (event CallE)) (_ : Autoscaling) : Prop := gated i0 h.

Ltac gate_hist :=
  hist; first
  [ match goal with H : gateSame _ _ _ |- gateSame _ (_ ++ _) _ =>
      destruct H as [[? ?] ?]; split; [split; [done|by apply gated_snoc]|done] end
  | match goal with H : gate _ _ _ |- gate _ (_ ++ _) _ =>
      destruct H as [? ?]; split; [done|by apply gated_snoc] end
  | match goal with H : gateEnd _ _ _ |- gateEnd _ (_ ++ _) _ => by apply gated_snoc end
  | match goal with H : gateSame _ _ _ |- _ => by destruct H as [[[? ?] ?] ?] end
  | match goal with H : gate _ _ _ |- _ => by destruct H as [[? ?] ?] end
  | done ].

Lemma exposeLoop_gate i0 es acc : Hist anyAnswer (gateEnd i0) (exposeLoop es acc).
Proof.
  revert acc. induction es as [|[e d] es IH]; intros acc; simpl;
    unfold exposeEndpoint, exposeError, setOverride; gate_hist.
Qed.
#[local] Hint Resolve exposeLoop_gate : safe.

Lemma reconcileNormalAodh_gate i0 hash h i :
  inputHashOf i0 = Some hash -> synced i0 h -> gate i0 h i ->
  wpM anyAnswer (reconcileNormalAodh hash) i (fun tr _ _ => gated i0 (h ++ tr)).
Proof.
  intros Hh Hs Hg. unfold reconcileNormalAodh. wpm_step. wpm_step.
  destruct (AodhStatefulSet i hash serviceLabels) as [def|err] eqn:Hdef;
    [|wpm; rewrite app_nil_r; apply Hg].
  wpm_step. apply wpM_call. intros [n [r e]] _.
  assert (gateEnd i0 (h ++ [Ev (StatefulSetCreateOrPatch def (seconds 5)) (n, (r, e))]) i) as H1.
  { apply gated_snoc; [apply Hg|]. intros d [= <-]. split; [done|]. exists hash, i. split_and!; [done|apply Hg|done]. }
  eapply wpM_mono; [|refine ((_ : Hist anyAnswer (gateEnd i0) _) _ i H1)].
  { intros tr s' o H. unfold gateEnd in H. rewrite <-app_assoc in H. exact H. }
  unfold exposeAodh, mirrorInto, setReadyCount, setNetworks, setAPIEndpoints, setStatus. gate_hist.
Qed.

Lemma reconcileInit_gate i0 : Hist anyAnswer (gate i0) (reconcileInit serviceLabels).
Proof.
  unfold reconcileInit, reconcileInitAodh, dbSync, dbNotReady, mirrorInto, ensureHash, putHash,
    setDatabaseHostname, setHash, setStatus.
  gate_hist.
Qed.

Lemma DbSyncJob_frame i0 i labels : frame i0 i -> DbSyncJob i labels = DbSyncJob i0 labels.
Proof.
  intros [Hs Hm]. unfold DbSyncJob, Autoscaling_RbacResourceName. by rewrite Hs, Hm.
Qed.

Lemma databaseOf_frame i0 i : frame i0 i -> databaseOf i = databaseOf i0.
Proof. intros [Hs Hm]. unfold databaseOf, aodhOf, nsOf. by rewrite Hs, Hm. Qed.

Lemma nonEmpty_false r : nonEmpty r = false -> r = emptyResult.
Proof. unfold nonEmpty. by intros ?%negb_false_iff%bool_decide_eq_true. Qed.

(** Without result and error, the database is there and synchronised. *)
Lemma reconcileInit_synced i0 i : frame i0 i ->
  wpM anyAnswer (reconcileInit serviceLabels) i (fun tr _ o =>
    forall r e, o = Val (r, e) -> nonEmpty r = false -> e = None -> synced i0 tr).
Proof.
  intros Hf. unfold reconcileInit, reconcileInitAodh, dbSync, dbNotReady, mirrorInto, ensureHash,
    putHash, setDatabaseHostname, setHash, setStatus, setFalse, markTrue, modifyConds, returnOn.
  wpm; intros r' e' [= <- <-] Hr He; simplify_eq; try congruence;
    repeat match goal with H : nonEmpty ?r = false |- _ => apply nonEmpty_false in H; subst r end;
    (split; apply list_elem_of_In; simpl;
     [rewrite (databaseOf_frame i0 i Hf); tauto|left; f_equal; by apply DbSyncJob_frame]).
Qed.

Lemma createHash_gate i0 env h i : gateSame i0 h i ->
  wpM anyAnswer (createHashOfInputHashes env) i (fun tr i' o =>
    tr = [] /\ gate i0 h i' /\ forall hash err, o = Val (hash, false, err) -> err = None ->
    i' = i /\ inputHashOf i0 = Some hash).
Proof.
  intros [Hg Hs]. unfold createHashOfInputHashes, setHash, setStatus. wpm_step. wpm_step.
  destruct (ObjectHash _) as [hash [err|]]; [wpm; naive_solver|].
  pose proof (SetHash_flag (asct_Hash (asc_Status i)) InputHashName hash) as Hflag.
  destruct (SetHash _ _ _) as [hm [|]]; wpm; (split_and!; [done|exact Hg|]).
  - by intros ? ? [= ].
  - intros hash' err' [= <- <-] _. split; [done|]. rewrite <-Hs. by apply Hflag.
Qed.

Lemma afterHash_gate i0 hash h i : gate i0 h i -> inputHashOf i0 = Some hash ->
  wpM anyAnswer
    (putHash InputHashName hash ;;;
     let* re := reconcileInit serviceLabels in
     resultFirst re (
     let* re := reconcileNormalAodh hash in
     resultFirst re (ret (emptyResult, None)))) i (fun tr _ _ => gated i0 (h ++ tr)).
Proof.
  intros Hg Hh. apply (Hist_wp anyAnswer (gate i0) _ _ h); [|done|by intros ? ? ? []|].
  { unfold putHash, setHash, setStatus. gate_hist. }
  intros _ tr0 s0 H0. wpm_step. eapply wpM_mono; [|apply wpM_and;
    [exact (reconcileInit_gate i0 _ s0 H0)|exact (reconcileInit_synced i0 s0 (proj1 H0))]].
  intros tr1 s1 [[r e]|w] [H1 Hsync]; [|rewrite app_assoc; apply H1].
  unfold resultFirst at 1. destruct (nonEmpty r) eqn:Hr; [wpm; rewrite app_nil_r, app_assoc; apply H1|].
  destruct e as [e|]; [wpm; rewrite app_nil_r, app_assoc; apply H1|].
  specialize (Hsync r None eq_refl Hr eq_refl).
  wpm_step. eapply wpM_mono; [|apply (reconcileNormalAodh_gate i0 hash ((h ++ tr0) ++ tr1) s1 Hh); [|exact H1]].
  - intros tr2 s2 o2 H2. destruct o2 as [[r2 e2]|]; [|by rewrite !app_assoc].
    unfold resultFirst. wpm; by rewrite app_nil_r, !app_assoc.
  - destruct Hsync as [Hw Hj]. split; [apply elem_of_app; by right|].
    rewrite omap_app. apply elem_of_app. by right.
Qed.

Lemma autoscaling_configure_gate i0 env mc : HistTo anyAnswer (gateSame i0) (gateEnd i0) (configure env mc).
Proof.
  intros h s Hs. unfold configure, configError.
  apply (Hist_wp anyAnswer (gateSame i0) _ _ h); [|done|by intros ? ? ? [[]]|].
  { unfold setPrometheusEndpoint, setPrometheus, setStatus. gate_hist. }
  intros _ tr0 s0 H0.
  apply (Hist_wp anyAnswer (gateSame i0) _ _ (h ++ tr0)); [|done|by intros ? ? ? [[]]; rewrite app_assoc|].
  { unfold generateServiceConfig. gate_hist. }
  intros r1 tr1 s1 H1. destruct r1 as [env1|err];
    [|unfold setFalse, modifyConds; wpm; rewrite !app_nil_r, app_assoc; apply H1].
  wpm_step. eapply wpM_mono; [|exact (createHash_gate i0 env1 _ s1 H1)].
  intros tr2 s2 o2 (-> & H2 & H3). destruct o2 as [[[hash changed] err]|];
    [|rewrite app_nil_r, app_assoc; apply H2].
  destruct err as [err|]; [unfold setFalse, modifyConds; wpm; rewrite !app_nil_r, app_assoc; apply H2|].
  destruct changed; [wpm; rewrite !app_nil_r, app_assoc; apply H2|].
  destruct (H3 hash None eq_refl eq_refl) as [-> Hh]. clear H3 H2.
  eapply wpM_mono; [|exact (afterHash_gate i0 hash _ s1 (proj1 H1) Hh)].
  intros tr3 s3 o3. unfold gateEnd. simpl. by rewrite !app_assoc.
Qed.

Lemma gateSame_gateEnd i0 h i : gateSame i0 h i -> gateEnd i0 h i.
Proof. by intros [[]]. Qed.

#[local] Hint Resolve autoscaling_configure_gate : safe.

Lemma autoscaling_normal_gate i0 : HistTo anyAnswer (gateSame i0) (gateEnd i0) reconcileNormal.
Proof.
  unfold reconcileNormal, requireServices, reconcileRbac, returnOn, transportURLCreateOrUpdate, getSecret,
    getAutoscalingMemcached, getAutoscalingHeat, setTransportURLSecret, setStatus.
  histTo (gateSame_gateEnd i0); gate_hist.
Qed.

Lemma autoscaling_body_gate i h : gated i h ->
  wpM anyAnswer reconcileBody i (fun tr _ _ => gated i (h ++ tr)).
Proof.
  intros Hg. apply reconcileBody_wp.
  - intros _. by rewrite app_nil_r.
  - intros _ m. by rewrite app_nil_r.
  - intros _. apply (autoscaling_normal_gate i h (ensured i)). split; [split; [split; done|done]|done].
  - intros _. refine ((_ : Hist anyAnswer (gateEnd i) reconcileDelete) h (ensured i) Hg).
    unfold reconcileDelete, reconcileDeleteAodh, releaseFinalizer. gate_hist.
Qed.

(** C38. Aodh never runs with inputs that are not recorded, nor before its
    database: a StatefulSet written in a pass is the one built from the spec
    of the Autoscaling with the input hash its status already held when the
    pass began, and earlier in the same pass the database was reported created
    and the database sync job of the spec reported done. *)
Theorem autoscaling_statefulset_gated req tr o i pre ev post def :
  runs (Reconcile req) tr o -> fetched tr = Some i -> tr = pre ++ ev :: post -> sfsetOf ev = Some def ->
  (exists hash i1, inputHashOf i = Some hash /\ asc_Spec i1 = asc_Spec i /\ asc_Meta i1 = asc_Meta i /\
     AodhStatefulSet i1 hash serviceLabels = inl def) /\
  Ev (WaitForDBCreated (databaseOf i)) (emptyResult, None) ∈ pre /\
  (DbSyncJob i serviceLabels, (emptyResult, None)) ∈ omap jobOf pre.
Proof.
  intros Hr Hf Heq Hdef.
  assert (gated i tr) as Hg.
  { clear Heq. pattern tr, o.
    assert (forall e, gated i [Ev (GetAutoscaling req) (inl i); Ev (NewHelper i) e]) as H0.
    { intros e. apply (gated_snoc i [_]); [apply (gated_snoc i []); [apply gated_nil|done]|done]. }
    apply (autoscaling_Reconcile_from anyAnswer _ _ _ _ _ Hr Hf (keeps_any _)); [auto|].
    eapply wpM_mono; [|exact (autoscaling_body_gate i _ (H0 None))].
    intros tr' i' o' H err. rewrite !app_comm_cons. by apply gated_snoc. }
  destruct (Hg _ _ _ _ Heq Hdef) as ([Hw Hj] & hash & i1 & Hh & [Hs Hm] & Hd).
  split_and!; [|done|done]. by exists hash, i1.
Qed.
End Pass.
End AutoscalingFacts.
