(* ===== verification/AodhFacts.v ===== *)
(** * Aodh: its database, configuration, endpoints and deletion

    What one pass of the Autoscaling controller does in the handlers of
    [controllers/aodh_controller.go]: the sync job, the database connection in the
    configuration, the deletion, the services and the Keystone endpoints; and the
    watches. *)

From stdpp Require Import gmap strings list pretty.
From Stdlib Require Import ZArith Lia.
From S2P Require Import Prelude Condition Api Libs Reference AutoscalingPkg MetricStoragePkg Operator AutoscalingController AutoscalingFacts.

#[local] Open Scope go_scope.

Module AodhFacts.
Import AutoscalingController AutoscalingFacts.

Section Pass.
Context `{L : ConditionLib} `{LL : !ConditionLaws L} `{F : FinalizerLib} `{FL : !FinalizerLaws F}.
Context `{C : CommonLib} `{CL : !CommonLaws C} `{V : ServiceLib} `{VL : !ServiceLaws V}.

(** *** The database sync job: its result hides its error *)

(** Every job answered with a result ends the pass with that result and no
    error, and is reported as running. *)
Definition jobRunning (tr : list (event CallE)) (i : Autoscaling) (o : outcome RE) : Prop :=
  forall def r e, (def, (r, e)) ∈ omap jobOf tr -> nonEmpty r = true ->
  o = Val (r, None) /\
  getCond (conds i) DBSyncReadyCondition =
    Some (FalseCondition DBSyncReadyCondition RequestedReason SeverityInfo
            (lib "DBSyncReadyRunningMessage")).

Definition noJob (h : list (event CallE)) (_ : Autoscaling) : Prop := omap jobOf h = [].

Ltac nojob :=
  hist; try done;
  match goal with H : noJob _ _ |- noJob _ _ => unfold noJob in *; rewrite omap_app, H; done end.

Lemma noJob_running h i o : noJob h i -> jobRunning h i o.
Proof. intros H def r e Hin. unfold noJob in H. rewrite H in Hin. by apply not_elem_of_nil in Hin. Qed.

Lemma jobRunning_app h tr i o : noJob h i -> jobRunning tr i o -> jobRunning (h ++ tr) i o.
Proof. unfold noJob, jobRunning. intros H Hj. by rewrite omap_app, H. Qed.

Lemma exposeLoop_nojob es acc : Hist anyAnswer noJob (exposeLoop es acc).
Proof.
  revert acc. induction es as [|[e d] es IH]; intros acc; simpl;
    unfold exposeEndpoint, exposeError, setOverride; nojob.
Qed.
#[local] Hint Resolve exposeLoop_nojob : safe.

Lemma reconcileNormalAodh_nojob hash : Hist anyAnswer noJob (reconcileNormalAodh hash).
Proof.
  unfold reconcileNormalAodh, exposeAodh, mirrorInto, setReadyCount, setNetworks, setAPIEndpoints, setStatus.
  nojob.
Qed.

(** Sequencing: handlers that run no job, then one that ends as [jobRunning]. *)
Lemma running_bind {A} (m : AM A) (f : A -> AM RE) i :
  Hist anyAnswer noJob m -> (forall a i, wpM anyAnswer (f a) i jobRunning) ->
  wpM anyAnswer (mbindM m f) i jobRunning.
Proof.
  intros Hm Hf. apply (Hist_wp anyAnswer noJob m f []); [done|done| |].
  - intros tr s' w H. by apply noJob_running.
  - intros a tr s' H. eapply wpM_mono; [|exact (Hf a s')].
    intros tr' s'' o' Ho. by apply jobRunning_app.
Qed.

Lemma running_nojob (m : AM RE) i : Hist anyAnswer noJob m -> wpM anyAnswer m i jobRunning.
Proof.
  intros Hm. eapply wpM_mono; [|exact (Hm [] i eq_refl)]. intros tr s' o. apply noJob_running.
Qed.


(** Follows a handler to its exits. *)
Ltac running :=
  repeat lazymatch goal with
  | |- wpM _ (mbindM _ _) _ _ => apply running_bind; [nojob|intros]
  | |- wpM _ (ret _) _ _ => apply running_nojob, Hist_ret
  | |- wpM _ (match ?x with _ => _ end) _ _ => destruct x eqn:?
  | |- wpM _ (let _ := _ in _) _ _ => cbv zeta
  end.

Lemma dbSync_running labels i : wpM anyAnswer (dbSync labels) i jobRunning.
Proof.
  unfold dbSync, putHash, setHash, setStatus, setFalse, markTrue, modifyConds.
  wpm; intros def' r' e' Hin Hr'; apply list_elem_of_In in Hin; simpl in Hin;
    (destruct Hin as [Hin|[]]); simplify_eq; try congruence.
  split; [done|]. apply SetFalse_get.
Qed.

Lemma reconcileInit_running labels i : wpM anyAnswer (reconcileInit labels) i jobRunning.
Proof.
  unfold reconcileInit. wpm_step.
  assert (wpM anyAnswer (reconcileInitAodh labels) i jobRunning) as H.
  { unfold reconcileInitAodh, dbNotReady, mirrorInto, ensureHash, setDatabaseHostname, setHash, setStatus.
    running; apply dbSync_running. }
  eapply wpM_mono; [|exact H]. clear H. intros tr s' [[r e]|w] H.
  - unfold returnOn. wpm; rewrite app_nil_r; intros def r' e' Hin Hr';
      destruct (H def r' e' Hin Hr') as [Ho Hc]; simplify_eq; first [done|congruence].
  - intros def r e Hin Hr. by destruct (H def r e Hin Hr).
Qed.

Lemma init_then_running rest i : Hist anyAnswer noJob rest ->
  wpM anyAnswer (let* re := reconcileInit serviceLabels in resultFirst re rest) i jobRunning.
Proof.
  intros Hrest. wpm_step. eapply wpM_mono; [|exact (reconcileInit_running serviceLabels i)].
  intros tr s' [[r e]|w] H; [|intros def r e Hin Hr; by destruct (H def r e Hin Hr)].
  unfold resultFirst. destruct (nonEmpty r) eqn:Hr.
  - wpm. rewrite app_nil_r. intros def r' e' Hin Hr'. destruct (H def r' e' Hin Hr') as [[= -> ->] Hc]. done.
  - assert (forall def r' e', (def, (r', e')) ∈ omap jobOf tr -> nonEmpty r' = true -> False) as Hno.
    { intros def r' e' Hin Hr'. destruct (H def r' e' Hin Hr') as [[= -> ->] _]. congruence. }
    assert (forall tr' s'' o', noJob tr' s'' -> jobRunning (tr ++ tr') s'' o') as Happ.
    { intros tr' s'' o' Hj def r' e' Hin Hr'. unfold noJob in Hj.
      rewrite omap_app, Hj, app_nil_r in Hin. by destruct (Hno def r' e'). }
    destruct e as [e|]; [wpm; by apply Happ|].
    eapply wpM_mono; [|exact (Hrest [] s' eq_refl)]. intros tr' s'' o'. apply Happ.
Qed.

Lemma configure_running env mc i : wpM anyAnswer (configure env mc) i jobRunning.
Proof.
  unfold configure, configError, setPrometheusEndpoint, generateServiceConfig, createHashOfInputHashes,
    putHash, setPrometheus, setHash, setStatus.
  pose proof reconcileNormalAodh_nojob.
  running. apply init_then_running. unfold resultFirst. nojob.
Qed.

Lemma reconcileNormal_running i : wpM anyAnswer reconcileNormal i jobRunning.
Proof.
  unfold reconcileNormal, requireServices, reconcileRbac, returnOn, transportURLCreateOrUpdate, getSecret,
    getAutoscalingMemcached, getAutoscalingHeat, setTransportURLSecret, setStatus.
  running; apply configure_running.
Qed.

Lemma reconcileBody_running i : wpM anyAnswer reconcileBody i jobRunning.
Proof.
  apply reconcileBody_wp.
  - intros _. by apply noJob_running.
  - intros _ m. by apply noJob_running.
  - intros _. apply reconcileNormal_running.
  - intros _. apply running_nojob. unfold reconcileDelete, reconcileDeleteAodh, releaseFinalizer. nojob.
Qed.

(** The only patch of a pass. *)
Lemma patch_in req i tr' i' err i1 e1 : Forall (fun ev => patchOf ev = None) tr' ->
  (i1, e1) ∈ omap patchOf (Ev (GetAutoscaling req) (inl i) :: Ev (NewHelper i) None ::
    tr' ++ [Ev (PatchInstance i') err]) -> i1 = i' /\ e1 = err.
Proof.
  intros H. simpl. rewrite omap_app, omap_None by done. by intros [= -> ->]%list_elem_of_singleton.
Qed.

(** A failing database sync job looks like a running one: whenever the
    job answers with a result, the pass returns that result without an error
    (even if the job answered with one) and the patched object reports the job
    as requested, not as failed. *)
Theorem autoscaling_dbsync_error_dropped req tr o i def r e i' err :
  runs (Reconcile req) tr o -> fetched tr = Some i -> (def, (r, e)) ∈ omap jobOf tr ->
  nonEmpty r = true -> (i', err) ∈ omap patchOf tr ->
  o = Val (r, None) /\
  getCond (conds i') DBSyncReadyCondition =
    Some (FalseCondition DBSyncReadyCondition RequestedReason SeverityInfo
            (lib "DBSyncReadyRunningMessage")).
Proof.
  intros Hr Hf. pattern tr, o.
  apply (autoscaling_Reconcile_from anyAnswer _ _ _ _ _ Hr Hf (keeps_any _));
    [intros err' Hin; by apply not_elem_of_nil in Hin|].
  eapply wpM_mono; [|apply wpM_and; [exact (reconcileBody_running i)|exact (reconcileBody_patches i)]].
  intros tr' s' o' [H Hp] err' Hin Hne Hpat. destruct (patch_in _ _ _ _ _ _ _ Hp Hpat) as [-> ->].
  simpl in Hin. rewrite omap_app, app_nil_r in Hin.
  destruct (H def r e Hin Hne) as [-> Hc]. split; [by destruct err'|].
  etrans; [|exact Hc]. by apply (updateReady_other (conds s')).
Qed.

(** *** The database connection in the configuration *)

(** The configuration of a list of templates names the database host that the
    status of [i0] holds. *)
Definition connects (i0 : Autoscaling) (cms : list Template) : Prop :=
  exists t password, t ∈ cms /\ tpl_Name t = "aodh-config-data" /\
    tpl_ConfigOptions t !! "DatabaseConnection" =
      Some (databaseConnection (aodh_DatabaseUser (aodhOf i0)) password
              (asct_DatabaseHostname (asc_Status i0))).

(** Jobs come after a configuration, and every configuration connects. *)
Definition configured (i0 : Autoscaling) (h : list (event CallE)) : Prop :=
  (forall cms, cms ∈ omap templatesOf h -> connects i0 cms) /\
  (forall pre ev post, h = pre ++ ev :: post -> jobOf ev <> None -> omap templatesOf pre <> []).

Lemma configured_snoc i0 h ev : configured i0 h ->
  (forall cms, templatesOf ev = Some cms -> connects i0 cms) ->
  (jobOf ev <> None -> omap templatesOf h <> []) -> configured i0 (h ++ [ev]).
Proof.
  intros [Hc Hj] He Hje. split.
  - intros cms. rewrite omap_app. intros [Hin|Hin]%elem_of_app; [by apply Hc|].
    apply list_elem_of_omap in Hin as (ev' & ->%list_elem_of_singleton & Ht). by apply He.
  - intros pre ev' post Heq Hne. destruct post as [|ev2 post _] using rev_ind.
    + apply app_inj_tail in Heq as [<- <-]. by apply Hje.
    + apply (Hj pre ev' post); [|done]. rewrite app_comm_cons, app_assoc in Heq.
      by apply app_inj_tail in Heq as [-> _].
Qed.

(** Before the configuration: spec, metadata and hostname are those of [i0]. *)
Definition confBefore (i0 : Autoscaling) (h : list (event CallE)) (i : Autoscaling) : Prop :=
  configured i0 h /\ frame i0 i /\
  asct_DatabaseHostname (asc_Status i) = asct_DatabaseHostname (asc_Status i0).
(** After it. *)
Definition confAfter (i0 : Autoscaling) (h : list (event CallE)) (_ : Autoscaling) : Prop :=
  configured i0 h /\ omap templatesOf h <> [].
Definition confEnd (i0 : Autoscaling) (h : list (event CallE)) (_ : Autoscaling) : Prop :=
  configured i0 h.

Lemma confBefore_snoc i0 h i ev : templatesOf ev = None -> jobOf ev = None ->
  confBefore i0 h i -> confBefore i0 (h ++ [ev]) i.
Proof.
  intros Ht Hj (Hc & Hf & Hh). split; [|done].
  apply configured_snoc; [done| |]; congruence.
Qed.

Lemma confAfter_snoc i0 h i ev : templatesOf ev = None -> confAfter i0 h i -> confAfter i0 (h ++ [ev]) i.
Proof.
  intros Ht [Hc Hn]. split.
  - apply configured_snoc; [done|congruence|done].
  - rewrite omap_app. intros [? _]%app_eq_nil. done.
Qed.

Ltac conf_hist :=
  hist; first
  [ by apply confBefore_snoc | by apply confAfter_snoc
  | match goal with H : confBefore _ _ _ |- _ => by destruct H as (? & [? ?] & ?) end | done ].

Lemma exposeLoop_conf i0 es acc : Hist anyAnswer (confAfter i0) (exposeLoop es acc).
Proof.
  revert acc. induction es as [|[e d] es IH]; intros acc; simpl;
    unfold exposeEndpoint, exposeError, setOverride; conf_hist.
Qed.
#[local] Hint Resolve exposeLoop_conf : safe.

(** From the database on. *)
Lemma afterHash_conf i0 hash : Hist anyAnswer (confAfter i0)
  (putHash InputHashName hash ;;;
   let* re := reconcileInit serviceLabels in
   resultFirst re (
   let* re := reconcileNormalAodh hash in
   resultFirst re (ret (emptyResult, None)))).
Proof.
  unfold reconcileInit, reconcileInitAodh, dbSync, dbNotReady, reconcileNormalAodh, exposeAodh,
    mirrorInto, ensureHash, putHash, resultFirst, setDatabaseHostname, setReadyCount, setNetworks,
    setAPIEndpoints, setHash, setStatus.
  conf_hist.
Qed.

(** One read before the configuration. *)
Lemma conf_read {X A} i0 (e : CallE X) (f : X -> AM A) h i Q :
  (forall x, templatesOf (Ev e x) = None /\ jobOf (Ev e x) = None) -> confBefore i0 h i ->
  (forall x, confBefore i0 (h ++ [Ev e x]) i ->
     wpM anyAnswer (f x) i (fun tr => Q ((h ++ [Ev e x]) ++ tr))) ->
  wpM anyAnswer (mbindM (call e) f) i (fun tr => Q (h ++ tr)).
Proof.
  intros He Hb Hf. wpm_step. apply wpM_call. intros x _. destruct (He x).
  eapply wpM_mono; [|apply Hf; by apply confBefore_snoc]. intros tr s' o H'. cbv beta in H'. rewrite <-app_assoc in H'. exact H'.
Qed.

Definition confQ (i0 : Autoscaling) (h : list (event CallE)) (i : Autoscaling)
    (o : outcome (EnvMap + GoError)) : Prop :=
  confEnd i0 h i /\ forall env', o = Val (inl env') -> confAfter i0 h i.

Lemma ensureSecrets_conf i0 owner cms env h i : connects i0 cms -> confBefore i0 h i ->
  wpM anyAnswer (call (EnsureSecrets owner cms env)) i (fun tr => confQ i0 (h ++ tr)).
Proof.
  intros Hcms (Hc & _). apply wpM_call. intros r _.
  assert (configured i0 (h ++ [Ev (EnsureSecrets owner cms env) r])) as Hn.
  { apply configured_snoc; [done| |done]. by intros cms' [= <-]. }
  split; [done|]. intros env' _. split; [done|]. rewrite omap_app. by intros [_ ?]%app_eq_nil.
Qed.

Lemma generateServiceConfig_conf i0 env mc h i : confBefore i0 h i ->
  wpM anyAnswer (generateServiceConfig env mc) i (fun tr => confQ i0 (h ++ tr)).
Proof.
  assert (forall h err, confBefore i0 h i ->
    wpM anyAnswer (ret (inr err : EnvMap + GoError) : AM _) i (fun tr => confQ i0 (h ++ tr))) as Hret.
  { intros h' err [Hc _]. apply wpM_ret. rewrite app_nil_r. by split. }
  assert (forall h w, confBefore i0 h i ->
    wpM anyAnswer (panic w : AM (EnvMap + GoError)) i (fun tr => confQ i0 (h ++ tr))) as Hpanic.
  { intros h' w [Hc _]. apply wpM_panic. rewrite app_nil_r. by split. }
  intros H. unfold generateServiceConfig. wpm_step. wpm_step. simpl.
  apply (conf_read i0); [done|done|]. intros [api|err] H1; [|by apply Hret].
  apply (conf_read i0); [done|done|]. intros [url|err] H2; [|by apply Hret].
  apply (conf_read i0); [done|done|]. intros [[osp hash1] [err|]] H3; [by apply Hret|].
  apply (conf_read i0); [done|done|]. intros [[transport hash2] [err|]] H4; [by apply Hret|].
  destruct osp as [osp|]; [|by apply Hpanic]. destruct transport as [transport|]; [|by apply Hpanic].
  apply ensureSecrets_conf; [|done]. destruct H4 as (_ & [Hs _] & Hh).
  eexists _, _. split; [right; left|]. split; [done|].
  unfold aodhOf. rewrite <-Hs, <-Hh. simpl. unfold templateParameters.
  do 8 (rewrite lookup_insert_ne by done). by rewrite lookup_singleton_eq.
Qed.

Lemma configure_conf i0 env mc : HistTo anyAnswer (confBefore i0) (confEnd i0) (configure env mc).
Proof.
  intros h s Hs. unfold configure, configError.
  apply (Hist_wp anyAnswer (confBefore i0) _ _ h); [|done|by intros ? ? ? []|].
  { unfold setPrometheusEndpoint, setPrometheus, setStatus. conf_hist. }
  intros _ tr0 s0 H0. wpm_step. eapply wpM_mono; [|exact (generateServiceConfig_conf i0 env mc _ s0 H0)].
  intros tr1 s1 [[env1|err]|w] [He Ha]; rewrite <-app_assoc in He.
  - specialize (Ha env1 eq_refl). rewrite <-app_assoc in Ha.
    eapply wpM_mono; [|refine ((_ : Hist anyAnswer (confAfter i0) _) _ s1 Ha)].
    + intros tr2 s2 o2 [H2 _]. rewrite <-!app_assoc in H2. exact H2.
    + pose proof (afterHash_conf i0). unfold createHashOfInputHashes, setHash, setStatus. conf_hist.
  - unfold setFalse, modifyConds. wpm. by rewrite !app_nil_r.
  - done.
Qed.

Lemma confBefore_end i0 h i : confBefore i0 h i -> confEnd i0 h i.
Proof. by intros []. Qed.

#[local] Hint Resolve configure_conf : safe.

Lemma autoscaling_normal_conf i0 : HistTo anyAnswer (confBefore i0) (confEnd i0) reconcileNormal.
Proof.
  unfold reconcileNormal, requireServices, reconcileRbac, returnOn, transportURLCreateOrUpdate, getSecret,
    getAutoscalingMemcached, getAutoscalingHeat, setTransportURLSecret, setStatus.
  histTo (confBefore_end i0); conf_hist.
Qed.

Lemma autoscaling_body_conf i h : configured i h ->
  wpM anyAnswer reconcileBody i (fun tr _ _ => configured i (h ++ tr)).
Proof.
  intros Hg. apply reconcileBody_wp.
  - intros _. by rewrite app_nil_r.
  - intros _ m. by rewrite app_nil_r.
  - intros _. apply (autoscaling_normal_conf i h (ensured i)). by split.
  - intros _. eapply wpM_mono; [|exact (autoscaling_delete_safe anyAnswer (fun _ => True) (fun _ _ _ => I) _ I)].
    intros tr s' o (_ & Htr & _). clear s' o. revert h Hg.
    induction Htr as [|ev tr (_ & _ & Hj & Ht) _ IH]; intros h Hg; [by rewrite app_nil_r|].
    rewrite cons_middle, app_assoc. apply IH, configured_snoc; [done|congruence|congruence].
Qed.

(** The first configuration has no database host: the configuration
    written in a pass names the host the status held when the pass began, and
    the database sync job of the pass is started after that configuration was
    written.  The host is recorded only while the database is created, later
    in the pass, so the first job runs with an empty host. *)
Theorem autoscaling_config_precedes_hostname req tr o i :
  runs (Reconcile req) tr o -> fetched tr = Some i ->
  (forall cms, cms ∈ omap templatesOf tr -> exists t password, t ∈ cms /\
     tpl_Name t = "aodh-config-data" /\
     tpl_ConfigOptions t !! "DatabaseConnection" =
       Some (databaseConnection (aodh_DatabaseUser (aodhOf i)) password
               (asct_DatabaseHostname (asc_Status i)))) /\
  (forall pre ev post, tr = pre ++ ev :: post -> jobOf ev <> None -> omap templatesOf pre <> []).
Proof.
  intros Hr Hf. change (configured i tr). pattern tr, o.
  assert (forall e, configured i [Ev (GetAutoscaling req) (inl i); Ev (NewHelper i) e]) as H0.
  { intros e. apply (configured_snoc i [_]); [apply (configured_snoc i []); [|done|done]|done|done].
    split; [|by intros [] ? ?]. intros cms Hin. by apply not_elem_of_nil in Hin. }
  apply (autoscaling_Reconcile_from anyAnswer _ _ _ _ _ Hr Hf (keeps_any _)); [auto|].
  eapply wpM_mono; [|exact (autoscaling_body_conf i _ (H0 None))].
  intros tr' i' o' H err. rewrite !app_comm_cons. by apply configured_snoc.
Qed.

(** *** Deletion *)

(** Lookups and updates of the Keystone service and endpoint. *)
Definition ksServiceLookup (ev : event CallE) : option (ObjectMeta + GoError) :=
  match ev with
  | Ev e x =>
      match e in CallE X return X -> option (ObjectMeta + GoError) with
      | GetKeystoneService _ _ => Some
      | _ => fun _ => None
      end x
  end.
Definition ksServiceUpdate (ev : event CallE) : option (ObjectMeta * option GoError) :=
  match ev with
  | Ev e x =>
      match e in CallE X return X -> option (ObjectMeta * option GoError) with
      | UpdateKeystoneService m => fun x => Some (m, x)
      | _ => fun _ => None
      end x
  end.
Definition ksEndpointLookup (ev : event CallE) : option (ObjectMeta + GoError) :=
  match ev with
  | Ev e x =>
      match e in CallE X return X -> option (ObjectMeta + GoError) with
      | GetKeystoneEndpoint _ _ => Some
      | _ => fun _ => None
      end x
  end.
Definition ksEndpointUpdate (ev : event CallE) : option (ObjectMeta * option GoError) :=
  match ev with
  | Ev e x =>
      match e in CallE X return X -> option (ObjectMeta * option GoError) with
      | UpdateKeystoneEndpoint m => fun x => Some (m, x)
      | _ => fun _ => None
      end x
  end.

(** The object was absent, did not carry the finalizer, or was updated without
    it (or had vanished meanwhile). *)
Definition released (lookups : list (ObjectMeta + GoError))
    (updates : list (ObjectMeta * option GoError)) : Prop :=
  exists r, lookups = [r] /\
  match r with
  | inr e => err_notFound e = true
  | inl m => finalizer ∈ meta_Finalizers m -> exists m' e, updates = [(m', e)] /\
      ~ (finalizer ∈ meta_Finalizers m') /\ (e = None \/ IsNotFound e = true)
  end.

(** The database was absent, or its finalizer was deleted. *)
Definition databaseReleased (tr : list (event CallE)) : Prop :=
  (exists name e, Ev (GetDatabaseByName name) (inr e) ∈ tr /\ err_notFound e = true) \/
  (exists db, Ev (DatabaseDeleteFinalizer db) None ∈ tr).

(** [releaseFinalizer] goes on only when the object is released. *)
Lemma releaseFinalizer_wp r update rest i (Q : list (event CallE) -> Autoscaling -> outcome RE -> Prop) :
  (forall tr e, Q tr i (Val (emptyResult, Some e))) ->
  (forall ups, released [r] ups ->
     wpM anyAnswer rest i (fun tr => Q (((fun '(m, e) => Ev (update m) e) <$> ups) ++ tr))) ->
  wpM anyAnswer (releaseFinalizer r update rest) i Q.
Proof.
  intros Herr Hrest. unfold releaseFinalizer. destruct r as [m|e].
  - pose proof (RemoveFinalizer_elem (meta_Finalizers m) finalizer) as He.
    pose proof (RemoveFinalizer_flag (meta_Finalizers m) finalizer) as Hfl.
    destruct (RemoveFinalizer _ _) as [fs ch]. simpl in He, Hfl. destruct ch.
    + assert (~ (finalizer ∈ fs)) as Hn by (intros [_ ?]%He; done).
      wpm_step. apply wpM_call. intros e _.
      assert (e = None \/ IsNotFound e = true -> wpM anyAnswer rest i (fun tr => Q (Ev (update (withFinalizers fs m)) e :: tr))) as Hgo.
      { intros Hor. apply (Hrest [(withFinalizers fs m, e)]). exists (inl m). split; [done|]. eauto 10. }
      destruct e as [e|]; [|apply Hgo; by left].
      destruct (err_notFound e) eqn:Hnf; [apply Hgo; by right|wpm; apply Herr].
    + apply (Hrest []). exists (inl m). split; [done|]. intros Hin%Hfl. done.
  - destruct (err_notFound e) eqn:Hnf; [|wpm; apply Herr].
    apply (Hrest []). exists (inr e). done.
Qed.

(** What a deletion without error did. *)
Definition allReleased (tr : list (event CallE)) : Prop :=
  databaseReleased tr /\ released (omap ksServiceLookup tr) (omap ksServiceUpdate tr) /\
  released (omap ksEndpointLookup tr) (omap ksEndpointUpdate tr).

(** The deletion neither patches nor deploys. *)
Definition quiet (ev : event CallE) : Prop :=
  patchOf ev = None /\ sfsetOf ev = None /\ jobOf ev = None.

Lemma quiet_patches tr : Forall quiet tr -> Forall (fun ev => patchOf ev = None) tr.
Proof. intros H. eapply Forall_impl; [exact H|]. by intros ev []. Qed.

Lemma reconcileDeleteAodh_quiet i :
  wpM anyAnswer reconcileDeleteAodh i (fun tr _ _ => Forall quiet tr).
Proof.
  eapply wpM_mono; [|refine ((_ : Safe anyAnswer (fun _ => True) quiet reconcileDeleteAodh) i I)].
  - by intros tr s' o (_ & H & _).
  - unfold reconcileDeleteAodh, releaseFinalizer. safe; by split.
Qed.

Lemma reconcileDeleteAodh_released i :
  wpM anyAnswer reconcileDeleteAodh i (fun tr i' o => i' = i /\ exists e, o = Val (emptyResult, e) /\
    (e = None -> allReleased tr)).
Proof.
  unfold reconcileDeleteAodh. wpm_step. wpm_step.
  assert (forall pre, omap ksServiceLookup pre = [] -> omap ksServiceUpdate pre = [] ->
    omap ksEndpointLookup pre = [] -> omap ksEndpointUpdate pre = [] -> databaseReleased pre ->
    wpM anyAnswer
      (let* r := call (GetKeystoneService AutoscalingPkg.ServiceName (nsOf i)) in
       releaseFinalizer r UpdateKeystoneService (
       let* r := call (GetKeystoneEndpoint AutoscalingPkg.ServiceName (nsOf i)) in
       releaseFinalizer r UpdateKeystoneEndpoint (ret (emptyResult, None)))) i
      (fun tr i' o => i' = i /\ exists e, o = Val (emptyResult, e) /\ (e = None -> allReleased (pre ++ tr)))) as Hrest.
  { intros pre H1 H2 H3 H4 Hdb. wpm_step. apply wpM_call. intros r1 _.
    apply releaseFinalizer_wp; [by intros ? e; split; [|exists (Some e)]|]. intros ups1 Hr1.
    wpm_step. apply wpM_call. intros r2 _.
    apply releaseFinalizer_wp; [by intros ? e; split; [|exists (Some e)]|]. intros ups2 Hr2.
    wpm_step. split; [done|]. exists None. split; [done|]. intros _.
    unfold allReleased. rewrite !omap_app, H1, H2, H3, H4.
    rewrite (omap_fmap_None ksServiceLookup), (omap_fmap_None ksServiceLookup),
      (omap_fmap_Some ksServiceUpdate), (omap_fmap_None ksServiceUpdate),
      (omap_fmap_None ksEndpointLookup), (omap_fmap_None ksEndpointLookup),
      (omap_fmap_None ksEndpointUpdate), (omap_fmap_Some ksEndpointUpdate) by (by intros []).
    simpl. rewrite !app_nil_r. split_and!; [|done|done]. destruct Hdb as [(n & e & Hin & He)|(db & Hin)].
    - left. exists n, e. split; [apply elem_of_app; by left|done].
    - right. exists db. apply elem_of_app. by left. }
  wpm_step. apply wpM_call. intros [db|e] _.
  - wpm_step. apply wpM_call. intros [e|] _; [wpm; split; [done|by exists (Some e)]|].
    apply (Hrest [_; _]); [done..|]. right. exists db. right. left.
  - destruct (err_notFound e) eqn:Hnf; [|wpm; split; [done|by exists (Some e)]].
    apply (Hrest [_]); [done..|]. left. do 2 eexists. split; [left|done].
Qed.

(** C39. Deletion in order: for an Autoscaling being deleted whose conditions
    exist, the operator's finalizer is taken off the Autoscaling only in a
    pass in which the database was absent or gave up its finalizer, and the
    Keystone service and the Keystone endpoint each were absent, did not carry
    the finalizer, or were updated without it; nothing is deployed. *)
Theorem autoscaling_delete_order req tr o i i' err :
  runs (Reconcile req) tr o -> fetched tr = Some i ->
  notDeleting (asc_Meta i) = false -> conds i <> None -> (i', err) ∈ omap patchOf tr ->
  finalizer ∈ meta_Finalizers (asc_Meta i) -> finalizer ∉ meta_Finalizers (asc_Meta i') ->
  o = Val (emptyResult, None) /\ omap sfsetOf tr = [] /\ omap jobOf tr = [] /\ allReleased tr.
Proof.
  intros Hr Hf Hd Hc. pattern tr, o.
  apply (autoscaling_Reconcile_from anyAnswer _ _ _ _ _ Hr Hf (keeps_any _));
    [intros e Hin; by apply not_elem_of_nil in Hin|].
  apply reconcileBody_wp; [done| |congruence|].
  { intros Hnf m err' _ Hin. done. }
  intros _. unfold reconcileDelete. wpm_step.
  eapply wpM_mono; [|apply wpM_and; [exact (reconcileDeleteAodh_released (ensured i))|
    exact (reconcileDeleteAodh_quiet (ensured i))]].
  intros tr1 i1 o1 [(-> & e & -> & Hrel) Hq]. destruct e as [e|].
  - unfold returnOn. wpm_step. intros err' Hp Hin Hn. rewrite app_nil_r in Hp.
    destruct (patch_in req i _ _ _ _ _ (quiet_patches _ Hq) Hp) as [-> ->]. by destruct Hn.
  - specialize (Hrel eq_refl). unfold returnOn. simpl. wpm_step. apply removeFinalizer_wp.
    intros fs b Hfs. wpm_step. intros err' _ _ _. rewrite !app_nil_r. simpl.
    assert (forall {A} (f : event CallE -> option A), (forall ev, quiet ev -> f ev = None) -> omap f tr1 = []) as Hnone.
    { intros A f Hq'. apply omap_None. eapply Forall_impl; [exact Hq|exact Hq']. }
    rewrite !omap_app, !Hnone by (by intros ev (? & ? & ?)).
    split_and!; [by destruct err'|done|done|]. destruct Hrel as (Hdb & Hks & Hke). unfold allReleased.
    simpl. rewrite !omap_app. simpl. rewrite !app_nil_r. split_and!; [|done|done].
    destruct Hdb as [(n & e & Hin & He)|(db & Hin)]; [left; exists n, e; split; [|done]|right; exists db];
      apply elem_of_cons; right; apply elem_of_cons; right; apply elem_of_app; by left.
Qed.

(** *** The services and the Keystone endpoints *)

(** Go visits every endpoint once, in some order; a new service has the
    details it was made from. *)
Definition faithfulServices : contract CallE := fun X e =>
  match e in CallE X return X -> Prop with
  | RangeEndpoints es => fun x => x ≡ₚ es
  | NewService d _ _ => fun x => forall s, x = inl s -> rsvc_Details s = d
  | _ => fun _ => True
  end.

(** The services written, with the answers. *)
Definition servicesOf (ev : event CallE) : option (GenericServiceDetails * RE) :=
  match ev with
  | Ev e x =>
      match e in CallE X return X -> option (GenericServiceDetails * RE) with
      | ServiceCreateOrPatch s _ => fun x => Some (rsvc_Details s, x)
      | _ => fun _ => None
      end x
  end.

(** The URLs of the services, by the names of the services. *)
Definition urlOf (ev : event CallE) : option (string * string) :=
  match ev with
  | Ev e x =>
      match e in CallE X return X -> option (string * string) with
      | GetAPIEndpoint s _ _ _ => fun x =>
          match x with inl url => Some (gs_Name (rsvc_Details s), url) | inr _ => None end
      | _ => fun _ => None
      end x
  end.

(** The maps of endpoints given to Keystone. *)
Definition ksEndpointsOf (ev : event CallE) : option (gmap string string) :=
  match ev with
  | Ev e _ => match e with KeystoneEndpointCreateOrPatch _ _ _ eps _ _ => Some eps | _ => None end
  end.

Definition failed (re : RE) : Prop := nonEmpty re.1 = true \/ re.2 <> None.

(** The services of the endpoints [es] with the URLs [us]. *)
Definition exposed (i : Autoscaling) (es : list (Endpoint * EndpointData)) (us : list string)
    (tr : list (event CallE)) : Prop :=
  omap servicesOf tr = (fun '(e, d) => (serviceDetails i e d, (emptyResult, None))) <$> es /\
  omap urlOf tr = zip_with (fun '(e, d) u => (gs_Name (serviceDetails i e d), u)) es us.

Definition publish (acc : gmap string string) (es : list (Endpoint * EndpointData)) (us : list string) :=
  fold_left (fun m '((e, _), u) => <[endpointStr e := u]> m) (zip es us) acc.

Lemma exposeEndpoint_spec e d i :
  wpM faithfulServices (exposeEndpoint e d) i (fun tr i' o =>
    asc_Meta i' = asc_Meta i /\ omap ksEndpointsOf tr = [] /\ exists r, o = Val r /\
    match r with inl u => exposed i [(e, d)] [u] tr | inr re => failed re end).
Proof.
  unfold exposeEndpoint, exposeError, setOverride, setFalse, modifyConds.
  wpm; (split_and!; [done|done|]); eexists; (split; [done|]); simpl in *;
    try (by left); try (by right).
  all: repeat match goal with H : nonEmpty _ = false |- _ => apply nonEmpty_false in H; subst end.
  all: unfold exposed; simpl;
    match goal with H : forall s, inl ?x = inl s -> _ |- _ => by rewrite (H x eq_refl) end.
Qed.

Lemma exposed_meta i i' es us tr : asc_Meta i' = asc_Meta i -> exposed i' es us tr -> exposed i es us tr.
Proof. intros Hm. unfold exposed, serviceDetails, nsOf. by rewrite Hm. Qed.

Lemma exposeLoop_spec es acc i :
  wpM faithfulServices (exposeLoop es acc) i (fun tr i' o =>
    asc_Meta i' = asc_Meta i /\ omap ksEndpointsOf tr = [] /\ exists r, o = Val r /\
    match r with
    | inl m => exists us, length us = length es /\ m = publish acc es us /\ exposed i es us tr
    | inr re => failed re
    end).
Proof.
  revert acc i. induction es as [|[e d] es IH]; intros acc i; simpl.
  { wpm. split_and!; [done|done|]. eexists. split; [done|]. by exists []. }
  wpm_step. eapply wpM_mono; [|exact (exposeEndpoint_spec e d i)].
  intros tr i' o (Hm & Hk & r & -> & Hr). destruct r as [u|re].
  - eapply wpM_mono; [|exact (IH (<[endpointStr e := u]> acc) i')].
    intros tr' i'' o' (Hm' & Hk' & r' & -> & Hr'). split_and!; [congruence|by rewrite omap_app, Hk, Hk'|].
    exists r'. split; [done|]. destruct r' as [m|re]; [|done].
    destruct Hr' as (us & Hl & -> & Hx). exists (u :: us). split_and!; [simpl; lia|done|].
    apply (exposed_meta i i') in Hx as [Hs Hu]; [|done]. destruct Hr as [Hs1 Hu1].
    split; rewrite omap_app; [by rewrite Hs1, Hs|by rewrite Hu1, Hu].
  - wpm. split_and!; [done|by rewrite app_nil_r|]. by exists (inr re).
Qed.

(** The two endpoints, in either order. *)
Lemma exposed_pair i order us tr :
  let data := MkEndpointData AodhAPIPort None "" in
  order ≡ₚ aodhEndpoints -> length us = length order -> exposed i order us tr ->
  exists ui up, publish ∅ order us =
    {[ endpointStr EndpointInternal := ui; endpointStr EndpointPublic := up ]} /\
  omap servicesOf tr ≡ₚ [(serviceDetails i EndpointInternal data, (emptyResult, None));
                         (serviceDetails i EndpointPublic data, (emptyResult, None))] /\
  omap urlOf tr ≡ₚ [(gs_Name (serviceDetails i EndpointInternal data), ui);
                    (gs_Name (serviceDetails i EndpointPublic data), up)].
Proof.
  intros data Hord Hl [Hs Hu].
  assert (endpointStr EndpointInternal <> endpointStr EndpointPublic) as Hne
    by (by intros ?%endpointStr_inj).
  symmetry in Hord. destruct (Permutation_length_2_inv Hord) as [->| ->];
    destruct us as [|u1 [|u2 [|]]]; simplify_eq/=; rewrite Hs, Hu.
  - exists u1, u2. split; [|done]. unfold publish. simpl. by rewrite insert_insert_ne by done.
  - exists u2, u1. split_and!; [done|apply perm_swap|apply perm_swap].
Qed.

(** C40. Both endpoints reach Keystone: whatever the order Go visits the map of
    endpoints in, either a service failed or has to be waited for, and nothing
    is given to Keystone; or exactly the internal and the public service were
    written, with the names, labels, selector and port of their endpoints,
    and the map given to Keystone, which is also recorded in the status, has
    exactly their two URLs. *)
Theorem aodh_endpoints_published i tr i' o :
  runs (exposeAodh i) tr (i', o) -> Forall (keeps faithfulServices) tr ->
  let data := MkEndpointData AodhAPIPort None "" in
  (omap ksEndpointsOf tr = [] /\ exists re, o = Val re /\ failed re) \/
  exists ui up,
    let eps : gmap string string := {[ endpointStr EndpointInternal := ui; endpointStr EndpointPublic := up ]} in
    omap ksEndpointsOf tr = [eps] /\ asct_APIEndpoints (asc_Status i') = Some eps /\
    omap servicesOf tr ≡ₚ [(serviceDetails i EndpointInternal data, (emptyResult, None));
                           (serviceDetails i EndpointPublic data, (emptyResult, None))] /\
    omap urlOf tr ≡ₚ [(gs_Name (serviceDetails i EndpointInternal data), ui);
                      (gs_Name (serviceDetails i EndpointPublic data), up)].
Proof.
  intros Hr Hok data. pattern tr, i', o. apply (runs_wpM faithfulServices exposeAodh i); [|done|done].
  clear Hr Hok tr i' o. unfold exposeAodh. wpm_step. apply wpM_call. intros order Hord. simpl in Hord.
  wpm_step. eapply wpM_mono; [|exact (exposeLoop_spec order ∅ i)].
  intros tr i' o (Hm & Hk & r & -> & Hx). destruct r as [m|re].
  2:{ wpm. left. split; [|by exists re]. simpl. by rewrite app_nil_r. }
  destruct Hx as (us & Hl & -> & Hs & Hu).
  destruct (exposed_pair i order us tr Hord Hl (conj Hs Hu)) as (ui & up & -> & Hsvc & Hurl).
  unfold mirrorInto, markTrue, modifyConds, setAPIEndpoints, setStatus.
  wpm; right; exists ui, up; simpl; rewrite !omap_app, Hk; simpl; rewrite !app_nil_r; done.
Qed.

(** *** The watches *)

(** The watch misses the Autoscaling: the secret of the TransportURL the
    controller created (named after the service ["aodh"], not after the
    object) triggers at most an Autoscaling named ["aodh"], while the
    Telemetry controller names its Autoscaling ["autoscaling"]. *)
Theorem autoscaling_transport_watch_misses o tr reqs key :
  runs (transportURLSecretFn o) tr reqs ->
  (forall ref, ref ∈ meta_OwnerReferences o -> own_Kind ref = "TransportURL" ->
     own_Name ref = transportURLName) ->
  key ∈ reqs -> key_Name key = "aodh".
Proof.
  intros (r & tr' & -> & H) Href Hin. destruct r as [items|e]; destruct H as [-> ->];
    [|by apply not_elem_of_nil in Hin].
  apply list_elem_of_In, in_concat in Hin as (l & (ref & <- & Hr)%in_map_iff & Hl).
  unfold ownerRequests in Hl. destruct (String.eqb_spec (own_Kind ref) "TransportURL") as [Hk|]; [|done].
  apply list_elem_of_In, list_elem_of_omap in Hl as (cr & _ & Hcr).
  destruct (String.eqb_spec (own_Name ref) (meta_Name (asc_Meta cr) +:+ "-transport")) as [Hn|]; simplify_eq.
  simpl. rewrite (Href ref) in Hn; [|by apply list_elem_of_In|done].
  symmetry. exact (append_cancel_r "aodh" _ "-transport" Hn).
Qed.

(** The watch on memcached is exact: a change of a Memcached triggers the
    Autoscalings of its namespace that name it, and no others; if they cannot
    be listed it triggers none. *)
Theorem autoscaling_memcached_watch o tr reqs key :
  runs (memcachedFn o) tr reqs ->
  exists r, tr = [Ev (ListAutoscalings (meta_Namespace o)) r] /\
  (key ∈ reqs <-> exists items cr, r = inl items /\ cr ∈ items /\
     aodh_MemcachedInstance (aodhOf cr) = meta_Name o /\
     key = MkKey (meta_Namespace o) (meta_Name (asc_Meta cr))).
Proof.
  intros (r & tr' & -> & H). exists r. destruct r as [items|e]; destruct H as [-> ->]; (split; [done|]).
  - rewrite list_elem_of_omap. split.
    + intros (cr & Hin & Hcr). destruct (String.eqb_spec (meta_Name o) (aodh_MemcachedInstance (aodhOf cr)));
        simplify_eq. eauto 10.
    + intros (items' & cr & [= <-] & Hin & Hm & ->). exists cr. split; [done|].
      by rewrite Hm, String.eqb_refl.
  - split; [by intros ?%not_elem_of_nil|by intros (? & ? & ? & _)].
Qed.
End Pass.
End AodhFacts.
