(* ===== verification/AutoscalingScenarios.v ===== *)
(** * Scenarios of the Autoscaling controller

    A concrete API server, on which the theorems of [AutoscalingController]
    are applied. *)

From stdpp Require Import gmap strings list.
From Stdlib Require Import ZArith Lia.
From S2P Require Import Prelude Condition Api Libs Reference AutoscalingPkg MetricStoragePkg Operator.
From S2P Require Import AutoscalingController AutoscalingFacts AodhFacts.

Module AutoscalingScenarios.
Import AutoscalingController AutoscalingFacts AodhFacts.

Definition req : NamespacedName := MkKey "openstack" "autoscaling".
Definition fin : string := GetFinalizer "Autoscaling".

Definition autoscaling (del : option Z) (cs : Conditions) : Autoscaling :=
  MkAutoscaling "Autoscaling" (MkMeta "autoscaling" "openstack" ∅ ∅ [fin] del [])
    (asc_Spec sampleAutoscaling) (MkAutoscalingStatus 0 None cs [] "" "" "" 0 None).

(** The API server: everything exists and is ready; [i] is the Autoscaling,
    [job] what the database sync job answers; Go visits maps backwards. *)
Definition world (i : Autoscaling) (job : RE) (X : Type) (e : CallE X) (u : unit) : X * unit :=
  (match e in CallE X return X with
   | GetAutoscaling _ => inl i
   | NewHelper _ => None
   | PatchInstance _ => None
   | GetSecret name _ => (Some (MkSecret name ∅), name +:+ "-hash", None)
   | ReconcileRbac _ _ _ =>
       ([refTrue ServiceAccountReadyCondition (lib "ServiceAccountReadyMessage")], (emptyResult, None))
   | FetchTransportURL _ => inl None
   | CommitTransportURL t =>
       inl (MkTransportURL (tu_Meta t) (tu_RabbitmqClusterName t) "rabbitmq-transport", OperationResultCreated)
   | SetControllerReference _ m => inl m
   | GetMemcached k => inl (MkMemcached (key_Name k) true ["memcached:11211"] ["inet:memcached:11211"])
   | GetHeat k => inl (MkHeat (key_Name k) true)
   | GetKeystoneAPI _ => inl "keystone"
   | GetEndpoint _ _ => inl "http://keystone"
   | EnsureSecrets _ cms env => inl env
   | KeystoneServiceCreateOrPatch _ _ _ _ =>
       (Some [refTrue KeystoneServiceReadyCondition (text "")], (emptyResult, None))
   | CreateOrPatchDBByName _ _ => (emptyResult, None)
   | WaitForDBCreated _ => (emptyResult, None)
   | GetDatabaseHostname _ => "openstack.openstack.svc"
   | DoJob _ _ _ _ _ => (job, (true, "job-hash"))
   | StatefulSetCreateOrPatch _ _ => (1%Z, (emptyResult, None))
   | RangeEndpoints es => reverse es
   | NewService d _ _ => inl (MkRoutedService d "ClusterIP" (gs_Name d +:+ ".openstack.svc"))
   | ServiceCreateOrPatch _ _ => (emptyResult, None)
   | GetAPIEndpoint s _ _ _ => inl ("http://" +:+ rsvc_Hostname s)
   | KeystoneEndpointCreateOrPatch _ _ _ _ _ _ =>
       (Some [refTrue KeystoneEndpointReadyCondition (text "")], (emptyResult, None))
   | GetDatabaseByName name => inl (newMeta name "openstack")
   | DatabaseDeleteFinalizer _ => None
   | GetKeystoneService _ _ => inl (MkMeta "aodh" "openstack" ∅ ∅ [fin] None [])
   | UpdateKeystoneService _ => None
   | GetKeystoneEndpoint _ _ => inr (MkError true "not found")
   | UpdateKeystoneEndpoint _ => None
   | ListAutoscalings _ => inl [i]
   end, u).

Definition done : RE := (emptyResult, None).
Definition traceOf i job := (interp (world i job) (Reconcile req) tt).1.1.
Definition resultOf i job := (interp (world i job) (Reconcile req) tt).1.2.

Lemma autoscaling_scenario_runs i job : runs (Reconcile req) (traceOf i job) (resultOf i job).
Proof.
  unfold traceOf, resultOf. destruct (interp _ _ _) as [[tr o] u] eqn:H. by eapply interp_runs.
Qed.

Definition patched i job : Autoscaling :=
  match omap patchOf (traceOf i job) with (i', _) :: _ => i' | [] => i end.

(** After the first pass: only the Ready condition. *)
Definition young : Autoscaling :=
  autoscaling None (Some [refUnknown ReadyCondition InitReason (lib "ReadyInitMessage")]).

(** The object the pass over [young] leaves: its hash is recorded. *)
Definition settled : Autoscaling := patched young done.
Definition deleted : Autoscaling := autoscaling (Some 3%Z) (Some []).

Lemma autoscaling_patched_last_witness : readyOk (conds (patched settled done)).
Proof.
  destruct (autoscaling_patched_last req _ _ settled (autoscaling_scenario_runs settled done) eq_refl)
    as [(err & H & _)|(i' & err & re & pre & _ & H & Hr & _)].
  - apply interp_keeps. intros X [] u; simpl; eauto.
  - exfalso. apply (f_equal length) in H. vm_compute in H. discriminate H.
  - unfold patched. rewrite H. exact Hr.
Defined.

(** A secret was missing once; the pass that followed recorded the hash. *)
Definition missing : Condition :=
  refFalse InputReadyCondition RequestedReason SeverityInfo (lib "InputReadyWaitingMessage").
Definition waiting : Autoscaling :=
  patched (autoscaling None (Some [missing;
    refTrue ServiceAccountReadyCondition (lib "ServiceAccountReadyMessage")])) done.

(** Now everything is there and is deployed, and still not Ready. *)
Lemma autoscaling_input_never_recovers_witness :
  omap sfsetOf (traceOf waiting done) <> [] /\ Autoscaling_IsReady (patched waiting done) = false.
Proof.
  split; [vm_compute; discriminate|].
  apply (autoscaling_input_never_recovers req _ _ waiting missing
    (patched waiting done) None (autoscaling_scenario_runs waiting done) eq_refl).
  - apply interp_keeps. by intros X [] u; simpl; auto.
  - vm_compute. reflexivity.
  - discriminate.
  - apply list_elem_of_In. vm_compute. left. reflexivity.
Defined.

(** The StatefulSet in the pass over [settled]: what was called before it. *)
Fixpoint splitAt {A} (f : A -> bool) (l : list A) : list A * list A :=
  match l with
  | [] => ([], [])
  | x :: l => if f x then ([], x :: l) else let '(a, b) := splitAt f l in (x :: a, b)
  end.
Lemma splitAt_spec {A} (f : A -> bool) l : existsb f l = true ->
  exists pre x post, splitAt f l = (pre, x :: post) /\ l = pre ++ x :: post /\ f x = true.
Proof.
  induction l as [|x l IH]; simpl; [discriminate|]. destruct (f x) eqn:Hx; simpl; intros H.
  - by exists [], x, l.
  - destruct (IH H) as (pre & y & post & -> & -> & Hy). by exists (x :: pre), y, post.
Qed.
Definition isSfset (ev : event CallE) : bool :=
  match sfsetOf ev with Some _ => true | None => false end.

Lemma autoscaling_statefulset_gated_witness :
  exists hash, inputHashOf settled = Some hash /\
  (DbSyncJob settled serviceLabels, (emptyResult, None)) ∈ omap jobOf (splitAt isSfset (traceOf settled done)).1.
Proof.
  destruct (splitAt_spec isSfset (traceOf settled done)) as (pre & ev & post & -> & Htr & Hev);
    [vm_compute; reflexivity|].
  unfold isSfset in Hev. destruct (sfsetOf ev) as [def|] eqn:Hdef; [|discriminate Hev].
  destruct (autoscaling_statefulset_gated req _ _ settled pre ev post def
    (autoscaling_scenario_runs settled done) eq_refl Htr Hdef) as ((hash & i1 & Hh & _) & _ & Hj).
  exists hash. split; [exact Hh|exact Hj].
Defined.

(** The job fails, and the library asks for a retry. *)
Definition retry : Result := MkResult false (seconds 5).
Definition failing : RE := (retry, Some (Errorf "job failed")).

Lemma autoscaling_dbsync_error_dropped_witness : resultOf settled failing = Val (retry, None).
Proof.
  apply (autoscaling_dbsync_error_dropped req _ _ settled (DbSyncJob settled serviceLabels) retry
    (Some (Errorf "job failed")) (patched settled failing) None (autoscaling_scenario_runs settled failing) eq_refl).
  - apply list_elem_of_In. vm_compute. left. reflexivity.
  - reflexivity.
  - apply list_elem_of_In. vm_compute. left. reflexivity.
Defined.

(** The first job is started with a configuration without a host. *)
Lemma autoscaling_config_precedes_hostname_witness :
  omap jobOf (traceOf settled done) <> [] /\
  forall cms, cms ∈ omap templatesOf (traceOf settled done) -> exists t password, t ∈ cms /\
    tpl_ConfigOptions t !! "DatabaseConnection" = Some (databaseConnection "aodh" password "").
Proof.
  split; [vm_compute; discriminate|]. intros cms Hin.
  destruct (proj1 (autoscaling_config_precedes_hostname req _ _ settled
    (autoscaling_scenario_runs settled done) eq_refl) cms Hin) as (t & password & Ht & _ & H).
  exists t, password. split; [exact Ht|]. rewrite H. vm_compute. reflexivity.
Defined.

Lemma autoscaling_delete_order_witness :
  ~ (fin ∈ meta_Finalizers (asc_Meta (patched deleted done))) /\ allReleased (traceOf deleted done).
Proof.
  assert (fin ∉ meta_Finalizers (asc_Meta (patched deleted done))) as Hn
    by (apply (bool_decide_unpack _); by vm_compute).
  split; [exact Hn|].
  apply (autoscaling_delete_order req _ (resultOf deleted done) deleted (patched deleted done) None
    (autoscaling_scenario_runs deleted done) eq_refl eq_refl).
  - discriminate.
  - apply list_elem_of_In. vm_compute. left. reflexivity.
  - apply (bool_decide_unpack _). by vm_compute.
  - exact Hn.
Defined.

Lemma aodh_endpoints_published_witness :
  exists ui up, omap ksEndpointsOf (interp (world settled done) (exposeAodh settled) tt).1.1 =
    [ {[ "internal" := ui; "public" := up ]} ].
Proof.
  assert (length (omap ksEndpointsOf (interp (world settled done) (exposeAodh settled) tt).1.1) = 1) as Hl
    by (vm_compute; reflexivity).
  destruct (interp (world settled done) (exposeAodh settled) tt) as [[tr [i' o]] u] eqn:H.
  assert (Forall (keeps faithfulServices) tr) as Hk.
  { pose proof (interp_keeps faithfulServices (world settled done) (exposeAodh settled) tt) as Hk.
    rewrite H in Hk. apply Hk. intros X [] v; simpl; auto; [apply reverse_Permutation|].
    by intros s [= <-]. }
  destruct (aodh_endpoints_published settled tr i' o (interp_runs _ _ _ _ _ _ H) Hk)
    as [[Hn _]|(ui & up & He & _)].
  - exfalso. cbn [fst] in Hl. rewrite Hn in Hl. discriminate Hl.
  - exists ui, up. exact He.
Defined.

(** A secret owned by the transport URL the controller created, while the only
    Autoscaling has the name the Telemetry controller gives it. *)
Definition transportSecret : ObjectMeta :=
  MkMeta "rabbitmq-transport" "openstack" ∅ ∅ [] None [MkOwnerRef "TransportURL" transportURLName].

Lemma autoscaling_transport_watch_misses_witness :
  ~ (MkKey "openstack" "autoscaling" ∈ (interp (world young done) (transportURLSecretFn transportSecret) tt).1.2).
Proof.
  destruct (interp (world young done) (transportURLSecretFn transportSecret) tt) as [[tr reqs] u] eqn:H.
  intros Hin. simpl in Hin.
  assert (key_Name (MkKey "openstack" "autoscaling") = "aodh") as Hk.
  { apply (autoscaling_transport_watch_misses transportSecret tr reqs (MkKey "openstack" "autoscaling")
      (interp_runs _ _ _ _ _ _ H)); [|exact Hin].
    intros ref ->%list_elem_of_singleton _. reflexivity. }
  discriminate Hk.
Defined.

(** The answers to the listings. *)
Definition listed (ev : event CallE) : option (list Autoscaling + GoError) :=
  match ev with
  | Ev e x =>
      match e in CallE X return X -> option (list Autoscaling + GoError) with
      | ListAutoscalings _ => Some
      | _ => fun _ => None
      end x
  end.

Lemma autoscaling_memcached_watch_witness :
  MkKey "openstack" "autoscaling" ∈ (interp (world young done) (memcachedFn (newMeta "memcached" "openstack")) tt).1.2.
Proof.
  destruct (interp (world young done) (memcachedFn (newMeta "memcached" "openstack")) tt)
    as [[tr reqs] u] eqn:H.
  destruct (autoscaling_memcached_watch _ tr reqs (MkKey "openstack" "autoscaling") (interp_runs _ _ _ _ _ _ H))
    as (r & Htr & Hiff).
  apply Hiff. exists [young], young.
  apply (f_equal (fun x => x.1.1)) in H. simpl in H. rewrite <-H in Htr.
  apply (f_equal (omap listed)) in Htr. simpl in Htr. injection Htr as <-.
  split; [reflexivity|]. split; [left|]. split; reflexivity.
Defined.
End AutoscalingScenarios.
