(* ===== verification/Main.v ===== *)
(** * The entry point ([main.go]) and what the controllers register

    [init] registers the API groups with the scheme, [main] creates the
    manager, registers the five controllers, installs the defaults of the
    webhooks, registers the webhooks unless the environment disables them, and
    starts the manager.  What a [SetupWithManager] or [SetupWebhookWithManager]
    hands to controller-runtime is a value ([Builder], the kind of a webhook);
    handing it over is a call. *)

From stdpp Require Import gmap strings list.
From Stdlib Require Import ZArith Lia.
From S2P Require Import Prelude Condition Api Libs Reference Webhooks Telemetry.

#[local] Open Scope go_scope.

Module Main.
Import Webhooks.

(** ** Kinds, by the API group that declares them *)
Inductive ApiGroup :=
| clientgoscheme | keystonev1 | rabbitmqv1 | ansibleeev1 | telemetryv1beta1 | obov1 | monv1
| mariadbv1beta1 | memcachedv1 | heatv1 | dataplanev1 | infranetworkv1.

#[global] Instance ApiGroup_eq_dec : EqDecision ApiGroup.
Proof. solve_decision. Defined.

Record Kind := MkKind { kind_Group : ApiGroup; kind_Name : string }.

#[global] Instance Kind_eq_dec : EqDecision Kind.
Proof. solve_decision. Defined.

(** [SchemeBuilder.Register(&Kind{}, &KindList{})] *)
Definition Register (names : list string) (kinds : list Kind) : list Kind :=
  kinds ++ (MkKind telemetryv1beta1 <$> names).

(** The [init] functions of the types files. *)
Definition autoscaling_init : list Kind -> list Kind := Register ["Autoscaling"; "AutoscalingList"].
Definition ceilometer_init : list Kind -> list Kind := Register ["Ceilometer"; "CeilometerList"].
Definition logging_init : list Kind -> list Kind := Register ["Logging"; "LoggingList"].
Definition metricstorage_init : list Kind -> list Kind := Register ["MetricStorage"; "MetricStorageList"].
Definition telemetry_init : list Kind -> list Kind := Register ["Telemetry"; "TelemetryList"].

(** The builder starts empty; the files of a package are initialised in the
    order of their names. *)
Definition SchemeBuilder : list Kind :=
  fold_left (fun kinds init => init kinds)
    [autoscaling_init; ceilometer_init; logging_init; metricstorage_init; telemetry_init] [].

(** ** What a controller registers *)

(** The map function of a watch, by its name in the source. *)
Inductive MapFn := transportURLSecretFn | memcachedFn.

Record Builder := MkBuilder {
  For : Kind;
  Owns : list Kind;
  Watches : list (Kind * MapFn)
}.

Definition core (k : string) : Kind := MkKind clientgoscheme k.
Definition telemetryKind (k : string) : Kind := MkKind telemetryv1beta1 k.

Definition TelemetryReconciler_SetupWithManager : Builder := {|
  For := telemetryKind "Telemetry";
  Owns := [telemetryKind "Ceilometer"; telemetryKind "Autoscaling"; telemetryKind "MetricStorage"];
  Watches := [] |}.

Definition CeilometerReconciler_SetupWithManager : Builder := {|
  For := telemetryKind "Ceilometer";
  Owns := [MkKind keystonev1 "KeystoneService"; core "StatefulSet"; core "ConfigMap"; core "Service";
    MkKind rabbitmqv1 "TransportURL"; core "ServiceAccount"; core "Role"; core "RoleBinding"];
  Watches := [(core "Secret", transportURLSecretFn)] |}.

Definition AutoscalingReconciler_SetupWithManager : Builder := {|
  For := telemetryKind "Autoscaling";
  Owns := [core "StatefulSet"; core "ConfigMap"; core "Service"; core "Secret"; core "ServiceAccount";
    MkKind keystonev1 "KeystoneService"; MkKind keystonev1 "KeystoneEndpoint";
    MkKind mariadbv1beta1 "MariaDBDatabase"; MkKind rabbitmqv1 "TransportURL"; core "Role";
    core "RoleBinding"];
  Watches := [(core "Secret", transportURLSecretFn);
    (MkKind memcachedv1 "Memcached", memcachedFn)] |}.

Definition LoggingReconciler_SetupWithManager : Builder := {|
  For := telemetryKind "Logging";
  Owns := [core "Secret"];
  Watches := [] |}.

(** [Build] instead of [Complete], to keep the controller: its other watches
    are added by [ensureWatches]. *)
Definition MetricStorageReconciler_SetupWithManager : Builder := {|
  For := telemetryKind "MetricStorage";
  Owns := [];
  Watches := [] |}.

(** [SetupWebhookWithManager]: the kind the webhook is for. *)
Definition Telemetry_SetupWebhookWithManager : Kind := telemetryKind "Telemetry".
Definition Ceilometer_SetupWebhookWithManager : Kind := telemetryKind "Ceilometer".
Definition Autoscaling_SetupWebhookWithManager : Kind := telemetryKind "Autoscaling".
Definition MetricStorage_SetupWebhookWithManager : Kind := telemetryKind "MetricStorage".

(** ** Flags and options *)
Record Flags := MkFlags {
  enableHTTP2 : bool;
  metricsAddr : string;
  probeAddr : string;
  enableLeaderElection : bool
}.

(** The values the variables are declared with. *)
Definition defaultFlags : Flags := MkFlags false ":8083" ":8084" false.

Record Options := MkOptions {
  MetricsBindAddress : string;
  Port : Z;
  HealthProbeBindAddress : string;
  LeaderElection : bool;
  LeaderElectionID : string
}.

Definition managerOptions (f : Flags) : Options :=
  MkOptions (metricsAddr f) 9443 (probeAddr f) (enableLeaderElection f) "fa1814a2.openstack.org".

(** A [*tls.Config], as far as the code reads or writes it. *)
Record TLSConfig := MkTLSConfig { NextProtos : list string }.

Definition disableHTTP2 (enableHTTP2 : bool) (c : TLSConfig) : TLSConfig :=
  if enableHTTP2 then c else MkTLSConfig ["http/1.1"].

Inductive Checker := Ping | StartedChecker.

(** [strings.ToLower] on the ASCII letters: no other character is mapped to
    one of the letters of the text the result is compared with. *)
Definition lowerAscii (c : Ascii.ascii) : Ascii.ascii :=
  let n := Ascii.nat_of_ascii c in
  if (65 <=? n)%nat && (n <=? 90)%nat then Ascii.ascii_of_nat (n + 32) else c.
Fixpoint ToLower (s : string) : string :=
  match s with
  | EmptyString => EmptyString
  | String c s => String (lowerAscii c) (ToLower s)
  end.

Definition webhooksEnabled (v : string) : bool := negb (String.eqb (ToLower v) "false").

(** ** External calls *)

(** Those that may fail. *)
Inductive Fallible :=
| AddToScheme (g : ApiGroup)
| GetConfigOrDie
| NewManager (o : Options)
| GetConfig
| NewForConfig
| Complete (b : Builder)
| CompleteWebhook (k : Kind)
| AddHealthzCheck (name : string) (c : Checker)
| AddReadyzCheck (name : string) (c : Checker)
| Start.

Inductive CallE : Type -> Type :=
| Try (c : Fallible) : CallE (option GoError)
| FlagParse (vars : Flags) : CallE Flags
| Getenv (name : string) : CallE string
| SetTLSOpts (opts : list (TLSConfig -> TLSConfig)) : CallE unit.

(** The package variables the process keeps; the result is the exit code. *)
Abbreviation OM := (M CallE Globals).

(** ** init *)

(** [utilruntime.Must(m.AddToScheme(scheme))] *)
Definition Must (g : ApiGroup) : OM unit :=
  let* err := call (Try (AddToScheme g)) in
  match err with Some e => panic (err_text e) | None => ret tt end.

Fixpoint mustAll (gs : list ApiGroup) : OM unit :=
  match gs with
  | [] => ret tt
  | g :: gs => Must g ;;; mustAll gs
  end.

Definition schemeGroups : list ApiGroup :=
  [clientgoscheme; keystonev1; rabbitmqv1; ansibleeev1; telemetryv1beta1; obov1; monv1;
   mariadbv1beta1; memcachedv1; heatv1; dataplanev1; infranetworkv1].

Definition init : OM unit := mustAll schemeGroups.

(** ** main *)

(** [if err = ...; err != nil { setupLog.Error(...); os.Exit(1) }] *)
Definition orExit (c : Fallible) (rest : OM Z) : OM Z :=
  let* err := call (Try c) in
  match err with Some _ => ret 1%Z | None => rest end.

(** The same for a list of calls. *)
Fixpoint allOrExit (cs : list Fallible) (rest : OM Z) : OM Z :=
  match cs with
  | [] => rest
  | c :: cs => orExit c (allOrExit cs rest)
  end.

(** In the order of [main]. *)
Definition controllers : list Builder :=
  [TelemetryReconciler_SetupWithManager; CeilometerReconciler_SetupWithManager;
   AutoscalingReconciler_SetupWithManager; LoggingReconciler_SetupWithManager;
   MetricStorageReconciler_SetupWithManager].

Definition webhooks : list Kind :=
  [Telemetry_SetupWebhookWithManager; Ceilometer_SetupWebhookWithManager;
   Autoscaling_SetupWebhookWithManager; MetricStorage_SetupWebhookWithManager].

Section Entry.
Context `{C : CommonLib}.

(** The three calls that install the defaults. *)
Definition installDefaults (g : Globals) : Globals :=
  SetupDefaultsAutoscaling (SetupDefaultsCeilometer (SetupDefaultsTelemetry g)).

(** From the health checks on. *)
Definition serve (checker : Checker) : OM Z :=
  allOrExit [AddHealthzCheck "healthz" checker; AddReadyzCheck "readyz" checker; Start] (ret 0%Z).

Definition main : OM Z :=
  let* f := call (FlagParse defaultFlags) in
  allOrExit ([GetConfigOrDie; NewManager (managerOptions f); GetConfig; NewForConfig] ++
             (Complete <$> controllers)) (
  modify installDefaults ;;;
  let* v := call (Getenv "ENABLE_WEBHOOKS") in
  if webhooksEnabled v then
    call (SetTLSOpts [disableHTTP2 (enableHTTP2 f)]) ;;;
    allOrExit (CompleteWebhook <$> webhooks) (serve StartedChecker)
  else serve Ping).

(** The process: [init] before [main]. *)
Definition process : OM Z := init ;;; main.

(** ** Observations on a trace *)
Definition tryOf (ev : event CallE) : option Fallible :=
  match ev with Ev e _ => match e with Try c => Some c | _ => None end end.
Definition groupOf (ev : event CallE) : option ApiGroup :=
  match tryOf ev with Some (AddToScheme g) => Some g | _ => None end.
Definition controllerOf (ev : event CallE) : option Builder :=
  match tryOf ev with Some (Complete b) => Some b | _ => None end.
Definition webhookOf (ev : event CallE) : option Kind :=
  match tryOf ev with Some (CompleteWebhook k) => Some k | _ => None end.
Definition checkOf (ev : event CallE) : option (string * Checker) :=
  match tryOf ev with
  | Some (AddHealthzCheck n c) | Some (AddReadyzCheck n c) => Some (n, c) | _ => None
  end.
Definition managerOf (ev : event CallE) : option Options :=
  match tryOf ev with Some (NewManager o) => Some o | _ => None end.
Definition startOf (ev : event CallE) : option unit :=
  match tryOf ev with Some Start => Some tt | _ => None end.
Definition tlsOf (ev : event CallE) : option (list (TLSConfig -> TLSConfig)) :=
  match ev with Ev e _ => match e with SetTLSOpts fs => Some fs | _ => None end end.
Definition flagsOf (ev : event CallE) : option Flags :=
  match ev with
  | Ev e x => match e in CallE X return X -> option Flags with
              | FlagParse _ => Some | _ => fun _ => None end x
  end.
Definition envOf (ev : event CallE) : option string :=
  match ev with
  | Ev e x => match e in CallE X return X -> option string with
              | Getenv _ => Some | _ => fun _ => None end x
  end.

(** The call answered with an error. *)
Definition failed (ev : event CallE) : bool :=
  match ev with
  | Ev e x => match e in CallE X return X -> bool with
              | Try _ => fun x => match x with Some _ => true | None => false end
              | _ => fun _ => false end x
  end.

(** The kinds a controller's registration mentions. *)
Definition kindsOf (b : Builder) : list Kind := For b :: Owns b ++ (Watches b).*1.

(** ** Runs of the process *)

(** Calls that all succeed. *)
Definition oks (cs : list Fallible) : list (event CallE) := (fun c => Ev (Try c) None) <$> cs.

(** One of [cs] fails, those before it succeed. *)
Definition stopsAt (cs : list Fallible) (tr : list (event CallE)) : Prop :=
  exists l c r err, cs = l ++ c :: r /\ tr = oks l ++ [Ev (Try c) (Some err)].

Lemma stopsAt_here c cs err : stopsAt (c :: cs) [Ev (Try c) (Some err)].
Proof. by exists [], c, cs, err. Qed.
Lemma stopsAt_later c cs tr : stopsAt cs tr -> stopsAt (c :: cs) (Ev (Try c) None :: tr).
Proof. intros (l & c' & r & err & -> & ->). by exists (c :: l), c', r, err. Qed.

Lemma allOrExit_wp cs rest s (Q : list (event CallE) -> Globals -> outcome Z -> Prop) :
  (forall tr, stopsAt cs tr -> Q tr s (Val 1%Z)) ->
  wpM anyAnswer rest s (fun tr => Q (oks cs ++ tr)) ->
  wpM anyAnswer (allOrExit cs rest) s Q.
Proof.
  revert Q. induction cs as [|c cs IH]; intros Q Hstop Hrest; [exact Hrest|].
  simpl. unfold orExit. wpm_step. wpm_step. wpm_step.
  - wpm_step. apply Hstop, stopsAt_here.
  - apply IH; [|exact Hrest]. intros tr Htr. by apply Hstop, stopsAt_later.
Qed.

Lemma mustAll_wp gs s (Q : list (event CallE) -> Globals -> outcome unit -> Prop) :
  (forall tr w, stopsAt (AddToScheme <$> gs) tr -> Q tr s (Panicked w)) ->
  Q (oks (AddToScheme <$> gs)) s (Val tt) ->
  wpM anyAnswer (mustAll gs) s Q.
Proof.
  revert Q. induction gs as [|g gs IH]; intros Q Hstop Hrest; [exact Hrest|].
  simpl. unfold Must. wpm_step. wpm_step. wpm_step. wpm_step.
  - wpm_step. apply Hstop, stopsAt_here.
  - wpm_step. apply IH; [|exact Hrest]. intros tr w Htr. by apply Hstop, stopsAt_later.
Qed.

(** The calls before [Start], with the answers [f] and [v] of the flags and
    the environment. *)
Definition beforeDefaults (f : Flags) : list Fallible :=
  [GetConfigOrDie; NewManager (managerOptions f); GetConfig; NewForConfig] ++ (Complete <$> controllers).
Definition checker (v : string) : Checker := if webhooksEnabled v then StartedChecker else Ping.
Definition checks (v : string) : list Fallible :=
  [AddHealthzCheck "healthz" (checker v); AddReadyzCheck "readyz" (checker v)].
Definition schemeDone : list (event CallE) := oks (AddToScheme <$> schemeGroups).
Definition controllersDone (f : Flags) : list (event CallE) :=
  schemeDone ++ Ev (FlagParse defaultFlags) f :: oks (beforeDefaults f).
Definition webhooksDone (f : Flags) (v : string) : list (event CallE) :=
  controllersDone f ++ Ev (Getenv "ENABLE_WEBHOOKS") v ::
  (if webhooksEnabled v
   then Ev (SetTLSOpts [disableHTTP2 (enableHTTP2 f)]) tt :: oks (CompleteWebhook <$> webhooks) else []).
Definition prepared (f : Flags) (v : string) : list (event CallE) := webhooksDone f v ++ oks (checks v).

(** How a process ends: after a complete start, with the answer of [Start]; or
    at the first call that fails, before the manager is started. *)
Definition ends (g : Globals) (tr : list (event CallE)) (g' : Globals) (o : outcome Z) : Prop :=
  (exists f v err, tr = prepared f v ++ [Ev (Try Start) err] /\ g' = installDefaults g /\
     o = Val (match err with Some _ => 1%Z | None => 0%Z end)) \/
  (exists l ev, tr = l ++ [ev] /\ Forall (fun ev => failed ev = false) l /\ failed ev = true /\
     omap startOf tr = [] /\
     match groupOf ev with Some _ => exists w, o = Panicked w | None => o = Val 1%Z end).

Lemma oks_quiet cs : Forall (fun ev => failed ev = false) (oks cs).
Proof. by apply Forall_fmap, Forall_true. Qed.

Definition quiet (tr : list (event CallE)) : Prop :=
  Forall (fun ev => failed ev = false) tr /\ omap startOf tr = [].

Lemma omap_startOf_oks cs : Start ∉ cs -> omap startOf (oks cs) = [].
Proof.
  intros Hs. apply omap_None, Forall_fmap, Forall_forall. intros c Hc. simpl.
  by destruct c.
Qed.
Lemma oks_quiet' cs : Start ∉ cs -> quiet (oks cs).
Proof. split; [apply oks_quiet|by apply omap_startOf_oks]. Qed.

Lemma quiet_app tr tr' : quiet tr -> quiet tr' -> quiet (tr ++ tr').
Proof.
  intros [Hq Hs] [Hq' Hs']. split; [by apply Forall_app|]. by rewrite omap_app, Hs, Hs'.
Qed.
Lemma quiet_cons ev tr : failed ev = false -> startOf ev = None -> quiet tr -> quiet (ev :: tr).
Proof. intros Hf Hs [Hq Hs']. split; [by constructor|]. cbn. by rewrite Hs. Qed.

(** A failing call after a quiet beginning ends the process. *)
Lemma stopsAt_ends pre cs tr g g' o :
  quiet pre -> Start ∉ cs -> stopsAt cs tr ->
  Forall (fun c => match c with
                   | AddToScheme _ => exists w, o = Panicked w
                   | _ => o = Val 1%Z end) cs ->
  ends g (pre ++ tr) g' o.
Proof.
  intros [Hq Hs] Hn (l & c & r & err & -> & ->) Ho. right.
  exists (pre ++ oks l), (Ev (Try c) (Some err)). split_and!.
  - by rewrite app_assoc.
  - apply Forall_app. split; [done|apply oks_quiet].
  - done.
  - rewrite !omap_app, Hs, omap_startOf_oks by set_solver. simpl. destruct c; try done. set_solver.
  - rewrite Forall_forall in Ho. specialize (Ho c). unfold groupOf. simpl.
    destruct c; apply Ho; set_solver.
Qed.

Lemma schemeDone_quiet : quiet schemeDone.
Proof. apply oks_quiet'. set_solver. Qed.
Lemma controllersDone_quiet f : quiet (controllersDone f).
Proof.
  apply quiet_app; [apply schemeDone_quiet|]. apply quiet_cons; [done..|]. apply oks_quiet'. set_solver.
Qed.
Lemma webhooksDone_quiet f v : quiet (webhooksDone f v).
Proof.
  apply quiet_app; [apply controllersDone_quiet|]. apply quiet_cons; [done..|].
  destruct (webhooksEnabled v); [|done]. apply quiet_cons; [done..|]. apply oks_quiet'. set_solver.
Qed.

(** From the health checks on. *)
Lemma serve_ends f v g :
  wpM anyAnswer (serve (checker v)) (installDefaults g)
    (fun tr g' o => ends g (webhooksDone f v ++ tr) g' o).
Proof.
  apply (allOrExit_wp (checks v) (orExit Start (ret 0%Z))).
  - intros tr Htr. eapply stopsAt_ends; [apply webhooksDone_quiet| |done|by repeat constructor]. set_solver.
  - unfold orExit. wpm_step. wpm_step.
    wpm_step; wpm_step; left; eexists f, v, _;
      (split; [unfold prepared; by rewrite <-app_assoc|done]).
Qed.

Lemma process_ends g : wpM anyAnswer process g (ends g).
Proof.
  unfold process, init. wpm_step. apply mustAll_wp.
  { intros tr w Htr. eapply (stopsAt_ends []); [done| |exact Htr|].
    - set_solver.
    - apply Forall_fmap, Forall_true. simpl. eauto. }
  unfold main. wpm_step. wpm_step. rename x into f.
  apply (allOrExit_wp (beforeDefaults f)).
  { intros tr Htr. rewrite (app_assoc schemeDone [_] tr).
    eapply stopsAt_ends; [| |exact Htr|by repeat constructor]; [|set_solver].
    apply quiet_app; [apply schemeDone_quiet|split; [by repeat constructor|done]]. }
  wpm_step. wpm_step. wpm_step. wpm_step. rename x into v.
  pose proof (serve_ends f v g) as Hserve. unfold webhooksDone, checker in Hserve.
  destruct (webhooksEnabled v) eqn:Hv.
  - wpm_step. wpm_step. destruct x. apply allOrExit_wp.
    + intros tr Htr.
      replace (_ ++ _) with ((controllersDone f ++ [Ev (Getenv "ENABLE_WEBHOOKS") v;
        Ev (SetTLSOpts [disableHTTP2 (enableHTTP2 f)]) tt]) ++ tr)
        by (unfold controllersDone; rewrite <-!app_assoc; done).
      eapply stopsAt_ends; [| |exact Htr|by repeat constructor]; [|set_solver].
      apply quiet_app; [apply controllersDone_quiet|split; [by repeat constructor|done]].
    + eapply wpM_mono; [|exact Hserve]. intros tr g' o. unfold controllersDone. by rewrite <-!app_assoc.
  - eapply wpM_mono; [|exact Hserve]. intros tr g' o. unfold controllersDone. by rewrite <-!app_assoc.
Qed.

Lemma prepared_observed f v err :
  let tr := prepared f v ++ [Ev (Try Start) err] in
  omap flagsOf tr = [f] /\ omap envOf tr = [v] /\ omap managerOf tr = [managerOptions f] /\
  omap groupOf tr = schemeGroups /\ omap controllerOf tr = controllers /\
  omap webhookOf tr = (if webhooksEnabled v then webhooks else []) /\
  omap tlsOf tr = (if webhooksEnabled v then [[disableHTTP2 (enableHTTP2 f)]] else []) /\
  omap checkOf tr = [("healthz", checker v); ("readyz", checker v)] /\ omap startOf tr = [tt].
Proof. unfold prepared, webhooksDone. destruct (webhooksEnabled v); by split_and!. Qed.

Lemma prepared_quiet f v : quiet (prepared f v).
Proof. apply quiet_app; [apply webhooksDone_quiet|]. apply oks_quiet'. set_solver. Qed.

Lemma failed_last l ev l' ev' r :
  Forall (fun ev => failed ev = false) l -> l ++ [ev] = l' ++ ev' :: r -> failed ev' = true -> r = [].
Proof.
  intros Hq He Hf. destruct r as [|ev0 r _] using rev_ind; [done|].
  rewrite app_comm_cons, app_assoc in He. apply app_inj_tail in He as [-> _].
  apply Forall_app in Hq as [_ Hq]. apply Forall_cons in Hq as [Hq _]. congruence.
Qed.

(** What wakes a controller, by name: its own kind, the kinds it owns and
    the kinds it watches. *)
Definition wokenBy (b : Builder) : string * list string * list string :=
  (kind_Name (For b), kind_Name <$> Owns b, kind_Name <$> (Watches b).*1).

(** The images the defaulting webhooks fill in. *)
Definition telemetryImages (d : TelemetryDefaults) : list string :=
  [td_CentralContainerImageURL d; td_NotificationContainerImageURL d; td_SgCoreContainerImageURL d;
   td_ComputeContainerImageURL d; td_IpmiContainerImageURL d; td_AodhAPIContainerImageURL d;
   td_AodhEvaluatorContainerImageURL d; td_AodhNotifierContainerImageURL d;
   td_AodhListenerContainerImageURL d].
Definition childImages (g : Globals) : list string :=
  let c := ceilometerDefaults g in let a := autoscalingDefaults g in
  [cd_CentralContainerImageURL c; cd_NotificationContainerImageURL c; cd_SgCoreContainerImageURL c;
   cd_ComputeContainerImageURL c; cd_IpmiContainerImageURL c; ad_AodhAPIContainerImageURL a;
   ad_AodhEvaluatorContainerImageURL a; ad_AodhNotifierContainerImageURL a;
   ad_AodhListenerContainerImageURL a].

(** The defaults are installed: the webhook of the Telemetry and those of its
    children have the same images, and none is empty unless the environment
    says so. *)
Definition installed (g : Globals) : Prop :=
  childImages g = telemetryImages (telemetryDefaults g) /\
  ((forall k d, d <> "" -> GetEnvVar k d <> "") ->
   Forall (fun i => i <> "") (td_NodeExporterContainerImageURL (telemetryDefaults g) ::
     telemetryImages (telemetryDefaults g))).

Lemma installDefaults_installed g : installed (installDefaults g).
Proof. split; [done|]. intros Henv. repeat constructor; apply Henv; done. Qed.

(** C15. Startup is all or nothing.  In every run of the process a call that
    fails is the last one, and the exit code is 0 exactly when none fails
    (otherwise it is 1, or a panic of [init] when an API group could not be
    registered).  If the manager is started at all, then once, with the
    options the flags give, after the twelve API groups and the controllers of
    Telemetry, Ceilometer, Autoscaling, Logging and MetricStorage, each for
    its kind and woken by the kinds it owns and watches, every one of which is
    in one of the groups (and registered there, if the group is the
    operator's own); after the webhooks of Telemetry, Ceilometer, Autoscaling
    and MetricStorage, with HTTP/2 off unless a flag asks for it, or without
    any webhook if ENABLE_WEBHOOKS says false in whatever case; and after both
    probes, whose checker waits for the webhook server only if there are
    webhooks.  The images of the webhooks are installed then. *)
Theorem operator_start_is_complete g tr g' o :
  runs (process g) tr (g', o) ->
  (forall l ev r, tr = l ++ ev :: r -> failed ev = true ->
     r = [] /\ match groupOf ev with Some _ => exists w, o = Panicked w | None => o = Val 1%Z end) /\
  (Forall (fun ev => failed ev = false) tr <-> o = Val 0%Z) /\
  (omap startOf tr <> [] -> omap startOf tr = [tt] /\ installed g' /\
     exists f v, omap flagsOf tr = [f] /\ omap envOf tr = [v] /\
     omap managerOf tr = [MkOptions (metricsAddr f) 9443 (probeAddr f) (enableLeaderElection f)
                            "fa1814a2.openstack.org"] /\
     omap groupOf tr =
       [clientgoscheme; keystonev1; rabbitmqv1; ansibleeev1; telemetryv1beta1; obov1; monv1;
        mariadbv1beta1; memcachedv1; heatv1; dataplanev1; infranetworkv1] /\
     wokenBy <$> omap controllerOf tr =
       [("Telemetry", ["Ceilometer"; "Autoscaling"; "MetricStorage"], []);
        ("Ceilometer", ["KeystoneService"; "StatefulSet"; "ConfigMap"; "Service"; "TransportURL";
           "ServiceAccount"; "Role"; "RoleBinding"], ["Secret"]);
        ("Autoscaling", ["StatefulSet"; "ConfigMap"; "Service"; "Secret"; "ServiceAccount";
           "KeystoneService"; "KeystoneEndpoint"; "MariaDBDatabase"; "TransportURL"; "Role";
           "RoleBinding"], ["Secret"; "Memcached"]);
        ("Logging", ["Secret"], []); ("MetricStorage", [], [])] /\
     Forall (fun b => Forall (fun k => kind_Group k ∈ omap groupOf tr /\
       (kind_Group k = telemetryv1beta1 -> k ∈ SchemeBuilder)) (kindsOf b)) (omap controllerOf tr) /\
     (if String.eqb (ToLower v) "false" then
        omap webhookOf tr = [] /\ omap tlsOf tr = [] /\
        omap checkOf tr = [("healthz", Ping); ("readyz", Ping)]
      else
        omap webhookOf tr = MkKind telemetryv1beta1 <$>
          ["Telemetry"; "Ceilometer"; "Autoscaling"; "MetricStorage"] /\
        (exists h, omap tlsOf tr = [[h]] /\
           forall c, h c = if enableHTTP2 f then c else MkTLSConfig ["http/1.1"]) /\
        omap checkOf tr = [("healthz", StartedChecker); ("readyz", StartedChecker)])).
Proof.
  intros Hr. destruct (runs_wpM _ _ _ _ _ _ _ (process_ends g) Hr (keeps_any tr))
    as [(f & v & err & -> & -> & ->)|(l & ev & -> & Hq & Hf & Hs & Ho)].
  - destruct (prepared_quiet f v) as [Hq _].
    destruct (prepared_observed f v err) as (Hfl & He & Hm & Hg & Hc & Hw & Ht & Hch & Hst). split_and!.
    + intros l ev r Hl Hev. pose proof (failed_last _ _ _ _ _ Hq Hl Hev) as ->. split; [done|].
      apply app_inj_tail in Hl as [_ <-]. by destruct err.
    + rewrite Forall_app, Forall_singleton. destruct err; (split; [by intros [_ ?]|done]).
    + intros _. split_and!; [done|apply installDefaults_installed|]. exists f, v.
      rewrite Hg, Hc, Hw, Ht, Hch. split_and!; try done.
      * apply (bool_decide_unpack _). vm_compute. exact I.
      * unfold checker, webhooksEnabled. destruct (String.eqb _ _); split_and!; try done.
        eexists. split; [reflexivity|]. intros c. reflexivity.
  - split_and!.
    + intros l' ev' r Hl Hev. pose proof (failed_last _ _ _ _ _ Hq Hl Hev) as ->. split; [done|].
      by apply app_inj_tail in Hl as [_ <-].
    + rewrite Forall_app, Forall_singleton. split; [intros [_ ?]; congruence|].
      intros ->. destruct (groupOf ev); [by destruct Ho|done].
    + by rewrite Hs.
Qed.
End Entry.

(** A process that is started with webhooks disabled, everything succeeding. *)
Definition calmWorld (X : Type) (e : CallE X) (u : unit) : X * unit :=
  (match e in CallE X return X with
   | Try _ => None
   | FlagParse d => d
   | Getenv _ => "False"
   | SetTLSOpts _ => tt
   end, u).

Lemma operator_start_is_complete_witness :
  let '(tr, (g', o), _) := interp calmWorld (process zeroGlobals) tt in
  o = Val 0%Z /\ Forall (fun i => i <> "") (telemetryImages (telemetryDefaults g')) /\
  omap webhookOf tr = [] /\ length (omap controllerOf tr) = 5.
Proof.
  destruct (interp calmWorld (process zeroGlobals) tt) as [[tr [g' o]] u] eqn:Hi.
  pose proof (operator_start_is_complete zeroGlobals tr g' o (interp_runs _ _ _ _ _ _ Hi)) as (_ & Hok & Hst).
  vm_compute in Hi. injection Hi as <- <- <- <-.
  destruct Hst as (_ & [_ Hg] & f & v & _ & Hv & _ & _ & Hc & _ & Hw); [discriminate|].
  injection Hv as <-. split; [reflexivity|]. split; [|split; [exact (proj1 Hw)|]].
  - apply (Forall_inv_tail (Hg ltac:(intros k d Hd; exact Hd))).
  - rewrite <-(length_fmap wokenBy), Hc. reflexivity.
Defined.
End Main.
