(* ===== verification/Passes.v ===== *)
(** * Several passes of a controller

    What the five [Reconcile] functions have in common, as the class
    [Controller]: they read the object, build a helper, run a body and patch
    the object in a deferred function.  A pass starts from the object the
    previous pass stored; [passes] is a sequence of them.  [passes_converge]
    is the argument of the convergence theorems: an invariant of the stored
    object and a number of passes that are still needed, which every pass
    decreases. *)

From stdpp Require Import gmap strings list.
From Stdlib Require Import ZArith Lia.
From S2P Require Import Prelude Condition Api Libs Operator.

#[local] Open Scope go_scope.

(** ** Controllers *)
Class Controller (E : Type -> Type) (T : Type) `{CR : CustomResource T} `{L : ConditionLib} := {
  ctl_get : NamespacedName -> E (T + GoError)%type;
  ctl_helper : T -> E (option GoError);
  ctl_patch : T -> E (option GoError);
  (** whether an error of the patch is returned *)
  ctl_propagate : bool;
  (** what follows the set-up of the deferred function, for the object read *)
  ctl_body : T -> M E T RE;
  ctl_Reconcile : NamespacedName -> prog E (outcome RE);
  (** the object a call has read or patched *)
  ctl_fetched : event E -> option T;
  ctl_patched : event E -> option (T * option GoError);
  ctl_Reconcile_eq req : ctl_Reconcile req =
    Vis (ctl_get req) (fun r =>
    match r with
    | inr err =>
        if err_notFound err then Ret (Val (emptyResult, None)) else Ret (Val (emptyResult, Some err))
    | inl instance =>
        Vis (ctl_helper instance) (fun e =>
        match e with
        | Some err => Ret (Val (emptyResult, Some err))
        | None => runM (withDefer (ctl_body instance) (deferPatch ctl_patch ctl_propagate)) instance
        end)
    end);
  ctl_fetched_get req r :
    ctl_fetched (Ev (ctl_get req) r) = match r with inl i => Some i | inr _ => None end;
  ctl_patched_patch i e : ctl_patched (Ev (ctl_patch i) e) = Some (i, e);
  ctl_patched_get req r : ctl_patched (Ev (ctl_get req) r) = None;
  ctl_patched_helper i e : ctl_patched (Ev (ctl_helper i) e) = None
}.

(** ** Sequences of passes and convergence *)
Section Converge.
Context {E : Type -> Type} {T : Type}.
(** a pass from a stored object to the next one, with its calls and result *)
Variable pass : T -> list (event E) -> outcome RE -> T -> Prop.

(** Consecutive passes, each with its calls, its result and what it stores. *)
Inductive passes : T -> list (list (event E) * outcome RE * T) -> Prop :=
| passes_nil i : passes i []
| passes_cons i tr o i' ps : pass i tr o i' -> passes i' ps -> passes i ((tr, o, i') :: ps).

Lemma passes_exist n i : (forall i, exists tr o i', pass i tr o i') ->
  exists ps, length ps = n /\ passes i ps.
Proof.
  intros Hex. revert i. induction n as [|n IH]; intros i; [exists []; split; [done|constructor]|].
  destruct (Hex i) as (tr & o & i' & Hp). destruct (IH i') as (ps & Hl & Hps).
  exists ((tr, o, i') :: ps). split; [simpl; by rewrite Hl|by constructor].
Qed.

Context (Inv : T -> Prop) (rank : T -> nat) (Good : list (event E) -> outcome RE -> T -> Prop).

(** A pass keeps the invariant and comes closer; at rank 0 it is a good one. *)
Definition approaches : Prop := forall i tr o i', Inv i -> pass i tr o i' ->
  Inv i' /\ rank i' <= pred (rank i) /\ (rank i = 0 -> Good tr o i').

Lemma passes_converge i ps : approaches -> Inv i -> passes i ps ->
  Forall (fun '(tr, o, i') => Good tr o i') (drop (rank i) ps).
Proof.
  intros Hstep Hi Hps. revert Hi. induction Hps as [i|i tr o i' ps Hp Hps IH]; intros Hi.
  { rewrite drop_nil. constructor. }
  destruct (Hstep i tr o i' Hi Hp) as (Hi' & Hr & Hg). specialize (IH Hi').
  destruct (rank i) as [|n]; simpl in *.
  - constructor; [by apply Hg|]. by replace (rank i') with 0 in IH by lia.
  - replace n with (rank i' + (n - rank i')) by lia. rewrite <-drop_drop. by apply Forall_drop.
Qed.
End Converge.

(** Some answer to every call keeps the contract. *)
Definition answerable {E} (ok : contract E) : Prop := forall X (e : E X), exists x, ok X e x.

Lemma runs_exist {E A} (ok : contract E) (p : prog E A) :
  answerable ok -> exists tr a, runs p tr a /\ Forall (keeps ok) tr.
Proof.
  intros Ha. induction p as [a|X e k IH]; [by exists [], a|].
  destruct (Ha X e) as [x Hx]. destruct (IH x) as (tr & a & Hr & Hk).
  exists (Ev e x :: tr), a. split; [by exists x, tr|by constructor].
Qed.

(** ** The passes of a controller *)
Section Passes.
Context `{K : Controller E T}.
Variable ok : contract E.

(** One pass: it reads [i], every answer keeps the contract, and its last call
    stores [i']. *)
Definition pass (i : T) (tr : list (event E)) (o : outcome RE) (i' : T) : Prop :=
  exists req, runs (ctl_Reconcile req) tr o /\ Forall (keeps ok) tr /\
    head tr ≫= ctl_fetched = Some i /\ last tr ≫= ctl_patched = Some (i', None).

(** What is proved of the body holds of the pass. *)
Lemma pass_body i tr o i' (Q : list (event E) -> T -> outcome RE -> Prop) :
  pass i tr o i' -> wpM ok (ctl_body i) i Q ->
  exists req tr' s o', Q tr' s o' /\ i' = finish s /\ o = o' /\
    tr = Ev (ctl_get req) (inl i) :: Ev (ctl_helper i) None :: tr' ++ [Ev (ctl_patch (finish s)) None].
Proof.
  intros (req & Hr & Hok & Hf & Hl) HQ. rewrite ctl_Reconcile_eq in Hr.
  destruct Hr as (r & tr1 & -> & Hr). simpl in Hf. rewrite ctl_fetched_get in Hf.
  destruct r as [i0|]; simplify_eq. destruct Hr as (e & tr2 & -> & Hr). destruct e as [err|].
  { destruct Hr as [-> ->]. simpl in Hl. by rewrite ctl_patched_helper in Hl. }
  apply Forall_cons in Hok as [_ [_ Hok]%Forall_cons].
  revert Hl. pattern tr2, o. refine (runs_wp ok _ _ _ _ _ Hr Hok).
  apply wp_runM, deferPatch_wp. eapply wpM_mono; [|exact HQ]. intros tr' s o' HQ' err _ Hl.
  rewrite !last_cons, last_snoc in Hl. simpl in Hl. rewrite ctl_patched_patch in Hl. simplify_eq.
  exists req, tr', s, o'. split_and!; [done|done| |done]. by destruct o' as [[]|].
Qed.

(** The object can be read and stored. *)
Definition stores : Prop :=
  (forall req i, ok _ (ctl_get req) (inl i)) /\ (forall i, ok _ (ctl_helper i) None) /\
  (forall i, ok _ (ctl_patch i) None).

Lemma pass_exists i : answerable ok -> stores -> exists tr o i', pass i tr o i'.
Proof.
  intros Ha (Hg & Hh & Hp). destruct (runs_exist ok (ctl_body i i) Ha) as (tr & [s o] & Hr & Hk).
  set (req := MkKey (meta_Namespace (crMeta i)) (meta_Name (crMeta i))).
  exists (Ev (ctl_get req) (inl i) :: Ev (ctl_helper i) None :: tr ++ [Ev (ctl_patch (finish s)) None]).
  exists (finishResult ctl_propagate None o), (finish s), req. split_and!.
  - rewrite ctl_Reconcile_eq. exists (inl i). eexists. split; [done|]. exists None. eexists.
    split; [done|]. by apply deferPatch_runs.
  - constructor; [apply Hg|]. constructor; [apply Hh|]. apply Forall_app. split; [done|].
    constructor; [apply Hp|constructor].
  - simpl. by rewrite ctl_fetched_get.
  - rewrite !last_cons, last_snoc. simpl. by rewrite ctl_patched_patch.
Qed.


(** A pass in a storm: the answers keep the contract, but calls may fail and
    the handler may panic; a patch that fails may still have been stored. *)
Definition disturbed (i i' : T) : Prop :=
  exists req tr o, runs (ctl_Reconcile req) tr o /\ Forall (keeps ok) tr /\
    head tr ≫= ctl_fetched = Some i /\
    (i' = i \/ exists err, last tr ≫= ctl_patched = Some (i', err)).

(** Passes in a storm keep what the body keeps. *)
Lemma disturbed_keeps (Inv : T -> Prop) i i' :
  (forall s, Inv s -> Inv (finish s)) -> (forall i, Hist ok (fun _ => Inv) (ctl_body i)) ->
  rtc disturbed i i' -> Inv i -> Inv i'.
Proof.
  intros Hfin Hbody. induction 1 as [i|i i1 i' Hd _ IH]; [done|]. intros Hi. apply IH. clear IH.
  destruct Hd as (req & tr & o & Hr & Hok & Hf & [->|[err Hl]]); [done|].
  rewrite ctl_Reconcile_eq in Hr. destruct Hr as (r & tr1 & -> & Hr). simpl in Hf. rewrite ctl_fetched_get in Hf.
  destruct r as [i0|]; simplify_eq. destruct Hr as (e & tr2 & -> & Hr). destruct e as [err'|].
  { destruct Hr as [-> ->]. simpl in Hl. by rewrite ctl_patched_helper in Hl. }
  apply Forall_cons in Hok as [_ [_ Hok]%Forall_cons].
  revert Hl. pattern tr2, o. refine (runs_wp ok _ _ _ _ _ Hr Hok).
  apply wp_runM, deferPatch_wp. eapply wpM_mono; [|exact (Hbody i [] i Hi)]. intros tr' s o' Hs err' _ Hl.
  rewrite !last_cons, last_snoc in Hl. simpl in Hl. rewrite ctl_patched_patch in Hl. simplify_eq. by apply Hfin.
Qed.

(** For one, a pass whose helper cannot be built. *)
Lemma disturbed_helper req i err :
  ok _ (ctl_get req) (inl i) -> ok _ (ctl_helper i) (Some err) -> disturbed i i.
Proof.
  intros Hg Hh. exists req, [Ev (ctl_get req) (inl i); Ev (ctl_helper i) (Some err)], (Val (emptyResult, Some err)).
  split_and!; [|by repeat constructor|simpl; by rewrite ctl_fetched_get|by left].
  rewrite ctl_Reconcile_eq. exists (inl i). eexists. split; [done|]. by exists (Some err), [].
Qed.
End Passes.

(** A pass in good weather is one that may happen in a storm. *)
Lemma pass_disturbed `{K : Controller E T} (ok ok' : contract E) i tr o i' :
  (forall X (e : E X) x, ok X e x -> ok' X e x) -> pass ok i tr o i' -> disturbed ok' i i'.
Proof.
  intros Hok (req & Hr & Hk & Hf & Hl). exists req, tr, o. split_and!; [done| |done|right; eauto].
  eapply Forall_impl; [exact Hk|]. intros []. apply Hok.
Qed.

(** ** Answers of a settled environment *)

(** The same metadata, up to the finalizers, which are all a pass changes. *)
Definition sameMeta (m0 m : ObjectMeta) : Prop := exists fs, m = withFinalizers fs m0.

Lemma sameMeta_refl m : sameMeta m m.
Proof. exists (meta_Finalizers m). by destruct m. Qed.
Lemma sameMeta_finalizers fs m0 m : sameMeta m0 m -> sameMeta m0 (withFinalizers fs m).
Proof. intros [fs0 ->]. by exists fs. Qed.

(** The same metadata, up to the owner references. *)
Definition sameButOwners (m m' : ObjectMeta) : Prop :=
  keyOf m' = keyOf m /\ meta_Labels m' = meta_Labels m /\ meta_Annotations m' = meta_Annotations m.

(** The types of the conditions of the rbac objects. *)
Definition rbacTypes : list CondType :=
  [ServiceAccountReadyCondition; RoleReadyCondition; RoleBindingReadyCondition].

(** They are reported True. *)
Definition rbacDone (l : list Condition) : Prop :=
  Forall (fun c => cond_Type c ∈ rbacTypes /\ cond_Status c = ConditionTrue) l /\
  forall t, t ∈ rbacTypes -> t ∈ cond_Type <$> l.

Lemma rbacDone_onWay `{LL : ConditionLaws} ts l cs : rbacTypes ⊆ ts -> rbacDone l -> ofTypes ts cs ->
  onWay ts (fun t => t ∈ ts /\ t ∉ rbacTypes) (fold_left SetOnCopy l cs).
Proof.
  intros Hts [Hl Hall] Ho. destruct (onWay_SetOnCopy ts (fun t => t ∈ ts) l cs) as [Ho' Hp'].
  - eapply Forall_impl; [exact Hl|]. intros c [Hc Hs]. split; [by apply Hts|done].
  - by apply onWay_start.
  - split; [done|]. eapply pendingOnly_mono; [|exact Hp']. intros t [Ht Hn]. split; [done|]. eauto.
Qed.

Lemma rbacDone_exists : exists l, rbacDone l.
Proof.
  exists ((fun t => MkCondition t ConditionTrue InitReason SeverityNone (text "")) <$> rbacTypes).
  split; [|unfold rbacTypes; set_solver]. apply Forall_forall.
  intros c (t & -> & Ht)%list_elem_of_fmap. done.
Qed.

(** Runs a handler symbolically; [unfold_answer] unfolds the contract, whose
    answers are given by equations [x = v], some with an [exists] before and
    facts after them. *)
Ltac settled_step unfold_answer :=
  lazymatch goal with
  | |- wpM _ (call _) _ _ =>
      apply wpM_call; let x := fresh "x" in let H := fresh "Hx" in intros x H; unfold_answer H;
      repeat match type of H with
             | ex _ => let y := fresh "y" in destruct H as [y H]
             | x = _ /\ _ => let E := fresh "E" in destruct H as [E H]; subst x
             end; try subst x; cbv beta iota
  | |- wpM _ (returnOn (emptyResult, None) ?k) _ _ => change (returnOn (emptyResult, None) k) with k
  | |- wpM _ (if nonEmpty emptyResult then _ else ?k) _ _ => change (nonEmpty emptyResult) with false; cbv iota
  | |- _ => wpm_step
  end.

(** Closes the obligation that a step leaves conditions of the types [ts];
    [own] closes it for the conditions before the step. *)
Ltac in_types := apply (bool_decide_unpack _); by vm_compute.
Ltac types_solve own :=
  first
  [ done
  | apply ofTypes_MarkTrue; [in_types|own]
  | apply ofTypes_MarkFalse; [in_types|own]
  | apply ofTypes_SetFalse; [in_types|own]
  | eapply ofTypes_SetMirror; [eassumption|in_types|own]
  | apply ofTypes_Remove; own
  | apply ofTypes_SetOnCopy; [|own]; eapply Forall_impl; [eassumption|];
    let c := fresh "c" in let Hc := fresh "Hc" in intros c Hc; cbv beta in Hc; revert Hc;
    unfold rbacTypes; set_solver ].
