(* ===== verification/TelemetryFaults.v ===== *)
(** * A Telemetry pass that meets faults

    The pass of TelemetrySystem.v when the API server is not in order: every
    call of the Telemetry controller may fail, before or after it took effect,
    and the operator may be stopped between any two calls.  What such a pass can
    leave behind is the relation [reached]: the Telemetry with the same spec and
    conditions of its own, and each child either as it was, or as the
    specification's step wants it, or, if it is disabled, gone. *)

From stdpp Require Import gmap strings list.
From Stdlib Require Import ZArith Lia.
From S2P Require Import Prelude Condition Api Libs Reference Webhooks Operator Passes Telemetry TelemetrySystem.
From S2P Require Import TelemetryScenarios TelemetryStore.

#[local] Open Scope go_scope.

Module TelemetryFaults.
Import Telemetry TelemetrySystem.

(** The answer of a call that fails. *)
Definition failure {X} (e : CallE X) : GoError -> X :=
  match e in CallE X return GoError -> X with
  | GetTelemetry _ => inr
  | NewHelper _ => Some
  | PatchInstance _ => Some
  | GetObj _ _ => inr
  | DeleteObj _ _ => Some
  | Fetch _ _ => inr
  | SetControllerReference _ _ _ => inr
  | Commit _ _ => inr
  end.

Section Faults.
Context `{A : ApiServer W} `{AL : !ApiLaws}.
Context `{L : ConditionLib} `{LL : !ConditionLaws L}.
Context `{F : FinalizerLib} `{FL : !FinalizerLaws F} `{C : CommonLib}.

(** A call is served, or it fails, before or after it took effect. *)
Definition faulty (X : Type) (e : CallE X) (w : W) (x : X) (w' : W) : Prop :=
  ans X e w = (x, w') \/ (exists err, x = failure e err) /\ (w' = w \/ w' = (ans X e w).2).

(** A call that only reads leaves the world. *)
Lemma faulty_read {X} (e : CallE X) w y x w1 : ans X e w = (y, w) -> faulty X e w x w1 ->
  w1 = w /\ (x = y \/ exists err, x = failure e err).
Proof.
  intros He [Hs|[[err ->] Hw]]; rewrite He in *.
  - injection Hs as -> ->. auto.
  - split; [by destruct Hw|]. eauto.
Qed.

(** A call that writes has taken effect or not. *)
Lemma faulty_write {X} (e : CallE X) w y w' x w1 : ans X e w = (y, w') -> faulty X e w x w1 -> w1 = w' \/ w1 = w.
Proof.
  intros He [Hs|[_ [->|Hw]]]; rewrite ?He in *; [|by right|by left]. injection Hs as _ ->. by left.
Qed.

(** ** What a pass can leave *)

(** The child [k]: from [o] to [o']. *)
Definition childReached (i : Telemetry) (k : Child) (o o' : option (childObj k)) : Prop :=
  o' = o \/
  if enabled (tel_Spec i) k then o' = Some (target i k o)
  else gone o' /\ forall o1, o' = Some o1 -> exists o0, o = Some o0 /\
         forall owner, foreign owner (childMeta o1) = foreign owner (childMeta o0).

(** Objects other than the Telemetry and its children stay as they are. *)
Definition untouched (key : NamespacedName) (i : Telemetry) (w0 w : W) : Prop :=
  (forall k key', key' <> childKey i k -> child_at w k key' = child_at w0 k key') /\
  (forall key', key' <> key -> telemetry_at w key' = telemetry_at w0 key').

Definition reached (key : NamespacedName) (i : Telemetry) (w0 w : W) : Prop :=
  (exists i', telemetry_at w key = Some i' /\ sameMeta (tel_Meta i) (tel_Meta i') /\ tel_Spec i' = tel_Spec i /\
     ownConds (conds i') /\ (live i -> live i' /\ tel_Meta i' = tel_Meta i)) /\
  (forall k, childReached i k (stored w0 i k) (stored w i k)) /\
  untouched key i w0 w.

Variables (key : NamespacedName) (i : Telemetry) (w0 : W).
Hypothesis Hcon : controllable i w0.

Lemma reached_controllable w : reached key i w0 w -> controllable i w.
Proof.
  intros (_ & Hch & _) k o He Ho. specialize (Hch k). unfold childReached in Hch. rewrite He, Ho in Hch.
  destruct Hch as [Heq|[= ->]]; [by eapply Hcon|]. rewrite target_meta. by apply ownedBy_own, default_own.
Qed.

(** Writing the child [k] once more. *)
Lemma reached_child k w w' : reached key i w0 w -> frame k (childKey i k) w w' ->
  (childReached i k (stored w0 i k) (stored w i k) -> childReached i k (stored w0 i k) (stored w' i k)) ->
  reached key i w0 w'.
Proof.
  intros ((i' & Hi & Hrest) & Hch & Hun & Hut) [Hfr Htel] Hk. split; [exists i'; by rewrite Htel|].
  split; [|split; intros *; rewrite ?Htel; [|apply Hut]].
  2:{ intros Hne. rewrite Hfr; [by apply Hun|]. congruence. }
  intros k'. destruct (decide (k' = k)) as [->|Hne]; [by apply Hk|].
  unfold stored in *. rewrite (Hfr k') by congruence. apply Hch.
Qed.

Lemma reached_commit k w w' : enabled (tel_Spec i) k = true -> reached key i w0 w ->
  stored w' i k = Some (target i k (stored w i k)) -> frame k (childKey i k) w w' -> reached key i w0 w'.
Proof.
  intros He Hr Hst Hfr. apply (reached_child k w w' Hr Hfr). unfold childReached. rewrite He, Hst.
  intros [->| ->]; right; [done|]. by rewrite target_idem.
Qed.

Lemma reached_delete k w w' : enabled (tel_Spec i) k = false -> reached key i w0 w -> gone (stored w' i k) ->
  (forall o1, stored w' i k = Some o1 -> exists o0, stored w i k = Some o0 /\
     forall owner, foreign owner (childMeta o1) = foreign owner (childMeta o0)) ->
  frame k (childKey i k) w w' -> reached key i w0 w'.
Proof.
  intros He Hr Hg Hown Hfr. apply (reached_child k w w' Hr Hfr). unfold childReached. rewrite He.
  intros Hch. right. split; [done|]. intros o1 Ho1. destruct (Hown o1 Ho1) as (o0 & Ho0 & Hf).
  destruct Hch as [Heq|[_ Hch]]; [by rewrite <-Heq; eauto|].
  destruct (Hch o0 Ho0) as (o & Ho & Hf'). exists o. split; [done|]. intros owner. by rewrite Hf, Hf'.
Qed.

(** ** The handlers *)
Abbreviation alwaysT := (alwaysM faulty (reached key i w0)).

Lemma ensureDeleted_always k m (j : Telemetry) w :
  keyOf m = childKey i k -> enabled (tel_Spec i) k = false -> reached key i w0 w ->
  alwaysT (ensureDeleted k m) j w (fun _ _ _ => True).
Proof.
  intros Hk He Hr. unfold ensureDeleted. always_step. rewrite Hk.
  destruct (ans_getobj w k (childKey i k)) as (e & _ & Hget).
  apply alwaysM_call; [done|]. intros x w1 Hx. destruct (faulty_read _ _ _ _ _ Hget Hx) as [-> Hans]. split; [done|].
  cbv beta iota. destruct x as [m'|err]; [|by destruct (err_notFound err); always_step].
  destruct (child_at w k (childKey i k)) as [o|] eqn:Ho; [|by destruct Hans as [|[]]].
  destruct Hans as [[= ->]|[]]; [|done]. destruct (notDeleting (childMeta o)); [|by always_step]. always_step.
  pose proof (child_key _ _ _ _ Ho) as Hko. rewrite <-Hko in Ho.
  destruct (ans_delete w k o Ho) as (w' & Hdel & Hg & Hfr & Hown). rewrite Hko in *.
  apply alwaysM_call; [done|]. intros x w1 Hx'. assert (reached key i w0 w1) as Hr1.
  { destruct (faulty_write _ _ _ _ _ _ Hdel Hx') as [->| ->]; [|done].
    apply (reached_delete k w w'); [done|done|done| |done]. intros o1 Ho1. exists o. split; [done|]. eauto. }
  split; [done|]. cbv beta iota. by destruct x; always_step.
Qed.

Lemma createOrPatch_always k (new : childObj k) mutate write (j : Telemetry) w :
  keyOf (childMeta new) = childKey i k ->
  let o := default new (stored w i k) in
  alwaysT (mutate o) j w (fun _ r w' => w' = w /\ (r = Val (inl (write o)) \/ exists err, r = Val (inr err))) ->
  keyOf (childMeta (write o)) = childKey i k ->
  (forall w', stored w' i k = Some (throughWebhook admission k (write o)) ->
     frame k (childKey i k) w w' -> reached key i w0 w') ->
  alwaysT (createOrPatch k new mutate) j w (fun _ r w' => exists x, r = Val x).
Proof.
  intros Hk o Hmut Hkw HJ. pose proof (always_start _ _ _ _ _ Hmut) as Hr. unfold createOrPatch. always_step.
  rewrite Hk. apply alwaysM_call; [done|]. intros x w1 Hx.
  destruct (faulty_read _ _ _ _ _ (ans_fetch w k _) Hx) as [-> Hans]. split; [done|]. cbv beta iota.
  destruct x as [found|err]; [|by always_step; eauto]. destruct Hans as [[= ->]|[]]; [|done]. fold (stored w i k). fold o.
  always_step. eapply alwaysM_mono; [|exact Hmut]. intros j' r w' _ [-> [->|[err ->]]]; cbv beta iota; [|by always_step; eauto].
  destruct (ans_commit w k (write o)) as (op & w' & Hc & Hst & Hfr). rewrite Hkw in *.
  apply alwaysM_call; [done|]. intros x w1 Hx'. split; [|by eauto].
  destruct (faulty_write _ _ _ _ _ _ Hc Hx') as [->| ->]; [by apply HJ|done].
Qed.

(** An enabled child: the owner reference is set, the object is written. *)
Ltac always_enabled k Hm Hf Hkey Hr He :=
  always_step; eapply alwaysM_mono;
  [|apply (createOrPatch_always k _ _ (fun o => putSpec (tel_Spec i) k (ownedBy (tel_Meta i) k (childMeta o)) o))];
  [ intros j' r w' Hr' [x ->]; destruct x as [[o op]|err]; cbv beta iota;
    [always_step; match goal with |- context [if ?b then _ else _] => destruct b end|];
    unfold markTrue, setFalse, modifyConds; by repeat always_step
  | done
  | cbv beta zeta; always_step; rewrite Hm; apply alwaysM_call; [done|]; intros x w1 Hx;
    destruct (faulty_read _ _ _ _ _ (ans_own _ _ _ _ Hf) Hx) as [-> [->|[err ->]]]; (split; [done|]);
    unfold failure; cbv beta iota; always_step; eauto
  | etrans; [apply ownedBy_key|exact Hkey]
  | intros w' Hst Hfr; by apply (reached_commit k _ w' He Hr) ].

Lemma child_always k before j w :
  tel_Meta before = tel_Meta i -> tel_Meta j = tel_Meta i -> tel_Spec j = tel_Spec i -> reached key i w0 w ->
  alwaysT (reconcileChild k before) j w (fun _ _ _ => True).
Proof.
  intros Hm Hmj Hsj Hr. destruct (enabled (tel_Spec i) k) eqn:He.
  - destruct (default_own i k w (reached_controllable w Hr) He) as [Hf Hkey]. pose proof He as Hen.
    rewrite <-Hsj in Hen. destruct k; simpl in Hen; simpl reconcileChild;
      unfold reconcileCeilometer, reconcileAutoscaling, reconcileMetricStorage, mutateCeilometer,
        mutateAutoscaling, mutateMetricStorage;
      always_step; always_step; cbv zeta; rewrite Hen, Hmj, Hsj; simpl negb; cbv iota.
    + always_enabled CeilometerChild Hm Hf Hkey Hr He.
    + always_enabled AutoscalingChild Hm Hf Hkey Hr He.
    + always_enabled MetricStorageChild Hm Hf Hkey Hr He.
  - pose proof He as Hen. rewrite <-Hsj in Hen. destruct k; simpl in Hen; simpl reconcileChild;
      unfold reconcileCeilometer, reconcileAutoscaling, reconcileMetricStorage;
      always_step; always_step; cbv zeta; rewrite Hen, Hmj; simpl negb; cbv iota;
      always_step; (eapply alwaysM_mono; [|by apply ensureDeleted_always]);
      intros j' [[res [err|]]|] w' Hr' _; cbv beta iota; unfold modifyConds; by repeat always_step.
Qed.

(** The conditions stay the Telemetry's own, whatever is answered. *)
Lemma childStep_own k tr j j' o : childStep k tr j j' o -> ownConds (conds j) -> ownConds (conds j').
Proof.
  intros (e & _ & _ & _ & Hu & He) [Huj Ho]. split; [auto|]. intros t c Hc.
  destruct (decide (t = condOf k)) as [->|Hne]; [right; eauto|]. apply (Ho t c). rewrite <-Hc. symmetry.
  destruct e as [err|]; [destruct He as [_ He]|]; destruct (enabled _ _);
    repeat match type of He with ex _ => destruct He as [? He] | _ /\ _ => destruct He as [_ He] end;
    first [by eapply updatesTo_ne | by f_equal].
Qed.

(** An in-memory object of the pass. *)
Definition inPass (j : Telemetry) : Prop :=
  tel_Meta j = tel_Meta i /\ tel_Spec j = tel_Spec i /\ ownConds (conds j).

Lemma normalOver_always before ks j w :
  tel_Meta before = tel_Meta i -> inPass j -> reached key i w0 w ->
  alwaysT (normalOver before ks) j w (fun j' _ _ => inPass j').
Proof.
  intros Hm. revert j w. induction ks as [|k ks IH]; intros j w Hj Hr; simpl; [by always_step|].
  pose proof Hj as (Hmj & Hsj & Ho). always_step.
  eapply alwaysM_mono; [|apply alwaysM_wpM; [|by apply (child_always k before j w)]; apply (wpM_mono _ _ _
    (fun tr j' o => childStep k tr j j' o) (fun _ j' o => exists e, o = Val (emptyResult, e) /\ inPass j'))].
  - intros j' o w' Hr' [(e & -> & Hj') _]. cbv beta iota. simpl. destruct e; [by always_step|]. by apply IH.
  - intros tr j' o Hs. pose proof (childStep_own _ _ _ _ _ Hs Ho). destruct Hs as (e & -> & _ & (? & ? & _) & _).
    exists e. split; [done|]. split_and!; [congruence..|done].
  - apply reconcileChild_step.
Qed.

(** The deferred patch: [j] is what the body has left. *)
Definition patchable (j : Telemetry) : Prop :=
  sameMeta (tel_Meta i) (tel_Meta j) /\ tel_Spec j = tel_Spec i /\ ownConds (conds j) /\
  (live i -> tel_Meta j = tel_Meta i).

Lemma reached_patch j w w' : patchable j -> reached key i w0 w -> patchedTo key (finish j) w w' ->
  (forall key', key' <> key -> telemetry_at w' key' = telemetry_at w key') -> reached key i w0 w'.
Proof.
  intros (Hm & Hs & Ho & Hl) (_ & Hch & Hun & Hut) [Hi Hsame] Hoth. split; [|split; [|split]].
  - exists (finish j). split_and!; [done|done|done|by apply ownConds_updateReady|].
    intros (Hd & Hf & Hc). specialize (Hl (conj Hd (conj Hf Hc))). split; [|done].
    split_and!; [simpl; by rewrite Hl..|]. apply updateReady_nonnil.
  - intros k. unfold stored in *. rewrite Hsame. apply Hch.
  - intros k key' Hne. rewrite Hsame. by apply Hun.
  - intros key' Hne. rewrite Hoth by done. by apply Hut.
Qed.

Hypothesis Hi : telemetry_at w0 key = Some i.
Hypothesis Hdel : notDeleting (tel_Meta i) = true.
Hypothesis Hown : ownConds (conds i).

Lemma reached_refl : reached key i w0 w0.
Proof.
  split; [exists i; split_and!; [done|apply sameMeta_refl|done|done|done]|]. split; [|done]. intros k. by left.
Qed.

Lemma body_always : alwaysT (reconcileBody i) i w0 (fun j _ _ => patchable j).
Proof.
  pose proof reached_refl as Hr. unfold alwaysM.
  destruct (decide (finalizer ∈ meta_Finalizers (tel_Meta i))) as [Hf|Hf].
  - destruct (conds i) as [cs|] eqn:Hc.
    + rewrite telemetry_reconcileBody_live by (by split_and!; [..|rewrite Hc]). rewrite reconcileNormal_over.
      eapply alwaysM_mono; [|apply (normalOver_always i passOrder (ensureHash i) w0); [done| |done]].
      * intros j o w _ (Hm & Hs & Ho). split_and!; [rewrite Hm; apply sameMeta_refl|done|done|done].
      * split_and!; [done|done|]. unfold conds, ensureHash in *. simpl. by rewrite Hc.
    + rewrite reconcileBody_init by done. split; [done|].
      split_and!; [apply sameMeta_refl|done|apply ownConds_initial|done].
  - destruct (reconcileBody_finalizer i i Hdel Hf) as (fs & Hfs & ->). split; [done|].
    split_and!; [by exists fs|done|done|]. by intros (_ & ? & _).
Qed.

(** A pass, however far it gets. *)
Lemma pass_faulty w : reaches faulty (Reconcile key) w0 w -> reached key i w0 w.
Proof.
  apply (always_reaches _ _ _ _ (fun _ _ => True)). pose proof reached_refl as Hr. unfold Reconcile.
  split; [done|]. intros x w1 Hx. destruct (faulty_read _ _ _ _ _ (ans_get _ _ _ Hi) Hx) as [-> [->|[err ->]]].
  2:{ simpl. by destruct (err_notFound err). }
  split; [done|]. intros x w1 Hx'. destruct (faulty_read _ _ _ _ _ (ans_helper _ _) Hx') as [-> [->|[err ->]]]; [|done].
  unfold runM. apply always_bind. apply (always_mono _ _ _ _ (fun '(s, o) => (fun _ _ _ => True) s o)); [by intros [s o] w' Hw _|].
  change (alwaysT (withDefer (reconcileBody i) (deferPatch PatchInstance true)) i w0 (fun _ _ _ => True)).
  apply alwaysM_defer. eapply alwaysM_mono; [|apply body_always]. intros j o w' Hr' Hj. unfold deferPatch, modifyConds.
  do 5 always_step. fold (finish j).
  pose proof Hj as [[fs Hm] _]. pose proof Hr' as [(i' & Hi' & _) _].
  assert (keyOf (tel_Meta (finish j)) = key) as Hk by (simpl; rewrite Hm; exact (telemetry_key _ _ _ Hi)).
  destruct (ans_patch w' (finish j)) as (w1 & Hp & Hst & Hoth & Hch); [by rewrite Hk, Hi'|simpl; by rewrite Hm|].
  rewrite Hk in Hst, Hoth. apply alwaysM_call; [done|]. intros x w2 Hw. assert (reached key i w0 w2) as Hr2.
  { destruct (faulty_write _ _ _ _ _ _ Hp Hw) as [->| ->]; [|done]. by apply (reached_patch j w'). }
  split; [done|]. cbv beta iota. by always_step.
Qed.
End Faults.

(** C14. A pass that meets faults is safe: take a stored Telemetry that is not
    being deleted, with conditions of its own and children that belong to
    nobody else, and a pass in which any call may fail, before or after it
    took effect, and which may be cut off between any two calls.  Wherever it
    stops, the Telemetry is stored with the same spec, the same metadata up to
    the finalizers and conditions of its own (and with the same metadata if it
    was live); each child is as it was, or, if it is enabled, as the spec wants
    it, or, if it is disabled, gone or marked for deletion with the owners it
    had; and no other object has changed. *)
Theorem telemetry_faulty_pass `{A : ApiServer W} `{AL : !ApiLaws}
    `{L : ConditionLib} `{LL : !ConditionLaws L} `{F : FinalizerLib} `{FL : !FinalizerLaws F} `{C : CommonLib}
    key i (w0 w : W) :
  telemetry_at w0 key = Some i -> notDeleting (tel_Meta i) = true -> ownConds (conds i) ->
  controllable i w0 -> reaches faulty (Reconcile key) w0 w ->
  (exists i', telemetry_at w key = Some i' /\ sameMeta (tel_Meta i) (tel_Meta i') /\ tel_Spec i' = tel_Spec i /\
     ownConds (conds i') /\ (live i -> live i' /\ tel_Meta i' = tel_Meta i)) /\
  (forall k, stored w i k = stored w0 i k \/
     if enabled (tel_Spec i) k then stored w i k = Some (target i k (stored w0 i k))
     else gone (stored w i k) /\ forall o1, stored w i k = Some o1 -> exists o0, stored w0 i k = Some o0 /\
            forall owner, foreign owner (childMeta o1) = foreign owner (childMeta o0)) /\
  (forall k key', key' <> childKey i k -> child_at w k key' = child_at w0 k key') /\
  (forall key', key' <> key -> telemetry_at w key' = telemetry_at w0 key').
Proof. intros Hi Hd Ho Hc Hr. exact (pass_faulty key i w0 Hc Hi Hd Ho w Hr). Qed.

(** ** A pass whose writes of children time out after they took effect *)
Import TelemetryStore TelemetryScenarios.

Definition slow (X : Type) (e : CallE X) (w : Store) : X * Store :=
  match e in CallE X return X * Store with
  | Commit k o => (inr (Errorf "timeout"), (answer _ (Commit k o) w).2)
  | e => answer _ e w
  end.

Lemma slow_faulty X (e : CallE X) w : faulty X e w (slow X e w).1 (slow X e w).2.
Proof.
  destruct e; try (left; apply surjective_pairing).
  right. split; [by exists (Errorf "timeout")|by right].
Qed.

(** The first enabled child is written all the same, the pass reports the
    error, and the Ceilometers of other names are not touched. *)
Lemma telemetry_faulty_pass_witness :
  let w0 := storeWith liveTelemetry in
  let '(_, o, w) := interp slow (Reconcile req) w0 in
  o = Val (emptyResult, Some (Errorf "timeout")) /\
  stored w liveTelemetry CeilometerChild =
    Some (target liveTelemetry CeilometerChild (stored w0 liveTelemetry CeilometerChild)) /\
  child_at w CeilometerChild (MkKey "other" "ceilometer") = child_at w0 CeilometerChild (MkKey "other" "ceilometer").
Proof.
  intros w0. unfold w0. clear w0.
  pose proof (telemetry_faulty_pass req liveTelemetry (storeWith liveTelemetry) _ eq_refl eq_refl
    (ownCondsb_sound (conds liveTelemetry) eq_refl)
    (controllableb_sound liveTelemetry (storeWith liveTelemetry) eq_refl)
    (interp_reaches faulty slow (Reconcile req) (storeWith liveTelemetry) slow_faulty)) as (_ & _ & Hc & _).
  assert ((interp slow (Reconcile req) (storeWith liveTelemetry)).1.2 =
    Val (emptyResult, Some (Errorf "timeout"))) as Ho by (vm_compute; reflexivity).
  assert (stored (interp slow (Reconcile req) (storeWith liveTelemetry)).2 liveTelemetry CeilometerChild =
    Some (target liveTelemetry CeilometerChild (stored (storeWith liveTelemetry) liveTelemetry CeilometerChild)))
    as Hw by (vm_compute; reflexivity).
  destruct (interp slow (Reconcile req) (storeWith liveTelemetry)) as [[tr o] w].
  split; [exact Ho|]. split; [exact Hw|]. apply Hc. discriminate.
Defined.
End TelemetryFaults.
