(* ===== verification/CeilometerSystem.v ===== *)
(** * A Ceilometer over several passes

    The environment of the controller settles ([Env]: the secrets, the Keystone
    endpoint, the name of the transport URL's secret and the hashes of the
    generated files do not change any more, and no call fails).  Then, from any
    state of a Ceilometer that is not being deleted, at most two passes prepare
    it (finalizer or conditions, hash of the inputs), and every further pass
    deploys it and reports it Ready. *)

From stdpp Require Import gmap strings list.
From Stdlib Require Import ZArith Lia.
From S2P Require Import Prelude Condition Api Libs Reference CeilometerPkg Operator CeilometerController Passes.

#[local] Open Scope go_scope.

Module CeilometerSystem.
Import CeilometerController.

#[global] Instance Ceilometer_controller `{L : ConditionLib} `{F : FinalizerLib} `{C : CommonLib} :
  Controller CallE Ceilometer.
Proof.
  refine {| ctl_get := GetCeilometer; ctl_helper := NewHelper; ctl_patch := PatchInstance;
            ctl_propagate := true; ctl_body := fun _ => reconcileBody; ctl_Reconcile := Reconcile;
            ctl_fetched := fun ev => fetched [ev]; ctl_patched := patchOf |}; done.
Defined.

(** ** A settled environment *)
Record Env := MkEnv {
  env_secret : string -> string -> Secret * string;
  env_transportSecret : string;
  env_keystone : string -> string;
  env_endpoint : string -> string;
  env_files : list Template -> EnvMap -> EnvMap;
  env_ksConds : Conditions
}.

Definition settledEnv (W : Env) : contract CallE := fun X e =>
  match e in CallE X return X -> Prop with
  | NewHelper _ => fun x => x = None
  | PatchInstance _ => fun x => x = None
  | GetSecret name ns => fun x => x = (Some (env_secret W name ns).1, (env_secret W name ns).2, None)
  | ReconcileRbac _ _ _ => fun x => exists l, x = (l, (emptyResult, None)) /\ rbacDone l
  | FetchTransportURL key => fun x => exists r, x = inl r /\ forall t, r = Some t -> keyOf (tu_Meta t) = key
  | CommitTransportURL t => fun x =>
      exists t' op, x = inl (t', op) /\ tu_SecretName t' = env_transportSecret W
  | SetControllerReference _ m => fun x => exists m', x = inl m' /\ sameButOwners m m'
  | GetKeystoneAPI ns => fun x => x = inl (env_keystone W ns)
  | GetEndpoint api _ => fun x => x = inl (env_endpoint W api)
  | EnsureSecrets _ cms env => fun x => x = inl (env_files W cms env)
  | KeystoneServiceCreateOrPatch _ _ _ _ => fun x => x = (env_ksConds W, (emptyResult, None))
  | StatefulSetCreateOrPatch _ _ => fun x => exists n, x = (n, (emptyResult, None)) /\ (0 < n)%Z
  | FetchService key => fun x => exists r, x = inl r /\ forall s, r = Some s -> keyOf (svc_Meta s) = key
  | CommitService s => fun x => exists op, x = inl (s, op)
  | _ => fun _ => True
  end.

(** Before it settles: anything may be answered, but the rbac library reports
    the conditions of the rbac objects only. *)
Definition unsettledEnv : contract CallE := fun X e =>
  match e in CallE X return X -> Prop with
  | ReconcileRbac _ _ _ => fun x => Forall (fun c => cond_Type c ∈ rbacTypes) x.1
  | _ => fun _ => True
  end.

(** ** What a pass writes *)
Inductive Write :=
| WroteRbac (name ns : string) (rules : list PolicyRule)
| WroteTransportURL (key : NamespacedName) (cluster : string)
| WroteSecrets (cms : list Template)
| WroteKeystoneService (spec : KeystoneServiceSpec) (ns : string) (labels : gmap string string)
| WroteStatefulSet (def : StatefulSet)
| WroteService (key : NamespacedName) (labels selector : gmap string string) (ports : list ServicePort).

Definition writeOf (ev : event CallE) : option Write :=
  match ev with
  | Ev e _ =>
      match e with
      | ReconcileRbac name ns rules => Some (WroteRbac name ns rules)
      | CommitTransportURL t => Some (WroteTransportURL (keyOf (tu_Meta t)) (tu_RabbitmqClusterName t))
      | EnsureSecrets _ cms _ => Some (WroteSecrets cms)
      | KeystoneServiceCreateOrPatch spec ns labels _ => Some (WroteKeystoneService spec ns labels)
      | StatefulSetCreateOrPatch def _ => Some (WroteStatefulSet def)
      | CommitService s =>
          Some (WroteService (keyOf (svc_Meta s)) (meta_Labels (svc_Meta s)) (svc_Selector s) (svc_Ports s))
      | _ => None
      end
  end.

(** ** The deployment a Ceilometer asks for *)
Section Spec.
Context `{L : ConditionLib} `{F : FinalizerLib} `{C : CommonLib}.
Variable W : Env.

Definition nsOf (i : Ceilometer) : string := meta_Namespace (cei_Meta i).
Definition ospSecret (i : Ceilometer) : Secret * string := env_secret W (ceis_Secret (cei_Spec i)) (nsOf i).
Definition transportSecret (i : Ceilometer) : Secret * string :=
  env_secret W (env_transportSecret W) (nsOf i).

(** The files: rendered with the Keystone URL, the transport URL and the password. *)
Definition rendered (templates : Ceilometer -> string -> string -> string -> list Template)
    (i : Ceilometer) : list Template :=
  templates i (env_endpoint W (env_keystone W (nsOf i))) (mapGet (sec_Data (transportSecret i).1) "transport_url")
    (mapGet (sec_Data (ospSecret i).1) "CeilometerPassword").

(** The hashes of all inputs. *)
Definition inputs (i : Ceilometer) : EnvMap :=
  env_files W (rendered computeTemplates i) (env_files W (rendered serviceTemplates i)
    (<["secret-" +:+ sec_Name (transportSecret i).1 := (transportSecret i).2]>
      (<["secret-" +:+ sec_Name (ospSecret i).1 := (ospSecret i).2]> ∅))).

Definition inputHash (i : Ceilometer) : string := (ObjectHash (MergeEnvs [] (inputs i))).1.

(** The Keystone service is ready. *)
Definition keystoneReady : Prop := exists c,
  Mirror (env_ksConds W) KeystoneServiceReadyCondition = Some c /\ cond_Status c = ConditionTrue.

(** The environment lets the Ceilometer be deployed as [def]. *)
Definition deployable (i : Ceilometer) (def : StatefulSet) : Prop :=
  env_transportSecret W <> "" /\ keystoneReady /\ (ObjectHash (MergeEnvs [] (inputs i))).2 = None /\
  CeilometerStatefulSet i (inputHash i) serviceLabels = inl def.

Definition deployment (i : Ceilometer) (def : StatefulSet) : list Write :=
  [WroteRbac (Ceilometer_RbacResourceName i) (nsOf i) rbacRules;
   WroteTransportURL (MkKey (nsOf i) transportURLName) (ceis_RabbitMqClusterName (cei_Spec i));
   WroteSecrets (rendered serviceTemplates i);
   WroteSecrets (rendered computeTemplates i);
   WroteKeystoneService (keystoneServiceOf i) (nsOf i) serviceLabels;
   WroteStatefulSet def;
   WroteService (MkKey (nsOf i) CeilometerPkg.ServiceName) serviceLabels serviceLabels
     [MkServicePort "" TCP (int32 CeilometerPrometheusPort) (FromInt CeilometerPrometheusPort)]].

(** The conditions of a Ceilometer. *)
Definition ownTypes : list CondType :=
  [InputReadyCondition; ServiceConfigReadyCondition; DeploymentReadyCondition;
   ServiceAccountReadyCondition; RoleReadyCondition; RoleBindingReadyCondition;
   KeystoneServiceReadyCondition; RabbitMqTransportURLReadyCondition].

(** Prepared: the finalizer is set and the conditions exist. *)
Definition prepared (i : Ceilometer) : bool :=
  bool_decide (finalizer ∈ meta_Finalizers (cei_Meta i)) && bool_decide (conds i <> None).

(** The passes that are needed before the one that deploys. *)
Definition passesLeft (i : Ceilometer) : nat :=
  if prepared i then if decide (inputHashOf i = Some (inputHash i)) then 0 else 1 else 2.

(** The same Ceilometer: metadata up to the finalizers, and spec. *)
Definition same (i0 i : Ceilometer) : Prop :=
  sameMeta (cei_Meta i0) (cei_Meta i) /\ cei_Spec i = cei_Spec i0.

Lemma ceilometer_same_refl i : same i i.
Proof. split_and!; [apply sameMeta_refl|done]. Qed.

(** A pass that deploys [i] and leaves [i']. *)
Definition deployed (i : Ceilometer) (def : StatefulSet) (tr : list (event CallE)) (o : outcome RE)
    (i' : Ceilometer) : Prop :=
  o = Val (emptyResult, None) /\ omap writeOf tr = deployment i def /\
  same i i' /\ inputHashOf i' = Some (inputHash i) /\
  (0 < ceit_ReadyCount (cei_Status i'))%Z /\
  ceit_Networks (cei_Status i') = ceis_NetworkAttachmentDefinitions (cei_Spec i) /\
  ceit_TransportURLSecret (cei_Status i') = env_transportSecret W /\
  allTrue (conds i') /\ Ceilometer_IsReady i' = true.
End Spec.

(** ** Passes in a settled environment *)
Section Passes.
Context `{L : ConditionLib} `{LL : !ConditionLaws L} `{F : FinalizerLib} `{FL : !FinalizerLaws F}.
Context `{C : CommonLib} `{CL : !CommonLaws C}.
Variable W : Env.

(** Runs a handler, with the answers of the environment. *)
Ltac env_step := settled_step ltac:(fun H => cbv beta iota delta [settledEnv] in H).

(** Along a pass over [i0]: what has been written, and the pending conditions. *)
Record stage (i0 : Ceilometer) (ws : list Write) (P : CondType -> Prop)
    (tr : list (event CallE)) (i : Ceilometer) : Prop := {
  stage_meta : cei_Meta i = cei_Meta i0;
  stage_spec : cei_Spec i = cei_Spec i0;
  stage_hash : ceit_Hash (cei_Status i) = ceit_Hash (cei_Status i0);
  stage_writes : omap writeOf tr = ws;
  stage_conds : onWay ownTypes P (conds i)
}.

(** Pending after the rbac objects, the transport URL and the secrets. *)
Definition inputsPending (t : CondType) : Prop :=
  ((t ∈ ownTypes /\ t ∉ rbacTypes) /\ t <> RabbitMqTransportURLReadyCondition) /\ t <> InputReadyCondition.

(** Up to the generated configuration. *)
Lemma ceilometer_reconcileNormal_inputs i Q :
  env_transportSecret W <> "" -> ofTypes ownTypes (conds i) ->
  (forall tr i1,
     stage i [WroteRbac (Ceilometer_RbacResourceName i) (nsOf i) rbacRules;
              WroteTransportURL (MkKey (nsOf i) transportURLName) (ceis_RabbitMqClusterName (cei_Spec i))]
       inputsPending tr i1 ->
     ceit_TransportURLSecret (cei_Status i1) = env_transportSecret W ->
     wpM (settledEnv W)
       (configure (<["secret-" +:+ sec_Name (transportSecret W i).1 := (transportSecret W i).2]>
          (<["secret-" +:+ sec_Name (ospSecret W i).1 := (ospSecret W i).2]> ∅))) i1
       (fun tr' => Q (tr ++ tr'))) ->
  wpM (settledEnv W) reconcileNormal i Q.
Proof.
  intros Hts Ho Hk. unfold reconcileNormal, reconcileRbac, modifyConds.
  do 6 env_step. pose proof (rbacDone_onWay ownTypes _ (conds i) ltac:(set_solver) Hx Ho) as Hw. do 4 env_step.
  unfold transportURLCreateOrUpdate, setTransportURLSecret, getSecret, setStatus, markTrue, modifyConds.
  repeat env_step; [exfalso; by apply Hts; rewrite <-Hx2; apply String.eqb_eq|].
  destruct Hx1 as (Hkey & _ & _).
  simpl. rewrite Hx2. refine (Hk [_; _; _; _; _; _] _ _ _); [|done]. split; [done|done|done| |].
  - simpl. do 3 f_equal. rewrite Hkey. destruct y0; [by apply Hx0|done].
  - by do 2 (apply onWay_MarkTrue; [apply (bool_decide_unpack _); by vm_compute|]).
Qed.

(** The object with the hash of the inputs recorded. *)
Definition withHash (h : option (gmap string string)) (i : Ceilometer) : Ceilometer :=
  MkCeilometer (cei_Meta i) (cei_Spec i)
    (MkCeilometerStatus (ceit_ReadyCount (cei_Status i)) h (conds i)
       (ceit_TransportURLSecret (cei_Status i)) (ceit_Networks (cei_Status i))).

(** The generated configuration, and whether its hash is the recorded one. *)
Lemma ceilometer_configure_env i0 i Q :
  cei_Meta i = cei_Meta i0 -> cei_Spec i = cei_Spec i0 ->
  ceit_TransportURLSecret (cei_Status i) = env_transportSecret W ->
  (ObjectHash (MergeEnvs [] (inputs W i0))).2 = None ->
  let calls tr := omap writeOf tr = [WroteSecrets (rendered W serviceTemplates i0);
                                     WroteSecrets (rendered W computeTemplates i0)] in
  (forall tr h, calls tr -> inputHashOf i <> Some (inputHash W i0) ->
     h !! InputHashName = Some (inputHash W i0) -> Q tr (withHash (Some h) i) (Val (emptyResult, None))) ->
  (forall tr, calls tr -> inputHashOf i = Some (inputHash W i0) ->
     wpM (settledEnv W) (
       putHash InputHashName (inputHash W i0) ;;;
       markTrue ServiceConfigReadyCondition (lib "ServiceConfigReadyMessage") ;;;
       let* re := reconcileInit serviceLabels in
       returnOn re (deploy (inputHash W i0))) i (fun tr' => Q (tr ++ tr'))) ->
  wpM (settledEnv W)
    (configure (<["secret-" +:+ sec_Name (transportSecret W i0).1 := (transportSecret W i0).2]>
       (<["secret-" +:+ sec_Name (ospSecret W i0).1 := (ospSecret W i0).2]> ∅))) i Q.
Proof.
  intros Hm Hs Ht Hh calls Hrec Hdep. destruct i as [m sp st]. simpl in Hm, Hs, Ht. subst m sp.
  unfold configure, generateServiceConfig, generateComputeServiceConfig, configInputs.
  repeat env_step. simpl. rewrite Ht. unfold createHashOfInputHashes.
  match goal with |- context [ObjectHash (MergeEnvs [] ?e)] => change e with (inputs W i0) end.
  unfold inputHash in *. destruct (ObjectHash (MergeEnvs [] (inputs W i0))) as [hash err]. simpl in *. subst err.
  pose proof (SetHash_flag (ceit_Hash st) InputHashName hash) as Hflag.
  pose proof (SetHash_lookup (ceit_Hash st) InputHashName hash) as Hlook.
  env_step. env_step. simpl. destruct (SetHash _ _ _) as [hm changed]. simpl in Hflag, Hlook. destruct changed.
  - unfold setHash, setStatus. repeat env_step. simpl.
    apply (Hrec [_; _; _; _; _; _; _; _; _; _] hm); [done| |done].
    intros Hi. by apply Hflag in Hi.
  - do 3 env_step. simpl. apply (Hdep [_; _; _; _; _; _; _; _; _; _]); [done|by apply Hflag].
Qed.

(** The Keystone service. *)
Lemma ceilometer_reconcileInit_env i Q : keystoneReady W ->
  (forall tr c, omap writeOf tr = [WroteKeystoneService (keystoneServiceOf i) (nsOf i) serviceLabels] ->
     cond_Type c = KeystoneServiceReadyCondition -> cond_Status c = ConditionTrue ->
     Q tr (withHash (Some (default ∅ (ceit_Hash (cei_Status i)))) (crSetConds (Set_ (conds i) (Some c)) i))
       (Val (emptyResult, None))) ->
  wpM (settledEnv W) (reconcileInit serviceLabels) i Q.
Proof.
  intros (c & Hmir & Hc) HQ. unfold reconcileInit, ensureHash, setStatus, modifyConds.
  do 6 env_step. rewrite Hmir. repeat env_step.
  apply (HQ [_; _]); [done|exact (Mirror_type _ _ _ Hmir)|done].
Qed.

(** The StatefulSet and the Service. *)
Lemma deploy_env i hash def Q :
  CeilometerStatefulSet i hash serviceLabels = inl def ->
  (forall tr n, omap writeOf tr = drop 5 (deployment W i def) -> (0 < n)%Z ->
     Q tr (MkCeilometer (cei_Meta i) (cei_Spec i)
             (MkCeilometerStatus n (ceit_Hash (cei_Status i))
                (MarkTrue (conds i) DeploymentReadyCondition (lib "DeploymentReadyMessage"))
                (ceit_TransportURLSecret (cei_Status i))
                (ceis_NetworkAttachmentDefinitions (cei_Spec i))))
       (Val (emptyResult, None))) ->
  wpM (settledEnv W) (deploy hash) i Q.
Proof.
  intros Hdef HQ.
  unfold deploy, ceilometerService, setReadyCount, setNetworks, setStatus, markTrue, modifyConds.
  env_step. env_step. rewrite Hdef. do 7 env_step. rewrite (proj2 (Z.ltb_lt 0 y)) by done.
  repeat env_step. destruct Hx2 as (Hkey & Hlab & _).
  apply (HQ [_; _; _; _; _]); [|done]. simpl. rewrite Hkey, Hlab. simpl. do 4 f_equal.
  destruct y1; [by apply Hx1|done].
Qed.

(** From the recorded hash on: Keystone service, StatefulSet and Service. *)
Lemma ceilometer_recorded_env i0 i def Q : keystoneReady W ->
  cei_Meta i = cei_Meta i0 -> cei_Spec i = cei_Spec i0 ->
  inputHashOf i = Some (inputHash W i0) ->
  CeilometerStatefulSet i0 (inputHash W i0) serviceLabels = inl def ->
  onWay ownTypes inputsPending (conds i) ->
  (forall tr i', omap writeOf tr = drop 4 (deployment W i0 def) ->
     cei_Meta i' = cei_Meta i0 -> cei_Spec i' = cei_Spec i0 -> inputHashOf i' = Some (inputHash W i0) ->
     (0 < ceit_ReadyCount (cei_Status i'))%Z ->
     ceit_Networks (cei_Status i') = ceis_NetworkAttachmentDefinitions (cei_Spec i0) ->
     ceit_TransportURLSecret (cei_Status i') = ceit_TransportURLSecret (cei_Status i) ->
     ofTypes ownTypes (conds i') -> allTrue (conds i') -> Ceilometer_IsReady (finish i') = true ->
     Q tr i' (Val (emptyResult, None))) ->
  wpM (settledEnv W) (
    putHash InputHashName (inputHash W i0) ;;;
    markTrue ServiceConfigReadyCondition (lib "ServiceConfigReadyMessage") ;;;
    let* re := reconcileInit serviceLabels in
    returnOn re (deploy (inputHash W i0))) i Q.
Proof.
  intros Hks Hm Hs Hh Hdef Hw HQ. destruct i as [m sp st]. simpl in Hm, Hs. subst m sp.
  unfold inputHashOf in Hh. simpl in Hh. destruct (ceit_Hash st) as [h|] eqn:Hst; [|done].
  unfold putHash, setHash, setStatus, markTrue, modifyConds. do 3 env_step. simpl. rewrite Hst.
  repeat env_step. apply ceilometer_reconcileInit_env; [done|]. intros tr c Htr Hct Hcs. cbv beta iota. env_step.
  apply (deploy_env _ _ def); [exact Hdef|]. intros tr' n Htr' Hn.
  pose (cs' := MarkTrue (Set_ (MarkTrue (ceit_Conditions st) ServiceConfigReadyCondition
    (lib "ServiceConfigReadyMessage")) (Some c)) DeploymentReadyCondition (lib "DeploymentReadyMessage")).
  assert (onWay ownTypes (fun t => ((inputsPending t /\ t <> ServiceConfigReadyCondition) /\
    t <> KeystoneServiceReadyCondition) /\ t <> DeploymentReadyCondition) cs') as Hw'.
  { apply onWay_MarkTrue; [apply (bool_decide_unpack _); by vm_compute|]. rewrite <-Hct.
    apply onWay_Set; [rewrite Hct; apply (bool_decide_unpack _); by vm_compute|done|].
    apply onWay_MarkTrue; [apply (bool_decide_unpack _); by vm_compute|done]. }
  assert (allTrue cs') as Ha.
  { eapply onWay_done; [exact Hw'|]. unfold inputsPending, ownTypes, rbacTypes. set_solver. }
  apply HQ; try done.
  - rewrite !app_nil_l, omap_app, Htr, Htr'. done.
  - unfold inputHashOf. simpl. by rewrite lookup_insert_eq.
  - apply Hw'.
  - by apply allTrue_marked.
Qed.

(** *** One pass *)

(** The deployment depends on nothing else. *)
Lemma ceilometer_same_inputs i0 i : same i0 i -> inputs W i = inputs W i0.
Proof. destruct i as [m ?], i0 as [[] ?]. intros [[fs Hm] Hs]. simpl in Hm, Hs. by subst. Qed.
Lemma ceilometer_same_hash i0 i : same i0 i -> inputHash W i = inputHash W i0.
Proof. intros H. unfold inputHash. by rewrite (ceilometer_same_inputs i0 i). Qed.
Lemma ceilometer_same_deployment i0 i def : same i0 i -> deployment W i def = deployment W i0 def.
Proof. destruct i as [m ?], i0 as [[] ?]. intros [[fs Hm] Hs]. simpl in Hm, Hs. by subst. Qed.
Lemma ceilometer_same_deployable i0 i def : same i0 i -> deployable W i0 def -> deployable W i def.
Proof. destruct i as [m ?], i0 as [[] ?]. intros [[fs Hm] Hs]. simpl in Hm, Hs. by subst. Qed.

(** A Ceilometer on its way to the deployment of [i0]. *)
Definition coming (i0 i : Ceilometer) : Prop :=
  same i0 i /\ notDeleting (cei_Meta i) = true /\ ofTypes ownTypes (conds i).

Lemma ceilometer_coming_finish i0 i : coming i0 i -> coming i0 (finish i).
Proof. intros (Hs & Hd & Ho). split_and!; [exact Hs|exact Hd|by apply ofTypes_updateReady]. Qed.

Lemma ceilometer_prepared_finish i : finalizer ∈ meta_Finalizers (cei_Meta i) -> prepared (finish i) = true.
Proof.
  intros Hf. apply andb_true_iff. split; apply bool_decide_eq_true; [done|]. apply updateReady_nonnil.
Qed.

Lemma ceilometer_passesLeft_prepared i : prepared i = true -> passesLeft W i <= 1.
Proof. intros Hp. unfold passesLeft. rewrite Hp. case_decide; lia. Qed.

Lemma ceilometer_passesLeft_recorded i : prepared i = true -> inputHashOf i = Some (inputHash W i) -> passesLeft W i = 0.
Proof. intros Hp Hh. unfold passesLeft. rewrite Hp. by case_decide. Qed.

Lemma ceilometer_ofTypes_initial : ofTypes ownTypes initialConditions.
Proof.
  eapply ofTypes_mono; [|eapply ofTypes_init; [|]]; cycle 1.
  - cbn [fmap list_fmap]. by rewrite !(fun t r m => proj1 (UnknownCondition_spec t r m)).
  - apply (bool_decide_unpack _). by vm_compute.
  - unfold ownTypes. set_solver.
Qed.

(** A pass over [i] comes closer. *)
Definition closer (i0 : Ceilometer) (def : StatefulSet) (i : Ceilometer) (tr : list (event CallE))
    (s : Ceilometer) (o : outcome RE) : Prop :=
  coming i0 (finish s) /\ passesLeft W (finish s) <= pred (passesLeft W i) /\
  (passesLeft W i = 0 -> deployed W i0 def tr o (finish s)).

(** The passes that add the finalizer or initialise the conditions. *)
Lemma ceilometer_closer_prepares i0 def i tr s o : passesLeft W i = 2 -> coming i0 s ->
  finalizer ∈ meta_Finalizers (cei_Meta s) -> closer i0 def i tr s o.
Proof.
  intros Hl Hc Hf. split_and!; [by apply ceilometer_coming_finish| |by rewrite Hl].
  rewrite Hl. by apply ceilometer_passesLeft_prepared, ceilometer_prepared_finish.
Qed.

(** The pass that records the hash. *)
Lemma ceilometer_closer_records i0 def i tr s o : passesLeft W i = 1 -> coming i0 s ->
  finalizer ∈ meta_Finalizers (cei_Meta s) -> inputHashOf s = Some (inputHash W i0) -> closer i0 def i tr s o.
Proof.
  intros Hl Hc Hf Hh. pose proof (ceilometer_coming_finish i0 s Hc) as Hc'. split_and!; [done| |by rewrite Hl].
  rewrite ceilometer_passesLeft_recorded; [lia|by apply ceilometer_prepared_finish|].
  by rewrite (ceilometer_same_hash i0) by apply Hc'.
Qed.

(** The pass that deploys. *)
Lemma ceilometer_normal_approaches i0 def i : deployable W i0 def -> coming i0 i -> prepared i = true ->
  wpM (settledEnv W) reconcileNormal i (closer i0 def i).
Proof.
  intros Hdep (Hs & Hd & Ho) Hp. pose proof Hp as [Hf%bool_decide_eq_true _]%andb_true_iff.
  destruct (ceilometer_same_deployable i0 i def Hs Hdep) as (Hts & Hks & Hoh & Hdef).
  apply ceilometer_reconcileNormal_inputs; [done|done|]. intros tr i2 [Hm2 Hsp2 Hh2 Hw2 Hc2] Ht2.
  assert (inputHashOf i2 = inputHashOf i) as Hi2 by (unfold inputHashOf; by rewrite Hh2).
  apply (ceilometer_configure_env i); [done|done|done|done| |].
  - intros tr' h Htr' Hne Hh. apply ceilometer_closer_records.
    + unfold passesLeft. rewrite Hp. case_decide as Hr; [|done]. by rewrite Hi2 in Hne.
    + split_and!; [split; simpl; rewrite ?Hm2, ?Hsp2; apply Hs|simpl; by rewrite Hm2|apply Hc2].
    + simpl. by rewrite Hm2.
    + by rewrite <-(ceilometer_same_hash i0 i).
  - intros tr' Htr' Hrec. apply (ceilometer_recorded_env i _ def); [done|done|done|done|done|exact Hc2|].
    intros tr3 i3 Htr3 Hm3 Hsp3 Hh3 Hn3 Hnet3 Ht3 Ho3 Ha3 Hr3.
    assert (coming i0 i3) as Hc3.
    { split_and!; [split; rewrite ?Hm3, ?Hsp3; apply Hs|by rewrite Hm3|done]. }
    assert (inputHashOf (finish i3) = Some (inputHash W i0)) as Hh by (by rewrite <-(ceilometer_same_hash i0 i)).
    split_and!; [by apply ceilometer_coming_finish| |intros _].
    + rewrite ceilometer_passesLeft_recorded; [lia|apply ceilometer_prepared_finish; by rewrite Hm3|].
      by rewrite (ceilometer_same_hash i0) by (by apply ceilometer_coming_finish).
    + split_and!; try done.
      * rewrite !omap_app, Hw2, Htr', Htr3, <-(ceilometer_same_deployment i0 i) by done. done.
      * apply Hc3.
      * simpl. rewrite Hnet3. f_equal. apply Hs.
      * simpl. by rewrite Ht3.
      * apply allTrue_updateReady; [apply Ho3|done].
Qed.

Lemma ceilometer_body_approaches i0 def i : deployable W i0 def -> coming i0 i ->
  wpM (settledEnv W) reconcileBody i (closer i0 def i).
Proof.
  intros Hdep Hc. pose proof Hc as (Hs & Hd & Ho). unfold reconcileBody. env_step. env_step. rewrite Hd.
  destruct (decide (finalizer ∈ meta_Finalizers (cei_Meta i))) as [Hf|Hf].
  - env_step. apply addFinalizer_present; [done|]. cbv beta iota. env_step. env_step.
    destruct (ceit_Conditions (cei_Status i)) as [cs|] eqn:Hcs.
    + unfold ensureHash, setStatus. env_step. env_step. rewrite Hd.
      eapply wpM_mono; [|apply (ceilometer_normal_approaches i0 def)]; [|done|done|].
      * intros tr s o H. exact H.
      * apply andb_true_iff. split; apply bool_decide_eq_true; [done|]. unfold conds. simpl. by rewrite Hcs.
    + unfold modifyConds. repeat env_step. apply ceilometer_closer_prepares.
      * unfold passesLeft, prepared, conds. by rewrite Hcs, andb_false_r.
      * split_and!; [apply Hs|done|apply ceilometer_ofTypes_initial].
      * done.
  - env_step. apply addFinalizer_absent; [done|]. intros fs Hfs. cbv beta iota. env_step.
    apply ceilometer_closer_prepares; [|split_and!; [split; [by apply sameMeta_finalizers, Hs|apply Hs]|done|done]|simpl; by apply Hfs; right].
    unfold passesLeft, prepared. by rewrite bool_decide_eq_false_2.
Qed.

(** The calls around the body write nothing. *)
Lemma ceilometer_approaches i0 def : deployable W i0 def ->
  approaches (pass (settledEnv W)) (coming i0) (passesLeft W) (deployed W i0 def).
Proof.
  intros Hdep i tr o i' Hc Hp.
  destruct (pass_body _ _ _ _ _ _ Hp (ceilometer_body_approaches i0 def i Hdep Hc))
    as (req & tr' & s & o' & (Hc' & Hl & Hg) & -> & -> & ->).
  split_and!; [done|done|]. intros H0. destruct (Hg H0) as (Ho & Hw & Hrest).
  split_and!; [done| |apply Hrest..]. simpl. by rewrite omap_app, Hw, app_nil_r.
Qed.

(** The environment answers every call. *)
Lemma ceilometer_settledEnv_answers : answerable (settledEnv W).
Proof.
  destruct rbacDone_exists as [l Hl].
  assert (forall m, sameButOwners m m) as Hm by done.
  intros X []; simpl; try (by eauto).
  - by exists (inr (Errorf "")).
  - by exists (inl None), None.
  - by exists (inl (MkTransportURL (tu_Meta t) "" (env_transportSecret W), OperationResultNone)), 
      (MkTransportURL (tu_Meta t) "" (env_transportSecret W)), OperationResultNone.
  - by exists (1%Z, (emptyResult, None)), 1%Z.
  - by exists (inl None), None.
  - by exists (inr (Errorf "")).
  - by exists None.
  - by exists (inr (Errorf "")).
  Unshelve. exact OperationResultNone.
Qed.

(** *** Passes in an environment that has not settled *)
Lemma ceilometer_coming_conds i0 cs i : coming i0 i -> ofTypes ownTypes cs -> coming i0 (crSetConds cs i).
Proof. intros (Hs & Hd & _) Ho. split_and!; [exact Hs|exact Hd|exact Ho]. Qed.
Lemma ceilometer_coming_meta i0 fs i : coming i0 i -> coming i0 (crSetMeta (withFinalizers fs (crMeta i)) i).
Proof. intros ((Hm & Hsp) & Hd & Ho). split_and!; [split; [by apply sameMeta_finalizers|done]|done|done]. Qed.

Lemma ceilometer_coming_body i0 : Hist unsettledEnv (fun _ => coming i0) reconcileBody.
Proof.
  unfold_ceilometer.
  pose proof ceilometer_ofTypes_initial. hist; try done.
  all: first [by apply ceilometer_coming_meta | apply ceilometer_coming_conds; [done|]].
  all: types_solve ltac:(idtac; match goal with H : coming _ _ |- _ => apply H end).
Qed.

(** Of any Ceilometer a pass keeps the metadata, up to the finalizers. *)
Lemma ceilometer_meta_body m0 : Hist unsettledEnv (fun _ i => sameMeta m0 (cei_Meta i)) reconcileBody.
Proof. unfold_ceilometer. hist; first [done|by apply sameMeta_finalizers]. Qed.

Lemma ceilometer_storm_meta i i' : disturbed unsettledEnv i i' -> sameMeta (cei_Meta i) (cei_Meta i').
Proof.
  intros Hst. eapply (disturbed_keeps unsettledEnv (fun j => sameMeta (cei_Meta i) (cei_Meta j)));
    [done|intros ?; apply ceilometer_meta_body|by apply rtc_once|apply sameMeta_refl].
Qed.

Lemma ceilometer_settled_unsettled X (e : CallE X) x : settledEnv W X e x -> unsettledEnv X e x.
Proof.
  destruct e; try done. intros (l & -> & [Hl _]). eapply Forall_impl; [exact Hl|]. by intros c [Hc _].
Qed.

(** So a storm leaves the same Ceilometer. *)
Lemma ceilometer_storm_kept i0 i i' : rtc (disturbed unsettledEnv) i i' -> coming i0 i -> coming i0 i'.
Proof.
  apply (disturbed_keeps unsettledEnv (coming i0)); [apply ceilometer_coming_finish|intros ?; apply ceilometer_coming_body].
Qed.

Lemma ceilometer_storm_coming i0 i : notDeleting (cei_Meta i0) = true -> ofTypes ownTypes (conds i0) ->
  rtc (disturbed unsettledEnv) i0 i -> coming i0 i.
Proof.
  intros Hd Ho Hst. apply (ceilometer_storm_kept i0 i0 i Hst). by split; [apply ceilometer_same_refl|].
Qed.

(** *** Convergence *)

(** C6. A Ceilometer converges: take one that is not being deleted, with
    conditions of its own kind, and any number of passes during which anything
    may be answered, calls fail, patches are lost and handlers panic.  Once the
    environment settles and lets the Ceilometer be deployed, any number of
    passes is possible, and whatever the environment still chooses, after at
    most two of them (finalizer or conditions, then the hash of the inputs)
    every pass writes exactly the service account, transport URL,
    configuration, Keystone service, StatefulSet and Service the spec asks for,
    in this order and with the hash of the inputs, ends without a requeue or an
    error, and leaves a Ceilometer with all conditions True that is Ready. *)
Theorem ceilometer_converges i0 def i :
  notDeleting (cei_Meta i0) = true -> ofTypes ownTypes (conds i0) -> deployable W i0 def ->
  rtc (disturbed unsettledEnv) i0 i ->
  passesLeft W i <= 2 /\
  (forall n, exists ps, length ps = n /\ passes (pass (settledEnv W)) i ps) /\
  (forall ps, passes (pass (settledEnv W)) i ps ->
     Forall (fun '(tr, o, i') => deployed W i0 def tr o i') (drop (passesLeft W i) ps)).
Proof.
  intros Hd Ho Hdep Hst. split_and!.
  - unfold passesLeft. destruct (prepared i); [case_decide|]; lia.
  - intros n. apply passes_exist. intros i'. apply pass_exists; [apply ceilometer_settledEnv_answers|by split_and!].
  - intros ps. apply (passes_converge _ (coming i0)); [by apply ceilometer_approaches|by apply ceilometer_storm_coming].
Qed.
End Passes.

(** ** An environment *)
Definition sampleEnv : Env := {|
  env_secret name _ := (MkSecret name ∅, name +:+ "-hash");
  env_transportSecret := "rabbitmq-transport";
  env_keystone _ := "keystone";
  env_endpoint _ := "http://keystone";
  env_files cms env := <["files" := String.concat "," (tpl_Name <$> cms)]> env;
  env_ksConds := Some [refTrue KeystoneServiceReadyCondition (text "")] |}.

(** A Ceilometer as its user creates it is deployed by the third pass. *)
Lemma ceilometer_converges_witness :
  passesLeft sampleEnv sampleCeilometer = 2 /\
  exists def ps tr o i', length ps = 2 /\
    passes (pass (settledEnv sampleEnv)) sampleCeilometer (ps ++ [(tr, o, i')]) /\
    deployed sampleEnv sampleCeilometer def tr o i'.
Proof.
  split; [by vm_compute|].
  assert (exists def, CeilometerStatefulSet sampleCeilometer (inputHash sampleEnv sampleCeilometer)
    serviceLabels = inl def) as [def Hdef] by (eexists; reflexivity).
  destruct (ceilometer_converges sampleEnv sampleCeilometer def sampleCeilometer) as (_ & Hex & Hall).
  - reflexivity.
  - split; [apply (bool_decide_unpack _); by vm_compute|]. intros c Hc. by apply not_elem_of_nil in Hc.
  - split_and!; [done| |reflexivity|exact Hdef]. eexists. split; reflexivity.
  - apply rtc_once, (disturbed_helper _ (MkKey "openstack" "ceilometer") _ (Errorf "timeout")); exact I.
  - destruct (Hex 3) as (ps & Hl & Hps). destruct ps as [|p1 [|p2 [|[[tr o] i'] [|]]]]; try discriminate Hl.
    exists def, [p1; p2], tr, o, i'. split; [reflexivity|]. split; [exact Hps|].
    specialize (Hall _ Hps). replace (passesLeft sampleEnv sampleCeilometer) with 2 in Hall by (by vm_compute).
    apply Forall_cons in Hall as [Hg _]. exact Hg.
Defined.
End CeilometerSystem.
