(* ===== verification/AutoscalingSystem.v ===== *)
(** * An Autoscaling over several passes

    As for the Ceilometer, the environment of the controller settles ([Env])
    and no call fails.  The controller generates the configuration from the
    database host its status already holds, and learns the host only after
    that: a first deployment has the wrong host.  From any state of an
    Autoscaling that is not being deleted and has no InputReady condition, at
    most four passes are needed before every further pass deploys Aodh with the
    right host and reports it Ready. *)

From stdpp Require Import gmap strings list.
From Stdlib Require Import Bool ZArith Lia.
From S2P Require Import Prelude Condition Api Libs Reference AutoscalingPkg Operator AutoscalingController AodhFacts Passes.

#[local] Open Scope go_scope.

Module AutoscalingSystem.
Import AutoscalingController AodhFacts.

#[global] Instance Autoscaling_controller `{L : ConditionLib} `{F : FinalizerLib} `{C : CommonLib}
  `{V : ServiceLib} : Controller CallE Autoscaling.
Proof.
  refine {| ctl_get := GetAutoscaling; ctl_helper := NewHelper; ctl_patch := PatchInstance;
            ctl_propagate := false; ctl_body := fun _ => reconcileBody; ctl_Reconcile := Reconcile;
            ctl_fetched := fun ev => fetched [ev]; ctl_patched := patchOf |}; done.
Defined.

(** ** A settled environment *)
Record Env := MkEnv {
  env_secret : string -> string -> Secret * string;
  env_transportSecret : string;
  env_memcached : NamespacedName -> Memcached;
  env_heat : NamespacedName -> Heat;
  env_keystone : string -> string;
  env_endpoint : string -> string;
  env_files : list Template -> EnvMap -> EnvMap;
  env_ksConds : Conditions;
  env_epConds : Conditions;
  env_dbHost : string
}.

Definition settledEnv (W : Env) : contract CallE := fun X e =>
  match e in CallE X return X -> Prop with
  | NewHelper _ => fun x => x = None
  | PatchInstance _ => fun x => x = None
  | GetSecret name ns => fun x => x = (Some (env_secret W name ns).1, (env_secret W name ns).2, None)
  | ReconcileRbac _ _ _ => fun x => exists l, x = (l, (emptyResult, None)) /\ rbacDone l
  | FetchTransportURL key => fun x => exists r, x = inl r /\ forall t, r = Some t -> keyOf (tu_Meta t) = key
  | CommitTransportURL t => fun x =>
      exists t' op, x = inl (t', op) /\ tu_SecretName t' = env_transportSecret W
  | SetControllerReference _ m => fun x => exists m', x = inl m' /\ sameButOwners m m'
  | GetMemcached key => fun x => x = inl (env_memcached W key)
  | GetHeat key => fun x => x = inl (env_heat W key)
  | GetKeystoneAPI ns => fun x => x = inl (env_keystone W ns)
  | GetEndpoint api _ => fun x => x = inl (env_endpoint W api)
  | EnsureSecrets _ cms env => fun x => x = inl (env_files W cms env)
  | KeystoneServiceCreateOrPatch _ _ _ _ => fun x => x = (env_ksConds W, (emptyResult, None))
  | CreateOrPatchDBByName _ _ => fun x => x = (emptyResult, None)
  | WaitForDBCreated _ => fun x => x = (emptyResult, None)
  | GetDatabaseHostname _ => fun x => x = env_dbHost W
  | DoJob _ _ _ _ _ => fun x => exists ch, x = ((emptyResult, None), ch)
  | StatefulSetCreateOrPatch _ _ => fun x => exists n, x = (n, (emptyResult, None)) /\ (0 < n)%Z
  | RangeEndpoints es => fun x => x ≡ₚ es
  | NewService d _ _ => fun x => exists s, x = inl s /\ rsvc_Details s = d
  | ServiceCreateOrPatch _ _ => fun x => x = (emptyResult, None)
  | GetAPIEndpoint _ _ _ _ => fun x => exists url, x = inl url
  | KeystoneEndpointCreateOrPatch _ _ _ _ _ _ => fun x => x = (env_epConds W, (emptyResult, None))
  | _ => fun _ => True
  end.

(** Before it settles: anything may be answered, but the rbac library reports
    the conditions of the rbac objects only. *)
Definition unsettledEnv : contract CallE := fun X e =>
  match e in CallE X return X -> Prop with
  | ReconcileRbac _ _ _ => fun x => Forall (fun c => cond_Type c ∈ rbacTypes) x.1
  | _ => fun _ => True
  end.

(** ** What a pass writes *)
Inductive Write :=
| WroteRbac (name ns : string) (rules : list PolicyRule)
| WroteTransportURL (key : NamespacedName) (cluster : string)
| WroteSecrets (cms : list Template)
| WroteKeystoneService (spec : KeystoneServiceSpec) (ns : string) (labels : gmap string string)
| WroteDatabase (db : Database) (name : string)
| RanJob (job : Job)
| WroteStatefulSet (def : StatefulSet)
| WroteService (d : GenericServiceDetails)
| WroteKeystoneEndpoints (ns : string) (endpoints : gmap string string).

Definition writeOf (ev : event CallE) : option Write :=
  match ev with
  | Ev e _ =>
      match e with
      | ReconcileRbac name ns rules => Some (WroteRbac name ns rules)
      | CommitTransportURL t => Some (WroteTransportURL (keyOf (tu_Meta t)) (tu_RabbitmqClusterName t))
      | EnsureSecrets _ cms _ => Some (WroteSecrets cms)
      | KeystoneServiceCreateOrPatch spec ns labels _ => Some (WroteKeystoneService spec ns labels)
      | CreateOrPatchDBByName db name => Some (WroteDatabase db name)
      | DoJob job _ _ _ _ => Some (RanJob job)
      | StatefulSetCreateOrPatch def _ => Some (WroteStatefulSet def)
      | ServiceCreateOrPatch s _ => Some (WroteService (rsvc_Details s))
      | KeystoneEndpointCreateOrPatch _ ns _ eps _ _ => Some (WroteKeystoneEndpoints ns eps)
      | _ => None
      end
  end.

(** ** The deployment an Autoscaling asks for *)
Section Spec.
Context `{L : ConditionLib} `{F : FinalizerLib} `{C : CommonLib} `{V : ServiceLib}.
Variable W : Env.

Definition ospSecret (i : Autoscaling) : Secret * string := env_secret W (aodh_Secret (aodhOf i)) (nsOf i).
Definition transportSecret (i : Autoscaling) : Secret * string :=
  env_secret W (env_transportSecret W) (nsOf i).
Definition memcachedOf (i : Autoscaling) : Memcached :=
  env_memcached W (MkKey (nsOf i) (aodh_MemcachedInstance (aodhOf i))).
Definition heatOf (i : Autoscaling) : Heat :=
  env_heat W (MkKey (nsOf i) (ascs_HeatInstance (asc_Spec i))).

(** The object with what the templates read of the status: the database host,
    and the host and port of Prometheus. *)
Definition withHosts (host : string) (i : Autoscaling) : Autoscaling :=
  let s := asc_Status i in
  MkAutoscaling (asc_Kind i) (asc_Meta i) (asc_Spec i)
    (MkAutoscalingStatus (asct_ReadyCount s) (asct_Hash s) (asct_Conditions s) (asct_Networks s)
       (asct_TransportURLSecret s) host
       (if String.eqb (ascs_PrometheusHost (asc_Spec i)) ""
        then MetricStoragePkg.DefaultServiceName +:+ "-prometheus." +:+ nsOf i +:+ ".svc"
        else ascs_PrometheusHost (asc_Spec i))
       (if (ascs_PrometheusPort (asc_Spec i) =? 0)%Z then MetricStoragePkg.DefaultPrometheusPort
        else ascs_PrometheusPort (asc_Spec i))
       (asct_APIEndpoints s)).

(** The files, with a database host. *)
Definition rendered (host : string) (i : Autoscaling) : list Template :=
  aodhTemplates (withHosts host i) (env_endpoint W (env_keystone W (nsOf i)))
    (ospSecret i).1 (transportSecret i).1 (memcachedOf i).

(** The hashes of all inputs. *)
Definition inputs (host : string) (i : Autoscaling) : EnvMap :=
  env_files W (rendered host i)
    (<["secret-" +:+ sec_Name (transportSecret i).1 := (transportSecret i).2]>
      (<["secret-" +:+ sec_Name (ospSecret i).1 := (ospSecret i).2]> ∅)).

Definition inputHash (host : string) (i : Autoscaling) : string :=
  (ObjectHash (MergeEnvs [] (inputs host i))).1.

(** A True condition is mirrored. *)
Definition mirrorsTrue (cs : Conditions) (t : CondType) : Prop := exists c,
  Mirror cs t = Some c /\ cond_Status c = ConditionTrue.

(** The environment lets the Autoscaling be deployed as [def]. *)
Definition deployable (i : Autoscaling) (def : StatefulSet) : Prop :=
  env_transportSecret W <> "" /\ mc_IsReady (memcachedOf i) = true /\ heat_IsReady (heatOf i) = true /\
  mirrorsTrue (env_ksConds W) KeystoneServiceReadyCondition /\
  mirrorsTrue (env_epConds W) KeystoneEndpointReadyCondition /\
  (forall host, (ObjectHash (MergeEnvs [] (inputs host i))).2 = None) /\
  AodhStatefulSet i (inputHash (env_dbHost W) i) serviceLabels = inl def.

Definition endpointData : EndpointData := MkEndpointData AodhAPIPort None "".

(** Both services, in either order, then their URLs for Keystone. *)
Definition exposes (i : Autoscaling) (ws : list Write) (eps : gmap string string) : Prop :=
  exists svcs, ws = svcs ++ [WroteKeystoneEndpoints (nsOf i) eps] /\
    svcs ≡ₚ [WroteService (serviceDetails i EndpointInternal endpointData);
             WroteService (serviceDetails i EndpointPublic endpointData)] /\
    dom eps = {[ endpointStr EndpointInternal; endpointStr EndpointPublic ]}.

(** What comes before. *)
Definition groundwork (i : Autoscaling) : list Write :=
  [WroteRbac (Autoscaling_RbacResourceName i) (nsOf i) rbacRules;
   WroteTransportURL (MkKey (nsOf i) transportURLName) (aodh_RabbitMqClusterName (aodhOf i))].
Definition deployment (host : string) (i : Autoscaling) (def : StatefulSet) : list Write :=
  groundwork i ++
  [WroteSecrets (rendered host i);
   WroteKeystoneService (keystoneServiceOf i) (nsOf i) serviceLabels;
   WroteDatabase (databaseOf i) (aodh_DatabaseInstance (aodhOf i));
   RanJob (DbSyncJob i serviceLabels);
   WroteStatefulSet def].

(** The conditions of an Autoscaling; InputReady is not one of them. *)
Definition ownTypes : list CondType :=
  [ServiceAccountReadyCondition; RoleReadyCondition; RoleBindingReadyCondition; HeatReadyCondition;
   MemcachedReadyCondition; ServiceConfigReadyCondition; DBReadyCondition; DBSyncReadyCondition;
   RabbitMqTransportURLReadyCondition; DeploymentReadyCondition; KeystoneServiceReadyCondition;
   KeystoneEndpointReadyCondition; ExposeServiceReadyCondition].

Definition prepared (i : Autoscaling) : bool :=
  bool_decide (finalizer ∈ meta_Finalizers (asc_Meta i)) && bool_decide (conds i <> None).

Definition hostOf (i : Autoscaling) : string := asct_DatabaseHostname (asc_Status i).

(** The recorded hash is the one of the configuration with the recorded host. *)
Definition recorded (i : Autoscaling) : bool :=
  bool_decide (inputHashOf i = Some (inputHash (hostOf i) i)).

(** The passes that are needed before the one that deploys with the right host. *)
Definition passesLeft (i : Autoscaling) : nat :=
  if prepared i then
    if decide (hostOf i = env_dbHost W) then if recorded i then 0 else 1
    else if recorded i then 2 else 3
  else 4.

(** Only the override of the service may differ: the controller fills it in. *)
Definition bare (s : AutoscalingSpec) : AutoscalingSpec :=
  let a := ascs_Aodh s in
  MkAutoscalingSpec (ascs_PrometheusHost s) (ascs_PrometheusPort s)
    (MkAodh (aodh_RabbitMqClusterName a) (aodh_DatabaseInstance a) (aodh_DatabaseUser a)
       (aodh_PasswordSelectors a) (aodh_ServiceUser a) (aodh_Secret a) (aodh_CustomServiceConfig a)
       (aodh_DefaultConfigOverwrite a) (aodh_NetworkAttachmentDefinitions a)
       (MkAPIOverride None) (aodh_PreserveJobs a) (aodh_MemcachedInstance a) (aodh_APIImage a)
       (aodh_EvaluatorImage a) (aodh_NotifierImage a) (aodh_ListenerImage a))
    (ascs_HeatInstance s).

(** The same Autoscaling: kind, metadata up to the finalizers, and spec up to the
    override. *)
Definition same (i0 i : Autoscaling) : Prop :=
  asc_Kind i = asc_Kind i0 /\ sameMeta (asc_Meta i0) (asc_Meta i) /\
  bare (asc_Spec i) = bare (asc_Spec i0).

Lemma autoscaling_same_refl i : same i i.
Proof. split_and!; [done|apply sameMeta_refl|done]. Qed.

(** A pass that deploys [i] and leaves [i']. *)
Definition deployed (i : Autoscaling) (def : StatefulSet) (tr : list (event CallE)) (o : outcome RE)
    (i' : Autoscaling) : Prop :=
  o = Val (emptyResult, None) /\
  (exists ws eps, omap writeOf tr = deployment (env_dbHost W) i def ++ ws /\ exposes i ws eps /\
     asct_APIEndpoints (asc_Status i') = Some eps) /\
  same i i' /\ inputHashOf i' = Some (inputHash (env_dbHost W) i) /\ hostOf i' = env_dbHost W /\
  (0 < asct_ReadyCount (asc_Status i'))%Z /\
  asct_Networks (asc_Status i') = aodh_NetworkAttachmentDefinitions (aodhOf i) /\
  allTrue (conds i') /\ Autoscaling_IsReady i' = true.
End Spec.

(** ** Passes in a settled environment *)
Section Passes.
Context `{L : ConditionLib} `{LL : !ConditionLaws L} `{F : FinalizerLib} `{FL : !FinalizerLaws F}.
Context `{C : CommonLib} `{CL : !CommonLaws C} `{V : ServiceLib} `{VL : !ServiceLaws V}.
Variable W : Env.

Ltac env_step := settled_step ltac:(fun H => cbv beta iota delta [settledEnv] in H).

(** A type of the own conditions. *)
Ltac own_type := apply (bool_decide_unpack _); by vm_compute.

(** Up to the generated configuration, nothing else changes. *)
Record stage (i0 : Autoscaling) (P : CondType -> Prop) (i : Autoscaling) : Prop := {
  stage_kind : asc_Kind i = asc_Kind i0;
  stage_meta : asc_Meta i = asc_Meta i0;
  stage_spec : asc_Spec i = asc_Spec i0;
  stage_hash : asct_Hash (asc_Status i) = asct_Hash (asc_Status i0);
  stage_host : hostOf i = hostOf i0;
  stage_transport : asct_TransportURLSecret (asc_Status i) = env_transportSecret W;
  stage_conds : onWay ownTypes P (conds i)
}.

(** Pending after the rbac objects, the transport URL, memcached and Heat. *)
Definition inputsPending (t : CondType) : Prop :=
  ((((t ∈ ownTypes /\ t ∉ rbacTypes) /\ t <> ServiceConfigReadyCondition) /\
    t <> RabbitMqTransportURLReadyCondition) /\ t <> MemcachedReadyCondition) /\ t <> HeatReadyCondition.

Lemma autoscaling_reconcileNormal_inputs i Q :
  env_transportSecret W <> "" -> mc_IsReady (memcachedOf W i) = true -> heat_IsReady (heatOf W i) = true ->
  ofTypes ownTypes (conds i) ->
  (forall tr i1, stage i inputsPending i1 ->
     omap writeOf tr = groundwork i ->
     wpM (settledEnv W)
       (configure (<["secret-" +:+ sec_Name (transportSecret W i).1 := (transportSecret W i).2]>
          (<["secret-" +:+ sec_Name (ospSecret W i).1 := (ospSecret W i).2]> ∅)) (memcachedOf W i)) i1
       (fun tr' => Q (tr ++ tr'))) ->
  wpM (settledEnv W) reconcileNormal i Q.
Proof.
  intros Hts Hmc Hheat Ho Hk. unfold reconcileNormal, reconcileRbac, modifyConds.
  do 6 env_step. pose proof (rbacDone_onWay ownTypes _ (conds i) ltac:(set_solver) Hx Ho) as Hw. do 4 env_step.
  unfold requireServices, transportURLCreateOrUpdate, setTransportURLSecret, getSecret,
    getAutoscalingMemcached, getAutoscalingHeat, setStatus, markTrue, modifyConds.
  repeat env_step.
  - exfalso. apply Hts. rewrite <-Hx2. by apply String.eqb_eq.
  - apply negb_true_iff in Heqb0. by destruct (eq_true_false_abs _ Hmc Heqb0).
  - apply negb_true_iff in Heqb1. by destruct (eq_true_false_abs _ Hheat Heqb1).
  - destruct Hx1 as (Hkey & _ & _). simpl. rewrite Hx2. refine (Hk [_; _; _; _; _; _; _; _] _ _ _).
    + split; [done|done|done|done|done|done|].
      by do 4 (apply onWay_MarkTrue; [own_type|]).
    + assert (keyOf y1 = MkKey (nsOf i) transportURLName) as Hk1.
      { rewrite Hkey. destruct y0; [exact (Hx0 _ eq_refl)|done]. }
      simpl. by rewrite Hk1.
Qed.

(** The object with another hash. *)
Definition withHash (h : option (gmap string string)) (i : Autoscaling) : Autoscaling :=
  let s := asc_Status i in
  MkAutoscaling (asc_Kind i) (asc_Meta i) (asc_Spec i)
    (MkAutoscalingStatus (asct_ReadyCount s) h (asct_Conditions s) (asct_Networks s)
       (asct_TransportURLSecret s) (asct_DatabaseHostname s) (asct_PrometheusHost s)
       (asct_PrometheusPort s) (asct_APIEndpoints s)).

(** The generated configuration, and whether its hash is the recorded one. *)
Lemma autoscaling_configure_env i0 i Q : stage i0 inputsPending i ->
  let host := hostOf i0 in
  (ObjectHash (MergeEnvs [] (inputs W host i0))).2 = None ->
  (forall tr h, omap writeOf tr = [WroteSecrets (rendered W host i0)] ->
     inputHashOf i0 <> Some (inputHash W host i0) ->
     h !! InputHashName = Some (inputHash W host i0) ->
     Q tr (withHash (Some h) (withHosts host i)) (Val (emptyResult, None))) ->
  (forall tr, omap writeOf tr = [WroteSecrets (rendered W host i0)] ->
     inputHashOf i0 = Some (inputHash W host i0) ->
     wpM (settledEnv W) (
       putHash InputHashName (inputHash W host i0) ;;;
       let* re := reconcileInit serviceLabels in
       resultFirst re (
       let* re := reconcileNormalAodh (inputHash W host i0) in
       resultFirst re (ret (emptyResult, None)))) (withHosts host i) (fun tr' => Q (tr ++ tr'))) ->
  wpM (settledEnv W)
    (configure (<["secret-" +:+ sec_Name (transportSecret W i0).1 := (transportSecret W i0).2]>
       (<["secret-" +:+ sec_Name (ospSecret W i0).1 := (ospSecret W i0).2]> ∅)) (memcachedOf W i0)) i Q.
Proof.
  intros [Hki Hm Hs Hh Hho Ht Hc] host Herr Hrec Hdep.
  destruct i as [kind m sp [rc ha cs ne tu dh ph pp ae]]. unfold hostOf in Hho. simpl in Hki, Hm, Hs, Hh, Hho, Ht.
  subst kind m sp ha tu dh.
  unfold configure, setPrometheusEndpoint, setPrometheus, generateServiceConfig, setStatus.
  repeat env_step. simpl. unfold createHashOfInputHashes.
  match goal with |- context [ObjectHash (MergeEnvs [] ?e)] => change e with (inputs W host i0) end.
  unfold inputHash, inputHashOf in *.
  destruct (ObjectHash (MergeEnvs [] (inputs W host i0))) as [hash err]. simpl in *. subst err.
  pose proof (SetHash_flag (asct_Hash (asc_Status i0)) InputHashName hash) as Hflag.
  pose proof (SetHash_lookup (asct_Hash (asc_Status i0)) InputHashName hash) as Hlook.
  env_step. env_step. simpl. destruct (SetHash _ _ _) as [hm changed]. simpl in Hflag, Hlook. destruct changed.
  - unfold setHash, setStatus. repeat env_step. simpl.
    apply (Hrec [_; _; _; _; _] hm); [done| |done]. intros Hi. by apply Hflag in Hi.
  - do 3 env_step. simpl. apply (Hdep [_; _; _; _; _]); [done|by apply Hflag].
Qed.

(** The Keystone service, the database and its sync job. *)
Lemma autoscaling_reconcileInit_env i Q h : asct_Hash (asc_Status i) = Some h ->
  mirrorsTrue (env_ksConds W) KeystoneServiceReadyCondition ->
  (forall tr h' cs, omap writeOf tr =
       [WroteKeystoneService (keystoneServiceOf i) (nsOf i) serviceLabels;
        WroteDatabase (databaseOf i) (aodh_DatabaseInstance (aodhOf i)); RanJob (DbSyncJob i serviceLabels)] ->
     h' !! InputHashName = h !! InputHashName ->
     (forall P, onWay ownTypes P (conds i) -> onWay ownTypes (fun t => ((P t /\
        t <> KeystoneServiceReadyCondition) /\ t <> DBReadyCondition) /\ t <> DBSyncReadyCondition) cs) ->
     let s := asc_Status i in
     Q tr (MkAutoscaling (asc_Kind i) (asc_Meta i) (asc_Spec i)
             (MkAutoscalingStatus (asct_ReadyCount s) (Some h') cs (asct_Networks s)
                (asct_TransportURLSecret s) (env_dbHost W) (asct_PrometheusHost s)
                (asct_PrometheusPort s) (asct_APIEndpoints s)))
       (Val (emptyResult, None))) ->
  wpM (settledEnv W) (reconcileInit serviceLabels) i Q.
Proof.
  intros Hh (c & Hmir & Hc) HQ. destruct i as [kind m sp [rc ha cs0 ne tu dh ph pp ae]]. simpl in Hh. subst ha.
  unfold reconcileInit, reconcileInitAodh, dbNotReady, dbSync, mirrorInto, ensureHash, putHash, setDatabaseHostname,
    setHash, setStatus, markTrue, modifyConds.
  assert (forall P, onWay ownTypes P cs0 -> onWay ownTypes (fun t => ((P t /\
      t <> KeystoneServiceReadyCondition) /\ t <> DBReadyCondition) /\ t <> DBSyncReadyCondition)
    (MarkTrue (MarkTrue (Set_ cs0 (Some c)) DBReadyCondition (lib "DBReadyMessage"))
       DBSyncReadyCondition (lib "DBSyncReadyMessage"))) as Hw.
  { intros P HP. pose proof (Mirror_type _ _ _ Hmir) as Hct. do 2 (apply onWay_MarkTrue; [own_type|]).
    rewrite <-Hct. apply onWay_Set; [rewrite Hct; own_type|done|done]. }
  do 7 env_step. rewrite Hmir. repeat env_step.
  - apply (HQ [_; _; _; _; _; _]); [done| |exact Hw]. match goal with H : asct_Hash _ = Some _ |- _ => simpl in H; simplify_eq end.
    apply lookup_insert_ne. intros He. by apply InputHashName_other.
  - match goal with H : asct_Hash _ = None |- _ => discriminate H end.
  - by apply (HQ [_; _; _; _; _; _] h).
Qed.

(** Nothing but the override has changed. *)
Definition touched (i i' : Autoscaling) : Prop :=
  asc_Kind i' = asc_Kind i /\ asc_Meta i' = asc_Meta i /\ asc_Status i' = asc_Status i /\
  bare (asc_Spec i') = bare (asc_Spec i).

(** One round of the loop over the endpoints. *)
Lemma exposeEndpoint_env e d i (Q : list (event CallE) -> Autoscaling -> outcome (string + RE) -> Prop) :
  (forall tr url i', omap writeOf tr = [WroteService (serviceDetails i e d)] -> touched i i' ->
     Q tr i' (Val (inl url))) ->
  wpM (settledEnv W) (exposeEndpoint e d) i Q.
Proof.
  intros HQ. unfold exposeEndpoint, setOverride.
  repeat env_step; apply (HQ [_; _; _]); try (by split_and!); simpl; by rewrite Hx.
Qed.

Lemma exposeLoop_env es acc i (Q : list (event CallE) -> Autoscaling -> outcome (gmap string string + RE) -> Prop) :
  (forall tr us i', omap writeOf tr = (fun '(e, d) => WroteService (serviceDetails i e d)) <$> es ->
     length us = length es -> touched i i' -> Q tr i' (Val (inl (publish acc es us)))) ->
  wpM (settledEnv W) (exposeLoop es acc) i Q.
Proof.
  revert acc i Q. induction es as [|[e d] es IH]; intros acc i Q HQ; simpl.
  { env_step. by apply (HQ [] [] i). }
  env_step. apply exposeEndpoint_env. intros tr url i1 Htr (Hk & Hm & Hs & Hb). cbv beta iota.
  apply IH. intros tr' us i2 Htr' Hl (Hk' & Hm' & Hs' & Hb').
  apply (HQ _ (url :: us)); [|simpl; by rewrite Hl|split_and!; congruence].
  rewrite omap_app, Htr, Htr'. simpl. unfold serviceDetails, nsOf. by rewrite Hm.
Qed.

(** Go visits the two endpoints in either order. *)
Lemma publish_pair i order us : order ≡ₚ aodhEndpoints -> length us = length order ->
  ((fun '(e, d) => WroteService (serviceDetails i e d)) <$> order) ≡ₚ
    [WroteService (serviceDetails i EndpointInternal endpointData);
     WroteService (serviceDetails i EndpointPublic endpointData)] /\
  dom (publish ∅ order us) = ({[ endpointStr EndpointInternal; endpointStr EndpointPublic ]} : gset string).
Proof.
  intros Hord Hl. symmetry in Hord. destruct (Permutation_length_2_inv Hord) as [->| ->];
    destruct us as [|u1 [|u2 [|]]]; simplify_eq/=; (split; [done || apply perm_swap|]);
    unfold publish; simpl; set_solver.
Qed.

(** The services and the Keystone endpoints. *)
Lemma exposeAodh_env i Q : mirrorsTrue (env_epConds W) KeystoneEndpointReadyCondition ->
  (forall tr i' eps ws, omap writeOf tr = ws -> exposes i ws eps ->
     asc_Kind i' = asc_Kind i -> asc_Meta i' = asc_Meta i -> bare (asc_Spec i') = bare (asc_Spec i) ->
     asct_APIEndpoints (asc_Status i') = Some eps ->
     asct_Hash (asc_Status i') = asct_Hash (asc_Status i) -> hostOf i' = hostOf i ->
     asct_ReadyCount (asc_Status i') = asct_ReadyCount (asc_Status i) ->
     asct_Networks (asc_Status i') = asct_Networks (asc_Status i) ->
     (forall P, onWay ownTypes P (conds i) -> onWay ownTypes (fun t => (P t /\
        t <> ExposeServiceReadyCondition) /\ t <> KeystoneEndpointReadyCondition) (conds i')) ->
     is_Some (getCond (conds i') KeystoneEndpointReadyCondition) ->
     Q tr i' (Val (emptyResult, None))) ->
  wpM (settledEnv W) exposeAodh i Q.
Proof.
  intros (c & Hmir & Hc) HQ. unfold exposeAodh. env_step.
  apply wpM_call. intros order Hord. cbv beta iota delta [settledEnv] in Hord. cbv beta iota. env_step.
  apply exposeLoop_env. intros tr us i1 Htr Hl (Hk & Hm & Hs & Hb). cbv beta iota.
  unfold mirrorInto, setAPIEndpoints, setStatus, markTrue, modifyConds. do 9 env_step. rewrite Hmir.
  repeat env_step.
  destruct i1 as [kind m sp st]. simpl in Hk, Hm, Hs, Hb. subst kind m st.
  pose proof (Mirror_type _ _ _ Hmir) as Hct.
  eapply HQ; [reflexivity| |done|done|exact Hb|reflexivity|done|done|done|done| |].
  - simpl. rewrite omap_app, Htr. simpl.
    destruct (publish_pair i order us Hord Hl) as [Hsvc Hdom].
    eexists. split_and!; [reflexivity|exact Hsvc|exact Hdom].
  - intros P HP. rewrite <-Hct.
    apply onWay_Set; [rewrite Hct; own_type|done|]. by apply onWay_MarkTrue; [own_type|].
  - rewrite <-Hct. eexists. apply Set_get.
Qed.

(** Aodh from the StatefulSet on. *)
Lemma reconcileNormalAodh_env i hash def Q :
  AodhStatefulSet i hash serviceLabels = inl def ->
  mirrorsTrue (env_epConds W) KeystoneEndpointReadyCondition ->
  (forall tr i' eps ws, omap writeOf tr = WroteStatefulSet def :: ws -> exposes i ws eps ->
     asc_Kind i' = asc_Kind i -> asc_Meta i' = asc_Meta i -> bare (asc_Spec i') = bare (asc_Spec i) ->
     asct_APIEndpoints (asc_Status i') = Some eps ->
     asct_Hash (asc_Status i') = asct_Hash (asc_Status i) -> hostOf i' = hostOf i ->
     (0 < asct_ReadyCount (asc_Status i'))%Z ->
     asct_Networks (asc_Status i') = aodh_NetworkAttachmentDefinitions (aodhOf i) ->
     (forall P, onWay ownTypes P (conds i) -> onWay ownTypes (fun t => ((P t /\
        t <> DeploymentReadyCondition) /\ t <> ExposeServiceReadyCondition) /\
        t <> KeystoneEndpointReadyCondition) (conds i')) ->
     is_Some (getCond (conds i') KeystoneEndpointReadyCondition) ->
     Q tr i' (Val (emptyResult, None))) ->
  wpM (settledEnv W) (reconcileNormalAodh hash) i Q.
Proof.
  intros Hdef Hmir HQ. unfold reconcileNormalAodh, setReadyCount, setNetworks, setStatus, markTrue, modifyConds.
  env_step. env_step. rewrite Hdef. do 7 env_step. rewrite (proj2 (Z.ltb_lt 0 y)) by done. repeat env_step.
  apply exposeAodh_env; [done|].
  intros tr i' eps ws Htr Hws Hk Hm Hb He Hh Hho Hn Hne Hw Hs. simpl in Hn, Hne. cbv beta iota.
  eapply HQ; [exact (f_equal (cons _) Htr)|exact Hws|exact Hk|exact Hm|exact Hb|exact He|exact Hh|exact Hho|
    by rewrite Hn|exact Hne| |exact Hs].
  intros P HP. apply Hw. by apply onWay_MarkTrue; [own_type|].
Qed.

(** From the recorded hash on. *)
Lemma autoscaling_recorded_env i0 i def Q : stage i0 inputsPending i ->
  mirrorsTrue (env_ksConds W) KeystoneServiceReadyCondition ->
  mirrorsTrue (env_epConds W) KeystoneEndpointReadyCondition ->
  let hash := inputHash W (hostOf i0) i0 in
  inputHashOf i0 = Some hash -> AodhStatefulSet i0 hash serviceLabels = inl def ->
  (forall tr i' eps ws, omap writeOf tr = drop 3 (deployment W (hostOf i0) i0 def) ++ ws ->
     exposes i0 ws eps ->
     asc_Kind i' = asc_Kind i0 -> asc_Meta i' = asc_Meta i0 -> bare (asc_Spec i') = bare (asc_Spec i0) ->
     asct_APIEndpoints (asc_Status i') = Some eps ->
     inputHashOf i' = Some hash -> hostOf i' = env_dbHost W ->
     (0 < asct_ReadyCount (asc_Status i'))%Z ->
     asct_Networks (asc_Status i') = aodh_NetworkAttachmentDefinitions (aodhOf i0) ->
     ofTypes ownTypes (conds i') -> allTrue (conds i') -> Autoscaling_IsReady (finish i') = true ->
     Q tr i' (Val (emptyResult, None))) ->
  wpM (settledEnv W) (
    putHash InputHashName hash ;;;
    let* re := reconcileInit serviceLabels in
    resultFirst re (
    let* re := reconcileNormalAodh hash in
    resultFirst re (ret (emptyResult, None)))) (withHosts (hostOf i0) i) Q.
Proof.
  intros [Hki Hm Hs Hh Hho Ht Hc] Hks Hep hash Hrec Hdef HQ.
  destruct i as [kind m sp [rc ha cs ne tu dh ph pp ae]]. unfold hostOf in Hho. simpl in Hki, Hm, Hs, Hh, Hho, Ht.
  subst kind m sp ha tu dh. unfold inputHashOf in Hrec.
  destruct (asct_Hash (asc_Status i0)) as [h|] eqn:Hh0; [|done]. simpl in Hrec.
  unfold putHash, setHash, setStatus. do 3 env_step. simpl. repeat env_step.
  eapply autoscaling_reconcileInit_env; [reflexivity|done|]. intros tr h' cs' Htr Hh' Hw'. cbv beta iota. unfold resultFirst.
  repeat env_step. apply (reconcileNormalAodh_env _ _ def); [exact Hdef|done|].
  intros tr2 i2 eps ws Htr2 Hws Hk2 Hm2 Hb2 He2 Hh2 Hho2 Hn2 Hne2 Hw2 [c Hsome]. simpl in Hh2, Hho2.
  cbv beta iota. repeat env_step.
  pose proof (Hw2 _ (Hw' _ Hc)) as Hw.
  assert (allTrue (conds i2)) as Ha.
  { eapply onWay_done; [exact Hw|]. unfold inputsPending, ownTypes, rbacTypes. set_solver. }
  eapply HQ; [|exact Hws|exact Hk2|exact Hm2|exact Hb2|exact He2| |exact Hho2|exact Hn2|exact Hne2|apply Hw|done|].
  - rewrite !app_nil_l, app_nil_r, omap_app, Htr, Htr2. done.
  - unfold inputHashOf. rewrite Hh2. simpl. rewrite Hh'. apply lookup_insert_eq.
  - exact (allTrue_ready _ KeystoneEndpointReadyCondition c Ha ltac:(done) Hsome).
Qed.

(** *** One pass *)

(** The deployment depends on nothing else. *)
Ltac same_fields i0 i :=
  destruct i as [? m [? ? [] ?] ?], i0 as [? [] [? ? [] ?] ?];
  intros (? & [? ?] & [= ]); by simplify_eq/=.

Lemma autoscaling_same_inputs host i0 i : same i0 i -> inputs W host i = inputs W host i0.
Proof. same_fields i0 i. Qed.
Lemma same_sts hash i0 i : same i0 i ->
  AodhStatefulSet i hash serviceLabels = AodhStatefulSet i0 hash serviceLabels.
Proof. same_fields i0 i. Qed.
Lemma autoscaling_same_deployment host def i0 i : same i0 i -> deployment W host i def = deployment W host i0 def.
Proof. same_fields i0 i. Qed.
Lemma same_services i0 i : same i0 i -> mc_IsReady (memcachedOf W i) = mc_IsReady (memcachedOf W i0) /\
  heat_IsReady (heatOf W i) = heat_IsReady (heatOf W i0) /\
  aodh_NetworkAttachmentDefinitions (aodhOf i) = aodh_NetworkAttachmentDefinitions (aodhOf i0).
Proof. same_fields i0 i. Qed.
Lemma same_exposes i0 i ws eps : same i0 i -> exposes i ws eps -> exposes i0 ws eps.
Proof. same_fields i0 i. Qed.
Lemma autoscaling_same_hash host i0 i : same i0 i -> inputHash W host i = inputHash W host i0.
Proof. intros H. unfold inputHash. by rewrite (autoscaling_same_inputs host i0 i). Qed.

Lemma autoscaling_same_deployable i0 i def : same i0 i -> deployable W i0 def -> deployable W i def.
Proof.
  intros Hs (H1 & H2 & H3 & H4 & H5 & H6 & H7). destruct (same_services i0 i Hs) as (E1 & E2 & _).
  split_and!; [done|by rewrite E1|by rewrite E2|done|done| |].
  - intros host. by rewrite (autoscaling_same_inputs host i0 i).
  - by rewrite (autoscaling_same_hash _ i0 i), (same_sts _ i0 i).
Qed.

(** Whether there is a StatefulSet does not depend on the hash. *)
Lemma AodhStatefulSet_any i hash hash' labels def : AodhStatefulSet i hash labels = inl def ->
  exists def', AodhStatefulSet i hash' labels = inl def'.
Proof. unfold AodhStatefulSet. destruct (GetNADAnnotation _ _); [eauto|done]. Qed.

(** An Autoscaling on its way to the deployment of [i0]. *)
Definition coming (i0 i : Autoscaling) : Prop :=
  same i0 i /\ notDeleting (asc_Meta i) = true /\ ofTypes ownTypes (conds i).

Lemma autoscaling_coming_finish i0 i : coming i0 i -> coming i0 (finish i).
Proof. intros (Hs & Hd & Ho). split_and!; [apply Hs..|exact Hd|by apply ofTypes_updateReady]. Qed.

Lemma autoscaling_prepared_finish i : finalizer ∈ meta_Finalizers (asc_Meta i) -> prepared (finish i) = true.
Proof.
  intros Hf. apply andb_true_iff. split; apply bool_decide_eq_true; [done|]. apply updateReady_nonnil.
Qed.

Lemma autoscaling_ofTypes_initial : ofTypes ownTypes initialConditions.
Proof.
  eapply ofTypes_mono; [|eapply ofTypes_init; [|]]; cycle 1.
  - cbn [fmap list_fmap]. by rewrite !(fun t r m => proj1 (UnknownCondition_spec t r m)).
  - own_type.
  - unfold ownTypes. set_solver.
Qed.

(** A pass over [i] comes closer. *)
Definition closer (i0 : Autoscaling) (def : StatefulSet) (i : Autoscaling) (tr : list (event CallE))
    (s : Autoscaling) (o : outcome RE) : Prop :=
  coming i0 (finish s) /\ passesLeft W (finish s) <= pred (passesLeft W i) /\
  (passesLeft W i = 0 -> deployed W i0 def tr o (finish s)).

(** The passes that add the finalizer or initialise the conditions. *)
Lemma autoscaling_closer_prepares i0 def i tr s o : prepared i = false -> coming i0 s ->
  finalizer ∈ meta_Finalizers (asc_Meta s) -> closer i0 def i tr s o.
Proof.
  intros Hp Hc Hf. assert (passesLeft W i = 4) as Hl by (unfold passesLeft; by rewrite Hp).
  split_and!; [by apply autoscaling_coming_finish| |by rewrite Hl].
  rewrite Hl. unfold passesLeft. rewrite autoscaling_prepared_finish by done. case_decide; destruct (recorded _ _); lia.
Qed.

(** The pass that records the hash. *)
Lemma autoscaling_closer_records i0 def i tr s o : prepared i = true -> recorded W i = false -> coming i0 s ->
  finalizer ∈ meta_Finalizers (asc_Meta s) -> hostOf s = hostOf i ->
  inputHashOf s = Some (inputHash W (hostOf i) i0) -> closer i0 def i tr s o.
Proof.
  intros Hp Hr Hc Hf Hho Hh. pose proof (autoscaling_coming_finish i0 s Hc) as Hc'.
  assert (recorded W (finish s) = true) as Hr'.
  { apply bool_decide_eq_true. unfold hostOf in *. simpl. rewrite Hho.
    by rewrite (autoscaling_same_hash _ i0) by apply Hc'. }
  assert (hostOf (finish s) = hostOf i) as Hho' by done.
  unfold closer, passesLeft. rewrite (autoscaling_prepared_finish s Hf), Hp, Hr', Hr, Hho'.
  split_and!; [done|case_decide; lia|by case_decide].
Qed.

(** A pass that deploys, with the recorded host, learns the right one. *)
Lemma deployed_left i0 i s : prepared i = true -> recorded W i = true -> coming i0 s ->
  finalizer ∈ meta_Finalizers (asc_Meta s) -> hostOf s = env_dbHost W ->
  inputHashOf s = Some (inputHash W (hostOf i) i0) -> passesLeft W (finish s) <= pred (passesLeft W i).
Proof.
  intros Hp Hr Hc Hf Hho Hh. unfold passesLeft. rewrite Hp, Hr, autoscaling_prepared_finish by done.
  change (hostOf (finish s)) with (hostOf s). rewrite decide_True by done.
  case_decide as Hhost; [|destruct (recorded W (finish s)); simpl; lia].
  assert (recorded W (finish s) = true) as ->; [|done]. apply bool_decide_eq_true.
  change (hostOf (finish s)) with (hostOf s). change (inputHashOf (finish s)) with (inputHashOf s).
  by rewrite Hh, Hho, Hhost, (autoscaling_same_hash _ i0 (finish s)) by (by apply autoscaling_coming_finish).
Qed.

Lemma passesLeft_0 i : prepared i = true -> passesLeft W i = 0 -> hostOf i = env_dbHost W.
Proof. intros Hp. unfold passesLeft. rewrite Hp. case_decide; [done|]. by destruct (recorded _ _). Qed.

(** The passes over a prepared Autoscaling. *)
Lemma autoscaling_normal_approaches i0 def i : deployable W i0 def -> coming i0 i -> prepared i = true ->
  wpM (settledEnv W) reconcileNormal i (closer i0 def i).
Proof.
  intros Hdep (Hs & Hd & Ho) Hp. pose proof Hp as [Hf%bool_decide_eq_true _]%andb_true_iff.
  destruct (autoscaling_same_deployable i0 i def Hs Hdep) as (Hts & Hmc & Hheat & Hks & Hep & Hoh & Hdef).
  destruct (AodhStatefulSet_any _ _ (inputHash W (hostOf i) i) _ _ Hdef) as [def' Hdef'].
  apply autoscaling_reconcileNormal_inputs; [done|done|done|done|]. intros tr i2 Hst Hw2.
  apply (autoscaling_configure_env i); [done|done| |].
  - intros tr' h Htr' Hne Hh. destruct Hst as [Hk2 Hm2 Hsp2 _ Hho2 _ Hc2]. apply autoscaling_closer_records; [done| | | |done|].
    + by apply bool_decide_eq_false.
    + split_and!; [split_and!; simpl; rewrite ?Hk2, ?Hm2, ?Hsp2; apply Hs|simpl; by rewrite Hm2|apply Hc2].
    + simpl. by rewrite Hm2.
    + by rewrite <-(autoscaling_same_hash _ i0 i).
  - intros tr' Htr' Hrec. apply (autoscaling_recorded_env i _ def'); [done|done|done|done|done|].
    intros tr3 i3 eps ws Htr3 Hws Hk3 Hm3 Hb3 He3 Hh3 Hho3 Hn3 Hne3 Ho3 Ha3 Hr3.
    assert (coming i0 i3) as Hc3.
    { split_and!; [split_and!; rewrite ?Hk3, ?Hm3, ?Hb3; apply Hs|by rewrite Hm3|done]. }
    rewrite (autoscaling_same_hash _ i0 i Hs) in Hh3. split_and!; [by apply autoscaling_coming_finish| |].
    { apply (deployed_left i0); [done|by apply bool_decide_eq_true|done|by rewrite Hm3|done|done]. }
    intros H0. rewrite (passesLeft_0 i Hp H0) in *. assert (def' = def) as -> by congruence. split_and!; try done.
    + exists ws, eps. split_and!; [|by apply (same_exposes i0 i)|done].
      rewrite !omap_app, Hw2, Htr', Htr3, <-(autoscaling_same_deployment _ _ i0 i) by done. done.
    + apply Hc3.
    + simpl. rewrite Hne3. apply (same_services i0 i Hs).
    + apply allTrue_updateReady; [apply Ho3|done].
Qed.

Lemma autoscaling_body_approaches i0 def i : deployable W i0 def -> coming i0 i ->
  wpM (settledEnv W) reconcileBody i (closer i0 def i).
Proof.
  intros Hdep Hc. pose proof Hc as (Hs & Hd & Ho). unfold reconcileBody. env_step. env_step. rewrite Hd.
  destruct (decide (finalizer ∈ meta_Finalizers (asc_Meta i))) as [Hf|Hf].
  - env_step. apply addFinalizer_present; [done|]. cbv beta iota. env_step. env_step.
    destruct (asct_Conditions (asc_Status i)) as [cs|] eqn:Hcs.
    + unfold ensureHash, setHash, setStatus. repeat env_step; [by rewrite Hd in Heqb|].
      eapply wpM_mono; [|apply (autoscaling_normal_approaches i0 def)]; [|done|done|].
      * intros tr s o H. exact H.
      * apply andb_true_iff. split; apply bool_decide_eq_true; [done|]. unfold conds. simpl. by rewrite Hcs.
    + unfold modifyConds. repeat env_step. apply autoscaling_closer_prepares.
      * unfold prepared, conds. by rewrite Hcs, andb_false_r.
      * split_and!; [apply Hs..|done|apply autoscaling_ofTypes_initial].
      * done.
  - env_step. apply addFinalizer_absent; [done|]. intros fs Hfs. cbv beta iota. env_step.
    apply autoscaling_closer_prepares; [| |simpl; by apply Hfs; right].
    2:{ split; [split_and!; [apply Hs|by apply sameMeta_finalizers, Hs|apply Hs]|by split]. }
    unfold prepared. by rewrite bool_decide_eq_false_2.
Qed.

(** The calls around the body write nothing. *)
Lemma autoscaling_approaches i0 def : deployable W i0 def ->
  approaches (pass (settledEnv W)) (coming i0) (passesLeft W) (deployed W i0 def).
Proof.
  intros Hdep i tr o i' Hc Hp.
  destruct (pass_body _ _ _ _ _ _ Hp (autoscaling_body_approaches i0 def i Hdep Hc))
    as (req & tr' & s & o' & (Hc' & Hl & Hg) & -> & -> & ->).
  split_and!; [done|done|]. intros H0. destruct (Hg H0) as (Ho & Hw & Hrest).
  split_and!; [done| |apply Hrest..]. simpl. by rewrite omap_app, app_nil_r.
Qed.

(** The environment answers every call. *)
Lemma autoscaling_settledEnv_answers : answerable (settledEnv W).
Proof.
  destruct rbacDone_exists as [l Hl]. assert (forall m, sameButOwners m m) as Hm by done.
  intros X []; simpl; try (by eauto).
  all: try (by exists (inr (Errorf ""))).
  all: try (by exists None).
  all: try (by exists (inl None), None).
  - by exists (inl (MkTransportURL (tu_Meta t) "" (env_transportSecret W), OperationResultNone)),
      (MkTransportURL (tu_Meta t) "" (env_transportSecret W)), OperationResultNone.
  - by exists (1%Z, (emptyResult, None)), 1%Z.
  - by exists (inl (MkRoutedService d "" "")), (MkRoutedService d "" "").
  Unshelve. all: exact (false, "") || exact "".
Qed.

(** *** Passes in an environment that has not settled *)

(** A failure to read a secret adds InputReady. *)
Definition surviving (i0 i : Autoscaling) : Prop :=
  same i0 i /\ notDeleting (asc_Meta i) = true /\ ofTypes (InputReadyCondition :: ownTypes) (conds i).

Lemma surviving_conds i0 cs i : surviving i0 i -> ofTypes (InputReadyCondition :: ownTypes) cs ->
  surviving i0 (crSetConds cs i).
Proof. intros (Hs & Hd & _) Ho. split; [exact Hs|]. by split. Qed.
Lemma surviving_meta i0 fs i : surviving i0 i -> surviving i0 (crSetMeta (withFinalizers fs (crMeta i)) i).
Proof.
  intros ((Hk & Hm & Hsp) & Hd & Ho). split; [|by split]. split_and!; [done|by apply sameMeta_finalizers|done].
Qed.
Lemma surviving_finish i0 i : surviving i0 i -> surviving i0 (finish i).
Proof. intros Hs. apply surviving_conds; [done|]. apply ofTypes_updateReady, Hs. Qed.

Ltac surviving_solve :=
  first [ done | by apply surviving_meta
        | apply surviving_conds; [done|];
          types_solve ltac:(idtac; match goal with H : surviving _ _ |- _ => apply H end) ].

Lemma exposeLoop_surviving i0 es acc : Hist unsettledEnv (fun _ => surviving i0) (exposeLoop es acc).
Proof.
  revert acc. induction es as [|[e d] es IH]; intros acc; simpl;
    unfold exposeEndpoint, exposeError, setOverride; hist; surviving_solve.
Qed.
#[local] Hint Resolve exposeLoop_surviving : safe.

Lemma surviving_body i0 : Hist unsettledEnv (fun _ => surviving i0) reconcileBody.
Proof.
  unfold_autoscaling.
  assert (ofTypes (InputReadyCondition :: ownTypes) initialConditions)
    by (eapply ofTypes_mono; [|apply autoscaling_ofTypes_initial]; set_solver).
  hist; surviving_solve.
Qed.

(** Of any Autoscaling a pass keeps the metadata, up to the finalizers. *)
Lemma exposeLoop_meta m0 es acc : Hist unsettledEnv (fun _ i => sameMeta m0 (asc_Meta i)) (exposeLoop es acc).
Proof.
  revert acc. induction es as [|[e d] es IH]; intros acc; simpl;
    unfold exposeEndpoint, exposeError, setOverride; hist; done.
Qed.
#[local] Hint Resolve exposeLoop_meta : safe.

Lemma autoscaling_meta_body m0 : Hist unsettledEnv (fun _ i => sameMeta m0 (asc_Meta i)) reconcileBody.
Proof. unfold_autoscaling. hist; first [done|by apply sameMeta_finalizers]. Qed.

Lemma autoscaling_storm_meta i i' : disturbed unsettledEnv i i' -> sameMeta (asc_Meta i) (asc_Meta i').
Proof.
  intros Hst. eapply (disturbed_keeps unsettledEnv (fun j => sameMeta (asc_Meta i) (asc_Meta j)));
    [done|intros ?; apply autoscaling_meta_body|by apply rtc_once|apply sameMeta_refl].
Qed.

Lemma own_no_input cs : ofTypes ownTypes cs -> getCond cs InputReadyCondition = None.
Proof.
  intros [_ Ho]. destruct (getCond _ _) as [c|] eqn:Hc; [|done]. apply getCond_elem in Hc as [Hin Ht].
  destruct (Ho c Hin) as [|Hbad]; [congruence|]. rewrite Ht in Hbad. by apply (bool_decide_eq_true_2 _) in Hbad.
Qed.

Lemma autoscaling_settled_unsettled X (e : CallE X) x : settledEnv W X e x -> unsettledEnv X e x.
Proof.
  destruct e; try done. intros (l & -> & [Hl _]). eapply Forall_impl; [exact Hl|]. by intros c [Hc _].
Qed.

(** So a storm that has not recorded InputReady leaves the same Autoscaling. *)
Lemma autoscaling_storm_coming i0 i : notDeleting (asc_Meta i0) = true -> ofTypes ownTypes (conds i0) ->
  rtc (disturbed unsettledEnv) i0 i -> getCond (conds i) InputReadyCondition = None -> coming i0 i.
Proof.
  intros Hd Ho Hst Hn.
  assert (surviving i0 i) as (Hs & Hd' & Ho').
  { eapply disturbed_keeps; [apply surviving_finish|intros ?; apply surviving_body|exact Hst|].
    split; [apply autoscaling_same_refl|]. split; [done|]. eapply ofTypes_mono; [|exact Ho]. set_solver. }
  split; [done|]. split; [done|]. by apply (ofTypes_without _ InputReadyCondition).
Qed.

(** *** The override of the service *)

(** Nothing is to be filled in. *)
Definition steadyOverride (s : AutoscalingSpec) : Prop :=
  forall o, ao_Service (aodh_Override (ascs_Aodh s)) = Some o -> ro_EmbeddedLabelsAnnotations o <> None.

(** Then the passes keep the whole spec. *)
Definition specKept (i0 i : Autoscaling) : Prop := steadyOverride (asc_Spec i0) -> asc_Spec i = asc_Spec i0.

Lemma exposeEndpoint_kept i0 e data : Hist anyAnswer (fun _ => specKept i0) (exposeEndpoint e data).
Proof.
  intros h i Hi. unfold exposeEndpoint. wpm_step. wpm_step. cbv zeta. apply wpM_bind.
  destruct (ao_Service _) as [ov|] eqn:Hov.
  - unfold setOverride. wpm_step.
    match goal with |- wpM _ ?m ?s _ => cut (specKept i0 s) end.
    { intros Hs. refine ((_ : Hist anyAnswer (fun _ => specKept i0) _) h _ Hs). unfold exposeError. hist; done. }
    intros Hst. specialize (Hi Hst). simpl. rewrite <-Hi. rewrite <-Hi in Hst. specialize (Hst ov Hov).
    unfold withOverride, svcOverride, aodhOf in *. rewrite Hov. simpl.
    destruct i as [kd mt [ph pp [? ? ? ? ? ? ? ? ? [svc] ? ? ? ? ? ?] hi] stt]. simpl in *. subst svc.
    destruct ov as [[la|] sp url]; [done|by destruct Hst].
  - wpm_step. refine ((_ : Hist anyAnswer (fun _ => specKept i0) _) h i Hi). unfold exposeError. hist; done.
Qed.
#[local] Hint Resolve exposeEndpoint_kept : safe.

Lemma exposeLoop_kept i0 es acc : Hist anyAnswer (fun _ => specKept i0) (exposeLoop es acc).
Proof. revert acc. induction es as [|[e d] es IH]; intros acc; simpl; hist; done. Qed.
#[local] Hint Resolve exposeLoop_kept : safe.

Lemma body_kept i0 : Hist anyAnswer (fun _ => specKept i0) reconcileBody.
Proof.
  unfold_autoscaling.
  hist; done.
Qed.

Lemma storm_kept i0 i i' : rtc (disturbed unsettledEnv) i i' ->
  surviving i0 i /\ specKept i0 i -> surviving i0 i' /\ specKept i0 i'.
Proof.
  intros Hst. apply (disturbed_keeps unsettledEnv (fun i => surviving i0 i /\ specKept i0 i) i i'); [| |done].
  - intros s [Hs Hk]. split; [by apply surviving_finish|exact Hk].
  - intros ? h s [Hs Hk]. apply wpM_and; [exact (surviving_body i0 h s Hs)|].
    apply (wp_strengthen anyAnswer); [done|]. exact (body_kept i0 h s Hk).
Qed.

(** *** Convergence *)

(** C7. An Autoscaling converges: take one that is not being deleted, with
    conditions of its own kind, and any number of passes during which anything
    may be answered, calls fail, patches are lost and handlers panic, but after
    which InputReady is not recorded (a failure to read a secret records it, and
    nothing takes it back).  Once the environment settles and lets the
    Autoscaling be deployed, any number of passes is possible, and whatever the
    environment still chooses (the order of the endpoints, their URLs, whether
    the job has changed), after at most four of them every pass writes exactly
    what the spec asks for, in order: the StatefulSet with the hash of the
    configuration that names the right database host, both services and the
    Keystone endpoints; it ends without a requeue or an error and leaves an
    Autoscaling with all conditions True that is Ready.  The two passes more
    than a Ceilometer needs are those with the wrong host. *)
Theorem autoscaling_converges i0 def i :
  notDeleting (asc_Meta i0) = true -> ofTypes ownTypes (conds i0) -> deployable W i0 def ->
  rtc (disturbed unsettledEnv) i0 i -> getCond (conds i) InputReadyCondition = None ->
  passesLeft W i <= 4 /\
  (forall n, exists ps, length ps = n /\ passes (pass (settledEnv W)) i ps) /\
  (forall ps, passes (pass (settledEnv W)) i ps ->
     Forall (fun '(tr, o, i') => deployed W i0 def tr o i') (drop (passesLeft W i) ps)).
Proof.
  intros Hd Ho Hdep Hst Hn. split_and!.
  - unfold passesLeft. destruct (prepared i), (recorded W i); [case_decide..| |]; lia.
  - intros n. apply passes_exist. intros i'. apply pass_exists; [apply autoscaling_settledEnv_answers|by split_and!].
  - intros ps. apply (passes_converge _ (coming i0)); [by apply autoscaling_approaches|by apply autoscaling_storm_coming].
Qed.
End Passes.

(** ** An environment *)
Definition sampleEnv : Env := {|
  env_secret name _ := (MkSecret name ∅, name +:+ "-hash");
  env_transportSecret := "rabbitmq-transport";
  env_memcached key := MkMemcached (key_Name key) true ["memcached:11211"] ["inet:memcached:11211"];
  env_heat key := MkHeat (key_Name key) true;
  env_keystone _ := "keystone";
  env_endpoint _ := "http://keystone";
  env_files cms env := 
    <["files" := String.concat "," ((fun t => mapGet (tpl_ConfigOptions t) "DatabaseConnection") <$> cms)]> env;
  env_ksConds := Some [refTrue KeystoneServiceReadyCondition (text "")];
  env_epConds := Some [refTrue KeystoneEndpointReadyCondition (text "")];
  env_dbHost := "openstack-db" |}.

(** An Autoscaling as its user creates it is deployed by the fifth pass. *)
Lemma autoscaling_converges_witness :
  passesLeft sampleEnv sampleAutoscaling = 4 /\
  exists def ps tr o i', length ps = 4 /\
    passes (pass (settledEnv sampleEnv)) sampleAutoscaling (ps ++ [(tr, o, i')]) /\
    deployed sampleEnv sampleAutoscaling def tr o i'.
Proof.
  split; [by vm_compute|].
  assert (exists def, AodhStatefulSet sampleAutoscaling
    (inputHash sampleEnv (env_dbHost sampleEnv) sampleAutoscaling) serviceLabels = inl def)
    as [def Hdef] by (eexists; reflexivity).
  destruct (autoscaling_converges sampleEnv sampleAutoscaling def sampleAutoscaling) as (_ & Hex & Hall).
  - reflexivity.
  - split; [apply (bool_decide_unpack _); by vm_compute|]. intros c Hc. by apply not_elem_of_nil in Hc.
  - split_and!; [done|reflexivity|reflexivity| | |intros host; reflexivity|exact Hdef];
      eexists; split; reflexivity.
  - apply rtc_once, (disturbed_helper _ (MkKey "openstack" "autoscaling") _ (Errorf "timeout")); exact I.
  - reflexivity.
  - destruct (Hex 5) as (ps & Hl & Hps).
    destruct ps as [|p1 [|p2 [|p3 [|p4 [|[[tr o] i'] [|]]]]]]; try discriminate Hl.
    exists def, [p1; p2; p3; p4], tr, o, i'. split; [reflexivity|]. split; [exact Hps|].
    specialize (Hall _ Hps). replace (passesLeft sampleEnv sampleAutoscaling) with 4 in Hall by (by vm_compute).
    apply Forall_cons in Hall as [Hg _]. exact Hg.
Defined.
End AutoscalingSystem.
