(* ===== verification/MetricStorageSystem.v ===== *)
(** * A MetricStorage over several passes

    Once the operators of the monitoring stack are installed and answer, and
    the MonitoringStack is reported available, a MetricStorage that is not
    being deleted is deployed and Ready from the second pass on.  The state
    that goes from pass to pass is the stored object and the list of watches
    of the reconciler. *)

From stdpp Require Import gmap strings list.
From Stdlib Require Import Bool ZArith Lia.
From S2P Require Import Prelude Condition Api Libs Reference Webhooks MetricStoragePkg Operator.
From S2P Require Import MetricStorageController Passes.

#[local] Open Scope go_scope.

Module MetricStorageSystem.
Import MetricStorageController.

(** ** A settled environment *)
Definition stackAvailable (cs : list StackCondition) : Prop :=
  cs <> [] /\ Forall (fun c => sc_Status c = "True") cs.

Definition settledEnv : contract CallE := fun X e =>
  match e in CallE X return X -> Prop with
  | NewHelper _ => fun x => x = None
  | PatchInstance _ => fun x => x = None
  | GetCRD _ => fun x => x = None
  | Watch _ => fun x => x = None
  | Fetch k _ => fun x => exists r, x = inl r
  | SetControllerReference _ _ _ => fun x => exists m, x = inl m
  | Commit k o =>
      match k return obj k * OperationResult + GoError -> Prop with
      | StackKind => fun x => exists o' op, x = inl (o', op) /\ stackAvailable (obs_Conditions o')
      | MonitorKind | ScrapeKind => fun x => exists r, x = inl r
      end
  | ListIPSets _ => fun x => exists l, x = inl l
  | ListNodeSets _ => fun x => exists l, x = inl l
  | _ => fun _ => True
  end.

Section Spec.
Context `{L : ConditionLib} `{F : FinalizerLib} `{C : CommonLib}.

(** One pass of a reconciler: from the stored object and its watches. *)
Definition passUnder (ok : contract CallE) (s : ReconcilerState) (tr : list (event CallE)) (o : outcome RE)
    (s' : ReconcilerState) : Prop :=
  exists req, runs (Reconcile (rs_Watching s) req) tr (rs_Watching s', o) /\ Forall (keeps ok) tr /\
    fetched tr = Some (rs_Instance s) /\ last tr ≫= patchOf = Some (rs_Instance s', None).
Definition pass := passUnder settledEnv.

(** One pass while anything may be answered: a patch that fails may still have
    been stored, and the operator may be restarted, which forgets the watches. *)
Definition disturbed (s s' : ReconcilerState) : Prop :=
  exists req tr w o, runs (Reconcile (rs_Watching s) req) tr (w, o) /\ fetched tr = Some (rs_Instance s) /\
    (rs_Watching s' = w \/ rs_Watching s' = []) /\
    (rs_Instance s' = rs_Instance s \/ exists err, last tr ≫= patchOf = Some (rs_Instance s', err)).

(** Either a custom stack, or options a stack can be built from. *)
Definition deployable (i : MetricStorage) : Prop :=
  (mets_CustomMonitoringStack (met_Spec i) <> None \/ mets_MonitoringStack (met_Spec i) <> None) /\
  (usesOptions (mets_CustomMonitoringStack (met_Spec i)) = true ->
   exists d, NewMonitoringStack i serviceLabels = inl d).

Definition ownTypes : list CondType :=
  [MonitoringStackReadyCondition; ServiceMonitorReadyCondition; ScrapeConfigReadyCondition;
   NodeSetReadyCondition].

Definition prepared (i : MetricStorage) : bool :=
  bool_decide (finalizer ∈ meta_Finalizers (met_Meta i)) && bool_decide (crConds i <> None).

Definition passesLeft (s : ReconcilerState) : nat := if prepared (rs_Instance s) then 0 else 1.

(** The same MetricStorage: metadata up to the finalizers, and spec. *)
Definition same (i0 i : MetricStorage) : Prop :=
  sameMeta (met_Meta i0) (met_Meta i) /\ met_Spec i = met_Spec i0.

Lemma metricstorage_same_refl i : same i i.
Proof. split_and!; [apply sameMeta_refl|done]. Qed.

(** A pass that deploys [i] and leaves [s]. *)
Definition ready (i : MetricStorage) (tr : list (event CallE)) (o : outcome RE) (s : ReconcilerState) : Prop :=
  o = Val (emptyResult, None) /\
  (exists st cs m sc, omap written tr = [WroteStack st cs; WroteMonitor m; WroteScrape sc] /\
     stackSpecOk i st /\ monitorOk i m /\ scrapeOk i tr sc) /\
  ["monitoringstacks.monitoring.rhobs"; "servicemonitors.monitoring.rhobs";
   "openstackdataplanenodesets.dataplane.openstack.org"; "scrapeconfigs.monitoring.rhobs"]
    ⊆ rs_Watching s /\
  same i (rs_Instance s) /\
  allTrue (crConds (rs_Instance s)) /\ MetricStorage_IsReady (rs_Instance s) = true.
End Spec.

Section Passes.
Context `{L : ConditionLib} `{LL : !ConditionLaws L} `{F : FinalizerLib} `{FL : !FinalizerLaws F}.
Context `{C : CommonLib} `{CL : !CommonLaws C}.

Ltac env_step := settled_step ltac:(fun H => cbv beta iota delta [settledEnv] in H).

(** *** A pass goes through *)

(** [m] returns something satisfying [P]. *)
Definition gives {A} (P : A -> Prop) (m : SM A) : Prop :=
  forall s, wpM settledEnv m s (fun _ _ o => exists a, o = Val a /\ P a).

Lemma gives_bind {A B} (P : A -> Prop) (Q : B -> Prop) (m : SM A) (f : A -> SM B) :
  gives P m -> (forall a, P a -> gives Q (f a)) -> gives Q (mbindM m f).
Proof.
  intros Hm Hf s. apply wpM_bind. eapply wpM_mono; [|exact (Hm s)]. intros tr s' o (a & -> & Ha).
  eapply wpM_mono; [|exact (Hf a Ha s')]. done.
Qed.

Lemma reads_gives {A} (P : A -> Prop) (m : SM A) : reads P m -> gives P m.
Proof.
  intros Hm s. apply (wp_strengthen anyAnswer); [done|]. eapply wpM_mono; [|exact (Hm s)].
  intros tr s' o (_ & _ & Ho). exact Ho.
Qed.

Lemma gives_conds {A} (P : A -> Prop) f (k : SM A) : gives P k -> gives P (modifyConds f ;;; k).
Proof.
  intros Hk. apply (gives_bind (fun _ => True)); [|done]. intros s. unfold modifyConds. env_step. eauto.
Qed.

Lemma ensureWatches_gives name : gives (fun r => r = None) (ensureWatches name).
Proof. intros s. unfold ensureWatches. repeat env_step; eauto; done. Qed.

Definition isInl {A B} (r : A + B) : Prop := exists a, r = inl a.

Lemma createOrPatch_gives k key fresh mutate :
  (forall o, gives isInl (mutate o)) -> gives isInl (createOrPatch k key fresh mutate).
Proof.
  intros Hm s. unfold createOrPatch. env_step. env_step. env_step.
  eapply wpM_mono; [|apply Hm]. intros tr s' o (r & -> & a & ->). cbv beta iota.
  apply wpM_call. intros x Hx. exists x. split; [done|]. destruct k; simpl in Hx; unfold isInl; naive_solver.
Qed.

Lemma mutateStack_gives i o : deployable i -> gives isInl (mutateStack i serviceLabels o).
Proof.
  intros [_ Hd] s. unfold mutateStack. destruct (usesOptions _); [destruct (Hd eq_refl) as [d ->]|];
    repeat env_step; unfold isInl; eauto.
Qed.

Lemma mutateMonitor_gives i o : gives isInl (mutateMonitor i serviceLabels o).
Proof. intros s. unfold mutateMonitor. repeat env_step. unfold isInl. eauto. Qed.

Lemma mutateScrape_gives i o : gives isInl (mutateScrape i serviceLabels o).
Proof.
  unfold mutateScrape. apply (gives_bind isInl).
  - intros s. unfold getNodeExporterTargets, getIPSetList, getNodeSetList. do 5 env_step.
    eapply wpM_mono; [|apply (reads_gives _ _ (nodeSetLoop_reads _ _ _ [] (Forall_nil_2 _)))].
    intros tr s' r (l & -> & _). cbv beta iota. env_step. unfold isInl. eauto.
  - intros r [ts ->] s. repeat env_step. unfold isInl. eauto.
Qed.

Lemma reconcileNormal_gives s : deployable (rs_Instance s) ->
  wpM settledEnv reconcileNormal s (fun _ _ o => o = Val (emptyResult, None)).
Proof.
  intros Hd. pose proof (proj1 Hd) as Hcfg.
  cut (gives (fun re => re = (emptyResult, None)) (deployStack (rs_Instance s) (deployMonitor (rs_Instance s)
    (watchNodeSets (deployScrape (rs_Instance s) (ret (emptyResult, None))))))).
  { intros H. unfold reconcileNormal. env_step. env_step. cbv zeta.
    assert (forall m : SM RE, gives (fun re => re = (emptyResult, None)) m ->
      wpM settledEnv m s (fun _ _ o => o = Val (emptyResult, None))) as Hm.
    { intros m Hg. eapply wpM_mono; [|exact (Hg s)]. by intros tr s' o (re & -> & ->). }
    destruct (mets_CustomMonitoringStack _); [by apply Hm|].
    destruct (mets_MonitoringStack _); [by apply Hm|]. by destruct Hcfg. }
  unfold deployStack. eapply gives_bind; [apply ensureWatches_gives|intros ? ->].
  eapply gives_bind; [apply createOrPatch_gives; intros o; by apply mutateStack_gives|intros r [[o op] ->]].
  eapply (gives_bind (fun _ => True)).
  { intros s'. unfold reflectStack, markFalse, markTrue, modifyConds. repeat env_step; eauto. }
  intros _ _. unfold deployMonitor. eapply gives_bind; [apply ensureWatches_gives|intros ? ->].
  eapply gives_bind; [apply createOrPatch_gives; intros o'; apply mutateMonitor_gives|intros r [a ->]].
  apply gives_conds. unfold watchNodeSets. eapply gives_bind; [apply ensureWatches_gives|intros ? ->].
  apply gives_conds. unfold deployScrape. eapply gives_bind; [apply ensureWatches_gives|intros ? ->].
  eapply gives_bind; [apply createOrPatch_gives; intros o'; apply mutateScrape_gives|intros r [b ->]].
  apply gives_conds. intros s'. env_step. eauto.
Qed.

(** *** What it leaves *)

(** The metadata and the spec are those of [i]. *)
Definition kept (i : MetricStorage) (_ : list (event CallE)) (s : ReconcilerState) : Prop :=
  met_Meta (rs_Instance s) = met_Meta i /\ met_Spec (rs_Instance s) = met_Spec i.

Lemma reads_kept {A} (P : A -> Prop) (m : SM A) i : reads P m -> Hist anyAnswer (kept i) m.
Proof. intros Hm h s Hs. eapply wpM_mono; [|exact (Hm s)]. by intros tr s' o (_ & -> & _). Qed.

Lemma reconcileNormal_kept i : Hist anyAnswer (kept i) reconcileNormal.
Proof.
  pose proof (fun j => reads_kept _ _ i (getNodeExporterTargets_reads j)).
  unfold reconcileNormal, deployStack, deployMonitor, watchNodeSets, deployScrape, reflectStack, createOrPatch,
    mutateStack, mutateMonitor, mutateScrape, ensureWatches.
  hist; done.
Qed.

Lemma stack_answer tr o cs : Forall (keeps settledEnv) tr -> WroteStack o cs ∈ omap written tr ->
  stackAvailable cs.
Proof.
  intros Hok (ev & Hev & Hw)%list_elem_of_omap. rewrite Forall_forall in Hok. specialize (Hok ev Hev).
  destruct ev as [X e x]. destruct e; try done. destruct k; simpl in *; destruct x as [[]|]; simplify_eq.
  destruct Hok as (o' & op & [= -> ->] & Ha). exact Ha.
Qed.

Lemma available_notTrue cs : Forall (fun c => sc_Status c = "True") cs -> firstNotTrue cs = None.
Proof. induction 1 as [|c cs Hc _ IH]; simpl; [done|]. by rewrite Hc. Qed.

Lemma metricstorage_same_deployable i0 i : same i0 i -> deployable i0 -> deployable i.
Proof. destruct i as [mi ?], i0 as [[] ?]. intros [[fs Hm] Hs]. simpl in Hm, Hs. by subst. Qed.
Lemma same_specs i0 i st m tr sc : same i0 i ->
  stackSpecOk i st /\ monitorOk i m /\ scrapeOk i tr sc ->
  stackSpecOk i0 st /\ monitorOk i0 m /\ scrapeOk i0 tr sc.
Proof. destruct i as [mi ?], i0 as [[] ?]. intros [[fs Hm] Hs]. simpl in Hm, Hs. by subst. Qed.

Definition coming (i0 : MetricStorage) (s : ReconcilerState) : Prop :=
  same i0 (rs_Instance s) /\ notDeleting (met_Meta (rs_Instance s)) = true /\
  ofTypes ownTypes (crConds (rs_Instance s)).

Lemma metricstorage_coming_finish i0 s : coming i0 s -> coming i0 (finish s).
Proof. intros (Hs & Hd & Ho). split_and!; [apply Hs..|exact Hd|by apply ofTypes_updateReady]. Qed.

Lemma metricstorage_prepared_finish s : finalizer ∈ meta_Finalizers (met_Meta (rs_Instance s)) -> passesLeft (finish s) = 0.
Proof.
  intros Hf. unfold passesLeft, prepared. rewrite !bool_decide_eq_true_2; [done|apply updateReady_nonnil|done].
Qed.

(** The pass that deploys. *)
Lemma normal_ready i0 s tr s' o : deployable i0 -> coming i0 s ->
  finalizer ∈ meta_Finalizers (met_Meta (rs_Instance s)) ->
  runs (reconcileNormal s) tr (s', o) -> Forall (keeps settledEnv) tr ->
  coming i0 (finish s') /\ passesLeft (finish s') = 0 /\ ready i0 tr o (finish s').
Proof.
  intros Hd (Hs & Hnd & Ho) Hf Hr Hok. pose proof (metricstorage_same_deployable _ _ Hs Hd) as Hd'.
  pose proof (runs_wpM _ _ _ _ _ _ _ (reconcileNormal_gives s Hd') Hr Hok) as ->.
  destruct (runs_wpM _ _ _ _ _ _ _ (reconcileNormal_deploys s (proj1 Hd')) Hr (keeps_any _) eq_refl)
    as (st & cs & m & sc & Hw & Hst & Hm & Hsc & Hwatch & Hc).
  destruct (runs_wpM _ _ _ _ _ _ _ (reconcileNormal_kept (rs_Instance s) [] s (conj eq_refl eq_refl)) Hr (keeps_any _))
    as [Hmeta Hspec].
  destruct (stack_answer tr st cs Hok) as [Hne Hav]; [rewrite Hw; left|].
  unfold afterStack in Hc. rewrite (available_notTrue cs Hav) in Hc. destruct cs as [|c0 cs]; [done|]. simpl in Hc.
  assert (onWay ownTypes (fun t => (((t ∈ ownTypes /\ t <> MonitoringStackReadyCondition) /\
    t <> ServiceMonitorReadyCondition) /\ t <> NodeSetReadyCondition) /\ t <> ScrapeConfigReadyCondition)
    (crConds s')) as Hway.
  { simpl. rewrite Hc. do 4 (apply onWay_MarkTrue; [apply (bool_decide_unpack _); by vm_compute|]).
    by apply onWay_start. }
  assert (allTrue (crConds s')) as Ha.
  { eapply onWay_done; [exact Hway|]. unfold ownTypes. set_solver. }
  split_and!.
  - apply metricstorage_coming_finish. split_and!; [split; rewrite ?Hmeta, ?Hspec; apply Hs|by rewrite Hmeta|apply Hway].
  - apply metricstorage_prepared_finish. by rewrite Hmeta.
  - split_and!; [done| |exact Hwatch| | |].
    + exists st, (c0 :: cs), m, sc. split; [done|]. by apply (same_specs i0 _ _ _ _ _ Hs).
    + split; simpl; rewrite ?Hmeta, ?Hspec; apply Hs.
    + apply allTrue_updateReady; [apply Hway|exact Ha].
    + simpl in Ha, Hc. rewrite Hc in Ha. unfold MetricStorage_IsReady. simpl. rewrite Hc. by apply allTrue_marked.
Qed.

Lemma metricstorage_ofTypes_initial : ofTypes ownTypes initialConditions.
Proof.
  eapply ofTypes_init; [|apply (bool_decide_unpack _); by vm_compute].
  cbn [fmap list_fmap]. by rewrite !(fun t r m => proj1 (UnknownCondition_spec t r m)).
Qed.

(** The body adds the finalizer, initialises the conditions, or deploys. *)
Lemma metricstorage_body_approaches i0 s tr s' o : deployable i0 -> coming i0 s ->
  runs (reconcileBody s) tr (s', o) -> Forall (keeps settledEnv) tr ->
  coming i0 (finish s') /\ passesLeft (finish s') = 0 /\ (passesLeft s = 0 -> ready i0 tr o (finish s')).
Proof.
  intros Hdep Hc Hr Hok. pose proof Hc as (Hs & Hd & Ho).
  cut (wpM settledEnv reconcileBody s (fun tr s' o => Forall (keeps settledEnv) tr ->
    coming i0 (finish s') /\ passesLeft (finish s') = 0 /\ (passesLeft s = 0 -> ready i0 tr o (finish s')))).
  { intros Hwp. exact (runs_wpM _ _ _ _ _ _ _ Hwp Hr Hok Hok). }
  unfold reconcileBody. env_step. env_step. simpl. rewrite Hd.
  destruct (decide (finalizer ∈ meta_Finalizers (met_Meta (rs_Instance s)))) as [Hf|Hf].
  - env_step. apply addFinalizer_present; [done|]. cbv beta iota. env_step. env_step. simpl.
    destruct (mett_Conditions (met_Status (rs_Instance s))) as [cs|] eqn:Hcs.
    + rewrite Hd. simpl. eapply wpM_mono; [|exact (wpM_self _ _ _)]. intros tr1 s1 o1 Hr1 Hok1.
      destruct (normal_ready i0 s tr1 s1 o1) as (? & ? & ?); done.
    + unfold modifyConds. repeat env_step. intros _. split_and!.
      * apply metricstorage_coming_finish. split_and!; [apply Hs|done|apply metricstorage_ofTypes_initial].
      * by apply metricstorage_prepared_finish.
      * unfold passesLeft, prepared. simpl. by rewrite Hcs, andb_false_r.
  - env_step. apply addFinalizer_absent; [done|]. intros fs Hfs. cbv beta iota. env_step. intros _. split_and!.
    + apply metricstorage_coming_finish. split_and!; [split; [by apply sameMeta_finalizers, Hs|apply Hs]|done|done].
    + apply metricstorage_prepared_finish. simpl. by apply Hfs; right.
    + unfold passesLeft, prepared. by rewrite bool_decide_eq_false_2.
Qed.

Lemma metricstorage_settledEnv_answers : answerable settledEnv.
Proof.
  intros X []; simpl; try (by exists None); try (by exists (inr (Errorf ""))).
  - by exists (inl None), None.
  - by exists (inl m), m.
  - destruct k; simpl in *.
    + exists (inl (MkObsStack (obs_Meta o) (obs_Spec o) [MkStackCondition "Available" "True" "" ""], OperationResultNone)).
      eexists _, _. split; [reflexivity|]. split; [done|]. by constructor.
    + by exists (inl (o, OperationResultNone)), (o, OperationResultNone).
    + by exists (inl (o, OperationResultNone)), (o, OperationResultNone).
  - by exists (inl []), [].
  - by exists (inl []), [].
  - by exists [].
Qed.

Lemma passUnder_exists ok s : answerable ok -> (forall req i, ok _ (GetMetricStorage req) (inl i)) ->
  (forall i, ok _ (NewHelper i) None) -> (forall i, ok _ (PatchInstance i) None) ->
  exists tr o s', passUnder ok s tr o s'.
Proof.
  intros Ha Hg Hh Hp. destruct (runs_exist ok (reconcileBody s) Ha) as (tr & [s1 o] & Hr & Hk).
  set (req := keyOf (met_Meta (rs_Instance s))).
  eexists _, o, (finish s1), req. split_and!.
  - replace (rs_Watching (finish s1)) with (rs_Watching s1) by (by destruct s1).
    apply (Reconcile_runs_intro _ _ (rs_Instance s) tr _ _ None). by destruct s.
  - constructor; [apply Hg|]. constructor; [apply Hh|]. apply Forall_app. split; [done|]. constructor; [apply Hp|constructor].
  - done.
  - by rewrite !last_cons, last_snoc.
Qed.

Lemma metricstorage_pass_exists s : exists tr o s', pass s tr o s'.
Proof. apply passUnder_exists; [apply metricstorage_settledEnv_answers|done..]. Qed.

(** A run of a pass is one of the body, then the patch. *)
Lemma passUnder_body ok s tr o s' : passUnder ok s tr o s' ->
  exists tr' s1, runs (reconcileBody s) tr' (s1, o) /\ Forall (keeps ok) tr' /\ s' = finish s1 /\
    exists req, tr = Ev (GetMetricStorage req) (inl (rs_Instance s)) :: Ev (NewHelper (rs_Instance s)) None ::
      tr' ++ [Ev (PatchInstance (rs_Instance s')) None].
Proof.
  intros (req & Hr & Hok & Hf & Hl).
  destruct (Reconcile_runs _ _ _ _ _ _ Hr Hf) as [(err & -> & _)|(tr' & s1 & err & Hb & -> & Hw)]; [done|].
  rewrite !last_cons, last_snoc in Hl. simpl in Hl. simplify_eq.
  apply Forall_cons in Hok as [_ [_ [Hok _]%Forall_app]%Forall_cons].
  replace (MkState (rs_Instance s) (rs_Watching s)) with s in Hb by (by destruct s).
  exists tr', s1. assert (s' = finish s1) as ->; [destruct s' as [i' w']; simpl in *; subst; by destruct s1|].
  split_and!; [done|done|done|]. by exists req.
Qed.

Lemma pass_approaches i0 : deployable i0 -> approaches pass (coming i0) passesLeft (ready i0).
Proof.
  intros Hdep s tr o s' Hc Hp. destruct (passUnder_body _ _ _ _ _ Hp) as (tr' & s1 & Hb & Hok & -> & req & ->).
  destruct (metricstorage_body_approaches i0 s tr' s1 o Hdep Hc Hb Hok) as (Hc' & Hl' & Hg).
  split_and!; [done|lia|]. intros H0. destruct (Hg H0) as (? & Hwr & Hrest).
  split_and!; [done| |apply Hrest..]. destruct Hwr as (st & cs & m & sc & Hw & Hst & Hm & Hsc).
  exists st, cs, m, sc. split_and!; [simpl; by rewrite omap_app, app_nil_r|done|done|].
  by apply (scrapeOk_extends i0 [_; _] tr' [_]).
Qed.

(** *** Passes while anything may be answered *)
Lemma metricstorage_coming_conds i0 cs s : coming i0 s -> ofTypes ownTypes cs -> coming i0 (crSetConds cs s).
Proof. intros (Hs & Hd & _) Ho. split; [exact Hs|]. by split. Qed.
Lemma metricstorage_coming_meta i0 fs s : coming i0 s -> coming i0 (crSetMeta (withFinalizers fs (crMeta s)) s).
Proof. intros ((Hm & Hsp) & Hd & Ho). split; [|by split]. split; [by apply sameMeta_finalizers|done]. Qed.

Ltac coming_solve :=
  first [ done | by apply metricstorage_coming_meta
        | apply metricstorage_coming_conds; [done|];
          types_solve ltac:(idtac; match goal with H : coming _ _ |- _ => apply H end) ].

Lemma reads_coming {A} (P : A -> Prop) (m : SM A) i0 : reads P m -> Hist anyAnswer (fun _ => coming i0) m.
Proof. intros Hm h s Hs. eapply wpM_mono; [|exact (Hm s)]. by intros tr s' o (_ & -> & _). Qed.

Lemma metricstorage_coming_body i0 : Hist anyAnswer (fun _ => coming i0) reconcileBody.
Proof.
  pose proof (fun j => reads_coming _ _ i0 (getNodeExporterTargets_reads j)).
  unfold_metricstorage.
  pose proof metricstorage_ofTypes_initial. hist; coming_solve.
Qed.

(** Passes in a storm keep of the object what the body keeps. *)
Lemma metricstorage_disturbed_keeps (Inv : MetricStorage -> Prop) s s' :
  (forall i, Inv i -> Inv (finish i)) -> Hist anyAnswer (fun _ s => Inv (rs_Instance s)) reconcileBody ->
  disturbed s s' -> Inv (rs_Instance s) -> Inv (rs_Instance s').
Proof.
  intros Hfin Hbody (req & tr & w & o & Hr & Hf & _ & [He|[err Hl]]) Hs; [by rewrite He|].
  destruct (Reconcile_runs _ _ _ _ _ _ Hr Hf) as [(e & -> & _)|(tr' & s2 & e & Hb & -> & _)]; [done|].
  rewrite !last_cons, last_snoc in Hl. simpl in Hl. injection Hl as Hi _.
  replace (MkState (rs_Instance s) (rs_Watching s)) with s in Hb by (by destruct s).
  pose proof (runs_wp_any _ _ _ _ (Hbody [] s Hs) Hb) as H2. apply Hfin in H2. by rewrite <-Hi.
Qed.

Lemma metricstorage_storm_coming i0 s s' : rtc disturbed s s' -> coming i0 s -> coming i0 s'.
Proof.
  induction 1 as [s|s s1 s' Hd _ IH]; [done|]. intros Hc. apply IH.
  apply (metricstorage_disturbed_keeps (fun i => coming i0 (MkState i [])) s s1); [| |done|exact Hc].
  - intros i. apply metricstorage_coming_finish.
  - apply metricstorage_coming_body.
Qed.

(** Of any MetricStorage a pass keeps the metadata, up to the finalizers. *)
Lemma metricstorage_meta_body m0 : Hist anyAnswer (fun _ s => sameMeta m0 (met_Meta (rs_Instance s))) reconcileBody.
Proof.
  assert (forall A P (m : SM A), reads P m -> Hist anyAnswer (fun _ s => sameMeta m0 (met_Meta (rs_Instance s))) m)
    as Hreads by (intros A P m Hm h s Hs; eapply wpM_mono; [|exact (Hm s)]; by intros tr s' o (_ & -> & _)).
  pose proof (fun j => Hreads _ _ _ (getNodeExporterTargets_reads j)).
  unfold_metricstorage. hist; first [done|by apply sameMeta_finalizers].
Qed.

Lemma metricstorage_storm_meta s s' : disturbed s s' ->
  sameMeta (met_Meta (rs_Instance s)) (met_Meta (rs_Instance s')).
Proof.
  intros Hd. apply (metricstorage_disturbed_keeps (fun i => sameMeta (met_Meta (rs_Instance s)) (met_Meta i)) s s');
    [done|apply metricstorage_meta_body|done|apply sameMeta_refl].
Qed.

Lemma metricstorage_pass_disturbed s tr o s' : pass s tr o s' -> disturbed s s'.
Proof.
  intros (req & Hr & _ & Hf & Hl). exists req, tr, (rs_Watching s'), o.
  split_and!; [done|done|by left|right; eauto].
Qed.

(** C8. A MetricStorage converges: take a stored object that is not being
    deleted, with conditions of its own kind, whose spec gives a stack (a
    custom one or options one can be built from), any list of watches, and any
    number of passes during which anything may be answered and the operator may
    be restarted.  Once the monitoring operators are installed, no call fails
    and the MonitoringStack is answered available, any number of passes is
    possible, and after at most one of them every pass writes the
    MonitoringStack, the ServiceMonitor and the ScrapeConfig as the spec wants
    them, watches the four kinds, ends without a requeue or an error and leaves
    a MetricStorage with all conditions True that is Ready. *)
Theorem metricstorage_converges s0 s :
  let i0 := rs_Instance s0 in
  notDeleting (met_Meta i0) = true -> ofTypes ownTypes (crConds i0) -> deployable i0 -> rtc disturbed s0 s ->
  passesLeft s <= 1 /\
  (forall n, exists ps, length ps = n /\ passes pass s ps) /\
  (forall ps, passes pass s ps ->
     Forall (fun '(tr, o, s') => ready i0 tr o s') (drop (passesLeft s) ps)).
Proof.
  intros i0 Hd Ho Hdep Hst. split_and!.
  - unfold passesLeft. destruct (prepared _); lia.
  - intros n. apply passes_exist, metricstorage_pass_exists.
  - intros ps. apply (passes_converge _ (coming i0)); [by apply pass_approaches|].
    apply (metricstorage_storm_coming _ _ _ Hst). by split; [apply metricstorage_same_refl|].
Qed.
End Passes.

(** A MetricStorage as the webhook leaves it is Ready after the second pass. *)
Definition sample : ReconcilerState :=
  MkState (Webhooks.MetricStorage_Default sampleMetricStorage) [].

Lemma metricstorage_converges_witness :
  passesLeft sample = 1 /\
  exists p tr o s', passes pass sample [p; (tr, o, s')] /\ ready (rs_Instance sample) tr o s'.
Proof.
  split; [by vm_compute|].
  destruct (metricstorage_converges sample sample) as (_ & Hex & Hall).
  - reflexivity.
  - split; [apply (bool_decide_unpack _); by vm_compute|]. intros c Hc. by apply not_elem_of_nil in Hc.
  - split; [right; discriminate|]. intros _. eexists. reflexivity.
  - apply rtc_once. set (req := MkKey "openstack" "metric-storage"). set (i := rs_Instance sample).
    set (err := Errorf "timeout").
    exists req, [Ev (GetMetricStorage req) (inl i); Ev (NewHelper i) (Some err)], [], (Val (emptyResult, Some err)).
    split; [|split; [reflexivity|split; left; reflexivity]].
    exists (inl i). eexists. split; [reflexivity|]. by exists (Some err), [].
  - destruct (Hex 2) as (ps & Hl & Hps). destruct ps as [|p [|[[tr o] s'] [|]]]; try discriminate Hl.
    exists p, tr, o, s'. split; [exact Hps|].
    specialize (Hall _ Hps). replace (passesLeft sample) with 1 in Hall by (by vm_compute).
    apply Forall_cons in Hall as [Hg _]. exact Hg.
Defined.
End MetricStorageSystem.
