(* ===== verification/LoggingSystem.v ===== *)
(** * A Logging over several passes

    Once the environment of the controller has settled, a Logging that is not
    being deleted is prepared by at most two passes (finalizer or conditions,
    hash of the generated file); every further pass writes the rsyslog
    configuration and the Service, and reports the Logging Ready. *)

From stdpp Require Import gmap strings list.
From Stdlib Require Import ZArith Lia.
From S2P Require Import Prelude Condition Api Libs Reference Operator LoggingController Passes.

#[local] Open Scope go_scope.

Module LoggingSystem.
Import LoggingController.

#[global] Instance Logging_controller `{L : ConditionLib} `{F : FinalizerLib} `{C : CommonLib} :
  Controller CallE Logging.
Proof.
  refine {| ctl_get := GetLogging; ctl_helper := NewHelper; ctl_patch := PatchInstance;
            ctl_propagate := true; ctl_body := fun _ => reconcileBody; ctl_Reconcile := Reconcile;
            ctl_fetched := fun ev => fetched [ev]; ctl_patched := patchOf |}; done.
Defined.

(** ** A settled environment: the signing key of the cluster, if it can be
    read, and the hashes of the generated files *)
Record Env := MkEnv {
  env_signingKey : Secret + GoError;
  env_files : list Template -> EnvMap -> EnvMap
}.

Definition settledEnv (W : Env) : contract CallE := fun X e =>
  match e in CallE X return X -> Prop with
  | NewHelper _ => fun x => x = None
  | PatchInstance _ => fun x => x = None
  | ReconcileRbac _ _ _ => fun x => exists l, x = (l, (emptyResult, None)) /\ rbacDone l
  | GetSecret _ => fun x => x = env_signingKey W
  | EnsureSecrets _ cms env => fun x => x = inl (env_files W cms env)
  | FetchService key => fun x => exists r, x = inl r /\ forall s, r = Some s -> keyOf (svc_Meta s) = key
  | CommitService s => fun x => exists op, x = inl (s, op)
  | _ => fun _ => True
  end.

(** Before it settles: anything may be answered, but the rbac library reports
    the conditions of the rbac objects only. *)
Definition unsettledEnv : contract CallE := fun X e =>
  match e in CallE X return X -> Prop with
  | ReconcileRbac _ _ _ => fun x => Forall (fun c => cond_Type c ∈ rbacTypes) x.1
  | _ => fun _ => True
  end.

(** ** What a pass writes *)
Inductive Write :=
| WroteRbac (name ns : string) (rules : list PolicyRule)
| WroteSecrets (cms : list Template)
| WroteService (key : NamespacedName) (annotations selector : gmap string string) (ports : list ServicePort)
    (type : string).

Definition writeOf (ev : event CallE) : option Write :=
  match ev with
  | Ev e _ =>
      match e with
      | ReconcileRbac name ns rules => Some (WroteRbac name ns rules)
      | EnsureSecrets _ cms _ => Some (WroteSecrets cms)
      | CommitService s => Some (WroteService (keyOf (svc_Meta s)) (meta_Annotations (svc_Meta s))
          (svc_Selector s) (svc_Ports s) (svc_Type s))
      | _ => None
      end
  end.

Section Spec.
Context `{L : ConditionLib} `{F : FinalizerLib} `{C : CommonLib}.
Variable W : Env.

(** The certificate of the cluster, when there is one. *)
Definition caOf : option string :=
  match env_signingKey W with inl s => sec_Data s !! "tls.crt" | inr _ => None end.

Definition inputs (i : Logging) : EnvMap := env_files W (computeTemplates i caOf) ∅.
Definition inputHash (i : Logging) : string := (ObjectHash (MergeEnvs [] (inputs i))).1.

(** The environment lets the Logging be deployed. *)
Definition deployable (i : Logging) : Prop := (ObjectHash (MergeEnvs [] (inputs i))).2 = None.

Definition deployment (i : Logging) : list Write :=
  let s := log_Spec i in
  [WroteRbac (Logging_RbacResourceName i) (Logging_RbacNamespace i) rbacRules;
   WroteSecrets (computeTemplates i caOf);
   WroteService (MkKey (logs_CLONamespace s) ("openstack-" +:+ ServiceName))
     {[ "endpoint" := "internal"; "metallb.universe.tf/address-pool" := logs_Network s;
        "metallb.universe.tf/allow-shared-ip" := logs_Network s;
        "metallb.universe.tf/loadBalancerIPs" := logs_IPAddr s ]}
     {[ "app.kubernetes.io/instance" := "collector"; "component" := "collector"; "provider" := "openshift" ]}
     [MkServicePort "" TCP (logs_Port s) (FromInt (logs_TargetPort s))] "LoadBalancer"].

Definition ownTypes : list CondType :=
  [InputReadyCondition; ServiceConfigReadyCondition; ServiceAccountReadyCondition; RoleReadyCondition;
   RoleBindingReadyCondition].

Definition prepared (i : Logging) : bool :=
  bool_decide (finalizer ∈ meta_Finalizers (log_Meta i)) && bool_decide (conds i <> None).

Definition passesLeft (i : Logging) : nat :=
  if prepared i then if decide (inputHashOf i = Some (inputHash i)) then 0 else 1 else 2.

(** The same Logging: metadata up to the finalizers, and spec. *)
Definition same (i0 i : Logging) : Prop :=
  sameMeta (log_Meta i0) (log_Meta i) /\ log_Spec i = log_Spec i0.

Lemma logging_same_refl i : same i i.
Proof. split; [apply sameMeta_refl|done]. Qed.

(** A pass that deploys [i] and leaves [i']. *)
Definition deployed (i : Logging) (tr : list (event CallE)) (o : outcome RE) (i' : Logging) : Prop :=
  o = Val (emptyResult, None) /\ omap writeOf tr = deployment i /\ same i i' /\
  inputHashOf i' = Some (inputHash i) /\ allTrue (conds i') /\ IsTrue (conds i') ReadyCondition = true.
End Spec.

(** ** Passes in a settled environment *)
Section Passes.
Context `{L : ConditionLib} `{LL : !ConditionLaws L} `{F : FinalizerLib} `{FL : !FinalizerLaws F}.
Context `{C : CommonLib} `{CL : !CommonLaws C}.
Variable W : Env.

Ltac env_step := settled_step ltac:(fun H => cbv beta iota delta [settledEnv] in H).

(** Pending after the rbac objects. *)
Definition configPending (t : CondType) : Prop := (t ∈ ownTypes /\ t ∉ rbacTypes) /\ t <> InputReadyCondition.

Definition withHash (h : option (gmap string string)) (cs : Conditions) (i : Logging) : Logging :=
  MkLogging (log_Meta i) (log_Spec i) (MkLoggingStatus h cs).

(** The Service. *)
Lemma loggingService_env i Q :
  (forall tr, omap writeOf tr = drop 2 (deployment W i) -> Q tr i (Val None)) ->
  wpM (settledEnv W) (loggingService serviceLabels) i Q.
Proof.
  intros HQ. unfold loggingService. repeat env_step. apply (HQ [_; _]). simpl. do 2 f_equal.
  destruct y; [by apply Hx|done].
Qed.

(** The generated file. *)
Lemma config_env i Q :
  (forall tr, omap writeOf tr = [WroteSecrets (computeTemplates i (caOf W))] -> Q tr i (Val (inl (inputs W i)))) ->
  wpM (settledEnv W) (generateComputeServiceConfig ∅) i Q.
Proof.
  intros HQ. unfold generateComputeServiceConfig, retrieveOpenshiftCA. do 3 env_step. unfold inputs, caOf in HQ.
  do 2 env_step. destruct (env_signingKey W) as [s|err] eqn:Hs; repeat env_step; by apply (HQ [_; _]).
Qed.

(** The file and, when its hash is the recorded one, the Service. *)
Lemma logging_configure_env i Q : deployable W i -> logt_Hash (log_Status i) <> None ->
  onWay ownTypes configPending (conds i) ->
  (forall tr h, inputHashOf i <> Some (inputHash W i) -> h !! InputHashName = Some (inputHash W i) ->
     Q tr (withHash (Some h) (conds i) i) (Val (emptyResult, None))) ->
  (forall tr h cs, inputHashOf i = Some (inputHash W i) -> h !! InputHashName = Some (inputHash W i) ->
     omap writeOf tr = drop 1 (deployment W i) -> ofTypes ownTypes cs -> allTrue cs ->
     IsTrue (updateReady cs) ReadyCondition = true ->
     Q tr (withHash (Some h) cs i) (Val (emptyResult, None))) ->
  wpM (settledEnv W) configure i Q.
Proof.
  intros Hd Hn Hw Hrec Hdep. unfold configure. env_step. apply config_env. intros tr Htr. cbv beta iota.
  unfold createHashOfInputHashes. unfold deployable in Hd. unfold inputHash in *.
  destruct (ObjectHash (MergeEnvs [] (inputs W i))) as [hash err]. simpl in Hd, Hrec, Hdep. subst err.
  pose proof (SetHash_flag (logt_Hash (log_Status i)) InputHashName hash) as Hflag.
  pose proof (SetHash_lookup (logt_Hash (log_Status i)) InputHashName hash) as Hlook.
  do 3 env_step. destruct (SetHash _ _ _) as [hm changed]. simpl in Hflag, Hlook. destruct changed.
  { unfold setHash. repeat env_step. apply Hrec; [|done]. intros Hi. by apply Hflag in Hi. }
  assert (inputHashOf i = Some hash) as Hi by (by apply Hflag).
  unfold inputHashOf in Hi. destruct (logt_Hash (log_Status i)) as [h|] eqn:Hh; [|done].
  do 3 env_step. unfold expose, putHash, setHash, markTrue, modifyConds. do 2 env_step. env_step. rewrite Hh.
  repeat env_step. apply loggingService_env. intros tr' Htr'. cbv beta iota. env_step.
  simpl. rewrite Hh. simpl.
  set (cs := MarkTrue (conds i) ServiceConfigReadyCondition (lib "ServiceConfigReadyMessage")).
  assert (onWay ownTypes (fun t => configPending t /\ t <> ServiceConfigReadyCondition) cs) as Hw'
    by (apply onWay_MarkTrue; [in_types|done]).
  assert (allTrue cs) as Ha.
  { eapply onWay_done; [exact Hw'|]. unfold configPending, ownTypes, rbacTypes. set_solver. }
  apply (Hdep _ (<[InputHashName := hash]> h) cs); [|by rewrite lookup_insert_eq| |apply Hw'|done|by apply allTrue_marked].
  - unfold inputHashOf. by rewrite Hh.
  - rewrite !omap_app, Htr, Htr'. done.
Qed.

Lemma normal_env i Q : deployable W i -> ofTypes ownTypes (conds i) -> logt_Hash (log_Status i) <> None ->
  (forall tr h cs, inputHashOf i <> Some (inputHash W i) -> h !! InputHashName = Some (inputHash W i) ->
     ofTypes ownTypes cs -> Q tr (withHash (Some h) cs i) (Val (emptyResult, None))) ->
  (forall tr h cs, inputHashOf i = Some (inputHash W i) -> h !! InputHashName = Some (inputHash W i) ->
     omap writeOf tr = deployment W i -> ofTypes ownTypes cs -> allTrue cs ->
     IsTrue (updateReady cs) ReadyCondition = true ->
     Q tr (withHash (Some h) cs i) (Val (emptyResult, None))) ->
  wpM (settledEnv W) reconcileNormal i Q.
Proof.
  intros Hd Ho Hn Hrec Hdep. unfold reconcileNormal, reconcileRbac, markTrue, modifyConds.
  do 6 env_step. pose proof (rbacDone_onWay ownTypes _ (conds i) ltac:(set_solver) Hx Ho) as Hw. do 5 env_step.
  apply (onWay_MarkTrue _ _ _ InputReadyCondition (lib "InputReadyMessage")) in Hw; [|in_types].
  apply logging_configure_env; [exact Hd|exact Hn|exact Hw| |].
  - intros tr h Hi Hh. by apply (Hrec _ h); [..|apply Hw].
  - intros tr h cs Hi Hh Htr Hcs Ha Hr. apply (Hdep _ h); try done. exact (f_equal (cons _) Htr).
Qed.

(** *** One pass *)
Lemma logging_same_inputs i0 i : same i0 i -> inputs W i = inputs W i0 /\ deployment W i = deployment W i0.
Proof. destruct i as [m ?], i0 as [[] ?]. intros [[fs Hm] Hs]. simpl in Hm, Hs. by subst. Qed.
Lemma logging_same_hash i0 i : same i0 i -> inputHash W i = inputHash W i0.
Proof. intros H. unfold inputHash. by rewrite (proj1 (logging_same_inputs i0 i H)). Qed.

Definition coming (i0 i : Logging) : Prop :=
  same i0 i /\ notDeleting (log_Meta i) = true /\ ofTypes ownTypes (conds i).

Lemma logging_coming_conds i0 cs i : coming i0 i -> ofTypes ownTypes cs -> coming i0 (crSetConds cs i).
Proof. intros (Hs & Hd & _) Ho. split; [exact Hs|]. by split. Qed.
Lemma logging_coming_meta i0 fs i : coming i0 i -> coming i0 (crSetMeta (withFinalizers fs (crMeta i)) i).
Proof. intros ((Hm & Hsp) & Hd & Ho). split; [|by split]. split; [by apply sameMeta_finalizers|done]. Qed.
Lemma logging_coming_finish i0 i : coming i0 i -> coming i0 (finish i).
Proof. intros Hc. apply logging_coming_conds; [done|]. apply ofTypes_updateReady, Hc. Qed.

Lemma logging_prepared_finish i : finalizer ∈ meta_Finalizers (log_Meta i) -> prepared (finish i) = true.
Proof.
  intros Hf. apply andb_true_iff. split; apply bool_decide_eq_true; [done|]. apply updateReady_nonnil.
Qed.

Lemma logging_passesLeft_prepared i : prepared i = true -> passesLeft W i <= 1.
Proof. intros Hp. unfold passesLeft. rewrite Hp. case_decide; lia. Qed.

(** Prepared, with the hash recorded. *)
Lemma logging_passesLeft_recorded i0 i : coming i0 i -> finalizer ∈ meta_Finalizers (log_Meta i) ->
  inputHashOf i = Some (inputHash W i0) -> passesLeft W (finish i) = 0.
Proof.
  intros Hc Hf Hh. unfold passesLeft. rewrite logging_prepared_finish by done.
  rewrite (logging_same_hash i0) by apply (logging_coming_finish i0 i Hc). by rewrite decide_True.
Qed.

(** A pass over [i] comes closer. *)
Definition closer (i0 i : Logging) (tr : list (event CallE)) (s : Logging) (o : outcome RE) : Prop :=
  coming i0 (finish s) /\ passesLeft W (finish s) <= pred (passesLeft W i) /\
  (passesLeft W i = 0 -> deployed W i0 tr o (finish s)).

Lemma logging_closer_prepares i0 i tr s o : prepared i = false -> coming i0 s ->
  finalizer ∈ meta_Finalizers (log_Meta s) -> closer i0 i tr s o.
Proof.
  intros Hp Hc Hf. assert (passesLeft W i = 2) as Hl by (unfold passesLeft; by rewrite Hp).
  split_and!; [by apply logging_coming_finish| |by rewrite Hl].
  rewrite Hl. by apply logging_passesLeft_prepared, logging_prepared_finish.
Qed.

Lemma logging_normal_approaches i0 i : deployable W i0 -> coming i0 i -> prepared i = true ->
  logt_Hash (log_Status i) <> None -> wpM (settledEnv W) reconcileNormal i (closer i0 i).
Proof.
  intros Hdep (Hs & Hd & Ho) Hp Hn. pose proof Hp as [Hf%bool_decide_eq_true _]%andb_true_iff.
  destruct (logging_same_inputs i0 i Hs) as [Hin Hde]. pose proof (logging_same_hash i0 i Hs) as Hha.
  assert (forall h cs, ofTypes ownTypes cs -> coming i0 (withHash (Some h) cs i)) as Hc
    by (intros h cs Hcs; by split).
  apply normal_env; [unfold deployable; by rewrite Hin|done|done| |]; rewrite Hha.
  - intros tr h cs Hi Hh Hcs. split_and!; [by apply logging_coming_finish, Hc| |].
    + rewrite (logging_passesLeft_recorded i0); [lia|by apply Hc|done|done].
    + intros H0. unfold passesLeft in H0. rewrite Hp, Hha in H0. by case_decide.
  - intros tr h cs Hi Hh Htr Hcs Ha Hr. split_and!; [by apply logging_coming_finish, Hc| |intros _].
    + rewrite (logging_passesLeft_recorded i0); [lia|by apply Hc|done|done].
    + split_and!; [done|by rewrite <-Hde|apply Hs..|done|by apply allTrue_updateReady; [apply Hcs|]|done].
Qed.

Lemma logging_ofTypes_initial : ofTypes ownTypes initialConditions.
Proof.
  eapply ofTypes_init; [|in_types]. cbn [fmap list_fmap].
  by rewrite !(fun t r m => proj1 (UnknownCondition_spec t r m)).
Qed.

Lemma logging_body_approaches i0 i : deployable W i0 -> coming i0 i ->
  wpM (settledEnv W) reconcileBody i (closer i0 i).
Proof.
  intros Hdep Hc. pose proof Hc as (Hs & Hd & Ho). unfold reconcileBody. env_step. env_step. rewrite Hd.
  destruct (decide (finalizer ∈ meta_Finalizers (log_Meta i))) as [Hf|Hf].
  - env_step. apply addFinalizer_present; [done|]. cbv beta iota. env_step. env_step.
    destruct (logt_Conditions (log_Status i)) as [cs|] eqn:Hcs.
    + unfold ensureHash, setHash. env_step. env_step. rewrite Hd.
      eapply wpM_mono; [|apply (logging_normal_approaches i0)]; [|done|done| |done].
      * intros tr s o H. exact H.
      * apply andb_true_iff. split; apply bool_decide_eq_true; [done|]. unfold conds. simpl. by rewrite Hcs.
    + unfold modifyConds. repeat env_step. apply logging_closer_prepares.
      * unfold prepared, conds. by rewrite Hcs, andb_false_r.
      * apply logging_coming_conds; [done|apply logging_ofTypes_initial].
      * done.
  - env_step. apply addFinalizer_absent; [done|]. intros fs Hfs. cbv beta iota. env_step.
    apply logging_closer_prepares; [|by apply logging_coming_meta|simpl; by apply Hfs; right].
    unfold prepared. by rewrite bool_decide_eq_false_2.
Qed.

Lemma logging_approaches i0 : deployable W i0 ->
  approaches (pass (settledEnv W)) (coming i0) (passesLeft W) (deployed W i0).
Proof.
  intros Hdep i tr o i' Hc Hp.
  destruct (pass_body _ _ _ _ _ _ Hp (logging_body_approaches i0 i Hdep Hc))
    as (req & tr' & s & o' & (Hc' & Hl & Hg) & -> & -> & ->).
  split_and!; [done|done|]. intros H0. destruct (Hg H0) as (Ho & Hw & Hrest).
  split_and!; [done| |apply Hrest..]. simpl. by rewrite omap_app, Hw, app_nil_r.
Qed.

Lemma logging_settledEnv_answers : answerable (settledEnv W).
Proof.
  destruct rbacDone_exists as [l Hl].
  intros X []; simpl; try (by eauto); try (by exists (inr (Errorf ""))); try (by exists (inl None), None).
  Unshelve. exact OperationResultNone.
Qed.

(** *** Passes in an environment that has not settled *)
Lemma logging_coming_body i0 : Hist unsettledEnv (fun _ => coming i0) reconcileBody.
Proof.
  unfold_logging. pose proof logging_ofTypes_initial.
  hist; first [ done | by apply logging_coming_meta | apply logging_coming_conds; [done|];
    types_solve ltac:(idtac; match goal with H : coming _ _ |- _ => apply H end) ].
Qed.

(** C9. A Logging converges: take one that is not being deleted, with
    conditions of its own kind, and any number of passes during which anything
    may be answered, calls fail and handlers panic.  Once the environment
    settles, any number of passes is possible, and after at most two of them
    (finalizer or conditions, then the hash of the generated file) every pass
    writes exactly the service account, the rsyslog configuration with the
    certificate of the cluster and the LoadBalancer Service the spec asks for,
    ends without a requeue or an error, and leaves all conditions and Ready
    True. *)
Theorem logging_converges i0 i :
  notDeleting (log_Meta i0) = true -> ofTypes ownTypes (conds i0) -> deployable W i0 ->
  rtc (disturbed unsettledEnv) i0 i ->
  passesLeft W i <= 2 /\
  (forall n, exists ps, length ps = n /\ passes (pass (settledEnv W)) i ps) /\
  (forall ps, passes (pass (settledEnv W)) i ps ->
     Forall (fun '(tr, o, i') => deployed W i0 tr o i') (drop (passesLeft W i) ps)).
Proof.
  intros Hd Ho Hdep Hst. split_and!.
  - unfold passesLeft. destruct (prepared i); [case_decide|]; lia.
  - intros n. apply passes_exist. intros i'. apply pass_exists; [apply logging_settledEnv_answers|by split_and!].
  - intros ps. apply (passes_converge _ (coming i0)); [by apply logging_approaches|].
    eapply disturbed_keeps; [apply logging_coming_finish|intros ?; apply logging_coming_body|exact Hst|]. by split; [apply logging_same_refl|].
Qed.
End Passes.

(** ** An environment *)
Definition sampleEnv : Env := {|
  env_signingKey := inl (MkSecret "signing-key" {[ "tls.crt" := "certificate" ]});
  env_files cms env := <["files" := String.concat "," ((fun t => mapGet (tpl_CustomData t) "ca-openshift.crt") <$> cms)]> env |}.

Definition sampleLogging : Logging :=
  MkLogging (newMeta "logging" "openstack") (log_Spec (Scenario.logging None)) (MkLoggingStatus None None).

(** A Logging as its user creates it, after a pass that failed, is deployed by
    the third pass. *)
Lemma logging_converges_witness :
  passesLeft sampleEnv sampleLogging = 2 /\
  exists ps tr o i', length ps = 2 /\
    passes (pass (settledEnv sampleEnv)) sampleLogging (ps ++ [(tr, o, i')]) /\
    deployed sampleEnv sampleLogging tr o i'.
Proof.
  split; [by vm_compute|].
  destruct (logging_converges sampleEnv sampleLogging sampleLogging) as (_ & Hex & Hall).
  - reflexivity.
  - split; [apply (bool_decide_unpack _); by vm_compute|]. intros c Hc. by apply not_elem_of_nil in Hc.
  - reflexivity.
  - apply rtc_once, (disturbed_helper _ (MkKey "openstack" "logging") _ (Errorf "timeout")); exact I.
  - destruct (Hex 3) as (ps & Hl & Hps). destruct ps as [|p1 [|p2 [|[[tr o] i'] [|]]]]; try discriminate Hl.
    exists [p1; p2], tr, o, i'. split; [reflexivity|]. split; [exact Hps|].
    specialize (Hall _ Hps). replace (passesLeft sampleEnv sampleLogging) with 2 in Hall by (by vm_compute).
    apply Forall_cons in Hall as [Hg _]. exact Hg.
Defined.
End LoggingSystem.
