(* ===== verification/ChildControllers.v ===== *)
(** * The controllers of the children of a Telemetry

    What the composition of the controllers needs of those of the children, as
    the interface [ChildControllers] with [ChildLaws], and its implementation by
    the Ceilometer, Autoscaling and MetricStorage controllers ([Controllers]),
    with the passes of CeilometerSystem.v, AutoscalingSystem.v and
    MetricStorageSystem.v. *)

From stdpp Require Import gmap strings list.
From Stdlib Require Import ZArith Lia.
From S2P Require Import Prelude Condition Api Libs Reference Webhooks Operator Passes.
From S2P Require Import MetricStorageController CeilometerController AutoscalingController.
From S2P Require Import Telemetry TelemetrySystem CeilometerSystem AutoscalingSystem MetricStorageSystem.

Module ChildControllers.
Import Telemetry TelemetrySystem.

(** ** What the controllers of the children promise *)

(** The same child: metadata up to the finalizers, and spec. *)
Definition sameSpec (k : Child) : childObj k -> childObj k -> Prop :=
  match k with
  | CeilometerChild => fun o0 o => cei_Spec o = cei_Spec o0
  | AutoscalingChild => fun o0 o => asc_Kind o = asc_Kind o0 /\ asc_Spec o = asc_Spec o0
  | MetricStorageChild => fun o0 o => met_Spec o = met_Spec o0
  end.

(** Of an Autoscaling, the override has nothing to be filled in. *)
Definition steady (k : Child) : childObj k -> Prop :=
  match k with
  | AutoscalingChild => fun o => AutoscalingSystem.steadyOverride (asc_Spec o)
  | _ => fun _ => True
  end.

Definition childConds {k : Child} : childObj k -> Conditions :=
  match k with
  | CeilometerChild => fun c => crConds c
  | AutoscalingChild => fun a => crConds a
  | MetricStorageChild => fun m => crConds m
  end.

Class ChildControllers := {
  (** one pass while anything may be answered, and one in a settled environment *)
  child_storm : forall k, childObj k -> childObj k -> Prop;
  child_pass : forall k, childObj k -> childObj k -> Prop;
  (** the passes that are needed before the one that makes it Ready *)
  child_left : forall k, childObj k -> nat;
  (** the settled environment lets it be deployed *)
  child_deployable : forall k, childObj k -> Prop;
  (** [child_kept k o0 o]: [o] is what passes over [o0] may leave *)
  child_kept : forall k, childObj k -> childObj k -> Prop;
  (** no failure is recorded that is never taken back *)
  child_clean : forall k, childObj k -> Prop;
  (** conditions of its kind, as any passes may leave them *)
  child_sound : forall k, childObj k -> Prop
}.

Class ChildLaws `{L : ConditionLib} (CC : ChildControllers) : Prop := {
  sound_kept k o : notDeleting (childMeta o) = true -> child_sound k o -> child_kept k o o;
  kept_sound k o0 o : child_kept k o0 o -> child_sound k o;
  sound_conds k (o o' : childObj k) : childConds o' = childConds o -> child_sound k o -> child_sound k o';
  clean_conds k (o o' : childObj k) : childConds o' = childConds o -> child_clean k o -> child_clean k o';
  new_sound k (o : childObj k) : childConds o = None -> child_sound k o /\ child_clean k o;
  storm_meta k o o' : child_storm k o o' -> sameMeta (childMeta o) (childMeta o');
  storm_kept k o0 o o' : child_storm k o o' -> child_kept k o0 o -> child_kept k o0 o';
  pass_storm k o o' : child_pass k o o' -> child_storm k o o';
  pass_approaches k o0 o o' : child_deployable k o0 -> child_kept k o0 o -> child_clean k o -> child_pass k o o' ->
    child_clean k o' /\ child_left k o' <= pred (child_left k o) /\ (child_left k o = 0 -> isReady o' = true);
  pass_possible k o : exists o', child_pass k o o';
  left_bound k o : child_left k o <= 4;
  kept_meta k o0 o : child_kept k o0 o -> sameMeta (childMeta o0) (childMeta o);
  kept_spec k o0 o : child_kept k o0 o -> steady k o0 -> sameSpec k o0 o
}.
(** ** The three controllers *)
Section Children.
Context `{L : ConditionLib} `{LL : !ConditionLaws L} `{F : FinalizerLib} `{FL : !FinalizerLaws F}.
Context `{C : CommonLib} `{CL : !CommonLaws C} `{V : ServiceLib} `{VL : !ServiceLaws V}.
Context (WC : CeilometerSystem.Env) (WA : AutoscalingSystem.Env).

(** The conditions of a child are of its own kind.  Of an Autoscaling, a failure
    to read a secret adds InputReady. *)
Definition kindTypes (k : Child) : list CondType :=
  match k with
  | CeilometerChild => CeilometerSystem.ownTypes
  | AutoscalingChild => InputReadyCondition :: AutoscalingSystem.ownTypes
  | MetricStorageChild => MetricStorageSystem.ownTypes
  end.

Definition Controllers : ChildControllers := {|
  child_storm k :=
    match k with
    | CeilometerChild => disturbed CeilometerSystem.unsettledEnv
    | AutoscalingChild => disturbed AutoscalingSystem.unsettledEnv
    | MetricStorageChild => fun m m' => exists w w',
        MetricStorageSystem.disturbed (MetricStorageController.MkState m w) (MetricStorageController.MkState m' w')
    end;
  child_pass k :=
    match k with
    | CeilometerChild => fun c c' => exists tr o, pass (CeilometerSystem.settledEnv WC) c tr o c'
    | AutoscalingChild => fun a a' => exists tr o, pass (AutoscalingSystem.settledEnv WA) a tr o a'
    | MetricStorageChild => fun m m' => exists w tr o w',
        MetricStorageSystem.pass (MetricStorageController.MkState m w) tr o (MetricStorageController.MkState m' w')
    end;
  child_left k :=
    match k with
    | CeilometerChild => CeilometerSystem.passesLeft WC
    | AutoscalingChild => AutoscalingSystem.passesLeft WA
    | MetricStorageChild => fun m => MetricStorageSystem.passesLeft (MetricStorageController.MkState m [])
    end;
  child_deployable k :=
    match k with
    | CeilometerChild => fun c => exists def, CeilometerSystem.deployable WC c def
    | AutoscalingChild => fun a => exists def, AutoscalingSystem.deployable WA a def
    | MetricStorageChild => MetricStorageSystem.deployable
    end;
  child_kept k :=
    match k with
    | CeilometerChild => CeilometerSystem.coming
    | AutoscalingChild => fun o0 o => AutoscalingSystem.surviving o0 o /\ AutoscalingSystem.specKept o0 o
    | MetricStorageChild => fun o0 o => MetricStorageSystem.coming o0 (MetricStorageController.MkState o [])
    end;
  child_clean k :=
    match k with
    | AutoscalingChild => fun a => getCond (AutoscalingController.conds a) InputReadyCondition = None
    | _ => fun _ => True
    end;
  child_sound k := fun o => ofTypes (kindTypes k) (childConds o)
|}.

#[local] Existing Instance Controllers.

Lemma controllers_sound k o : notDeleting (childMeta o) = true -> child_sound k o -> child_kept k o o.
Proof.
  destruct k; intros Hd Ho; simpl.
  - by split; [apply CeilometerSystem.ceilometer_same_refl|].
  - split; [|done]. split; [apply AutoscalingSystem.autoscaling_same_refl|]. by split.
  - by split; [apply MetricStorageSystem.metricstorage_same_refl|].
Qed.

Lemma controllers_meta k o o' : child_storm k o o' -> sameMeta (childMeta o) (childMeta o').
Proof.
  destruct k; simpl; [apply CeilometerSystem.ceilometer_storm_meta|apply AutoscalingSystem.autoscaling_storm_meta|].
  intros (w & w' & Hst). exact (MetricStorageSystem.metricstorage_storm_meta _ _ Hst).
Qed.

Lemma controllers_storm k o0 o o' : child_storm k o o' -> child_kept k o0 o -> child_kept k o0 o'.
Proof.
  destruct k; simpl.
  - intros Hst. apply CeilometerSystem.ceilometer_storm_kept. by apply rtc_once.
  - intros Hst. apply AutoscalingSystem.storm_kept. by apply rtc_once.
  - intros (w & w' & Hst) Hk. by apply (MetricStorageSystem.metricstorage_storm_coming _ _ _ (rtc_once _ _ Hst)).
Qed.

Lemma controllers_pass k o o' : child_pass k o o' -> child_storm k o o'.
Proof.
  destruct k; simpl.
  - intros (tr & out & Hp). eapply pass_disturbed; [apply CeilometerSystem.ceilometer_settled_unsettled|exact Hp].
  - intros (tr & out & Hp). eapply pass_disturbed; [apply AutoscalingSystem.autoscaling_settled_unsettled|exact Hp].
  - intros (w & tr & out & w' & Hp). exists w, w'. by eapply MetricStorageSystem.metricstorage_pass_disturbed.
Qed.

Lemma controllers_approach k o0 o o' :
  child_deployable k o0 -> child_kept k o0 o -> child_clean k o -> child_pass k o o' ->
  child_clean k o' /\ child_left k o' <= pred (child_left k o) /\ (child_left k o = 0 -> isReady o' = true).
Proof.
  destruct k; simpl.
  - intros [def Hd] Hk _ (tr & out & Hp).
    destruct (CeilometerSystem.ceilometer_approaches WC o0 def Hd o tr out o' Hk Hp) as (_ & Hl & Hg).
    split_and!; [done|done|]. intros H0. apply (Hg H0).
  - intros [def Hd] [(Hs & Hnd & Ho) _] Hn (tr & out & Hp). apply ofTypes_without in Ho; [|done|done].
    destruct (AutoscalingSystem.autoscaling_approaches WA o0 def Hd o tr out o' (conj Hs (conj Hnd Ho)) Hp)
      as ((_ & _ & Ho') & Hl & Hg).
    split_and!; [by apply AutoscalingSystem.own_no_input|done|]. intros H0. apply (Hg H0).
  - intros Hd Hk _ (w & tr & out & w' & Hp).
    destruct (MetricStorageSystem.pass_approaches o0 Hd (MetricStorageController.MkState o w) tr out
      (MetricStorageController.MkState o' w') Hk Hp) as (_ & Hl & Hg).
    split_and!; [done|exact Hl|]. intros H0. apply (Hg H0).
Qed.

Lemma controllers_possible k o : exists o', child_pass k o o'.
Proof.
  destruct k; simpl.
  - destruct (pass_exists (CeilometerSystem.settledEnv WC) o) as (tr & out & o' & Hp);
      [apply CeilometerSystem.ceilometer_settledEnv_answers|by split_and!|eauto].
  - destruct (pass_exists (AutoscalingSystem.settledEnv WA) o) as (tr & out & o' & Hp);
      [apply AutoscalingSystem.autoscaling_settledEnv_answers|by split_and!|eauto].
  - destruct (MetricStorageSystem.metricstorage_pass_exists (MetricStorageController.MkState o []))
      as (tr & out & [o' w'] & Hp). by exists o', [], tr, out, w'.
Qed.

Lemma controllers_bound k o : child_left k o <= 4.
Proof.
  destruct k; simpl.
  - unfold CeilometerSystem.passesLeft. destruct (CeilometerSystem.prepared o); [case_decide|]; lia.
  - unfold AutoscalingSystem.passesLeft.
    destruct (AutoscalingSystem.prepared o), (AutoscalingSystem.recorded WA o); [case_decide..| |]; lia.
  - unfold MetricStorageSystem.passesLeft. destruct (MetricStorageSystem.prepared _); lia.
Qed.

#[global] Instance Controllers_laws : ChildLaws Controllers.
Proof.
  split.
  - exact controllers_sound.
  - intros [] o0 o; simpl; intros Hk; apply Hk.
  - intros [] o o'; simpl; by intros ->.
  - intros [] o o'; simpl; [done| |done]. intros Hc. unfold AutoscalingController.conds in *. simpl in Hc. by rewrite Hc.
  - assert (forall ts, ofTypes ts None) as Hnil by (intros ts; split; [constructor|by intros c ?%not_elem_of_nil]).
    intros [] o; simpl; intros Hc; rewrite Hc; (split; [apply Hnil|]); [done| |done].
    unfold AutoscalingController.conds. by rewrite Hc.
  - exact controllers_meta.
  - exact controllers_storm.
  - exact controllers_pass.
  - exact controllers_approach.
  - exact controllers_possible.
  - exact controllers_bound.
  - intros [] o0 o; simpl; intros Hk; apply Hk.
  - intros [] o0 o; simpl; intros Hk Hst; [apply Hk| |apply Hk]. destruct Hk as [Hs Hk].
    split; [apply Hs|by apply Hk].
Qed.
End Children.
End ChildControllers.
