(* ===== verification/OperatorSystem.v ===== *)
(** * The operator: a Telemetry, its children and their controllers

    The composition of the four controllers.  The Telemetry controller and the
    webhooks run against an API server ([TelemetrySystem]); the controllers of
    the children run beside it ([ChildControllers]).  The passes of all
    controllers, the removal of objects whose deletion is complete and, in a
    storm, edits of the Telemetry follow each other in any order ([schedule]).
    In a storm every call of every controller may fail ([TelemetryFaults],
    [child_storm]). *)

From stdpp Require Import gmap strings list.
From Stdlib Require Import ZArith Lia.
From S2P Require Import Prelude Condition Api Libs Reference Webhooks Operator Passes.
From S2P Require Import MetricStoragePkg CeilometerPkg AutoscalingPkg.
From S2P Require Import MetricStorageController CeilometerController AutoscalingController.
From S2P Require Import Telemetry TelemetrySystem TelemetryStore TelemetryFaults.
From S2P Require Import CeilometerSystem AutoscalingSystem MetricStorageSystem ChildControllers.

Module OperatorSystem.
Import Telemetry TelemetrySystem TelemetryFaults ChildControllers.

(** ** Interleavings *)
Inductive Weather := Storm | Calm.

(** A pass of a controller; the API server removes a child whose deletion is
    complete; the user changes the spec of the Telemetry (to [s], as admitted). *)
Inductive Step := TelemetryPass | ChildPass (k : Child) | Removal (k : Child) | Edit (s : TelemetrySpec).

(** The passes of the controller of [k]. *)
Definition isPassOf (k : Child) (a : Step) : bool :=
  match a with ChildPass k' => bool_decide (k' = k) | _ => false end.
Definition passesOf (k : Child) (steps : list Step) : nat := length (filter (fun a => isPassOf k a = true) steps).

(** The spec after an edit, and after all of them. *)
Definition edited (s : TelemetrySpec) (a : Step) : TelemetrySpec := match a with Edit s' => s' | _ => s end.
Definition lastSpec (s : TelemetrySpec) (steps : list Step) : TelemetrySpec := fold_left edited steps s.
Definition isEdit (a : Step) : bool := match a with Edit _ => true | _ => false end.

(** Passes of the controllers of enabled children. *)
Definition passOfEnabled (s : TelemetrySpec) (a : Step) : bool :=
  match a with TelemetryPass => true | ChildPass k => enabled s k | _ => false end.

Definition withSpec (s : TelemetrySpec) (i : Telemetry) : Telemetry := MkTelemetry (tel_Meta i) s (tel_Status i).

Section Interleavings.
Context `{A : ApiServer W} `{AL : !ApiLaws}.
Context `{L : ConditionLib} `{LL : !ConditionLaws L} `{F : FinalizerLib} `{FL : !FinalizerLaws F}.
Context `{C : CommonLib} `{CL : !CommonLaws C} `{V : ServiceLib} `{VL : !ServiceLaws V}.
Context `{CC : ChildControllers} `{ML : !ChildLaws CC}.
Variable key : NamespacedName.

Definition child_moves (wt : Weather) : forall k, childObj k -> childObj k -> Prop :=
  match wt with Storm => child_storm | Calm => child_pass end.

(** One step.  The pass of a child stores what it leaves. *)
Definition moves (wt : Weather) (a : Step) (w w' : W) : Prop :=
  match a with
  | TelemetryPass =>
      match wt with
      | Storm => reaches faulty (Reconcile key) w w'
      | Calm => w' = (interp ans (Reconcile key) w).2
      end
  | ChildPass k => exists i o o', telemetry_at w key = Some i /\ stored w i k = Some o /\ child_moves wt k o o' /\
      stored w' i k = Some o' /\ frame k (childKey i k) w w'
  | Removal k => exists i o, telemetry_at w key = Some i /\ stored w i k = Some o /\
      notDeleting (childMeta o) = false /\ stored w' i k = None /\ frame k (childKey i k) w w'
  | Edit s => wt = Storm /\ exists i, telemetry_at w key = Some i /\ telemetry_at w' key = Some (withSpec s i) /\
      forall k key', child_at w' k key' = child_at w k key'
  end.

Inductive schedule (wt : Weather) : W -> list Step -> W -> Prop :=
| schedule_nil w : schedule wt w [] w
| schedule_cons w a w1 steps w' :
    moves wt a w w1 -> schedule wt w1 steps w' -> schedule wt w (a :: steps) w'.

Lemma child_moves_storm wt k o o' : child_moves wt k o o' -> child_storm k o o'.
Proof. destruct wt; [done|apply pass_storm]. Qed.

(** The child as the Telemetry controller and the webhook create it. *)
Definition created (i : Telemetry) (k : Child) : childObj k := target i k None.

(** ** Children that are installed *)

(** [base k], the child as the Telemetry controller has last written it: it
    is the Telemetry's, and writing it again would not change it; no override is
    filled in behind the back of the Telemetry controller. *)
Definition isBase (i0 : Telemetry) (base : forall k, childObj k) : Prop :=
  forall k, enabled (tel_Spec i0) k = true ->
    keyOf (childMeta (base k)) = childKey i0 k /\ foreign (tel_Meta i0) (childMeta (base k)) = false /\
    notDeleting (childMeta (base k)) = true /\ target i0 k (Some (base k)) = base k /\ steady k (base k).

(** What the passes of a child change, the Telemetry controller leaves. *)
Lemma base_settled i k (b o : childObj k) : target i k (Some b) = b ->
  sameMeta (childMeta b) (childMeta o) -> sameSpec k b o -> target i k (Some o) = o.
Proof.
  intros Hid [fs Hm] Hs.
  assert (ownedBy (tel_Meta i) k (childMeta o) = childMeta o) as Hown.
  { rewrite Hm, ownedBy_finalizers. f_equal. rewrite <-Hid at 2. by rewrite target_meta. }
  unfold target in *. simpl default in *. rewrite Hown. revert Hid. clear -Hs. intros Hid.
  destruct k, b, o; simpl in Hs; destruct_and?; subst; destruct admission; simpl in *;
    unfold Webhooks.Ceilometer_Default, Webhooks.Autoscaling_Default, Webhooks.MetricStorage_Default in *; simpl in *;
    injection Hid; intros; congruence.
Qed.

(** What is written is a base. *)
Lemma target_base i w :
  controllable i w ->
  (forall k o, enabled (tel_Spec i) k = true -> stored w i k = Some o -> notDeleting (childMeta o) = true) ->
  (enabled (tel_Spec i) AutoscalingChild = true ->
     AutoscalingSystem.steadyOverride (asec_AutoscalingSpec (tels_Autoscaling (tel_Spec i)))) ->
  isBase i (fun k => target i k (stored w i k)).
Proof.
  intros Hc Hd Hov k He. destruct (default_own i k w Hc He) as [Hf Hk]. rewrite target_meta.
  split_and!; [by rewrite ownedBy_key|by apply ownedBy_own| |apply target_idem|].
  - rewrite ownedBy_deleting. destruct (stored w i k) eqn:Ho; [by apply (Hd k)|by destruct k].
  - destruct k; simpl; [done| |done]. unfold target. destruct admission; exact (Hov He).
Qed.

(** Writing a child leaves its conditions. *)
Lemma target_conds i k (o : option (childObj k)) :
  childConds (target i k o) = match o with Some o => childConds o | None => None end.
Proof. unfold target. by destruct k, admission, o. Qed.

Lemma target_sound i k (o : option (childObj k)) :
  (forall o1, o = Some o1 -> child_sound k o1) -> child_sound k (target i k o).
Proof.
  intros Ho. destruct o as [o|]; [by apply (sound_conds k o); [apply (target_conds i k (Some o))|apply Ho]|].
  apply new_sound, (target_conds i k None).
Qed.
Lemma target_clean i k (o : option (childObj k)) :
  (forall o1, o = Some o1 -> child_clean k o1) -> child_clean k (target i k o).
Proof.
  intros Ho. destruct o as [o|]; [by apply (clean_conds k o); [apply (target_conds i k (Some o))|apply Ho]|].
  apply new_sound, (target_conds i k None).
Qed.

(** *** The invariant: the Telemetry is installed as [i0], with its children *)
Section Installed.
Context (i0 : Telemetry) (base : forall k, childObj k) (Hbase : isBase i0 base).

Definition childInstalled (w : W) (k : Child) : Prop :=
  if enabled (tel_Spec i0) k then exists o, stored w i0 k = Some o /\ child_kept k (base k) o
  else gone (stored w i0 k).

Definition installed (w : W) : Prop :=
  (exists i, telemetry_at w key = Some i /\ tel_Meta i = tel_Meta i0 /\ tel_Spec i = tel_Spec i0 /\
     live i /\ ownConds (conds i)) /\
  forall k, childInstalled w k.

Lemma installed_kept w k o : installed w -> enabled (tel_Spec i0) k = true -> stored w i0 k = Some o ->
  child_kept k (base k) o.
Proof.
  intros [_ Hch] He Ho. specialize (Hch k). unfold childInstalled in Hch. rewrite He, Ho in Hch.
  by destruct Hch as (o' & [= <-] & Hk).
Qed.

Lemma kept_target k o : enabled (tel_Spec i0) k = true -> child_kept k (base k) o -> target i0 k (Some o) = o.
Proof.
  intros He Hk. destruct (Hbase k He) as (_ & _ & _ & Ht & Hst).
  apply (base_settled i0 k (base k)); [done|by apply kept_meta|by apply kept_spec].
Qed.

Lemma installed_settled w : installed w -> settled i0 (stored w i0) /\ controllable i0 w.
Proof.
  intros Hin. split.
  - intros k. pose proof (proj2 Hin k) as Hk. unfold childInstalled in Hk. destruct (enabled _ _) eqn:He; [|done].
    destruct Hk as (o & Ho & Hk). exists o. split; [done|by apply kept_target].
  - intros k o He Ho. pose proof (installed_kept w k o Hin He Ho) as Hk. apply kept_meta in Hk as [fs ->].
    rewrite owned_finalizers. by apply Hbase.
Qed.

(** A pass of the Telemetry controller changes no child and shows them. *)
Lemma telemetry_move w : installed w ->
  let '(_, o, w') := interp ans (Reconcile key) w in
  o = Val (emptyResult, None) /\ installed w' /\ (forall k, stored w' i0 k = stored w i0 k) /\
  exists i', telemetry_at w' key = Some i' /\ tel_Meta i' = tel_Meta i0 /\ tel_Spec i' = tel_Spec i0 /\
    shows i' (stored w i0).
Proof.
  intros Hin. destruct (installed_settled w Hin) as [Hset Hcon].
  destruct Hin as [(i & Hi & Hm & Hs & Hl & Ho) Hch].
  pose proof (pass_settled key i w Hi Hl Ho) as Hp. destruct (interp ans (Reconcile key) w) as [[tr o] w'].
  destruct Hp as (-> & Hsame & i' & Hi' & Hm' & Hs' & Hl' & Ho' & Hshow).
  - by apply (controllable_same i0).
  - rewrite (stored_eq _ _ _ Hm). by apply (settled_same i0).
  - assert (forall k, stored w' i0 k = stored w i0 k) as Hst by (intros k; apply Hsame).
    rewrite (stored_eq _ _ _ Hm) in Hshow. split_and!; [done| |done|].
    + split; [exists i'; by rewrite Hm', Hs', Hm, Hs|]. intros k. unfold childInstalled. rewrite Hst. apply Hch.
    + exists i'. by rewrite Hm', Hs', Hm, Hs.
Qed.

(** One that meets faults does not change them either. *)
Lemma telemetry_storm w w' : installed w -> reaches faulty (Reconcile key) w w' -> installed w'.
Proof.
  intros Hin Hr. destruct (installed_settled w Hin) as [Hset Hcon].
  destruct Hin as [(i & Hi & Hm & Hs & Hl & Ho) Hch].
  destruct (pass_faulty key i w (controllable_same i0 i w Hm Hs Hcon) Hi (proj1 Hl) Ho w' Hr)
    as ((i' & Hi' & _ & Hs' & Ho' & Hl') & Hch' & _).
  destruct (Hl' Hl) as [Hlive Hm']. split; [exists i'; by rewrite Hm', Hs', Hm, Hs|].
  intros k. specialize (Hch k). specialize (Hch' k). specialize (Hset k).
  unfold childInstalled, childReached in *. rewrite !(stored_same _ _ _ _ Hm), Hs in Hch'.
  destruct (enabled _ _) eqn:He.
  - destruct Hset as (o & Hst & Ht). rewrite Hst, (target_same _ _ _ _ Hm Hs), Ht in Hch'.
    assert (stored w' i0 k = stored w i0 k) as -> by (rewrite Hst; by destruct Hch'). done.
  - destruct Hch' as [->|[Hg _]]; done.
Qed.

(** A pass of a child's controller changes that child only. *)
Lemma child_move wt k w w' : installed w -> moves wt (ChildPass k) w w' -> installed w' /\
  (forall k', k' <> k -> stored w' i0 k' = stored w i0 k') /\
  exists o o', stored w i0 k = Some o /\ stored w' i0 k = Some o' /\ child_moves wt k o o'.
Proof.
  intros [(i & Hi & Hm & Hs & Hl & Ho) Hch] (i1 & o & o' & Hi1 & Ho1 & Hpass & Ho' & Hfr & Htel).
  rewrite Hi in Hi1. injection Hi1 as <-. unfold stored, childKey in *. rewrite Hm in *.
  assert (forall k', k' <> k -> stored w' i0 k' = stored w i0 k') as Hoth.
  { intros k' Hne. apply Hfr. congruence. }
  split_and!; [split|done|eauto 10].
  - exists i. by rewrite Htel.
  - intros k'. specialize (Hch k'). unfold childInstalled in *. destruct (decide (k' = k)) as [->|Hne]; [|by rewrite Hoth].
    unfold stored, childKey in *. rewrite Ho1 in Hch. rewrite Ho'. apply child_moves_storm in Hpass.
    destruct (enabled _ _).
    + destruct Hch as (o1 & [= <-] & Hk). exists o'. split; [done|]. by eapply storm_kept.
    + simpl in *. by destruct (storm_meta _ _ _ Hpass) as [fs ->].
Qed.

(** Only a disabled child is removed. *)
Lemma removal_move wt k w w' : installed w -> moves wt (Removal k) w w' -> installed w' /\
  enabled (tel_Spec i0) k = false /\ (forall k', k' <> k -> stored w' i0 k' = stored w i0 k').
Proof.
  intros Hin (i1 & o & Hi1 & Ho1 & Hd & Ho' & Hfr & Htel). pose proof Hin as [(i & Hi & Hm & Hs & Hl & Ho) Hch].
  rewrite Hi in Hi1. injection Hi1 as <-. rewrite (stored_same _ _ _ _ Hm) in Ho1. rewrite (stored_same _ _ _ _ Hm) in Ho'.
  assert (enabled (tel_Spec i0) k = false) as He.
  { destruct (enabled _ _) eqn:He; [|done]. pose proof (installed_kept w k o Hin He Ho1) as Hk.
    destruct (Hbase k He) as (_ & _ & Hnd & _). apply kept_meta in Hk as [fs Hmeta]. rewrite Hmeta in Hd.
    simpl in Hd. unfold notDeleting in *. simpl in Hd. congruence. }
  assert (forall k', k' <> k -> stored w' i0 k' = stored w i0 k') as Hoth.
  { intros k' Hne. unfold stored, childKey in *. rewrite Hm in Hfr. apply Hfr. congruence. }
  split_and!; [|done|done]. split; [exists i; by rewrite Htel|].
  intros k'. specialize (Hch k'). unfold childInstalled in *. destruct (decide (k' = k)) as [->|Hne]; [|by rewrite Hoth].
  by rewrite He, Ho'.
Qed.

Lemma move_installed wt a w w' : isEdit a = false -> installed w -> moves wt a w w' -> installed w'.
Proof.
  intros Ha Hin Hm. destruct a as [|k|k|s]; [| | |done].
  - destruct wt; [by eapply telemetry_storm|]. unfold moves in Hm. subst w'. pose proof (telemetry_move w Hin) as H.
    destruct (interp ans (Reconcile key) w) as [[tr o] w']. apply H.
  - exact (proj1 (child_move wt k w w' Hin Hm)).
  - exact (proj1 (removal_move wt k w w' Hin Hm)).
Qed.

Lemma schedule_installed wt w steps w' : Forall (fun a => isEdit a = false) steps -> schedule wt w steps w' ->
  installed w -> installed w'.
Proof.
  intros Hs. induction 1 as [|w a w1 steps w' Hm _ IH]; [done|]. apply Forall_cons in Hs as [Ha Hs]. intros Hin.
  apply IH; [done|]. by eapply move_installed.
Qed.

(** No edits in calm weather. *)
Lemma calm_no_edit w steps w' : schedule Calm w steps w' -> Forall (fun a => isEdit a = false) steps.
Proof. induction 1 as [|w a w1 steps w' Hm _ IH]; constructor; [|done]. destruct a; [done..|]. by destruct Hm. Qed.

(** *** Progress: fewer than [n] passes of its controller, or it is Ready *)
Definition ahead (n : nat) (w : W) (k : Child) : Prop :=
  exists o, stored w i0 k = Some o /\ child_clean k o /\
    (child_left k o < n \/ child_left k o = 0 /\ isReady o = true).

Lemma ahead_same n w w' k : stored w' i0 k = stored w i0 k -> ahead n w k -> ahead n w' k.
Proof. intros Hst (o & Ho & H). exists o. by rewrite Hst. Qed.

Lemma move_ahead a n w w' k : enabled (tel_Spec i0) k = true -> child_deployable k (base k) ->
  installed w -> moves Calm a w w' -> ahead n w k -> ahead (if isPassOf k a then pred n else n) w' k.
Proof.
  intros He Hd Hin Hm Ha. destruct a as [|k'|k'|s]; simpl isPassOf.
  - apply (ahead_same n w); [|done]. unfold moves in Hm. subst w'. pose proof (telemetry_move w Hin) as H.
    destruct (interp ans (Reconcile key) w) as [[tr out] w']. apply H.
  - destruct (child_move Calm k' w w' Hin Hm) as (_ & Hoth & o1 & o' & Ho1 & Ho' & Hp).
    case_bool_decide as Hk'; [|apply (ahead_same n w); [|done]; apply Hoth; congruence]. subst k'.
    destruct Ha as (o & Ho & Hc & Hl). rewrite Ho in Ho1. injection Ho1 as <-.
    pose proof (installed_kept w k o Hin He Ho) as Hk.
    destruct (pass_approaches k _ o o' Hd Hk Hc Hp) as (Hc' & Hl' & Hr'). exists o'. split_and!; [done|done|].
    destruct (decide (child_left k o = 0)) as [H0|]; [right; split; [lia|by apply Hr']|left; lia].
  - destruct (removal_move Calm k' w w' Hin Hm) as (_ & Hno & Hoth). apply (ahead_same n w); [|done].
    apply Hoth. congruence.
  - by destruct Hm.
Qed.

Lemma schedule_ahead n w steps w' k : enabled (tel_Spec i0) k = true -> child_deployable k (base k) ->
  schedule Calm w steps w' -> installed w -> ahead n w k -> ahead (n - passesOf k steps) w' k.
Proof.
  intros He Hd Hsch. revert n. induction Hsch as [w|w a w1 steps w' Hm Hsch IH]; intros n Hin Ha.
  { by rewrite Nat.sub_0_r. }
  pose proof (move_ahead a n w w1 k He Hd Hin Hm Ha) as Ha1.
  apply IH in Ha1; [|eapply move_installed; [|done|done]; destruct a; [done..|]; by destruct Hm].
  unfold passesOf in *. rewrite filter_cons. destruct (isPassOf k a); [|done]. simpl.
  by replace (n - S _) with (pred n - length (filter (fun a => isPassOf k a = true) steps)) by lia.
Qed.

(** Every schedule of the controllers of enabled children can happen. *)
Lemma schedule_possible w steps : installed w -> Forall (fun a => passOfEnabled (tel_Spec i0) a = true) steps ->
  exists w', schedule Calm w steps w'.
Proof.
  intros Hin Hs. revert w Hin. induction Hs as [|a steps Ha _ IH]; intros w Hin; [by exists w; constructor|].
  assert (exists w1, moves Calm a w w1) as [w1 Hm].
  { destruct a as [|k| |]; [by eexists| |done|done]. simpl in Ha.
    pose proof (proj2 Hin k) as Hk. unfold childInstalled in Hk. rewrite Ha in Hk.
    destruct Hk as (o & Ho & Hk), Hin as [(i & Hi & Hm & _) _]. destruct (pass_possible k o) as [o' Hp].
    assert (keyOf (childMeta o') = childKey i0 k) as Hkey.
    { destruct (Hbase k Ha) as (<- & _). pose proof (storm_kept _ _ _ _ (pass_storm _ _ _ Hp) Hk) as Hk'.
      by apply kept_meta in Hk' as [fs ->]. }
    destruct (child_stores w k o') as (w1 & Ho' & Hfr); rewrite Hkey in *.
    { unfold stored in Ho. by rewrite Ho. }
    exists w1, i, o, o'. unfold stored, childKey in *. by rewrite Hm. }
  destruct (IH w1) as [w' Hsch]; [eapply move_installed; [|done|done]; by destruct a|].
  exists w'. by econstructor.
Qed.

(** *** A pass over Ready children *)
Lemma installed_ready w : installed w ->
  (exists k, enabled (tel_Spec i0) k = true) -> (forall k, enabled (tel_Spec i0) k = true -> ahead 0 w k) ->
  let '(_, o, w') := interp ans (Reconcile key) w in
  o = Val (emptyResult, None) /\
  exists i', telemetry_at w' key = Some i' /\ tel_Spec i' = tel_Spec i0 /\
    Telemetry_IsReady i' = true /\ shows i' (stored w' i').
Proof.
  intros Hin He Ha. pose proof (telemetry_move w Hin) as H.
  destruct (interp ans (Reconcile key) w) as [[tr o] w'].
  destruct H as (-> & _ & Hst & i' & Hi' & Hm & Hs & Hshow). split; [done|]. exists i'.
  assert (Telemetry_IsReady i' = true) as Hr.
  { destruct Hshow as [_ Hr]. rewrite Hr by (by rewrite Hs). apply forallb_forall. intros k _. rewrite Hs.
    destruct (enabled _ k) eqn:Hk; [|done]. destruct (Ha k Hk) as (o & -> & _ & [?|[_ Ho]]); [lia|exact Ho]. }
  split_and!; [done|done|done|]. rewrite (stored_eq _ _ _ Hm). destruct Hshow as [H1 H2].
  split; [intros k; rewrite Hst; apply H1|]. intros He'. rewrite (H2 He'). apply readyOf_ext. done.
Qed.

(** From clean children, five passes of each controller are enough. *)
Lemma installed_converges w : installed w -> (exists k, enabled (tel_Spec i0) k = true) ->
  (forall k, enabled (tel_Spec i0) k = true -> child_deployable k (base k)) ->
  (forall k o, enabled (tel_Spec i0) k = true -> stored w i0 k = Some o -> child_clean k o) ->
  (forall steps, Forall (fun a => passOfEnabled (tel_Spec i0) a = true) steps -> exists w', schedule Calm w steps w') /\
  forall steps w', schedule Calm w steps w' ->
  (forall k, enabled (tel_Spec i0) k = true -> 5 <= passesOf k steps) ->
  let '(_, o, w2) := interp ans (Reconcile key) w' in
  o = Val (emptyResult, None) /\
  exists i2, telemetry_at w2 key = Some i2 /\ tel_Spec i2 = tel_Spec i0 /\
    Telemetry_IsReady i2 = true /\ shows i2 (stored w2 i2).
Proof.
  intros Hin He Hdep Hclean. split; [intros steps; by apply schedule_possible|]. intros steps w' Hsch Hn.
  apply installed_ready; [|done|].
  - eapply schedule_installed; [by eapply calm_no_edit|exact Hsch|done].
  - intros k Hk. replace 0 with (5 - passesOf k steps) by (specialize (Hn k Hk); lia).
    eapply schedule_ahead; [done|by apply Hdep|exact Hsch|done|].
    pose proof (proj2 Hin k) as Hk3. unfold childInstalled in Hk3. rewrite Hk in Hk3.
    destruct Hk3 as (o & Ho & _). exists o. split_and!; [done|by eapply Hclean|left].
    pose proof (left_bound k o). lia.
Qed.
End Installed.

(** *** Two passes install a fresh Telemetry *)
Lemma installation i w : telemetry_at w key = Some i -> notDeleting (tel_Meta i) = true -> conds i = None ->
  (forall k, stored w i k = None) ->
  (enabled (tel_Spec i) AutoscalingChild = true ->
     AutoscalingSystem.steadyOverride (asec_AutoscalingSpec (tels_Autoscaling (tel_Spec i)))) ->
  let '(_, o1, w1) := interp ans (Reconcile key) w in
  let '(_, o2, w2) := interp ans (Reconcile key) w1 in
  o1 = Val (emptyResult, None) /\ o2 = Val (emptyResult, None) /\
  exists i2, telemetry_at w2 key = Some i2 /\ tel_Spec i2 = tel_Spec i /\
  (forall k, stored w2 i2 k = if enabled (tel_Spec i) k then Some (created i2 k) else None) /\
  isBase i2 (created i2) /\ installed i2 (created i2) w2.
Proof.
  intros Hi Hd Hc Hnone Hov.
  assert (ownConds (conds i)) as Ho by (rewrite Hc; split; [constructor|by intros t c]).
  pose proof (pass_young key i w Hi Hd Ho) as H1. destruct (interp ans (Reconcile key) w) as [[tr1 o1] w1].
  destruct H1 as (-> & i1 & fs & Hi1 & Hm1 & Hs1 & Hl1 & Ho1 & Hch1); [by intros (_ & _ & ?)|].
  assert (forall k, stored w1 i1 k = None) as Hnone1.
  { intros k. unfold stored, childKey. rewrite Hm1. simpl. rewrite Hch1. exact (Hnone k). }
  pose proof (pass_live key i1 w1 Hi1 Hl1 Ho1) as H2. destruct (interp ans (Reconcile key) w1) as [[tr2 o2] w2].
  destruct H2 as (-> & i2 & Hi2 & Hm2 & Hs2 & Hl2 & Ho2 & Hsync & _); [intros k o _; by rewrite Hnone1|].
  assert (forall k, stored w2 i2 k = if enabled (tel_Spec i) k then Some (created i2 k) else None) as Hst.
  { intros k. rewrite (stored_same _ _ _ _ Hm2). specialize (Hsync k). rewrite Hs1, Hnone1 in Hsync.
    destruct (enabled _ k); [|by apply Hsync]. rewrite Hsync. unfold created. by rewrite (target_same i1 i2). }
  assert (forall k, stored w1 i2 k = None) as Hnone2 by (intros k; by rewrite (stored_same _ _ _ _ Hm2)).
  assert (isBase i2 (created i2)) as Hb.
  { intros k He. unfold created. rewrite <-(Hnone2 k). apply target_base; [..|done].
    - intros k' o _. by rewrite Hnone2.
    - intros k' o _. by rewrite Hnone2.
    - by rewrite Hs2, Hs1. }
  split_and!; [done|done|]. exists i2. rewrite Hs2, Hs1. split_and!; [done|done|done|done|].
  split; [by exists i2|]. intros k. unfold childInstalled. rewrite Hs2, Hs1, Hst.
  destruct (enabled _ k) eqn:He; [|done]. eexists. split; [done|].
  apply sound_kept; [apply Hb; by rewrite Hs2, Hs1|by apply target_sound].
Qed.
End Interleavings.

(** ** The whole operator *)
Section Operator.
Context `{A : ApiServer W} `{AL : !ApiLaws}.
Context `{L : ConditionLib} `{LL : !ConditionLaws L} `{F : FinalizerLib} `{FL : !FinalizerLaws F}.
Context `{C : CommonLib} `{CL : !CommonLaws C} `{V : ServiceLib} `{VL : !ServiceLaws V}.
Context (WC : CeilometerSystem.Env) (WA : AutoscalingSystem.Env).
#[local] Instance ours : ChildControllers := Controllers WC WA.
#[local] Instance ours_laws : ChildLaws ours := Controllers_laws WC WA.

(** The operator installs a Telemetry under any interleaving of its
    controllers.  Take a fresh Telemetry with an enabled child on an API server
    that keeps its promises and holds no child yet; if Autoscaling is enabled,
    an override of its service has its labels or annotations.  The first two
    passes of the Telemetry controller succeed and create exactly the enabled
    children.  From then on the passes of the controllers may follow each other
    in any order.  First for any number of passes anything may be answered to
    the controllers of the children, the calls of the Telemetry controller may
    fail and the operator may be restarted ([Storm]); the only requirement is
    that the spec is not edited and that afterwards no Autoscaling has InputReady
    recorded.  Then the environment settles and lets the children be deployed.
    Every further schedule is possible, and after each one in which the
    controller of every enabled child has made five passes, wherever among the
    others, the next pass of the Telemetry controller ends without a requeue or
    an error and leaves the Telemetry Ready, showing its children. *)
Theorem operator_installs key i w :
  telemetry_at w key = Some i -> notDeleting (tel_Meta i) = true -> conds i = None ->
  (exists k, enabled (tel_Spec i) k = true) -> (forall k, stored w i k = None) ->
  (enabled (tel_Spec i) AutoscalingChild = true ->
     AutoscalingSystem.steadyOverride (asec_AutoscalingSpec (tels_Autoscaling (tel_Spec i)))) ->
  let '(_, o1, w1) := interp ans (Reconcile key) w in
  let '(_, o2, w2) := interp ans (Reconcile key) w1 in
  o1 = Val (emptyResult, None) /\ o2 = Val (emptyResult, None) /\
  exists i2, telemetry_at w2 key = Some i2 /\ tel_Spec i2 = tel_Spec i /\
  (forall k, stored w2 i2 k = if enabled (tel_Spec i) k then Some (created i2 k) else None) /\
  ((forall k, enabled (tel_Spec i) k = true -> child_deployable k (created i2 k)) ->
   forall storm w3, schedule key Storm w2 storm w3 -> Forall (fun a => isEdit a = false) storm ->
   (forall k o, enabled (tel_Spec i) k = true -> stored w3 i2 k = Some o -> child_clean k o) ->
   (forall steps, Forall (fun a => passOfEnabled (tel_Spec i) a = true) steps ->
      exists w4, schedule key Calm w3 steps w4) /\
   forall steps w4, schedule key Calm w3 steps w4 ->
   (forall k, enabled (tel_Spec i) k = true -> 5 <= passesOf k steps) ->
   let '(_, o5, w5) := interp ans (Reconcile key) w4 in
   o5 = Val (emptyResult, None) /\
   exists i5, telemetry_at w5 key = Some i5 /\ tel_Spec i5 = tel_Spec i /\
     Telemetry_IsReady i5 = true /\ shows i5 (stored w5 i5)).
Proof.
  intros Hi Hd Hc He Hnone Hov. pose proof (installation key i w Hi Hd Hc Hnone Hov) as H.
  destruct (interp ans (Reconcile key) w) as [[tr1 o1] w1].
  destruct (interp ans (Reconcile key) w1) as [[tr2 o2] w2].
  destruct H as (-> & -> & i2 & Hi2 & Hs2 & Hst2 & Hb & Hin2). split_and!; [done|done|].
  exists i2. split_and!; [done|done|done|]. rewrite <-Hs2 in *. intros Hdep storm w3 Hstorm Hno Hclean.
  apply (installed_converges key i2 (created i2) Hb w3); [|done|done|done].
  by eapply schedule_installed.
Qed.
End Operator.

(** ** An installation *)
Import TelemetryStore.

(** A Telemetry with its three children enabled, as its user creates it. *)
Definition sampleSpec : TelemetrySpec :=
  MkTelemetrySpec (MkAutoscalingSection true (asc_Spec AutoscalingPkg.sampleAutoscaling))
    (MkCeilometerSection true (cei_Spec CeilometerPkg.sampleCeilometer))
    (MkMetricStorageSection true (met_Spec MetricStoragePkg.sampleMetricStorage)).
Definition sampleTelemetry : Telemetry :=
  MkTelemetry (newMeta "telemetry" "openstack") sampleSpec (MkTelemetryStatus None None).
Definition sampleKey : NamespacedName := MkKey "openstack" "telemetry".
Definition emptyStore : Store :=
  putTelemetry (MkStore (fun _ => None) (fun _ => None) (fun _ => None) (fun _ => None)) sampleKey sampleTelemetry.
Definition next (w : Store) : Store := (interp ans (Reconcile sampleKey) w).2.
Definition sampleTwo : Store := next (next emptyStore).
Definition telemetryTwo : Telemetry := default sampleTelemetry (telemetry_at sampleTwo sampleKey).

#[local] Instance sampleControllers : ChildControllers :=
  Controllers CeilometerSystem.sampleEnv AutoscalingSystem.sampleEnv.

Lemma sample_deployable k : child_deployable k (created telemetryTwo k).
Proof.
  destruct k; simpl.
  - eexists. split_and!; [done|eexists; split; reflexivity|vm_compute; reflexivity|vm_compute; reflexivity].
  - eexists. split_and!; [done|reflexivity|reflexivity| | |intros host; vm_compute; reflexivity|vm_compute; reflexivity];
      eexists; split; reflexivity.
  - split; [right; vm_compute; discriminate|]. intros _. eexists. vm_compute. reflexivity.
Qed.

(** A pass over the Ceilometer that fails, then five passes of each controller. *)
Definition sampleStorm : list Step := [ChildPass CeilometerChild].
Definition sampleSteps : list Step := mjoin (repeat (ChildPass <$> passOrder) 5).

Lemma sample_storm : telemetry_at sampleTwo sampleKey = Some telemetryTwo ->
  stored sampleTwo telemetryTwo CeilometerChild = Some (created telemetryTwo CeilometerChild) ->
  schedule sampleKey Storm sampleTwo sampleStorm sampleTwo.
Proof.
  intros Hi Ho. eapply schedule_cons; [|constructor].
  exists telemetryTwo, (created telemetryTwo CeilometerChild), (created telemetryTwo CeilometerChild).
  split_and!; [done|done| |done|done].
  apply (disturbed_helper _ (MkKey "openstack" "ceilometer") _ (Errorf "timeout")); exact I.
Qed.

(** The sample Telemetry becomes Ready. *)
Lemma operator_installs_witness : exists w4 i5,
  schedule sampleKey Calm sampleTwo sampleSteps w4 /\
  telemetry_at (next w4) sampleKey = Some i5 /\ Telemetry_IsReady i5 = true.
Proof.
  pose proof (operator_installs CeilometerSystem.sampleEnv AutoscalingSystem.sampleEnv sampleKey sampleTelemetry
    emptyStore eq_refl eq_refl eq_refl (ex_intro _ CeilometerChild eq_refl)) as H.
  specialize (H ltac:(intros []; reflexivity) ltac:(intros _ o; discriminate)).
  assert (telemetry_at sampleTwo sampleKey = Some telemetryTwo) as Hi by (vm_compute; reflexivity).
  pose proof sample_storm as Hstorm.
  assert (forall k, child_clean k (created telemetryTwo k)) as Hclean by (intros []; vm_compute; reflexivity || exact I).
  change sampleTwo with (interp ans (Reconcile sampleKey) (interp ans (Reconcile sampleKey) emptyStore).2).2 in *.
  destruct (interp ans (Reconcile sampleKey) emptyStore) as [[tr1 o1] w1]. cbn [snd] in *.
  destruct (interp ans (Reconcile sampleKey) w1) as [[tr2 o2] w2]. cbn [snd] in *.
  destruct H as (_ & _ & i2 & Hi2 & _ & Hst & H). rewrite Hi in Hi2. injection Hi2 as <-.
  destruct (H (fun k _ => sample_deployable k) sampleStorm w2) as [Hex Hall].
  - apply Hstorm; [exact Hi|]. exact (Hst CeilometerChild).
  - repeat constructor.
  - intros k o _ Ho. rewrite Hst in Ho. destruct (enabled _ k); [|discriminate Ho]. injection Ho as <-. apply Hclean.
  - destruct (Hex sampleSteps) as [w4 Hsch]; [by repeat constructor|]. specialize (Hall sampleSteps w4 Hsch).
    exists w4. unfold next. destruct (interp ans (Reconcile sampleKey) w4) as [[tr5 o5] w5]. cbn [snd].
    destruct Hall as (_ & i5 & Hi5 & _ & Hr & _); [intros [] _; vm_compute; lia|]. by exists i5.
Defined.
End OperatorSystem.
