(* ===== verification/OperatorRecovery.v ===== *)
(** * The operator recovers

    From any state of a Telemetry that is not being deleted, through any storm:
    failing calls and restarts of all controllers, edits of the spec that enable,
    change and disable children, children that are deleted.  The invariant that
    survives is [sound]; once the storm is over, two passes of the Telemetry
    controller install the children the spec asks for now, and the system of
    OperatorSystem.v becomes Ready. *)

From stdpp Require Import gmap strings list.
From Stdlib Require Import ZArith Lia.
From S2P Require Import Prelude Condition Api Libs Reference Webhooks Operator Passes.
From S2P Require Import MetricStoragePkg CeilometerPkg AutoscalingPkg.
From S2P Require Import MetricStorageController CeilometerController AutoscalingController.
From S2P Require Import Telemetry TelemetrySystem TelemetryStore TelemetryFaults.
From S2P Require Import CeilometerSystem AutoscalingSystem MetricStorageSystem ChildControllers OperatorSystem.

Module OperatorRecovery.
Import Telemetry TelemetrySystem TelemetryFaults ChildControllers OperatorSystem.

Section Recovery.
Context `{A : ApiServer W} `{AL : !ApiLaws}.
Context `{L : ConditionLib} `{LL : !ConditionLaws L} `{F : FinalizerLib} `{FL : !FinalizerLaws F}.
Context `{C : CommonLib} `{CL : !CommonLaws C} `{V : ServiceLib} `{VL : !ServiceLaws V}.
Context `{CC : ChildControllers} `{ML : !ChildLaws CC}.
Variable key : NamespacedName.

(** ** What survives a storm *)

(** A stored child belongs to nobody else; its conditions are of its kind,
    unless it is being deleted. *)
Definition soundChildren (i : Telemetry) (w : W) : Prop :=
  forall k o, stored w i k = Some o ->
    foreign (tel_Meta i) (childMeta o) = false /\ (notDeleting (childMeta o) = true -> child_sound k o).

Definition sound (i0 : Telemetry) (s : TelemetrySpec) (w : W) : Prop :=
  (exists i, telemetry_at w key = Some i /\ sameMeta (tel_Meta i0) (tel_Meta i) /\ tel_Spec i = s /\
     ownConds (conds i)) /\
  soundChildren i0 w.

(** Only the name and the namespace of the Telemetry matter for its children. *)
Lemma sameMeta_stored i i' (w : W) : sameMeta (tel_Meta i) (tel_Meta i') -> stored w i' = stored w i.
Proof. intros [fs Hm]. unfold stored, childKey. by rewrite Hm. Qed.
Lemma sameMeta_foreign i i' m : sameMeta (tel_Meta i) (tel_Meta i') ->
  foreign (tel_Meta i') m = foreign (tel_Meta i) m.
Proof. intros [fs ->]. apply foreign_finalizers. Qed.
Lemma sameMeta_deleting m m' : sameMeta m m' -> notDeleting m' = notDeleting m.
Proof. by intros [fs ->]. Qed.

Lemma soundChildren_same i i' w : sameMeta (tel_Meta i) (tel_Meta i') -> soundChildren i w -> soundChildren i' w.
Proof.
  intros Hm Hs k o. rewrite (sameMeta_stored _ _ _ Hm), (sameMeta_foreign _ _ _ Hm). apply Hs.
Qed.
Lemma soundChildren_back i i' w : sameMeta (tel_Meta i) (tel_Meta i') -> soundChildren i' w -> soundChildren i w.
Proof.
  intros Hm Hs k o. rewrite <-(sameMeta_stored _ _ _ Hm), <-(sameMeta_foreign _ _ _ Hm). apply Hs.
Qed.
Lemma soundChildren_controllable i w : soundChildren i w -> controllable i w.
Proof. intros Hs k o _ Ho. by apply (Hs k). Qed.

(** What is written is sound. *)
Lemma target_deleting i k (o : option (childObj k)) :
  notDeleting (childMeta (target i k o)) = match o with Some o => notDeleting (childMeta o) | None => true end.
Proof. rewrite target_meta, ownedBy_deleting. by destruct o, k. Qed.

Lemma reached_sound i w w' : soundChildren i w -> reached key i w w' -> soundChildren i w'.
Proof.
  intros Hs (_ & Hch & _) k o Ho. specialize (Hch k). unfold childReached in Hch. rewrite Ho in Hch.
  destruct Hch as [Heq|Hch]; [by apply Hs|]. destruct (enabled (tel_Spec i) k) eqn:He.
  - injection Hch as ->. destruct (default_own i k w (soundChildren_controllable i w Hs) He) as [Hf _]. split.
    + rewrite target_meta. by apply ownedBy_own.
    + rewrite target_deleting. intros Hd. apply target_sound. intros o1 Ho1. rewrite Ho1 in Hd. by apply (Hs k).
  - destruct Hch as [Hg Hown]. destruct (Hown o eq_refl) as (o0 & Ho0 & Hf). simpl in Hg.
    split; [rewrite Hf; by apply (Hs k)|]. intros Hd. by rewrite Hd in Hg.
Qed.

(** One child has changed. *)
Lemma soundChildren_frame i k w w' : frame k (childKey i k) w w' -> soundChildren i w ->
  (forall o, stored w' i k = Some o ->
     foreign (tel_Meta i) (childMeta o) = false /\ (notDeleting (childMeta o) = true -> child_sound k o)) ->
  soundChildren i w'.
Proof.
  intros [Hfr _] Hs Hk k' o Ho. destruct (decide (k' = k)) as [->|Hne]; [by apply Hk|].
  apply (Hs k'). rewrite <-Ho. symmetry. apply Hfr. congruence.
Qed.

(** A pass over a child keeps it sound. *)
Lemma storm_sound i k (o o' : childObj k) : child_storm k o o' ->
  foreign (tel_Meta i) (childMeta o) = false /\ (notDeleting (childMeta o) = true -> child_sound k o) ->
  foreign (tel_Meta i) (childMeta o') = false /\ (notDeleting (childMeta o') = true -> child_sound k o').
Proof.
  intros Hst [Hf Hs]. pose proof (storm_meta _ _ _ Hst) as Hm. rewrite (sameMeta_deleting _ _ Hm).
  split; [destruct Hm as [fs ->]; by rewrite owned_finalizers|]. intros Hd.
  eapply kept_sound, storm_kept; [exact Hst|]. by apply sound_kept; [|apply Hs].
Qed.

Lemma move_sound i0 s a w w' : notDeleting (tel_Meta i0) = true -> sound i0 s w -> moves key Storm a w w' ->
  sound i0 (edited s a) w'.
Proof.
  intros Hnd [(i & Hi & Hm & Hs & Ho) Hch] Hmv. pose proof (soundChildren_same _ _ _ Hm Hch) as Hchi.
  destruct a as [|k|k|s']; simpl in Hmv; simpl edited.
  - pose proof (pass_faulty key i w (soundChildren_controllable i w Hchi) Hi
      (eq_trans (sameMeta_deleting _ _ Hm) Hnd) Ho w' Hmv) as Hr.
    split; [|eapply soundChildren_back; [exact Hm|]; by eapply reached_sound].
    destruct Hr as [(i' & Hi' & Hm' & Hs' & Ho' & _) _]. exists i'. split_and!; [done| |congruence|done].
    destruct Hm as [fs Hm], Hm' as [fs' Hm']. exists fs'. by rewrite Hm', Hm.
  - destruct Hmv as (i1 & o & o' & Hi1 & Ho1 & Hp & Ho' & Hfr). rewrite Hi in Hi1. injection Hi1 as <-.
    split; [exists i; by rewrite (proj2 Hfr)|]. eapply soundChildren_back; [exact Hm|].
    apply (soundChildren_frame i k w w' Hfr Hchi). intros o1 Ho1'. rewrite Ho' in Ho1'. injection Ho1' as <-.
    eapply storm_sound; [exact Hp|]. by apply Hchi.
  - destruct Hmv as (i1 & o & Hi1 & Ho1 & Hd & Ho' & Hfr). rewrite Hi in Hi1. injection Hi1 as <-.
    split; [exists i; by rewrite (proj2 Hfr)|]. eapply soundChildren_back; [exact Hm|].
    apply (soundChildren_frame i k w w' Hfr Hchi). intros o1. by rewrite Ho'.
  - destruct Hmv as (_ & i1 & Hi1 & Hi' & Hsame). rewrite Hi in Hi1. injection Hi1 as <-.
    split; [by exists (withSpec s' i)|]. intros k o. unfold stored. rewrite Hsame. apply Hch.
Qed.

Lemma schedule_sound i0 s w steps w' : notDeleting (tel_Meta i0) = true -> sound i0 s w ->
  schedule key Storm w steps w' -> sound i0 (lastSpec s steps) w'.
Proof.
  intros Hnd Hs Hsch. revert s Hs. induction Hsch as [|w a w1 steps w' Hm _ IH]; intros s Hs; [done|].
  by eapply IH, move_sound.
Qed.

(** ** After the storm *)

(** An enabled child that is stored has no deletion or failure pending. *)
Definition usable (i : Telemetry) (w : W) : Prop :=
  forall k o, enabled (tel_Spec i) k = true -> stored w i k = Some o ->
    notDeleting (childMeta o) = true /\ child_clean k o.

Lemma reached_usable i w w' : usable i w -> reached key i w w' -> usable i w'.
Proof.
  intros Hu (_ & Hch & _) k o He Ho. specialize (Hch k). unfold childReached in Hch. rewrite He, Ho in Hch.
  destruct Hch as [Heq|[= ->]]; [by apply Hu|]. rewrite target_deleting. split.
  - destruct (stored w i k) eqn:Hk; [by apply (Hu k)|done].
  - apply target_clean. intros o1 Ho1. by apply (Hu k).
Qed.

(** A pass without faults is one of those with faults. *)
Lemma calm_reaches {X} (p : prog CallE X) w : reaches faulty p w (interp ans p w).2.
Proof. apply interp_reaches. intros Y e w1. left. apply surjective_pairing. Qed.

(** Two passes install what the spec asks for. *)
Lemma reinstallation i0 s w : notDeleting (tel_Meta i0) = true -> sound i0 s w ->
  (enabled s AutoscalingChild = true ->
     AutoscalingSystem.steadyOverride (asec_AutoscalingSpec (tels_Autoscaling s))) ->
  (forall k o, enabled s k = true -> stored w i0 k = Some o -> notDeleting (childMeta o) = true /\ child_clean k o) ->
  let '(_, o1, w1) := interp ans (Reconcile key) w in
  let '(_, o2, w2) := interp ans (Reconcile key) w1 in
  o1 = Val (emptyResult, None) /\ o2 = Val (emptyResult, None) /\
  exists i2 base, telemetry_at w2 key = Some i2 /\ sameMeta (tel_Meta i0) (tel_Meta i2) /\ tel_Spec i2 = s /\
  (forall k, if enabled s k then stored w2 i0 k = Some (base k) /\ child_clean k (base k) else gone (stored w2 i0 k)) /\
  isBase i2 base /\ installed key i2 base w2.
Proof.
  intros Hnd [(i & Hi & Hm & <- & Ho) Hch] Hov Hus. pose proof (soundChildren_same _ _ _ Hm Hch) as Hchi.
  pose proof (soundChildren_controllable i w Hchi) as Hcon. pose proof (sameMeta_deleting _ _ Hm) as Hdel.
  rewrite Hnd in Hdel. assert (usable i w) as Hu.
  { intros k o. rewrite (sameMeta_stored _ _ _ Hm). apply Hus. }
  pose proof (pass_any key i w Hi Hdel Ho Hcon) as H1.
  pose proof (pass_faulty key i w Hcon Hi Hdel Ho _ (calm_reaches _ w)) as Hr1.
  destruct (interp ans (Reconcile key) w) as [[tr1 o1] w1]. simpl in Hr1.
  destruct H1 as (-> & i1 & Hi1 & Hs1 & Hl1 & Ho1). pose proof (reached_sound _ _ _ Hchi Hr1) as Hch1.
  pose proof (reached_usable _ _ _ Hu Hr1) as Hu1. destruct Hr1 as [(i1' & Hi1' & Hm1 & _) _].
  rewrite Hi1 in Hi1'. injection Hi1' as <-. pose proof (soundChildren_same _ _ _ Hm1 Hch1) as Hch1'.
  pose proof (soundChildren_controllable i1 w1 Hch1') as Hcon1.
  pose proof (pass_live key i1 w1 Hi1 Hl1 Ho1 Hcon1) as H2. destruct (interp ans (Reconcile key) w1) as [[tr2 o2] w2].
  destruct H2 as (-> & i2 & Hi2 & Hm2 & Hs2 & Hl2 & Ho2 & Hsync & _). split_and!; [done|done|].
  assert (sameMeta (tel_Meta i0) (tel_Meta i1)) as Hm01.
  { destruct Hm as [fs Hm], Hm1 as [fs1 Hm1]. exists fs1. by rewrite Hm1, Hm. }
  assert (usable i1 w1) as Hu1'.
  { intros k o. rewrite Hs1, (sameMeta_stored _ _ _ Hm1). apply Hu1. }
  assert (isBase i1 (fun k => target i1 k (stored w1 i1 k))) as Hb.
  { apply target_base; [done|intros k o He Hst; by apply (Hu1' k)|by rewrite Hs1]. }
  assert (isBase i2 (fun k => target i1 k (stored w1 i1 k))) as Hb2.
  { intros k He. rewrite Hs2 in He. unfold childKey. rewrite Hm2, (target_same i1 i2) by done. by apply Hb. }
  exists i2, (fun k => target i1 k (stored w1 i1 k)). rewrite Hm2, Hs2, Hs1. split_and!; [done|done|done| |done|].
  - intros k. specialize (Hsync k). rewrite Hs1, (sameMeta_stored i0 i1 w2 Hm01) in Hsync.
    destruct (enabled (tel_Spec i) k) eqn:He; [|apply Hsync]. split; [done|].
    apply target_clean. intros o Hst. apply (Hu1' k); [by rewrite Hs1|done].
  - split; [by exists i2|]. intros k. specialize (Hsync k). unfold childInstalled.
    rewrite Hs2, (stored_same _ _ _ _ Hm2). destruct (enabled (tel_Spec i1) k) eqn:He; [|apply Hsync].
    eexists. split; [exact Hsync|]. apply sound_kept; [by apply Hb|].
    apply target_sound. intros o Hst. apply (Hch1' k o Hst). by apply (Hu1' k).
Qed.
End Recovery.

(** ** The whole operator *)
Section Operator.
Context `{A : ApiServer W} `{AL : !ApiLaws}.
Context `{L : ConditionLib} `{LL : !ConditionLaws L} `{F : FinalizerLib} `{FL : !FinalizerLaws F}.
Context `{C : CommonLib} `{CL : !CommonLaws C} `{V : ServiceLib} `{VL : !ServiceLaws V}.
Context (WC : CeilometerSystem.Env) (WA : AutoscalingSystem.Env).
#[local] Instance ours : ChildControllers := Controllers WC WA.
#[local] Instance ours_laws : ChildLaws ours := Controllers_laws WC WA.

(** C5. The operator recovers from a storm that leaves nothing behind the code
    cannot recover from.  Take a Telemetry that is not being deleted, in whatever stage, on an API server that keeps its promises;
    the children that are stored may be in any state, but belong to nobody else
    and have conditions of their kind.  Then, in any order and for any number of
    steps ([Storm]): passes of the Telemetry controller in which every call may
    fail, before or after it took effect, and which may be cut off by a restart;
    passes of the controllers of the children to which anything may be answered;
    children that are being deleted vanish; the user edits the spec.  The
    Telemetry still has the spec that was last asked for.  If it enables a child,
    if an override of the Autoscaling service has labels or annotations, if the
    enabled children that are stored are not waiting to be deleted and no
    Autoscaling has InputReady recorded (one that has is never Ready again, see
    [autoscaling_input_never_recovers]), then the next two passes of the Telemetry controller
    without faults succeed and leave exactly the children the spec asks for; the
    disabled ones are gone or being deleted.  If the environment now lets the
    children be deployed, every further schedule without faults is possible, and
    after each one in which the controller of every enabled child has made five
    passes, wherever among the others, the next pass of the Telemetry controller
    ends without a requeue or an error and leaves the Telemetry Ready, showing
    its children. *)
Theorem operator_recovers key i w storm w3 :
  telemetry_at w key = Some i -> notDeleting (tel_Meta i) = true -> ownConds (conds i) -> soundChildren i w ->
  schedule key Storm w storm w3 ->
  let s := lastSpec (tel_Spec i) storm in
  (exists i3, telemetry_at w3 key = Some i3 /\ tel_Spec i3 = s) /\
  ((exists k, enabled s k = true) ->
   (enabled s AutoscalingChild = true ->
      AutoscalingSystem.steadyOverride (asec_AutoscalingSpec (tels_Autoscaling s))) ->
   (forall k o, enabled s k = true -> stored w3 i k = Some o ->
      notDeleting (childMeta o) = true /\ child_clean k o) ->
   let '(_, o4, w4) := interp ans (Reconcile key) w3 in
   let '(_, o5, w5) := interp ans (Reconcile key) w4 in
   o4 = Val (emptyResult, None) /\ o5 = Val (emptyResult, None) /\
   exists i5, telemetry_at w5 key = Some i5 /\ tel_Spec i5 = s /\ settled i5 (stored w5 i5) /\
   ((forall k o, enabled s k = true -> stored w5 i5 k = Some o -> child_deployable k o) ->
    (forall steps, Forall (fun a => passOfEnabled s a = true) steps -> exists w6, schedule key Calm w5 steps w6) /\
    forall steps w6, schedule key Calm w5 steps w6 ->
    (forall k, enabled s k = true -> 5 <= passesOf k steps) ->
    let '(_, o7, w7) := interp ans (Reconcile key) w6 in
    o7 = Val (emptyResult, None) /\
    exists i7, telemetry_at w7 key = Some i7 /\ tel_Spec i7 = s /\
      Telemetry_IsReady i7 = true /\ shows i7 (stored w7 i7))).
Proof.
  intros Hi Hd Ho Hch Hst s.
  assert (sound key i s w3) as Hs3.
  { eapply schedule_sound; [done| |exact Hst]. split; [|done]. exists i. by split_and!; [|apply sameMeta_refl|..]. }
  split; [destruct Hs3 as [(i3 & ? & _ & ? & _) _]; by exists i3|]. intros He Hov Hus.
  pose proof (reinstallation key i s w3 Hd Hs3 Hov Hus) as H.
  destruct (interp ans (Reconcile key) w3) as [[tr4 o4] w4].
  destruct (interp ans (Reconcile key) w4) as [[tr5 o5] w5].
  destruct H as (-> & -> & i5 & base & Hi5 & Hm5 & Hs5 & Hst5 & Hb & Hin). split_and!; [done|done|].
  exists i5. split_and!; [done|done|by apply (installed_settled key i5 base Hb w5)|]. intros Hdep.
  rewrite <-(sameMeta_stored _ _ _ Hm5) in Hst5.
  assert (forall k, enabled s k = true -> stored w5 i5 k = Some (base k) /\ child_clean k (base k)) as Hk.
  { intros k Hk. specialize (Hst5 k). by rewrite Hk in Hst5. }
  rewrite <-Hs5 in *. apply (installed_converges key i5 base Hb w5 Hin He).
  - intros k Hen. by apply (Hdep k); [|apply Hk].
  - intros k o Hen Hst'. destruct (Hk k Hen) as [Hk1 Hk2]. rewrite Hst' in Hk1. by injection Hk1 as ->.
Qed.
End Operator.

(** ** A storm over the sample installation *)
Import TelemetryStore.

(** The user disables Autoscaling. *)
Definition editedSpec : TelemetrySpec :=
  MkTelemetrySpec (MkAutoscalingSection false (asc_Spec AutoscalingPkg.sampleAutoscaling))
    (tels_Ceilometer sampleSpec) (tels_MetricStorage sampleSpec).

(** Two passes, a pass over the Ceilometer that fails, the edit, and a pass that
    is cut off after its first call. *)
Definition stormSteps : list Step :=
  [TelemetryPass; TelemetryPass; ChildPass CeilometerChild; Edit editedSpec; TelemetryPass].
Definition stormEnd : Store := putTelemetry sampleTwo sampleKey (withSpec editedSpec telemetryTwo).
Definition calmSteps : list Step :=
  mjoin (repeat [ChildPass CeilometerChild; TelemetryPass; ChildPass MetricStorageChild] 5).

(** The children two passes after the storm. *)
Definition recovered (k : Child) : childObj k :=
  default (created telemetryTwo k) (stored (next (next stormEnd)) telemetryTwo k).

#[local] Instance sampleControllers : ChildControllers :=
  Controllers CeilometerSystem.sampleEnv AutoscalingSystem.sampleEnv.

Lemma recovered_deployable k : enabled editedSpec k = true -> child_deployable k (recovered k).
Proof.
  destruct k; simpl; intros He; [|discriminate He|].
  - eexists. split_and!; [done|eexists; split; reflexivity|vm_compute; reflexivity|vm_compute; reflexivity].
  - split; [right; vm_compute; discriminate|]. intros _. eexists. vm_compute. reflexivity.
Qed.

Lemma sample_tempest : schedule sampleKey Storm emptyStore stormSteps stormEnd.
Proof.
  assert (telemetry_at sampleTwo sampleKey = Some telemetryTwo) as Hi by (vm_compute; reflexivity).
  assert (stored sampleTwo telemetryTwo CeilometerChild = Some (created telemetryTwo CeilometerChild)) as Ho
    by (vm_compute; reflexivity).
  eapply schedule_cons; [apply calm_reaches|]. eapply schedule_cons; [apply calm_reaches|].
  change (schedule sampleKey Storm sampleTwo [ChildPass CeilometerChild; Edit editedSpec; TelemetryPass] stormEnd).
  pose proof (sample_storm Hi Ho) as Hst. inversion Hst as [|w a w1 steps w' Hm Hnil]; subst.
  inversion Hnil; subst. eapply schedule_cons; [exact Hm|].
  eapply (schedule_cons _ _ _ _ stormEnd).
  - split; [done|]. exists telemetryTwo. split_and!; [exact Hi|vm_compute; reflexivity|by intros [] key'].
  - eapply schedule_cons; [|constructor]. by left.
Qed.

(** The Telemetry becomes Ready without the Autoscaling. *)
Lemma operator_recovers_witness : exists w6 i7,
  schedule sampleKey Calm (next (next stormEnd)) calmSteps w6 /\
  telemetry_at (next w6) sampleKey = Some i7 /\ tel_Spec i7 = editedSpec /\ Telemetry_IsReady i7 = true.
Proof.
  pose proof (operator_recovers CeilometerSystem.sampleEnv AutoscalingSystem.sampleEnv sampleKey sampleTelemetry
    emptyStore stormSteps stormEnd eq_refl eq_refl (ownCondsb_sound (conds sampleTelemetry) eq_refl)
    ltac:(intros [] o; discriminate) sample_tempest) as [_ H].
  specialize (H (ex_intro _ CeilometerChild eq_refl) ltac:(discriminate)).
  assert (forall k, stored stormEnd sampleTelemetry k = Some (created telemetryTwo k)) as Hst
    by (intros []; vm_compute; reflexivity).
  assert (forall k, enabled editedSpec k = true -> stored (next (next stormEnd)) telemetryTwo k = Some (recovered k))
    as Hrec by (intros []; vm_compute; congruence).
  assert (exists i, telemetry_at (next (next stormEnd)) sampleKey = Some i /\ tel_Meta i = tel_Meta telemetryTwo)
    as (i & Hi & Hm) by (eexists; split; vm_compute; reflexivity).
  pose proof recovered_deployable as Hdep.
  unfold next in *. generalize recovered Hrec Hdep. clear Hrec Hdep. intros rec Hrec Hdep. revert H Hrec Hi.
  destruct (interp ans (Reconcile sampleKey) stormEnd) as [[tr4 o4] w4]. cbn [snd].
  destruct (interp ans (Reconcile sampleKey) w4) as [[tr5 o5] w5]. cbn [snd]. intros H Hrec Hi.
  destruct H as (_ & _ & i5 & Hi5 & _ & _ & H).
  { intros k o He Ho. rewrite Hst in Ho. injection Ho as <-. destruct k; vm_compute; auto. }
  rewrite Hi in Hi5. injection Hi5 as <-. destruct H as [Hex Hall].
  { intros k o He Ho. rewrite (stored_same _ _ _ _ Hm), (Hrec k He) in Ho. injection Ho as <-. by apply Hdep. }
  destruct (Hex calmSteps) as [w6 Hsch]; [by repeat constructor|]. specialize (Hall calmSteps w6 Hsch).
  exists w6. destruct (interp ans (Reconcile sampleKey) w6) as [[tr7 o7] w7]. cbn [snd].
  destruct Hall as (_ & i7 & Hi7 & Hs7 & Hr & _); [intros [] He; [vm_compute; lia|discriminate He|vm_compute; lia]|].
  by exists i7.
Defined.
End OperatorRecovery.
