(* ===== verification/Deletion.v ===== *)
(** * Deletion

    An object that is being deleted stays until every finalizer is taken off.
    The controllers take off their own one: from any state of the object, at
    most two passes in which the calls of the deletion do not fail. *)

From stdpp Require Import gmap strings list.
From Stdlib Require Import ZArith Lia.
From S2P Require Import Prelude Condition Api Libs Reference Operator Telemetry MetricStorageController.
From S2P Require Import CeilometerController LoggingController AutoscalingController Passes.
From S2P Require Import CeilometerSystem AutoscalingSystem MetricStorageSystem LoggingSystem.

#[local] Open Scope go_scope.

Module Deletion.

(** ** What is to be reached *)
Section Release.
Context {T : Type} `{CR : CustomResource T}.
Context (onePass : T -> outcome RE -> T -> Prop) (fin : string).

(** Of the finalizers of [i], exactly [fin] is taken off. *)
Definition freed (i i' : T) : Prop :=
  forall g, g ∈ meta_Finalizers (crMeta i') <-> g ∈ meta_Finalizers (crMeta i) /\ g <> fin.

(** Passes are possible, end without a requeue or an error, and the first or
    the second frees the object. *)
Definition completes : Prop := forall i, notDeleting (crMeta i) = false ->
  (exists o1 i1, onePass i o1 i1) /\
  forall o1 i1, onePass i o1 i1 -> o1 = Val (emptyResult, None) /\
    (freed i i1 \/
     crConds i = None /\ crMeta i1 = crMeta i /\ (exists o2 i2, onePass i1 o2 i2) /\
     forall o2 i2, onePass i1 o2 i2 -> o2 = Val (emptyResult, None) /\ freed i i2).

(** One pass: without conditions it initialises them, else it frees. *)
Definition releases (i i' : T) : Prop :=
  match crConds i with
  | None => crMeta i' = crMeta i /\ crConds i' <> None
  | Some _ => freed i i'
  end.

Lemma releases_complete :
  (forall i, exists o i', onePass i o i') ->
  (forall i o i', notDeleting (crMeta i) = false -> onePass i o i' ->
     o = Val (emptyResult, None) /\ releases i i') -> completes.
Proof.
  intros Hex Hrel i Hd. split; [apply Hex|]. intros o1 i1 Hp1.
  destruct (Hrel i o1 i1 Hd Hp1) as [-> H1]. split; [done|]. unfold releases in H1.
  destruct (crConds i) as [cs|] eqn:Hc; [by left|right]. destruct H1 as [Hm Hc1].
  split_and!; [done|done|apply Hex|]. intros o2 i2 Hp2.
  destruct (Hrel i1 o2 i2) as [-> H2]; [by rewrite Hm|done|]. split; [done|]. unfold releases in H2.
  destruct (crConds i1); [|done]. intros g. by rewrite (H2 g), Hm.
Qed.
End Release.

(** The same for the state at the end of the body; the deferred function sets
    the conditions. *)
Definition bodyReleases {T} `{CR : CustomResource T} (fin : string) (i s : T) (o : outcome RE) : Prop :=
  o = Val (emptyResult, None) /\
  match crConds i with
  | None => crMeta s = crMeta i
  | Some _ => freed fin i s
  end.

Lemma bodyReleases_finish {T} `{CR : CustomResource T} `{LL : ConditionLaws} fin (i s : T) o :
  bodyReleases fin i s o -> o = Val (emptyResult, None) /\ releases fin i (finish s).
Proof.
  intros [-> H]. split; [done|]. unfold releases. destruct (crConds i).
  - intros g. rewrite finish_meta. apply H.
  - rewrite finish_meta, finish_conds. split; [done|apply updateReady_nonnil].
Qed.

(** One pass of a controller whose calls keep the contract. *)
Definition onePass `{K : Controller E T} (ok : contract E) (i : T) (o : outcome RE) (i' : T) : Prop :=
  exists tr, pass ok i tr o i'.

Lemma body_completes `{K : Controller E T} `{LL : !ConditionLaws L} (ok : contract E) fin :
  answerable ok -> stores ok ->
  (forall i, notDeleting (crMeta i) = false ->
     wpM ok (ctl_body i) i (fun _ s o => bodyReleases fin i s o)) ->
  completes (onePass ok) fin.
Proof.
  intros Ha Hst Hb. apply releases_complete.
  - intros i. destruct (pass_exists ok i Ha Hst) as (tr & o & i' & Hp). by exists o, i', tr.
  - intros i o i' Hd [tr Hp]. destruct (pass_body ok i tr o i' _ Hp (Hb i Hd)) as (req & tr' & s & o' & H & -> & -> & _).
    by apply bodyReleases_finish.
Qed.

(** Taking off the finalizer, at the end. *)
Lemma removeFinalizer_releases {E T} `{CR : CustomResource T} `{F : FinalizerLib} `{FL : !FinalizerLaws F}
    ok fin (i s : T) : crMeta s = crMeta i -> crConds i <> None ->
  wpM ok (removeFinalizer fin ;;; ret (emptyResult, None) : M E T RE) s (fun _ s o => bodyReleases fin i s o).
Proof.
  intros Hm Hc. wpm_step. apply removeFinalizer_wp. intros fs b Hfs. wpm_step. split; [done|].
  destruct (crConds i); [|done]. intros g. rewrite crMeta_setMeta. simpl. by rewrite (Hfs g), Hm.
Qed.

(** Found, or not found. *)
Definition lookupAnswer {A} (x : A + GoError) : Prop := match x with inl _ => True | inr e => err_notFound e = true end.
Definition updateAnswer (x : option GoError) : Prop := x = None \/ IsNotFound x = true.

(** Some answer to a call that is not made. *)
Ltac some_answer :=
  first [ exact None | exact (inr (Errorf "")) | exact "" | exact [] | exact 0%Z | exact emptyResult
        | exact false | apply pair; some_answer ].

(** ** The five kinds *)
Section Kinds.
Context `{L : ConditionLib} `{LL : !ConditionLaws L} `{F : FinalizerLib} `{FL : !FinalizerLaws F}.
Context `{C : CommonLib} `{CL : !CommonLaws C} `{V : ServiceLib} `{VL : !ServiceLaws V}.

#[local] Instance Telemetry_controller : Controller Telemetry.CallE Api.Telemetry.
Proof.
  refine {| ctl_get := Telemetry.GetTelemetry; ctl_helper := Telemetry.NewHelper;
            ctl_patch := Telemetry.PatchInstance; ctl_propagate := true; ctl_body := Telemetry.reconcileBody;
            ctl_Reconcile := Telemetry.Reconcile; ctl_fetched := fun ev => Telemetry.fetched [ev];
            ctl_patched := Telemetry.patchOf |}; done.
Defined.

(** Nothing else is called. *)
Definition telemetryEnv : contract Telemetry.CallE := fun X e =>
  match e in Telemetry.CallE X return X -> Prop with
  | Telemetry.NewHelper _ | Telemetry.PatchInstance _ => fun x => x = None
  | _ => fun _ => True
  end.

Lemma telemetry_completes : completes (onePass telemetryEnv) Telemetry.finalizer.
Proof.
  apply body_completes.
  - intros X []; simpl; try (by exists None); unshelve eexists; try done; some_answer.
  - by split_and!.
  - intros i Hd. change (notDeleting (tel_Meta i) = false) in Hd. cbn [ctl_body Telemetry_controller].
    unfold Telemetry.reconcileBody, Telemetry.reconcileInit. wpm_step. wpm_step. rewrite Hd.
    do 4 wpm_step. destruct (telt_Conditions (tel_Status i)) as [cs|] eqn:Hcs.
    + do 4 wpm_step. change (returnOn (emptyResult, None) ?k) with k. do 2 wpm_step. simpl. rewrite Hd.
      apply (removeFinalizer_releases _ _ i); [done|]. simpl. by rewrite Hcs.
    + unfold modifyConds. wpm. split; [done|]. simpl. by rewrite Hcs.
Qed.

Definition loggingEnv : contract LoggingController.CallE := fun X e =>
  match e in LoggingController.CallE X return X -> Prop with
  | LoggingController.NewHelper _ | LoggingController.PatchInstance _ => fun x => x = None
  | _ => fun _ => True
  end.

Lemma logging_completes : completes (onePass loggingEnv) LoggingController.finalizer.
Proof.
  apply body_completes.
  - intros X []; simpl; try (by exists None); unshelve eexists; try done; some_answer.
  - by split_and!.
  - intros i Hd. change (notDeleting (log_Meta i) = false) in Hd. cbn [ctl_body LoggingSystem.Logging_controller].
    unfold LoggingController.reconcileBody. wpm_step. wpm_step. rewrite Hd. do 4 wpm_step.
    destruct (logt_Conditions (log_Status i)) as [cs|] eqn:Hcs.
    + unfold LoggingController.ensureHash, LoggingController.setHash. do 2 wpm_step. simpl. rewrite Hd.
      apply (removeFinalizer_releases _ _ i); [done|]. simpl. by rewrite Hcs.
    + unfold modifyConds. wpm. split; [done|]. simpl. by rewrite Hcs.
Qed.

(** The Keystone service is there or not, and can be updated unless it has
    vanished. *)
Definition ceilometerEnv : contract CeilometerController.CallE := fun X e =>
  match e in CeilometerController.CallE X return X -> Prop with
  | CeilometerController.NewHelper _ | CeilometerController.PatchInstance _ => fun x => x = None
  | CeilometerController.GetKeystoneService _ _ => lookupAnswer
  | CeilometerController.UpdateKeystoneService _ => updateAnswer
  | _ => fun _ => True
  end.

Lemma ceilometer_completes : completes (onePass ceilometerEnv) CeilometerController.finalizer.
Proof.
  apply body_completes.
  - intros X []; simpl; try (by exists None); try (by exists (inr (MkError true "")));
      try (by exists None; left); unshelve eexists; try done; some_answer.
  - by split_and!.
  - intros i Hd. change (notDeleting (cei_Meta i) = false) in Hd. cbn [ctl_body CeilometerSystem.Ceilometer_controller].
    unfold CeilometerController.reconcileBody. wpm_step. wpm_step. rewrite Hd. do 4 wpm_step.
    destruct (ceit_Conditions (cei_Status i)) as [cs|] eqn:Hcs.
    2:{ unfold modifyConds. wpm. split; [done|]. simpl. by rewrite Hcs. }
    unfold CeilometerController.ensureHash, CeilometerController.setStatus. do 2 wpm_step. simpl. rewrite Hd. cbn [negb].
    unfold CeilometerController.reconcileDelete. do 3 wpm_step.
    match goal with |- wpM _ _ ?s _ => assert (wpM ceilometerEnv
      (removeFinalizer CeilometerController.finalizer ;;; ret (emptyResult, None)) s
      (fun _ s' o => bodyReleases CeilometerController.finalizer i s' o)) as Hrem end.
    { apply removeFinalizer_releases; [done|]. simpl. by rewrite Hcs. }
    apply wpM_call. intros [m|e] Hx; [|simpl in Hx; by rewrite Hx].
    destruct (RemoveFinalizer _ _) as [fs []]; [|exact Hrem]. wpm_step. apply wpM_call.
    intros err [->|Hnf]; [exact Hrem|]. destruct err as [e|]; [|done]. simpl in Hnf. by rewrite Hnf.
Qed.

(** So for the database, the Keystone service and the Keystone endpoint. *)
Definition autoscalingEnv : contract AutoscalingController.CallE := fun X e =>
  match e in AutoscalingController.CallE X return X -> Prop with
  | AutoscalingController.NewHelper _ | AutoscalingController.PatchInstance _
  | AutoscalingController.DatabaseDeleteFinalizer _ => fun x => x = None
  | AutoscalingController.GetDatabaseByName _ => lookupAnswer
  | AutoscalingController.GetKeystoneService _ _ => lookupAnswer
  | AutoscalingController.UpdateKeystoneService _ => updateAnswer
  | AutoscalingController.GetKeystoneEndpoint _ _ => lookupAnswer
  | AutoscalingController.UpdateKeystoneEndpoint _ => updateAnswer
  | _ => fun _ => True
  end.

Lemma releaseFinalizer_env r update rest s (Q : Autoscaling -> outcome RE -> Prop) :
  lookupAnswer r -> (forall m x, autoscalingEnv _ (update m) x -> updateAnswer x) ->
  wpM autoscalingEnv rest s (fun _ => Q) ->
  wpM autoscalingEnv (AutoscalingController.releaseFinalizer r update rest) s (fun _ => Q).
Proof.
  intros Hr Hu Hrest. unfold AutoscalingController.releaseFinalizer. destruct r as [m|e]; [|simpl in Hr; by rewrite Hr].
  destruct (RemoveFinalizer _ _) as [fs []]; [|exact Hrest]. wpm_step. apply wpM_call. intros err Hx.
  destruct (Hu _ _ Hx) as [->|Hnf]; [exact Hrest|]. destruct err as [e|]; [|done]. simpl in Hnf. by rewrite Hnf.
Qed.

Lemma deleteAodh_env s (Q : Autoscaling -> outcome RE -> Prop) : Q s (Val (emptyResult, None)) ->
  wpM autoscalingEnv AutoscalingController.reconcileDeleteAodh s (fun _ => Q).
Proof.
  intros HQ. unfold AutoscalingController.reconcileDeleteAodh. wpm_step. wpm_step. cbv zeta.
  match goal with |- wpM _ (mbindM _ (fun r => match r with inl _ => _ | inr err => if err_notFound err then ?rest else _ end)) _ _ =>
    assert (wpM autoscalingEnv rest s (fun _ => Q)) as Hrest end.
  { wpm_step. apply wpM_call. intros r Hr. apply releaseFinalizer_env; [exact Hr|done|].
    wpm_step. apply wpM_call. intros r' Hr'. apply releaseFinalizer_env; [exact Hr'|done|]. by wpm_step. }
  wpm_step. apply wpM_call. intros [db|e] Hx; [|simpl in Hx; by rewrite Hx].
  wpm_step. apply wpM_call. intros err ->. exact Hrest.
Qed.

Lemma autoscaling_completes : completes (onePass autoscalingEnv) AutoscalingController.finalizer.
Proof.
  apply body_completes.
  - intros X []; simpl; try (by exists None); try (by exists (inr (MkError true "")));
      try (by exists None; left); unshelve eexists; try done; some_answer.
  - by split_and!.
  - intros i Hd. change (notDeleting (asc_Meta i) = false) in Hd. cbn [ctl_body AutoscalingSystem.Autoscaling_controller].
    unfold AutoscalingController.reconcileBody. wpm_step. wpm_step. rewrite Hd. do 4 wpm_step.
    destruct (asct_Conditions (asc_Status i)) as [cs|] eqn:Hcs.
    2:{ unfold modifyConds. wpm. split; [done|]. simpl. by rewrite Hcs. }
    unfold AutoscalingController.ensureHash, AutoscalingController.setHash, AutoscalingController.setStatus.
    do 4 wpm_step. simpl. rewrite Hd. cbn [negb]. unfold AutoscalingController.reconcileDelete. wpm_step.
    apply deleteAodh_env. change (returnOn (emptyResult, None) ?k) with k.
    apply removeFinalizer_releases; [done|]. simpl. by rewrite Hcs.
Qed.

Definition metricstorageEnv : contract MetricStorageController.CallE := fun X e =>
  match e in MetricStorageController.CallE X return X -> Prop with
  | MetricStorageController.NewHelper _ | MetricStorageController.PatchInstance _ => fun x => x = None
  | _ => fun _ => True
  end.

(** Whatever the reconciler watches. *)
Definition metricstoragePass (m : MetricStorage) (o : outcome RE) (m' : MetricStorage) : Prop :=
  exists w tr w', MetricStorageSystem.passUnder metricstorageEnv (MetricStorageController.MkState m w) tr o
    (MetricStorageController.MkState m' w').

Lemma metricstorage_body s : notDeleting (crMeta s) = false ->
  wpM metricstorageEnv MetricStorageController.reconcileBody s
    (fun _ s' o => bodyReleases MetricStorageController.finalizer s s' o).
Proof.
  intros Hd. unfold MetricStorageController.reconcileBody. wpm_step. wpm_step. rewrite Hd. do 4 wpm_step.
  destruct (crConds s) as [cs|] eqn:Hcs.
  - rewrite ?Hd. cbn [negb]. apply removeFinalizer_releases; [done|]. by rewrite Hcs.
  - unfold modifyConds. wpm. split; [done|]. by rewrite Hcs.
Qed.

Lemma metricstorage_completes : completes metricstoragePass MetricStorageController.finalizer.
Proof.
  apply releases_complete.
  - intros i. destruct (MetricStorageSystem.passUnder_exists metricstorageEnv (MetricStorageController.MkState i []))
      as (tr & o & [i' w'] & Hp); [|done..|by exists o, i', [], tr, w'].
    intros X []; simpl; try (by exists None); unshelve eexists; try done; some_answer.
  - intros i o i' Hd (w & tr & w' & Hp).
    destruct (MetricStorageSystem.passUnder_body _ _ _ _ _ Hp) as (tr' & s1 & Hb & Hok & Hs & _).
    pose proof (runs_wpM _ _ _ _ _ _ _ (metricstorage_body (MetricStorageController.MkState i w) Hd) Hb Hok) as H.
    apply bodyReleases_finish in H as [-> H]. rewrite <-Hs in H. split; [done|exact H].
Qed.

(** C13. Deletion completes: whatever state an object of one of the five kinds
    is in when it is marked for deletion, passes are possible in which the
    calls of the deletion do not fail (what is looked up is there or not found,
    an update succeeds or finds nothing), and in any such passes the first, or
    the second if the object had no conditions yet, takes exactly the
    operator's finalizer off; each ends without a requeue or an error.  So no
    object waits for its controller for ever, and no finalizer of somebody else
    is lost. *)
Theorem deletion_completes :
  completes (onePass telemetryEnv) Telemetry.finalizer /\
  completes (onePass ceilometerEnv) CeilometerController.finalizer /\
  completes (onePass autoscalingEnv) AutoscalingController.finalizer /\
  completes metricstoragePass MetricStorageController.finalizer /\
  completes (onePass loggingEnv) LoggingController.finalizer.
Proof.
  split_and!; [apply telemetry_completes|apply ceilometer_completes|apply autoscaling_completes|
    apply metricstorage_completes|apply logging_completes].
Qed.
End Kinds.

(** A Logging with conditions is freed by the first pass. *)
Lemma deletion_completes_witness :
  exists o i', onePass loggingEnv (LoggingController.Scenario.logging (Some 7%Z)) o i' /\
    GetFinalizer "Logging" ∉ meta_Finalizers (log_Meta i').
Proof.
  destruct deletion_completes as (_ & _ & _ & _ & H).
  destruct (H (LoggingController.Scenario.logging (Some 7%Z)) eq_refl) as [(o & i' & Hp) Hall].
  exists o, i'. split; [exact Hp|].
  destruct (Hall o i' Hp) as [_ [Hf|[Hc _]]]; [|discriminate Hc]. intros Hin. by apply Hf in Hin as [_ ?].
Defined.
End Deletion.
